(* ===== verification/_CoqProject ===== *)
-Q . S2P
Prelude.v
Machine.v
Uart.v
Board.v
Spi.v
Crc.v
Sd.v
Gpt.v
Boot.v
Card.v
Sim.v
FpgaTheorems.v
PitonUart.v
PitonSd.v
PitonGpt.v
PitonBoot.v
Encoding.v
DebugRom.v
Elf.v
RemoteBitbang.v
SimJtag.v
SimDtm.v
TestBench.v
TbTop.v
Syscalls.v
Smp.v
Rom64.v
Rom32.v
Riscv.v
Startup.v
Rom.v
RomUart.v
RomSpi.v
RomSd.v
RomCopy.v
RomGpt.v
RomBoot.v
RomTheorems.v
DeviceTree.v
RomImages.v
