(* ===== verification/Prelude.v ===== *)
(** * The boot firmware and the debug tools of the SoC

    This library models the C and C++ code of the repository that runs on or beside the processor, as
    executable definitions, and proves what makes it correct. Paths are relative to [src/corev_apu].

    ** The program

    - The zero-stage boot loader of the FPGA board, [fpga/src/bootrom]: hart 0 configures the serial
      console, initialises an SD card behind an SPI controller, reads the partition table, copies the
      first partition to 0x80000000 and jumps to it; the other harts wait in a barrier.
    - The boot loader of the OpenPiton platform, [openpiton/bootrom/linux]: the same with a disk that
      is a window of memory, and another barrier.
    - The ROM images of the first loader, [bootrom_64.h] and [bootrom_32.h]: the machine code of its
      start code and C files, their constants, and a device tree.
    - The debug ROM, [riscv-dbg/debug_rom], which a halted hart executes to serve the debug module, and
      the header of instruction encodings it is assembled with.
    - The bit-bang servers that drive the JTAG pins of a simulation for a remote debugger, one in C
      ([riscv-dbg/tb/remote_bitbang]) and one in C++ ([tb/dpi]); the ELF loader and the debug
      transport of the simulation test bench ([tb/dpi]) and its main program ([tb/ariane_tb.cpp]),
      which loads a program and clocks a model of the hardware; the smaller test bench of the debug
      system ([riscv-dbg/tb/tb_top_verilator.cpp]); and the system calls of the programs run under
      the debugger ([riscv-dbg/tb/prog/syscalls.c]).

    ** The files

    Foundations.
    - [Prelude] (this file): machine integers as [Z] with the conversions of C written out, strings as
      lists of bytes, little-endian bytes, memory as a map from addresses to bytes, the result type of
      the programs of the host, and the hint databases [bytes], [keeps] and [stable].
    - [Machine]: the monad of bare-metal statements. A statement takes the fuel of its unbounded loops
      and a world (device state, memory, trace of bus accesses), and ends with a value, out of fuel or
      in a fault. Four logics: [wp], total correctness (with enough fuel the statement ends, and the
      end satisfies the postcondition); [awp], the same on an abstract state; [safe] and [keeps], what
      holds of every run whatever the fuel, also of runs that do not end; and [ends], for loops that
      may never end: a run that did is evidence that the device let it ([stable]: more fuel would
      have changed nothing).

    The FPGA boot loader; state and operations have the names of the source.
    - [Uart] ([uart.c], [uart.h]), with the register file of the 16550 and the classes [UartMap],
      [UartHost] and [MemHost] by which its theorems serve both platforms; [Board]: the register maps,
      and the laws of the devices, [SpiController] and [Console], with the class [Closed] that carries
      an invariant through all drivers; [Spi] ([spi.c]); [Crc] and [Sd] ([sd.c], [sd.h]); [Gpt]
      ([gpt.c], [gpt.h]); [Boot] ([main.c]); [Card]: the contract of an SD card, [SdCard]; [Sim]: a
      board and a card that keep the contracts; [FpgaTheorems]: the properties.

    The OpenPiton boot loader: [PitonUart], [PitonSd], [PitonGpt], [PitonBoot], one per C file. The
    functions whose text is that of the FPGA driver are modelled once. [Smp]: both barriers
    ([smp.h]) as step relations on the program counters of all harts and the words they share.

    The ROM images. [Rom64], [Rom32]: the words of the headers. [Riscv]: the instructions the 64-bit
    image uses, decoded with the tables of [Encoding], and a hart that executes them on the worlds of
    [Machine]. [Startup]: the model of [startup.S] and [smp.h] for one hart, which calls [Boot.main].
    [Rom]: the relation of a hart to a statement of the model ([follows]): the hart gets from here to
    a state with the same device, the same trace of accesses and the memory the statement leaves,
    the private part of the stack apart; its rules for sequence, loops, calls and accesses, and the
    tactics that run instructions. [RomUart], [RomSpi], [RomSd], [RomCopy], [RomGpt] and [RomBoot]
    have one lemma per C function ([<function>_code]), [RomBoot] also the start code; [RomTheorems]:
    the properties. [DeviceTree]: the sources of the device trees, their flattened form and a reader;
    [RomImages]: the properties of the images as data.

    The debugger's side: [Encoding] ([encoding.h]: macros, tables and the decoder they define),
    [DebugRom] ([debug_rom.h], [debug_rom_one_scratch.h], [debug_rom.S]: images, source, assembler
    and a hart), [Elf] ([elfloader.cc]), [RemoteBitbang] ([remote_bitbang.c], [sim_jtag.c],
    [rbs_test.c]), [SimJtag] ([remote_bitbang.cc], [SimJTAG.cc]), [SimDtm] ([SimDTM.cc],
    [msim_helper.cc]), [TestBench] ([ariane_tb.cpp], with the loader of [Elf]), [TbTop]
    ([tb_top_verilator.cpp]), [Syscalls] ([syscalls.c]).

    ** What the theorems show

    - The FPGA boot loader refines its specification: with a powered card that holds a valid table it
      ends in the jump with the partition in memory ([boot_loader_boots]). The behaviours of a card
      whose polls end are the relation [booting]; for each of them the outcome, the result codes and
      the frame of memory are determined, and a run that returns is one of them: on any other card
      the loader polls for ever ([boot_loader_outcome], [gpt_find_boot_partition_result],
      [init_sd_result]). On every device
      and for every fuel it writes only to its buffers and the image ([boot_loader_writes],
      [sd_copy_writes]) and hands a byte to the transmitter only after seeing it empty
      ([boot_loader_guards_transmitter]). Copies are exact, and a block with two neighbouring bytes
      changed is detected wherever it comes ([sd_copy_copies], [sd_copy_detects]), since the byte-wise
      checksum is the CCITT remainder ([crc16_is_ccitt]). What is printed of the table is the table
      ([gpt_report]). A burst exchanges its bytes in order ([spi_write_bytes_exchange]).
    - The 64-bit ROM image refines the C sources, for every device, every hart and every fuel
      ([boot_rom_refines]), so that the theorems about the model hold of the machine code: executing
      the image from reset loads the partition and enters it ([boot_rom_boots]). Hart 0 enters it
      without waking the other harts, which wait in the ROM ([boot_rom_parks]). The 64-bit image holds
      the device tree of its source, the 32-bit image an older one ([rom_device_trees]).
    - The OpenPiton boot loader loads the first partition of a disk whose table and first partition
      lie in its window ([piton_boot_loader_loads], [piton_sd_copy_copies]) and prints decimal numbers that read back
      ([print_uart_dec_reads_back]). Both barriers: no hart leaves early, and none is stuck
      ([piton_barrier], [clint_barrier]).
    - The patterns of the four-byte instructions exclude each other, so decoding does not depend on
      the order of the table ([insn_decode_unique]); registers, causes and the fields of registers
      have numbers and places that fit ([csr_numbers], [status_fields]); the images of the debug ROM are the
      assembly source ([debug_rom_assembled]), and executing them serves the first request of the
      debug module with the hart's registers preserved ([debug_rom_serves], [debug_rom_exception]).
    - The ELF loader hands every loadable segment over, in order, and refuses truncated files
      ([read_elf_loads], [elf_handover], [elf_truncated_refused]); it does not find a string table of
      the usual type, and does not load symbols ([elf_strtab_missed]). The test bench drives the pins
      of the model in a fixed pattern and returns the first code reported that is not 0, or never
      ([test_bench_result]); an unknown plus argument, or the last known one, takes it out of an array
      ([unknown_plus_argument]). The smaller bench resets its model, dumps its
      memory and runs until the design finishes ([tb_top_session]).
    - The bit-bang servers carry out the commands of the protocol but for the resets, which drive no
      pin ([bitbang_session]), and do the same as long as no
      connection is closed ([bitbang_twins]); then the C++ server never returns
      ([bitbang_end_of_stream]). The debug transport gets the cleaned command line
      ([sanitize_args_cleans], [debug_tick_session]). The console and the program break of the test
      programs: [write_sends], [sbrk_moves].

    ** Bounds and fuel

    Fuel bounds the turns of the loops whose exit depends on a device ([iter], [wait_while]); every
    total theorem gives an amount beyond which the result is the same, so that none depends on a
    choice. Loops over a range of indices are structural. A macro of the header is expanded to depth
    5, and [status_fields] shows that every macro has a value. The loop that shifts an
    argument ([shift_loop]) recurses on the bytes left in the array: beyond them it would access
    memory outside of it. A hart executes any number of instructions: [reach] needs no fuel, and the
    fuel in [boot_rom_refines] is that of the model. Integers of C are [Z] with a conversion after
    each operation that can leave their range.

    ** What is not modelled, and why

    - The hardware ([core], SystemVerilog and VHDL): the devices, the debug module and the operating
      system are parameters with laws, and each theorem about them has an instance. Of the SPI
      controller it is assumed that bytes queued before its transactions are inhibited are still
      shifted: the driver inhibits them while it waits for the answers.
    - Messages of the host programs on [stderr]; the inline assembly macros of [encoding.h]; the
      function [handle_trap] of the boot loaders, which is empty.
    - [openpiton/bootrom/linux/src/spi.c]: the text of the FPGA driver, linked and not called.
    - The wave traces of [tb/ariane_tb.cpp] (the code under [VM_TRACE]) and its report of the time it
      used. [riscv-dbg/tb/prog/test.c] only prints a greeting.
    - The code of [bootrom_32.h] is not executed: its variables of 64 bits lie in pairs of registers,
      and none of the lemmas on the 64-bit code applies to it.
    - In the model of the hart: exceptions, the effect of [wfi], interrupts that become pending while
      it runs, and what memory holds before it is written (a load from it stops the model; that it
      does not happen is part of [boot_rom_boots]). The compiled loader keeps its arrays on the stack
      below 0x84000000, hence the bound on the image in [boot_rom_boots] and [boot_rom_refines].
    - [bootrom/bootrom.h], six instructions that jump to memory. The device tree compiler, beyond the
      values of the properties. *)

From stdpp Require Export base numbers list gmap strings list_numbers.
From Stdlib Require Export ZArith Lia Ascii.
From Stdlib Require Zbitwise.

Open Scope Z_scope.

(** * Machine integers *)

(** Unsigned C integers of a given width are [Z]; every C operation that can leave the range is
    followed by one of these conversions. *)
Definition u8 (z : Z) : Z := z mod 2 ^ 8.
Definition u16 (z : Z) : Z := z mod 2 ^ 16.
Definition u32 (z : Z) : Z := z mod 2 ^ 32.
Definition u64 (z : Z) : Z := z mod 2 ^ 64.

(** Conversion to [int]: two's complement, as the compilers the code is written for do it. *)
Definition s32 (z : Z) : Z := (z + 2 ^ 31) mod 2 ^ 32 - 2 ^ 31.

Definition is_byte (z : Z) : Prop := 0 <= z < 256.

(** C strings: the bytes of a literal, without its terminating NUL. *)
Definition code (c : ascii) : Z := Z.of_nat (nat_of_ascii c).

Fixpoint str (s : string) : list Z :=
  match s with
  | EmptyString => []
  | String c s' => code c :: str s'
  end.

(** The escapes the firmware's literals use. *)
Definition crlf : string := String "013" (String "010" EmptyString).
Definition tab : string := String "009" EmptyString.
Definition backspace : string := String "008" EmptyString.

(** * Little-endian numbers *)

Fixpoint le_bytes (n : nat) (v : Z) : list Z :=
  match n with
  | O => []
  | S n => v mod 256 :: le_bytes n (v / 256)
  end.

Fixpoint le_val (bs : list Z) : Z :=
  match bs with
  | [] => 0
  | b :: bs => b + 256 * le_val bs
  end.

(** * Byte-addressed memory *)

(** A store of consecutive bytes from address [a] upwards. *)
Fixpoint write_bytes (a : Z) (bs : list Z) (m : gmap Z Z) : gmap Z Z :=
  match bs with
  | [] => m
  | b :: bs => write_bytes (a + 1) bs (<[a := b]> m)
  end.

(** The [n] bytes from address [a], when all of them have been written. *)
Fixpoint read_bytes (m : gmap Z Z) (a : Z) (n : nat) : option (list Z) :=
  match n with
  | O => Some []
  | S n => b ← m !! a; bs ← read_bytes m (a + 1) n; Some (b :: bs)
  end.

(** [a] lies in the [n] bytes from [base]. *)
Definition in_range (base n a : Z) : Prop := base <= a < base + n.

#[export] Instance in_range_dec base n a : Decision (in_range base n a).
Proof. unfold in_range. apply _. Defined.

(** [lia] on goals with quotients and remainders by constants. *)
Ltac divlia := Z.to_euclidean_division_equations; lia.

(** * Lemmas on integers *)

Lemma u8_byte z : is_byte (u8 z).
Proof. apply Z.mod_pos_bound. lia. Qed.

Lemma u8_small z : is_byte z -> u8 z = z.
Proof. intros. apply Z.mod_small. unfold is_byte in *. lia. Qed.

Lemma u16_small z : 0 <= z < 2 ^ 16 -> u16 z = z.
Proof. apply Z.mod_small. Qed.

Lemma u32_small z : 0 <= z < 2 ^ 32 -> u32 z = z.
Proof. apply Z.mod_small. Qed.

Lemma u64_small z : 0 <= z < 2 ^ 64 -> u64 z = z.
Proof. apply Z.mod_small. Qed.

Lemma s32_range z : - 2 ^ 31 <= s32 z < 2 ^ 31.
Proof. unfold s32. pose proof (Z.mod_pos_bound (z + 2 ^ 31) (2 ^ 32)). lia. Qed.

Lemma u32_s32 z : u32 (s32 z) = u32 z.
Proof.
  unfold u32, s32. rewrite Zminus_mod, Zmod_mod, <- Zminus_mod. f_equal. lia.
Qed.

Lemma s32_small z : - 2 ^ 31 <= z < 2 ^ 31 -> s32 z = z.
Proof. intros. unfold s32. rewrite Z.mod_small; lia. Qed.

Lemma s32_odd z : Z.odd (s32 z) = Z.odd z.
Proof.
  rewrite <- !Z.bit0_odd. rewrite <- (Z.mod_pow2_bits_low (s32 z) 32 0), <- (Z.mod_pow2_bits_low z 32 0) by lia.
  f_equal. apply u32_s32.
Qed.

Lemma land_ff z : Z.land z 0xff = u8 z.
Proof. change 0xff with (Z.ones 8). now rewrite Z.land_ones by lia. Qed.

Lemma land_f z : Z.land z 0xf = z mod 16.
Proof. change 0xf with (Z.ones 4). now rewrite Z.land_ones by lia. Qed.

Lemma land_1 z : Z.land z 1 = Z.b2z (Z.testbit z 0).
Proof.
  change 1 with (Z.ones 1) at 1. rewrite Z.land_ones by lia.
  rewrite <- Z.bit0_mod. reflexivity.
Qed.

Lemma land_bit z k : 0 <= k -> Z.land z (2 ^ k) = if Z.testbit z k then 2 ^ k else 0.
Proof.
  intros Hk. apply Z.bits_inj'. intros n Hn. rewrite Z.land_spec.
  destruct (decide (n = k)) as [->|Hne].
  - rewrite Z.pow2_bits_true by lia. rewrite andb_true_r.
    destruct (Z.testbit z k); [now rewrite Z.pow2_bits_true by lia | now rewrite Z.testbit_0_l].
  - rewrite Z.pow2_bits_false by lia. rewrite andb_false_r.
    destruct (Z.testbit z k); [now rewrite Z.pow2_bits_false by lia | now rewrite Z.testbit_0_l].
Qed.

Lemma shiftr_div z k : 0 <= k -> Z.shiftr z k = z / 2 ^ k.
Proof. apply Z.shiftr_div_pow2. Qed.

(** Joining disjoint bits is an addition. *)
Lemma lor_low k hi lo : 0 <= k -> 0 <= lo < 2 ^ k -> Z.lor (hi * 2 ^ k) lo = hi * 2 ^ k + lo.
Proof.
  intros Hk Hlo. assert (E : Z.land (hi * 2 ^ k) lo = 0).
  { apply Z.bits_inj'. intros n Hn. rewrite Z.land_spec, Z.testbit_0_l.
    rewrite <- Z.shiftl_mul_pow2, Z.shiftl_spec by done. destruct (Z.lt_ge_cases n k).
    - by rewrite Z.testbit_neg_r by lia.
    - rewrite <- (Z.mod_small lo (2 ^ k)) by done. by rewrite Z.mod_pow2_bits_high, andb_false_r by lia. }
  pose proof (Z.add_lor_land (hi * 2 ^ k) lo). lia.
Qed.

Lemma code_byte c : is_byte (code c).
Proof. unfold code, is_byte. pose proof (nat_ascii_bounded c). lia. Qed.

(** * Lemmas on strings *)

Lemma str_app s t : str (s +:+ t) = str s ++ str t.
Proof. induction s as [|c s IH]; [done|]. change (code c :: str (s +:+ t) = code c :: (str s ++ str t)). by rewrite IH. Qed.

Lemma str_bytes s : Forall is_byte (str s).
Proof. induction s; constructor; auto using code_byte. Qed.

Lemma str_length s : length (str s) = String.length s.
Proof. induction s; cbn; auto. Qed.

(** * Lemmas on little-endian numbers *)

Lemma le_bytes_length n v : length (le_bytes n v) = n.
Proof. revert v. induction n; cbn; auto. Qed.

Lemma le_bytes_byte n v : Forall is_byte (le_bytes n v).
Proof.
  revert v. induction n; cbn; constructor; auto.
  apply Z.mod_pos_bound. lia.
Qed.

Lemma le_val_bytes n v : le_val (le_bytes n v) = v mod 256 ^ Z.of_nat n.
Proof.
  revert v. induction n as [|n IH]; intros v; cbn [le_bytes le_val].
  - now rewrite Z.mod_1_r.
  - rewrite IH. rewrite Nat2Z.inj_succ, Z.pow_succ_r by lia.
    rewrite Z.rem_mul_r by lia. lia.
Qed.

Lemma le_bytes_val bs : Forall is_byte bs -> le_bytes (length bs) (le_val bs) = bs.
Proof.
  induction 1 as [|b bs Hb _ IH]; [done|]. cbn [length le_bytes le_val].
  unfold is_byte in Hb.
  replace (b + 256 * le_val bs) with (b + le_val bs * 256) by lia.
  rewrite Z.mod_add, Z.div_add by lia.
  rewrite Z.mod_small, Z.div_small by lia. now rewrite Z.add_0_l, IH.
Qed.

Lemma le_val_bound bs : Forall is_byte bs -> 0 <= le_val bs < 256 ^ Z.of_nat (length bs).
Proof.
  induction 1 as [|b bs Hb _ IH]; [cbn; lia|]. cbn [length le_val].
  rewrite Nat2Z.inj_succ, Z.pow_succ_r by lia. unfold is_byte in Hb. lia.
Qed.

(** * Lemmas on memory *)

Lemma write_bytes_app a bs1 bs2 m :
  write_bytes a (bs1 ++ bs2) m = write_bytes (a + Z.of_nat (length bs1)) bs2 (write_bytes a bs1 m).
Proof.
  revert a m. induction bs1 as [|b bs1 IH]; intros a m; cbn [app write_bytes length].
  - now rewrite Z.add_0_r.
  - rewrite IH. f_equal. lia.
Qed.

Lemma write_bytes_snoc a bs b m :
  write_bytes a (bs ++ [b]) m = <[a + Z.of_nat (length bs) := b]> (write_bytes a bs m).
Proof. now rewrite write_bytes_app. Qed.

Lemma write_bytes_out a bs m k :
  ¬ in_range a (Z.of_nat (length bs)) k -> write_bytes a bs m !! k = m !! k.
Proof.
  revert a m. induction bs as [|b bs IH]; intros a m Hk; [done|].
  unfold in_range in *. cbn [write_bytes length] in *. rewrite IH by lia.
  apply lookup_insert_ne. lia.
Qed.

Lemma write_bytes_in a bs m i b :
  bs !! i = Some b -> write_bytes a bs m !! (a + Z.of_nat i) = Some b.
Proof.
  revert a m i. induction bs as [|b' bs IH]; intros a m i Hi; [done|].
  destruct i as [|i]; cbn [write_bytes].
  - rewrite write_bytes_out by (unfold in_range; lia).
    rewrite Z.add_0_r, lookup_insert_eq. cbn in Hi. done.
  - replace (a + Z.of_nat (S i)) with ((a + 1) + Z.of_nat i) by lia. by apply IH.
Qed.

Lemma read_bytes_length m a n bs : read_bytes m a n = Some bs -> length bs = n.
Proof.
  revert a bs. induction n as [|n IH]; intros a bs; cbn; [by intros [= <-]|].
  destruct (m !! a); cbn; [|done]. destruct (read_bytes m (a + 1) n) eqn:E; cbn; [|done].
  intros [= <-]. cbn. f_equal. eauto.
Qed.

Lemma read_bytes_ext m m' a n :
  (forall k, in_range a (Z.of_nat n) k -> m !! k = m' !! k) -> read_bytes m a n = read_bytes m' a n.
Proof.
  revert a. induction n as [|n IH]; intros a H; [done|]. cbn.
  rewrite (H a) by (unfold in_range; lia). rewrite (IH (a + 1)); [done|].
  intros k Hk. apply H. unfold in_range in *. lia.
Qed.

Lemma read_write_same a bs m : read_bytes (write_bytes a bs m) a (length bs) = Some bs.
Proof.
  revert a m. induction bs as [|b bs IH]; intros a m; [done|]. cbn [write_bytes length read_bytes].
  rewrite write_bytes_out by (unfold in_range; lia). rewrite lookup_insert_eq. cbn.
  by rewrite IH.
Qed.

Lemma read_write_len a bs m n : length bs = n -> read_bytes (write_bytes a bs m) a n = Some bs.
Proof. intros <-. apply read_write_same. Qed.

Lemma read_write_other a bs m k n :
  (forall i, in_range k (Z.of_nat n) i -> ¬ in_range a (Z.of_nat (length bs)) i) ->
  read_bytes (write_bytes a bs m) k n = read_bytes m k n.
Proof. intros H. apply read_bytes_ext. intros i Hi. by apply write_bytes_out, H. Qed.

Lemma read_bytes_lookup m a n bs i b :
  read_bytes m a n = Some bs -> bs !! i = Some b -> m !! (a + Z.of_nat i) = Some b.
Proof.
  revert a bs i. induction n as [|n IH]; intros a bs i; cbn; [by intros [= <-]|].
  destruct (m !! a) eqn:Ea; cbn; [|done]. destruct (read_bytes m (a + 1) n) eqn:E; cbn; [|done].
  intros [= <-]. destruct i as [|i]; cbn.
  - intros [= <-]. by rewrite Z.add_0_r.
  - intros Hi. replace (a + Z.of_nat (S i)) with ((a + 1) + Z.of_nat i) by lia. eauto.
Qed.

Lemma read_bytes_app m a n1 n2 :
  read_bytes m a (n1 + n2) =
    (l1 ← read_bytes m a n1; l2 ← read_bytes m (a + Z.of_nat n1) n2; Some (l1 ++ l2)).
Proof.
  revert a. induction n1 as [|n1 IH]; intros a; cbn -[Z.of_nat].
  - rewrite Z.add_0_r. by destruct (read_bytes m a n2).
  - rewrite IH. replace (a + Z.of_nat (S n1)) with (a + 1 + Z.of_nat n1) by lia.
    destruct (m !! a); cbn; [|done]. destruct (read_bytes m (a + 1) n1); cbn; [|done].
    by destruct (read_bytes m (a + 1 + Z.of_nat n1) n2).
Qed.

Lemma read_bytes_sub m a n bs off k :
  read_bytes m a n = Some bs -> (off + k <= n)%nat ->
  read_bytes m (a + Z.of_nat off) k = Some (take k (drop off bs)).
Proof.
  intros Hr Hk. pose proof (read_bytes_length _ _ _ _ Hr) as Hl.
  replace n with (off + (k + (n - off - k)))%nat in Hr by lia. rewrite !read_bytes_app in Hr.
  destruct (read_bytes m a off) as [l1|] eqn:E1; [|done]. cbn in Hr.
  destruct (read_bytes m (a + Z.of_nat off) k) as [l2|] eqn:E2; [|done]. cbn in Hr.
  destruct (read_bytes m (a + Z.of_nat off + Z.of_nat k) (n - off - k)) as [l3|]; [|done].
  injection Hr as <-. pose proof (read_bytes_length _ _ _ _ E1) as <-.
  pose proof (read_bytes_length _ _ _ _ E2) as <-. by rewrite drop_app_length, take_app_length.
Qed.

(** * Lemmas on index ranges *)

Lemma seqZ_split n pre i post :
  seqZ 0 n = pre ++ i :: post -> i = Z.of_nat (length pre) /\ 0 <= i < n.
Proof.
  intros E. assert (H : seqZ 0 n !! length pre = Some i) by (rewrite E; by apply list_lookup_middle).
  apply lookup_seqZ in H. lia.
Qed.

Lemma read_bytes_at m a n bs i :
  read_bytes m a n = Some bs -> 0 <= i < Z.of_nat n ->
  exists b, bs !! Z.to_nat i = Some b /\ m !! (a + i) = Some b.
Proof.
  intros Hr Hi. pose proof (read_bytes_length _ _ _ _ Hr) as Hl.
  destruct (lookup_lt_is_Some_2 bs (Z.to_nat i)) as [b Hb]; [lia|].
  exists b. split; [done|]. pose proof (read_bytes_lookup _ _ _ _ _ _ Hr Hb) as H.
  by rewrite Z2Nat.id in H by lia.
Qed.

(** * Automation *)

(** The databases of the development: [bytes] closes the side conditions that a value is a byte,
    [keeps] proves that a driver call preserves an invariant of the trace. *)
Create HintDb bytes.
Create HintDb keeps.
Create HintDb stable.

#[export] Hint Resolve u8_byte code_byte str_bytes le_bytes_byte : bytes.
#[export] Hint Extern 1 (is_byte ?z) => (unfold is_byte; lia) : bytes.

(** * Results of host programs *)

(** [Abort]: a failed assertion, [abort ()] or an allocation that throws; [Crash]: an access outside
    of an object. *)
Inductive res (A : Type) := Ret (a : A) | Abort | Crash.
Arguments Ret {A} _.
Arguments Abort {A}.
Arguments Crash {A}.

#[export] Instance res_ret : MRet res := fun A a => Ret a.
#[export] Instance res_bind : MBind res := fun A B k m =>
  match m with Ret a => k a | Abort => Abort | Crash => Crash end.

Lemma res_bind_ext {A B} (m : res A) (k1 k2 : A -> res B) :
  (forall a, k1 a = k2 a) -> (m ≫= k1) = (m ≫= k2).
Proof. intros H. destruct m; [apply H | done..]. Qed.

Definition assert (b : bool) : res unit := if b then Ret tt else Abort.

Fixpoint for_each {S} (l : list Z) (f : Z -> S -> res S) (s : S) : res S :=
  match l with
  | [] => Ret s
  | i :: l => s ← f i s; for_each l f s
  end.

Lemma bind_Ret {A B} (m : res A) (k : A -> res B) b :
  (a ← m; k a) = Ret b -> exists a, m = Ret a /\ k a = Ret b.
Proof. destruct m; cbn; [eauto | done..]. Qed.

Lemma assert_Ret b u : assert b = Ret u -> b = true.
Proof. by destruct b. Qed.

(** Takes the statements that returned out of a hypothesis, one by one. *)
Ltac unbind H :=
  repeat match type of H with
  | (_ ≫= _) = Ret _ =>
      let a := fresh "a" in let E := fresh "E" in apply bind_Ret in H as (a & E & H)
  end.
