(* ===== verification/Machine.v ===== *)
(** The machine the bare-metal C code runs on: a byte-addressed memory, a bus of memory-mapped
    devices, the trace of the accesses made to it, and the monad of C statements.

    A statement of type [M D A] takes the fuel of its unbounded loops and a world; it ends with a
    value, out of fuel, or in a fault (a behaviour C leaves undefined), and always leaves a world,
    so that a property of the trace can be stated of every run, finished or not. *)
From S2P Require Import Prelude.

(** * Worlds *)

Inductive width := W8 | W32 | W64.

#[export] Instance width_eq_dec : EqDecision width.
Proof. solve_decision. Defined.

Definition bits (w : width) : Z := match w with W8 => 8 | W32 => 32 | W64 => 64 end.

(** One access to the bus, or one iteration of a delay loop. *)
Inductive event :=
  | Ld (w : width) (a v : Z)
  | St (w : width) (a v : Z)
  | Nop.

#[export] Instance event_eq_dec : EqDecision event.
Proof. solve_decision. Defined.

(** The devices are not code of the firmware: they are a state and its reactions. *)
Class Bus (D : Type) := {
  bus_ld : width -> Z -> D -> Z * D;
  bus_st : width -> Z -> Z -> D -> D;
  bus_nop : D -> D
}.

Record world (D : Type) := World {
  w_dev : D;
  w_mem : gmap Z Z;
  w_tr : list event    (* newest first *)
}.
Arguments World {D} _ _ _.
Arguments w_dev {D} _.
Arguments w_mem {D} _.
Arguments w_tr {D} _.

Inductive outcome (A : Type) :=
  | Val (a : A)
  | OutOfFuel
  | Fault.
Arguments Val {A} _.
Arguments OutOfFuel {A}.
Arguments Fault {A}.

(** * The monad of C statements *)

Definition M (D A : Type) : Type := nat -> world D -> outcome A * world D.

#[export] Instance M_ret {D} : MRet (M D) := fun A a _ w => (Val a, w).

#[export] Instance M_bind {D} : MBind (M D) := fun A B k m n w =>
  match m n w with
  | (Val a, w) => k a n w
  | (OutOfFuel, w) => (OutOfFuel, w)
  | (Fault, w) => (Fault, w)
  end.

Definition fault {D A} : M D A := fun _ w => (Fault, w).

(** [iter body s] repeats [body] until it answers [inr]: the loops of C whose exit depends on
    the state. Each turn uses up one unit of fuel. *)
Definition iter {D S A} (body : S -> M D (S + A)) : S -> M D A :=
  fix go s n w :=
    match n with
    | O => (OutOfFuel, w)
    | Datatypes.S n =>
        match body s n w with
        | (Val (inl s), w) => go s n w
        | (Val (inr a), w) => (Val a, w)
        | (OutOfFuel, w) => (OutOfFuel, w)
        | (Fault, w) => (Fault, w)
        end
    end.

(** [while (c) ;] *)
Definition wait_while {D} (c : M D bool) : M D unit :=
  iter (fun _ : unit => b ← c; mret (if b : bool then inl tt else inr tt)) tt.

(** The loops of C over a fixed range of indices, without and with an accumulator. *)
Fixpoint for_in {D X} (l : list X) (f : X -> M D unit) : M D unit :=
  match l with
  | [] => mret tt
  | x :: l => f x ;; for_in l f
  end.

Fixpoint fold_in {D X S} (l : list X) (f : X -> S -> M D S) (s : S) : M D S :=
  match l with
  | [] => mret s
  | x :: l => s ← f x s; fold_in l f s
  end.

(** The indices of [for (i = 0; i < n; i++)]. *)
Definition below (n : Z) : list Z := seqZ 0 n.

Lemma below_split n pre i post :
  below n = pre ++ i :: post -> i = Z.of_nat (length pre) /\ 0 <= i < n.
Proof. apply seqZ_split. Qed.

Lemma below_length n : 0 <= n -> length (below n) = Z.to_nat n.
Proof. intros. apply length_seqZ. Qed.

Lemma M_bind_assoc {D A B E} (m : M D A) (k : A -> M D B) (g : B -> M D E) n w :
  ((m ≫= k) ≫= g) n w = (m ≫= (fun a => k a ≫= g)) n w.
Proof. unfold mbind, M_bind. by destruct (m n w) as [[a| |] w']. Qed.

Lemma M_bind_ext {D A B} (m : M D A) (k1 k2 : A -> M D B) n w :
  (forall a w, k1 a n w = k2 a n w) -> (m ≫= k1) n w = (m ≫= k2) n w.
Proof. intros H. unfold mbind, M_bind. by destruct (m n w) as [[a| |] w']. Qed.

(** ** Primitive statements *)

Section primitives.
Context `{!Bus D}.

Definition dev_ld (w : width) (a : Z) (d : D) : Z * D :=
  let '(v, d) := bus_ld w a d in (v mod 2 ^ bits w, d).

(** A volatile load from, and a volatile store to, a device register. *)
Definition mmio_ld (w : width) (a : Z) : M D Z := fun _ s =>
  let '(v, d) := dev_ld w a (w_dev s) in
  (Val v, World d (w_mem s) (Ld w a v :: w_tr s)).

Definition mmio_st (w : width) (a v : Z) : M D unit := fun _ s =>
  let v := v mod 2 ^ bits w in
  (Val tt, World (bus_st w a v (w_dev s)) (w_mem s) (St w a v :: w_tr s)).

(** [__asm__ volatile("nop")]. *)
Definition nop : M D unit := fun _ s =>
  (Val tt, World (bus_nop (w_dev s)) (w_mem s) (Nop :: w_tr s)).

(** Bytes of memory: a load of a byte never written is a fault. *)
Definition load8 (a : Z) : M D Z := fun _ s =>
  match w_mem s !! a with
  | Some v => (Val v, s)
  | None => (Fault, s)
  end.

Definition store8 (a v : Z) : M D unit := fun _ s =>
  (Val tt, World (w_dev s) (<[a := u8 v]> (w_mem s)) (w_tr s)).

(** A little-endian load of [n] bytes. *)
Definition load_le (n : nat) (a : Z) : M D Z := fun _ s =>
  match read_bytes (w_mem s) a n with
  | Some bs => (Val (le_val bs), s)
  | None => (Fault, s)
  end.

Definition store_le (n : nat) (a v : Z) : M D unit := fun _ s =>
  (Val tt, World (w_dev s) (write_bytes a (le_bytes n v) (w_mem s)) (w_tr s)).
End primitives.

(** * Total correctness *)

(** [runs m w a w']: from [w], statement [m] ends in [w'] with value [a], whatever the fuel beyond
    some amount. *)
Definition runs {D A} (m : M D A) (w : world D) (a : A) (w' : world D) : Prop :=
  exists n, forall n', (n <= n')%nat -> m n' w = (Val a, w').

Definition wp {D A} (m : M D A) (w : world D) (Q : A -> world D -> Prop) : Prop :=
  exists a w', runs m w a w' /\ Q a w'.

Section wp_rules.
Context {D : Type}.
Implicit Types w : world D.

Lemma runs_det {A} (m : M D A) w a1 w1 a2 w2 :
  runs m w a1 w1 -> runs m w a2 w2 -> a1 = a2 /\ w1 = w2.
Proof.
  intros [n1 H1] [n2 H2]. specialize (H1 (n1 + n2)%nat). specialize (H2 (n1 + n2)%nat).
  rewrite H1 in H2 by lia. assert (E : (Val a1, w1) = (Val a2, w2)) by (apply H2; lia).
  by injection E.
Qed.

Lemma wp_ret {A} (a : A) w Q : Q a w -> wp (mret a) w Q.
Proof. intros H. exists a, w. split; [by exists 0%nat | done]. Qed.

Lemma wp_mono {A} (m : M D A) w (P Q : A -> world D -> Prop) :
  wp m w P -> (forall a w', P a w' -> Q a w') -> wp m w Q.
Proof. intros (a & w' & Hr & HP) H. exists a, w'. auto. Qed.

Lemma runs_bind {A B} (m : M D A) (k : A -> M D B) w a w1 b w2 :
  runs m w a w1 -> runs (k a) w1 b w2 -> runs (m ≫= k) w b w2.
Proof.
  intros [n1 H1] [n2 H2]. exists (n1 + n2)%nat. intros n Hn.
  unfold mbind, M_bind. rewrite H1 by lia. apply H2. lia.
Qed.

Lemma wp_bind {A B} (m : M D A) (k : A -> M D B) w Q :
  wp m w (fun a w' => wp (k a) w' Q) -> wp (m ≫= k) w Q.
Proof.
  intros (a & w1 & H1 & b & w2 & H2 & HQ). exists b, w2. split; [|done].
  by eapply runs_bind.
Qed.

Lemma wp_step {A} (m : M D A) w a w' Q : (forall n, m n w = (Val a, w')) -> Q a w' -> wp m w Q.
Proof. intros H HQ. exists a, w'. split; [|done]. by exists 0%nat. Qed.

(** One turn of a loop; loop proofs are inductions that unfold one turn at a time. *)
Lemma wp_iter {S A} (body : S -> M D (S + A)) s w Q :
  wp (body s) w (fun r w' => match r with
                             | inl s' => wp (iter body s') w' Q
                             | inr a => Q a w'
                             end) ->
  wp (iter body s) w Q.
Proof.
  intros ([s'|a] & w' & [n Hn] & H).
  - destruct H as (a & w2 & [n2 H2] & HQ). exists a, w2. split; [|done].
    exists (Datatypes.S (n + n2)). intros [|k] Hk; [lia|]. cbn. rewrite Hn by lia.
    apply H2. lia.
  - exists a, w'. split; [|done]. exists (Datatypes.S n). intros [|k] Hk; [lia|]. cbn.
    by rewrite Hn by lia.
Qed.

Lemma wp_wait_while (c : M D bool) w (Q : unit -> world D -> Prop) :
  wp c w (fun b w' => if b : bool then wp (wait_while c) w' Q else Q tt w') ->
  wp (wait_while c) w Q.
Proof.
  intros H. apply wp_iter, wp_bind. eapply wp_mono; [exact H|].
  intros [] w' Hw'; by apply wp_ret.
Qed.

Lemma wp_for_in {X} (l : list X) (f : X -> M D unit) (I : list X -> world D -> Prop) w Q :
  I [] w ->
  (forall pre x post w, l = pre ++ x :: post -> I pre w ->
     wp (f x) w (fun _ w' => I (pre ++ [x]) w')) ->
  (forall w', I l w' -> Q tt w') ->
  wp (for_in l f) w Q.
Proof.
  intros H0 Hf HQ. enough (G : forall post pre w, l = pre ++ post -> I pre w -> wp (for_in post f) w Q).
  { by apply (G l []). }
  induction post as [|x post IH]; intros pre w' El HI.
  - apply wp_ret. apply HQ. rewrite app_nil_r in El. by subst.
  - cbn [for_in]. apply wp_bind. eapply wp_mono; [by eapply Hf|]. cbn.
    intros [] w'' HI'. eapply IH; [|done]. subst. by rewrite <- (assoc_L (++)).
Qed.

Lemma wp_fold_in {X S} (l : list X) (f : X -> S -> M D S) (I : list X -> S -> world D -> Prop) s w
    (Q : S -> world D -> Prop) :
  I [] s w ->
  (forall pre x post s w, l = pre ++ x :: post -> I pre s w ->
     wp (f x s) w (fun s' w' => I (pre ++ [x]) s' w')) ->
  (forall s' w', I l s' w' -> Q s' w') ->
  wp (fold_in l f s) w Q.
Proof.
  intros H0 Hf HQ.
  enough (G : forall post pre s w, l = pre ++ post -> I pre s w -> wp (fold_in post f s) w Q).
  { by apply (G l []). }
  induction post as [|x post IH]; intros pre s' w' El HI.
  - apply wp_ret. apply HQ. rewrite app_nil_r in El. by subst.
  - cbn [fold_in]. apply wp_bind. eapply wp_mono; [by eapply Hf|]. cbn.
    intros s'' w'' HI'. eapply IH; [|done]. subst. by rewrite <- (assoc_L (++)).
Qed.

Context `{!Bus D}.

Lemma wp_mmio_ld wd a w (Q : Z -> world D -> Prop) :
  (forall v d, dev_ld wd a (w_dev w) = (v, d) -> Q v (World d (w_mem w) (Ld wd a v :: w_tr w))) ->
  wp (mmio_ld wd a) w Q.
Proof.
  intros H. destruct (dev_ld wd a (w_dev w)) as [v d] eqn:E.
  eapply wp_step; [|by apply H]. intros n. unfold mmio_ld. by rewrite E.
Qed.

Lemma wp_mmio_st wd a v w (Q : unit -> world D -> Prop) :
  Q tt (World (bus_st wd a (v mod 2 ^ bits wd) (w_dev w)) (w_mem w)
              (St wd a (v mod 2 ^ bits wd) :: w_tr w)) ->
  wp (mmio_st wd a v) w Q.
Proof. intros. by eapply wp_step. Qed.

Lemma wp_nop w (Q : unit -> world D -> Prop) :
  Q tt (World (bus_nop (w_dev w)) (w_mem w) (Nop :: w_tr w)) -> wp nop w Q.
Proof. intros. by eapply wp_step. Qed.

Lemma wp_load8 a v w (Q : Z -> world D -> Prop) : w_mem w !! a = Some v -> Q v w -> wp (load8 a) w Q.
Proof. intros Hv HQ. eapply wp_step; [|exact HQ]. intros n. unfold load8. by rewrite Hv. Qed.

Lemma wp_store8 a v w (Q : unit -> world D -> Prop) :
  Q tt (World (w_dev w) (<[a := u8 v]> (w_mem w)) (w_tr w)) -> wp (store8 a v) w Q.
Proof. intros. by eapply wp_step. Qed.

Lemma wp_load_le n a bs w (Q : Z -> world D -> Prop) :
  read_bytes (w_mem w) a n = Some bs -> Q (le_val bs) w -> wp (load_le n a) w Q.
Proof. intros Hv HQ. eapply wp_step; [|exact HQ]. intros k. unfold load_le. by rewrite Hv. Qed.

Lemma wp_store_le n a v w (Q : unit -> world D -> Prop) :
  Q tt (World (w_dev w) (write_bytes a (le_bytes n v) (w_mem w)) (w_tr w)) ->
  wp (store_le n a v) w Q.
Proof. intros. by eapply wp_step. Qed.
End wp_rules.

(** One turn of an empty loop, run with one unit of fuel less. *)
Lemma wait_while_S {D} (c : M D bool) n w :
  wait_while c (S n) w =
    match c n w with
    | (Val true, w) => wait_while c n w
    | (Val false, w) => (Val tt, w)
    | (OutOfFuel, w) => (OutOfFuel, w)
    | (Fault, w) => (Fault, w)
    end.
Proof.
  unfold wait_while at 1. cbn. unfold mbind, M_bind. by destruct (c n w) as [[[]| |] w'].
Qed.

(** * Invariants of every run *)

(** [safe I m Q]: whatever the devices answer and whatever the fuel, [m] leaves a world that
    satisfies [I] when it starts from one, whether it returns, faults or runs out of fuel; a value
    it returns satisfies [Q]. *)
Definition safe {D A} (I : world D -> Prop) (m : M D A) (Q : A -> Prop) : Prop :=
  forall n w, I w -> let '(o, w') := m n w in I w' /\ (forall a, o = Val a -> Q a).

Definition keeps {D A} (I : world D -> Prop) (m : M D A) : Prop := safe I m (fun _ => True).

Section safe_rules.
Context {D : Type} (I : world D -> Prop).

Lemma safe_ret {A} (a : A) (Q : A -> Prop) : Q a -> safe I (mret a : M D A) Q.
Proof. intros HQ n w Hw. split; [done|]. by intros ? [= <-]. Qed.

Lemma safe_mono {A} (m : M D A) (P Q : A -> Prop) :
  safe I m P -> (forall a, P a -> Q a) -> safe I m Q.
Proof. intros Hm HPQ n w Hw. specialize (Hm n w Hw).
  destruct (m n w) as [o w']. destruct Hm as [HI HP]. split; [done|]. auto. Qed.

Lemma safe_bind {A B} (m : M D A) (k : A -> M D B) (P : A -> Prop) (Q : B -> Prop) :
  safe I m P -> (forall a, P a -> safe I (k a) Q) -> safe I (m ≫= k) Q.
Proof.
  intros Hm Hk n w Hw. unfold mbind, M_bind. specialize (Hm n w Hw).
  destruct (m n w) as [[a| |] w1]; destruct Hm as [Hw1 HP]; [|done..].
  by apply Hk; [apply HP|].
Qed.

Lemma safe_then {A B} (m : M D A) (k : A -> M D B) (Q : B -> Prop) :
  keeps I m -> (forall a, safe I (k a) Q) -> safe I (m ≫= k) Q.
Proof. intros Hm Hk. by eapply safe_bind; [exact Hm|]. Qed.

Lemma safe_iter {S A} (body : S -> M D (S + A)) (P : S -> Prop) (Q : A -> Prop) s :
  P s ->
  (forall s, P s -> safe I (body s) (fun r => match r with inl s' => P s' | inr a => Q a end)) ->
  safe I (iter body s) Q.
Proof.
  intros Hs Hb n. revert s Hs. induction n as [|n IH]; intros s Hs w Hw; [done|]. cbn.
  specialize (Hb s Hs n w Hw).
  destruct (body s n w) as [[[s'|a]| |] w1]; destruct Hb as [Hw1 HP]; try done.
  - apply IH; [by apply (HP (inl s')) | done].
  - split; [done|]. intros a' [= <-]. by apply (HP (inr a)).
Qed.

Lemma safe_fold_in {X S} (l : list X) (f : X -> S -> M D S) (P : S -> Prop) s :
  P s -> (forall x s, x ∈ l -> P s -> safe I (f x s) P) -> safe I (fold_in l f s) P.
Proof.
  revert s. induction l as [|x l IH]; intros s Hs Hf; [by apply safe_ret|]. cbn [fold_in].
  apply (safe_bind _ _ P); [apply Hf; [set_solver | done]|]. intros s' Hs'.
  apply IH; [done|]. intros; apply Hf; [set_solver | done].
Qed.

Lemma keeps_ret {A} (a : A) : keeps I (mret a : M D A).
Proof. by apply safe_ret. Qed.

Lemma keeps_fault {A} : keeps I (@fault D A).
Proof. by intros n w Hw. Qed.

Lemma keeps_bind {A B} (m : M D A) (k : A -> M D B) :
  keeps I m -> (forall a, keeps I (k a)) -> keeps I (m ≫= k).
Proof. intros Hm Hk. apply (safe_bind _ _ (fun _ => True)); [done|]. intros a _. apply Hk. Qed.

Lemma keeps_iter {S A} (body : S -> M D (S + A)) s :
  (forall s, keeps I (body s)) -> keeps I (iter body s).
Proof.
  intros Hb. apply (safe_iter _ (fun _ => True)); [done|]. intros s' _.
  eapply safe_mono; [apply Hb|]. by intros [].
Qed.

Lemma keeps_wait_while (c : M D bool) : keeps I c -> keeps I (wait_while c).
Proof. intros Hc. apply keeps_iter. intros _. apply keeps_bind; [done|]. intros. apply keeps_ret. Qed.

Lemma keeps_for_in {X} (l : list X) (f : X -> M D unit) :
  (forall x, x ∈ l -> keeps I (f x)) -> keeps I (for_in l f).
Proof.
  induction l as [|x l IH]; intros Hf; [apply keeps_ret|]. cbn [for_in].
  apply keeps_bind; [|intros _; apply IH]; intros; apply Hf; set_solver.
Qed.

Lemma keeps_fold_in {X S} (l : list X) (f : X -> S -> M D S) s :
  (forall x s, x ∈ l -> keeps I (f x s)) -> keeps I (fold_in l f s).
Proof. intros Hf. apply safe_fold_in; [done|]. intros x s' Hx _. by apply Hf. Qed.

Lemma keeps_if {A} (b : bool) (m1 m2 : M D A) :
  keeps I m1 -> keeps I m2 -> keeps I (if b then m1 else m2).
Proof. by destruct b. Qed.

Context `{!Bus D}.

Lemma keeps_load8 a : keeps I (load8 a).
Proof. intros n w Hw. unfold load8. by destruct (w_mem w !! a). Qed.

Lemma keeps_load_le n a : keeps I (load_le n a).
Proof. intros k w Hw. unfold load_le. by destruct (read_bytes (w_mem w) a n). Qed.

(** What a run leaves satisfies the invariant. *)
Lemma keeps_run {A} (m : M D A) n w : keeps I m -> I w -> I (snd (m n w)).
Proof. intros Hm Hw. specialize (Hm n w Hw). destruct (m n w). by destruct Hm. Qed.
End safe_rules.

#[export] Hint Resolve keeps_ret keeps_fault keeps_wait_while keeps_if keeps_load8 keeps_load_le : keeps.
#[export] Hint Extern 1 (keeps _ (_ ≫= _)) => apply keeps_bind; [|intros ?] : keeps.

(** Follows the sequence of statements, closing each with the database. *)
Ltac keeps_tac :=
  repeat lazymatch goal with
  | |- keeps _ (_ ≫= _) => apply keeps_bind; [|intros ?]
  | |- keeps _ (if _ then _ else _) => apply keeps_if
  | |- keeps _ (for_in _ _) => apply keeps_for_in; intros ? ?
  end; eauto with keeps.

(** * Runs seen through an abstract state *)

(** [awp R m s Q]: from every world that [R] relates to the abstract state [s], the statement [m]
    terminates, and in a world related to some [s'] with [Q a s']. *)
Definition awp {D S A} (R : S -> world D -> Prop) (m : M D A) (s : S) (Q : A -> S -> Prop) : Prop :=
  forall w, R s w -> wp m w (fun a w' => exists s', R s' w' /\ Q a s').

Section awp_rules.
Context {D S : Type} (R : S -> world D -> Prop).

Lemma awp_ret {A} (a : A) s (Q : A -> S -> Prop) : Q a s -> awp R (mret a) s Q.
Proof. intros HQ w Hw. apply wp_ret. by exists s. Qed.

Lemma awp_mono {A} (m : M D A) s (P Q : A -> S -> Prop) :
  awp R m s P -> (forall a s', P a s' -> Q a s') -> awp R m s Q.
Proof.
  intros H HPQ w Hw. eapply wp_mono; [by apply H|]. intros a w' (s' & HR & HP). eauto.
Qed.

Lemma awp_bind {A B} (m : M D A) (k : A -> M D B) s Q :
  awp R m s (fun a s' => awp R (k a) s' Q) -> awp R (m ≫= k) s Q.
Proof.
  intros H w Hw. apply wp_bind. eapply wp_mono; [by apply H|]. intros a w' (s' & HR & HQ).
  by apply HQ.
Qed.

(** Sequencing through a known intermediate state. *)
Lemma awp_seq {A B} (m : M D A) (k : A -> M D B) s a s1 Q :
  awp R m s (fun a' s' => a' = a /\ s' = s1) -> awp R (k a) s1 Q -> awp R (m ≫= k) s Q.
Proof. intros H Hk. apply awp_bind. eapply awp_mono; [exact H|]. by intros ? ? [-> ->]. Qed.

Lemma awp_iter {X A} (body : X -> M D (X + A)) x s Q :
  awp R (body x) s (fun r s' => match r with
                                | inl x' => awp R (iter body x') s' Q
                                | inr a => Q a s'
                                end) ->
  awp R (iter body x) s Q.
Proof.
  intros H w Hw. apply wp_iter. eapply wp_mono; [by apply H|].
  intros [x'|a] w' (s' & HR & HQ); [by apply HQ | eauto].
Qed.

Lemma awp_wait_while (c : M D bool) s (Q : unit -> S -> Prop) :
  awp R c s (fun b s' => if b : bool then awp R (wait_while c) s' Q else Q tt s') ->
  awp R (wait_while c) s Q.
Proof.
  intros H w Hw. apply wp_wait_while. eapply wp_mono; [by apply H|].
  intros [] w' (s' & HR & HQ); [by apply HQ | eauto].
Qed.

Lemma awp_for_in {X} (l : list X) (f : X -> M D unit) (I : list X -> S -> Prop) s
    (Q : unit -> S -> Prop) :
  I [] s ->
  (forall pre x post s, l = pre ++ x :: post -> I pre s ->
     awp R (f x) s (fun _ s' => I (pre ++ [x]) s')) ->
  (forall s', I l s' -> Q tt s') ->
  awp R (for_in l f) s Q.
Proof.
  intros H0 Hf HQ w Hw.
  eapply (wp_for_in _ _ (fun pre w => exists s, R s w /\ I pre s)); [eauto | | intros w' (s' & HR & HI); eauto].
  intros pre x post w' El (s' & HR & HI). by eapply Hf.
Qed.

Lemma awp_fold_in {X T} (l : list X) (f : X -> T -> M D T) (I : list X -> T -> S -> Prop) t s
    (Q : T -> S -> Prop) :
  I [] t s ->
  (forall pre x post t s, l = pre ++ x :: post -> I pre t s ->
     awp R (f x t) s (fun t' s' => I (pre ++ [x]) t' s')) ->
  (forall t' s', I l t' s' -> Q t' s') ->
  awp R (fold_in l f t) s Q.
Proof.
  intros H0 Hf HQ w Hw.
  eapply (wp_fold_in _ _ (fun pre t w => exists s, R s w /\ I pre t s)); [eauto | | intros t' w' (s' & HR & HI); eauto].
  intros pre x post t' w' El (s' & HR & HI). by eapply Hf.
Qed.
End awp_rules.

(** * Runs that end *)

#[export] Instance out_of_fuel_dec {A} (o : outcome A) : Decision (o = OutOfFuel).
Proof. destruct o; [by right | by left | by right]. Defined.

(** [stable m]: with enough fuel for a run to end, more fuel changes nothing. *)
Definition stable {D A} (m : M D A) : Prop :=
  forall n n' w, (n <= n')%nat -> fst (m n w) <> OutOfFuel -> m n' w = m n w.

Section stable_rules.
Context {D : Type}.

Lemma stable_const {A} (f : world D -> outcome A * world D) : stable (fun _ => f).
Proof. done. Qed.

Lemma stable_bind {A B} (m : M D A) (k : A -> M D B) :
  stable m -> (forall a, stable (k a)) -> stable (m ≫= k).
Proof.
  unfold mbind, M_bind. intros Hm Hk n n' w Hn H. specialize (Hm n n' w Hn).
  destruct (m n w) as [[a| |] w1]; [|done|]; rewrite Hm by done; [|done]. by apply Hk.
Qed.

Lemma stable_iter {S A} (body : S -> M D (S + A)) s :
  (forall s, stable (body s)) -> stable (iter body s).
Proof.
  intros Hb n n' w Hn. revert n' s w Hn.
  induction n as [|n IH]; intros [|n'] s w Hn H; [done | done | lia |].
  cbn in *. specialize (Hb s n n' w ltac:(lia)).
  destruct (body s n w) as [[[s'|a]| |] w1]; [|rewrite Hb by done; done | done | rewrite Hb by done; done].
  rewrite Hb by done. apply IH; [lia | done].
Qed.

Lemma stable_wait_while (c : M D bool) : stable c -> stable (wait_while c).
Proof. intros Hc. apply stable_iter. intros _. apply stable_bind; [done|]. intros. apply stable_const. Qed.

Lemma stable_for_in {X} (l : list X) (f : X -> M D unit) :
  (forall x, stable (f x)) -> stable (for_in l f).
Proof.
  intros Hf. induction l as [|x l IH]; [apply stable_const|]. cbn [for_in].
  by apply stable_bind.
Qed.

Lemma stable_fold_in {X S} (l : list X) (f : X -> S -> M D S) s :
  (forall x s, stable (f x s)) -> stable (fold_in l f s).
Proof.
  intros Hf. revert s. induction l as [|x l IH]; intros s; [apply stable_const|]. cbn [fold_in].
  by apply stable_bind.
Qed.

Lemma stable_if {A} (b : bool) (m1 m2 : M D A) :
  stable m1 -> stable m2 -> stable (if b then m1 else m2).
Proof. by destruct b. Qed.
End stable_rules.

Section stable_primitives.
Context `{!Bus D}.

Lemma stable_ret {A} (a : A) : stable (mret a : M D A).
Proof. apply stable_const. Qed.

Lemma stable_fault {A} : stable (@fault D A).
Proof. apply stable_const. Qed.

Lemma stable_mmio_ld wd a : stable (mmio_ld wd a).
Proof. apply stable_const. Qed.

Lemma stable_mmio_st wd a v : stable (mmio_st wd a v).
Proof. apply stable_const. Qed.

Lemma stable_nop : stable nop.
Proof. apply stable_const. Qed.

Lemma stable_load8 a : stable (@load8 D a).
Proof. apply stable_const. Qed.

Lemma stable_store8 a v : stable (@store8 D a v).
Proof. apply stable_const. Qed.

Lemma stable_load_le n a : stable (@load_le D n a).
Proof. apply stable_const. Qed.
End stable_primitives.

#[export] Hint Resolve stable_ret stable_fault stable_mmio_ld stable_mmio_st stable_nop
  stable_load8 stable_store8 stable_load_le : stable.

(** Follows the statements, closing each primitive or call with the database. *)
Ltac stable_tac :=
  repeat lazymatch goal with
  | |- stable (_ ≫= _) => apply stable_bind; [|intros ?]
  | |- stable (if _ then _ else _) => apply stable_if
  | |- stable (for_in _ _) => apply stable_for_in; intros ?
  | |- stable (fold_in _ _ _) => apply stable_fold_in; intros ? ?
  | |- stable (wait_while _) => apply stable_wait_while
  | |- stable (iter _ _) => apply stable_iter; intros ?
  end; eauto with stable.

(** [ends R m s E]: a run of [m] that ends, in a value or in a fault, from a world related to [s],
    is evidence for [E]. A loop that may never end has no total specification of its own, but a
    run of it that ended has one, with what it found out as [E]. *)
Definition ends {D S A} (R : S -> world D -> Prop) (m : M D A) (s : S) (E : Prop) : Prop :=
  forall n w, R s w -> fst (m n w) <> OutOfFuel -> E.

Section ends_rules.
Context {D S : Type} (R : S -> world D -> Prop).

Lemma ends_known {A} (m : M D A) s (E : Prop) : E -> ends R m s E.
Proof. by intros HE n w _ _. Qed.

Lemma ends_mono {A} (m : M D A) s (E E' : Prop) : ends R m s E -> (E -> E') -> ends R m s E'.
Proof. intros H HE n w Hw Hn. by eapply HE, H. Qed.

(** A run that ended is the run the total specification describes. *)
Lemma awp_ended {A} (m : M D A) s (P : A -> S -> Prop) n w :
  stable m -> awp R m s P -> R s w -> fst (m n w) <> OutOfFuel ->
  exists a w' s', m n w = (Val a, w') /\ R s' w' /\ P a s'.
Proof.
  intros Hm HP Hw Hn. destruct (HP w Hw) as (a & w' & [n0 Hr] & s' & HR & HPa).
  exists a, w', s'. split; [|done]. rewrite <- (Hr (n + n0)%nat) by lia. symmetry. apply Hm; [lia | done].
Qed.

(** Sequencing: what a run of [m] found out gives it a total specification, from whose states
    the rest of the run starts. *)
Lemma ends_bind {A B} (m : M D A) (k : A -> M D B) s (E : Prop) :
  stable m -> ends R m s (awp R m s (fun a s' => ends R (k a) s' E)) -> ends R (m ≫= k) s E.
Proof.
  intros Hm H n w Hw. unfold mbind, M_bind. intros Hn.
  assert (Hn' : fst (m n w) <> OutOfFuel) by (by destruct (m n w) as [[a| |] w1]).
  destruct (awp_ended _ _ _ n w Hm (H n w Hw Hn') Hw Hn') as (a & w1 & s1 & Em & Hw1 & HE).
  rewrite Em in Hn. by apply (HE n w1).
Qed.

Lemma ends_first {A B} (m : M D A) (k : A -> M D B) s (E : Prop) :
  ends R m s E -> ends R (m ≫= k) s E.
Proof.
  intros H n w Hw Hn. apply (H n w Hw). intros Em. apply Hn. unfold mbind, M_bind.
  revert Em. by destruct (m n w) as [[a| |] w1].
Qed.

(** Loops: [T] is what an ended run of the loop from a state shows; a turn hands it back. *)
Lemma ends_iter {X A} (body : X -> M D (X + A)) (I : X -> S -> Prop) (T : X -> S -> Prop) x s :
  (forall x, stable (body x)) -> I x s ->
  (forall x s, I x s -> ends R (body x) s (awp R (body x) s (fun r s' =>
     match r with
     | inl x' => I x' s' /\ (T x' s' -> T x s)
     | inr _ => T x s
     end))) ->
  ends R (iter body x) s (T x s).
Proof.
  intros Hst HI Hb n. revert x s HI. induction n as [|n IH]; intros x s HI w Hw Hn; [done|].
  cbn in Hn. assert (Hn' : fst (body x n w) <> OutOfFuel) by (by destruct (body x n w) as [[[|]| |] ?]).
  destruct (awp_ended _ _ _ n w (Hst x) (Hb x s HI n w Hw Hn') Hw Hn') as ([x'|a] & w1 & s1 & Em & Hw1 & HT);
    rewrite Em in Hn; [|done].
  destruct HT as [HI' HT]. by apply HT, (IH x' s1 HI' w1).
Qed.
End ends_rules.

(** * Automation *)

(** One statement of a sequence at a time; [apply] alone would try to see a primitive as one. *)
Ltac wp_seq :=
  lazymatch goal with
  | |- wp (_ ≫= _) _ _ => apply wp_bind
  | |- awp _ (_ ≫= _) _ _ => apply awp_bind
  end.
