(* ===== verification/Uart.v ===== *)
(** The serial console of both boot loaders ([src/uart.c], [src/uart.h]): the driver, the register
    file a 16550 shows for a trace of accesses, and the interface between the driver's theorems and
    the worlds of a platform. *)
From S2P Require Import Prelude Machine.

(** * Registers *)

(** The addresses [uart.h] gives to the registers the driver uses. *)
Class UartMap := {
  UART_THR : Z;
  UART_INTERRUPT_ENABLE : Z;
  UART_FIFO_CONTROL : Z;
  UART_LINE_CONTROL : Z;
  UART_MODEM_CONTROL : Z;
  UART_LINE_STATUS : Z;
  UART_DLAB_LSB : Z;
  UART_DLAB_MSB : Z
}.

(** The eight-bit registers are distinct, and the divisor latches share the addresses of the
    transmitter and of the interrupt enable register. *)
Class UartMapOk (U : UartMap) : Prop := {
  um_nodup : NoDup [UART_THR; UART_INTERRUPT_ENABLE; UART_FIFO_CONTROL; UART_LINE_CONTROL;
                    UART_MODEM_CONTROL; UART_LINE_STATUS];
  um_lsb : UART_DLAB_LSB = UART_THR;
  um_msb : UART_DLAB_MSB = UART_INTERRUPT_ENABLE
}.

(** What a 16550 holds after a sequence of register writes: bit 7 of the line control register
    redirects offset 0 and 1 to the divisor latches; otherwise offset 0 transmits a byte. *)
Record uart_view := UartView {
  uv_ier : Z; uv_fcr : Z; uv_lcr : Z; uv_mcr : Z; uv_dll : Z; uv_dlm : Z;
  uv_sent : list Z
}.

Definition uart_reset : uart_view := UartView 0 0 0 0 0 0 [].

Definition dlab (u : uart_view) : bool := Z.testbit (uv_lcr u) 7.

Definition set_sent (l : list Z) (u : uart_view) : uart_view :=
  UartView (uv_ier u) (uv_fcr u) (uv_lcr u) (uv_mcr u) (uv_dll u) (uv_dlm u) l.

Definition divisor (u : uart_view) : Z := uv_dll u + 256 * uv_dlm u.

Section view.
Context `{!UartMap}.

Definition uart_step (e : event) (u : uart_view) : uart_view :=
  match e with
  | St W8 a v =>
      if decide (a = UART_THR) then
        if dlab u then UartView (uv_ier u) (uv_fcr u) (uv_lcr u) (uv_mcr u) v (uv_dlm u) (uv_sent u)
        else set_sent (uv_sent u ++ [v]) u
      else if decide (a = UART_INTERRUPT_ENABLE) then
        if dlab u then UartView (uv_ier u) (uv_fcr u) (uv_lcr u) (uv_mcr u) (uv_dll u) v (uv_sent u)
        else UartView v (uv_fcr u) (uv_lcr u) (uv_mcr u) (uv_dll u) (uv_dlm u) (uv_sent u)
      else if decide (a = UART_FIFO_CONTROL) then
        UartView (uv_ier u) v (uv_lcr u) (uv_mcr u) (uv_dll u) (uv_dlm u) (uv_sent u)
      else if decide (a = UART_LINE_CONTROL) then
        UartView (uv_ier u) (uv_fcr u) v (uv_mcr u) (uv_dll u) (uv_dlm u) (uv_sent u)
      else if decide (a = UART_MODEM_CONTROL) then
        UartView (uv_ier u) (uv_fcr u) (uv_lcr u) v (uv_dll u) (uv_dlm u) (uv_sent u)
      else u
  | _ => u
  end.

(** The trace has its newest event first. *)
Definition uart_view_of (tr : list event) : uart_view := foldr uart_step uart_reset tr.

(** Every byte handed to the transmitter was handed right after a load of the line status
    register that showed the transmitter empty (bit 5). *)
Fixpoint thr_guarded (tr : list event) : Prop :=
  match tr with
  | [] => True
  | e :: tr =>
      (forall v, e = St W8 UART_THR v -> dlab (uart_view_of tr) = false ->
         exists x tr', tr = Ld W8 UART_LINE_STATUS x :: tr' /\ Z.testbit x 5 = true)
      /\ thr_guarded tr
  end.
End view.

(** * The driver *)

Section driver.
Context `{!Bus D, !UartMap}.

Definition write_reg_u8 (addr value : Z) : M D unit := mmio_st W8 addr value.
Definition read_reg_u8 (addr : Z) : M D Z := mmio_ld W8 addr.

Definition is_transmit_empty : M D Z :=
  v ← read_reg_u8 UART_LINE_STATUS; mret (Z.land v 0x20).

Definition write_serial (a : Z) : M D unit :=
  wait_while (e ← is_transmit_empty; mret (e =? 0)) ;;
  write_reg_u8 UART_THR a.

Definition init_uart (freq baud : Z) : M D unit :=
  let d := u32 (Z.shiftl baud 4) in
  if d =? 0 then fault else
  let divisor := freq / d in
  write_reg_u8 UART_INTERRUPT_ENABLE 0x00 ;;
  write_reg_u8 UART_LINE_CONTROL 0x80 ;;
  write_reg_u8 UART_DLAB_LSB divisor ;;
  write_reg_u8 UART_DLAB_MSB (Z.land (Z.shiftr divisor 8) 0xFF) ;;
  write_reg_u8 UART_LINE_CONTROL 0x03 ;;
  write_reg_u8 UART_FIFO_CONTROL 0xC7 ;;
  write_reg_u8 UART_MODEM_CONTROL 0x20.

(** [cur] runs over the characters of a literal up to its NUL. *)
Fixpoint print_uart (s : string) : M D unit :=
  match s with
  | EmptyString => mret tt
  | String c s =>
      if code c =? 0 then mret tt
      else write_serial (code c) ;; print_uart s
  end.

Definition bin_to_hex_table : list Z :=
  [48; 49; 50; 51; 52; 53; 54; 55; 56; 57; 65; 66; 67; 68; 69; 70].

(** The two bytes of [res], [res[0]] first. *)
Definition bin_to_hex (inp : Z) : Z * Z :=
  (nth (Z.to_nat (Z.land (Z.shiftr inp 4) 0xf)) bin_to_hex_table 0,
   nth (Z.to_nat (Z.land inp 0xf)) bin_to_hex_table 0).

Definition print_uart_byte (byte : Z) : M D unit :=
  let hex := bin_to_hex byte in
  write_serial (fst hex) ;; write_serial (snd hex).

Definition print_uart_int (addr : Z) : M D unit :=
  for_in [3; 2; 1; 0] (fun i =>
    let cur := Z.land (Z.shiftr addr (i * 8)) 0xff in
    let hex := bin_to_hex cur in
    write_serial (fst hex) ;; write_serial (snd hex)).

Definition print_uart_addr (addr : Z) : M D unit :=
  for_in [7; 6; 5; 4; 3; 2; 1; 0] (fun i =>
    let cur := Z.land (Z.shiftr addr (i * 8)) 0xff in
    let hex := bin_to_hex cur in
    write_serial (fst hex) ;; write_serial (snd hex)).
End driver.

(** * Reference definitions *)

(** The hexadecimal text of the [n] low bytes of [v], most significant byte first. *)
Definition hex_digit (d : Z) : Z := if d <? 10 then 48 + d else 55 + d.

Fixpoint hex_be (n : nat) (v : Z) : list Z :=
  match n with
  | O => []
  | S n =>
      let b := (v / 256 ^ Z.of_nat n) mod 256 in
      hex_digit (b / 16) :: hex_digit (b mod 16) :: hex_be n v
  end.

(** A C string ends at its first NUL. *)
Fixpoint until_nul (l : list Z) : list Z :=
  match l with
  | [] => []
  | c :: l => if c =? 0 then [] else c :: until_nul l
  end.

(** Reading hexadecimal text back. *)
Definition hex_value (c : Z) : Z := if c <=? 57 then c - 48 else c - 55.
Definition parse_hex (l : list Z) : Z := foldl (fun a c => 16 * a + hex_value c) 0 l.

(** * The interface to a platform *)

(** [R] relates abstract states to worlds. The abstract state carries the register file of the
    console; an access to the console changes nothing else of it, and the line status register
    shows an empty transmitter after finitely many loads. *)
Class UartHost `{!Bus D, !UartMap} {S : Type} (R : S -> world D -> Prop) := {
  uh_view : S -> uart_view;
  uh_set : uart_view -> S -> S;
  uh_view_set : forall u s, uh_view (uh_set u s) = u;
  uh_set_set : forall u u' s, uh_set u (uh_set u' s) = uh_set u s;
  uh_set_view : forall s, uh_set (uh_view s) s = s;
  uh_st : forall s w a v,
    a ∈ [UART_THR; UART_INTERRUPT_ENABLE; UART_FIFO_CONTROL; UART_LINE_CONTROL;
         UART_MODEM_CONTROL] ->
    R s w ->
    R (uh_set (uart_step (St W8 a v) (uh_view s)) s)
      (World (bus_st W8 a v (w_dev w)) (w_mem w) (St W8 a v :: w_tr w));
  uh_lag : D -> nat;
  uh_lsr : forall s w v d,
    R s w -> dev_ld W8 UART_LINE_STATUS (w_dev w) = (v, d) ->
    R s (World d (w_mem w) (Ld W8 UART_LINE_STATUS v :: w_tr w))
    /\ (Z.testbit v 5 = true \/ (uh_lag d < uh_lag (w_dev w))%nat)
}.

(** Abstract states that also carry the memory, which output does not change. *)
Class MemHost `{!Bus D, !UartMap} {S : Type} (R : S -> world D -> Prop) `{!UartHost R} := {
  mh_mem : S -> gmap Z Z;
  mh_rel : forall s w, R s w -> w_mem w = mh_mem s;
  mh_set : forall u s, mh_mem (uh_set u s) = mh_mem s
}.

(** * The register file *)

Ltac in_list := rewrite !elem_of_cons; auto 10.

Section view_lemmas.
Context `{!UartMapOk U}.

Local Ltac solve_step :=
  pose proof um_nodup as Hn; rewrite !NoDup_cons, !not_elem_of_cons in Hn; intros; unfold uart_step;
  repeat (rewrite decide_False by intuition congruence); by rewrite decide_True.

Lemma uart_step_thr v u :
  uart_step (St W8 UART_THR v) u =
    if dlab u then UartView (uv_ier u) (uv_fcr u) (uv_lcr u) (uv_mcr u) v (uv_dlm u) (uv_sent u)
    else set_sent (uv_sent u ++ [v]) u.
Proof. solve_step. Qed.

Lemma uart_step_ier v u :
  uart_step (St W8 UART_INTERRUPT_ENABLE v) u =
    if dlab u then UartView (uv_ier u) (uv_fcr u) (uv_lcr u) (uv_mcr u) (uv_dll u) v (uv_sent u)
    else UartView v (uv_fcr u) (uv_lcr u) (uv_mcr u) (uv_dll u) (uv_dlm u) (uv_sent u).
Proof. solve_step. Qed.

Lemma uart_step_fcr v u :
  uart_step (St W8 UART_FIFO_CONTROL v) u =
    UartView (uv_ier u) v (uv_lcr u) (uv_mcr u) (uv_dll u) (uv_dlm u) (uv_sent u).
Proof. solve_step. Qed.

Lemma uart_step_lcr v u :
  uart_step (St W8 UART_LINE_CONTROL v) u =
    UartView (uv_ier u) (uv_fcr u) v (uv_mcr u) (uv_dll u) (uv_dlm u) (uv_sent u).
Proof. solve_step. Qed.

Lemma uart_step_mcr v u :
  uart_step (St W8 UART_MODEM_CONTROL v) u =
    UartView (uv_ier u) (uv_fcr u) (uv_lcr u) v (uv_dll u) (uv_dlm u) (uv_sent u).
Proof. solve_step. Qed.

(** An event that is no eight-bit store to a register of the console leaves it alone. *)
Lemma uart_step_other e u :
  (forall a v, e = St W8 a v ->
     a ∉ [UART_THR; UART_INTERRUPT_ENABLE; UART_FIFO_CONTROL; UART_LINE_CONTROL;
          UART_MODEM_CONTROL]) ->
  uart_step e u = u.
Proof.
  destruct e as [|[] a v|]; try done. intros H. specialize (H a v eq_refl).
  rewrite !not_elem_of_cons in H. unfold uart_step.
  repeat (rewrite decide_False by intuition congruence). done.
Qed.
End view_lemmas.

(** * Hexadecimal text *)

Lemma table_digit d : 0 <= d < 16 -> nth (Z.to_nat d) bin_to_hex_table 0 = hex_digit d.
Proof.
  intros Hd. assert (H : forallb (fun d => nth (Z.to_nat d) bin_to_hex_table 0 =? hex_digit d)
                          (seqZ 0 16) = true) by reflexivity.
  rewrite forallb_forall in H. apply Z.eqb_eq, H, list_elem_of_In, elem_of_seqZ. lia.
Qed.

Lemma bin_to_hex_digits b :
  is_byte b -> bin_to_hex b = (hex_digit (b / 16), hex_digit (b mod 16)).
Proof.
  intros Hb. unfold is_byte in Hb. unfold bin_to_hex. rewrite !land_f, shiftr_div by lia.
  change (2 ^ 4) with 16. rewrite (Z.mod_small (b / 16)) by divlia.
  rewrite !table_digit by divlia. done.
Qed.

Lemma hex_value_digit d : 0 <= d < 16 -> hex_value (hex_digit d) = d.
Proof.
  intros Hd. unfold hex_value, hex_digit.
  destruct (Z.ltb_spec d 10); [destruct (Z.leb_spec (48 + d) 57) | destruct (Z.leb_spec (55 + d) 57)];
    lia.
Qed.

Lemma hex_digit_byte d : 0 <= d < 16 -> is_byte (hex_digit d).
Proof. intros. unfold hex_digit, is_byte. destruct (d <? 10); lia. Qed.

Lemma hex_be_length n v : length (hex_be n v) = (2 * n)%nat.
Proof. induction n; cbn; lia. Qed.

Lemma parse_hex_from n v a :
  foldl (fun a c => 16 * a + hex_value c) a (hex_be n v) =
    a * 256 ^ Z.of_nat n + v mod 256 ^ Z.of_nat n.
Proof.
  revert a. induction n as [|n IH]; intros a.
  - cbn. rewrite Z.mod_1_r. lia.
  - cbn [hex_be foldl]. rewrite IH. set (b := (v / 256 ^ Z.of_nat n) mod 256).
    assert (Hb : 0 <= b < 256) by (apply Z.mod_pos_bound; lia).
    rewrite !hex_value_digit by divlia.
    rewrite Nat2Z.inj_succ, Z.pow_succ_r by lia.
    rewrite (Z.mul_comm 256 (256 ^ _)), (Z.rem_mul_r v) by lia. fold b.
    pose proof (Z.div_mod b 16). nia.
Qed.

(** * The driver's behaviour on a platform *)

Section specs.
Context `{!Bus D, !UartMap, !UartMapOk _} {S : Type} {R : S -> world D -> Prop} `{!UartHost R}.

(** The state after [bs] has been sent. *)
Definition put (bs : list Z) (s : S) : S :=
  uh_set (set_sent (uv_sent (uh_view s) ++ bs) (uh_view s)) s.

(** The console is configured: offset 0 is the transmitter. *)
Definition uart_ready (s : S) : Prop := dlab (uh_view s) = false.

Lemma put_nil s : put [] s = s.
Proof.
  unfold put. rewrite app_nil_r. replace (set_sent _ _) with (uh_view s) by by destruct (uh_view s).
  apply uh_set_view.
Qed.

Lemma put_put b1 b2 s : put b2 (put b1 s) = put (b1 ++ b2) s.
Proof.
  unfold put. rewrite !uh_view_set, uh_set_set. cbn. by rewrite (assoc_L (++)).
Qed.

Lemma ready_put bs s : uart_ready (put bs s) <-> uart_ready s.
Proof. unfold uart_ready, put. by rewrite uh_view_set. Qed.

Lemma awp_is_transmit_empty s w Q :
  R s w ->
  (forall v w', R s w' ->
     (Z.testbit v 5 = true \/ (uh_lag (w_dev w') < uh_lag (w_dev w))%nat) ->
     Q (if Z.testbit v 5 then 0x20 else 0) w') ->
  wp is_transmit_empty w Q.
Proof.
  intros Hw HQ. unfold is_transmit_empty, read_reg_u8. apply wp_bind, wp_mmio_ld.
  intros v d Hd. apply wp_ret. change 0x20 with (2 ^ 5). rewrite land_bit by lia.
  destruct (uh_lsr s w v d Hw Hd) as [HR Hl]. eapply HQ; [exact HR | exact Hl].
Qed.

(** Polling ends, and leaves the abstract state as it was. *)
Lemma wp_poll_transmit s w (Q : unit -> world D -> Prop) :
  R s w -> (forall w', R s w' -> Q tt w') ->
  wp (wait_while (e ← is_transmit_empty; mret (e =? 0))) w Q.
Proof.
  intros Hw HQ. remember (uh_lag (w_dev w)) as k eqn:Ek. revert w Hw Ek.
  induction k as [k IH] using lt_wf_ind; intros w Hw ->.
  apply wp_wait_while, wp_bind. eapply awp_is_transmit_empty; [exact Hw|].
  intros v w' Hw' [Hv|Hl].
  - rewrite Hv. apply wp_ret. cbn. auto.
  - destruct (Z.testbit v 5); apply wp_ret; cbn; [by auto|]. by eapply IH.
Qed.

Lemma awp_write_reg_u8 a v s (Q : unit -> S -> Prop) :
  a ∈ [UART_THR; UART_INTERRUPT_ENABLE; UART_FIFO_CONTROL; UART_LINE_CONTROL;
       UART_MODEM_CONTROL] ->
  Q tt (uh_set (uart_step (St W8 a (v mod 2 ^ 8)) (uh_view s)) s) ->
  awp R (write_reg_u8 a v) s Q.
Proof.
  intros Ha HQ w Hw. apply wp_mmio_st. eexists. split; [by apply uh_st | exact HQ].
Qed.

Lemma awp_write_serial a s (Q : unit -> S -> Prop) :
  uart_ready s -> is_byte a -> Q tt (put [a] s) -> awp R (write_serial a) s Q.
Proof.
  intros Hr Ha HQ. apply awp_bind. intros w Hw. eapply wp_poll_transmit; [exact Hw|].
  intros w' Hw'. exists s. split; [done|]. apply awp_write_reg_u8; [set_solver|].
  unfold uart_step. rewrite decide_True by done. rewrite Hr.
  rewrite (Z.mod_small a) by (unfold is_byte in Ha; lia). exact HQ.
Qed.

(** Output as one step: the statement sends [bs] and does nothing else. *)
Definition sends (m : M D unit) (bs : list Z) : Prop :=
  forall s, uart_ready s -> awp R m s (fun _ s' => s' = put bs s).

Lemma sends_ret : sends (mret tt) [].
Proof. intros s _. apply awp_ret. by rewrite put_nil. Qed.

Lemma sends_seq m1 m2 b1 b2 : sends m1 b1 -> sends m2 b2 -> sends (m1 ;; m2) (b1 ++ b2).
Proof.
  intros H1 H2 s Hs. apply awp_bind. eapply awp_mono; [by apply H1|]. intros _ s1 ->.
  eapply awp_mono; [apply H2; by apply ready_put|]. intros _ s2 ->. by rewrite put_put.
Qed.

Lemma sends_for_in {X} (l : list X) (f : X -> M D unit) (g : X -> list Z) :
  (forall x, x ∈ l -> sends (f x) (g x)) -> sends (for_in l f) (concat (g <$> l)).
Proof.
  induction l as [|x l IH]; intros Hf; cbn; [apply sends_ret|].
  apply sends_seq; [|apply IH; intros]; apply Hf; set_solver.
Qed.

Lemma sends_write_serial a : is_byte a -> sends (write_serial a) [a].
Proof. intros Ha s Hs. by apply awp_write_serial. Qed.

Lemma sends_hex b :
  is_byte b ->
  sends (write_serial (fst (bin_to_hex b)) ;; write_serial (snd (bin_to_hex b)))
        [hex_digit (b / 16); hex_digit (b mod 16)].
Proof.
  intros Hb. rewrite bin_to_hex_digits by done. cbn [fst snd]. unfold is_byte in Hb.
  apply (sends_seq _ _ [_] [_]); apply sends_write_serial, hex_digit_byte; divlia.
Qed.

Lemma sends_shifted_bytes (ix : list Z) v :
  Forall (Z.le 0) ix ->
  sends (for_in ix (fun i =>
           let cur := Z.land (Z.shiftr v (i * 8)) 0xff in
           let hex := bin_to_hex cur in
           write_serial (fst hex) ;; write_serial (snd hex)))
        (concat ((fun i => let b := (v / 256 ^ i) mod 256 in
                           [hex_digit (b / 16); hex_digit (b mod 16)]) <$> ix)).
Proof.
  intros Hix. apply sends_for_in. intros i Hi. cbn zeta.
  assert (H0 : 0 <= i) by by eapply Forall_forall in Hi.
  rewrite land_ff, shiftr_div by lia.
  replace (2 ^ (i * 8)) with (256 ^ i).
  - apply sends_hex, u8_byte.
  - change 256 with (2 ^ 8). rewrite <- Z.pow_mul_r by lia. f_equal. lia.
Qed.

Lemma sends_print_uart_byte b : is_byte b -> sends (print_uart_byte b) (hex_be 1 b).
Proof.
  intros Hb. unfold print_uart_byte. cbn [hex_be]. rewrite Z.div_1_r.
  rewrite (Z.mod_small b 256) by (unfold is_byte in Hb; lia). by apply sends_hex.
Qed.

Lemma sends_print_uart_int v : sends (print_uart_int v) (hex_be 4 v).
Proof. apply (sends_shifted_bytes [3; 2; 1; 0]). by repeat constructor. Qed.

Lemma sends_print_uart_addr v : sends (print_uart_addr v) (hex_be 8 v).
Proof. apply (sends_shifted_bytes [7; 6; 5; 4; 3; 2; 1; 0]). by repeat constructor. Qed.

Lemma sends_print_uart_nul t : sends (print_uart t) (until_nul (str t)).
Proof.
  induction t as [|c t IH]; cbn; [apply sends_ret|].
  destruct (code c =? 0); [apply sends_ret|].
  apply (sends_seq _ _ [_]); [apply sends_write_serial, code_byte | exact IH].
Qed.

(** Literals have no NUL inside. *)
Lemma sends_print_uart t : 0 ∉ str t -> sends (print_uart t) (str t).
Proof.
  induction t as [|c t IH]; cbn; intros Ht; [apply sends_ret|].
  destruct (Z.eqb_spec (code c) 0) as [E|_]; [set_solver|].
  apply (sends_seq _ _ [_]); [apply sends_write_serial, code_byte | set_solver].
Qed.

Lemma awp_sends m bs s (Q : unit -> S -> Prop) :
  sends m bs -> uart_ready s -> Q tt (put bs s) -> awp R m s Q.
Proof. intros Hm Hs HQ. eapply awp_mono; [by apply Hm|]. by intros [] s' ->. Qed.

(** The registers [init_uart] leaves; the interrupt enable register is reached by the first
    write only when the divisor latches are not selected yet. *)
Definition uart_line (d : Z) (u : uart_view) : uart_view :=
  UartView (if dlab u then uv_ier u else 0) (uv_fcr u) 3 (uv_mcr u) (u8 d) (u8 (d / 256)) (uv_sent u).

Definition uart_configured (d : Z) (u : uart_view) : uart_view :=
  UartView (if dlab u then uv_ier u else 0) 0xC7 3 0x20 (u8 d) (u8 (d / 256)) (uv_sent u).

(** One register write of [init_uart]. *)
Local Ltac reg_step lem :=
  first [wp_seq | idtac]; apply awp_write_reg_u8; [in_list|];
  rewrite ?uh_view_set, ?uh_set_set, lem;
  cbn [uv_ier uv_fcr uv_lcr uv_mcr uv_dll uv_dlm uv_sent];
  try change (dlab (UartView _ _ (0x80 mod 2 ^ 8) _ _ _ _)) with true; cbn iota.

(** The writes both platforms begin with: interrupts, divisor and line parameters. *)
Lemma awp_uart_line {A} d (k : M D A) s (Q : A -> S -> Prop) :
  awp R k (uh_set (uart_line d (uh_view s)) s) Q ->
  awp R (write_reg_u8 UART_INTERRUPT_ENABLE 0x00 ;;
         write_reg_u8 UART_LINE_CONTROL 0x80 ;;
         write_reg_u8 UART_DLAB_LSB d ;;
         write_reg_u8 UART_DLAB_MSB (Z.land (Z.shiftr d 8) 0xFF) ;;
         write_reg_u8 UART_LINE_CONTROL 0x03 ;; k) s Q.
Proof.
  intros Hk. rewrite um_lsb, um_msb.
  reg_step uart_step_ier. remember (uh_view s) as u eqn:Eu.
  assert (E : forall ier dlm, (if dlab u
     then UartView (uv_ier u) (uv_fcr u) (uv_lcr u) (uv_mcr u) (uv_dll u) dlm (uv_sent u)
     else UartView ier (uv_fcr u) (uv_lcr u) (uv_mcr u) (uv_dll u) (uv_dlm u) (uv_sent u)) =
     UartView (if dlab u then uv_ier u else ier) (uv_fcr u) (uv_lcr u) (uv_mcr u) (uv_dll u)
       (if dlab u then dlm else uv_dlm u) (uv_sent u)) by (intros; by destruct (dlab u)).
  rewrite E. clear E.
  reg_step uart_step_lcr. reg_step uart_step_thr. reg_step uart_step_ier. reg_step uart_step_lcr.
  unfold uart_line in Hk. rewrite land_ff, shiftr_div by lia. unfold u8 in *.
  by rewrite Z.mod_mod by lia.
Qed.

Lemma awp_uart_fcr v s :
  awp R (write_reg_u8 UART_FIFO_CONTROL v) s (fun _ s' =>
    s' = uh_set (uart_step (St W8 UART_FIFO_CONTROL (u8 v)) (uh_view s)) s).
Proof. apply awp_write_reg_u8; [in_list | done]. Qed.

Lemma awp_uart_mcr v s :
  awp R (write_reg_u8 UART_MODEM_CONTROL v) s (fun _ s' =>
    s' = uh_set (uart_step (St W8 UART_MODEM_CONTROL (u8 v)) (uh_view s)) s).
Proof. apply awp_write_reg_u8; [in_list | done]. Qed.

Lemma awp_init_uart freq baud s :
  u32 (Z.shiftl baud 4) <> 0 ->
  awp R (init_uart freq baud) s
    (fun _ s' => s' = uh_set (uart_configured (freq / u32 (Z.shiftl baud 4)) (uh_view s)) s).
Proof.
  intros Hd. unfold init_uart. destruct (Z.eqb_spec (u32 (Z.shiftl baud 4)) 0) as [|_]; [done|].
  apply awp_uart_line. wp_seq. eapply awp_mono; [apply awp_uart_fcr|]. intros _ s1 ->.
  eapply awp_mono; [apply awp_uart_mcr|]. intros _ s2 ->.
  rewrite ?uh_view_set, ?uh_set_set, uart_step_fcr, uart_step_mcr. done.
Qed.
End specs.

(** * Reports of what memory holds *)

Section reports.
Context `{!Bus D, !UartMap, !UartMapOk _} {S : Type} {R : S -> world D -> Prop} `{!UartHost R, !MemHost R}.

Lemma mem_put bs s : mh_mem (put bs s) = mh_mem s.
Proof. apply mh_set. Qed.

Lemma awp_load8 a v s (Q : Z -> S -> Prop) :
  mh_mem s !! a = Some v -> Q v s -> awp R (load8 a) s Q.
Proof. intros Hv HQ w Hw. eapply wp_load8; [rewrite (mh_rel _ _ Hw); exact Hv|]. eauto. Qed.

Lemma awp_load_le n a bs s (Q : Z -> S -> Prop) :
  read_bytes (mh_mem s) a n = Some bs -> Q (le_val bs) s -> awp R (load_le n a) s Q.
Proof. intros Hv HQ w Hw. eapply wp_load_le; [rewrite (mh_rel _ _ Hw); exact Hv|]. eauto. Qed.

Section prints.
Context (a : Z) (bs : list Z) (n : nat).

Definition holds (s : S) : Prop := read_bytes (mh_mem s) a n = Some bs.

Lemma holds_put txt s : holds (put txt s) <-> holds s.
Proof. unfold holds. by rewrite mem_put. Qed.

(** [m] sends [txt] when the memory at [a] holds [bs]. *)
Definition prints {A} (m : M D A) (txt : list Z) : Prop :=
  forall s, uart_ready s -> holds s -> awp R m s (fun _ s' => s' = put txt s).

Lemma prints_sends m txt : sends (R := R) m txt -> prints m txt.
Proof. intros Hm s Hs _. by apply Hm. Qed.

Lemma prints_ret {A} (x : A) : prints (mret x) [].
Proof. intros s _ _. apply awp_ret. by rewrite put_nil. Qed.

Lemma prints_seq {A B} (m1 : M D A) (m2 : M D B) t1 t2 :
  prints m1 t1 -> prints m2 t2 -> prints (m1 ;; m2) (t1 ++ t2).
Proof.
  intros H1 H2 s Hs Hh. wp_seq. eapply awp_mono; [by apply H1|]. intros _ s1 ->.
  eapply awp_mono; [apply H2; [by rewrite ready_put | by apply holds_put]|].
  intros _ s2 ->. by rewrite put_put.
Qed.

(** A load whose value is printed. *)
Lemma prints_load {A} k o (m : Z -> M D A) txt :
  (o + k <= n)%nat -> prints (m (le_val (take k (drop o bs)))) txt ->
  prints (v ← load_le k (a + Z.of_nat o); m v) txt.
Proof.
  intros Hk Hm s Hs Hh. wp_seq. eapply awp_load_le; [by apply (read_bytes_sub _ _ _ _ _ _ Hh)|].
  by apply Hm.
Qed.
End prints.

(** A loop that prints some bytes of a block one by one. *)
Lemma prints_bytes_with a bs n o k (f : Z -> M D unit) (g : Z -> list Z) :
  Forall is_byte bs -> (o + k <= n)%nat ->
  (forall b, is_byte b -> sends (R := R) (f b) (g b)) ->
  prints a bs n (for_in (below (Z.of_nat k)) (fun j => b ← load8 (a + Z.of_nat o + j); f b))
    (concat (g <$> take k (drop o bs))).
Proof.
  intros Hb Hk Hf s Hs Hh. pose proof (read_bytes_sub _ _ _ _ _ _ Hh Hk) as Hr.
  pose proof (read_bytes_length _ _ _ _ Hr) as Hl. set (l := take k (drop o bs)) in *.
  eapply (awp_for_in _ _ _ (fun pre s' => s' = put (concat (g <$> take (length pre) l)) s)).
  - change (s = put [] s). by rewrite put_nil.
  - intros pre j post s' El ->. destruct (below_split _ _ _ _ El) as [Ej Hj].
    destruct (read_bytes_at _ _ _ _ j Hr Hj) as (b & Hbj & Hm).
    assert (is_byte b).
    { eapply Forall_lookup_1; [|exact Hbj]. by apply Forall_take, Forall_drop. }
    wp_seq. eapply awp_load8; [by rewrite mem_put|]. eapply awp_mono.
    { apply Hf; [done | by rewrite ready_put]. }
    intros _ s'' ->. rewrite put_put, length_app. cbn [length]. rewrite Nat.add_1_r.
    rewrite (take_S_r _ _ b) by (by rewrite Ej, Nat2Z.id in Hbj).
    by rewrite fmap_app, concat_app; cbn [fmap list_fmap concat]; rewrite app_nil_r.
  - intros s' ->. rewrite below_length, Nat2Z.id by lia. by rewrite take_ge by lia.
Qed.

(** A part of a block is held where it begins. *)
Lemma holds_sub a bs n o s :
  length bs = n -> (o <= n)%nat -> holds a bs n s -> holds (a + Z.of_nat o) (drop o bs) (n - o) s.
Proof.
  intros Hl Ho Hh. unfold holds in *.
  rewrite <- (take_ge (drop o bs) (n - o)) by (rewrite length_drop; lia).
  apply (read_bytes_sub _ _ _ _ _ _ Hh). lia.
Qed.
End reports.

(** A literal of the source has no NUL inside. *)
Ltac literal := by apply (bool_decide_unpack _); vm_compute.

(** Sends the text of one print statement. *)
Ltac print_step :=
  first
    [ wp_seq; print_step
    | eapply awp_sends;
      [ first [ apply sends_print_uart; literal | apply sends_print_uart_addr
              | apply sends_print_uart_int | apply sends_print_uart_byte ]
      | rewrite ?ready_put; done | rewrite ?put_put; cbn beta ] ].

(** * The transmitter is written only when it is empty *)

Section guard.
Context `{!Bus D, !UartMap, !UartMapOk _}.

Definition guarded (w : world D) : Prop := thr_guarded (w_tr w).

(** An event other than a byte stored at offset 0. *)
Lemma guarded_event e tr :
  thr_guarded tr -> (forall v, e = St W8 UART_THR v -> dlab (uart_view_of tr) = true) ->
  thr_guarded (e :: tr).
Proof.
  intros Ht He. split; [|done]. intros v Ev Hd. apply He in Ev. congruence.
Qed.

Lemma guarded_ld wd a : keeps guarded (mmio_ld wd a).
Proof.
  intros n w Hw. unfold mmio_ld. destruct (dev_ld wd a (w_dev w)). split; [|done].
  by apply guarded_event.
Qed.

Lemma guarded_st wd a v : wd <> W8 \/ a <> UART_THR -> keeps guarded (mmio_st wd a v).
Proof.
  intros Hne n w Hw. split; [|done]. apply guarded_event; [done|].
  intros v' [= -> -> _]. by destruct Hne.
Qed.

Lemma guarded_nop : keeps guarded nop.
Proof. intros n w Hw. split; [|done]. by apply guarded_event. Qed.

Lemma guarded_store8 a v : keeps guarded (store8 a v).
Proof. by intros n w Hw. Qed.

(** When polling ends, the newest event is the load that saw the transmitter empty. *)
Lemma guarded_poll n w :
  guarded w ->
  let '(o, w') :=
    wait_while (e ← is_transmit_empty; mret (e =? 0)) n w in
  guarded w'
  /\ (o = Val tt -> exists x tr, w_tr w' = Ld W8 UART_LINE_STATUS x :: tr /\ Z.testbit x 5 = true).
Proof.
  revert w. induction n as [|n IH]; intros w Hw; [done|].
  rewrite wait_while_S. unfold is_transmit_empty, mbind at 1 2, M_bind, read_reg_u8, mmio_ld.
  destruct (dev_ld W8 UART_LINE_STATUS (w_dev w)) as [v d] eqn:Ed.
  assert (Hw' : guarded (World d (w_mem w) (Ld W8 UART_LINE_STATUS v :: w_tr w)))
    by by apply guarded_event.
  unfold mret, M_ret. change 0x20 with (2 ^ 5). rewrite land_bit by lia.
  destruct (Z.testbit v 5) eqn:Ev; [split; [done | by eauto]|]. by apply IH.
Qed.

Lemma guarded_write_serial a : keeps guarded (write_serial a).
Proof.
  intros n w Hw. unfold write_serial, mbind at 1, M_bind.
  pose proof (guarded_poll n w Hw) as Hp.
  destruct (wait_while _ n w) as [[[]| |] w1]; destruct Hp as [Hg Hp]; [|done..].
  split; [|done]. split; [|done]. intros v _ _. by apply Hp.
Qed.

Lemma guarded_init_uart freq baud : keeps guarded (init_uart freq baud).
Proof.
  pose proof um_nodup as Hn. rewrite !NoDup_cons, !not_elem_of_cons in Hn.
  unfold init_uart. destruct (_ =? 0); [apply keeps_fault|]. cbn zeta.
  rewrite um_lsb, um_msb.
  intros n w Hw. split; [|done]. unfold guarded. cbn [w_tr snd mbind M_bind write_reg_u8 mmio_st w_dev w_mem].
  repeat (apply guarded_event; [|intros v' [= E]; try (intuition congruence)]); [done|].
  unfold uart_view_of. cbn [foldr w_tr].
  by rewrite uart_step_lcr.
Qed.
End guard.

(** * More fuel changes nothing *)

Section stability.
Context `{!Bus D, !UartMap}.

Lemma stable_write_serial a : stable (write_serial a).
Proof. unfold write_serial, is_transmit_empty, read_reg_u8, write_reg_u8. stable_tac. Qed.

Hint Resolve stable_write_serial : stable.

Lemma stable_init_uart freq baud : stable (init_uart freq baud).
Proof. unfold init_uart, write_reg_u8. stable_tac. Qed.

Lemma stable_print_uart s : stable (print_uart s).
Proof. induction s as [|c s IH]; cbn; stable_tac. Qed.

Lemma stable_print_uart_byte b : stable (print_uart_byte b).
Proof. unfold print_uart_byte. stable_tac. Qed.

Lemma stable_print_uart_int v : stable (print_uart_int v).
Proof. unfold print_uart_int. stable_tac. Qed.

Lemma stable_print_uart_addr v : stable (print_uart_addr v).
Proof. unfold print_uart_addr. stable_tac. Qed.
End stability.

#[export] Hint Resolve stable_init_uart stable_print_uart stable_print_uart_byte
  stable_print_uart_int stable_print_uart_addr : stable.
