(* ===== verification/Board.v ===== *)
(** The FPGA board the zero-stage boot loader of [corev_apu/fpga/src/bootrom] runs on: the register
    maps of its headers [uart.h] and [spi.h], the interface of its two devices (a 16550 console and
    a quad-SPI controller with an SPI slave behind it), and the abstract state of the drivers. *)
From S2P Require Import Prelude Machine Uart.

(** * Register maps *)

(** [uart.h] of the FPGA boot ROM: one register every four bytes. *)
Definition UART_BASE : Z := 0x10000000.

#[export] Instance fpga_uart : UartMap := {
  UART_THR := UART_BASE + 0;
  UART_INTERRUPT_ENABLE := UART_BASE + 4;
  UART_FIFO_CONTROL := UART_BASE + 8;
  UART_LINE_CONTROL := UART_BASE + 12;
  UART_MODEM_CONTROL := UART_BASE + 16;
  UART_LINE_STATUS := UART_BASE + 20;
  UART_DLAB_LSB := UART_BASE + 0;
  UART_DLAB_MSB := UART_BASE + 4
}.

#[export] Instance fpga_uart_ok : UartMapOk fpga_uart.
Proof. split; [|reflexivity..]. by apply (bool_decide_unpack _). Qed.

(** [spi.h]. *)
Definition SPI_BASE : Z := 0x20000000.
Definition SPI_RESET_REG : Z := SPI_BASE + 0x40.
Definition SPI_CONTROL_REG : Z := SPI_BASE + 0x60.
Definition SPI_STATUS_REG : Z := SPI_BASE + 0x64.
Definition SPI_TRANSMIT_REG : Z := SPI_BASE + 0x68.
Definition SPI_RECEIVE_REG : Z := SPI_BASE + 0x6C.
Definition SPI_SLAVE_SELECT_REG : Z := SPI_BASE + 0x70.

(** The registers of the console the driver writes. *)
Definition uart_written : list Z :=
  [UART_THR; UART_INTERRUPT_ENABLE; UART_FIFO_CONTROL; UART_LINE_CONTROL; UART_MODEM_CONTROL].

(** * The SPI slave and the SPI controller *)

(** A slave: what it answers to a byte shifted into it, and how it reacts to a value written to the
    slave select register. *)
Class SpiSlave (C : Type) := {
  xfer : Z -> C -> Z * C;
  select : Z -> C -> C;
  xfer_byte : forall b c, is_byte (fst (xfer b c))
}.

(** What the driver relies on in the controller. [spi_rx] holds the bytes received or still being
    shifted that the CPU has not read, oldest first; [spi_card] is the slave once these are all
    shifted; [spi_on] tells that a byte written is shifted; [spi_vis] tells whether the oldest can be
    read now, and [spi_lag] bounds the status reads until it can. Reading and writing the console, and letting time pass, change none of
    [spi_on], [spi_rx] and [spi_card]. *)
Class SpiController (D C : Type) `{!Bus D, !SpiSlave C} := {
  spi_on : D -> bool;
  spi_rx : D -> list Z;
  spi_card : D -> C;
  spi_vis : D -> bool;
  spi_lag : D -> nat;

  (** writes *)
  ctl_reset : forall d, spi_rx d = [] ->
    let d' := bus_st W32 SPI_RESET_REG 0x0a d in
    spi_rx d' = [] /\ spi_card d' = spi_card d;
  (** bits 1 and 2 enable the controller as a master, bits 5 and 6 reset its FIFOs, and bit 8
      inhibits transactions: a byte written then is not shifted, those written before it are *)
  ctl_control : forall v d,
    (spi_rx d = [] \/ Z.testbit v 5 = false /\ Z.testbit v 6 = false) ->
    let d' := bus_st W32 SPI_CONTROL_REG v d in
    spi_on d' = Z.testbit v 1 && Z.testbit v 2 && negb (Z.testbit v 8)
    /\ spi_rx d' = spi_rx d /\ spi_card d' = spi_card d;
  ctl_select : forall v d, spi_rx d = [] ->
    let d' := bus_st W32 SPI_SLAVE_SELECT_REG v d in
    spi_on d' = spi_on d /\ spi_rx d' = [] /\ spi_card d' = select v (spi_card d);
  ctl_transmit : forall b d, is_byte b -> spi_on d = true -> (length (spi_rx d) < 256)%nat ->
    let d' := bus_st W32 SPI_TRANSMIT_REG b d in
    spi_on d' = true /\ spi_rx d' = spi_rx d ++ [fst (xfer b (spi_card d))]
    /\ spi_card d' = snd (xfer b (spi_card d));

  (** reads: bit 0 of the status says that nothing can be read *)
  ctl_status : forall d v d', dev_ld W32 SPI_STATUS_REG d = (v, d') ->
    spi_on d' = spi_on d /\ spi_rx d' = spi_rx d /\ spi_card d' = spi_card d
    /\ Z.testbit v 0 = negb (spi_vis d')
    /\ (spi_vis d' = true -> spi_rx d' <> [])
    /\ (spi_vis d' = false -> spi_rx d' <> [] -> (spi_lag d' < spi_lag d)%nat);
  ctl_receive : forall d v d' b l, spi_vis d = true -> spi_rx d = b :: l ->
    dev_ld W32 SPI_RECEIVE_REG d = (v, d') ->
    v = b /\ spi_on d' = spi_on d /\ spi_rx d' = l /\ spi_card d' = spi_card d;

  (** the rest of the board *)
  ctl_uart_st : forall a v d, a ∈ uart_written ->
    let d' := bus_st W8 a v d in
    spi_on d' = spi_on d /\ spi_rx d' = spi_rx d /\ spi_card d' = spi_card d;
  ctl_uart_ld : forall d v d', dev_ld W8 UART_LINE_STATUS d = (v, d') ->
    spi_on d' = spi_on d /\ spi_rx d' = spi_rx d /\ spi_card d' = spi_card d;
  ctl_nop : forall d, let d' := bus_nop d in
    spi_on d' = spi_on d /\ spi_rx d' = spi_rx d /\ spi_card d' = spi_card d
}.

(** The console empties its transmitter after finitely many loads of its line status. *)
Class Console (D : Type) `{!Bus D} := {
  uart_lag : D -> nat;
  uart_live : forall d v d', dev_ld W8 UART_LINE_STATUS d = (v, d') ->
    Z.testbit v 5 = true \/ (uart_lag d' < uart_lag d)%nat
}.

(** * The abstract state of the boot loader *)

(** [b_on]: the SPI controller is enabled; [b_card]: the slave; [b_mem]: memory; [b_uart]: the
    registers of the console and what it has sent. *)
Record board (C : Type) := Board {
  b_on : bool;
  b_card : C;
  b_mem : gmap Z Z;
  b_uart : uart_view
}.
Arguments Board {C} _ _ _ _.
Arguments b_on {C} _.
Arguments b_card {C} _.
Arguments b_mem {C} _.
Arguments b_uart {C} _.

Definition set_on {C} (x : bool) (s : board C) : board C := Board x (b_card s) (b_mem s) (b_uart s).
Definition set_card {C} (c : C) (s : board C) : board C := Board (b_on s) c (b_mem s) (b_uart s).
Definition set_mem {C} (m : gmap Z Z) (s : board C) : board C := Board (b_on s) (b_card s) m (b_uart s).
Definition set_uart {C} (u : uart_view) (s : board C) : board C := Board (b_on s) (b_card s) (b_mem s) u.

Section board.
Context {D C : Type} `{!Bus D, !SpiSlave C, !SpiController D C, !Console D}.

(** Between two calls of the driver every received byte has been read. *)
Definition at_board (s : board C) (w : world D) : Prop :=
  spi_on (w_dev w) = b_on s
  /\ spi_rx (w_dev w) = []
  /\ spi_card (w_dev w) = b_card s
  /\ w_mem w = b_mem s
  /\ uart_view_of (w_tr w) = b_uart s.

#[export] Instance board_uart : UartHost at_board.
Proof.
  refine {| uh_view := b_uart; uh_set := set_uart; uh_lag := uart_lag |}; try done.
  - by intros [].
  - intros s w a v Ha (Hon & Hrx & Hc & Hm & Hu).
    destruct (ctl_uart_st a v (w_dev w) Ha) as (H1 & H2 & H3).
    repeat split; cbn; try congruence. unfold uart_view_of in *. cbn [foldr]. by rewrite Hu.
  - intros s w v d (Hon & Hrx & Hc & Hm & Hu) Hd. split; [|by eapply uart_live].
    destruct (ctl_uart_ld _ _ _ Hd) as (H1 & H2 & H3).
    repeat split; cbn; try congruence. exact Hu.
Defined.

#[export] Instance board_mem : MemHost at_board.
Proof. by refine {| mh_mem := b_mem |}; [intros s w (_ & _ & _ & -> & _)|]. Defined.

(** Output commutes with the other components of the state. *)
Lemma set_on_put x bs (s : board C) : set_on x (put bs s) = put bs (set_on x s).
Proof. done. Qed.

Lemma set_card_put c bs (s : board C) : set_card c (put bs s) = put bs (set_card c s).
Proof. done. Qed.

Lemma set_mem_put m bs (s : board C) : set_mem m (put bs s) = put bs (set_mem m s).
Proof. done. Qed.
End board.

(** * Invariants of the boot loader *)

(** What a property of worlds must satisfy to hold of every run of the boot loader: the accesses
    the drivers make preserve it. [A] is the set of addresses that may be stored to. *)
Class Closed {D} `{!Bus D} (I : world D -> Prop) (A : Z -> Prop) : Prop := {
  cl_serial : forall a, keeps I (write_serial a);
  cl_init_uart : forall freq baud, keeps I (init_uart freq baud);
  cl_spi_ld : forall a, a ∈ [SPI_STATUS_REG; SPI_RECEIVE_REG] -> keeps I (mmio_ld W32 a);
  cl_spi_st : forall a v,
    a ∈ [SPI_RESET_REG; SPI_CONTROL_REG; SPI_TRANSMIT_REG; SPI_SLAVE_SELECT_REG] ->
    keeps I (mmio_st W32 a v);
  cl_nop : keeps I nop;
  cl_store8 : forall a v, A a -> keeps I (store8 a v)
}.

Section closed.
Context `{!Bus D} {I : world D -> Prop} {A : Z -> Prop} `{!Closed I A}.

Lemma keeps_print_uart s : keeps I (print_uart s).
Proof.
  induction s as [|c s IH]; cbn; [apply keeps_ret|]. apply keeps_if; [apply keeps_ret|].
  apply keeps_bind; [apply cl_serial | done].
Qed.

Lemma keeps_print_uart_byte b : keeps I (print_uart_byte b).
Proof. apply keeps_bind; intros; apply cl_serial. Qed.

Lemma keeps_print_uart_int v : keeps I (print_uart_int v).
Proof. apply keeps_for_in. intros. apply keeps_bind; intros; apply cl_serial. Qed.

Lemma keeps_print_uart_addr v : keeps I (print_uart_addr v).
Proof. apply keeps_for_in. intros. apply keeps_bind; intros; apply cl_serial. Qed.
End closed.

#[export] Hint Resolve cl_init_uart cl_nop : keeps.
#[export] Hint Resolve keeps_print_uart keeps_print_uart_byte keeps_print_uart_int
  keeps_print_uart_addr : keeps.
#[export] Hint Extern 2 (keeps _ (mmio_ld W32 _)) => apply cl_spi_ld; in_list : keeps.
#[export] Hint Extern 2 (keeps _ (mmio_st W32 _ _)) => apply cl_spi_st; in_list : keeps.
