(* ===== verification/Spi.v ===== *)
(** The SPI driver of the FPGA boot loader ([src/spi.c]) and its refinement: one call moves bytes
    between the CPU and the slave in order, and leaves the controller drained. *)
From S2P Require Import Prelude Machine Uart Board.

(** * The driver *)

Section driver.
Context `{!Bus D}.

Definition write_reg (addr value : Z) : M D unit := mmio_st W32 addr value.
Definition read_reg (addr : Z) : M D Z := mmio_ld W32 addr.

(** [for (int i = 0; i < n; i++) nop] *)
Definition nops (n : Z) : M D unit := for_in (below n) (fun _ => nop).

Definition spi_init : M D unit :=
  print_uart ("init SPI" +:+ crlf) ;;
  write_reg SPI_RESET_REG 0x0a ;;
  nops 10 ;;
  write_reg SPI_CONTROL_REG 0x104 ;;
  status ← read_reg SPI_STATUS_REG;
  print_uart "status: 0x" ;;
  print_uart_addr status ;;
  print_uart crlf ;;
  write_reg SPI_CONTROL_REG 0x166 ;;
  status ← read_reg SPI_STATUS_REG;
  print_uart "status: 0x" ;;
  print_uart_addr status ;;
  print_uart crlf ;;
  write_reg SPI_CONTROL_REG 0x06 ;;
  print_uart ("SPI initialized!" +:+ crlf).

Definition spi_txrx (byte : Z) : M D Z :=
  write_reg SPI_SLAVE_SELECT_REG 0xfffffffe ;;
  write_reg SPI_TRANSMIT_REG byte ;;
  nops 100 ;;
  write_reg SPI_CONTROL_REG 0x106 ;;
  wait_while (status ← read_reg SPI_STATUS_REG; mret (Z.land status 0x1 =? 0x1)) ;;
  result ← read_reg SPI_RECEIVE_REG;
  status ← read_reg SPI_STATUS_REG;
  (if negb (Z.land status 0x1 =? 0x1) then
     print_uart "rx fifo not empty?? " ;;
     status ← read_reg SPI_STATUS_REG;
     print_uart_addr status ;;
     print_uart crlf
   else mret tt) ;;
  write_reg SPI_SLAVE_SELECT_REG 0xffffffff ;;
  write_reg SPI_CONTROL_REG 0x06 ;;
  mret (u8 result).

(** [bytes] and [ret] are addresses. *)
Definition spi_write_bytes (bytes len ret : Z) : M D Z :=
  if len >? 256 then mret (-1) else
  write_reg SPI_SLAVE_SELECT_REG 0xfffffffe ;;
  for_in (below len) (fun i =>
    b ← load8 (bytes + i);
    write_reg SPI_TRANSMIT_REG (Z.land b 0xff)) ;;
  nops 50 ;;
  write_reg SPI_CONTROL_REG 0x106 ;;
  wait_while (status ← read_reg SPI_STATUS_REG; mret (Z.land status 0x1 =? 0x1)) ;;
  iter (fun i =>
    if i <? len then
      status ← read_reg SPI_STATUS_REG;
      if negb (Z.land status 0x1 =? 0x1) then
        v ← read_reg SPI_RECEIVE_REG;
        store8 (ret + i) v ;;
        mret (inl (i + 1))
      else mret (inl i)
    else mret (inr tt)) 0 ;;
  write_reg SPI_SLAVE_SELECT_REG 0xffffffff ;;
  write_reg SPI_CONTROL_REG 0x06 ;;
  mret 0.
End driver.

(** * The link: what a call means for the slave *)

Section link.
Context `{!SpiSlave C}.

(** One byte, framed by the slave select. *)
Definition link_txrx (b : Z) (c : C) : Z * C :=
  let '(r, c) := xfer b (select 0xfffffffe c) in (r, select 0xffffffff c).

Fixpoint xfers (bs : list Z) (c : C) : list Z * C :=
  match bs with
  | [] => ([], c)
  | b :: bs => let '(r, c) := xfer b c in let '(rs, c) := xfers bs c in (r :: rs, c)
  end.

(** A burst, framed by the slave select. *)
Definition link_burst (bs : list Z) (c : C) : list Z * C :=
  let '(rs, c) := xfers bs (select 0xfffffffe c) in (rs, select 0xffffffff c).
End link.

(** * Refinement *)

Section specs.
Context {D C : Type} `{!Bus D, !SpiSlave C, !SpiController D C, !Console D}.

(** The state of the controller inside a call: [rx] bytes are still to be read. *)
Definition mid (s : board C) (rx : list Z) (w : world D) : Prop :=
  spi_on (w_dev w) = b_on s
  /\ spi_rx (w_dev w) = rx
  /\ spi_card (w_dev w) = b_card s
  /\ w_mem w = b_mem s
  /\ uart_view_of (w_tr w) = b_uart s.

Lemma mid_at s w : mid s [] w <-> at_board s w.
Proof. done. Qed.

Local Ltac fields := 
  repeat split; cbn [w_dev w_mem w_tr b_on b_card b_mem b_uart set_on set_card]; try congruence.

Lemma wp_select v s w (Q : unit -> world D -> Prop) :
  mid s [] w -> 0 <= v < 2 ^ 32 ->
  (forall w', mid (set_card (select v (b_card s)) s) [] w' -> Q tt w') ->
  wp (write_reg SPI_SLAVE_SELECT_REG v) w Q.
Proof.
  intros (H1 & H2 & H3 & H4 & H5) Hv HQ. apply wp_mmio_st, HQ. cbn [bits].
  rewrite Z.mod_small by done. destruct (ctl_select v (w_dev w) H2) as (E1 & E2 & E3).
  fields. exact H5.
Qed.

Lemma wp_control v s rx w (Q : unit -> world D -> Prop) :
  mid s rx w ->
  0 <= v < 2 ^ 32 -> (rx = [] \/ Z.testbit v 5 = false /\ Z.testbit v 6 = false) ->
  (forall w', mid (set_on (Z.testbit v 1 && Z.testbit v 2 && negb (Z.testbit v 8)) s) rx w' -> Q tt w') ->
  wp (write_reg SPI_CONTROL_REG v) w Q.
Proof.
  intros (H1 & H2 & H3 & H4 & H5) Hv Hf HQ. apply wp_mmio_st, HQ. cbn [bits].
  rewrite Z.mod_small by done.
  destruct (ctl_control v (w_dev w)) as (E1 & E2 & E3); [by rewrite H2|]. fields. exact H5.
Qed.

Lemma wp_transmit b s rx w (Q : unit -> world D -> Prop) :
  mid s rx w -> is_byte b -> b_on s = true -> (length rx < 256)%nat ->
  (forall w', mid (set_card (snd (xfer b (b_card s))) s) (rx ++ [fst (xfer b (b_card s))]) w' ->
     Q tt w') ->
  wp (write_reg SPI_TRANSMIT_REG b) w Q.
Proof.
  intros (H1 & H2 & H3 & H4 & H5) Hb Hon Hl HQ. apply wp_mmio_st, HQ. cbn [bits].
  rewrite Z.mod_small by (unfold is_byte in Hb; lia).
  destruct (ctl_transmit b (w_dev w)) as (E1 & E2 & E3); [done | congruence | congruence|].
  fields. exact H5.
Qed.

Lemma wp_nops n s rx w (Q : unit -> world D -> Prop) :
  mid s rx w -> (forall w', mid s rx w' -> Q tt w') -> wp (nops n) w Q.
Proof.
  intros Hw HQ. eapply (wp_for_in _ _ (fun _ w => mid s rx w)); [done | | done].
  intros pre x post w' _ (H1 & H2 & H3 & H4 & H5). apply wp_nop.
  destruct (ctl_nop (w_dev w')) as (E1 & E2 & E3). fields. exact H5.
Qed.

(** One status load: either a byte can be read next, or the wait got shorter. *)
Lemma wp_status s rx w (Q : Z -> world D -> Prop) :
  mid s rx w ->
  (forall v w', mid s rx w' ->
     (if spi_vis (w_dev w') then (Z.land v 1 =? 1) = false /\ rx <> []
      else (Z.land v 1 =? 1) = true
           /\ (rx <> [] -> (spi_lag (w_dev w') < spi_lag (w_dev w))%nat)) ->
     Q v w') ->
  wp (read_reg SPI_STATUS_REG) w Q.
Proof.
  intros (H1 & H2 & H3 & H4 & H5) HQ. apply wp_mmio_ld. intros v d Hd.
  destruct (ctl_status _ _ _ Hd) as (E1 & E2 & E3 & E4 & E5 & E6).
  apply HQ; [fields; exact H5|]. cbn [w_dev]. rewrite land_1, E4.
  destruct (spi_vis d); cbn.
  - split; [done|]. intros ->. apply E5; congruence.
  - split; [done|]. intros Hne. apply E6; congruence.
Qed.

Lemma wp_wait_rx s rx w (Q : unit -> world D -> Prop) :
  mid s rx w -> rx <> [] ->
  (forall w', mid s rx w' -> spi_vis (w_dev w') = true -> Q tt w') ->
  wp (wait_while (status ← read_reg SPI_STATUS_REG; mret (Z.land status 0x1 =? 0x1))) w Q.
Proof.
  intros Hw Hrx HQ. remember (spi_lag (w_dev w)) as k eqn:Ek. revert w Hw Ek.
  induction k as [k IH] using lt_wf_ind; intros w Hw ->.
  apply wp_wait_while, wp_bind. eapply wp_status; [exact Hw|]. intros v w' Hw' Hv.
  apply wp_ret. destruct (spi_vis (w_dev w')) eqn:Ev; destruct Hv as [-> Hl].
  - by apply HQ.
  - eapply IH; [|exact Hw'|done]. by apply Hl.
Qed.

Lemma wp_receive b l s w (Q : Z -> world D -> Prop) :
  spi_vis (w_dev w) = true -> mid s (b :: l) w ->
  (forall w', mid s l w' -> Q b w') ->
  wp (read_reg SPI_RECEIVE_REG) w Q.
Proof.
  intros Hv (H1 & H2 & H3 & H4 & H5) HQ. apply wp_mmio_ld. intros v d Hd.
  destruct (ctl_receive _ _ _ _ _ Hv H2 Hd) as (-> & E2 & E3 & E4). apply HQ. fields. exact H5.
Qed.

(** [spi_txrx]: one byte each way; the controller must be enabled. *)
Lemma awp_spi_txrx b s :
  is_byte b -> b_on s = true ->
  awp at_board (spi_txrx b) s
    (fun r s' => r = fst (link_txrx b (b_card s))
                 /\ s' = set_card (snd (link_txrx b (b_card s))) s).
Proof.
  intros Hb Hon w Hw. unfold spi_txrx, link_txrx.
  destruct (xfer b (select 0xfffffffe (b_card s))) as [r c] eqn:Ex. cbn [fst snd].
  wp_seq. eapply wp_select; [by apply mid_at | lia | cbn beta; intros w1 Hw1].
  wp_seq. eapply wp_transmit; [exact Hw1 | done | done | cbn; lia | cbn beta; intros w2 Hw2].
  cbn [b_card set_card app] in Hw2. rewrite Ex in Hw2. cbn [fst snd] in Hw2.
  wp_seq. eapply wp_nops; [exact Hw2 | cbn beta; intros w3 Hw3].
  wp_seq. eapply wp_control; [exact Hw3 | lia | by right | cbn beta; intros w4 Hw4].
  wp_seq. eapply wp_wait_rx; [exact Hw4 | done | cbn beta; intros w5 Hw5 Hvis].
  wp_seq. eapply wp_receive; [done | exact Hw5 | cbn beta; intros w6 Hw6].
  wp_seq. eapply wp_status; [exact Hw6 | cbn beta; intros v w7 Hw7 Hv].
  destruct (spi_vis (w_dev w7)); destruct Hv as [-> Hne]; [done|]. cbn [negb].
  wp_seq. apply wp_ret.
  wp_seq. eapply wp_select; [exact Hw7 | lia | cbn beta; intros w8 Hw8].
  wp_seq. eapply wp_control; [exact Hw8 | lia | by left | cbn beta; intros w9 Hw9].
  apply wp_ret. eexists. split; [by apply mid_at|]. split.
  - apply u8_small. pose proof (xfer_byte b (select 0xfffffffe (b_card s))) as H. by rewrite Ex in H.
  - destruct s; cbn in *. by subst.
Qed.

Lemma xfers_snoc bs b c :
  xfers (bs ++ [b]) c =
    let '(rs, c) := xfers bs c in (rs ++ [fst (xfer b c)], snd (xfer b c)).
Proof.
  revert c. induction bs as [|b' bs IH]; intros c; cbn.
  - by destruct (xfer b c).
  - destruct (xfer b' c) as [r c1]. rewrite IH. by destruct (xfers bs c1).
Qed.

Lemma xfers_length bs c : length (fst (xfers bs c)) = length bs.
Proof.
  revert c. induction bs as [|b bs IH]; intros c; cbn; [done|].
  destruct (xfer b c) as [r c1]. specialize (IH c1). destruct (xfers bs c1). cbn in *. by f_equal.
Qed.

Lemma xfers_bytes bs c : Forall is_byte (fst (xfers bs c)).
Proof.
  revert c. induction bs as [|b bs IH]; intros c; cbn; [constructor|].
  pose proof (xfer_byte b c) as H.
  destruct (xfer b c) as [r c1]. specialize (IH c1). destruct (xfers bs c1). by constructor.
Qed.

(** The first loop queues the bytes at [bytes]. *)
Lemma wp_queue bytes bs s w (Q : unit -> world D -> Prop) :
  let len := Z.of_nat (length bs) in
  mid s [] w -> len <= 256 -> b_on s = true -> Forall is_byte bs ->
  read_bytes (b_mem s) bytes (length bs) = Some bs ->
  (forall w', mid (set_card (snd (xfers bs (b_card s))) s) (fst (xfers bs (b_card s))) w' -> Q tt w') ->
  wp (for_in (below len) (fun i =>
        b ← load8 (bytes + i);
        write_reg SPI_TRANSMIT_REG (Z.land b 0xff))) w Q.
Proof.
  intros len Hw Hlen Hon Hbs Hmem HQ.
  eapply (wp_for_in _ _ (fun pre w =>
    let p := xfers (take (length pre) bs) (b_card s) in mid (set_card (snd p) s) (fst p) w)).
  - cbn. by destruct s.
  - intros pre i post w1 El Hw1. cbn zeta in *. destruct (below_split _ _ _ _ El) as [Ei Hi].
    destruct (read_bytes_at _ _ _ _ i Hmem) as (b & Hb & Hm); [lia|].
    assert (Hbb : is_byte b) by by eapply Forall_lookup_1.
    assert (Ht : take (length (pre ++ [i])) bs = take (length pre) bs ++ [b]).
    { rewrite length_app. cbn. rewrite Nat.add_1_r. apply take_S_r. by rewrite Ei, Nat2Z.id in Hb. }
    wp_seq. eapply wp_load8; [destruct Hw1 as (_ & _ & _ & -> & _); exact Hm|].
    rewrite land_ff, u8_small by done.
    eapply wp_transmit; [exact Hw1 | done | done | rewrite xfers_length, length_take; lia|].
    intros w2 Hw2. rewrite Ht, xfers_snoc.
    by destruct (xfers (take (length pre) bs) (b_card s)) as [rs c].
  - cbn beta zeta. intros w1 Hw1. apply HQ. rewrite below_length in Hw1 by lia.
    unfold len in Hw1. by rewrite Nat2Z.id, firstn_all in Hw1.
Qed.

(** The last loop stores the received bytes, in order, from [ret] upwards. *)
Lemma wp_drain ret len rs s w (Q : unit -> world D -> Prop) :
  mid s rs w -> len = Z.of_nat (length rs) -> Forall is_byte rs ->
  (forall w', mid (set_mem (write_bytes ret rs (b_mem s)) s) [] w' -> Q tt w') ->
  wp (iter (fun i =>
    if i <? len then
      status ← read_reg SPI_STATUS_REG;
      if negb (Z.land status 0x1 =? 0x1) then
        v ← read_reg SPI_RECEIVE_REG;
        store8 (ret + i) v ;;
        mret (inl (i + 1))
      else mret (inl i)
    else mret (inr tt)) 0) w Q.
Proof.
  intros Hw -> Hb HQ.
  enough (G : forall l done w, rs = done ++ l ->
    mid (set_mem (write_bytes ret done (b_mem s)) s) l w ->
    wp (iter (fun i => if i <? Z.of_nat (length rs) then
      status ← read_reg SPI_STATUS_REG;
      if negb (Z.land status 0x1 =? 0x1) then
        v ← read_reg SPI_RECEIVE_REG; store8 (ret + i) v ;; mret (inl (i + 1))
      else mret (inl i) else mret (inr tt)) (Z.of_nat (length done))) w Q).
  { apply (G rs [] w); [done|]. by destruct s. }
  clear w Hw. induction l as [|b l IHl]; intros done w El Hw.
  - apply wp_iter. rewrite app_nil_r in El. subst done. rewrite Z.ltb_irrefl. apply wp_ret. auto.
  - remember (spi_lag (w_dev w)) as k eqn:Ek. revert w Hw Ek.
    induction k as [k IHk] using lt_wf_ind; intros w Hw ->.
    apply wp_iter. destruct (Z.ltb_spec (Z.of_nat (length done)) (Z.of_nat (length rs))) as [_|Hl].
    2: { subst rs. rewrite length_app in Hl. cbn in Hl. lia. }
    wp_seq. eapply wp_status; [exact Hw|]. intros v w1 Hw1 Hv.
    destruct (spi_vis (w_dev w1)) eqn:Ev; destruct Hv as [-> Hv]; cbn [negb].
    + wp_seq. eapply wp_receive; [done | exact Hw1|]. intros w2 Hw2. cbn beta.
      wp_seq. apply wp_store8. apply wp_ret.
      replace (Z.of_nat (length done) + 1) with (Z.of_nat (length (done ++ [b])))
        by (rewrite length_app; cbn; lia).
      apply IHl; [by rewrite <- (assoc_L (++))|].
      assert (is_byte b) by (rewrite El in Hb; decompose_Forall; done).
      destruct Hw2 as (H1 & H2 & H3 & H4 & H5).
      split_and!; cbn [w_dev w_mem w_tr b_on b_card b_mem b_uart set_mem]; try done.
      rewrite write_bytes_snoc, u8_small, H4 by done. done.
    + apply wp_ret. eapply IHk; [by apply Hv | done | done].
Qed.

(** [spi_write_bytes]: the bytes at [bytes] go out and the bytes that come in are stored from
    [ret] upwards, up to the depth of the FIFO. *)
Lemma awp_spi_write_bytes bytes bs ret s :
  b_on s = true -> Forall is_byte bs -> (1 <= length bs <= 256)%nat ->
  read_bytes (b_mem s) bytes (length bs) = Some bs ->
  awp at_board (spi_write_bytes bytes (Z.of_nat (length bs)) ret) s
    (fun r s' => r = 0
       /\ s' = set_mem (write_bytes ret (fst (link_burst bs (b_card s))) (b_mem s))
                 (set_card (snd (link_burst bs (b_card s))) s)).
Proof.
  intros Hon Hbs Hlen Hmem w Hw. unfold spi_write_bytes, link_burst.
  destruct (Z.gtb_spec (Z.of_nat (length bs)) 256) as [|_]; [lia|].
  pose proof (xfers_length bs (select 0xfffffffe (b_card s))) as Hlr.
  pose proof (xfers_bytes bs (select 0xfffffffe (b_card s))) as Hbr.
  destruct (xfers bs (select 0xfffffffe (b_card s))) as [rs c] eqn:Ex. cbn [fst snd] in *.
  wp_seq. eapply wp_select; [by apply mid_at | lia | cbn beta; intros w1 Hw1].
  wp_seq. eapply wp_queue; [exact Hw1 | lia | done..|].
  cbn [b_card set_card]. rewrite Ex. cbn [fst snd]. intros w2 Hw2.
  wp_seq. eapply wp_nops; [exact Hw2 | cbn beta; intros w3 Hw3].
  wp_seq. eapply wp_control; [exact Hw3 | lia | by right | cbn beta; intros w4 Hw4].
  wp_seq. eapply wp_wait_rx; [exact Hw4 | destruct rs; cbn in *; [lia | done] | cbn beta].
  intros w5 Hw5 _.
  wp_seq. eapply wp_drain; [exact Hw5 | by f_equal | done | cbn beta; intros w6 Hw6].
  wp_seq. eapply wp_select; [exact Hw6 | lia | cbn beta; intros w7 Hw7].
  wp_seq. eapply wp_control; [exact Hw7 | lia | by left | cbn beta; intros w8 Hw8].
  apply wp_ret. eexists. split; [by apply mid_at|]. split; [done|].
  destruct s; cbn in *. by subst.
Qed.

(** A burst longer than the FIFO is refused before any device is touched. *)
Lemma spi_write_bytes_too_long bytes len ret n w :
  256 < len -> spi_write_bytes bytes len ret n w = (Val (-1), w).
Proof. intros H. unfold spi_write_bytes. destruct (Z.gtb_spec len 256); [done | lia]. Qed.

Lemma wp_reset s w (Q : unit -> world D -> Prop) :
  at_board s w ->
  (forall w' on, mid (set_on on s) [] w' -> Q tt w') -> wp (write_reg SPI_RESET_REG 0x0a) w Q.
Proof.
  intros (H1 & H2 & H3 & H4 & H5) HQ. apply wp_mmio_st.
  change (0x0a mod 2 ^ bits W32) with 0x0a.
  destruct (ctl_reset (w_dev w) H2) as (E2 & E3).
  apply (HQ _ (spi_on (bus_st W32 SPI_RESET_REG 0x0a (w_dev w)))). fields. exact H5.
Qed.

Lemma awp_reset s (Q : unit -> board C -> Prop) :
  (forall on, Q tt (set_on on s)) -> awp at_board (write_reg SPI_RESET_REG 0x0a) s Q.
Proof. intros HQ w Hw. eapply wp_reset; [done|]. eauto. Qed.

Lemma awp_control v s (Q : unit -> board C -> Prop) :
  0 <= v < 2 ^ 32 -> Q tt (set_on (Z.testbit v 1 && Z.testbit v 2 && negb (Z.testbit v 8)) s) ->
  awp at_board (write_reg SPI_CONTROL_REG v) s Q.
Proof. intros Hv HQ w Hw. eapply wp_control; [exact Hw | done | by left |]. eauto. Qed.

Lemma awp_nops n s (Q : unit -> board C -> Prop) : Q tt s -> awp at_board (nops n) s Q.
Proof. intros HQ w Hw. eapply wp_nops; [exact Hw|]. eauto. Qed.

Lemma awp_status s (Q : Z -> board C -> Prop) :
  (forall v, Q v s) -> awp at_board (read_reg SPI_STATUS_REG) s Q.
Proof. intros HQ w Hw. eapply wp_status; [exact Hw|]. eauto. Qed.

(** [spi_init] enables the controller, and reports the status twice. *)
Lemma awp_spi_init s :
  uart_ready s ->
  awp at_board spi_init s (fun _ s' =>
    exists v1 v2,
      s' = put (str ("init SPI" +:+ crlf) ++ str "status: 0x" ++ hex_be 8 v1 ++ str crlf
                ++ str "status: 0x" ++ hex_be 8 v2 ++ str crlf
                ++ str ("SPI initialized!" +:+ crlf)) (set_on true s)).
Proof.
  intros Hr. unfold spi_init.
  print_step. wp_seq. apply awp_reset. intros on. rewrite set_on_put.
  wp_seq. apply awp_nops. wp_seq. apply awp_control; [lia|]. rewrite set_on_put.
  wp_seq. apply awp_status. intros v1. do 3 print_step.
  wp_seq. apply awp_control; [lia|]. rewrite set_on_put.
  wp_seq. apply awp_status. intros v2. do 3 print_step.
  wp_seq. apply awp_control; [lia|]. rewrite set_on_put. print_step.
  exists v1, v2. by rewrite <- !(assoc_L (++)).
Qed.
End specs.

(** * Every run *)

Section closed.
Context `{!Bus D} {I : world D -> Prop} {A : Z -> Prop} `{!Closed I A}.

Lemma keeps_nops n : keeps I (nops n).
Proof. apply keeps_for_in. intros. apply cl_nop. Qed.

Lemma keeps_wait_status :
  keeps I (wait_while (status ← read_reg SPI_STATUS_REG; mret (Z.land status 0x1 =? 0x1))).
Proof. unfold read_reg. eauto with keeps. Qed.

Lemma keeps_spi_init : keeps I spi_init.
Proof. unfold spi_init, write_reg, read_reg. keeps_tac; apply keeps_nops. Qed.

Lemma keeps_spi_txrx b : keeps I (spi_txrx b).
Proof. unfold spi_txrx, write_reg, read_reg. keeps_tac; apply keeps_nops. Qed.

(** The burst stores to the [len] bytes from [ret] only. *)
Lemma keeps_spi_write_bytes bytes len ret :
  (forall i, 0 <= i < len -> A (ret + i)) -> keeps I (spi_write_bytes bytes len ret).
Proof.
  intros HA. unfold spi_write_bytes, write_reg.
  keeps_tac; first [apply keeps_nops | apply keeps_wait_status | idtac].
  apply (safe_iter _ _ (fun i => 0 <= i)); [done|]. intros i Hi.
  destruct (Z.ltb_spec i len); [|by apply safe_ret].
  apply safe_then; [unfold read_reg; eauto with keeps|]. intros v.
  destruct (negb _); [|by apply safe_ret].
  apply safe_then; [unfold read_reg; eauto with keeps|]. intros x.
  apply safe_then; [apply cl_store8, HA; lia|]. intros [].
  apply safe_ret. lia.
Qed.
End closed.

#[export] Hint Resolve keeps_nops keeps_spi_init keeps_spi_txrx : keeps.

(** * More fuel changes nothing *)

Section stability.
Context `{!Bus D}.

Lemma stable_spi_init : stable spi_init.
Proof. unfold spi_init, write_reg, read_reg, nops. stable_tac. Qed.

Lemma stable_spi_txrx b : stable (spi_txrx b).
Proof. unfold spi_txrx, write_reg, read_reg, nops. stable_tac. Qed.

Lemma stable_spi_write_bytes bytes len ret : stable (spi_write_bytes bytes len ret).
Proof. unfold spi_write_bytes, write_reg, read_reg, nops. stable_tac. Qed.
End stability.

#[export] Hint Resolve stable_spi_init stable_spi_txrx stable_spi_write_bytes : stable.
