(* ===== verification/Crc.v ===== *)
(** The checksums of the SD driver ([crc7] and [crc16] of [src/sd.c]): the code as written, the
    bitwise definitions of the polynomials its comments name, and what relates them. *)
From S2P Require Import Prelude.

(** * The code *)

Definition crc7 (prev inp : Z) : Z :=
  let remainder := Z.land prev inp in
  let remainder := u8 (Z.lxor remainder (Z.lxor (Z.shiftr remainder 4) (Z.shiftr remainder 7))) in
  let remainder := u8 (Z.lxor remainder (Z.shiftl remainder 4)) in
  Z.land remainder 0x7f.

Definition crc16 (crc data : Z) : Z :=
  let crc := u16 (Z.lor (u8 (Z.shiftr crc 8)) (Z.shiftl crc 8)) in
  let crc := u16 (Z.lxor crc data) in
  let crc := u16 (Z.lxor crc (Z.land (u8 (Z.shiftr crc 4)) 0xf)) in
  let crc := u16 (Z.lxor crc (Z.shiftl crc 12)) in
  u16 (Z.lxor crc (Z.shiftl (Z.land crc 0xff) 5)).

(** The checksum of a run of bytes, as the loop of [sd_copy] accumulates it. *)
Definition crc16_bytes (crc : Z) (bs : list Z) : Z := foldl crc16 crc bs.

(** * The polynomials *)

(** Shift one bit in, and reduce by the polynomial x^16 + x^12 + x^5 + 1. *)
Definition crc16_bit (c : Z) : Z :=
  Z.lxor (u16 (Z.shiftl c 1)) (if Z.testbit c 15 then 0x1021 else 0).

Definition crc16_unbit (c : Z) : Z :=
  Z.lxor (Z.shiftr c 1) (if Z.testbit c 0 then 0x8810 else 0).

Definition crc16_ref (crc data : Z) : Z :=
  Nat.iter 8 crc16_bit (Z.lxor crc (Z.shiftl data 8)).

(** The same for x^7 + x^3 + 1, on a register of seven bits. *)
Definition crc7_bit (c : Z) : Z :=
  Z.lxor (Z.land (Z.shiftl c 1) 0x7f) (if Z.testbit c 6 then 0x09 else 0).

Definition crc7_ref (prev inp : Z) : Z :=
  foldl (fun c i => crc7_bit (Z.lxor c (if Z.testbit inp i then 0x40 else 0))) prev
    [7; 6; 5; 4; 3; 2; 1; 0].

(** * Linear functions on bit vectors *)

Definition linear (f : Z -> Z) : Prop := forall a b, f (Z.lxor a b) = Z.lxor (f a) (f b).

Lemma linear_0 f : linear f -> f 0 = 0.
Proof.
  intros Hf. specialize (Hf 0 0). rewrite !Z.lxor_nilpotent in Hf. exact Hf.
Qed.

Lemma linear_comp f g : linear f -> linear g -> linear (fun c => f (g c)).
Proof. intros Hf Hg a b. by rewrite Hg, Hf. Qed.

Lemma linear_id : linear (fun c => c).
Proof. done. Qed.

Lemma lxor_swap a b c d : Z.lxor (Z.lxor a b) (Z.lxor c d) = Z.lxor (Z.lxor a c) (Z.lxor b d).
Proof. rewrite !Z.lxor_assoc. f_equal. rewrite <- !Z.lxor_assoc. f_equal. apply Z.lxor_comm. Qed.

Lemma linear_lxor f g : linear f -> linear g -> linear (fun c => Z.lxor (f c) (g c)).
Proof. intros Hf Hg a b. rewrite Hf, Hg. apply lxor_swap. Qed.

Lemma linear_shiftr k : linear (fun c => Z.shiftr c k).
Proof. intros a b. apply Z.shiftr_lxor. Qed.

Lemma linear_shiftl k : linear (fun c => Z.shiftl c k).
Proof. intros a b. apply Z.shiftl_lxor. Qed.

Lemma land_lxor_distr a b m : Z.land (Z.lxor a b) m = Z.lxor (Z.land a m) (Z.land b m).
Proof.
  apply Z.bits_inj'. intros n _. rewrite !Z.land_spec, !Z.lxor_spec, !Z.land_spec.
  by destruct (Z.testbit a n), (Z.testbit b n), (Z.testbit m n).
Qed.

Lemma linear_land m : linear (fun c => Z.land c m).
Proof. intros a b. apply land_lxor_distr. Qed.

Lemma linear_u16 : linear u16.
Proof.
  intros a b. unfold u16. rewrite <- !Z.land_ones by lia. apply land_lxor_distr.
Qed.

Lemma linear_u8 : linear u8.
Proof. intros a b. unfold u8. rewrite <- !Z.land_ones by lia. apply land_lxor_distr. Qed.

Lemma linear_bit k v : linear (fun c => if Z.testbit c k then v else 0).
Proof.
  intros a b. rewrite Z.lxor_spec.
  destruct (Z.testbit a k), (Z.testbit b k); cbn; by rewrite ?Z.lxor_nilpotent, ?Z.lxor_0_r.
Qed.

Lemma linear_iter n f : linear f -> linear (Nat.iter n f).
Proof. intros Hf. induction n as [|n IH]; [done|]. intros a b.
  rewrite !Nat.iter_succ. by rewrite IH, Hf. Qed.

(** A number below [2 ^ (n + 1)] is its low bits and its top bit. *)
Lemma split_top n c :
  0 <= n -> 0 <= c < 2 ^ (n + 1) ->
  c = Z.lxor (c mod 2 ^ n) (if Z.testbit c n then 2 ^ n else 0).
Proof.
  intros Hn Hc. apply Z.bits_inj'. intros k Hk. rewrite Z.lxor_spec.
  destruct (Z.lt_trichotomy k n) as [Hlt|[->|Hgt]].
  - rewrite Z.mod_pow2_bits_low by lia.
    destruct (Z.testbit c n); rewrite ?Z.pow2_bits_false, ?Z.testbit_0_l by lia; by rewrite xorb_false_r.
  - rewrite Z.mod_pow2_bits_high by lia.
    destruct (Z.testbit c n) eqn:E; rewrite ?Z.pow2_bits_true, ?Z.testbit_0_l by lia; done.
  - rewrite Z.mod_pow2_bits_high by lia.
    replace (Z.testbit c k) with false
      by (rewrite <- (Z.mod_small c (2 ^ (n + 1))) by lia; by rewrite Z.mod_pow2_bits_high by lia).
    destruct (Z.testbit c n); rewrite ?Z.pow2_bits_false, ?Z.testbit_0_l by lia; done.
Qed.

(** Linear functions that agree on the powers of two below [2 ^ n] agree below [2 ^ n]. *)
Lemma linear_ext f g n :
  linear f -> linear g ->
  forallb (fun k => f (2 ^ Z.of_nat k) =? g (2 ^ Z.of_nat k)) (seq 0 n) = true ->
  forall c, 0 <= c < 2 ^ Z.of_nat n -> f c = g c.
Proof.
  intros Hf Hg Hall.
  assert (Hk : forall k, (k < n)%nat -> f (2 ^ Z.of_nat k) = g (2 ^ Z.of_nat k)).
  { intros k Hk. rewrite forallb_forall in Hall. apply Z.eqb_eq, Hall, in_seq. lia. }
  clear Hall. revert Hk. induction n as [|n IH]; intros Hk c Hc.
  - replace c with 0 by (cbn in Hc; lia). by rewrite !linear_0.
  - rewrite (split_top (Z.of_nat n) c) by lia. rewrite Hf, Hg. f_equal.
    + apply IH; [intros; apply Hk; lia|]. apply Z.mod_pos_bound. lia.
    + destruct (Z.testbit c (Z.of_nat n)); [apply Hk; lia | by rewrite !linear_0].
Qed.

Create HintDb linear.
#[export] Hint Resolve linear_comp linear_id linear_lxor linear_shiftr linear_shiftl linear_land
  linear_u16 linear_u8 linear_bit linear_iter : linear.

Lemma linear_crc16_bit : linear crc16_bit.
Proof.
  apply (linear_lxor (fun c => u16 (Z.shiftl c 1))); [|apply linear_bit].
  apply (linear_comp u16); auto with linear.
Qed.

Lemma linear_crc16_unbit : linear crc16_unbit.
Proof. apply (linear_lxor (fun c => Z.shiftr c 1)); auto with linear. Qed.

(** * The 16-bit checksum *)

(** The steps of [crc16] after the new byte has been added. *)
Definition crc16_mix (crc : Z) : Z :=
  let crc := u16 (Z.lxor crc (Z.land (u8 (Z.shiftr crc 4)) 0xf)) in
  let crc := u16 (Z.lxor crc (Z.shiftl crc 12)) in
  u16 (Z.lxor crc (Z.shiftl (Z.land crc 0xff) 5)).

Lemma linear_crc16_mix : linear crc16_mix.
Proof.
  unfold crc16_mix. cbn zeta.
  apply (linear_comp (fun c => u16 (Z.lxor c (Z.shiftl (Z.land c 0xff) 5)))
                     (fun c => u16 (Z.lxor _ (Z.shiftl _ 12)))).
  - apply (linear_comp u16); [apply linear_u16|]. apply linear_lxor; [done|].
    apply (linear_comp (fun c => Z.shiftl c 5)); auto with linear.
  - apply (linear_comp (fun c => u16 (Z.lxor c (Z.shiftl c 12)))
                       (fun c => u16 (Z.lxor c (Z.land (u8 (Z.shiftr c 4)) 0xf)))).
    + apply (linear_comp u16); [apply linear_u16|]. apply linear_lxor; auto with linear.
    + apply (linear_comp u16); [apply linear_u16|]. apply linear_lxor; [done|].
      apply (linear_comp (fun c => Z.land c 0xf)); [apply linear_land|].
      apply (linear_comp u8); auto with linear.
Qed.

Definition swap16 (c : Z) : Z := u16 (Z.lor (u8 (Z.shiftr c 8)) (Z.shiftl c 8)).

Lemma swap16_alt c : swap16 c = Z.lxor (u8 (Z.shiftr c 8)) (Z.shiftl (u8 c) 8).
Proof.
  unfold swap16, u8, u16. apply Z.bits_inj'. intros n Hn. rewrite Z.lxor_spec.
  destruct (Z.lt_ge_cases n 16) as [Hlt|Hge].
  - rewrite Z.mod_pow2_bits_low by lia. rewrite Z.lor_spec, Z.shiftl_spec by lia.
    rewrite (Z.shiftl_spec (c mod 2 ^ 8)) by lia.
    destruct (Z.lt_ge_cases n 8).
    + rewrite !(Z.testbit_neg_r _ (n - 8)) by lia. rewrite orb_false_r, xorb_false_r. done.
    + rewrite !Z.mod_pow2_bits_high by lia. rewrite Z.mod_pow2_bits_low by lia. done.
  - rewrite Z.mod_pow2_bits_high by lia. rewrite Z.shiftl_spec by lia.
    by rewrite !Z.mod_pow2_bits_high by lia.
Qed.

Lemma linear_swap16 : linear swap16.
Proof.
  intros a b. rewrite !swap16_alt. revert a b.
  apply (linear_lxor (fun c => u8 (Z.shiftr c 8)) (fun c => Z.shiftl (u8 c) 8)).
  - apply (linear_comp u8); auto with linear.
  - apply (linear_comp (fun c => Z.shiftl c 8)); auto with linear.
Qed.

Lemma crc16_split crc data :
  is_byte data -> crc16 crc data = crc16_mix (Z.lxor (swap16 crc) data).
Proof.
  intros Hd. replace (Z.lxor (swap16 crc) data) with (u16 (Z.lxor (swap16 crc) data)).
  { unfold crc16, crc16_mix, swap16. cbv zeta. reflexivity. }
  rewrite linear_u16. f_equal.
  - unfold swap16, u16. by rewrite Z.mod_mod.
  - apply u16_small. unfold is_byte in Hd. lia.
Qed.

Lemma swap16_byte d : is_byte d -> swap16 (Z.shiftl d 8) = d.
Proof.
  intros Hd. apply (linear_ext (fun d => swap16 (Z.shiftl d 8)) (fun d => d) 8); [| | |exact Hd].
  - apply (linear_comp swap16); [apply linear_swap16 | apply linear_shiftl].
  - apply linear_id.
  - by vm_compute.
Qed.

Lemma lxor_bound n a b : 0 <= n -> 0 <= a < 2 ^ n -> 0 <= b < 2 ^ n -> 0 <= Z.lxor a b < 2 ^ n.
Proof.
  intros Hn Ha Hb. split; [apply Z.lxor_nonneg; lia|].
  replace (Z.lxor a b) with (Z.lxor a b mod 2 ^ n); [apply Z.mod_pos_bound; lia|].
  apply Z.bits_inj'. intros k Hk. destruct (Z.lt_ge_cases k n).
  - by rewrite Z.mod_pow2_bits_low by lia.
  - rewrite Z.mod_pow2_bits_high by lia. rewrite Z.lxor_spec.
    rewrite <- (Z.mod_small a (2 ^ n)), <- (Z.mod_small b (2 ^ n)) by lia.
    by rewrite !Z.mod_pow2_bits_high by lia.
Qed.

(** Both ways of adding a byte go through the same linear function. *)
Lemma crc16_mix_iter c : 0 <= c < 2 ^ 16 -> crc16_mix (swap16 c) = Nat.iter 8 crc16_bit c.
Proof.
  apply (linear_ext (fun c => crc16_mix (swap16 c)) (Nat.iter 8 crc16_bit) 16).
  - apply (linear_comp crc16_mix); auto using linear_swap16, linear_crc16_mix.
  - auto using linear_crc16_bit with linear.
  - by vm_compute.
Qed.

Lemma crc16_fold crc data :
  0 <= crc < 2 ^ 16 -> is_byte data ->
  0 <= Z.lxor crc (Z.shiftl data 8) < 2 ^ 16
  /\ crc16 crc data = crc16_mix (swap16 (Z.lxor crc (Z.shiftl data 8))).
Proof.
  intros Hc Hd. split.
  - apply lxor_bound; [lia | done|]. rewrite Z.shiftl_mul_pow2 by lia. unfold is_byte in Hd. lia.
  - by rewrite crc16_split, linear_swap16, swap16_byte.
Qed.

(** [crc16] is the CCITT checksum: one byte of the code is eight bits of the polynomial. *)
Lemma crc16_eq_ref crc data :
  0 <= crc < 2 ^ 16 -> is_byte data -> crc16 crc data = crc16_ref crc data.
Proof.
  intros Hc Hd. destruct (crc16_fold crc data Hc Hd) as [Hb ->]. by apply crc16_mix_iter.
Qed.

Lemma crc16_range crc data : 0 <= crc16 crc data < 2 ^ 16.
Proof. unfold crc16. apply Z.mod_pos_bound. lia. Qed.

Lemma crc16_bytes_range bs crc : 0 <= crc < 2 ^ 16 -> 0 <= crc16_bytes crc bs < 2 ^ 16.
Proof.
  revert crc. induction bs as [|b bs IH]; intros crc Hc; [done|].
  apply (IH (crc16 crc b)), crc16_range.
Qed.

Lemma crc16_bytes_app crc l1 l2 : crc16_bytes crc (l1 ++ l2) = crc16_bytes (crc16_bytes crc l1) l2.
Proof. apply foldl_app. Qed.

Lemma crc16_bytes_snoc crc l b : crc16_bytes crc (l ++ [b]) = crc16 (crc16_bytes crc l) b.
Proof. unfold crc16_bytes. rewrite foldl_snoc. reflexivity. Qed.

Lemma crc16_bytes_ref bs crc :
  0 <= crc < 2 ^ 16 -> Forall is_byte bs -> crc16_bytes crc bs = foldl crc16_ref crc bs.
Proof.
  intros Hc Hbs. revert crc Hc. induction Hbs as [|b bs Hb _ IH]; intros crc Hc; [done|].
  change (crc16_bytes (crc16 crc b) bs = foldl crc16_ref (crc16_ref crc b) bs).
  rewrite <- (crc16_eq_ref crc b) by done. apply IH, crc16_range.
Qed.

(** ** Errors the checksum detects *)

Lemma crc16_unbit_bit c : 0 <= c < 2 ^ 16 -> crc16_unbit (crc16_bit c) = c.
Proof.
  apply (linear_ext (fun c => crc16_unbit (crc16_bit c)) (fun c => c) 16); [|done|].
  - apply (linear_comp crc16_unbit); auto using linear_crc16_bit, linear_crc16_unbit.
  - by vm_compute.
Qed.

Lemma crc16_bit_range c : 0 <= crc16_bit c < 2 ^ 16.
Proof.
  unfold crc16_bit. apply lxor_bound; [lia | apply Z.mod_pos_bound; lia|].
  destruct (Z.testbit c 15); lia.
Qed.

Lemma crc16_bits_inj n a b :
  0 <= a < 2 ^ 16 -> 0 <= b < 2 ^ 16 -> Nat.iter n crc16_bit a = Nat.iter n crc16_bit b -> a = b.
Proof.
  intros Ha Hb. induction n as [|n IH]; [done|]. rewrite !Nat.iter_succ. intros H. apply IH.
  assert (R : forall c, 0 <= c < 2 ^ 16 -> 0 <= Nat.iter n crc16_bit c < 2 ^ 16)
    by (intros c Hc; destruct n; [done | rewrite Nat.iter_succ; apply crc16_bit_range]).
  rewrite <- (crc16_unbit_bit (Nat.iter n crc16_bit a)), <- (crc16_unbit_bit (Nat.iter n crc16_bit b))
    by auto. by rewrite H.
Qed.

(** Adding a byte is injective in the checksum. *)
Lemma crc16_inj a b d :
  0 <= a < 2 ^ 16 -> 0 <= b < 2 ^ 16 -> is_byte d -> crc16 a d = crc16 b d -> a = b.
Proof.
  intros Ha Hb Hd. rewrite !crc16_eq_ref by done. unfold crc16_ref. intros H.
  apply crc16_bits_inj in H; [|by apply crc16_fold..].
  assert (E : Z.lxor (Z.lxor a (Z.shiftl d 8)) (Z.shiftl d 8) =
              Z.lxor (Z.lxor b (Z.shiftl d 8)) (Z.shiftl d 8)) by by rewrite H.
  by rewrite !Z.lxor_assoc, Z.lxor_nilpotent, !Z.lxor_0_r in E.
Qed.

Lemma crc16_bytes_inj bs a b :
  0 <= a < 2 ^ 16 -> 0 <= b < 2 ^ 16 -> Forall is_byte bs ->
  crc16_bytes a bs = crc16_bytes b bs -> a = b.
Proof.
  intros Ha Hb Hbs. revert a b Ha Hb. induction Hbs as [|d bs Hd _ IH]; intros a b Ha Hb H; [done|].
  apply (IH (crc16 a d) (crc16 b d)) in H; [|apply crc16_range..]. by apply crc16_inj in H.
Qed.

(** The low byte of one mixed byte determines it. *)
Lemma crc16_0_low x : is_byte x -> u8 (crc16 0 x) = 0 -> x = 0.
Proof.
  intros Hx. assert (H : forallb (fun x => (x =? 0) || negb (u8 (crc16 0 x) =? 0)) (seqZ 0 256) = true)
    by (vm_compute; reflexivity).
  rewrite forallb_forall in H. intros E. specialize (H x). rewrite E in H. cbn in H.
  rewrite orb_false_r in H. apply Z.eqb_eq, H, list_elem_of_In, elem_of_seqZ. unfold is_byte in Hx. lia.
Qed.

(** The difference of two checksums is the checksum of the difference. *)
Lemma crc16_lxor a b x y :
  is_byte x -> is_byte y ->
  Z.lxor (crc16 a x) (crc16 b y) = crc16 (Z.lxor a b) (Z.lxor x y).
Proof.
  intros Hx Hy. assert (Hxy : is_byte (Z.lxor x y)) by (apply (lxor_bound 8); unfold is_byte in *; lia).
  rewrite !crc16_split by done. rewrite <- linear_crc16_mix. f_equal.
  rewrite linear_swap16. apply lxor_swap.
Qed.

Lemma lxor_eq_0 a b : Z.lxor a b = 0 -> a = b.
Proof. apply Z.lxor_eq. Qed.

(** Two bytes in a row reach distinct checksums when they differ. *)
Lemma crc16_two_inj c x1 x2 y1 y2 :
  0 <= c < 2 ^ 16 -> is_byte x1 -> is_byte x2 -> is_byte y1 -> is_byte y2 ->
  crc16 (crc16 c x1) x2 = crc16 (crc16 c y1) y2 -> x1 = y1 /\ x2 = y2.
Proof.
  intros Hc Hx1 Hx2 Hy1 Hy2 H.
  assert (B : forall x y, is_byte x -> is_byte y -> is_byte (Z.lxor x y))
    by (intros; apply (lxor_bound 8); unfold is_byte in *; lia).
  set (e1 := Z.lxor x1 y1). set (e2 := Z.lxor x2 y2).
  assert (He : crc16 (crc16 0 e1) e2 = 0).
  { unfold e1, e2. replace (crc16 0 (Z.lxor x1 y1)) with (Z.lxor (crc16 c x1) (crc16 c y1))
      by (by rewrite crc16_lxor, Z.lxor_nilpotent by done).
    rewrite <- crc16_lxor by done. rewrite H. apply Z.lxor_nilpotent. }
  assert (He2 : crc16 0 e1 = Z.shiftl e2 8).
  { apply lxor_eq_0. destruct (crc16_fold (crc16 0 e1) e2 (crc16_range _ _)) as [Hb E]; [by apply B|].
    rewrite E, crc16_mix_iter in He by done.
    apply (crc16_bits_inj 8); [done | lia|]. rewrite He. by vm_compute. }
  assert (H1 : e1 = 0).
  { apply crc16_0_low; [by apply B|]. rewrite He2. unfold u8.
    rewrite Z.shiftl_mul_pow2 by lia. apply Z.mod_mul. lia. }
  split; apply lxor_eq_0; [exact H1|]. fold e2.
  rewrite H1 in He2. change (crc16 0 0) with 0 in He2.
  rewrite Z.shiftl_mul_pow2 in He2 by lia. lia.
Qed.

Lemma crc16_bytes_cons crc b bs : crc16_bytes crc (b :: bs) = crc16_bytes (crc16 crc b) bs.
Proof. reflexivity. Qed.

(** Within a block of any length, a change of two neighbouring bytes changes the checksum. *)
Lemma crc16_pair_detected pre post x1 x2 y1 y2 :
  Forall is_byte (pre ++ [x1; x2] ++ post) -> Forall is_byte (pre ++ [y1; y2] ++ post) ->
  crc16_bytes 0 (pre ++ [x1; x2] ++ post) = crc16_bytes 0 (pre ++ [y1; y2] ++ post) ->
  (x1, x2) = (y1, y2).
Proof.
  rewrite !Forall_app, !Forall_cons. intros (_ & (Hx1 & Hx2 & _) & Hq) (_ & (Hy1 & Hy2 & _) & _).
  rewrite !crc16_bytes_app, !crc16_bytes_cons. change (crc16_bytes ?c []) with c.
  assert (Hc : 0 <= crc16_bytes 0 pre < 2 ^ 16) by (apply crc16_bytes_range; lia).
  intros E. apply crc16_bytes_inj in E; [|apply crc16_range | apply crc16_range | exact Hq].
  apply crc16_two_inj in E; [|assumption..]. destruct E as [E1 E2]. by rewrite E1, E2.
Qed.

(** * The 7-bit checksum *)

(** From the initial value the code always yields zero, whatever the byte. *)
Lemma crc7_0 b : crc7 0 b = 0.
Proof. unfold crc7. by rewrite Z.land_0_l. Qed.
