(* ===== verification/Sd.v ===== *)
(** The SD-card driver of the FPGA boot loader ([src/sd.c]): commands, initialisation, and the
    multiple-block read that copies a partition into memory. *)
From S2P Require Import Prelude Machine Uart Board Spi Crc.

(** * The driver *)

Definition SD_CMD_STOP_TRANSMISSION : Z := 12.
Definition SD_CMD_READ_BLOCK_MULTIPLE : Z := 18.
Definition SD_DATA_TOKEN : Z := 0xfe.
Definition SD_COPY_ERROR_CMD18 : Z := -1.
Definition SD_COPY_ERROR_CMD18_CRC : Z := -2.
Definition SD_INIT_ERROR_CMD0 : Z := -1.
Definition SD_INIT_ERROR_CMD8 : Z := -2.
Definition SD_INIT_ERROR_ACMD41 : Z := -3.

(** Where the compiler and the linker put the objects whose address the code uses: the local arrays
    [ff] of [sd_copy] and [lba1_buf], [lba2_buf] of [gpt_find_boot_partition], and the device tree. *)
Class Layout := {
  ff_buf : Z;
  lba1_buf : Z;
  lba2_buf : Z;
  dtb_addr : Z
}.

Section driver.
Context `{!Bus D, !Layout}.

Definition sd_dummy : M D Z := spi_txrx 0xFF.

Definition sd_cmd (cmd arg crc : Z) : M D Z :=
  sd_dummy ;;
  spi_txrx (u8 (Z.lor 0x40 cmd)) ;;
  spi_txrx (u8 (Z.shiftr arg 24)) ;;
  spi_txrx (u8 (Z.shiftr arg 16)) ;;
  spi_txrx (u8 (Z.shiftr arg 8)) ;;
  spi_txrx (u8 arg) ;;
  spi_txrx crc ;;
  iter (fun n =>
    r ← sd_dummy;
    if Z.land r 0x80 =? 0 then mret (inr r)
    else if n - 1 >? 0 then mret (inl (n - 1)) else mret (inr r)) 100.

Definition print_status (cmd : string) (response : Z) : M D unit :=
  print_uart "SD command " ;;
  print_uart cmd ;;
  print_uart (" " +:+ tab +:+ "response : ") ;;
  print_uart_byte response ;;
  print_uart crlf.

(** One turn of the loop of [sd_cmd0]; it answers [None] when the attempts are used up. *)
Definition cmd0_body : Z * Z -> M D (Z * Z + option Z) := fun '(counter, r) =>
  if r =? 0x1 then mret (inr (Some r)) else
  r ← sd_cmd 0 0 0x95;
  sd_dummy ;;
  let counter := counter - 1 in
  if counter <=? 0 then mret (inr None) else mret (inl (counter, r)).

Definition sd_cmd0 : M D Z :=
  res ← iter cmd0_body (10000, 0xff);
  match res with
  | None => mret 0
  | Some r => print_status "cmd0" r ;; mret (Z.b2z (r =? 0x1))
  end.

Definition sd_cmd8 : M D Z :=
  r1 ← sd_cmd 8 0x1aa 0x87;
  sd_dummy ;;
  sd_dummy ;;
  r4 ← sd_dummy;
  r5 ← sd_dummy;
  sd_dummy ;;
  sd_dummy ;;
  mret (Z.b2z ((r1 =? 0x1) && (Z.land r4 0xf =? 0x1) && (r5 =? 0xaa))).

Definition sd_cmd55 : M D Z :=
  r ← sd_cmd 55 0x0 0x65;
  sd_dummy ;;
  print_status "cmd55" r ;;
  mret (Z.b2z (r =? 0x1)).

(** One turn of the loop of [sd_acmd41]. *)
Definition acmd41_body (_ : unit) : M D (unit + Z) :=
  sd_cmd55 ;;
  r ← sd_cmd 41 0x40000000 0x77;
  print_status "cmd41" r ;;
  sd_dummy ;;
  if r =? 0x1 then mret (inl tt) else mret (inr r).

Definition sd_acmd41 : M D Z :=
  r ← iter acmd41_body tt;
  mret (Z.b2z (r =? 0x00)).

Definition init_sd : M D Z :=
  spi_init ;;
  print_uart ("initializing SD... " +:+ crlf) ;;
  for_in (below 10) (fun _ => sd_dummy ;; mret tt) ;;
  ok ← sd_cmd0;
  if ok =? 0 then mret SD_INIT_ERROR_CMD0 else
  ok ← sd_cmd8;
  if ok =? 0 then mret SD_INIT_ERROR_CMD8 else
  ok ← sd_acmd41;
  if ok =? 0 then mret SD_INIT_ERROR_ACMD41 else
  mret 0.

(** The checksum byte of the read command. *)
Definition read_cmd_crc (src_lba : Z) : Z :=
  let crc := crc7 0 (Z.lor 0x40 SD_CMD_READ_BLOCK_MULTIPLE) in
  let crc := crc7 crc (Z.land (Z.shiftr src_lba 24) 0xff) in
  let crc := crc7 crc (Z.land (Z.shiftr src_lba 16) 0xff) in
  let crc := crc7 crc (Z.land (Z.shiftr src_lba 8) 0xff) in
  let crc := crc7 crc (Z.land src_lba 0xff) in
  u8 (Z.lor (Z.shiftl crc 1) 1).

(** One turn of the inner loop of [sd_copy]: 64 bytes of a block. *)
Definition chunk_body : Z * Z * Z -> M D (Z * Z * Z + Z * Z) := fun '(p, n, crc) =>
  let bytes_per_transfer := 64 in
  spi_write_bytes ff_buf bytes_per_transfer p ;;
  crc ← fold_in (below bytes_per_transfer) (fun i crc =>
    b ← load8 (p + i); mret (crc16 crc b)) crc;
  let p := p + bytes_per_transfer in
  let n := n - bytes_per_transfer in
  if n >? 0 then mret (inl (p, n, crc)) else mret (inr (p, crc)).

(** One turn of its outer loop: a block of 512 bytes and its checksum. *)
Definition block_body : Z * Z -> M D (Z * Z + Z) := fun '(p, i) =>
  wait_while (x ← sd_dummy; mret (negb (x =? SD_DATA_TOKEN))) ;;
  pc ← iter chunk_body (p, 512, 0);
  let '(p, crc) := pc in
  hi ← sd_dummy;
  lo ← sd_dummy;
  let crc_exp := u16 (Z.lor (u16 (Z.shiftl hi 8)) lo) in
  if negb (crc =? crc_exp) then mret (inr SD_COPY_ERROR_CMD18_CRC) else
  (if i mod 1000 =? 0 then print_uart "." else mret tt) ;;
  let i := i - 1 in
  if i >? 0 then mret (inl (p, i)) else mret (inr 0).

Definition sd_copy (dst src_lba size : Z) : M D Z :=
  for_in (below 128) (fun j => store8 (ff_buf + j) 0xff) ;;
  r ← sd_cmd 18 src_lba (read_cmd_crc src_lba);
  if negb (r =? 0x00) then
    for_in (below 8) (fun _ => sd_dummy ;; mret tt) ;;
    print_uart ("could not read SD block" +:+ crlf) ;;
    mret (-1)
  else
  rc ← iter block_body (dst, size);
  sd_cmd SD_CMD_STOP_TRANSMISSION 0 0x01 ;;
  sd_dummy ;;
  mret rc.
End driver.

(** * The driver as seen by the card *)

(** What a sequence of exchanges answers, and how it leaves the card. *)
Definition L (C A : Type) : Type := C -> A * C.
#[export] Instance L_ret {C} : MRet (L C) := fun A a c => (a, c).
#[export] Instance L_bind {C} : MBind (L C) := fun A B k m c => let '(a, c) := m c in k a c.

Section link.
Context `{!SpiSlave C}.

Definition l_dummy : L C Z := link_txrx 0xFF.

Fixpoint l_dummies (n : nat) : L C unit :=
  match n with
  | O => mret tt
  | S n => l_dummy ;; l_dummies n
  end.

(** Poll at most [n + 1] times for a response: a byte with bit 7 clear. *)
Fixpoint l_response (n : nat) : L C Z :=
  r ← l_dummy;
  if Z.testbit r 7 then
    match n with
    | O => mret r
    | S n => l_response n
    end
  else mret r.

Definition l_cmd (cmd arg crc : Z) : L C Z :=
  l_dummy ;;
  link_txrx (u8 (Z.lor 0x40 cmd)) ;;
  link_txrx (u8 (Z.shiftr arg 24)) ;;
  link_txrx (u8 (Z.shiftr arg 16)) ;;
  link_txrx (u8 (Z.shiftr arg 8)) ;;
  link_txrx (u8 arg) ;;
  link_txrx crc ;;
  l_response 99.

Definition l_cmd0_try : L C Z := r ← l_cmd 0 0 0x95; l_dummy ;; mret r.

(** [n] attempts left; the last one is made, but its answer does not count. *)
Fixpoint l_cmd0 (n : nat) : L C bool :=
  match n with
  | O => mret false
  | S n =>
      r ← l_cmd0_try;
      match n with
      | O => mret false
      | S _ => if r =? 0x1 then mret true else l_cmd0 n
      end
  end.

Definition l_cmd8 : L C Z :=
  r1 ← l_cmd 8 0x1aa 0x87;
  l_dummy ;; l_dummy ;;
  r4 ← l_dummy;
  r5 ← l_dummy;
  l_dummy ;; l_dummy ;;
  mret (Z.b2z ((r1 =? 0x1) && (Z.land r4 0xf =? 0x1) && (r5 =? 0xaa))).

Definition l_acmd41_try : L C Z :=
  l_cmd 55 0x0 0x65 ;; l_dummy ;; r ← l_cmd 41 0x40000000 0x77; l_dummy ;; mret r.

(** The answers to ACMD41 until it is not 1 any more. *)
Inductive acmd41 : C -> Z -> C -> Prop :=
  | acmd41_stop c r c' : l_acmd41_try c = (r, c') -> r <> 0x1 -> acmd41 c r c'
  | acmd41_again c c1 r c' : l_acmd41_try c = (0x1, c1) -> acmd41 c1 r c' -> acmd41 c r c'.

Definition cmd0_attempts : nat := Z.to_nat 10000.

(** The initialisation sequence: its result code. *)
Inductive init_card : C -> Z -> C -> Prop :=
  | init_no_cmd0 c c' :
      (l_dummies 10 ;; l_cmd0 cmd0_attempts) c = (false, c') -> init_card c SD_INIT_ERROR_CMD0 c'
  | init_no_cmd8 c c1 c' :
      (l_dummies 10 ;; l_cmd0 cmd0_attempts) c = (true, c1) -> l_cmd8 c1 = (0, c') ->
      init_card c SD_INIT_ERROR_CMD8 c'
  | init_no_acmd41 c c1 c2 r c' :
      (l_dummies 10 ;; l_cmd0 cmd0_attempts) c = (true, c1) -> l_cmd8 c1 = (1, c2) ->
      acmd41 c2 r c' -> r <> 0 -> init_card c SD_INIT_ERROR_ACMD41 c'
  | init_done c c1 c2 c' :
      (l_dummies 10 ;; l_cmd0 cmd0_attempts) c = (true, c1) -> l_cmd8 c1 = (1, c2) ->
      acmd41 c2 0 c' -> init_card c 0 c'.

(** Exchanges until the data token. *)
Inductive token : C -> C -> Prop :=
  | token_here c c' : l_dummy c = (SD_DATA_TOKEN, c') -> token c c'
  | token_later c x c1 c' : l_dummy c = (x, c1) -> x <> SD_DATA_TOKEN -> token c1 c' -> token c c'.

(** [k] bursts of 64 bytes. *)
Fixpoint l_bursts (k : nat) : L C (list Z) :=
  match k with
  | O => mret []
  | S k => b ← link_burst (replicate 64 0xff); bs ← l_bursts k; mret (b ++ bs)
  end.

(** A block and the checksum the card sends after it. *)
Definition l_block : L C (list Z * Z) :=
  b ← l_bursts 8; hi ← l_dummy; lo ← l_dummy; mret (b, 256 * hi + lo).

Definition delivers (c : C) (b : list Z) (crc : Z) (c' : C) : Prop :=
  exists c1, token c c1 /\ l_block c1 = ((b, crc), c').

(** A read of [i] blocks: the bytes stored, and how it ends. *)
Inductive transfer : Z -> C -> list Z -> Z -> C -> Prop :=
  | transfer_bad i c b crc c' :
      delivers c b crc c' -> crc16_bytes 0 b <> crc -> transfer i c b SD_COPY_ERROR_CMD18_CRC c'
  | transfer_last i c b c' :
      delivers c b (crc16_bytes 0 b) c' -> i <= 1 -> transfer i c b 0 c'
  | transfer_more i c b c1 bs rc c' :
      delivers c b (crc16_bytes 0 b) c1 -> 1 < i -> transfer (i - 1) c1 bs rc c' ->
      transfer i c (b ++ bs) rc c'.

(** Blocks delivered with the checksums that belong to them. *)
Inductive good_blocks : C -> list (list Z) -> C -> Prop :=
  | good_none c : good_blocks c [] c
  | good_more c b c1 goods c' :
      delivers c b (crc16_bytes 0 b) c1 -> good_blocks c1 goods c' -> good_blocks c (b :: goods) c'.

(** After good blocks, fewer than asked for, a bad one ends the read. *)
Lemma transfer_corrupt i c goods c1 b crc c2 :
  good_blocks c goods c1 -> Z.of_nat (length goods) < Z.max 1 i ->
  delivers c1 b crc c2 -> crc16_bytes 0 b <> crc ->
  transfer i c (concat goods ++ b) SD_COPY_ERROR_CMD18_CRC c2.
Proof.
  intros Hg. revert i. induction Hg as [c|c g c1 goods c' Hd _ IH]; intros i Hl Hb Hne; cbn in *.
  - by eapply transfer_bad.
  - rewrite <- (assoc_L (++)). eapply transfer_more; [exact Hd | lia |]. apply IH; [lia | done..].
Qed.

(** The end of a read. *)
Definition l_stop : L C unit := l_cmd SD_CMD_STOP_TRANSMISSION 0 0x01 ;; l_dummy ;; mret tt.

(** A call of [sd_copy]: the bytes it stores, and its result. *)
Inductive reading (c : C) (lba size : Z) : list Z -> Z -> C -> Prop :=
  | reading_taken c1 bs rc c2 c' :
      l_cmd SD_CMD_READ_BLOCK_MULTIPLE lba (read_cmd_crc lba) c = (0, c1) ->
      transfer size c1 bs rc c2 -> l_stop c2 = (tt, c') -> reading c lba size bs rc c'
  | reading_refused r c1 c' :
      l_cmd SD_CMD_READ_BLOCK_MULTIPLE lba (read_cmd_crc lba) c = (r, c1) -> r <> 0 ->
      l_dummies 8 c1 = (tt, c') -> reading c lba size [] SD_COPY_ERROR_CMD18 c'.
End link.

(** * Refinement *)

Section specs.
Context {D C : Type} `{!Bus D, !SpiSlave C, !SpiController D C, !Console D, !Layout}.

(** [m] exchanges with the card what [l] says, and changes nothing else. *)
Definition refines {A} (m : M D A) (l : L C A) : Prop :=
  forall s, b_on s = true ->
    awp at_board m s (fun a s' => a = fst (l (b_card s)) /\ s' = set_card (snd (l (b_card s))) s).

Lemma refines_ret {A} (a : A) : refines (mret a) (mret a).
Proof. intros s _. apply awp_ret. split; [done|]. by destruct s. Qed.

Lemma refines_bind {A B} (m : M D A) (l : L C A) (k : A -> M D B) (g : A -> L C B) :
  refines m l -> (forall a, refines (k a) (g a)) -> refines (m ≫= k) (l ≫= g).
Proof.
  intros Hm Hk s Hs. wp_seq. eapply awp_mono; [by apply Hm|]. intros a s' [-> ->].
  unfold mbind, L_bind. destruct (l (b_card s)) as [a c] eqn:E. cbn [fst snd].
  eapply awp_mono; [by apply Hk|]. by intros b s'' [-> ->].
Qed.

Lemma refines_if {A} (b : bool) (m1 m2 : M D A) (l1 l2 : L C A) :
  refines m1 l1 -> refines m2 l2 -> refines (if b then m1 else m2) (if b then l1 else l2).
Proof. by destruct b. Qed.

Lemma awp_refines {A} (m : M D A) (l : L C A) s a c (Q : A -> board C -> Prop) :
  refines m l -> b_on s = true -> l (b_card s) = (a, c) -> Q a (set_card c s) ->
  awp at_board m s Q.
Proof.
  intros Hm Hs E HQ. eapply awp_mono; [by apply Hm|]. rewrite E. by intros ? ? [-> ->].
Qed.

(** The same, after the card has already moved on. *)
Lemma refines_at {A} (m : M D A) (l : L C A) s c :
  refines m l -> b_on s = true ->
  awp at_board m (set_card c s) (fun a s' => a = fst (l c) /\ s' = set_card (snd (l c)) s).
Proof. intros Hm Hs. eapply awp_mono; [by apply Hm|]. by intros a s' [-> ->]. Qed.

Lemma l_bind_eq {A B} (l : L C A) (g : A -> L C B) c a c1 :
  l c = (a, c1) -> (l ≫= g) c = g a c1.
Proof. unfold mbind, L_bind. by intros ->. Qed.

Lemma refines_txrx b : is_byte b -> refines (spi_txrx b) (link_txrx b).
Proof. intros Hb s Hs. by apply awp_spi_txrx. Qed.

Lemma refines_dummy : refines sd_dummy l_dummy.
Proof. by apply refines_txrx. Qed.

Lemma refines_dummies n :
  0 <= n -> refines (for_in (below n) (fun _ => sd_dummy ;; mret tt)) (l_dummies (Z.to_nat n)).
Proof.
  intros Hn. rewrite <- (below_length n) by done. induction (below n) as [|x l IH]; cbn.
  - apply refines_ret.
  - intros s Hs. wp_seq. wp_seq. destruct (l_dummy (b_card s)) as [r c] eqn:E.
    eapply awp_refines; [apply refines_dummy | done | exact E |]. apply awp_ret.
    rewrite (l_bind_eq _ _ _ _ _ E). by apply refines_at.
Qed.

Lemma refines_response n :
  refines (iter (fun n : Z =>
    r ← sd_dummy;
    if Z.land r 0x80 =? 0 then mret (inr r)
    else if n - 1 >? 0 then mret (inl (n - 1)) else mret (inr r)) (Z.of_nat (S n))) (l_response n).
Proof.
  induction n as [|n IH]; intros s Hs; apply awp_iter; wp_seq;
    destruct (l_dummy (b_card s)) as [r c] eqn:E;
    (eapply awp_refines; [apply refines_dummy | done | exact E |]);
    change 0x80 with (2 ^ 7); rewrite land_bit by lia;
    cbn [l_response]; rewrite (l_bind_eq _ _ _ _ _ E);
    destruct (Z.testbit r 7); try (by apply awp_ret).
  - change (2 ^ 7 =? 0) with false. cbn iota. destruct (Z.gtb_spec (Z.of_nat (S (S n)) - 1) 0); [|lia]. apply awp_ret.
    replace (Z.of_nat (S (S n)) - 1) with (Z.of_nat (S n)) by lia. by apply refines_at.
Qed.

(** [sd_cmd]: six bytes, then the response within a hundred polls. *)
Lemma refines_cmd cmd arg crc : is_byte crc -> refines (sd_cmd cmd arg crc) (l_cmd cmd arg crc).
Proof.
  intros Hc. unfold sd_cmd, l_cmd. apply refines_bind; [apply refines_dummy|]. intros _.
  do 6 (apply refines_bind; [apply refines_txrx; auto with bytes|]; intros _).
  apply (refines_response 99).
Qed.

Lemma awp_print_status t r s (Q : unit -> board C -> Prop) :
  uart_ready s -> is_byte r -> 0 ∉ str t ->
  Q tt (put (str "SD command " ++ str t ++ str (" " +:+ tab +:+ "response : ") ++ hex_be 1 r
             ++ str crlf) s) ->
  awp at_board (print_status t r) s Q.
Proof.
  intros Hs Hr Ht HQ. unfold print_status. print_step.
  wp_seq. eapply awp_sends; [by apply sends_print_uart | by apply ready_put|]. rewrite put_put.
  print_step. wp_seq. eapply awp_sends; [by apply sends_print_uart_byte | by rewrite !ready_put|].
  rewrite put_put. print_step. by rewrite <- !(assoc_L (++)).
Qed.

Lemma link_txrx_byte b c : is_byte (fst (link_txrx b c)).
Proof.
  unfold link_txrx. pose proof (xfer_byte b (select 0xfffffffe c)) as Hx.
  by destruct (xfer b (select 0xfffffffe c)).
Qed.

Lemma l_response_byte n c : is_byte (fst (l_response n c)).
Proof.
  revert c. induction n as [|n IH]; intros c; cbn [l_response]; unfold mbind, L_bind;
    pose proof (link_txrx_byte 0xFF c) as Hx; unfold l_dummy;
    destruct (link_txrx 0xFF c) as [r c1]; destruct (Z.testbit r 7); first [exact Hx | apply IH].
Qed.

Lemma l_cmd_byte cmd arg crc c : is_byte (fst (l_cmd cmd arg crc c)).
Proof.
  unfold l_cmd, mbind, L_bind.
  repeat match goal with |- context [let '(_, _) := ?e in _] => destruct e end.
  apply l_response_byte.
Qed.

Lemma refines_cmd0_try : refines (r ← sd_cmd 0 0 0x95; sd_dummy ;; mret r) l_cmd0_try.
Proof.
  apply refines_bind; [by apply refines_cmd|]. intros r.
  apply refines_bind; [apply refines_dummy|]. intros _. apply refines_ret.
Qed.

(** What is left of a call that exchanges and prints: the card in [c], and some output. *)
Definition moved (c : C) (s s' : board C) : Prop := exists out, s' = put out (set_card c s).

Lemma moved_ready c s s' : moved c s s' -> uart_ready s -> uart_ready s'.
Proof. intros [out ->] Hs. by rewrite ready_put. Qed.

Lemma moved_on c s s' : moved c s s' -> b_on s' = b_on s.
Proof. by intros [out ->]. Qed.

Lemma moved_card c s s' : moved c s s' -> b_card s' = c.
Proof. by intros [out ->]. Qed.

Lemma moved_set c s : moved c s (set_card c s).
Proof. exists []. by rewrite put_nil. Qed.

Lemma moved_put c s s' out : moved c s s' -> moved c s (put out s').
Proof. intros [o ->]. exists (o ++ out). by rewrite put_put. Qed.

Lemma moved_trans c1 c2 s s1 s2 : moved c1 s s1 -> moved c2 s1 s2 -> moved c2 s s2.
Proof.
  intros [o1 ->] [o2 ->]. exists (o1 ++ o2). rewrite set_card_put, put_put. done.
Qed.

Lemma l_cmd0_S n c r c' :
  l_cmd0_try c = (r, c') ->
  l_cmd0 (S n) c =
    match n with
    | O => (false, c')
    | S _ => if r =? 0x1 then (true, c') else l_cmd0 n c'
    end.
Proof.
  intros E. cbn [l_cmd0]. rewrite (l_bind_eq _ _ _ _ _ E). destruct n; [done|].
  by destruct (r =? 0x1).
Qed.

Lemma awp_cmd0_loop n s r :
  b_on s = true -> r <> 0x1 ->
  awp at_board (iter cmd0_body (Z.of_nat (S n), r)) s
    (fun o s' => o = (if fst (l_cmd0 (S n) (b_card s)) then Some 0x1 else None)
                 /\ s' = set_card (snd (l_cmd0 (S n) (b_card s))) s).
Proof.
  revert s r. induction n as [|n IH]; intros s r Hs Hr; apply awp_iter; unfold cmd0_body at 1;
    (destruct (Z.eqb_spec r 0x1); [done|]);
    destruct (l_cmd 0 0 0x95 (b_card s)) as [r1 c1] eqn:E1;
    destruct (l_dummy c1) as [x c2] eqn:E2;
    assert (E : l_cmd0_try (b_card s) = (r1, c2))
      by (unfold l_cmd0_try; rewrite (l_bind_eq _ _ _ _ _ E1), (l_bind_eq _ _ _ _ _ E2); done);
    rewrite (l_cmd0_S _ _ _ _ E); wp_seq;
    (eapply awp_refines; [by apply refines_cmd | done | exact E1 |]); cbv beta; wp_seq;
    (eapply awp_refines; [apply refines_dummy | done | exact E2 |]); cbn zeta.
  - change (Z.of_nat 1 - 1 <=? 0) with true. cbn iota. by apply awp_ret.
  - destruct (Z.leb_spec (Z.of_nat (S (S n)) - 1) 0); [lia|]. apply awp_ret.
    replace (Z.of_nat (S (S n)) - 1) with (Z.of_nat (S n)) by lia.
    destruct (Z.eqb_spec r1 0x1) as [->|Hr1].
    + apply awp_iter. by apply awp_ret.
    + eapply awp_mono; [by apply IH|]. by intros o s' [-> ->].
Qed.

(** [sd_cmd0]: whether the card answered 1, at the latest to the last attempt but one. *)
Lemma awp_sd_cmd0 s :
  b_on s = true -> uart_ready s ->
  awp at_board sd_cmd0 s (fun a s' =>
    a = Z.b2z (fst (l_cmd0 cmd0_attempts (b_card s)))
    /\ moved (snd (l_cmd0 cmd0_attempts (b_card s))) s s').
Proof.
  intros Hs Hr. unfold sd_cmd0. wp_seq.
  assert (En : exists n, cmd0_attempts = S n) by (exists (Nat.pred cmd0_attempts); unfold cmd0_attempts; lia).
  destruct En as [n En].
  replace 10000 with (Z.of_nat (S n)) by (rewrite <- En; unfold cmd0_attempts; lia). rewrite En.
  eapply awp_mono; [by apply awp_cmd0_loop|]. intros o s' [-> ->].
  destruct (fst (l_cmd0 (S n) (b_card s))).
  - wp_seq. apply awp_print_status; [done | done | literal |]. apply awp_ret. split; [done|].
    apply moved_put, moved_set.
  - apply awp_ret. split; [done | apply moved_set].
Qed.

(** [sd_cmd8] prints nothing. *)
Lemma refines_cmd8 : refines sd_cmd8 l_cmd8.
Proof.
  apply refines_bind; [by apply refines_cmd | intros r1].
  do 2 (apply refines_bind; [apply refines_dummy | intros _]).
  apply refines_bind; [apply refines_dummy | intros r4].
  apply refines_bind; [apply refines_dummy | intros r5].
  do 2 (apply refines_bind; [apply refines_dummy | intros _]). apply refines_ret.
Qed.

Lemma awp_sd_cmd55 s c1 :
  b_on s = true -> uart_ready s ->
  snd ((l_cmd 55 0x0 0x65 ;; l_dummy) (b_card s)) = c1 ->
  awp at_board sd_cmd55 s (fun _ s' => moved c1 s s').
Proof.
  intros Hs Hr Hc1. unfold sd_cmd55. wp_seq.
  pose proof (l_cmd_byte 55 0 0x65 (b_card s)) as Hb.
  destruct (l_cmd 55 0x0 0x65 (b_card s)) as [r c] eqn:E1.
  rewrite (l_bind_eq _ _ _ _ _ E1) in Hc1. destruct (l_dummy c) as [x c'] eqn:E2.
  eapply awp_refines; [by apply refines_cmd | done | exact E1|]. wp_seq.
  eapply awp_refines; [apply refines_dummy | done | exact E2|]. wp_seq.
  apply awp_print_status; [done | exact Hb | literal|]. apply awp_ret.
  cbn in Hc1. subst c'. apply moved_put. apply (moved_set c1 s).
Qed.

(** A command after a call that may have printed. *)
Lemma awp_moved {A} (m : M D A) (l : L C A) c s s1 a c' (Q : A -> board C -> Prop) :
  refines m l -> moved c s s1 -> b_on s = true -> l c = (a, c') ->
  (forall s2, moved c' s s2 -> Q a s2) -> awp at_board m s1 Q.
Proof.
  intros Hm Hmv Hs E HQ. eapply awp_refines; [done | | | ].
  - by rewrite (moved_on _ _ _ Hmv).
  - by rewrite (moved_card _ _ _ Hmv).
  - apply HQ. eapply moved_trans; [exact Hmv | apply moved_set].
Qed.

Lemma awp_acmd41_body s r c' :
  b_on s = true -> uart_ready s -> l_acmd41_try (b_card s) = (r, c') ->
  awp at_board (acmd41_body tt) s (fun a s' =>
    a = (if r =? 0x1 then inl tt else inr r) /\ moved c' s s').
Proof.
  intros Hs Hr Ht. unfold l_acmd41_try in Ht.
  destruct (l_cmd 55 0x0 0x65 (b_card s)) as [r55 ca] eqn:Ea.
  rewrite (l_bind_eq _ _ _ _ _ Ea) in Ht.
  destruct (l_dummy ca) as [xa cb] eqn:Eb. rewrite (l_bind_eq _ _ _ _ _ Eb) in Ht.
  pose proof (l_cmd_byte 41 0x40000000 0x77 cb) as Hb.
  destruct (l_cmd 41 0x40000000 0x77 cb) as [r41 cc] eqn:E41.
  rewrite (l_bind_eq _ _ _ _ _ E41) in Ht.
  destruct (l_dummy cc) as [xb cd] eqn:Ed. rewrite (l_bind_eq _ _ _ _ _ Ed) in Ht.
  injection Ht as <- <-. unfold acmd41_body. wp_seq.
  eapply awp_mono; [apply (awp_sd_cmd55 s cb); [done | done | by rewrite (l_bind_eq _ _ _ _ _ Ea), Eb]|].
  intros a1 s1 Hm1. wp_seq.
  eapply awp_moved; [by apply refines_cmd | exact Hm1 | done | exact E41|]. intros s2 Hm2. wp_seq.
  apply awp_print_status; [by eapply moved_ready | exact Hb | literal|]. wp_seq.
  eapply awp_moved; [apply refines_dummy | apply moved_put, Hm2 | done | exact Ed|]. intros s3 Hm3.
  destruct (r41 =? 0x1); by apply awp_ret.
Qed.

(** [sd_acmd41] ends when the card stops answering 1. *)
Lemma awp_sd_acmd41 s r c' :
  b_on s = true -> uart_ready s -> acmd41 (b_card s) r c' ->
  awp at_board sd_acmd41 s (fun a s' => a = Z.b2z (r =? 0) /\ moved c' s s').
Proof.
  intros Hs Hr Ha. unfold sd_acmd41. wp_seq.
  enough (G : awp at_board (iter acmd41_body tt) s (fun a s' => a = r /\ moved c' s s')).
  { eapply awp_mono; [exact G|]. intros a s' [-> Hm]. by apply awp_ret. }
  remember (b_card s) as c eqn:Ec. revert s Hs Hr Ec.
  induction Ha as [c r c' Ht Hr1|c c1 r c' Ht _ IH]; intros s Hs Hr ->; apply awp_iter;
    (eapply awp_mono; [by apply awp_acmd41_body|]); intros a s1 [-> Hm].
  - by destruct (Z.eqb_spec r 0x1).
  - cbn iota. eapply awp_mono; [apply IH|].
    + by rewrite (moved_on _ _ _ Hm).
    + by eapply moved_ready.
    + by rewrite (moved_card _ _ _ Hm).
    + intros a s2 [-> Hm2]. split; [done|]. by eapply moved_trans.
Qed.

(** [init_sd]: the result code says how far the card came. *)
Lemma awp_init_sd s code c' :
  uart_ready s -> init_card (b_card s) code c' ->
  awp at_board init_sd s (fun a s' => a = code /\ moved c' (set_on true s) s').
Proof.
  intros Hr Hi. unfold init_sd. wp_seq. eapply awp_mono; [by apply awp_spi_init|].
  intros _ s0 (v1 & v2 & ->). print_step.
  set (s1 := set_on true s). set (out := _ ++ _).
  assert (Hm0 : moved (b_card s) s1 (put out s1)) by (exists out; by destruct s).
  destruct (l_dummies 10 (b_card s)) as [[] ca] eqn:E1.
  wp_seq. eapply awp_moved; [by apply (refines_dummies 10) | exact Hm0 | done | exact E1|].
  intros s2 Hm2. wp_seq. eapply awp_mono.
  { apply awp_sd_cmd0; [by rewrite (moved_on _ _ _ Hm2) | by eapply moved_ready]. }
  rewrite (moved_card _ _ _ Hm2). intros ok s3 [-> Hm3].
  eapply moved_trans in Hm3; [|exact Hm2].
  inversion Hi as [c c2 H1 | c c2 c3 H1 H2 | c c2 c3 r c4 H1 H2 H3 Hne | c c2 c3 c4 H1 H2 H3]; subst;
    rewrite (l_bind_eq _ _ _ _ _ E1) in H1; rewrite H1 in *; cbn [fst snd Z.b2z Z.eqb] in *.
  - by apply awp_ret.
  - wp_seq. eapply awp_moved; [apply refines_cmd8 | exact Hm3 | done | exact H2|].
    intros s4 Hm4. by apply awp_ret.
  - wp_seq. eapply awp_moved; [apply refines_cmd8 | exact Hm3 | done | exact H2|].
    intros s4 Hm4. change (1 =? 0) with false. cbn iota. wp_seq. eapply awp_mono.
    { apply (awp_sd_acmd41 s4 r c'); [by rewrite (moved_on _ _ _ Hm4) | by eapply moved_ready
        | by rewrite (moved_card _ _ _ Hm4)]. }
    intros ok s5 [-> Hm5]. eapply moved_trans in Hm5; [|exact Hm4].
    destruct (Z.eqb_spec r 0); [done|]. by apply awp_ret.
  - wp_seq. eapply awp_moved; [apply refines_cmd8 | exact Hm3 | done | exact H2|].
    intros s4 Hm4. change (1 =? 0) with false. cbn iota. wp_seq. eapply awp_mono.
    { apply (awp_sd_acmd41 s4 0 c'); [by rewrite (moved_on _ _ _ Hm4) | by eapply moved_ready
        | by rewrite (moved_card _ _ _ Hm4)]. }
    intros ok s5 [-> Hm5]. eapply moved_trans in Hm5; [|exact Hm4]. by apply awp_ret.
Qed.

(** ** Reading blocks *)

Lemma awp_store8 a v s (Q : unit -> board C -> Prop) :
  Q tt (set_mem (<[a := u8 v]> (b_mem s)) s) -> awp at_board (store8 a v) s Q.
Proof.
  intros HQ w (H1 & H2 & H3 & H4 & H5). apply wp_store8. eexists. split; [|exact HQ].
  repeat split; cbn; try done. by rewrite H4.
Qed.

(** The loop that fills the output buffer. *)
Lemma awp_fill a n v s :
  0 <= n -> is_byte v ->
  awp at_board (for_in (below n) (fun j => store8 (a + j) v)) s
    (fun _ s' => s' = set_mem (write_bytes a (replicate (Z.to_nat n) v) (b_mem s)) s).
Proof.
  intros Hn Hv. eapply (awp_for_in _ _ _ (fun pre s' =>
    s' = set_mem (write_bytes a (replicate (length pre) v) (b_mem s)) s)).
  - by destruct s.
  - intros pre j post s' El ->. destruct (below_split _ _ _ _ El) as [-> Hj].
    apply awp_store8. rewrite length_app, u8_small by done. cbn [length].
    rewrite Nat.add_1_r, replicate_S_end, write_bytes_snoc, length_replicate. done.
  - intros s' ->. by rewrite below_length.
Qed.

(** The loop that adds the bytes just stored to the checksum. *)
Lemma awp_crc_bytes p bs n crc s :
  n = Z.of_nat (length bs) -> read_bytes (b_mem s) p (length bs) = Some bs ->
  awp at_board (fold_in (below n) (fun i crc =>
      b ← load8 (p + i); mret (crc16 crc b)) crc) s
    (fun c s' => c = crc16_bytes crc bs /\ s' = s).
Proof.
  intros -> Hr. eapply (awp_fold_in _ _ _ (fun pre c s' =>
    c = crc16_bytes crc (take (length pre) bs) /\ s' = s)).
  - done.
  - intros pre i post c s' El [-> ->]. destruct (below_split _ _ _ _ El) as [Ei Hi].
    destruct (read_bytes_at _ _ _ _ i Hr Hi) as (b & Hb & Hm).
    wp_seq. eapply awp_load8; [exact Hm|]. apply awp_ret. split; [|done].
    rewrite length_app. cbn [length]. rewrite Nat.add_1_r.
    rewrite (take_S_r _ _ b) by (by rewrite Ei, Nat2Z.id in Hb).
    by rewrite crc16_bytes_snoc.
  - intros c s' [-> ->]. rewrite below_length by lia. by rewrite Nat2Z.id, firstn_all.
Qed.

Lemma link_burst_spec bs c :
  length (fst (link_burst bs c)) = length bs /\ Forall is_byte (fst (link_burst bs c)).
Proof.
  unfold link_burst. pose proof (xfers_length bs (select 0xfffffffe c)) as Hl.
  pose proof (xfers_bytes bs (select 0xfffffffe c)) as Hb.
  by destruct (xfers bs (select 0xfffffffe c)).
Qed.

Lemma l_bursts_spec k c :
  length (fst (l_bursts k c)) = (64 * k)%nat /\ Forall is_byte (fst (l_bursts k c)).
Proof.
  revert c. induction k as [|k IH]; intros c; [done|]. cbn [l_bursts]. unfold mbind, L_bind.
  destruct (link_burst_spec (replicate 64 0xff) c) as [Hl Hb].
  destruct (link_burst (replicate 64 0xff) c) as [b c1]. destruct (IH c1) as [Hl1 Hb1].
  destruct (l_bursts k c1) as [bs c2]. cbn [fst mret L_ret] in *.
  rewrite length_app, Hl, Hl1, length_replicate. split; [lia | by apply Forall_app].
Qed.

Lemma l_bursts_S k c b c1 :
  link_burst (replicate 64 0xff) c = (b, c1) ->
  l_bursts (S k) c = (b ++ fst (l_bursts k c1), snd (l_bursts k c1)).
Proof.
  intros E. cbn [l_bursts]. rewrite (l_bind_eq _ _ _ _ _ E). unfold mbind, L_bind.
  by destruct (l_bursts k c1).
Qed.

(** The memory of [ff] outlives stores elsewhere. *)
Definition ff_ok (m : gmap Z Z) : Prop := read_bytes m ff_buf 64 = Some (replicate 64 0xff).

Definition apart (p n : Z) : Prop := p + n <= ff_buf \/ ff_buf + 128 <= p.

Lemma ff_ok_write p bs m :
  apart p (Z.of_nat (length bs)) -> ff_ok m -> ff_ok (write_bytes p bs m).
Proof.
  intros Ha Hf. unfold ff_ok. rewrite read_write_other; [done|].
  unfold in_range, apart in *. lia.
Qed.

Lemma awp_burst p s b c :
  b_on s = true -> ff_ok (b_mem s) -> link_burst (replicate 64 0xff) (b_card s) = (b, c) ->
  awp at_board (spi_write_bytes ff_buf 64 p) s
    (fun r s' => r = 0 /\ s' = set_mem (write_bytes p b (b_mem s)) (set_card c s)).
Proof.
  intros Hs Hff E.
  pose proof (awp_spi_write_bytes ff_buf (replicate 64 0xff) p s) as Hw.
  rewrite E in Hw. apply Hw; [done | | cbn; lia | done].
  apply Forall_replicate. auto with bytes.
Qed.

(** [k + 1] turns of the inner loop. *)
Lemma awp_chunks k p crc s :
  b_on s = true -> ff_ok (b_mem s) -> apart p (64 * Z.of_nat (S k)) ->
  awp at_board (iter chunk_body (p, 64 * Z.of_nat (S k), crc)) s (fun a s' =>
    a = (p + 64 * Z.of_nat (S k), crc16_bytes crc (fst (l_bursts (S k) (b_card s))))
    /\ s' = set_mem (write_bytes p (fst (l_bursts (S k) (b_card s))) (b_mem s))
              (set_card (snd (l_bursts (S k) (b_card s))) s)).
Proof.
  revert p crc s. induction k as [|k IH]; intros p crc s Hs Hff Hap; apply awp_iter;
    unfold chunk_body at 1; cbn zeta; wp_seq;
    destruct (link_burst (replicate 64 0xff) (b_card s)) as [b c] eqn:E;
    (destruct (link_burst_spec (replicate 64 0xff) (b_card s)) as [Hl Hb]);
    rewrite E in Hl; rewrite E in Hb; cbn [fst] in Hl, Hb; rewrite length_replicate in Hl;
    (eapply awp_mono; [by apply (awp_burst p s b c)|]); intros r0 s1 [-> ->]; wp_seq;
    (eapply awp_mono; [apply (awp_crc_bytes p b); [by rewrite Hl | apply read_write_same]|]);
    intros crc1 s1 [-> ->];
    rewrite (l_bursts_S _ _ _ _ E).
  - apply awp_ret. cbn [fst snd l_bursts mret L_ret]. rewrite app_nil_r. split; [f_equal; lia | done].
  - destruct (Z.gtb_spec (64 * Z.of_nat (S (S k)) - 64) 0); [|lia]. apply awp_ret.
    replace (64 * Z.of_nat (S (S k)) - 64) with (64 * Z.of_nat (S k)) by lia.
    eapply awp_mono; [apply IH; [done | |]|].
    + apply ff_ok_write; [rewrite Hl; unfold apart in *; lia | done].
    + unfold apart in *. lia.
    + cbn [b_card b_mem set_card set_mem].
      destruct (l_bursts (S k) c) as [bs c2]. cbn [fst snd]. intros a s2 [-> ->].
      rewrite crc16_bytes_app, write_bytes_app, Hl. split; [f_equal; lia | done].
Qed.

(** The same with memory [m] left behind. *)
Definition ended (m : gmap Z Z) (c : C) (s s' : board C) : Prop :=
  exists out, s' = put out (set_mem m (set_card c s)).

Lemma ended_state m c s s' :
  ended m c s s' ->
  b_on s' = b_on s /\ b_card s' = c /\ b_mem s' = m /\ (uart_ready s -> uart_ready s').
Proof. by intros [out ->]. Qed.

Lemma ended_trans m1 c1 m2 c2 s s1 s2 : ended m1 c1 s s1 -> ended m2 c2 s1 s2 -> ended m2 c2 s s2.
Proof. intros [o1 ->] [o2 ->]. exists (o1 ++ o2). by rewrite <- put_put. Qed.

Lemma ended_put m c s s' out : ended m c s s' -> ended m c s (put out s').
Proof. intros [o ->]. exists (o ++ out). by rewrite put_put. Qed.

(** The wait for the data token. *)
Lemma awp_token s c' :
  b_on s = true -> token (b_card s) c' ->
  awp at_board (wait_while (x ← sd_dummy; mret (negb (x =? SD_DATA_TOKEN)))) s
    (fun _ s' => s' = set_card c' s).
Proof.
  intros Hs Ht. remember (b_card s) as c eqn:Ec. revert s Hs Ec.
  induction Ht as [c c' E|c x c1 c' E Hx _ IH]; intros s Hs ->; apply awp_wait_while; wp_seq;
    (eapply awp_refines; [apply refines_dummy | done | exact E|]); apply awp_ret.
  - by rewrite Z.eqb_refl.
  - destruct (Z.eqb_spec x SD_DATA_TOKEN); [done|]. cbn [negb].
    eapply awp_mono; [by apply IH|]. by intros [] s' ->.
Qed.

Lemma crc_exp_eq hi lo :
  is_byte hi -> is_byte lo -> u16 (Z.lor (u16 (Z.shiftl hi 8)) lo) = 256 * hi + lo.
Proof.
  unfold is_byte. intros Hh Hl. rewrite Z.shiftl_mul_pow2, (u16_small (hi * 2 ^ 8)) by lia.
  rewrite lor_low by lia. rewrite u16_small; lia.
Qed.

(** One block: stored, and its checksum compared with the card's. *)
Lemma awp_block_body p i b crc c' s :
  b_on s = true -> uart_ready s -> ff_ok (b_mem s) -> apart p 512 ->
  delivers (b_card s) b crc c' ->
  awp at_board (block_body (p, i)) s (fun r s' =>
    r = (if crc16_bytes 0 b =? crc then if i - 1 >? 0 then inl (p + 512, i - 1) else inr 0
         else inr SD_COPY_ERROR_CMD18_CRC)
    /\ ended (write_bytes p b (b_mem s)) c' s s').
Proof.
  intros Hs Hr Hff Hap (c1 & Ht & Hb). unfold block_body. wp_seq.
  eapply awp_mono; [by apply awp_token|]. intros _ s1 ->. wp_seq.
  eapply awp_mono; [by apply (awp_chunks 7 p 0 (set_card c1 s))|].
  unfold l_block in Hb. cbn [b_card set_card].
  destruct (l_bursts 8 c1) as [b0 c2] eqn:Eb. rewrite (l_bind_eq _ _ _ _ _ Eb) in Hb.
  cbn [fst snd]. intros pc s2 [-> ->].
  pose proof (link_txrx_byte 0xFF c2) as Hhi. fold l_dummy in Hhi.
  destruct (l_dummy c2) as [hi c3] eqn:Ehi. rewrite (l_bind_eq _ _ _ _ _ Ehi) in Hb.
  pose proof (link_txrx_byte 0xFF c3) as Hlo. fold l_dummy in Hlo.
  destruct (l_dummy c3) as [lo c4] eqn:Elo. rewrite (l_bind_eq _ _ _ _ _ Elo) in Hb.
  injection Hb as <- <- <-. wp_seq.
  eapply awp_refines; [apply refines_dummy | done | exact Ehi|]. wp_seq.
  eapply awp_refines; [apply refines_dummy | done | exact Elo|]. cbn [fst] in *. cbn zeta.
  rewrite crc_exp_eq by done.
  assert (He : ended (write_bytes p b0 (b_mem s)) c4 s
            (set_card c4 (set_card c3 (set_mem (write_bytes p b0 (b_mem s)) (set_card c2 s)))))
    by (exists []; by rewrite put_nil).
  destruct (crc16_bytes 0 b0 =? 256 * hi + lo); cbn [negb]; [|by apply awp_ret].
  wp_seq. apply (awp_mono _ _ _ (fun _ s' => ended (write_bytes p b0 (b_mem s)) c4 s s')).
  - destruct (i mod 1000 =? 0); [print_step; by apply ended_put | by apply awp_ret].
  - intros _ s3 Hs3. destruct (i - 1 >? 0); by apply awp_ret.
Qed.

Lemma delivers_length c b crc c' : delivers c b crc c' -> length b = 512%nat.
Proof.
  intros (c1 & _ & Hb). unfold l_block in Hb. pose proof (l_bursts_spec 8 c1) as [Hl _].
  destruct (l_bursts 8 c1) as [b0 c2] eqn:E. rewrite (l_bind_eq _ _ _ _ _ E) in Hb.
  destruct (l_dummy c2) as [hi c3] eqn:E3. rewrite (l_bind_eq _ _ _ _ _ E3) in Hb.
  destruct (l_dummy c3) as [lo c4] eqn:E4. rewrite (l_bind_eq _ _ _ _ _ E4) in Hb.
  injection Hb as <- <- <-. exact Hl.
Qed.

Lemma delivers_bytes c b crc c' : delivers c b crc c' -> Forall is_byte b.
Proof.
  intros (c1 & _ & Hb). unfold l_block in Hb. pose proof (l_bursts_spec 8 c1) as [_ Hl].
  destruct (l_bursts 8 c1) as [b0 c2] eqn:E. rewrite (l_bind_eq _ _ _ _ _ E) in Hb.
  destruct (l_dummy c2) as [hi c3] eqn:E3. rewrite (l_bind_eq _ _ _ _ _ E3) in Hb.
  destruct (l_dummy c3) as [lo c4] eqn:E4. rewrite (l_bind_eq _ _ _ _ _ E4) in Hb.
  injection Hb as <- <- <-. exact Hl.
Qed.

Lemma good_blocks_length c goods c' :
  good_blocks c goods c' -> length (concat goods) = (512 * length goods)%nat.
Proof.
  induction 1 as [|c b c1 goods c' Hd _ IH]; [done|]. cbn [concat length].
  rewrite length_app, IH, (delivers_length _ _ _ _ Hd). lia.
Qed.

Lemma transfer_bytes i c bs rc c' : transfer i c bs rc c' -> Forall is_byte bs.
Proof.
  induction 1; try apply Forall_app_2; first [done | by eapply delivers_bytes].
Qed.

(** A complete transfer moves at least one block. *)
Lemma transfer_length i c bs c' :
  transfer i c bs 0 c' -> Z.of_nat (length bs) = 512 * Z.max 1 i.
Proof.
  remember 0 as rc eqn:Erc. induction 1 as [|i c b c' Hd Hi|i c b c1 bs rc c' Hd Hi _ IH].
  - done.
  - rewrite (delivers_length _ _ _ _ Hd). lia.
  - rewrite length_app, Nat2Z.inj_add, (IH Erc), (delivers_length _ _ _ _ Hd). lia.
Qed.

Lemma reading_bytes c lba size bs rc c' : reading c lba size bs rc c' -> Forall is_byte bs.
Proof. intros [c1 bs0 rc0 c2 c3 _ Ht _|]; [by eapply transfer_bytes | constructor]. Qed.

Lemma reading_length c lba size bs c' :
  reading c lba size bs 0 c' -> Z.of_nat (length bs) = 512 * Z.max 1 size.
Proof. inversion 1; subst. by eapply transfer_length. Qed.

Lemma reading_length_le c lba size bs rc c' :
  reading c lba size bs rc c' -> Z.of_nat (length bs) <= 512 * Z.max 1 size.
Proof.
  assert (Ht : forall i c bs rc c', transfer i c bs rc c' -> Z.of_nat (length bs) <= 512 * Z.max 1 i).
  { clear. induction 1 as [i c b crc c' Hd _|i c b c' Hd Hi|i c b c1 bs rc c' Hd Hi _ IH];
      rewrite ?length_app, ?Nat2Z.inj_add, (delivers_length _ _ _ _ Hd); lia. }
  intros [c1 bs0 rc0 c2 c3 _ Hr _|]; [by eapply Ht | cbn [length]; lia].
Qed.

(** The loop over the blocks. *)
Lemma awp_blocks i c bs rc c' p s :
  b_on s = true -> uart_ready s -> ff_ok (b_mem s) -> apart p (Z.of_nat (length bs)) ->
  b_card s = c -> transfer i c bs rc c' ->
  awp at_board (iter block_body (p, i)) s (fun r s' =>
    r = rc /\ ended (write_bytes p bs (b_mem s)) c' s s').
Proof.
  intros Hs Hr Hff Hap Hc Ht. revert p s Hs Hr Hff Hap Hc.
  induction Ht as [i c b crc c' Hd Hne|i c b c' Hd Hi|i c b c1 bs rc c' Hd Hi _ IH];
    intros p s Hs Hr Hff Hap <-; pose proof (delivers_length _ _ _ _ Hd) as Hl; apply awp_iter;
    (eapply awp_mono; [apply (awp_block_body p i); [done..| |exact Hd];
      rewrite ?length_app, Hl in Hap; unfold apart in *; lia|]); intros r s1 [-> He].
  - by destruct (Z.eqb_spec (crc16_bytes 0 b) crc).
  - rewrite Z.eqb_refl. by destruct (Z.gtb_spec (i - 1) 0); [lia|].
  - rewrite Z.eqb_refl. destruct (Z.gtb_spec (i - 1) 0); [|lia].
    destruct (ended_state _ _ _ _ He) as (E1 & E2 & E3 & E4).
    eapply awp_mono; [apply IH|].
    + by rewrite E1.
    + by apply E4.
    + rewrite E3. apply ff_ok_write; [|done].
      rewrite length_app, Hl in Hap. rewrite Hl. unfold apart in *. lia.
    + rewrite length_app, Hl in Hap. unfold apart in *. lia.
    + exact E2.
    + intros r s2 [-> He2]. split; [done|]. rewrite write_bytes_app, Hl, <- E3.
      by eapply ended_trans.
Qed.

(** What [sd_copy] leaves in the buffer [ff]. *)
Definition ff_filled (m : gmap Z Z) : gmap Z Z := write_bytes ff_buf (replicate 128 0xff) m.

Lemma ff_filled_ok m : ff_ok (ff_filled m).
Proof.
  unfold ff_ok, ff_filled. change 128%nat with (64 + 64)%nat.
  rewrite replicate_add, write_bytes_app, read_write_other.
  - apply (read_write_same ff_buf (replicate 64 0xff)).
  - intros i. rewrite !length_replicate. unfold in_range. lia.
Qed.

(** [sd_copy] when the card accepts the read. *)
Lemma awp_sd_copy dst lba size s c1 bs rc c2 c3 :
  b_on s = true -> uart_ready s -> apart dst (Z.of_nat (length bs)) ->
  l_cmd SD_CMD_READ_BLOCK_MULTIPLE lba (read_cmd_crc lba) (b_card s) = (0, c1) ->
  transfer size c1 bs rc c2 -> l_stop c2 = (tt, c3) ->
  awp at_board (sd_copy dst lba size) s (fun r s' =>
    r = rc /\ ended (write_bytes dst bs (ff_filled (b_mem s))) c3 s s').
Proof.
  intros Hs Hr Hap Hcmd Ht Hstop. unfold sd_copy. wp_seq.
  eapply awp_mono; [by apply awp_fill|]. intros _ s1 ->.
  change (Z.to_nat 128) with 128%nat. fold (ff_filled (b_mem s)). wp_seq.
  eapply awp_refines; [apply refines_cmd; apply u8_byte | done | exact Hcmd|].
  cbn [negb Z.eqb]. wp_seq.
  eapply awp_mono; [eapply (awp_blocks size c1 bs rc c2)|].
  - done.
  - done.
  - apply ff_filled_ok.
  - done.
  - done.
  - done.
  - cbn [b_mem set_card set_mem]. intros r s2 [-> He].
    assert (He2 : ended (write_bytes dst bs (ff_filled (b_mem s))) c2 s s2)
      by (eapply ended_trans; [|exact He]; exists []; by rewrite put_nil).
    destruct (ended_state _ _ _ _ He2) as (E1 & E2 & E3 & _).
    unfold l_stop in Hstop. destruct (l_cmd SD_CMD_STOP_TRANSMISSION 0 0x01 c2) as [x ca] eqn:Ea.
    rewrite (l_bind_eq _ _ _ _ _ Ea) in Hstop. destruct (l_dummy ca) as [y cb] eqn:Eb.
    rewrite (l_bind_eq _ _ _ _ _ Eb) in Hstop. injection Hstop as <-.
    wp_seq. eapply awp_refines; [by apply refines_cmd | by rewrite E1 | by rewrite E2 |].
    wp_seq. eapply awp_refines; [apply refines_dummy | by rewrite <- Hs, <- E1 | exact Eb |].
    apply awp_ret. split; [done|]. eapply ended_trans; [exact He2|].
    exists []. rewrite put_nil. by destruct s2; cbn in *; subst.
Qed.

(** [sd_copy] when the card refuses it. *)
Lemma awp_sd_copy_refused dst lba size s r0 c1 c2 :
  b_on s = true -> uart_ready s -> r0 <> 0 ->
  l_cmd SD_CMD_READ_BLOCK_MULTIPLE lba (read_cmd_crc lba) (b_card s) = (r0, c1) ->
  l_dummies 8 c1 = (tt, c2) ->
  awp at_board (sd_copy dst lba size) s (fun r s' =>
    r = -1
    /\ s' = put (str ("could not read SD block" +:+ crlf)) (set_mem (ff_filled (b_mem s)) (set_card c2 s))).
Proof.
  intros Hs Hr Hr0 Hcmd Hd. unfold sd_copy. wp_seq.
  eapply awp_mono; [by apply awp_fill|]. intros _ s1 ->.
  change (Z.to_nat 128) with 128%nat. fold (ff_filled (b_mem s)). wp_seq.
  eapply awp_refines; [apply refines_cmd; apply u8_byte | done | exact Hcmd|].
  destruct (Z.eqb_spec r0 0) as [|_]; [done|]. cbn [negb]. wp_seq.
  eapply awp_refines; [by apply (refines_dummies 8) | done | exact Hd|].
  print_step. by apply awp_ret.
Qed.

(** [sd_copy], whatever the card answers. *)
Lemma awp_sd_reading dst lba size s bs rc c' :
  b_on s = true -> uart_ready s -> apart dst (Z.of_nat (length bs)) ->
  reading (b_card s) lba size bs rc c' ->
  awp at_board (sd_copy dst lba size) s (fun r s' =>
    r = rc /\ ended (write_bytes dst bs (ff_filled (b_mem s))) c' s s').
Proof.
  intros Hs Hr Hap Hrd. revert Hap.
  destruct Hrd as [c1 bs rc c2 c' Hcmd Ht Hstop|r c1 c' Hcmd Hne Hd]; intros Hap.
  - eapply awp_sd_copy; [exact Hs | exact Hr | exact Hap | exact Hcmd | exact Ht | exact Hstop].
  - eapply awp_mono; [eapply (awp_sd_copy_refused dst lba size s r); [exact Hs | exact Hr | exact Hne | exact Hcmd | exact Hd]|].
    intros a s' [-> ->].
    split; [done|]. by eexists.
Qed.

End specs.

(** * The attempts of [sd_cmd0], and the polls of [sd_cmd] *)

Section polls.
Context `{!SpiSlave C}.

(** The card after [k] attempts, and the answer to the next. *)
Definition cmd0_after (k : nat) (c : C) : C := Nat.iter k (fun c => snd (l_cmd0_try c)) c.
Definition cmd0_answer (k : nat) (c : C) : Z := fst (l_cmd0_try (cmd0_after k c)).

Lemma l_cmd0_answers n c :
  fst (l_cmd0 (S n) c) = true <-> exists k, (k < n)%nat /\ cmd0_answer k c = 0x1.
Proof.
  revert c. induction n as [|n IH]; intros c; destruct (l_cmd0_try c) as [r c1] eqn:E;
    rewrite (l_cmd0_S _ _ _ _ E).
  - split; [done|]. intros (k & Hk & _). lia.
  - assert (E0 : cmd0_answer 0 c = r) by (unfold cmd0_answer; cbn; by rewrite E).
    assert (ES : forall k, cmd0_answer (S k) c = cmd0_answer k c1).
    { intros k. unfold cmd0_answer, cmd0_after. by rewrite Nat.iter_succ_r, E. }
    destruct (Z.eqb_spec r 0x1) as [->|Hr].
    + split; [|done]. intros _. exists 0%nat. split; [lia | done].
    + rewrite IH. split; intros (k & Hk & Ha).
      * exists (S k). rewrite ES. split; [lia | done].
      * destruct k as [|k]; [congruence|]. exists k. rewrite ES in Ha. split; [lia | done].
Qed.

(** The card after [k] polls, and the answer to the next. *)
Definition polled (k : nat) (c : C) : C := Nat.iter k (fun c => snd (l_dummy c)) c.
Definition poll_answer (k : nat) (c : C) : Z := fst (l_dummy (polled k c)).

(** The response is the first byte with bit 7 clear, or the last byte polled. *)
Lemma l_response_first n c :
  exists k, (k <= n)%nat /\ l_response n c = (poll_answer k c, polled (S k) c)
    /\ (forall j, (j < k)%nat -> Z.testbit (poll_answer j c) 7 = true)
    /\ (Z.testbit (poll_answer k c) 7 = true -> k = n).
Proof.
  revert c. induction n as [|n IH]; intros c; destruct (l_dummy c) as [r c1] eqn:E;
    assert (E0 : poll_answer 0 c = r) by (unfold poll_answer; cbn; by rewrite E);
    assert (E1 : polled 1 c = c1) by (unfold polled; cbn; by rewrite E);
    cbn [l_response]; rewrite (l_bind_eq _ _ _ _ _ E).
  - exists 0%nat. rewrite E0, E1. split_and!; [done | by destruct (Z.testbit r 7) | lia | done].
  - destruct (Z.testbit r 7) eqn:Hr.
    + destruct (IH c1) as (k & Hk & El & Hj & Hl).
      assert (ES : forall k, poll_answer (S k) c = poll_answer k c1).
      { intros i. unfold poll_answer, polled. by rewrite Nat.iter_succ_r, E. }
      exists (S k). rewrite El, ES. split_and!; [lia | | | intros Ht; by rewrite (Hl Ht)].
      * unfold polled. by rewrite (Nat.iter_succ_r (S k)), E.
      * intros [|j] Hjk; [by rewrite E0 | rewrite ES; apply Hj; lia].
    + exists 0%nat. rewrite E0, E1. split_and!; [lia | done | lia | by rewrite Hr].
Qed.

(** The card after the bytes [bs] have been exchanged one by one. *)
Definition after_bytes (bs : list Z) (c : C) : C := foldl (fun c b => snd (link_txrx b c)) c bs.

(** A command on the wire: start bit and number, argument most significant byte first, checksum. *)
Definition frame_of (cmd arg crc : Z) : list Z :=
  [0x40 + cmd; arg / 2 ^ 24; (arg / 2 ^ 16) mod 256; (arg / 2 ^ 8) mod 256; arg mod 256; crc].

Lemma l_cmd_frame cmd arg crc c :
  0 <= cmd < 64 -> 0 <= arg < 2 ^ 32 ->
  l_cmd cmd arg crc c = l_response 99 (after_bytes (0xff :: frame_of cmd arg crc) c).
Proof.
  intros Hc Ha.
  assert (E : u8 (Z.lor 0x40 cmd) = 0x40 + cmd).
  { pose proof (lor_low 6 1 cmd) as El. change (1 * 2 ^ 6) with 0x40 in El. rewrite El by lia. apply u8_small. unfold is_byte. lia. }
  unfold l_cmd. rewrite E, !shiftr_div by lia.
  replace (u8 (arg / 2 ^ 24)) with (arg / 2 ^ 24) by (rewrite u8_small; [done | unfold is_byte; divlia]).
  unfold after_bytes, frame_of. cbn [foldl]. unfold l_dummy at 1, mbind, L_bind.
  repeat match goal with
    | |- context [let '(_, _) := ?e in _] => rewrite (surjective_pairing e); cbn [fst snd]
    end. done.
Qed.
End polls.

(** * Every run *)

Section closed.
Context `{!Bus D, !Layout} {I : world D -> Prop} {A : Z -> Prop} `{!Closed I A}.

Lemma keeps_sd_dummy : keeps I sd_dummy.
Proof. unfold sd_dummy. apply (keeps_spi_txrx (A := A)). Qed.

Hint Resolve keeps_sd_dummy : keeps.

Lemma keeps_sd_cmd cmd arg crc : keeps I (sd_cmd cmd arg crc).
Proof. unfold sd_cmd. keeps_tac. apply keeps_iter. intros n. keeps_tac. Qed.

Hint Resolve keeps_sd_cmd : keeps.

Lemma keeps_print_status t r : keeps I (print_status t r).
Proof. unfold print_status. keeps_tac. Qed.

Hint Resolve keeps_print_status : keeps.

Lemma keeps_sd_cmd0 : keeps I sd_cmd0.
Proof.
  unfold sd_cmd0. apply keeps_bind.
  - apply keeps_iter. intros [counter r]. unfold cmd0_body. keeps_tac.
  - intros [r|]; keeps_tac.
Qed.

Lemma keeps_sd_acmd41 : keeps I sd_acmd41.
Proof.
  unfold sd_acmd41. keeps_tac. apply keeps_iter. intros []. unfold acmd41_body, sd_cmd55.
  keeps_tac.
Qed.

Hint Resolve keeps_sd_cmd0 keeps_sd_acmd41 : keeps.

Lemma keeps_init_sd : keeps I init_sd.
Proof. unfold init_sd, sd_cmd8. keeps_tac. Qed.

(** A block stores to the 512 bytes from [p] only. *)
Lemma safe_chunks p crc :
  (forall i, 0 <= i < 512 -> A (p + i)) ->
  safe I (iter chunk_body (p, 512, crc)) (fun '(p', _) => p' = p + 512).
Proof.
  intros HA.
  apply (safe_iter _ _ (fun '(p', n, _) => p' + n = p + 512 /\ n mod 64 = 0 /\ 0 < n <= 512)); [done|].
  intros [[p' n] crc'] (Hp & Hm & Hn). unfold chunk_body. cbn zeta.
  assert (64 <= n) by divlia.
  apply safe_then.
  { apply (keeps_spi_write_bytes (A := A)). intros i Hi.
    replace (p' + i) with (p + (p' + i - p)) by lia. apply HA. lia. }
  intros _. apply safe_then; [apply keeps_fold_in; intros; keeps_tac|]. intros crc1.
  destruct (Z.gtb_spec (n - 64) 0); apply safe_ret; [|lia].
  split_and!; [lia | divlia | lia..].
Qed.

(** A copy stores to its buffer [ff] and to the blocks from [dst] only. *)
Lemma keeps_sd_copy dst lba size :
  (forall i, 0 <= i < 128 -> A (ff_buf + i)) ->
  (forall i, 0 <= i < 512 * Z.max 1 size -> A (dst + i)) ->
  keeps I (sd_copy dst lba size).
Proof.
  intros Hff Hdst. unfold sd_copy. apply keeps_bind.
  { apply keeps_for_in. intros j Hj%elem_of_seqZ. apply cl_store8, Hff. lia. }
  intros _. keeps_tac.
  - apply (safe_iter _ _ (fun '(p, i) => dst <= p /\ p + 512 * Z.max 1 i <= dst + 512 * Z.max 1 size));
      [lia|].
    intros [p i] [Hp Hi]. unfold block_body.
    apply safe_then; [keeps_tac|]. intros _.
    eapply safe_bind; [apply safe_chunks|].
    { intros j Hj. replace (p + j) with (dst + (p + j - dst)) by lia. apply Hdst. lia. }
    intros [p' crc] ->. apply safe_then; [keeps_tac|]. intros hi.
    apply safe_then; [keeps_tac|]. intros lo. cbn zeta.
    destruct (negb _); [by apply safe_ret|].
    apply safe_then; [keeps_tac|]. intros [].
    destruct (Z.gtb_spec (i - 1) 0); apply safe_ret; [lia | done].
Qed.
End closed.

#[export] Hint Resolve keeps_init_sd : keeps.

(** * Runs that end *)

Section stability.
Context `{!Bus D, !Layout}.

Lemma stable_sd_dummy : stable sd_dummy.
Proof. unfold sd_dummy. apply stable_spi_txrx. Qed.

Hint Resolve stable_sd_dummy : stable.

Lemma stable_sd_cmd cmd arg crc : stable (sd_cmd cmd arg crc).
Proof. unfold sd_cmd. stable_tac. Qed.

Hint Resolve stable_sd_cmd : stable.

Lemma stable_print_status t r : stable (print_status t r).
Proof. unfold print_status. stable_tac. Qed.

Hint Resolve stable_print_status : stable.

Lemma stable_sd_cmd0 : stable sd_cmd0.
Proof.
  unfold sd_cmd0. stable_tac.
  - destruct s as [counter r]. unfold cmd0_body. stable_tac.
  - destruct a; stable_tac.
Qed.

Lemma stable_sd_cmd8 : stable sd_cmd8.
Proof. unfold sd_cmd8. stable_tac. Qed.

Lemma stable_acmd41_body x : stable (acmd41_body x).
Proof. unfold acmd41_body, sd_cmd55. stable_tac. Qed.

Hint Resolve stable_sd_cmd0 stable_sd_cmd8 stable_acmd41_body : stable.

Lemma stable_sd_acmd41 : stable sd_acmd41.
Proof. unfold sd_acmd41. stable_tac. Qed.

Hint Resolve stable_sd_acmd41 : stable.

Lemma stable_init_sd : stable init_sd.
Proof. unfold init_sd. stable_tac. Qed.

Lemma stable_block_body x : stable (block_body x).
Proof.
  destruct x as [p i]. unfold block_body. stable_tac.
  - destruct s as [[p' n] crc]. unfold chunk_body. stable_tac.
  - destruct a0. stable_tac.
Qed.

Hint Resolve stable_block_body : stable.

Lemma stable_sd_copy dst lba size : stable (sd_copy dst lba size).
Proof. unfold sd_copy. stable_tac. Qed.
End stability.

#[export] Hint Resolve stable_sd_dummy stable_sd_cmd stable_acmd41_body stable_sd_acmd41
  stable_init_sd stable_block_body stable_sd_copy : stable.

(** A run that ended, in a value or not, shows that the polls of the card did. *)
Section ended_runs.
Context {D C : Type} `{!Bus D, !SpiSlave C, !SpiController D C, !Console D, !Layout}.
Implicit Types s : board C.

Lemma ends_acmd41 s :
  b_on s = true -> uart_ready s ->
  ends at_board (iter acmd41_body tt) s (exists r c', acmd41 (b_card s) r c').
Proof.
  intros Hs Hr. apply (ends_iter _ _ (fun _ s => b_on s = true /\ uart_ready s)
    (fun _ s => exists r c', acmd41 (b_card s) r c')); [apply stable_acmd41_body | done |].
  clear s Hs Hr. intros [] s [Hs Hr]. apply ends_known.
  destruct (l_acmd41_try (b_card s)) as [r c'] eqn:E.
  eapply awp_mono; [by apply awp_acmd41_body|]. intros a s' [-> Hm].
  destruct (Z.eqb_spec r 0x1) as [->|Hne]; [|eauto using acmd41_stop].
  split; [split; [by rewrite (moved_on _ _ _ Hm) | by eapply moved_ready]|].
  rewrite (moved_card _ _ _ Hm). intros (r & c'' & Ha). eauto using acmd41_again.
Qed.

Lemma ends_sd_acmd41 s :
  b_on s = true -> uart_ready s ->
  ends at_board sd_acmd41 s (exists r c', acmd41 (b_card s) r c').
Proof.
  intros. by apply ends_first, ends_acmd41.
Qed.

Lemma ends_init_sd s :
  uart_ready s -> ends at_board init_sd s (exists code c', init_card (b_card s) code c').
Proof.
  intros Hr. unfold init_sd.
  apply ends_bind; [eauto with stable | apply ends_known]. eapply awp_mono; [by apply awp_spi_init|].
  intros _ s0 (v1 & v2 & ->). set (s1 := set_on true s). set (out := _ ++ _).
  assert (Hm0 : moved (b_card s) s1 (put out s1)) by (exists out; by destruct s).
  apply ends_bind; [eauto with stable | apply ends_known].
  eapply awp_sends; [apply sends_print_uart; literal | by apply ready_put|].
  destruct (l_dummies 10 (b_card s)) as [[] ca] eqn:E1.
  apply ends_bind; [stable_tac | apply ends_known].
  eapply awp_moved; [by apply (refines_dummies 10) | by apply moved_put | done | exact E1|].
  intros s2 Hm2. apply ends_bind; [apply stable_sd_cmd0 | apply ends_known].
  eapply awp_mono; [apply awp_sd_cmd0; [by rewrite (moved_on _ _ _ Hm2) | by eapply moved_ready]|].
  rewrite (moved_card _ _ _ Hm2). intros ok s3 [-> Hm3]. eapply moved_trans in Hm3; [|exact Hm2].
  assert (E0 : (l_dummies 10 ;; l_cmd0 cmd0_attempts) (b_card s) = l_cmd0 cmd0_attempts ca)
    by exact (l_bind_eq _ _ _ _ _ E1).
  destruct (l_cmd0 cmd0_attempts ca) as [[] cb]; cbn [fst snd Z.b2z Z.eqb] in *;
    [|apply ends_known; eauto using init_no_cmd0].
  assert (E8 : l_cmd8 cb = (0, snd (l_cmd8 cb)) \/ l_cmd8 cb = (1, snd (l_cmd8 cb))).
  { clear. unfold l_cmd8, mbind, L_bind. repeat case_match; cbn; simplify_eq/=.
    destruct (_ && _); auto. }
  apply ends_bind; [apply stable_sd_cmd8 | apply ends_known].
  destruct E8 as [E8|E8]; (eapply awp_moved; [apply refines_cmd8 | exact Hm3 | done | exact E8|]);
    intros s4 Hm4; [apply ends_known; eauto using init_no_cmd8|].
  change (1 =? 0) with false. cbn iota. rewrite <- (moved_card _ _ _ Hm4) in E8.
  apply (ends_mono _ _ _ (exists r c', acmd41 (b_card s4) r c')).
  - apply ends_first, ends_sd_acmd41; [by rewrite (moved_on _ _ _ Hm4) | by eapply moved_ready].
  - intros (r & c' & Ha). destruct (decide (r = 0)) as [->|Hne].
    + exists 0, c'. by eapply init_done.
    + exists SD_INIT_ERROR_ACMD41, c'. by eapply init_no_acmd41.
Qed.
Lemma ends_token s :
  b_on s = true ->
  ends at_board (wait_while (x ← sd_dummy; mret (negb (x =? SD_DATA_TOKEN)))) s
    (exists c', token (b_card s) c').
Proof.
  intros Hs. apply (ends_iter _ _ (fun _ s => b_on s = true)
    (fun _ s => exists c', token (b_card s) c')); [intros; stable_tac | done |].
  clear s Hs. intros [] s Hs. apply ends_known. destruct (l_dummy (b_card s)) as [x c1] eqn:E.
  wp_seq. wp_seq. eapply awp_refines; [apply refines_dummy | done | exact E|].
  apply awp_ret, awp_ret. destruct (Z.eqb_spec x SD_DATA_TOKEN) as [->|Hx]; cbn [negb].
  - eauto using token_here.
  - split; [done|]. intros (c' & Ht). eauto using token_later.
Qed.

Lemma ends_block_body x s :
  b_on s = true -> ends at_board (block_body x) s (exists b crc c', delivers (b_card s) b crc c').
Proof.
  intros Hs. destruct x as [p i].
  eapply ends_mono; [by apply ends_first, ends_token|]. intros (c1 & Ht).
  destruct (l_block c1) as [[b crc] c'] eqn:E. exists b, crc, c', c1. by split.
Qed.

Lemma ends_blocks p i s :
  b_on s = true -> uart_ready s -> ff_ok (b_mem s) -> apart p (512 * Z.max 1 i) ->
  ends at_board (iter block_body (p, i)) s (exists bs rc c', transfer i (b_card s) bs rc c').
Proof.
  intros Hs Hr Hff Hap.
  apply (ends_iter _ _
    (fun x s => b_on s = true /\ uart_ready s /\ ff_ok (b_mem s) /\ apart (fst x) (512 * Z.max 1 (snd x)))
    (fun x s => exists bs rc c', transfer (snd x) (b_card s) bs rc c') (p, i)); [apply stable_block_body | done |].
  clear. intros [p i] s (Hs & Hr & Hff & Hap). cbn [fst snd] in *. eapply ends_mono; [by apply ends_block_body|].
  intros (b & crc & c' & Hd). pose proof (delivers_length _ _ _ _ Hd) as Hl.
  assert (Hap1 : apart p 512) by (unfold apart in *; lia).
  eapply awp_mono; [by apply awp_block_body|]. intros r s' [-> He].
  destruct (Z.eqb_spec (crc16_bytes 0 b) crc) as [<-|Hne]; [|eauto using transfer_bad].
  destruct (Z.gtb_spec (i - 1) 0); [|exists b, 0, c'; apply transfer_last; [done | lia]].
  destruct (ended_state _ _ _ _ He) as (E1 & E2 & E3 & E4). split.
  - split_and!; [by rewrite E1 | auto | | cbn [fst snd]; unfold apart in *; lia].
    rewrite E3. apply ff_ok_write; [by rewrite Hl | done].
  - rewrite E2. intros (bs & rc & c2 & Ht). exists (b ++ bs), rc, c2.
    eapply transfer_more; [exact Hd | lia | exact Ht].
Qed.

Lemma ends_sd_copy dst lba size s :
  b_on s = true -> uart_ready s -> apart dst (512 * Z.max 1 size) ->
  ends at_board (sd_copy dst lba size) s (exists bs rc c', reading (b_card s) lba size bs rc c').
Proof.
  intros Hs Hr Hap. unfold sd_copy. apply ends_bind; [stable_tac | apply ends_known].
  eapply awp_mono; [by apply awp_fill|]. intros _ s1 ->.
  change (Z.to_nat 128) with 128%nat. fold (ff_filled (b_mem s)).
  destruct (l_cmd SD_CMD_READ_BLOCK_MULTIPLE lba (read_cmd_crc lba) (b_card s)) as [r c1] eqn:Hcmd.
  apply ends_bind; [apply stable_sd_cmd | apply ends_known].
  eapply awp_refines; [apply refines_cmd; apply u8_byte | done | exact Hcmd|].
  destruct (Z.eqb_spec r 0) as [->|Hne]; cbn [negb].
  - eapply ends_mono; [apply ends_first, ends_blocks; [done | done | apply ff_filled_ok | exact Hap]|].
    intros (bs & rc & c2 & Ht). destruct (l_stop c2) as [[] c3] eqn:Hstop.
    exists bs, rc, c3. by eapply reading_taken.
  - apply ends_known. destruct (l_dummies 8 c1) as [[] c2] eqn:Hd.
    exists [], SD_COPY_ERROR_CMD18, c2. by eapply reading_refused.
Qed.
End ended_runs.
