(* ===== verification/Gpt.v ===== *)
(** The partition table ([src/gpt.h], [src/gpt.c]): the layout of its records, and the search for
    the boot partition, which prints the table and copies the first partition to memory. *)
From S2P Require Import Prelude Machine Uart Board Spi Crc Sd.

(** * C structures *)

(** The field types [gpt.h] uses, with their size and alignment in the LP64 ABI. *)
Inductive cty := U32 | U64 | Bytes (n : nat).

Definition csize (t : cty) : nat := match t with U32 => 4 | U64 => 8 | Bytes n => n end.
Definition calign (t : cty) : nat := match t with U32 => 4 | U64 => 8 | Bytes _ => 1 end.

Definition round_up (n k : nat) : nat := (n + k - 1) / k * k.

Fixpoint offsets_from (o : nat) (l : list cty) : list nat :=
  match l with
  | [] => []
  | t :: l => let o := round_up o (calign t) in o :: offsets_from (o + csize t) l
  end.

Definition offsets : list cty -> list nat := offsets_from 0.

Fixpoint end_from (o : nat) (l : list cty) : nat :=
  match l with
  | [] => o
  | t :: l => end_from (round_up o (calign t) + csize t) l
  end.

Definition sizeof (l : list cty) : nat := round_up (end_from 0 l) (foldr Nat.max 1%nat (calign <$> l)).

(** The number stored in [k] bytes at offset [o] of [bs]. *)
Definition field (o k : nat) (bs : list Z) : Z := le_val (take k (drop o bs)).
Definition subbytes (o k : nat) (bs : list Z) : list Z := take k (drop o bs).

(** * The partition table *)

Record gpt_pth_t := GptPth {
  signature : Z;
  revision : Z;
  header_size : Z;
  crc_header : Z;
  reserved : Z;
  current_lba : Z;
  backup_lba : Z;
  first_usable_lba : Z;
  last_usable_lba : Z;
  disk_guid : list Z;
  partition_entries_lba : Z;
  nr_partition_entries : Z;
  size_partition_entry : Z;
  crc_partition_entry : Z
}.

Definition gpt_pth_layout : list cty :=
  [U64; U32; U32; U32; U32; U64; U64; U64; U64; Bytes 16; U64; U32; U32; U32].

Record partition_entries_t := PartitionEntry {
  partition_type_guid : list Z;
  partition_guid : list Z;
  first_lba : Z;
  last_lba : Z;
  attributes : Z;
  name : list Z
}.

Definition partition_entries_layout : list cty := [Bytes 16; Bytes 16; U64; U64; U64; Bytes 72].

(** [offsetof], by the position of the field. *)
Definition pth_off (k : nat) : nat := nth k (offsets gpt_pth_layout) 0%nat.
Definition ent_off (k : nat) : nat := nth k (offsets partition_entries_layout) 0%nat.

(** The record a block of bytes holds. *)
Definition pth_of (bs : list Z) : gpt_pth_t :=
  GptPth (field (pth_off 0) 8 bs) (field (pth_off 1) 4 bs) (field (pth_off 2) 4 bs)
    (field (pth_off 3) 4 bs) (field (pth_off 4) 4 bs) (field (pth_off 5) 8 bs)
    (field (pth_off 6) 8 bs) (field (pth_off 7) 8 bs) (field (pth_off 8) 8 bs)
    (subbytes (pth_off 9) 16 bs) (field (pth_off 10) 8 bs) (field (pth_off 11) 4 bs)
    (field (pth_off 12) 4 bs) (field (pth_off 13) 4 bs).

Definition entry_of (bs : list Z) : partition_entries_t :=
  PartitionEntry (subbytes (ent_off 0) 16 bs) (subbytes (ent_off 1) 16 bs)
    (field (ent_off 2) 8 bs) (field (ent_off 3) 8 bs) (field (ent_off 4) 8 bs)
    (subbytes (ent_off 5) 72 bs).

(** And the bytes of a record, as a partitioning tool writes them. *)
Definition pth_bytes (h : gpt_pth_t) : list Z :=
  le_bytes 8 (signature h) ++ le_bytes 4 (revision h) ++ le_bytes 4 (header_size h)
  ++ le_bytes 4 (crc_header h) ++ le_bytes 4 (reserved h) ++ le_bytes 8 (current_lba h)
  ++ le_bytes 8 (backup_lba h) ++ le_bytes 8 (first_usable_lba h)
  ++ le_bytes 8 (last_usable_lba h) ++ disk_guid h ++ le_bytes 8 (partition_entries_lba h)
  ++ le_bytes 4 (nr_partition_entries h) ++ le_bytes 4 (size_partition_entry h)
  ++ le_bytes 4 (crc_partition_entry h).

Definition entry_bytes (e : partition_entries_t) : list Z :=
  partition_type_guid e ++ partition_guid e ++ le_bytes 8 (first_lba e)
  ++ le_bytes 8 (last_lba e) ++ le_bytes 8 (attributes e) ++ name e.

Definition pth_wf (h : gpt_pth_t) : Prop :=
  Forall (fun v => 0 <= v < 2 ^ 64)
    [signature h; current_lba h; backup_lba h; first_usable_lba h; last_usable_lba h;
     partition_entries_lba h]
  /\ Forall (fun v => 0 <= v < 2 ^ 32)
    [revision h; header_size h; crc_header h; reserved h; nr_partition_entries h;
     size_partition_entry h; crc_partition_entry h]
  /\ length (disk_guid h) = 16%nat.

Definition entry_wf (e : partition_entries_t) : Prop :=
  Forall (fun v => 0 <= v < 2 ^ 64) [first_lba e; last_lba e; attributes e]
  /\ length (partition_type_guid e) = 16%nat /\ length (partition_guid e) = 16%nat
  /\ length (name e) = 72%nat.

(** The read of the boot image: the arguments of the third [sd_copy], at their width. *)
Definition image_lba (e : partition_entries_t) : Z := u32 (first_lba e).
Definition image_blocks (e : partition_entries_t) : Z :=
  u32 (u64 (u64 (last_lba e - first_lba e) + 1)).

(** ** Fields of concatenated bytes *)

Lemma field_skip o k l r : (length l <= o)%nat -> field o k (l ++ r) = field (o - length l) k r.
Proof. intros Hl. unfold field. by rewrite drop_app_ge. Qed.

Lemma field_here k v r : field 0 k (le_bytes k v ++ r) = v mod 256 ^ Z.of_nat k.
Proof.
  unfold field. rewrite drop_0, take_app_length' by (by rewrite le_bytes_length). apply le_val_bytes.
Qed.

Lemma subbytes_skip o k l r : (length l <= o)%nat -> subbytes o k (l ++ r) = subbytes (o - length l) k r.
Proof. intros Hl. unfold subbytes. by rewrite drop_app_ge. Qed.

Lemma subbytes_here k l r : length l = k -> subbytes 0 k (l ++ r) = l.
Proof. intros Hl. unfold subbytes. by rewrite drop_0, take_app_length'. Qed.

(** A field encodes back to the bytes it was read from. *)
Lemma field_bytes o k bs :
  Forall is_byte bs -> (o + k <= length bs)%nat -> le_bytes k (field o k bs) = take k (drop o bs).
Proof.
  intros Hb Hk. unfold field.
  assert (Hl : length (take k (drop o bs)) = k) by (rewrite length_take, length_drop; lia).
  rewrite <- Hl at 1. apply le_bytes_val. by apply Forall_take, Forall_drop.
Qed.

(** Consecutive pieces of a list. *)
Lemma take_drop_app (o k j : nat) (bs : list Z) :
  take k (drop o bs) ++ take j (drop (o + k) bs) = take (k + j) (drop o bs).
Proof. rewrite <- drop_drop. apply take_take_drop. Qed.

(** Evaluates the offsets of a record's fields. *)
Ltac eval_offsets :=
  repeat match goal with
  | |- context [pth_off ?i] => let x := eval vm_compute in (pth_off i) in change (pth_off i) with x
  | |- context [ent_off ?i] => let x := eval vm_compute in (ent_off i) in change (ent_off i) with x
  end.

(** One hypothesis for each element of a list. *)
Ltac split_forall :=
  repeat match goal with H : Forall _ (_ :: _) |- _ => apply Forall_cons_1 in H as [? H] end.

(** Finds a field among appended pieces whose lengths [simplify_lengths] knows. *)
Ltac find_field lens :=
  repeat (first [rewrite field_skip by (lens; lia) | rewrite subbytes_skip by (lens; lia)]; lens;
          cbn [Nat.sub]);
  first [rewrite field_here; apply Z.mod_small; assumption | apply subbytes_here; assumption].

(** The records read back as they were written, wherever the block goes on. *)
Lemma pth_of_bytes h r : pth_wf h -> pth_of (pth_bytes h ++ r) = h.
Proof.
  intros (H64 & H32 & Hg). destruct h; cbn in H64, H32, Hg. split_forall. unfold pth_of, pth_bytes. rewrite <- !(assoc_L (++)). eval_offsets.
  cbn [signature revision header_size crc_header reserved current_lba backup_lba first_usable_lba
    last_usable_lba disk_guid partition_entries_lba nr_partition_entries size_partition_entry
    crc_partition_entry].
  f_equal; find_field ltac:(rewrite ?le_bytes_length, ?Hg).
Qed.

Lemma entry_of_bytes e r : entry_wf e -> entry_of (entry_bytes e ++ r) = e.
Proof.
  intros (H64 & H1 & H2 & H3). destruct e; cbn in H64, H1, H2, H3. split_forall. unfold entry_of, entry_bytes. rewrite <- !(assoc_L (++)). eval_offsets.
  cbn [partition_type_guid partition_guid first_lba last_lba attributes name].
  f_equal; find_field ltac:(rewrite ?le_bytes_length, ?H1, ?H2, ?H3).
Qed.

(** And a block is the bytes of the record read from it. *)
Lemma pth_bytes_of bs :
  Forall is_byte bs -> (92 <= length bs)%nat -> pth_bytes (pth_of bs) = take 92 bs.
Proof.
  intros Hb Hl. unfold pth_bytes, pth_of. eval_offsets.
  cbn [signature revision header_size crc_header reserved current_lba backup_lba first_usable_lba
    last_usable_lba disk_guid partition_entries_lba nr_partition_entries size_partition_entry
    crc_partition_entry]. unfold subbytes.
  rewrite !field_bytes by (done || lia).
  rewrite (take_drop_app 84 4 4), (take_drop_app 80 4 8), (take_drop_app 72 8 12),
    (take_drop_app 56 16 20), (take_drop_app 48 8 36), (take_drop_app 40 8 44),
    (take_drop_app 32 8 52), (take_drop_app 24 8 60), (take_drop_app 20 4 68),
    (take_drop_app 16 4 72), (take_drop_app 12 4 76), (take_drop_app 8 4 80),
    (take_drop_app 0 8 84). done.
Qed.

Lemma entry_bytes_of bs :
  Forall is_byte bs -> (128 <= length bs)%nat -> entry_bytes (entry_of bs) = take 128 bs.
Proof.
  intros Hb Hl. unfold entry_bytes, entry_of. eval_offsets.
  cbn [partition_type_guid partition_guid first_lba last_lba attributes name]. unfold subbytes.
  rewrite !field_bytes by (done || lia).
  rewrite (take_drop_app 48 8 72), (take_drop_app 40 8 80), (take_drop_app 32 8 88),
    (take_drop_app 16 16 96), (take_drop_app 0 16 112). done.
Qed.

(** * The driver *)

Section driver.
Context `{!Bus D, !Layout}.

(** The members of the structures at an address. *)
Definition pth_u32 (k : nat) (a : Z) : M D Z := load_le 4 (a + Z.of_nat (pth_off k)).
Definition pth_u64 (k : nat) (a : Z) : M D Z := load_le 8 (a + Z.of_nat (pth_off k)).
Definition ent_u64 (k : nat) (a : Z) : M D Z := load_le 8 (a + Z.of_nat (ent_off k)).

(** [res] is an [int]: passed as a [uint64_t] it is sign-extended. *)
Definition report_failure (res : Z) : M D unit :=
  print_uart ("SD card failed!" +:+ crlf) ;;
  print_uart "sd copy return value: " ;;
  print_uart_addr (u64 res) ;;
  print_uart crlf.

Definition print_pth (lba1 : Z) : M D unit :=
  print_uart "gpt partition table header:" ;;
  print_uart (crlf +:+ tab +:+ "signature:" +:+ tab) ;;
  v ← pth_u64 0 lba1; print_uart_addr v ;;
  print_uart (crlf +:+ tab +:+ "revision:" +:+ tab) ;;
  v ← pth_u32 1 lba1; print_uart_int v ;;
  print_uart (crlf +:+ tab +:+ "size:" +:+ tab +:+ tab) ;;
  v ← pth_u32 2 lba1; print_uart_int v ;;
  print_uart (crlf +:+ tab +:+ "crc_header:" +:+ tab) ;;
  v ← pth_u32 3 lba1; print_uart_int v ;;
  print_uart (crlf +:+ tab +:+ "reserved:" +:+ tab) ;;
  v ← pth_u32 4 lba1; print_uart_int v ;;
  print_uart (crlf +:+ tab +:+ "current lba:" +:+ tab) ;;
  v ← pth_u64 5 lba1; print_uart_addr v ;;
  print_uart (crlf +:+ tab +:+ "backup lda:" +:+ tab) ;;
  v ← pth_u64 6 lba1; print_uart_addr v ;;
  print_uart (crlf +:+ tab +:+ "partition entries lba:   " +:+ tab) ;;
  v ← pth_u64 10 lba1; print_uart_addr v ;;
  print_uart (crlf +:+ tab +:+ "number partition entries:" +:+ tab) ;;
  v ← pth_u32 11 lba1; print_uart_int v ;;
  print_uart (crlf +:+ tab +:+ "size partition entries:  " +:+ tab) ;;
  v ← pth_u32 12 lba1; print_uart_int v ;;
  print_uart crlf.

(** [for (j = 0; j < n; j++) print_uart_byte(a[j])] *)
Definition print_bytes (a n : Z) : M D unit :=
  for_in (below n) (fun j => b ← load8 (a + j); print_uart_byte b).

Definition print_entry (lba2 i : Z) : M D unit :=
  let part_entry := lba2 + i * 128 in
  print_uart "gpt partition entry " ;;
  print_uart_byte (u8 i) ;;
  print_uart (crlf +:+ tab +:+ "partition type guid:" +:+ tab) ;;
  print_bytes (part_entry + Z.of_nat (ent_off 0)) 16 ;;
  print_uart (crlf +:+ tab +:+ "partition guid:     " +:+ tab) ;;
  print_bytes (part_entry + Z.of_nat (ent_off 1)) 16 ;;
  print_uart (crlf +:+ tab +:+ "first lba:" +:+ tab) ;;
  v ← ent_u64 2 part_entry; print_uart_addr v ;;
  print_uart (crlf +:+ tab +:+ "last lba:" +:+ tab) ;;
  v ← ent_u64 3 part_entry; print_uart_addr v ;;
  print_uart (crlf +:+ tab +:+ "attributes:" +:+ tab) ;;
  v ← ent_u64 4 part_entry; print_uart_addr v ;;
  print_uart (crlf +:+ tab +:+ "name:" +:+ tab) ;;
  print_bytes (part_entry + Z.of_nat (ent_off 5)) 72 ;;
  print_uart crlf.

(** The last part of the search: the first entry of the table is copied to [dest]. *)
Definition load_image (dest : Z) : M D Z :=
  print_uart "copying boot image " ;;
  first ← ent_u64 2 lba2_buf;
  last ← ent_u64 3 lba2_buf;
  first' ← ent_u64 2 lba2_buf;
  res ← sd_copy dest (u32 first) (u32 (u64 (u64 (last - first') + 1)));
  if negb (res =? 0) then report_failure res ;; mret (-2) else
  print_uart (" done!" +:+ crlf) ;;
  mret 0.

(** Its middle part: the entries of the table. *)
Definition load_entries (dest : Z) : M D Z :=
  lba ← pth_u64 10 lba1_buf;
  res ← sd_copy lba2_buf (u32 lba) 1;
  if negb (res =? 0) then report_failure res ;; mret (-2) else
  for_in (below 4) (fun i => print_entry lba2_buf i) ;;
  load_image dest.

(** Its first part: the header of the table. *)
Definition load_header (dest : Z) : M D Z :=
  res ← sd_copy lba1_buf 1 1;
  if negb (res =? 0) then report_failure res ;; mret (-2) else
  print_pth lba1_buf ;;
  load_entries dest.

(** [size] is not used. *)
Definition gpt_find_boot_partition (dest size : Z) : M D Z :=
  ret ← init_sd;
  if negb (ret =? 0) then
    print_uart ("could not initialize sd... exiting" +:+ crlf) ;; mret (-1)
  else
  print_uart ("sd initialized!" +:+ crlf) ;;
  load_header dest.
End driver.

(** * What the driver prints *)

Definition pth_text (h : gpt_pth_t) : list Z :=
  str "gpt partition table header:"
  ++ str (crlf +:+ tab +:+ "signature:" +:+ tab) ++ hex_be 8 (signature h)
  ++ str (crlf +:+ tab +:+ "revision:" +:+ tab) ++ hex_be 4 (revision h)
  ++ str (crlf +:+ tab +:+ "size:" +:+ tab +:+ tab) ++ hex_be 4 (header_size h)
  ++ str (crlf +:+ tab +:+ "crc_header:" +:+ tab) ++ hex_be 4 (crc_header h)
  ++ str (crlf +:+ tab +:+ "reserved:" +:+ tab) ++ hex_be 4 (reserved h)
  ++ str (crlf +:+ tab +:+ "current lba:" +:+ tab) ++ hex_be 8 (current_lba h)
  ++ str (crlf +:+ tab +:+ "backup lda:" +:+ tab) ++ hex_be 8 (backup_lba h)
  ++ str (crlf +:+ tab +:+ "partition entries lba:   " +:+ tab) ++ hex_be 8 (partition_entries_lba h)
  ++ str (crlf +:+ tab +:+ "number partition entries:" +:+ tab) ++ hex_be 4 (nr_partition_entries h)
  ++ str (crlf +:+ tab +:+ "size partition entries:  " +:+ tab) ++ hex_be 4 (size_partition_entry h)
  ++ str crlf.

Definition hex_text (bs : list Z) : list Z := concat (hex_be 1 <$> bs).

Definition entry_text (i : Z) (e : partition_entries_t) : list Z :=
  str "gpt partition entry " ++ hex_be 1 i
  ++ str (crlf +:+ tab +:+ "partition type guid:" +:+ tab) ++ hex_text (partition_type_guid e)
  ++ str (crlf +:+ tab +:+ "partition guid:     " +:+ tab) ++ hex_text (partition_guid e)
  ++ str (crlf +:+ tab +:+ "first lba:" +:+ tab) ++ hex_be 8 (first_lba e)
  ++ str (crlf +:+ tab +:+ "last lba:" +:+ tab) ++ hex_be 8 (last_lba e)
  ++ str (crlf +:+ tab +:+ "attributes:" +:+ tab) ++ hex_be 8 (attributes e)
  ++ str (crlf +:+ tab +:+ "name:" +:+ tab) ++ hex_text (name e)
  ++ str crlf.

(** The four entries of a block. *)
Definition entry (i : nat) (bs : list Z) : partition_entries_t := entry_of (drop (128 * i) bs).

Definition entries_text (bs : list Z) : list Z :=
  concat ((fun i => entry_text i (entry (Z.to_nat i) bs)) <$> below 4).

Section specs.
Context {D C : Type} `{!Bus D, !SpiSlave C, !SpiController D C, !Console D, !Layout}.

Lemma prints_bytes a bs n o k :
  Forall is_byte bs -> (o + k <= n)%nat ->
  prints (R := at_board) a bs n (print_bytes (a + Z.of_nat o) (Z.of_nat k)) (hex_text (subbytes o k bs)).
Proof. intros Hb Hk. apply prints_bytes_with; [done..|]. apply sends_print_uart_byte. Qed.

Local Ltac text_step :=
  lazymatch goal with
  | |- prints _ _ _ (print_uart _ ;; _) (_ ++ _) =>
      apply prints_seq; [apply prints_sends, sends_print_uart; literal|]
  | |- prints _ _ _ (print_uart_byte _ ;; _) (_ ++ _) =>
      apply prints_seq; [apply prints_sends, sends_print_uart_byte|]
  | |- prints _ _ _ (print_uart_int _ ;; _) (_ ++ _) =>
      apply prints_seq; [apply prints_sends, sends_print_uart_int|]
  | |- prints _ _ _ (print_uart_addr _ ;; _) (_ ++ _) =>
      apply prints_seq; [apply prints_sends, sends_print_uart_addr|]
  | |- prints _ _ _ (print_uart _) _ => apply prints_sends, sends_print_uart; literal
  | |- prints _ _ _ (load_le _ _ ≫= _) _ => apply prints_load; [cbn; lia|]
  end.

Lemma prints_pth a bs : prints (R := at_board) a bs 512 (print_pth a) (pth_text (pth_of bs)).
Proof. unfold print_pth, pth_text, pth_u32, pth_u64. repeat text_step. Qed.

Lemma prints_entry a bs n i :
  Forall is_byte bs -> (128 <= n)%nat -> 0 <= i < 256 ->
  prints (R := at_board) (a + i * 128) bs n (print_entry a i) (entry_text i (entry_of bs)).
Proof.
  intros Hb Hn Hi. unfold print_entry, entry_text, ent_u64. cbn zeta.
  rewrite (u8_small i) by done.
  repeat first
    [ text_step
    | lazymatch goal with
      | |- prints _ _ _ (print_bytes _ ?k ;; _) (_ ++ _) =>
          apply prints_seq; [apply (prints_bytes _ _ _ _ (Z.to_nat k)); [done | cbn; lia]|]
      end ].
  done.
Qed.

Lemma entry_holds a bs i s :
  length bs = 512%nat -> 0 <= i < 4 -> holds (R := at_board) a bs 512 s ->
  holds (R := at_board) (a + i * 128) (drop (128 * Z.to_nat i) bs) (512 - 128 * Z.to_nat i) s.
Proof.
  intros Hl Hi Hh. replace (a + i * 128) with (a + Z.of_nat (128 * Z.to_nat i)) by lia.
  apply holds_sub; [done | lia | done].
Qed.

Lemma prints_entries a bs :
  Forall is_byte bs -> length bs = 512%nat ->
  prints (R := at_board) a bs 512 (for_in (below 4) (fun i => print_entry a i)) (entries_text bs).
Proof.
  intros Hb Hl s Hs Hh. eapply (awp_for_in _ _ _ (fun pre s' =>
    s' = put (concat ((fun i => entry_text i (entry (Z.to_nat i) bs)) <$> pre)) s)).
  - change (s = put [] s). by rewrite put_nil.
  - intros pre i post s' El ->. destruct (below_split _ _ _ _ El) as [_ Hi].
    eapply awp_mono.
    { apply (prints_entry a (drop (128 * Z.to_nat i) bs) (512 - 128 * Z.to_nat i));
        [by apply Forall_drop | lia | lia | by rewrite ready_put | by apply entry_holds]. }
    intros _ s'' ->. rewrite put_put, fmap_app, concat_app. cbn [fmap list_fmap concat].
    by rewrite app_nil_r.
  - by intros s' ->.
Qed.

(** ** The search for the boot partition *)

Lemma awp_report_failure res s :
  uart_ready s ->
  awp at_board (report_failure res) s (fun _ s' =>
    s' = put (str ("SD card failed!" +:+ crlf) ++ str "sd copy return value: "
              ++ hex_be 8 (u64 res) ++ str crlf) s).
Proof. intros Hs. unfold report_failure. do 4 print_step. by rewrite <- !(assoc_L (++)). Qed.

End specs.

(** What a card lets the search do: the result code, and the bytes stored from [dest] upwards;
    with the header [h] read, and from the start. *)
Inductive loading_entries `{!SpiSlave C} (h : list Z) (c : C) : Z -> list Z -> C -> Prop :=
  | loading_no_entries bs rc c' :
      reading c (u32 (partition_entries_lba (pth_of h))) 1 bs rc c' -> rc <> 0 ->
      loading_entries h c (-2) [] c'
  | loading_image es c1 bs rc c' :
      reading c (u32 (partition_entries_lba (pth_of h))) 1 es 0 c1 ->
      reading c1 (image_lba (entry 0 es)) (image_blocks (entry 0 es)) bs rc c' ->
      loading_entries h c (if rc =? 0 then 0 else -2) bs c'.

Inductive booting `{!SpiSlave C} (c : C) : Z -> list Z -> C -> Prop :=
  | booting_no_card code c' : init_card c code c' -> code <> 0 -> booting c (-1) [] c'
  | booting_no_header c1 bs rc c' :
      init_card c 0 c1 -> reading c1 1 1 bs rc c' -> rc <> 0 -> booting c (-2) [] c'
  | booting_header c1 h c2 code bs c' :
      init_card c 0 c1 -> reading c1 1 1 h 0 c2 -> loading_entries h c2 code bs c' ->
      booting c code bs c'.

(** The block of entries a card delivers, when it initialises and delivers the header too. *)
Definition table_of `{!SpiSlave C} (c : C) (es : list Z) : Prop :=
  exists c1 h c2 c3, init_card c 0 c1 /\ reading c1 1 1 h 0 c2
    /\ reading c2 (u32 (partition_entries_lba (pth_of h))) 1 es 0 c3.

Section search.
Context {D C : Type} `{!Bus D, !SpiSlave C, !SpiController D C, !Console D, !Layout}.

(** Memory outside the buffers of the search and the [n] bytes from [dest]. *)
Definition frame (dest n : Z) (m m' : gmap Z Z) : Prop :=
  forall k, ¬ in_range ff_buf 128 k -> ¬ in_range lba1_buf 512 k -> ¬ in_range lba2_buf 512 k ->
    ¬ in_range dest n k -> m' !! k = m !! k.

Lemma frame_copy dest n dst bs m m' :
  frame dest n m m' ->
  (forall k, in_range dst (Z.of_nat (length bs)) k ->
     in_range lba1_buf 512 k \/ in_range lba2_buf 512 k \/ in_range dest n k) ->
  frame dest n m (write_bytes dst bs (ff_filled m')).
Proof.
  intros Hf Hr k H1 H2 H3 H4. rewrite write_bytes_out by (intros Hk; destruct (Hr k Hk) as [?|[?|?]]; done).
  unfold ff_filled. rewrite write_bytes_out by done. by apply Hf.
Qed.

(** One copy, and one print, in the course of the search. *)
Lemma stage_copy m c s0 s1 dst lba size bs rc c' :
  ended m c s0 s1 -> b_on s0 = true -> uart_ready s0 -> apart dst (Z.of_nat (length bs)) ->
  reading c lba size bs rc c' ->
  awp at_board (sd_copy dst lba size) s1 (fun r s' =>
    r = rc /\ ended (write_bytes dst bs (ff_filled m)) c' s0 s').
Proof.
  intros He Hon Hr Hap Hrd. destruct (ended_state _ _ _ _ He) as (E1 & E2 & E3 & E4).
  eapply awp_mono; [apply awp_sd_reading; [by rewrite E1 | by apply E4 | exact Hap | by rewrite E2]|].
  intros r s' [-> He']. split; [done|]. rewrite E3 in He'. by eapply ended_trans.
Qed.

Lemma stage_print {a bs n} (mm : M D unit) txt m c s0 s1 :
  prints (R := at_board) a bs n mm txt -> ended m c s0 s1 -> uart_ready s0 -> read_bytes m a n = Some bs ->
  awp at_board mm s1 (fun _ s' => ended m c s0 s').
Proof.
  intros Hp He Hr Hm. destruct (ended_state _ _ _ _ He) as (E1 & E2 & E3 & E4).
  eapply awp_mono; [apply Hp; [by apply E4 | unfold holds; cbn [mh_mem board_mem]; by rewrite E3]|].
  intros _ s' ->. by apply ended_put.
Qed.

Lemma stage_text mm txt m c s0 s1 :
  sends (R := at_board) mm txt -> ended m c s0 s1 -> uart_ready s0 ->
  awp at_board mm s1 (fun _ s' => ended m c s0 s').
Proof.
  intros Hp He Hr. by apply (stage_print (a := 0) (bs := []) (n := 0%nat) _ txt _ _ _ _
    (prints_sends _ _ _ _ _ Hp) He Hr).
Qed.

(** Every failure of [sd_copy] ends the search the same way. *)
Lemma stage_failed res m c s0 s1 (Q : Z -> board C -> Prop) :
  ended m c s0 s1 -> uart_ready s0 -> (forall s', ended m c s0 s' -> Q (-2) s') ->
  awp at_board (report_failure res ;; mret (-2)) s1 Q.
Proof.
  intros He Hr HQ. wp_seq. destruct (ended_state _ _ _ _ He) as (_ & _ & _ & E4).
  eapply awp_mono; [by apply awp_report_failure, E4|]. intros _ s' ->.
  apply awp_ret. by apply HQ, ended_put.
Qed.

(** The state the search leaves: the controller on, the image at [dest]. *)
Definition booted (dest : Z) (bs : list Z) (c : C) (s s' : board C) : Prop :=
  exists m, ended m c (set_on true s) s'
    /\ read_bytes m dest (length bs) = Some bs
    /\ frame dest (Z.of_nat (length bs)) (b_mem s) m.

Context (Hb1 : apart lba1_buf 512) (Hb2 : apart lba2_buf 512).

Lemma apart_le p n k : apart p n -> k <= n -> apart p k.
Proof. unfold apart. lia. Qed.

Lemma one_block_apart p c lba bs rc c' :
  apart p 512 -> reading c lba 1 bs rc c' -> apart p (Z.of_nat (length bs)).
Proof. intros Hp Hr. eapply apart_le; [exact Hp|]. by pose proof (reading_length_le _ _ _ _ _ _ Hr). Qed.

Lemma frame_block dest n m p c lba bs rc c' :
  p = lba1_buf \/ p = lba2_buf -> reading c lba 1 bs rc c' ->
  frame dest n m (write_bytes p bs (ff_filled m)).
Proof.
  intros Hp Hrd. apply frame_copy; [done|]. intros k Hk.
  pose proof (reading_length_le _ _ _ _ _ _ Hrd).
  destruct Hp as [-> | ->]; [left | right; left]; unfold in_range in *; lia.
Qed.

(** The last part, from the entries in memory. *)
Lemma stage_image dest m es c s0 s1 bs rc c' :
  ended m c s0 s1 -> b_on s0 = true -> uart_ready s0 ->
  length es = 512%nat -> read_bytes m lba2_buf 512 = Some es ->
  apart dest (Z.of_nat (length bs)) ->
  reading c (image_lba (entry 0 es)) (image_blocks (entry 0 es)) bs rc c' ->
  awp at_board (load_image dest) s1 (fun r s' =>
    r = (if rc =? 0 then 0 else -2) /\ ended (write_bytes dest bs (ff_filled m)) c' s0 s').
Proof.
  intros He Hon Hr Hl Hm Hap Hrd. unfold load_image.
  wp_seq. eapply awp_mono; [eapply stage_text; [apply sends_print_uart; literal | exact He | done]|].
  intros [] s2 He2. destruct (ended_state _ _ _ _ He2) as (_ & _ & Em & _).
  assert (Hf : forall k, (ent_off k + 8 <= 512)%nat ->
    read_bytes (b_mem s2) (lba2_buf + Z.of_nat (ent_off k)) 8 = Some (take 8 (drop (ent_off k) es)))
    by (intros k Hk; rewrite Em; exact (read_bytes_sub _ _ _ _ _ _ Hm Hk)).
  unfold ent_u64. wp_seq. eapply awp_load_le; [apply Hf; cbn; lia|].
  wp_seq. eapply awp_load_le; [apply Hf; cbn; lia|].
  wp_seq. eapply awp_load_le; [apply Hf; cbn; lia|].
  wp_seq. eapply awp_mono; [eapply stage_copy; [exact He2 | done | done | exact Hap | exact Hrd]|].
  intros r s3 [-> He3]. destruct (rc =? 0); cbn [negb].
  - wp_seq. eapply awp_mono; [eapply stage_text; [apply sends_print_uart; literal | exact He3 | done]|].
    intros [] s4 He4. by apply awp_ret.
  - by eapply stage_failed.
Qed.

(** The middle part, from the header in memory. *)
Lemma stage_entries dest m h c s0 s1 code bs c' :
  ended m c s0 s1 -> b_on s0 = true -> uart_ready s0 ->
  read_bytes m lba1_buf 512 = Some h -> apart dest (Z.of_nat (length bs)) ->
  loading_entries h c code bs c' ->
  awp at_board (load_entries dest) s1 (fun r s' =>
    r = code /\ exists m', ended m' c' s0 s' /\ read_bytes m' dest (length bs) = Some bs
               /\ frame dest (Z.of_nat (length bs)) m m').
Proof.
  intros He Hon Hr Hm Hap Hld. destruct (ended_state _ _ _ _ He) as (_ & _ & Em & _).
  unfold load_entries, pth_u64. wp_seq.
  eapply awp_load_le; [cbn [mh_mem board_mem]; rewrite Em; apply (read_bytes_sub _ _ _ _ _ _ Hm); cbn; lia|]. wp_seq.
  revert Hap. destruct Hld as [b rc c' Hrd Hne|es c3 bs rc c' Hrd Hrd3]; intros Hap;
    (eapply awp_mono; [eapply stage_copy; [exact He | done | done | by eapply one_block_apart | exact Hrd]|]);
    intros r s2 [-> He2]; pose proof (fun n => frame_block dest n m lba2_buf _ _ _ _ _ (or_intror eq_refl) Hrd) as Hfr.
  - destruct (Z.eqb_spec rc 0); [done|]. cbn [negb].
    eapply stage_failed; [exact He2 | done|]. intros s' He'. split; [done|]. eauto.
  - pose proof (reading_length _ _ _ _ _ Hrd) as Hl. cbn in Hl.
    assert (Hl' : length es = 512%nat) by lia.
    pose proof (read_write_same lba2_buf es (ff_filled m)) as Hre. rewrite Hl' in Hre.
    cbn [negb Z.eqb]. wp_seq. eapply awp_mono.
    { apply (stage_print (a := lba2_buf) (bs := es) (n := 512) _ _ _ _ _ _
        (prints_entries _ _ (reading_bytes _ _ _ _ _ _ Hrd) Hl') He2 Hr Hre). }
    intros [] s3 He3. eapply awp_mono; [by eapply stage_image|].
    intros r s4 [-> He4]. split; [done|]. eexists. split; [exact He4|].
    split; [apply read_write_same|]. apply frame_copy; [apply Hfr | auto].
Qed.

(** The search, for every behaviour of the card. *)
Lemma awp_gpt dest size s code bs c' :
  uart_ready s -> apart dest (Z.of_nat (length bs)) -> booting (b_card s) code bs c' ->
  awp at_board (gpt_find_boot_partition dest size) s (fun r s' =>
    r = code /\ booted dest bs c' s s').
Proof.
  intros Hr Hap Hb. unfold gpt_find_boot_partition. wp_seq. revert Hap.
  destruct Hb as [code c' Hi Hne|c1 b rc c' Hi Hrd Hne|c1 h c2 code bs c' Hi Hrd Hld]; intros Hap;
    (eapply awp_mono; [by apply awp_init_sd|]); intros r s1 [-> Hm].
  - destruct (Z.eqb_spec code 0); [done|]. cbn [negb].
    assert (He : ended (b_mem s) c' (set_on true s) s1)
      by (destruct Hm as [out ->]; exists out; by destruct s).
    wp_seq. eapply awp_mono; [eapply stage_text; [apply sends_print_uart; literal | exact He | done]|].
    intros [] s2 He2. apply awp_ret. split; [done|]. exists (b_mem s). by split_and!.
  - assert (He : ended (b_mem s) c1 (set_on true s) s1)
      by (destruct Hm as [out ->]; exists out; by destruct s).
    cbn [negb Z.eqb]. wp_seq.
    eapply awp_mono; [eapply stage_text; [apply sends_print_uart; literal | exact He | done]|].
    intros [] s2 He2. unfold load_header. wp_seq.
    eapply awp_mono; [eapply stage_copy; [exact He2 | done | done | by eapply one_block_apart | exact Hrd]|].
    intros r s3 [-> He3]. destruct (Z.eqb_spec rc 0); [done|]. cbn [negb].
    eapply stage_failed; [exact He3 | done|]. intros s4 He4. split; [done|].
    eexists. split_and!; [exact He4 | done |].
    by apply (frame_block dest _ _ lba1_buf _ _ _ _ _ (or_introl eq_refl) Hrd).
  - assert (He : ended (b_mem s) c1 (set_on true s) s1)
      by (destruct Hm as [out ->]; exists out; by destruct s).
    cbn [negb Z.eqb]. wp_seq.
    eapply awp_mono; [eapply stage_text; [apply sends_print_uart; literal | exact He | done]|].
    intros [] s2 He2. unfold load_header. wp_seq.
    eapply awp_mono; [eapply stage_copy; [exact He2 | done | done | by eapply one_block_apart | exact Hrd]|].
    intros r s3 [-> He3]. cbn [negb Z.eqb].
    pose proof (reading_length _ _ _ _ _ Hrd) as Hl. cbn in Hl.
    pose proof (read_write_same lba1_buf h (ff_filled (b_mem s))) as Hrh.
    replace (length h) with 512%nat in Hrh by lia. wp_seq. eapply awp_mono.
    { exact (stage_print _ _ _ _ _ _ (prints_pth lba1_buf h) He3 Hr Hrh). }
    intros [] s4 He4. eapply awp_mono; [by eapply (stage_entries dest _ h c2)|].
    intros r s5 (-> & m' & He5 & Hb5 & Hf5). split; [done|]. exists m'. split_and!; [done..|].
    intros k H1 H2 H3 H4. rewrite Hf5 by done.
    by apply (frame_block dest (Z.of_nat (length bs)) (b_mem s) lba1_buf _ _ _ _ _ (or_introl eq_refl) Hrd).
Qed.
End search.

(** * Every run *)

Section closed.
Context `{!Bus D, !Layout} {I : world D -> Prop} {A : Z -> Prop} `{!Closed I A}.

Lemma keeps_print_pth a : keeps I (print_pth a).
Proof. unfold print_pth, pth_u32, pth_u64. keeps_tac. Qed.

Lemma keeps_print_entry a i : keeps I (print_entry a i).
Proof. unfold print_entry, print_bytes, ent_u64. keeps_tac. Qed.

Lemma keeps_report_failure r : keeps I (report_failure r).
Proof. unfold report_failure. keeps_tac. Qed.

Hint Resolve keeps_print_pth keeps_print_entry keeps_report_failure : keeps.

#[local] Opaque sd_copy init_sd print_pth print_entry report_failure load_le print_uart.

(** The search stores to the local buffers, and to at most [2 ^ 32 - 1] blocks from [dest]. *)
Lemma keeps_gpt dest size :
  (forall i, 0 <= i < 128 -> A (ff_buf + i)) ->
  (forall i, 0 <= i < 512 -> A (lba1_buf + i)) ->
  (forall i, 0 <= i < 512 -> A (lba2_buf + i)) ->
  (forall i, 0 <= i < 512 * (2 ^ 32 - 1) -> A (dest + i)) ->
  keeps I (gpt_find_boot_partition dest size).
Proof.
  intros Hff H1 H2 Hd.
  assert (Hc : forall lba n, keeps I (sd_copy dest lba (u32 n))).
  { intros lba n. apply (keeps_sd_copy (A := A)); [done|]. intros i Hi. apply Hd.
    pose proof (Z.mod_pos_bound n (2 ^ 32)). unfold u32 in *. lia. }
  assert (Hc1 : forall lba, keeps I (sd_copy lba1_buf lba 1)) by (intros; by apply (keeps_sd_copy (A := A))).
  assert (Hc2 : forall lba, keeps I (sd_copy lba2_buf lba 1)) by (intros; by apply (keeps_sd_copy (A := A))).
  unfold gpt_find_boot_partition, load_header, load_entries, load_image, pth_u64, ent_u64.
  keeps_tac.
Qed.
End closed.

(** * Runs that end *)

Section stability.
Context `{!Bus D, !Layout}.

Lemma stable_print_pth a : stable (print_pth a).
Proof. unfold print_pth, pth_u32, pth_u64. stable_tac. Qed.

Lemma stable_print_entry a i : stable (print_entry a i).
Proof. unfold print_entry, print_bytes, ent_u64. stable_tac. Qed.

Lemma stable_report_failure r : stable (report_failure r).
Proof. unfold report_failure. stable_tac. Qed.

Hint Resolve stable_print_pth stable_print_entry stable_report_failure : stable.

#[local] Opaque sd_copy init_sd print_pth print_entry report_failure load_le print_uart.

Lemma stable_gpt dest size : stable (gpt_find_boot_partition dest size).
Proof.
  unfold gpt_find_boot_partition, load_header, load_entries, load_image, pth_u64, ent_u64.
  stable_tac.
Qed.
End stability.

#[export] Hint Resolve stable_print_pth stable_print_entry stable_report_failure stable_gpt : stable.

(** The image, as long as any table the card may deliver says, does not reach the buffer [ff]. *)
Definition room `{!SpiSlave C, !Layout} (dest : Z) (c : C) : Prop :=
  apart dest 512
  /\ forall es, table_of c es -> apart dest (512 * Z.max 1 (image_blocks (entry 0 es))).

(** A search that ended shows that the polls of the card did. *)
Section ended_runs.
Context {D C : Type} `{!Bus D, !SpiSlave C, !SpiController D C, !Console D, !Layout}.
Context (Hb1 : apart lba1_buf 512) (Hb2 : apart lba2_buf 512).

(** One copy in the course of the search. *)
Lemma ends_stage_copy {B} m c s0 s1 dst lba size (k : Z -> M D B) (E : Prop) :
  ended m c s0 s1 -> b_on s0 = true -> uart_ready s0 -> apart dst (512 * Z.max 1 size) ->
  (forall bs rc c' s', reading c lba size bs rc c' ->
     ended (write_bytes dst bs (ff_filled m)) c' s0 s' -> ends at_board (k rc) s' E) ->
  ends at_board (sd_copy dst lba size ≫= k) s1 E.
Proof.
  intros He Hon Hr Hap Hk. destruct (ended_state _ _ _ _ He) as (E1 & E2 & _ & E4).
  apply ends_bind; [apply stable_sd_copy|].
  eapply ends_mono; [apply ends_sd_copy; [by rewrite E1 | by apply E4 | exact Hap]|].
  rewrite E2. intros (bs & rc & c' & Hrd). pose proof (reading_length_le _ _ _ _ _ _ Hrd).
  eapply awp_mono; [eapply stage_copy; [done.. | by eapply apart_le | exact Hrd]|].
  intros r s' [-> He']. by eapply Hk.
Qed.

Lemma ends_image dest m es c s0 s1 :
  ended m c s0 s1 -> b_on s0 = true -> uart_ready s0 ->
  length es = 512%nat -> read_bytes m lba2_buf 512 = Some es ->
  apart dest (512 * Z.max 1 (image_blocks (entry 0 es))) ->
  ends at_board (load_image dest) s1 (exists bs rc c',
    reading c (image_lba (entry 0 es)) (image_blocks (entry 0 es)) bs rc c').
Proof.
  intros He Hon Hr Hl Hm Hap. unfold load_image, ent_u64.
  apply ends_bind; [eauto with stable | apply ends_known].
  eapply awp_mono; [eapply stage_text; [apply sends_print_uart; literal | exact He | done]|].
  intros [] s2 He2. destruct (ended_state _ _ _ _ He2) as (_ & _ & Em & _).
  assert (Hf : forall k, (ent_off k + 8 <= 512)%nat ->
    read_bytes (b_mem s2) (lba2_buf + Z.of_nat (ent_off k)) 8 = Some (take 8 (drop (ent_off k) es)))
    by (intros k Hk; rewrite Em; exact (read_bytes_sub _ _ _ _ _ _ Hm Hk)).
  do 3 (apply ends_bind; [apply stable_load_le | apply ends_known];
        eapply awp_load_le; [apply Hf; cbn; lia|]).
  eapply ends_stage_copy; [exact He2 | done | done | exact Hap|].
  intros bs rc c' s' Hrd _. apply ends_known. by exists bs, rc, c'.
Qed.

Lemma ends_entries dest m h c s0 s1 :
  ended m c s0 s1 -> b_on s0 = true -> uart_ready s0 -> read_bytes m lba1_buf 512 = Some h ->
  (forall es c', reading c (u32 (partition_entries_lba (pth_of h))) 1 es 0 c' ->
     apart dest (512 * Z.max 1 (image_blocks (entry 0 es)))) ->
  ends at_board (load_entries dest) s1 (exists code bs c', loading_entries h c code bs c').
Proof.
  intros He Hon Hr Hm Hroom. destruct (ended_state _ _ _ _ He) as (_ & _ & Em & _).
  unfold load_entries, pth_u64. apply ends_bind; [apply stable_load_le | apply ends_known].
  eapply awp_load_le; [cbn [mh_mem board_mem]; rewrite Em; apply (read_bytes_sub _ _ _ _ _ _ Hm); cbn; lia|].
  eapply ends_stage_copy; [exact He | done | done | exact Hb2|]. intros es rc c1 s2 Hrd He2.
  destruct (Z.eqb_spec rc 0) as [->|Hne]; cbn [negb];
    [|apply ends_known; exists (-2), [], c1; by eapply loading_no_entries].
  pose proof (reading_length _ _ _ _ _ Hrd) as Hl. cbn in Hl.
  assert (Hl' : length es = 512%nat) by lia.
  pose proof (read_write_same lba2_buf es (ff_filled m)) as Hre. rewrite Hl' in Hre.
  apply ends_bind; [stable_tac | apply ends_known]. eapply awp_mono.
  { apply (stage_print (a := lba2_buf) (bs := es) (n := 512) _ _ _ _ _ _
      (prints_entries _ _ (reading_bytes _ _ _ _ _ _ Hrd) Hl') He2 Hr Hre). }
  intros [] s3 He3. eapply ends_mono; [by eapply ends_image; eauto|].
  intros (bs & rc & c' & Hrd3). exists (if rc =? 0 then 0 else -2), bs, c'. by eapply loading_image.
Qed.

Lemma ends_gpt dest size s :
  uart_ready s -> room dest (b_card s) ->
  ends at_board (gpt_find_boot_partition dest size) s
    (exists code bs c', booting (b_card s) code bs c').
Proof.
  intros Hr [_ Hroom]. unfold gpt_find_boot_partition, load_header. apply ends_bind; [apply stable_init_sd|].
  eapply ends_mono; [by apply ends_init_sd|]. intros (code & c1 & Hi).
  eapply awp_mono; [by apply awp_init_sd|]. intros r s1 [-> Hm].
  destruct (Z.eqb_spec code 0) as [->|Hne]; cbn [negb];
    [|apply ends_known; exists (-1), [], c1; by eapply booting_no_card].
  assert (He : ended (b_mem s) c1 (set_on true s) s1)
    by (destruct Hm as [out ->]; exists out; by destruct s).
  apply ends_bind; [eauto with stable | apply ends_known].
  eapply awp_mono; [eapply stage_text; [apply sends_print_uart; literal | exact He | done]|].
  intros [] s2 He2. eapply ends_stage_copy; [exact He2 | done | done | exact Hb1|].
  intros h rc c2 s3 Hrd He3. destruct (Z.eqb_spec rc 0) as [->|Hne]; cbn [negb];
    [|apply ends_known; exists (-2), [], c2; by eapply booting_no_header].
  pose proof (reading_length _ _ _ _ _ Hrd) as Hl. cbn in Hl.
  pose proof (read_write_same lba1_buf h (ff_filled (b_mem s))) as Hrh.
  replace (length h) with 512%nat in Hrh by lia.
  apply ends_bind; [apply stable_print_pth | apply ends_known]. eapply awp_mono.
  { exact (stage_print _ _ _ _ _ _ (prints_pth lba1_buf h) He3 Hr Hrh). }
  intros [] s4 He4. eapply ends_mono; [eapply ends_entries; [exact He4 | done | done | exact Hrh |]|].
  - intros es c' Hrd2. apply Hroom. by exists c1, h, c2, c'.
  - intros (code & bs & c' & Hld). exists code, bs, c'. by eapply booting_header.
Qed.

(** Room for the image is room for what the card delivers of it. *)
Lemma booting_room dest c code bs c' :
  room dest c -> booting c code bs c' -> apart dest (Z.of_nat (length bs)).
Proof.
  intros [H0 Hroom] Hb.
  assert (apart dest (Z.of_nat (length (@nil Z)))) by (by eapply apart_le).
  destruct Hb as [|c1 b rc c2 _ _ _|c1 h c2 cd b c3 Hi Hrd Hld]; [done..|].
  destruct Hld as [|es c4 b rc c5 Hrd2 Hrd3]; [done|].
  pose proof (reading_length_le _ _ _ _ _ _ Hrd3).
  eapply apart_le; [apply (Hroom es); by exists c1, h, c2, c4 | done].
Qed.

(** A search that ended has the result of one of the card's behaviours. *)
Lemma gpt_returns dest size s n w :
  uart_ready s -> room dest (b_card s) -> at_board s w ->
  fst (gpt_find_boot_partition dest size n w) = OutOfFuel \/
  exists code bs c' w', booting (b_card s) code bs c'
    /\ gpt_find_boot_partition dest size n w = (Val code, w').
Proof.
  intros Hr Hroom Hw.
  destruct (decide (fst (gpt_find_boot_partition dest size n w) = OutOfFuel)) as [E|Hne]; [by left | right].
  destruct (ends_gpt dest size s Hr Hroom n w Hw Hne) as (code & bs & c' & Hb).
  pose proof (booting_room _ _ _ _ _ Hroom Hb) as Hap.
  destruct (awp_ended _ _ _ _ n w (stable_gpt _ _) (awp_gpt Hb1 Hb2 dest size s code bs c' Hr Hap Hb) Hw Hne)
    as (a & w' & s' & E & _ & -> & _). eauto 10.
Qed.
End ended_runs.
