(* ===== verification/Boot.v ===== *)
(** The zero-stage boot loader of the FPGA board ([src/main.c]): configure the console, look for the
    boot partition, and either jump to the image or stay in a loop for ever. *)
From S2P Require Import Prelude Machine Uart Board Spi Crc Sd Gpt.

(** * The program *)

(** How [main] is left: the [jr] of its inline assembly, with the program counter and [a1]. *)
Inductive exit := Jump (pc a1 : Z).

Section driver.
Context `{!Bus D, !Layout}.

(** [while (1) { }] *)
Definition spin {A} : M D A := iter (fun _ : unit => mret (inl tt)) tt.

Definition main : M D exit :=
  init_uart 50000000 115200 ;;
  print_uart ("Hello World!" +:+ crlf) ;;
  res ← gpt_find_boot_partition 0x80000000 (2 * 16384);
  if res =? 0 then mret (Jump 0x80000000 dtb_addr)
  else spin.

Lemma spin_never {A} n w : (spin : M D A) n w = (OutOfFuel, w).
Proof. unfold spin. induction n as [|n IH]; cbn; [done|]. exact IH. Qed.
End driver.

(** * What it does *)

Section specs.
Context {D C : Type} `{!Bus D, !SpiSlave C, !SpiController D C, !Console D, !Layout}.
Context (Hb1 : apart lba1_buf 512) (Hb2 : apart lba2_buf 512).

Definition image_base : Z := 0x80000000.

(** The state the boot loader leaves: the console configured for 27 = 50 MHz / (16 * 115200), the
    image in memory, the rest of memory unchanged. *)
Definition loaded (bs : list Z) (c : C) (s s' : board C) : Prop :=
  b_on s' = true /\ b_card s' = c
  /\ divisor (b_uart s') = 27 /\ dlab (b_uart s') = false
  /\ read_bytes (b_mem s') image_base (length bs) = Some bs
  /\ frame image_base (Z.of_nat (length bs)) (b_mem s) (b_mem s').

(** [main] up to the test of the result. *)
Definition main_search : M D Z :=
  init_uart 50000000 115200 ;;
  print_uart ("Hello World!" +:+ crlf) ;;
  gpt_find_boot_partition image_base (2 * 16384).

Lemma main_split n w :
  main n w = (res ← main_search; if res =? 0 then mret (Jump image_base dtb_addr) else spin) n w.
Proof.
  unfold main_search. rewrite M_bind_assoc. apply M_bind_ext. intros [] w1.
  by rewrite M_bind_assoc.
Qed.

Lemma awp_main_search s code bs c' :
  apart image_base (Z.of_nat (length bs)) -> booting (b_card s) code bs c' ->
  awp at_board main_search s (fun r s' => r = code /\ loaded bs c' s s').
Proof.
  intros Hap Hb. unfold main_search. wp_seq. eapply awp_mono; [by apply awp_init_uart|].
  intros _ s1 ->. set (s1 := uh_set _ s).
  assert (Hr : uart_ready s1) by (unfold uart_ready, s1; by rewrite uh_view_set).
  print_step. eapply awp_mono.
  { apply (awp_gpt Hb1 Hb2 image_base (2 * 16384) _ code bs c'); [by apply ready_put | exact Hap | exact Hb]. }
  intros r s2 [-> (m & [out ->] & Hbs & Hf)]. by split_and!.
Qed.

(** What [main] does after the search. *)
Lemma main_after s w code bs c' :
  at_board s w -> apart image_base (Z.of_nat (length bs)) -> booting (b_card s) code bs c' ->
  exists n0 w' s', at_board s' w' /\ loaded bs c' s s' /\
    forall n, (n0 <= n)%nat ->
      main n w = if code =? 0 then (Val (Jump image_base dtb_addr), w') else (OutOfFuel, w').
Proof.
  intros Hw Hap Hb. destruct (awp_main_search s code bs c' Hap Hb w Hw)
    as (r & w' & [n0 Hrun] & s' & Hw' & -> & Hl).
  exists n0, w', s'. split_and!; [done..|]. intros n Hn. rewrite main_split.
  unfold mbind, M_bind. rewrite Hrun by done. destruct (code =? 0); [done|]. apply spin_never.
Qed.

(** ** When the search does not end *)

Lemma stable_main_search : stable main_search.
Proof. unfold main_search. stable_tac. Qed.

(** A search that ended shows that the polls of the card did. *)
Lemma ends_main_search s :
  room image_base (b_card s) ->
  ends at_board main_search s (exists code bs c', booting (b_card s) code bs c').
Proof.
  intros Hroom. unfold main_search. apply ends_bind; [apply stable_init_uart | apply ends_known].
  eapply awp_mono; [by apply awp_init_uart|]. intros _ s1 ->. set (s1 := uh_set _ s).
  assert (Hr : uart_ready s1) by (unfold uart_ready, s1; by rewrite uh_view_set).
  apply ends_bind; [apply stable_print_uart | apply ends_known]. print_step.
  eapply ends_mono; [apply (ends_gpt Hb1 Hb2); [by apply ready_put | exact Hroom]|].
  exact (fun H => H).
Qed.

(** [main] leaves its function only through a search with result 0. *)
Lemma main_jumps s w n :
  at_board s w -> room image_base (b_card s) ->
  fst (main n w) = OutOfFuel \/
  exists bs c' w', booting (b_card s) 0 bs c' /\ main n w = (Val (Jump image_base dtb_addr), w').
Proof.
  intros Hw Hroom. rewrite main_split.
  destruct (decide (fst (main_search n w) = OutOfFuel)) as [E|Hne].
  { left. unfold mbind, M_bind. by destruct (main_search n w) as [[]]. }
  destruct (ends_main_search s Hroom n w Hw Hne) as (code & bs & c' & Hb).
  pose proof (booting_room _ _ _ _ _ Hroom Hb) as Hap.
  destruct (awp_ended _ _ _ _ n w stable_main_search (awp_main_search s code bs c' Hap Hb) Hw Hne)
    as (a & w' & s' & E & _ & -> & _).
  unfold mbind, M_bind. rewrite E. destruct (Z.eqb_spec code 0) as [->|Hc]; [eauto 10|].
  left. by rewrite spin_never.
Qed.
End specs.

(** * Every run *)

Section closed.
Context `{!Bus D, !Layout}.

(** The drivers touch the transmitter only through [write_serial]. *)
#[export] Instance guarded_closed : Closed (D := D) guarded (fun _ => True).
Proof.
  split.
  - apply guarded_write_serial.
  - apply guarded_init_uart.
  - intros. apply guarded_ld.
  - intros. apply guarded_st. by left.
  - apply guarded_nop.
  - intros. apply guarded_store8.
Qed.

(** Memory outside [A] stays as it is. *)
Definition unchanged (A : Z -> Prop) (m : gmap Z Z) (w : world D) : Prop :=
  forall k, ¬ A k -> w_mem w !! k = m !! k.

Lemma unchanged_mem A m {X} (f : M D X) :
  (forall n w, w_mem (snd (f n w)) = w_mem w) -> keeps (unchanged A m) f.
Proof.
  intros Hf n w Hw. specialize (Hf n w). destruct (f n w) as [o w']. split; [|done].
  intros k Hk. cbn in Hf. rewrite Hf. by apply Hw.
Qed.

Lemma unchanged_ld A m wd a : keeps (unchanged A m) (mmio_ld (D := D) wd a).
Proof. apply unchanged_mem. intros n w. unfold mmio_ld. by destruct (dev_ld _ _ _). Qed.

Lemma unchanged_st A m wd a v : keeps (unchanged A m) (mmio_st (D := D) wd a v).
Proof. by apply unchanged_mem. Qed.

#[export] Instance unchanged_closed A m : Closed (D := D) (unchanged A m) A.
Proof.
  split.
  - intros a. unfold write_serial, is_transmit_empty, read_reg_u8, write_reg_u8.
    apply keeps_bind; [|intros; apply unchanged_st]. apply keeps_wait_while, keeps_bind.
    + apply keeps_bind; [apply unchanged_ld | intros; apply keeps_ret].
    + intros. apply keeps_ret.
  - intros freq baud. unfold init_uart, write_reg_u8. destruct (_ =? 0); [apply keeps_fault|].
    cbn zeta. repeat (apply keeps_bind; [apply unchanged_st | intros _]). apply unchanged_st.
  - intros. apply unchanged_ld.
  - intros. apply unchanged_st.
  - by apply unchanged_mem.
  - intros a v Ha n w Hw. split; [|done]. intros k Hk. cbn.
    rewrite lookup_insert_ne by (intros ->; done). by apply Hw.
Qed.

(** The addresses the boot loader may store to: its buffers, and the image. *)
Definition boot_writes (k : Z) : Prop :=
  in_range ff_buf 128 k \/ in_range lba1_buf 512 k \/ in_range lba2_buf 512 k
  \/ in_range image_base (512 * (2 ^ 32 - 1)) k.

Context {I : world D -> Prop} {A : Z -> Prop} `{!Closed I A}.

Lemma keeps_main : (forall k, boot_writes k -> A k) -> keeps I main.
Proof.
  intros HA. unfold main. keeps_tac.
  - apply (keeps_gpt (A := A)); intros i Hi; apply HA; unfold boot_writes, in_range, image_base; lia.
  - intros n w Hw. by rewrite spin_never.
Qed.
End closed.
