(* ===== verification/Card.v ===== *)
(** The contract of an SD card in SPI mode, as the boot loader relies on it, and what the boot
    loader does with a card that keeps it: from power-up to the jump into the image. *)
From S2P Require Import Prelude Machine Uart Board Spi Crc Sd Gpt Boot.

(** The card is not code of the boot loader: its contract speaks of the exchanges the driver makes
    with it. [disk c lba] is the content of a block, [capacity] the number of blocks, [patience]
    how many polls the initialisation takes. *)
Class SdCard (C : Type) `{!SpiSlave C} := {
  disk : C -> Z -> list Z;
  capacity : C -> Z;
  powered : C -> Prop;              (* powered, not reset *)
  idle : nat -> C -> Prop;          (* reset; busy for this number of polls *)
  ready : C -> Prop;                (* initialised *)
  sending : Z -> C -> Prop;         (* in a multiple-block read, this block next *)
  same_disk (c c' : C) := disk c' = disk c /\ capacity c' = capacity c;

  disk_block : forall c lba, length (disk c lba) = 512%nat /\ Forall is_byte (disk c lba);
  card_reset : forall c, powered c -> exists c1 c' n,
    l_dummies 10 c = (tt, c1) /\ l_cmd0_try c1 = (0x1, c') /\ idle n c' /\ same_disk c c';
  card_voltage : forall n c, idle n c -> exists c',
    l_cmd8 c = (1, c') /\ idle n c' /\ same_disk c c';
  card_busy : forall n c, idle (S n) c -> exists c',
    l_acmd41_try c = (0x1, c') /\ idle n c' /\ same_disk c c';
  card_init : forall c, idle 0 c -> exists c',
    l_acmd41_try c = (0x0, c') /\ ready c' /\ same_disk c c';
  (* the checksum of a command is not checked in SPI mode *)
  card_read : forall lba crc c, ready c -> 0 <= lba < capacity c -> is_byte crc -> exists c',
    l_cmd SD_CMD_READ_BLOCK_MULTIPLE lba crc c = (0x0, c') /\ sending lba c' /\ same_disk c c';
  (* a block is followed by its CCITT checksum *)
  card_send : forall lba c, sending lba c -> lba < capacity c -> exists c',
    delivers c (disk c lba) (foldl crc16_ref 0 (disk c lba)) c' /\ sending (lba + 1) c' /\ same_disk c c';
  card_stop : forall lba c, sending lba c -> exists c',
    l_stop c = (tt, c') /\ ready c' /\ same_disk c c'
}.

(** [n] blocks from [lba]. *)
Definition blocks (d : Z -> list Z) (lba : Z) (n : nat) : list Z :=
  concat (d <$> seqZ lba (Z.of_nat n)).

Lemma blocks_S d lba n : blocks d lba (S n) = d lba ++ blocks d (lba + 1) n.
Proof. unfold blocks. by rewrite Nat2Z.inj_succ, seqZ_cons, Z.pred_succ by lia. Qed.

Lemma blocks_length d lba n :
  (forall k, length (d k) = 512%nat) -> length (blocks d lba n) = (512 * n)%nat.
Proof.
  intros Hd. revert lba. induction n as [|n IH]; intros lba; [done|].
  rewrite blocks_S, length_app, IH, Hd. lia.
Qed.

Section card.
Context `{!SpiSlave C, !SdCard C}.

Lemma same_disk_trans c1 c2 c3 : same_disk c1 c2 -> same_disk c2 c3 -> same_disk c1 c3.
Proof. unfold same_disk. intros [-> ->] [-> ->]. done. Qed.

(** ** The card under the driver *)

Lemma idle_acmd41 n c : idle n c -> exists c', acmd41 c 0 c' /\ ready c' /\ same_disk c c'.
Proof.
  revert c. induction n as [|n IH]; intros c Hc.
  - destruct (card_init c Hc) as (c' & E & Hr & Hd). exists c'. split; [by apply acmd41_stop|]. done.
  - destruct (card_busy n c Hc) as (c1 & E & Hi & Hd). destruct (IH c1 Hi) as (c' & Ha & Hr & Hd').
    exists c'. split; [by eapply acmd41_again|]. split; [done|]. by eapply same_disk_trans.
Qed.

Lemma card_initialises c : powered c -> exists c', init_card c 0 c' /\ ready c' /\ same_disk c c'.
Proof.
  intros Hc. destruct (card_reset c Hc) as (c1 & c2 & n & E1 & E2 & Hi & Hd2).
  destruct (card_voltage n c2 Hi) as (c3 & E3 & Hi3 & Hd3).
  destruct (idle_acmd41 n c3 Hi3) as (c4 & E4 & Hr & Hd4).
  exists c4. split; [|split; [done|]; eapply same_disk_trans; [by eapply same_disk_trans | done]].
  eapply init_done; [|exact E3 | exact E4]. rewrite (l_bind_eq _ _ _ _ _ E1).
  replace cmd0_attempts with (S (S (Z.to_nat 9998))) by (unfold cmd0_attempts; lia).
  rewrite (l_cmd0_S _ _ _ _ E2). done.
Qed.

Lemma card_transfers n lba c :
  sending lba c -> lba + Z.of_nat (S n) <= capacity c -> exists c',
    transfer (Z.of_nat (S n)) c (blocks (disk c) lba (S n)) 0 c'
    /\ sending (lba + Z.of_nat (S n)) c' /\ same_disk c c'.
Proof.
  revert lba c. induction n as [|n IH]; intros lba c Hs Hcap;
    (destruct (card_send lba c Hs) as (c1 & Hd & Hs1 & Hsd); [lia|]);
    destruct (disk_block c lba) as [Hl Hb]; rewrite <- crc16_bytes_ref in Hd by done;
    rewrite blocks_S.
  - exists c1. rewrite app_nil_r. split; [by apply transfer_last | done].
  - destruct (IH (lba + 1) c1) as (c' & Ht & Hs' & Hsd'); [done | destruct Hsd as [_ ->]; lia|].
    exists c'. split; [|split; [|by eapply same_disk_trans]].
    + eapply transfer_more; [exact Hd | lia|]. destruct Hsd as [<- _].
      by replace (Z.of_nat (S (S n)) - 1) with (Z.of_nat (S n)) by lia.
    + by replace (lba + Z.of_nat (S (S n))) with (lba + 1 + Z.of_nat (S n)) by lia.
Qed.

(** [sd_copy] from such a card. *)
Lemma card_reads n lba c :
  ready c -> (0 < n)%nat -> 0 <= lba -> lba + Z.of_nat n <= capacity c -> exists c',
    reading c lba (Z.of_nat n) (blocks (disk c) lba n) 0 c' /\ ready c' /\ same_disk c c'.
Proof.
  intros Hr Hn H0 Hcap. destruct n as [|n]; [lia|].
  destruct (card_read lba (read_cmd_crc lba) c) as (c1 & E1 & Hs & Hd1); [done | lia | apply u8_byte|].
  destruct (card_transfers n lba c1) as (c2 & Ht & Hs2 & Hd2); [done | destruct Hd1 as [_ ->]; lia|].
  destruct (card_stop _ c2 Hs2) as (c3 & E3 & Hr3 & Hd3).
  exists c3. split; [|split; [done|]; eapply same_disk_trans; [by eapply same_disk_trans | done]].
  destruct Hd1 as [<- _]. by eapply reading_taken.
Qed.
End card.

(** ** A card with a partition table *)

Section bootable.
Context `{!SpiSlave C, !SdCard C}.

(** The card holds the header [h] in block 1 and the entry [e] first in the table it points to,
    and the partition lies on the card. *)
Record bootable (c : C) (h : gpt_pth_t) (e : partition_entries_t) : Prop := {
  bt_capacity : 1 < capacity c <= 2 ^ 32;
  bt_header : exists r, disk c 1 = pth_bytes h ++ r;
  bt_header_wf : pth_wf h;
  bt_entries : 0 <= partition_entries_lba h < capacity c;
  bt_entry : exists r, disk c (partition_entries_lba h) = entry_bytes e ++ r;
  bt_entry_wf : entry_wf e;
  bt_image : 0 <= first_lba e <= last_lba e /\ last_lba e < capacity c
}.

(** The image: the blocks of the partition, both ends included. *)
Definition image (c : C) (e : partition_entries_t) : list Z :=
  blocks (disk c) (first_lba e) (Z.to_nat (last_lba e - first_lba e + 1)).

Lemma image_args e :
  0 <= first_lba e <= last_lba e -> last_lba e < 2 ^ 32 ->
  image_lba e = first_lba e /\ image_blocks e = u32 (last_lba e - first_lba e + 1).
Proof.
  intros H1 H2. unfold image_lba, image_blocks. split; [apply u32_small; lia|].
  rewrite (u64_small (last_lba e - first_lba e)) by lia. by rewrite (u64_small (_ + 1)) by lia.
Qed.

(** The two blocks of the partition table, as the search reads them. *)
Lemma card_tables c h e :
  powered c -> bootable c h e ->
  exists c1 r1 c2 r2 c3, init_card c 0 c1 /\ reading c1 1 1 (pth_bytes h ++ r1) 0 c2
    /\ reading c2 (partition_entries_lba h) 1 (entry_bytes e ++ r2) 0 c3 /\ ready c3 /\ same_disk c c3.
Proof.
  intros Hp [Hcap [r1 Hh] Hhw He [r2 Hd] Hew Hi].
  destruct (card_initialises c Hp) as (c1 & Hin & Hr1 & [Ed1 Ec1]).
  destruct (card_reads 1 1 c1 Hr1) as (c2 & Hrd1 & Hr2 & [Ed2 Ec2]); [lia..|].
  destruct (card_reads 1 (partition_entries_lba h) c2 Hr2) as (c3 & Hrd2 & Hr3 & [Ed3 Ec3]); [lia..|].
  assert (E1 : forall (d : Z -> list Z) k, blocks d k 1 = d k)
    by (intros d k; rewrite blocks_S; unfold blocks; cbn; by rewrite app_nil_r).
  rewrite E1 in Hrd1, Hrd2. rewrite Ed1, Hh in Hrd1. rewrite Ed2, Ed1, Hd in Hrd2.
  exists c1, r1, c2, r2, c3. split_and!; [done | done | done | done |]. split; congruence.
Qed.

Lemma card_boots c h e :
  powered c -> bootable c h e -> last_lba e - first_lba e + 1 < 2 ^ 32 ->
  exists c', booting c 0 (image c e) c' /\ same_disk c c'.
Proof.
  intros Hp Hb Hsz. destruct (card_tables c h e Hp Hb) as (c1 & r1 & c2 & r2 & c3 & Hin & Hrd1 & Hrd2 & Hr3 & [Ed3 Ec3]).
  destruct Hb as [Hcap _ Hhw He _ Hew Hi].
  destruct (card_reads (Z.to_nat (last_lba e - first_lba e + 1)) (first_lba e) c3 Hr3)
    as (c4 & Hrd3 & Hr4 & [Ed4 Ec4]); [lia..|].
  exists c4. split; [|split; congruence]. destruct (image_args e) as [Ea Eb]; [lia..|].
  eapply booting_header; [exact Hin | exact Hrd1|].
  apply (loading_image _ _ (entry_bytes e ++ r2) c3 _ 0).
  - rewrite pth_of_bytes by done. rewrite u32_small by lia. exact Hrd2.
  - unfold entry. rewrite Nat.mul_0_r, drop_0, entry_of_bytes by done. rewrite Ea, Eb, u32_small by lia.
    rewrite Z2Nat.id in Hrd3 by lia. unfold image. by rewrite <- Ed3.
Qed.
End bootable.
