(* ===== verification/Sim.v ===== *)
(** A concrete board: a controller with a FIFO that takes two status reads to show a byte, a console
    that is busy for a while after each byte, and an SD card as an automaton. It keeps the contracts
    of [Board] and [Card], so the theorems proved against them apply to it; nothing else depends on
    it. *)
From S2P Require Import Prelude Machine Uart Board Spi Crc Sd Gpt Boot Card.

(** * The controller and the console *)

Record sim (C : Type) := Sim {
  sm_on : bool;
  sm_rx : list Z;
  sm_card : C;
  sm_delay : nat;     (* status reads until the oldest byte can be read *)
  sm_busy : nat       (* line status reads until the transmitter is empty *)
}.
Arguments Sim {C} _ _ _ _ _.
Arguments sm_on {C} _.
Arguments sm_rx {C} _.
Arguments sm_card {C} _.
Arguments sm_delay {C} _.
Arguments sm_busy {C} _.

Section sim.
Context `{!SpiSlave C}.

Definition sim_vis (d : sim C) : bool :=
  match sm_rx d, sm_delay d with _ :: _, O => true | _, _ => false end.

#[export] Instance sim_bus : Bus (sim C) := {
  bus_ld w a d :=
    let '(Sim on rx c delay busy) := d in
    match w with
    | W32 =>
        if a =? SPI_STATUS_REG then
          let d := Sim on rx c (Nat.pred delay) busy in (Z.b2z (negb (sim_vis d)), d)
        else if a =? SPI_RECEIVE_REG then
          (u8 (hd 0 rx), Sim on (tl rx) c delay busy)
        else (0, d)
    | W8 =>
        if a =? UART_LINE_STATUS then
          (match busy with O => 0x20 | S _ => 0 end, Sim on rx c delay (Nat.pred busy))
        else (0, d)
    | W64 => (0, d)
    end;
  bus_st w a v d :=
    let '(Sim on rx c delay busy) := d in
    match w with
    | W32 =>
        if a =? SPI_CONTROL_REG then
          Sim (Z.testbit v 1 && Z.testbit v 2 && negb (Z.testbit v 8))
            (if Z.testbit v 5 || Z.testbit v 6 then [] else rx) c delay busy
        else if a =? SPI_SLAVE_SELECT_REG then Sim on rx (select v c) delay busy
        else if a =? SPI_TRANSMIT_REG then
          let '(r, c) := xfer v c in Sim on (rx ++ [r]) c 2 busy
        else d
    | W8 => if a =? UART_THR then Sim on rx c delay 3 else d
    | W64 => d
    end;
  bus_nop d := d
}.

#[export] Instance sim_controller : SpiController (sim C) C.
Proof.
  refine {| spi_on := sm_on; spi_rx d := u8 <$> sm_rx d; spi_card := sm_card; spi_vis := sim_vis;
            spi_lag := sm_delay |}.
  - by intros [on rx c delay busy].
  - intros v [on rx c delay busy] H. cbn in *. split_and!; [done | | done].
    destruct H as [H | [-> ->]]; [|done]. destruct rx; [by destruct (_ || _) | done].
  - by intros v [on rx c delay busy] H.
  - intros b [on rx c delay busy] Hb Hon Hl. pose proof (xfer_byte b c) as Hx.
    unfold bus_st, sim_bus. change (SPI_TRANSMIT_REG =? SPI_CONTROL_REG) with false.
    change (SPI_TRANSMIT_REG =? SPI_SLAVE_SELECT_REG) with false. rewrite Z.eqb_refl.
    cbn [fst snd sm_rx sm_card sm_on] in *. destruct (xfer b c) as [r c'].
    cbn [fst snd sm_rx sm_card sm_on] in *.
    split_and!; [exact Hon | | done].
    rewrite fmap_app. cbn [fmap list_fmap]. by rewrite u8_small.
  - intros [on rx c delay busy] v d'. unfold dev_ld, bus_ld, sim_bus.
    cbn -[sim_vis Z.testbit Z.modulo]. intros [= <- <-]. cbn -[sim_vis Z.testbit Z.modulo].
    split_and!; try done.
    + by destruct (sim_vis _).
    + unfold sim_vis. cbn. by destruct rx.
    + unfold sim_vis. cbn. destruct rx, delay as [|[]]; cbn; try done; lia.
  - intros [on rx c delay busy] v d' b l Hv Hrx. cbn in Hrx.
    destruct rx as [|x rx]; [done|]. cbn in Hrx. injection Hrx as <- <-.
    unfold dev_ld, bus_ld, sim_bus. cbn -[sim_vis Z.testbit Z.modulo u8]. intros [= <- <-].
    split; [|done]. apply Z.mod_small. pose proof (u8_byte x). unfold is_byte in *. lia.
  - intros a v [on rx c delay busy] Ha. cbn. by destruct (a =? _).
  - intros [on rx c delay busy] v d'. unfold dev_ld, bus_ld, sim_bus. cbn. by intros [= <- <-].
  - by intros [on rx c delay busy].
Defined.

#[export] Instance sim_console : Console (sim C).
Proof.
  refine {| uart_lag := sm_busy |}. intros [on rx c delay busy] v d'.
  unfold dev_ld, bus_ld, sim_bus. cbn. intros [= <- <-]. destruct busy; [by left | right; cbn; lia].
Defined.
End sim.

(** * The card *)

Inductive sim_mode := SimOff | SimIdle (n : nat) | SimReady | SimSending (lba : Z).

(** [sc_frame]: the bytes of a command received so far; [sc_out]: the bytes to shift out. *)
Record sim_card := SimCard {
  sc_disk : Z -> list Z;
  sc_capacity : Z;
  sc_mode : sim_mode;
  sc_frame : list Z;
  sc_out : list Z
}.

(** Blocks have 512 bytes whatever the content given. *)
Definition sim_block (c : sim_card) (lba : Z) : list Z :=
  take 512 ((u8 <$> sc_disk c lba) ++ replicate 512 0).

Definition sim_data (c : sim_card) (lba : Z) : list Z :=
  let crc := foldl crc16_ref 0 (sim_block c lba) in
  SD_DATA_TOKEN :: sim_block c lba ++ [crc / 256; crc mod 256].

(** The next byte out; in a multiple-block read the next block follows. *)
Definition sim_pop (c : sim_card) : Z * sim_card :=
  match sc_out c with
  | x :: out => (x, SimCard (sc_disk c) (sc_capacity c) (sc_mode c) (sc_frame c) out)
  | [] =>
      (0xff,
       match sc_mode c with
       | SimSending lba =>
           if lba <? sc_capacity c then
             SimCard (sc_disk c) (sc_capacity c) (SimSending (lba + 1)) (sc_frame c) (sim_data c lba)
           else c
       | _ => c
       end)
  end.

Definition sim_answer (m : sim_mode) (out : list Z) (c : sim_card) : sim_card :=
  SimCard (sc_disk c) (sc_capacity c) m [] out.

(** A complete command frame. *)
Definition sim_exec (f : list Z) (c : sim_card) : sim_card :=
  let arg := 2 ^ 24 * nth 1 f 0 + 2 ^ 16 * nth 2 f 0 + 2 ^ 8 * nth 3 f 0 + nth 4 f 0 in
  match hd 0 f - 0x40, sc_mode c with
  | 0, _ => sim_answer (SimIdle 2) [0xff; 0x01] c
  | 8, SimIdle n => sim_answer (SimIdle n) [0xff; 0x01; 0; 0; 0x01; 0xaa] c
  | 55, m => sim_answer m [0xff; match m with SimReady => 0 | _ => 1 end] c
  | 41, SimIdle O => sim_answer SimReady [0xff; 0x00] c
  | 41, SimIdle (S n) => sim_answer (SimIdle n) [0xff; 0x01] c
  | 18, SimReady => sim_answer (SimSending arg) [0xff; 0x00] c
  | 12, SimSending _ => sim_answer SimReady [0xff; 0x00] c
  | _, m => sim_answer m [0xff; 0x05] c
  end.

(** One byte in: a command starts with bits 01. *)
Definition sim_frame (f : list Z) (b : Z) : list Z :=
  match f with
  | [] => if (0x40 <=? b) && (b <? 0x80) then [b] else []
  | _ => f ++ [b]
  end.

Definition sim_feed (b : Z) (c : sim_card) : sim_card :=
  let f := sim_frame (sc_frame c) b in
  if (length f =? 6)%nat then sim_exec f c
  else SimCard (sc_disk c) (sc_capacity c) (sc_mode c) f (sc_out c).

#[export] Instance sim_slave : SpiSlave sim_card.
Proof.
  refine {| xfer b c := let '(x, c) := sim_pop c in (u8 x, sim_feed b c); select _ c := c |}.
  intros b c. destruct (sim_pop c). apply u8_byte.
Defined.

(** ** It keeps the contract *)

(** A card between commands. *)
Definition sim_at (m : sim_mode) (c : sim_card) : Prop :=
  sc_mode c = m /\ sc_frame c = [] /\ sc_out c = [].

Definition sim_of (d : Z -> list Z) (cap : Z) (m : sim_mode) : sim_card := SimCard d cap m [] [].

Lemma sim_at_of m c : sim_at m c -> c = sim_of (sc_disk c) (sc_capacity c) m.
Proof. destruct c. intros (E1 & E2 & E3). cbn in *. by subst. Qed.

(** The commands of the initialisation, by evaluation on a card with any content. *)
Lemma sim_reset d cap :
  l_dummies 10 (sim_of d cap SimOff) = (tt, sim_of d cap SimOff)
  /\ l_cmd0_try (sim_of d cap SimOff) = (0x1, sim_of d cap (SimIdle 2)).
Proof. by vm_compute. Qed.

Lemma sim_voltage d cap n : l_cmd8 (sim_of d cap (SimIdle n)) = (1, sim_of d cap (SimIdle n)).
Proof. by vm_compute. Qed.

Lemma sim_busy d cap n :
  l_acmd41_try (sim_of d cap (SimIdle (S n))) = (0x1, sim_of d cap (SimIdle n)).
Proof. by vm_compute. Qed.

Lemma sim_init d cap : l_acmd41_try (sim_of d cap (SimIdle 0)) = (0x0, sim_of d cap SimReady).
Proof. by vm_compute. Qed.

Lemma sim_read_frame d cap b1 b2 b3 b4 crc :
  (l_dummy ;; link_txrx 0x52 ;; link_txrx b1 ;; link_txrx b2 ;; link_txrx b3 ;; link_txrx b4 ;;
   link_txrx crc ;; l_response 99) (sim_of d cap SimReady) =
  (0x0, sim_of d cap (SimSending (2 ^ 24 * b1 + 2 ^ 16 * b2 + 2 ^ 8 * b3 + b4))).
Proof. by vm_compute. Qed.

Lemma arg_bytes v :
  0 <= v < 2 ^ 32 ->
  2 ^ 24 * u8 (Z.shiftr v 24) + 2 ^ 16 * u8 (Z.shiftr v 16) + 2 ^ 8 * u8 (Z.shiftr v 8) + u8 v = v.
Proof. intros Hv. rewrite !shiftr_div by lia. unfold u8. cbn -[Z.div Z.modulo]. divlia. Qed.

Lemma sim_read d cap lba crc :
  0 <= lba < 2 ^ 32 ->
  l_cmd SD_CMD_READ_BLOCK_MULTIPLE lba crc (sim_of d cap SimReady) = (0x0, sim_of d cap (SimSending lba)).
Proof.
  intros Hlba. unfold l_cmd.
  change (u8 (Z.lor 0x40 SD_CMD_READ_BLOCK_MULTIPLE)) with 0x52.
  rewrite sim_read_frame. by rewrite arg_bytes.
Qed.

(** A stop command, whatever is being sent. *)
Lemma sim_pop_keeps c :
  let c' := snd (sim_pop c) in
  sc_disk c' = sc_disk c /\ sc_capacity c' = sc_capacity c /\ sc_frame c' = sc_frame c
  /\ (forall lba, sc_mode c = SimSending lba -> exists lba', sc_mode c' = SimSending lba').
Proof.
  destruct c as [d cap m f [|x out]]; cbn; [|by eauto].
  destruct m as [|n| |lba]; cbn; try done. destruct (lba <? cap); cbn; eauto.
Qed.

(** A card in a read, with part [f] of a command received. *)
Definition sim_reading (d : Z -> list Z) (cap : Z) (f : list Z) (c : sim_card) : Prop :=
  sc_disk c = d /\ sc_capacity c = cap /\ sc_frame c = f /\ exists lba, sc_mode c = SimSending lba.

Lemma sim_reading_txrx d cap f b c :
  sim_reading d cap f c -> length (sim_frame f b) <> 6%nat ->
  sim_reading d cap (sim_frame f b) (snd (link_txrx b c)).
Proof.
  intros (H1 & H2 & H3 & lba & H4) Hl. unfold link_txrx. cbn [select xfer sim_slave].
  destruct (sim_pop_keeps c) as (E1 & E2 & E3 & E4). destruct (E4 lba H4) as [lba' E5].
  destruct (sim_pop c) as [x c2]. cbn [snd] in *.
  unfold sim_feed. rewrite E3, H3. destruct (Nat.eqb_spec (length (sim_frame f b)) 6); [done|].
  unfold sim_reading. cbn. rewrite E1, E2. eauto.
Qed.

Lemma sim_stop_exec d cap b c :
  sim_reading d cap [0x4c; 0; 0; 0; 0] c ->
  snd (link_txrx b c) = SimCard d cap SimReady [] [0xff; 0x00].
Proof.
  intros (H1 & H2 & H3 & lba & H4). unfold link_txrx. cbn [select xfer sim_slave].
  destruct (sim_pop_keeps c) as (E1 & E2 & E3 & E4). destruct (E4 lba H4) as [lba' E5].
  destruct (sim_pop c) as [x c2]. cbn [snd] in *.
  unfold sim_feed. rewrite E3, H3. cbn -[sim_exec]. unfold sim_exec. rewrite E5. cbn.
  unfold sim_answer. by rewrite E1, E2, H1, H2.
Qed.

Lemma l_step {A} b (g : L sim_card A) c :
  ((link_txrx b : L sim_card Z) ;; g) c = g (snd (link_txrx b c)).
Proof. unfold mbind, L_bind. by destruct (link_txrx b c). Qed.

Lemma l_bind_cong {A B} (l1 l2 : L sim_card A) (g : A -> L sim_card B) c c1 :
  l1 c = l2 c1 -> (l1 ≫= g) c = (l2 ≫= g) c1.
Proof. unfold mbind, L_bind. by intros ->. Qed.

Lemma sim_stop d cap c : sim_reading d cap [] c -> l_stop c = (tt, sim_of d cap SimReady).
Proof.
  intros Hc. unfold l_stop, l_cmd.
  change (u8 (Z.lor 0x40 SD_CMD_STOP_TRANSMISSION)) with 0x4c.
  change (u8 (Z.shiftr 0 24)) with 0. change (u8 (Z.shiftr 0 16)) with 0.
  change (u8 (Z.shiftr 0 8)) with 0. change (u8 0) with 0.
  apply (sim_reading_txrx _ _ _ 0xff) in Hc; [|done].
  apply (sim_reading_txrx _ _ _ 0x4c) in Hc; [|done].
  do 4 (apply (sim_reading_txrx _ _ _ 0) in Hc; [|done]).
  apply (sim_stop_exec _ _ 0x01) in Hc.
  set (c1 := snd (link_txrx 0x01 _)) in Hc.
  transitivity ((l_response 99 ;; l_dummy ;; mret tt) c1).
  - apply l_bind_cong. unfold l_dummy. by rewrite !l_step.
  - rewrite Hc. by vm_compute.
Qed.

Lemma sim_block_spec c lba : length (sim_block c lba) = 512%nat /\ Forall is_byte (sim_block c lba).
Proof.
  unfold sim_block. split.
  - rewrite length_take, length_app, length_replicate. lia.
  - apply Forall_take, Forall_app_2; [|by apply Forall_replicate].
    apply Forall_fmap, Forall_true. intros x. apply u8_byte.
Qed.

Lemma sim_dummy d cap m x out :
  is_byte x -> l_dummy (SimCard d cap m [] (x :: out)) = (x, SimCard d cap m [] out).
Proof. intros Hx. unfold l_dummy, link_txrx. cbn -[u8]. by rewrite u8_small. Qed.

Lemma sim_xfers d cap m bs out :
  Forall is_byte bs ->
  xfers (replicate (length bs) 0xff) (SimCard d cap m [] (bs ++ out)) = (bs, SimCard d cap m [] out).
Proof.
  induction 1 as [|b bs Hb _ IH]; [done|]. cbn -[u8]. cbn -[u8] in IH. rewrite IH. by rewrite u8_small.
Qed.

Lemma sim_bursts k d cap m bs out :
  Forall is_byte bs -> length bs = (64 * k)%nat ->
  l_bursts k (SimCard d cap m [] (bs ++ out)) = (bs, SimCard d cap m [] out).
Proof.
  revert bs. induction k as [|k IH]; intros bs Hb Hl.
  - destruct bs; [done | cbn in Hl; lia].
  - rewrite <- (take_drop 64 bs), <- (assoc_L (++)).
    assert (Hl1 : length (take 64 bs) = 64%nat) by (rewrite length_take; lia).
    assert (E : link_burst (replicate 64 0xff) (SimCard d cap m [] (take 64 bs ++ drop 64 bs ++ out))
                = (take 64 bs, SimCard d cap m [] (drop 64 bs ++ out))).
    { unfold link_burst. rewrite <- Hl1 at 1. cbn [select sim_slave].
      rewrite sim_xfers by by apply Forall_take. done. }
    cbn [l_bursts]. rewrite (l_bind_eq _ _ _ _ _ E).
    rewrite (l_bind_eq _ _ _ _ _ (IH (drop 64 bs) ltac:(by apply Forall_drop)
               ltac:(rewrite length_drop; lia))). done.
Qed.

Lemma sim_send d cap lba :
  lba < cap ->
  let c := sim_of d cap (SimSending lba) in
  delivers c (sim_block c lba) (foldl crc16_ref 0 (sim_block c lba))
    (sim_of d cap (SimSending (lba + 1))).
Proof.
  intros Hlba c. destruct (sim_block_spec c lba) as [Hl Hb].
  set (crc := foldl crc16_ref 0 (sim_block c lba)).
  assert (Hcrc : 0 <= crc < 2 ^ 16).
  { unfold crc. rewrite <- crc16_bytes_ref by done. by apply crc16_bytes_range. }
  assert (E0 : l_dummy c = (0xff, SimCard d cap (SimSending (lba + 1)) []
                              (0xfe :: sim_block c lba ++ [crc / 256; crc mod 256]))).
  { unfold l_dummy, link_txrx, c. cbn -[sim_block Z.ltb u8]. destruct (Z.ltb_spec lba cap); [done | lia]. }
  exists (SimCard d cap (SimSending (lba + 1)) [] (sim_block c lba ++ [crc / 256; crc mod 256])).
  split.
  - eapply token_later; [exact E0 | done|]. apply token_here. by apply sim_dummy.
  - unfold l_block. rewrite (l_bind_eq _ _ _ _ _ (sim_bursts 8 d cap _ _ _ Hb Hl)).
    assert (Hhi : is_byte (crc / 256)) by (unfold is_byte; divlia).
    assert (Hlo : is_byte (crc mod 256)) by (unfold is_byte; divlia).
    rewrite (l_bind_eq _ _ _ _ _ (sim_dummy d cap _ _ [crc mod 256] Hhi)).
    rewrite (l_bind_eq _ _ _ _ _ (sim_dummy d cap _ _ [] Hlo)).
    unfold mret, L_ret. by rewrite <- (Z.div_mod crc 256) by lia.
Qed.

#[export] Instance sim_sdcard : SdCard sim_card.
Proof.
  refine {| disk := sim_block; capacity c := Z.min (sc_capacity c) (2 ^ 32);
            powered c := sim_at SimOff c; idle n c := sim_at (SimIdle n) c;
            ready c := sim_at SimReady c; sending lba c := sim_at (SimSending lba) c |};
    try (intros ? ?; apply sim_block_spec).
  - intros c Hc. rewrite (sim_at_of _ _ Hc).
    destruct (sim_reset (sc_disk c) (sc_capacity c)) as [E1 E2].
    eexists _, _, 2%nat. split; [exact E1|]. split; [exact E2 | by repeat split].
  - intros n c Hc. rewrite (sim_at_of _ _ Hc). eexists. split; [apply sim_voltage | by repeat split].
  - intros n c Hc. rewrite (sim_at_of _ _ Hc). eexists. split; [apply sim_busy | by repeat split].
  - intros c Hc. rewrite (sim_at_of _ _ Hc). eexists. split; [apply sim_init | by repeat split].
  - intros lba crc c Hc Hl _. rewrite (sim_at_of _ _ Hc). eexists.
    split; [apply sim_read; lia | by repeat split].
  - intros lba c Hc Hl. rewrite (sim_at_of _ _ Hc). eexists.
    split; [apply sim_send; cbn; lia | by repeat split].
  - intros lba c Hc. rewrite (sim_at_of _ _ Hc). eexists. split; [|split; [|split]].
    + apply (sim_stop (sc_disk c) (sc_capacity c)). repeat split. by exists lba.
    + by repeat split.
    + reflexivity.
    + reflexivity.
Defined.
