(* ===== verification/FpgaTheorems.v ===== *)
(** The properties of the FPGA boot loader, each with an instance on the board and the card of
    [Sim]. *)
From S2P Require Import Prelude Machine Uart Board Spi Crc Sd Gpt Boot Card Sim.

(** * The example the instances use *)

Definition ex_header : gpt_pth_t :=
  GptPth 0x5452415020494645 0x00010000 92 0 0 1 1000 34 966 (replicate 16 7) 2 4 128 0.

Definition ex_entry : partition_entries_t :=
  PartitionEntry (replicate 16 1) (replicate 16 2) 40 41 0 (replicate 72 0).

(** Header in block 1, table in block 2, and every other block filled with its number. *)
Definition ex_disk (lba : Z) : list Z :=
  if lba =? 1 then pth_bytes ex_header
  else if lba =? 2 then entry_bytes ex_entry
  else replicate 512 lba.

Definition ex_card : sim_card := sim_of ex_disk 1000 SimOff.

#[export] Instance ex_layout : Layout := {
  ff_buf := 0x83fffc00; lba1_buf := 0x83fffa00; lba2_buf := 0x83fff800; dtb_addr := 0x10400
}.

(** The state before the boot loader starts, with a card. *)
Definition ex_state (on : bool) (c : sim_card) (m : gmap Z Z) : board sim_card :=
  Board on c m uart_reset.

Definition ex_world (on : bool) (c : sim_card) (m : gmap Z Z) : world (sim sim_card) :=
  World (Sim on [] c 0 0) m [].

Lemma ex_at on c m : at_board (ex_state on c m) (ex_world on c m).
Proof. by repeat split. Qed.

Lemma ex_bootable : bootable ex_card ex_header ex_entry.
Proof.
  split.
  - by vm_compute.
  - exists (drop 92 (sim_block ex_card 1)). by vm_compute.
  - split_and!; [by repeat constructor.. | done].
  - by vm_compute.
  - exists (drop 128 (sim_block ex_card 2)). by vm_compute.
  - split_and!; [by repeat constructor | done..].
  - by vm_compute.
Qed.

(** * The boot loader as a whole *)

Section boot.
Context {D C : Type} `{!Bus D, !SpiSlave C, !SpiController D C, !Console D, !SdCard C, !Layout}.

(** C1: with a powered SD card that holds a well-formed partition table, the boot loader ends: it
    jumps to 0x80000000 with the device tree in [a1], and from 0x80000000 upwards memory holds
    exactly the blocks of the first partition, first to last inclusive; memory outside this image
    and the loader's own buffers is unchanged, and the console's divisor is 27. *)
Theorem boot_loader_boots (s : board C) h e :
  apart lba1_buf 512 -> apart lba2_buf 512 ->
  powered (b_card s) -> bootable (b_card s) h e ->
  apart image_base (512 * (last_lba e - first_lba e + 1)) ->
  last_lba e - first_lba e + 1 < 2 ^ 32 ->
  awp at_board main s (fun x s' =>
    x = Jump 0x80000000 dtb_addr /\
    exists c', loaded (image (b_card s) e) c' s s').
Proof.
  intros H1 H2 Hp Hb Ha Hn. destruct (card_boots _ _ _ Hp Hb Hn) as (c' & Hbt & _).
  assert (Hl : Z.of_nat (length (image (b_card s) e)) = 512 * (last_lba e - first_lba e + 1)).
  { unfold image. rewrite blocks_length by apply disk_block. destruct Hb as [_ _ _ _ _ _ Hi]. lia. }
  intros w Hw. destruct (main_after H1 H2 s w 0 (image (b_card s) e) c' Hw) as (n0 & w' & s' & Hw' & Hld & Hrun);
    [by rewrite Hl | exact Hbt|].
  exists (Jump image_base dtb_addr), w'. split; [exists n0; exact Hrun|]. eauto.
Qed.
End boot.

Lemma boot_loader_boots_witness :
  at_board (ex_state false ex_card ∅) (ex_world false ex_card ∅) /\
  awp at_board main (ex_state false ex_card ∅) (fun x s' =>
      x = Jump 0x80000000 dtb_addr /\ exists c', loaded (image ex_card ex_entry) c' (ex_state false ex_card ∅) s').
Proof.
  split; [apply ex_at|].
  apply (boot_loader_boots (D := sim sim_card) (ex_state false ex_card ∅) ex_header ex_entry).
  - by left.
  - by left.
  - by repeat split.
  - exact ex_bootable.
  - by left.
  - done.
Defined.

(** A card that is not there: the line stays high. *)
#[export] Instance absent_slave : SpiSlave unit.
Proof. by refine {| xfer _ c := (0xff, c); select _ c := c |}. Defined.

Lemma absent_cmd0 n : l_cmd0 n tt = (false, tt).
Proof.
  assert (E : l_cmd0_try tt = (0xff, tt)) by by vm_compute.
  induction n as [|n IH]; [done|]. rewrite (l_cmd0_S _ _ _ _ E). by destruct n.
Qed.

Lemma absent_init : init_card tt SD_INIT_ERROR_CMD0 tt.
Proof. apply init_no_cmd0. cbn [l_dummies]. unfold mbind, L_bind. apply absent_cmd0. Qed.

Definition absent_state : board unit := Board false tt ∅ uart_reset.
Definition absent_world : world (sim unit) := World (Sim false [] tt 0 0) ∅ [].

Section outcome.
Context {D C : Type} `{!Bus D, !SpiSlave C, !SpiController D C, !Console D, !Layout}.

(** C5: the boot loader has two ways to end its search and no other. For every behaviour [booting]
    allows the card, with result 0 it jumps to the image, and with result -1 (initialisation) or -2
    (a read) it stays in its final loop for ever, in a state where only the image area, its
    buffers, the card and the console have changed. And whatever the card does, as long as no table it
    may deliver asks for an image that reaches the buffer of the copy ([room]), for every fuel [main]
    has either not returned or jumped after a search with result 0: a card that answers 1 to ACMD41
    for ever, or never sends the token of a block, has no behaviour in [booting], and [main] polls
    it for ever. *)
Theorem boot_loader_outcome (s : board C) w :
  apart lba1_buf 512 -> apart lba2_buf 512 -> at_board s w ->
  (forall code bs c', apart image_base (Z.of_nat (length bs)) -> booting (b_card s) code bs c' ->
     (code = 0 \/ code = -1 \/ code = -2) /\
     exists n0 w' s', at_board s' w' /\ loaded bs c' s s' /\
       forall n, (n0 <= n)%nat ->
         main n w = if code =? 0 then (Val (Jump 0x80000000 dtb_addr), w') else (OutOfFuel, w')) /\
  (room image_base (b_card s) -> forall n,
     fst (main n w) = OutOfFuel \/
     exists bs c' w', booting (b_card s) 0 bs c' /\ main n w = (Val (Jump 0x80000000 dtb_addr), w')).
Proof.
  intros H1 H2 Hw. split; [|intros Hroom n; by apply (main_jumps H1 H2 s)].
  intros code bs c' Ha Hb. split; [|by apply main_after].
  destruct Hb as [| |c1 h c2 code bs c' _ _ Hl]; auto. destruct Hl as [|? ? ? rc]; auto.
  destruct (rc =? 0); auto.
Qed.

(** C6: the search for the boot partition. For every behaviour [booting] allows the card: its result
    is 0 only when both table blocks and the image were read without error, -1 when the card did
    not initialise, -2 when a read failed; what the reads delivered is in memory from [dest]
    upwards, and no other memory than that and the three local buffers has changed. Whatever the
    card does, as long as no table it may deliver asks for an image that reaches the buffer of the
    copy ([room]), the search faults for no fuel, and when it returns, its result is that of such a
    behaviour; on a card whose polls never end it does not return. *)
Theorem gpt_find_boot_partition_result dest size (s : board C) :
  apart lba1_buf 512 -> apart lba2_buf 512 -> uart_ready s ->
  (forall code bs c', apart dest (Z.of_nat (length bs)) -> booting (b_card s) code bs c' ->
     awp at_board (gpt_find_boot_partition dest size) s (fun r s' =>
       r = code /\ b_card s' = c' /\ b_on s' = true
       /\ read_bytes (b_mem s') dest (length bs) = Some bs
       /\ frame dest (Z.of_nat (length bs)) (b_mem s) (b_mem s'))) /\
  (room dest (b_card s) -> forall n w, at_board s w ->
     fst (gpt_find_boot_partition dest size n w) = OutOfFuel \/
     exists code bs c' w', booting (b_card s) code bs c'
       /\ gpt_find_boot_partition dest size n w = (Val code, w')).
Proof.
  intros H1 H2 Hr. split.
  - intros code bs c' Ha Hb. eapply awp_mono; [by apply (awp_gpt H1 H2)|].
    intros r s' [-> (m & He & Hm & Hf)]. destruct (ended_state _ _ _ _ He) as (E1 & E2 & -> & _).
    by split_and!.
  - intros Hroom n w Hw. by apply (gpt_returns H1 H2 dest size s).
Qed.
End outcome.

(** A card that is busy for ever: it answers every byte with 1, but for the thirty-first, with
    which it confirms its interface. *)
Definition busy_card : Type := nat.

#[export] Instance busy_slave : SpiSlave busy_card.
Proof.
  refine {| xfer _ c := (match c with 1%nat => 0xaa | _ => 1 end, Nat.pred c); select _ c := c |}.
  by intros b [|[|c]].
Defined.

Definition busy_state : board busy_card := Board false (31%nat : busy_card) ∅ uart_reset.
Definition busy_world : world (sim busy_card) := World (Sim false [] (31%nat : busy_card) 0 0) ∅ [].

Lemma busy_init code cf : ¬ init_card (31%nat : busy_card) code cf.
Proof.
  assert (Ha : forall c r c', c = (0%nat : busy_card) -> ¬ acmd41 c r c').
  { intros c r c1 Ec Ha. induction Ha as [c r c1 Ht Hr|c c1 r c2 Ht _ IH]; subst.
    - vm_compute in Ht. congruence.
    - apply IH. vm_compute in Ht. congruence. }
  assert (E0 : (l_dummies 10 ;; l_cmd0 cmd0_attempts) (31%nat : busy_card) = (true, 12%nat)).
  { replace cmd0_attempts with (S (S (Z.to_nat 9998))) by (unfold cmd0_attempts; lia).
    assert (E1 : l_dummies 10 (31%nat : busy_card) = (tt, 21%nat)) by by vm_compute.
    rewrite (l_bind_eq _ _ _ _ _ E1).
    assert (E2 : l_cmd0_try (21%nat : busy_card) = (1, 12%nat)) by by vm_compute.
    by rewrite (l_cmd0_S _ _ _ _ E2). }
  assert (E8 : l_cmd8 (12%nat : busy_card) = (1, 0%nat)) by by vm_compute.
  intros Hi. inversion Hi as [c ? H|c c1 ? H H8|c c1 c2 r ? H H8 H41|c c1 c2 ? H H8 H41]; subst;
    rewrite E0 in H; simplify_eq; rewrite E8 in H8; simplify_eq; by eapply Ha.
Qed.

Lemma boot_loader_outcome_witness :
  (exists n0 w' s', at_board s' w' /\ loaded [] tt absent_state s' /\
     forall n, (n0 <= n)%nat -> main n absent_world = (OutOfFuel, w')) /\
  (forall n, fst (main n busy_world) = OutOfFuel).
Proof.
  split.
  - apply (boot_loader_outcome (D := sim unit) absent_state absent_world) with (code := -1).
    + by left.
    + by left.
    + by repeat split.
    + by left.
    + by eapply booting_no_card; [exact absent_init|].
  - intros n. destruct (boot_loader_outcome (D := sim busy_card) busy_state busy_world) as [_ H].
    + by left.
    + by left.
    + by repeat split.
    + destruct (H ltac:(split; [by left | by intros es (c1 & h & c2 & c3 & Hi & _); apply busy_init in Hi]) n)
        as [E|(bs & c' & w' & Hb & _)]; [exact E|].
      by destruct Hb as [code c1 Hi|c1 bs rc c1' Hi|c1 h c2 code bs c1' Hi]; apply busy_init in Hi.
Defined.

Lemma gpt_find_boot_partition_result_witness :
  awp at_board (gpt_find_boot_partition image_base 0) absent_state (fun r s' =>
      r = -1 /\ b_card s' = tt /\ b_on s' = true
      /\ read_bytes (b_mem s') image_base 0 = Some [] /\ frame image_base 0 ∅ (b_mem s')) /\
  (forall n, fst (gpt_find_boot_partition image_base 0 n busy_world) = OutOfFuel).
Proof.
  split.
  - apply (gpt_find_boot_partition_result (D := sim unit) image_base 0 absent_state)
      with (code := -1) (bs := []).
    + by left.
    + by left.
    + done.
    + by left.
    + by eapply booting_no_card; [exact absent_init|].
  - intros n. destruct (gpt_find_boot_partition_result (D := sim busy_card) image_base 0 busy_state) as [_ H].
    + by left.
    + by left.
    + done.
    + destruct (H ltac:(split; [by left | by intros es (c1 & h & c2 & c3 & Hi & _); apply busy_init in Hi])
        n busy_world ltac:(by repeat split)) as [E|(code & bs & c' & w' & Hb & _)]; [exact E|].
      by destruct Hb as [code c1 Hi|c1 bs rc c1' Hi|c1 h c2 code bs c1' Hi]; apply busy_init in Hi.
Defined.

Section every_run.
Context {D : Type} `{!Bus D, !Layout}.

(** C7: on every device and for every fuel, finished or not, the run of the boot loader hands a
    byte to the transmitter only right after a load of the line status register that showed the
    transmitter empty. *)
Theorem boot_loader_guards_transmitter (d : D) m n :
  thr_guarded (w_tr (snd (main n (World d m [])))).
Proof. apply (keeps_run guarded); [|done]. by eapply keeps_main. Qed.

(** C8: on every device, whatever it answers, and for every fuel, the boot loader stores to its
    three buffers and to the image area only; the image area is bounded by the width of the
    block count alone, because the size passed to the search is not used. *)
Theorem boot_loader_writes (d : D) m n k :
  ¬ boot_writes k -> w_mem (snd (main n (World d m []))) !! k = m !! k.
Proof.
  intros Hk. apply (keeps_run (unchanged boot_writes m)); [by eapply keeps_main | done | done].
Qed.

(** C9: on every device one call of [sd_copy] stores to its buffer and to
    [512 * max 1 size] bytes from the destination only: with size 0 one block. *)
Theorem sd_copy_writes (d : D) m n dst lba size k :
  ¬ in_range ff_buf 128 k -> ¬ in_range dst (512 * Z.max 1 size) k ->
  w_mem (snd (sd_copy dst lba size n (World d m []))) !! k = m !! k.
Proof.
  intros H1 H2.
  apply (keeps_run (unchanged (fun k => in_range ff_buf 128 k \/ in_range dst (512 * Z.max 1 size) k) m));
    [|done | tauto].
  eapply keeps_sd_copy; intros i Hi; [left | right]; unfold in_range; lia.
Qed.
End every_run.

Lemma boot_loader_writes_witness :
  w_mem (snd (main 1000%nat (World (Sim false [] tt 0 0 : sim unit) {[ 0x1000 := 7 ]} []))) !! 0x1000 = Some 7.
Proof.
  rewrite boot_loader_writes; [done|].
  unfold boot_writes, in_range, image_base. cbn [ff_buf lba1_buf lba2_buf ex_layout]. lia.
Defined.

Lemma sd_copy_writes_witness :
  w_mem (snd (sd_copy 0x80000000 5 2 1000%nat (World (Sim true [] tt 0 0 : sim unit) {[ 0x80000400 := 7 ]} [])))
    !! 0x80000400 = Some 7.
Proof. rewrite sd_copy_writes; [done | unfold in_range; cbn [ff_buf ex_layout]; lia..]. Defined.

(** * The SD card driver *)

Section sd.
Context {D C : Type} `{!Bus D, !SpiSlave C, !SpiController D C, !Console D, !Layout}.

(** C10: from a card that keeps its contract, [sd_copy] of [n > 0] blocks returns 0 and leaves
    exactly the blocks from [lba] on, in order, from the destination upwards. *)
Theorem sd_copy_copies `{!SdCard C} dst lba n (s : board C) :
  b_on s = true -> uart_ready s -> ready (b_card s) -> (0 < n)%nat ->
  0 <= lba -> lba + Z.of_nat n <= capacity (b_card s) -> apart dst (512 * Z.of_nat n) ->
  awp at_board (sd_copy dst lba (Z.of_nat n)) s (fun r s' =>
    r = 0 /\ read_bytes (b_mem s') dst (512 * n) = Some (blocks (disk (b_card s)) lba n)
    /\ ready (b_card s') /\ disk (b_card s') = disk (b_card s)).
Proof.
  intros Hon Hu Hr Hn Hlba Hcap Hap.
  destruct (card_reads n lba (b_card s) Hr Hn Hlba Hcap) as (c' & Hrd & Hr' & [Hd _]).
  assert (Hl : length (blocks (disk (b_card s)) lba n) = (512 * n)%nat)
    by (apply blocks_length; intros; apply disk_block).
  eapply awp_mono; [eapply awp_sd_reading; [done | done | rewrite Hl | exact Hrd]|].
  - by replace (Z.of_nat (512 * n)) with (512 * Z.of_nat n) by lia.
  - intros r s' [-> He]. destruct (ended_state _ _ _ _ He) as (_ & -> & -> & _).
    split_and!; [done | | done | done]. rewrite <- Hl. apply read_write_same.
Qed.

(** C11: a block in which two neighbouring bytes differ from the block its checksum was made for is
    noticed, wherever it comes in the transfer: after any number of good blocks, fewer than asked
    for, [sd_copy] stops the transmission there and returns -2; the good blocks and the bad one are
    in memory, and nothing after them has been read. *)
Theorem sd_copy_detects dst lba size (s : board C) c1 goods c2 c3 c4 pre x1 x2 y1 y2 post :
  b_on s = true -> uart_ready s -> apart dst (512 * (Z.of_nat (length goods) + 1)) ->
  l_cmd 18 lba (read_cmd_crc lba) (b_card s) = (0, c1) ->
  good_blocks c1 goods c2 -> Z.of_nat (length goods) < Z.max 1 size ->
  Forall is_byte (pre ++ [x1; x2] ++ post) -> (x1, x2) <> (y1, y2) ->
  delivers c2 (pre ++ [y1; y2] ++ post) (foldl crc16_ref 0 (pre ++ [x1; x2] ++ post)) c3 ->
  l_stop c3 = (tt, c4) ->
  awp at_board (sd_copy dst lba size) s (fun r s' =>
    r = SD_COPY_ERROR_CMD18_CRC /\ b_card s' = c4
    /\ b_mem s' = write_bytes dst (concat goods ++ pre ++ [y1; y2] ++ post) (ff_filled (b_mem s))).
Proof.
  intros Hon Hu Hap Hcmd Hg Hlt Hb Hne Hd Hst.
  pose proof (delivers_length _ _ _ _ Hd) as Hl. pose proof (delivers_bytes _ _ _ _ Hd) as Hby.
  assert (Hcrc : crc16_bytes 0 (pre ++ [y1; y2] ++ post) <> foldl crc16_ref 0 (pre ++ [x1; x2] ++ post)).
  { rewrite <- crc16_bytes_ref by done. intros E. apply crc16_pair_detected in E; [|done..].
    by injection E as <- <-. }
  eapply awp_mono.
  { eapply awp_sd_copy; [done | done | | exact Hcmd | by eapply transfer_corrupt | exact Hst].
    rewrite length_app, (good_blocks_length _ _ _ Hg), Hl. by eapply apart_le; [exact Hap | lia]. }
  intros r s' [-> He]. by destruct (ended_state _ _ _ _ He) as (_ & -> & -> & _).
Qed.

(** When the card answers anything but 0 to the read command, [sd_copy] stores nothing at the
    destination, clocks out eight bytes, prints one line and returns -1. *)
Theorem sd_copy_refusal dst lba size (s : board C) r0 c1 c2 :
  b_on s = true -> uart_ready s -> r0 <> 0 ->
  l_cmd 18 lba (read_cmd_crc lba) (b_card s) = (r0, c1) -> l_dummies 8 c1 = (tt, c2) ->
  awp at_board (sd_copy dst lba size) s (fun r s' =>
    r = SD_COPY_ERROR_CMD18
    /\ uv_sent (b_uart s') = uv_sent (b_uart s) ++ str ("could not read SD block" +:+ crlf)
    /\ b_mem s' = write_bytes ff_buf (replicate 128 0xff) (b_mem s) /\ b_card s' = c2).
Proof.
  intros Hon Hu Hr Hcmd Hd. eapply awp_mono; [by eapply (awp_sd_copy_refused dst lba size s r0)|].
  by intros r s' [-> ->].
Qed.

(** C12: [init_sd] enables the controller and returns the code of the first of CMD0, CMD8 and
    ACMD41 that does not succeed, 0 when all do; memory is untouched. *)
Theorem init_sd_result (s : board C) code c' :
  uart_ready s -> init_card (b_card s) code c' ->
  awp at_board init_sd s (fun r s' =>
    r = code /\ b_on s' = true /\ b_card s' = c' /\ b_mem s' = b_mem s /\ uart_ready s').
Proof.
  intros Hu Hi. eapply awp_mono; [by apply awp_init_sd|]. intros r s' [-> Hm].
  split_and!; [done | by rewrite (moved_on _ _ _ Hm) | by rewrite (moved_card _ _ _ Hm) | |].
  - by destruct Hm as [out ->].
  - by eapply moved_ready.
Qed.

(** [sd_cmd0] succeeds exactly when the card answers 1 to one of the first 9999 attempts; the
    ten-thousandth is made, but its answer does not count. *)
Theorem sd_cmd0_attempts (s : board C) :
  b_on s = true -> uart_ready s ->
  awp at_board sd_cmd0 s (fun r _ =>
    (r = 0 \/ r = 1) /\ (r = 1 <-> exists k, (k < Z.to_nat 9999)%nat /\ cmd0_answer k (b_card s) = 1)).
Proof.
  intros Hon Hu. eapply awp_mono; [by apply awp_sd_cmd0|]. intros r s' [-> _].
  rewrite <- l_cmd0_answers.
  replace (S (Z.to_nat 9999)) with cmd0_attempts by (unfold cmd0_attempts; lia).
  destruct (fst (l_cmd0 _ _)); cbn; split; auto; done.
Qed.

(** [sd_cmd] puts a filler byte and the six bytes of the command frame on the wire, argument
    most significant byte first, and then polls at most a hundred times: the result is the first
    byte with bit 7 clear, or the last byte polled when there is none. *)
Theorem sd_cmd_frame cmd arg crc (s : board C) :
  0 <= cmd < 64 -> 0 <= arg < 2 ^ 32 -> is_byte crc -> b_on s = true ->
  awp at_board (sd_cmd cmd arg crc) s (fun r s' =>
    let c := after_bytes (0xff :: frame_of cmd arg crc) (b_card s) in
    exists k, (k < 100)%nat /\ r = poll_answer k c /\ s' = set_card (polled (S k) c) s
      /\ (forall j, (j < k)%nat -> Z.testbit (poll_answer j c) 7 = true)
      /\ (Z.testbit r 7 = true -> k = 99%nat)).
Proof.
  intros Hc Ha Hcrc Hon. eapply awp_mono; [by apply refines_cmd|].
  intros r s'. rewrite l_cmd_frame by done. intros [-> ->].
  destruct (l_response_first 99 (after_bytes (0xff :: frame_of cmd arg crc) (b_card s)))
    as (k & Hk & El & Hj & Hl).
  exists k. rewrite El. cbn [fst snd]. split_and!; [lia | done | done | exact Hj | exact Hl].
Qed.
End sd.

Definition ex_ready : sim_card := sim_of ex_disk 1000 SimReady.

Lemma sd_copy_copies_witness :
  awp at_board (sd_copy 0x80000000 40 (Z.of_nat 2)) (ex_state true ex_ready ∅) (fun r s' =>
      r = 0 /\ read_bytes (b_mem s') 0x80000000 (512 * 2) = Some (blocks (disk ex_ready) 40 2)
      /\ ready (b_card s') /\ disk (b_card s') = disk ex_ready).
Proof.
  apply (sd_copy_copies (D := sim sim_card) 0x80000000 40 2 (ex_state true ex_ready ∅)); try done.
  - lia.
  - by left.
Defined.

(** A card that plays a tape. *)
#[export] Instance tape_slave : SpiSlave (list Z).
Proof.
  refine {| xfer _ c := (u8 (hd 0xff c), tl c); select _ c := c |}. intros b c. apply u8_byte.
Defined.

(** Two blocks of zeros; bytes 200 and 201 of the second arrive changed. *)
Definition ex_tape : list Z :=
  replicate 7 0xff ++ [0x00; SD_DATA_TOKEN] ++ replicate 512 0 ++ [0; 0]
  ++ [0xff; SD_DATA_TOKEN] ++ (replicate 200 0 ++ [3; 5] ++ replicate 310 0) ++ [0; 0]
  ++ replicate 7 0xff ++ [0x00; 0xff].

Definition tape_state (on : bool) (c : list Z) : board (list Z) := Board on c ∅ uart_reset.

Lemma sd_copy_detects_witness :
  awp at_board (sd_copy 0x80000000 40 3) (tape_state true ex_tape) (fun r s' =>
      r = SD_COPY_ERROR_CMD18_CRC /\ b_card s' = []
      /\ b_mem s' = write_bytes 0x80000000
           (concat [replicate 512 0] ++ replicate 200 0 ++ [3; 5] ++ replicate 310 0) (ff_filled ∅)).
Proof.
  apply (sd_copy_detects (D := sim (list Z)) 0x80000000 40 3 (tape_state true ex_tape)
    (drop 8 ex_tape) [replicate 512 0] (drop 523 ex_tape) (drop 1039 ex_tape) []
    (replicate 200 0) 0 0 3 5 (replicate 310 0)).
  - done.
  - done.
  - by left.
  - by vm_compute.
  - eapply good_more; [|apply good_none]. exists (drop 9 ex_tape). split; [|by vm_compute].
    apply token_here. by vm_compute.
  - done.
  - apply Forall_app_2; [by apply Forall_replicate|].
    do 2 (apply Forall_cons_2; [done|]). by apply Forall_replicate.
  - done.
  - exists (drop 525 ex_tape). split; [|by vm_compute].
    eapply token_later; [vm_compute; reflexivity | done|].
    apply token_here. by vm_compute.
  - by vm_compute.
Defined.

Lemma sd_copy_refusal_witness :
  exists c2, awp at_board (sd_copy 0x80000000 40 2) (ex_state true ex_card ∅) (fun r s' =>
      r = SD_COPY_ERROR_CMD18
      /\ uv_sent (b_uart s') = [] ++ str ("could not read SD block" +:+ crlf)
      /\ b_mem s' = write_bytes ff_buf (replicate 128 0xff) ∅ /\ b_card s' = c2).
Proof.
  eexists. eapply (sd_copy_refusal (D := sim sim_card) 0x80000000 40 2 (ex_state true ex_card ∅) 5);
    [done | done | done | vm_compute; reflexivity | vm_compute; reflexivity].
Defined.

Lemma init_sd_result_witness :
  awp at_board init_sd (ex_state false (sim_of ex_disk 1000 SimOff) ∅) (fun r s' =>
      r = 0 /\ b_on s' = true /\ b_card s' = ex_ready /\ b_mem s' = ∅ /\ uart_ready s').
Proof.
  apply (init_sd_result (D := sim sim_card) (ex_state false ex_card ∅) 0 ex_ready); [done|].
  destruct (sim_reset ex_disk 1000) as [E1 E2].
  apply (init_done _ (sim_of ex_disk 1000 (SimIdle 2)) (sim_of ex_disk 1000 (SimIdle 2))).
  - rewrite (l_bind_eq _ _ _ _ _ E1).
    replace cmd0_attempts with (S (S (Z.to_nat 9998))) by (unfold cmd0_attempts; lia).
    by rewrite (l_cmd0_S _ _ _ _ E2).
  - apply sim_voltage.
  - eapply acmd41_again; [apply sim_busy|]. eapply acmd41_again; [apply sim_busy|].
    by apply acmd41_stop; [apply sim_init|].
Defined.

Lemma sd_cmd0_attempts_witness :
  awp at_board sd_cmd0 (ex_state true ex_card ∅) (fun r _ =>
      (r = 0 \/ r = 1) /\ (r = 1 <-> exists k, (k < Z.to_nat 9999)%nat /\ cmd0_answer k ex_card = 1)).
Proof. by apply (sd_cmd0_attempts (D := sim sim_card) (ex_state true ex_card ∅)). Defined.

Lemma sd_cmd_frame_witness :
  awp at_board (sd_cmd 18 40 1) (ex_state true ex_ready ∅) (fun r s' =>
      let c := after_bytes (0xff :: frame_of 18 40 1) ex_ready in
      exists k, (k < 100)%nat /\ r = poll_answer k c /\ s' = set_card (polled (S k) c) (ex_state true ex_ready ∅)
        /\ (forall j, (j < k)%nat -> Z.testbit (poll_answer j c) 7 = true)
        /\ (Z.testbit r 7 = true -> k = 99%nat)).
Proof. by apply (sd_cmd_frame (D := sim sim_card) 18 40 1 (ex_state true ex_ready ∅)). Defined.

(** * The checksums *)

(** C13: over any list of bytes, and from any start, [crc16] computes the remainder modulo
    x^16 + x^12 + x^5 + 1, bit by bit, as the card does. *)
Theorem crc16_is_ccitt crc bs :
  0 <= crc < 2 ^ 16 -> Forall is_byte bs -> crc16_bytes crc bs = foldl crc16_ref crc bs.
Proof. apply crc16_bytes_ref. Qed.

Lemma crc16_is_ccitt_witness :
  crc16_bytes 0 (str "123456789") = foldl crc16_ref 0 (str "123456789")
  /\ crc16_bytes 0 (str "123456789") = 0x31c3.
Proof. split; [apply (crc16_is_ccitt 0 (str "123456789")); [done | apply str_bytes] | by vm_compute]. Defined.

(** The checksum byte of a command frame, by the polynomial x^7 + x^3 + 1. *)
Definition command_crc (cmd arg : Z) : Z :=
  2 * foldl crc7_ref 0 [0x40 + cmd; arg / 2 ^ 24; (arg / 2 ^ 16) mod 256; (arg / 2 ^ 8) mod 256; arg mod 256] + 1.

(** The checksums of the commands: the constants the initialisation sends with CMD0, CMD8,
    CMD55 and ACMD41 are those of the polynomial the comment of [crc7] names, but the checksum
    computed for the read command is 1 whatever the block, and so is wrong for the first block. *)
Theorem command_checksums :
  command_crc 0 0 = 0x95 /\ command_crc 8 0x1aa = 0x87 /\ command_crc 55 0 = 0x65
  /\ command_crc 41 0x40000000 = 0x77
  /\ (forall lba, read_cmd_crc lba = 1) /\ command_crc SD_CMD_READ_BLOCK_MULTIPLE 1 <> read_cmd_crc 1.
Proof. split_and!; by vm_compute. Qed.

(** * The SPI driver *)

Section spi.
Context {D C : Type} `{!Bus D, !SpiSlave C, !SpiController D C, !Console D}.

(** [spi_txrx] returns the byte the slave answers to the one sent, inside one assertion of the
    slave select, and leaves the controller enabled with nothing left to read. *)
Theorem spi_txrx_exchange b (s : board C) :
  is_byte b -> b_on s = true ->
  awp at_board (spi_txrx b) s (fun r s' =>
    let x := xfer b (select 0xfffffffe (b_card s)) in
    r = fst x /\ s' = set_card (select 0xffffffff (snd x)) s).
Proof.
  intros Hb Hon. eapply awp_mono; [by apply awp_spi_txrx|]. unfold link_txrx. intros r s'.
  by destruct (xfer b (select 0xfffffffe (b_card s))).
Qed.

(** C40: [spi_write_bytes] of 1 to 256 bytes returns 0, exchanges them in order inside one assertion
    of the slave select, and stores the answers, as many as were sent, at [ret]; the slave sees
    what the same bytes would do sent one after the other. *)
Theorem spi_write_bytes_exchange bytes bs ret (s : board C) :
  b_on s = true -> Forall is_byte bs -> (1 <= length bs <= 256)%nat ->
  read_bytes (b_mem s) bytes (length bs) = Some bs ->
  awp at_board (spi_write_bytes bytes (Z.of_nat (length bs)) ret) s (fun r s' =>
    let x := xfers bs (select 0xfffffffe (b_card s)) in
    r = 0 /\ b_card s' = select 0xffffffff (snd x) /\ length (fst x) = length bs
    /\ b_mem s' = write_bytes ret (fst x) (b_mem s) /\ b_uart s' = b_uart s).
Proof.
  intros Hon Hb Hl Hm. eapply awp_mono; [by apply awp_spi_write_bytes|]. intros r s' [-> ->].
  pose proof (xfers_length bs (select 0xfffffffe (b_card s))) as Hx. unfold link_burst.
  by destruct (xfers bs (select 0xfffffffe (b_card s))).
Qed.

(** A burst longer than the FIFO is refused: -1, with no access to any device. *)
Theorem spi_write_bytes_refuses bytes len ret n (w : world D) :
  256 < len -> spi_write_bytes bytes len ret n w = (Val (-1), w).
Proof. apply spi_write_bytes_too_long. Qed.
End spi.

Lemma spi_txrx_exchange_witness :
  awp at_board (spi_txrx 0xff) (tape_state true [7; 8]) (fun r s' => r = 7 /\ s' = tape_state true [8]).
Proof.
  eapply awp_mono; [by apply (spi_txrx_exchange (D := sim (list Z)) 0xff (tape_state true [7; 8]))|].
  by intros r s' [-> ->].
Defined.

Lemma spi_write_bytes_exchange_witness :
  awp at_board (spi_write_bytes 0x100 (Z.of_nat 3) 0x200)
    (Board true [7; 8; 9; 10] (write_bytes 0x100 [1; 2; 3] ∅) uart_reset) (fun r s' =>
      r = 0 /\ b_card s' = [10] /\ length [7; 8; 9] = 3%nat
      /\ b_mem s' = write_bytes 0x200 [7; 8; 9] (write_bytes 0x100 [1; 2; 3] ∅) /\ b_uart s' = uart_reset).
Proof.
  eapply awp_mono.
  { apply (spi_write_bytes_exchange (D := sim (list Z)) 0x100 [1; 2; 3] 0x200
      (Board true [7; 8; 9; 10] (write_bytes 0x100 [1; 2; 3] ∅) uart_reset));
      [done | by repeat constructor | cbn; lia | by vm_compute]. }
  intros r s' (-> & H2 & H3 & H4 & H5). by rewrite H2, H4, H5.
Defined.

Lemma spi_write_bytes_refuses_witness :
  spi_write_bytes 0 257 0 5%nat absent_world = (Val (-1), absent_world).
Proof. by apply (spi_write_bytes_refuses (D := sim unit)). Defined.

(** * The console *)

Section uart.
Context `{!Bus D, !UartMap, !UartMapOk _} {S : Type} {R : S -> world D -> Prop} `{!UartHost R}.

(** [init_uart] sets eight data bits, no parity, one stop bit, FIFOs on, interrupts off, and
    a divisor of [freq / (16 * baud)] when that fits its sixteen bits. *)
Theorem init_uart_configures freq baud (s : S) :
  0 < 16 * baud < 2 ^ 32 -> 0 <= freq / (16 * baud) < 2 ^ 16 -> dlab (uh_view s) = false ->
  awp R (init_uart freq baud) s (fun _ s' =>
    let u := uh_view s' in
    divisor u = freq / (16 * baud) /\ uv_lcr u = 0x03 /\ uv_fcr u = 0xC7 /\ uv_ier u = 0
    /\ uv_mcr u = 0x20 /\ uv_sent u = uv_sent (uh_view s)).
Proof.
  intros Hb Hd Hl.
  assert (E : u32 (Z.shiftl baud 4) = 16 * baud)
    by (rewrite Z.shiftl_mul_pow2 by lia; rewrite u32_small; lia).
  eapply awp_mono; [apply awp_init_uart; rewrite E; lia|]. rewrite E. intros _ s' ->.
  rewrite uh_view_set. unfold uart_configured, divisor, u8. rewrite Hl.
  cbn [uv_dll uv_dlm uv_lcr uv_fcr uv_ier uv_mcr uv_sent].
  split_and!; try done. rewrite (Z.mod_small (_ / 256)) by divlia. divlia.
Qed.

(** With a baud rate that is a multiple of 2^28 the division of [init_uart] is by zero: the
    call has no defined behaviour, and touches no register before. *)
Theorem init_uart_faults freq k n w :
  init_uart freq (k * 2 ^ 28) n w = (Fault, w).
Proof.
  unfold init_uart. replace (u32 (Z.shiftl (k * 2 ^ 28) 4)) with 0; [done|].
  rewrite Z.shiftl_mul_pow2 by lia. unfold u32.
  replace (k * 2 ^ 28 * 2 ^ 4) with (k * 2 ^ 32) by lia. symmetry. apply Z.mod_mul. lia.
Qed.

(** [print_uart_addr] sends sixteen hexadecimal digits, most significant first, that read
    back as the 64-bit value given. *)
Theorem print_uart_addr_reads_back v (s : S) :
  uart_ready s -> 0 <= v < 2 ^ 64 ->
  awp R (print_uart_addr v) s (fun _ s' => exists txt,
    s' = put txt s /\ length txt = 16%nat /\ parse_hex txt = v).
Proof.
  intros Hs Hv. eapply awp_mono; [by apply sends_print_uart_addr|]. intros _ s' ->.
  exists (hex_be 8 v). split_and!; [done | apply hex_be_length |].
  unfold parse_hex. rewrite parse_hex_from. apply Z.mod_small. exact Hv.
Qed.

(** [print_uart] sends the characters of the string up to its first NUL, in order. *)
Theorem print_uart_sends t (s : S) :
  uart_ready s -> awp R (print_uart t) s (fun _ s' => s' = put (until_nul (str t)) s).
Proof. intros Hs. by apply sends_print_uart_nul. Qed.
End uart.

Lemma init_uart_configures_witness :
  awp at_board (init_uart 50000000 115200) absent_state (fun _ s' =>
      let u := uh_view s' in
      divisor u = 27 /\ uv_lcr u = 0x03 /\ uv_fcr u = 0xC7 /\ uv_ier u = 0
      /\ uv_mcr u = 0x20 /\ uv_sent u = []).
Proof.
  eapply awp_mono; [by apply (init_uart_configures (R := at_board (D := sim unit)) 50000000 115200 absent_state)|].
  by intros [] s'.
Defined.

Lemma print_uart_addr_reads_back_witness :
  awp at_board (print_uart_addr 0x80000000) absent_state (fun _ s' => exists txt,
      s' = put txt absent_state /\ length txt = 16%nat /\ parse_hex txt = 0x80000000).
Proof. by apply (print_uart_addr_reads_back (R := at_board (D := sim unit)) 0x80000000 absent_state). Defined.

Lemma print_uart_sends_witness :
  awp at_board (print_uart "hi") absent_state (fun _ s' => s' = put [104; 105] absent_state).
Proof.
  eapply awp_mono; [by apply (print_uart_sends (R := at_board (D := sim unit)) "hi" absent_state)|].
  by intros [] s' ->.
Defined.

(** * The partition table *)

(** The offsets the compiler gives the members of the two structures are those of the UEFI
    partition table, and an entry takes 128 bytes, the step of the loop over the entries. *)
Theorem gpt_layout :
  offsets gpt_pth_layout = [0; 8; 12; 16; 20; 24; 32; 40; 48; 56; 72; 80; 84; 88]%nat
  /\ offsets partition_entries_layout = [0; 16; 32; 40; 48; 56]%nat
  /\ sizeof partition_entries_layout = 128%nat /\ sizeof gpt_pth_layout = 96%nat.
Proof. by vm_compute. Qed.

(** Reading the header back from a block that starts with its bytes gives the header, and the
    bytes of the header read from a block are the first 92 of the block. *)
Theorem gpt_header_roundtrip h r bs :
  pth_wf h -> Forall is_byte bs -> (92 <= length bs)%nat ->
  pth_of (pth_bytes h ++ r) = h /\ pth_bytes (pth_of bs) = take 92 bs.
Proof. intros Hh Hb Hl. split; [by apply pth_of_bytes | by apply pth_bytes_of]. Qed.

(** The same for the 128 bytes of an entry. *)
Theorem gpt_entry_roundtrip e r bs :
  entry_wf e -> Forall is_byte bs -> (128 <= length bs)%nat ->
  entry_of (entry_bytes e ++ r) = e /\ entry_bytes (entry_of bs) = take 128 bs.
Proof. intros He Hb Hl. split; [by apply entry_of_bytes | by apply entry_bytes_of]. Qed.

Lemma gpt_header_roundtrip_witness :
  pth_of (pth_bytes ex_header ++ [1; 2]) = ex_header
  /\ pth_bytes (pth_of (replicate 92 5)) = take 92 (replicate 92 5).
Proof.
  apply gpt_header_roundtrip;
    [split_and!; [by repeat constructor.. | done] | by apply Forall_replicate | by vm_compute].
Defined.

Lemma gpt_entry_roundtrip_witness :
  entry_of (entry_bytes ex_entry ++ []) = ex_entry
  /\ entry_bytes (entry_of (replicate 128 5)) = take 128 (replicate 128 5).
Proof.
  apply gpt_entry_roundtrip;
    [split_and!; [by repeat constructor | done..] | by apply Forall_replicate | by vm_compute].
Defined.

Section report.
Context {D C : Type} `{!Bus D, !SpiSlave C, !SpiController D C, !Console D, !Layout}.

(** C14: what the boot loader prints of a table held in memory is the table: the header's fields
    and the four entries, each as the hexadecimal text of the value at its UEFI offset. *)
Theorem gpt_report a1 h a2 es (s : board C) :
  uart_ready s -> read_bytes (b_mem s) a1 512 = Some h -> read_bytes (b_mem s) a2 512 = Some es ->
  Forall is_byte es ->
  awp at_board (print_pth a1 ;; for_in (below 4) (fun i => print_entry a2 i)) s
    (fun _ s' => s' = put (pth_text (pth_of h) ++ entries_text es) s).
Proof.
  intros Hs H1 H2 Hb. wp_seq. eapply awp_mono; [by apply (prints_pth a1 h)|]. intros _ s1 ->.
  eapply awp_mono; [apply (prints_entries a2 es); [done | by eapply read_bytes_length | by apply ready_put | exact H2]|].
  intros _ s2 ->. by rewrite put_put.
Qed.
End report.

Definition ex_table : gmap Z Z :=
  write_bytes 0x1000 (sim_block ex_card 1) (write_bytes 0x2000 (sim_block ex_card 2) ∅).

Lemma gpt_report_witness :
  awp at_board (print_pth 0x1000 ;; for_in (below 4) (fun i => print_entry 0x2000 i))
    (ex_state true ex_ready ex_table)
    (fun _ s' => s' = put (pth_text (pth_of (sim_block ex_card 1)) ++ entries_text (sim_block ex_card 2))
                          (ex_state true ex_ready ex_table)).
Proof.
  apply (gpt_report (D := sim sim_card) 0x1000 (sim_block ex_card 1) 0x2000 (sim_block ex_card 2)
    (ex_state true ex_ready ex_table)).
  - done.
  - by vm_compute.
  - by vm_compute.
  - apply sim_block_spec.
Defined.
