(* ===== verification/PitonUart.v ===== *)
(** The serial console of the OpenPiton boot loader ([openpiton/bootrom/linux/src/uart.c]): byte-wide
    registers, print functions that count what they send, and decimal numbers. The register
    accesses are those of [Uart]. *)
From S2P Require Import Prelude Machine Uart.

(** * Registers *)

(** [uart.h]. *)
Definition UART_BASE : Z := 0xFFF0C2C000.

#[export] Instance piton_uart : UartMap := {
  UART_THR := UART_BASE + 0;
  UART_INTERRUPT_ENABLE := UART_BASE + 1;
  UART_FIFO_CONTROL := UART_BASE + 2;
  UART_LINE_CONTROL := UART_BASE + 3;
  UART_MODEM_CONTROL := UART_BASE + 4;
  UART_LINE_STATUS := UART_BASE + 5;
  UART_DLAB_LSB := UART_BASE + 0;
  UART_DLAB_MSB := UART_BASE + 1
}.

#[export] Instance piton_uart_ok : UartMapOk piton_uart.
Proof. split; [|reflexivity..]. by apply (bool_decide_unpack _). Qed.

(** * The driver *)

Section driver.
Context `{!Bus D}.

Definition init_uart (freq baud : Z) : M D unit :=
  let d := u32 (Z.shiftl baud 4) in
  if d =? 0 then fault else
  let divisor := freq / d in
  write_reg_u8 UART_INTERRUPT_ENABLE 0x00 ;;
  write_reg_u8 UART_LINE_CONTROL 0x80 ;;
  write_reg_u8 UART_DLAB_LSB divisor ;;
  write_reg_u8 UART_DLAB_MSB (Z.land (Z.shiftr divisor 8) 0xFF) ;;
  write_reg_u8 UART_LINE_CONTROL 0x03 ;;
  write_reg_u8 UART_MODEM_CONTROL 0x20.

(** [++num] on an [int]: past its largest value the program is undefined. *)
Definition int_incr (num : Z) : M D Z := if num =? 2 ^ 31 - 1 then fault else mret (num + 1).

Fixpoint print_uart_from (cur : string) (num : Z) : M D Z :=
  match cur with
  | EmptyString => mret num
  | String c cur =>
      if code c =? 0 then mret num
      else write_serial (code c) ;; num ← int_incr num; print_uart_from cur num
  end.

Definition print_uart (s : string) : M D Z := print_uart_from s 0.

(** One turn of the loop of [print_uart_dec], on [num], [val], [digits] and [k]. *)
Definition dec_body (i : Z) (st : Z * Z * Z * Z) : M D (Z * Z * Z * Z) :=
  let '(num, val, digits, k) := st in
  let cur := val / k in
  let val := u32 (val - u32 (cur * k)) in
  let k := k / 10 in
  if negb (cur =? 0) || (i <? digits) then
    let digits := i in
    let dec := nth (Z.to_nat (Z.land cur 0xf)) bin_to_hex_table 0 in
    write_serial dec ;;
    num ← int_incr num;
    mret (num, val, digits, k)
  else mret (num, val, digits, k).

Definition print_uart_dec (val digits : Z) : M D Z :=
  st ← fold_in [9; 8; 7; 6; 5; 4; 3; 2; 1; 0] dec_body (0, val, digits, 1000000000);
  let '(num, _, _, _) := st in mret num.

Definition print_uart_int (addr : Z) : M D Z :=
  for_in [3; 2; 1; 0] (fun i =>
    let cur := Z.land (Z.shiftr addr (i * 8)) 0xff in
    let hex := bin_to_hex cur in
    write_serial (fst hex) ;; write_serial (snd hex)) ;;
  mret 8.

Definition print_uart_addr (addr : Z) : M D Z :=
  for_in [7; 6; 5; 4; 3; 2; 1; 0] (fun i =>
    let cur := Z.land (Z.shiftr addr (i * 8)) 0xff in
    let hex := bin_to_hex cur in
    write_serial (fst hex) ;; write_serial (snd hex)) ;;
  mret 16.

Definition print_uart_byte (byte : Z) : M D Z :=
  let hex := bin_to_hex byte in
  write_serial (fst hex) ;; write_serial (snd hex) ;; mret 2.
End driver.

(** * Decimal text *)

(** The [n] low decimal digits of [v], most significant first. *)
Fixpoint dec_digits (n : nat) (v : Z) : list Z :=
  match n with
  | O => []
  | S n => 48 + (v / 10 ^ Z.of_nat n) mod 10 :: dec_digits n v
  end.

(** How many of the [n] low digits are left without the leading zeros. *)
Fixpoint dec_len (n : nat) (v : Z) : nat :=
  match n with
  | O => 0
  | S n => if 10 ^ Z.of_nat n <=? v then S n else dec_len n v
  end.

(** The text of a 32-bit number, filled with zeros up to [digits] digits. *)
Definition dec_width (digits v : Z) : nat := Nat.max (Z.to_nat (Z.min digits 10)) (dec_len 10 v).
Definition dec_text (digits v : Z) : list Z := dec_digits (dec_width digits v) v.

(** Reading decimal text. *)
Definition parse_dec (l : list Z) : Z := foldl (fun a c => 10 * a + (c - 48)) 0 l.

Lemma dec_digits_length n v : length (dec_digits n v) = n.
Proof. induction n; cbn; auto. Qed.

Lemma parse_dec_from n v a :
  foldl (fun a c => 10 * a + (c - 48)) a (dec_digits n v) =
    a * 10 ^ Z.of_nat n + v mod 10 ^ Z.of_nat n.
Proof.
  revert a. induction n as [|n IH]; intros a.
  - cbn. rewrite Z.mod_1_r. lia.
  - cbn [dec_digits foldl]. rewrite IH, Nat2Z.inj_succ, Z.pow_succ_r by lia.
    rewrite (Z.mul_comm 10 (10 ^ _)), (Z.rem_mul_r v) by lia. nia.
Qed.

Lemma dec_digits_ascii n v : Forall (fun c => 48 <= c <= 57) (dec_digits n v).
Proof.
  induction n as [|n IH]; cbn [dec_digits]; constructor; [|done].
  pose proof (Z.mod_pos_bound (v / 10 ^ Z.of_nat n) 10). lia.
Qed.

(** Digit [i] is below the length exactly when the number reaches [10 ^ i]. *)
Lemma dec_len_le n v : (dec_len n v <= n)%nat.
Proof. induction n; cbn; [lia|]. destruct (_ <=? _); lia. Qed.

Lemma dec_len_spec n v i : (i < n)%nat -> ((i < dec_len n v)%nat <-> 10 ^ Z.of_nat i <= v).
Proof.
  induction n as [|n IH]; intros Hi; [lia|]. cbn [dec_len].
  destruct (Z.leb_spec (10 ^ Z.of_nat n) v) as [Hv|Hv].
  - split; [intros _|lia]. pose proof (Z.pow_le_mono_r 10 (Z.of_nat i) (Z.of_nat n)). lia.
  - destruct (decide (i = n)) as [->|Hne]; [|apply IH; lia].
    pose proof (dec_len_le n v). lia.
Qed.

Lemma dec_width_le digits v : (dec_width digits v <= 10)%nat.
Proof. unfold dec_width. pose proof (dec_len_le 10 v). lia. Qed.

Lemma dec_width_spec digits v i :
  0 <= i < 10 -> ((Z.to_nat i < dec_width digits v)%nat <-> i < digits \/ 10 ^ i <= v).
Proof.
  intros Hi. unfold dec_width. pose proof (dec_len_spec 10 v (Z.to_nat i)) as H.
  rewrite Z2Nat.id in H by lia. lia.
Qed.

Lemma dec_bound v : 0 <= v < 2 ^ 32 -> 0 <= v < 10 ^ 10.
Proof. lia. Qed.

Lemma parse_dec_text digits v : 0 <= v < 2 ^ 32 -> parse_dec (dec_text digits v) = v.
Proof.
  intros Hv. unfold parse_dec, dec_text. rewrite parse_dec_from. cbn. apply Z.mod_small.
  split; [lia|]. set (w := dec_width digits v).
  destruct (decide (w = 10)%nat) as [->|Hne]; [change (10 ^ Z.of_nat 10) with 10000000000; lia|].
  pose proof (dec_width_le digits v). pose proof (dec_width_spec digits v (Z.of_nat w)) as Hs.
  fold w in Hs. rewrite Nat2Z.id in Hs. lia.
Qed.

Lemma dec_digits_lookup n v k :
  (k < n)%nat ->
  dec_digits n v !! k = Some (48 + (v / 10 ^ Z.of_nat (n - 1 - k)) mod 10).
Proof.
  revert k. induction n as [|n IH]; intros k Hk; [lia|]. cbn [dec_digits].
  destruct k as [|k]; cbn [lookup list_lookup].
  - by replace (S n - 1 - 0)%nat with n by lia.
  - rewrite IH by lia. by replace (n - 1 - k)%nat with (S n - 1 - S k)%nat by lia.
Qed.

(** The top digit of what is left of a number. *)
Lemma top_digit v j :
  (v mod 10 ^ Z.of_nat (S j)) / 10 ^ Z.of_nat j = (v / 10 ^ Z.of_nat j) mod 10
  /\ v mod 10 ^ Z.of_nat (S j) - (v / 10 ^ Z.of_nat j) mod 10 * 10 ^ Z.of_nat j
     = v mod 10 ^ Z.of_nat j.
Proof.
  rewrite Nat2Z.inj_succ, Z.pow_succ_r by lia. set (t := 10 ^ Z.of_nat j).
  assert (Ht : 0 < t) by (apply Z.pow_pos_nonneg; lia).
  rewrite (Z.mul_comm 10 t), (Z.rem_mul_r v) by lia.
  pose proof (Z.mod_pos_bound v t Ht). split; [|lia].
  rewrite (Z.mul_comm t), Z.div_add by lia. rewrite Z.div_small by lia. lia.
Qed.

(** * What the driver sends *)

Section specs.
Context `{!Bus D} {S : Type} {R : S -> world D -> Prop} `{!UartHost R}.

(** Output as one step: the statement sends [bs] and returns their number. *)
Definition counts (m : M D Z) (bs : list Z) : Prop :=
  forall s, uart_ready s -> awp R m s (fun r s' => r = Z.of_nat (length bs) /\ s' = put bs s).

Lemma awp_int_incr n s (Q : Z -> S -> Prop) : n < 2 ^ 31 - 1 -> Q (n + 1) s -> awp R (int_incr n) s Q.
Proof.
  intros Hn HQ. unfold int_incr. destruct (Z.eqb_spec n (2 ^ 31 - 1)); [lia|]. by apply awp_ret.
Qed.

Lemma awp_print_uart_from t num s :
  uart_ready s -> num + Z.of_nat (length (until_nul (str t))) < 2 ^ 31 ->
  awp R (print_uart_from t num) s (fun r s' =>
    r = num + Z.of_nat (length (until_nul (str t))) /\ s' = put (until_nul (str t)) s).
Proof.
  revert num s. induction t as [|c t IH]; intros num s Hr Hn; cbn in *.
  { apply awp_ret. rewrite put_nil. split; [lia | done]. }
  destruct (code c =? 0); cbn in *.
  { apply awp_ret. rewrite put_nil. split; [lia | done]. }
  wp_seq. apply awp_write_serial; [done | apply code_byte|].
  wp_seq. apply awp_int_incr; [lia|].
  eapply awp_mono; [apply IH; [by apply ready_put | lia]|].
  intros r s' [-> ->]. rewrite put_put. split; [lia | done].
Qed.

Lemma counts_print_uart_nul t :
  Z.of_nat (String.length t) < 2 ^ 31 -> counts (print_uart t) (until_nul (str t)).
Proof.
  intros Ht s Hs. apply awp_print_uart_from; [done|].
  enough (length (until_nul (str t)) <= String.length t)%nat by lia.
  rewrite <- str_length. induction (str t) as [|c l IH]; cbn; [lia|]. destruct (c =? 0); cbn; lia.
Qed.

Lemma until_nul_id l : 0 ∉ l -> until_nul l = l.
Proof.
  induction l as [|c l IH]; intros Hl; cbn; [done|].
  destruct (Z.eqb_spec c 0) as [->|_]; [set_solver|]. f_equal. set_solver.
Qed.

Lemma counts_print_uart t :
  (0 ∉ str t) /\ Z.of_nat (String.length t) < 2 ^ 31 -> counts (print_uart t) (str t).
Proof. intros [H0 Ht]. rewrite <- (until_nul_id (str t)) by done. by apply counts_print_uart_nul. Qed.

(** ** Hexadecimal numbers *)

Lemma counts_hex m v n :
  sends (R := R) m (hex_be n v) -> counts (m ;; mret (Z.of_nat (2 * n))) (hex_be n v).
Proof.
  intros Hm s Hs. wp_seq. eapply awp_mono; [by apply Hm|]. intros [] s' ->.
  apply awp_ret. by rewrite hex_be_length.
Qed.

Lemma counts_print_uart_int v : counts (print_uart_int v) (hex_be 4 v).
Proof. exact (counts_hex _ v 4 (sends_print_uart_int v)). Qed.

Lemma counts_print_uart_addr v : counts (print_uart_addr v) (hex_be 8 v).
Proof. exact (counts_hex _ v 8 (sends_print_uart_addr v)). Qed.

Lemma counts_print_uart_byte b : is_byte b -> counts (print_uart_byte b) (hex_be 1 b).
Proof.
  intros Hb s Hs. unfold print_uart_byte, is_byte in *. rewrite bin_to_hex_digits by done.
  cbn [fst snd hex_be length]. rewrite Z.div_1_r, (Z.mod_small b 256) by lia.
  wp_seq. apply awp_write_serial; [done | apply hex_digit_byte; divlia|].
  wp_seq. apply awp_write_serial; [by apply ready_put | apply hex_digit_byte; divlia|].
  apply awp_ret. by rewrite put_put.
Qed.

(** ** Decimal numbers *)

Lemma count_down pre i post :
  [9; 8; 7; 6; 5; 4; 3; 2; 1; 0] = pre ++ i :: post ->
  exists j, i = Z.of_nat j /\ (length pre + j = 9)%nat.
Proof.
  intros E. assert (H : [9; 8; 7; 6; 5; 4; 3; 2; 1; 0] !! length pre = Some i)
    by (rewrite E; by apply list_lookup_middle).
  exists (9 - length pre)%nat. revert H. generalize (length pre). intros p H.
  do 10 (destruct p as [|p]; [injection H as <-; split; [reflexivity | lia]|]). done.
Qed.

(** A digit is sent exactly when it is not a leading zero that the width allows to leave out. *)
Lemma dec_printed v digits j :
  0 <= v < 2 ^ 32 -> (j < 10)%nat ->
  let w := dec_width digits v in
  negb ((v / 10 ^ Z.of_nat j) mod 10 =? 0)
    || (Z.of_nat j <? (if decide (Datatypes.S j < w)%nat then Z.of_nat (Datatypes.S j) else digits))
  = bool_decide (j < w)%nat.
Proof.
  intros Hv Hj w. pose proof (dec_width_spec digits v (Z.of_nat j)) as Hw.
  pose proof (dec_width_spec digits v (Z.of_nat (Datatypes.S j))) as Hw1.
  rewrite Nat2Z.id in Hw, Hw1. fold w in Hw, Hw1.
  destruct (decide (Datatypes.S j < w)%nat) as [Hs|Hs].
  - rewrite (bool_decide_true (j < w)%nat) by lia.
    apply orb_true_iff. right. apply Z.ltb_lt. lia.
  - assert (Ht : 0 < 10 ^ Z.of_nat j) by (apply Z.pow_pos_nonneg; lia).
    assert (Hv1 : v < 10 ^ Z.of_nat (Datatypes.S j)).
    { destruct (decide (j = 9)%nat) as [->|]; [change (10 ^ Z.of_nat 10) with 10000000000|]; lia. }
    rewrite Nat2Z.inj_succ, Z.pow_succ_r in Hv1 by lia.
    assert (Hq : v / 10 ^ Z.of_nat j < 10) by (apply Z.div_lt_upper_bound; lia).
    rewrite Z.mod_small by (split; [apply Z.div_pos; lia | done]).
    assert (Hz : v / 10 ^ Z.of_nat j <> 0 <-> 10 ^ Z.of_nat j <= v).
    { pose proof (Z.div_small_iff v (10 ^ Z.of_nat j)). lia. }
    destruct (Z.eqb_spec (v / 10 ^ Z.of_nat j) 0), (Z.ltb_spec (Z.of_nat j) digits);
      case_bool_decide; cbn; lia.
Qed.

(** After the digits above the [j] lowest: what is left of the number, and what has been sent. *)
Definition dec_state (v digits : Z) (s : S) (j : nat) (st : Z * Z * Z * Z) (s' : S) : Prop :=
  let w := dec_width digits v in
  let '(num, val, digits', k) := st in
  val = v mod 10 ^ Z.of_nat j
  /\ k = 10 ^ Z.of_nat j / 10
  /\ digits' = (if decide (j < w)%nat then Z.of_nat j else digits)
  /\ num = Z.of_nat (w - j)
  /\ s' = put (take (w - j) (dec_text digits v)) s.

Lemma awp_dec_body v digits s j st s' :
  0 <= v < 2 ^ 32 -> uart_ready s -> (j < 10)%nat -> dec_state v digits s (Datatypes.S j) st s' ->
  awp R (dec_body (Z.of_nat j) st) s' (dec_state v digits s j).
Proof.
  intros Hv Hs Hj. destruct st as [[[num val] digits'] k]. intros (-> & -> & -> & -> & ->).
  pose proof (dec_width_spec digits v (Z.of_nat j)) as Hw. rewrite Nat2Z.id in Hw.
  unfold dec_state, dec_body. set (w := dec_width digits v) in *.
  pose proof (dec_width_le digits v) as Hw10. fold w in Hw10.
  assert (Ek : 10 ^ Z.of_nat (Datatypes.S j) / 10 = 10 ^ Z.of_nat j).
  { rewrite Nat2Z.inj_succ, Z.pow_succ_r by lia. rewrite Z.mul_comm. by apply Z.div_mul. }
  destruct (top_digit v j) as [Ed Er]. rewrite Ek, Ed.
  set (d := (v / 10 ^ Z.of_nat j) mod 10) in *.
  assert (Hd : 0 <= d < 10) by (apply Z.mod_pos_bound; lia).
  assert (Ht : 0 < 10 ^ Z.of_nat j) by (apply Z.pow_pos_nonneg; lia).
  pose proof (Z.mod_pos_bound v _ Ht) as Hm.
  assert (Hm1 : 0 <= v mod 10 ^ Z.of_nat (Datatypes.S j) <= v)
    by (split; [apply Z.mod_pos_bound, Z.pow_pos_nonneg; lia | apply Z.mod_le; [lia | apply Z.pow_pos_nonneg; lia]]).
  rewrite (u32_small (d * _)) by nia. rewrite Er, (u32_small (v mod _)) by lia.
  pose proof (dec_printed v digits j Hv Hj) as Hc. cbn zeta in Hc. fold w d in Hc. rewrite Hc.
  assert (Edec : nth (Z.to_nat (Z.land d 0xf)) bin_to_hex_table 0 = 48 + d).
  { rewrite land_f, Z.mod_small, table_digit by lia. unfold hex_digit. by destruct (Z.ltb_spec d 10); [|lia]. }
  rewrite Edec. clear Edec.
  case_bool_decide as Hjw.
  - wp_seq. apply awp_write_serial; [by apply ready_put | unfold is_byte; lia|].
    wp_seq. apply awp_int_incr; [lia|]. apply awp_ret. split_and!; try done.
    + by rewrite decide_True.
    + lia.
    + rewrite put_put. f_equal. replace (w - j)%nat with (Datatypes.S (w - Datatypes.S j)) by lia.
      symmetry. apply take_S_r.
      unfold dec_text. fold w. rewrite dec_digits_lookup by lia.
      by replace (w - 1 - (w - Datatypes.S j))%nat with j by lia.
  - apply awp_ret. split_and!; try done.
    + rewrite !decide_False by lia. done.
    + lia.
    + by replace (w - Datatypes.S j)%nat with (w - j)%nat by lia.
Qed.
Lemma counts_print_uart_dec v digits :
  0 <= v < 2 ^ 32 -> counts (print_uart_dec v digits) (dec_text digits v).
Proof.
  intros Hv s Hs. unfold print_uart_dec. wp_seq.
  eapply (awp_fold_in _ _ _ (fun pre st s' => dec_state v digits s (10 - length pre) st s')).
  - pose proof (dec_width_le digits v). unfold dec_state. cbn [length Nat.sub].
    rewrite decide_False by lia. replace (dec_width digits v - 10)%nat with 0%nat by lia.
    cbn [take]. rewrite put_nil. split_and!; try done. symmetry. apply Z.mod_small.
    change (10 ^ Z.of_nat 10) with 10000000000. lia.
  - intros pre i post st s' El Hst. destruct (count_down _ _ _ El) as (j & -> & Hj).
    rewrite length_app. cbn [length]. replace (10 - (length pre + 1))%nat with j by lia.
    replace (10 - length pre)%nat with (Datatypes.S j) in Hst by lia. by apply awp_dec_body; [| |lia|].
  - intros [[[num val] digits'] k] s' (_ & _ & _ & -> & ->). cbn [length Nat.sub].
    apply awp_ret. rewrite Nat.sub_0_r. unfold dec_text. split; [by rewrite dec_digits_length|].
    by rewrite take_ge by by rewrite dec_digits_length.
Qed.

(** The registers [init_uart] leaves; the FIFO control register is not written. *)
Definition uart_configured (d : Z) (u : uart_view) : uart_view :=
  UartView (if dlab u then uv_ier u else 0) (uv_fcr u) 3 0x20 (u8 d) (u8 (d / 256)) (uv_sent u).

Lemma configured_divisor d u : divisor (uart_configured d u) = d mod 2 ^ 16.
Proof.
  change (u8 d + 256 * u8 (d / 256) = d mod (256 * 256)).
  unfold u8. change (2 ^ 8) with 256. by rewrite Z.rem_mul_r.
Qed.

Lemma awp_piton_init_uart freq baud s :
  u32 (Z.shiftl baud 4) <> 0 ->
  awp R (init_uart freq baud) s
    (fun _ s' => s' = uh_set (uart_configured (freq / u32 (Z.shiftl baud 4)) (uh_view s)) s).
Proof.
  intros Hd. unfold init_uart. destruct (Z.eqb_spec (u32 (Z.shiftl baud 4)) 0) as [|_]; [done|].
  apply awp_uart_line. eapply awp_mono; [apply awp_uart_mcr|]. intros _ s1 ->.
  rewrite ?uh_view_set, ?uh_set_set, uart_step_mcr. done.
Qed.
End specs.
