(* ===== verification/PitonSd.v ===== *)
(** The disk driver of the OpenPiton boot loader ([openpiton/bootrom/linux/src/sd.c]): the SD card
    is a window of memory, which is copied word by word while a progress line is redrawn. *)
From S2P Require Import Prelude Machine Uart PitonUart.

(** * The driver *)

Definition PITON_SD_BASE_ADDR : Z := 0xf000000000.
Definition PITON_SD_LENGTH : Z := 0xff0300000.

Section driver.
Context `{!Bus D}.

Definition init_sd : M D Z := print_uart ("initializing SD... " +:+ crlf) ;; mret 0.

(** The progress line of a block whose number is a multiple of 100; it begins by erasing the
    [num_chars] characters of the line before, and returns how many it has sent. *)
Definition print_progress (blk size num_chars : Z) : M D Z :=
  for_in (below num_chars) (fun _ => print_uart backspace ;; mret tt) ;;
  n ← print_uart "copying block "; let num_chars := u32 n in
  n ← print_uart_dec blk 1; let num_chars := u32 (num_chars + n) in
  n ← print_uart " of "; let num_chars := u32 (num_chars + n) in
  n ← print_uart_dec size 1; let num_chars := u32 (num_chars + n) in
  n ← print_uart " blocks ("; let num_chars := u32 (num_chars + n) in
  n ← print_uart_dec (u32 (blk * 100) / size) 1; let num_chars := u32 (num_chars + n) in
  n ← print_uart " %)"; mret (u32 (num_chars + n)).

(** [*(p++) = *(addr++)], 64 times: [p] and [addr] point to eight-byte words. *)
Definition copy_words (pa : Z * Z) : M D (Z * Z) :=
  fold_in (below 64) (fun _ '(p, addr) =>
    v ← mmio_ld W64 addr;
    store_le 8 p v ;;
    mret (p + 8, addr + 8)) pa.

(** One turn of the loop over blocks, on [p], [addr] and [num_chars]. *)
Definition block_body (size blk : Z) (st : Z * Z * Z) : M D (Z * Z * Z) :=
  let '(p, addr, num_chars) := st in
  num_chars ← (if blk mod 100 =? 0 then print_progress blk size num_chars else mret num_chars);
  pa ← copy_words (p, addr);
  let '(p, addr) := pa in mret (p, addr, num_chars).

Definition sd_copy (dst src_lba size : Z) : M D Z :=
  let raw_addr := u64 (PITON_SD_BASE_ADDR + Z.shiftl src_lba 9) in
  fold_in (below size) (block_body size) (dst, raw_addr, 0) ;;
  print_uart crlf ;;
  mret 0.
End driver.

(** * The disk behind the window *)

(** [disk i] is byte [i] of the disk; a load of an aligned word of the window returns its eight
    bytes and changes neither the disk nor the console. *)
Class PitonDisk (D : Type) `{!Bus D} := {
  disk : Z -> Z;
  disk_byte : forall i, is_byte (disk i);
  con_lag : D -> nat;
  disk_ld : forall i d, 0 <= i -> 8 * i < PITON_SD_LENGTH ->
    exists d', dev_ld W64 (PITON_SD_BASE_ADDR + 8 * i) d
               = (le_val (disk <$> seqZ (8 * i) 8), d');
  con_lsr : forall d v d', dev_ld W8 UART_LINE_STATUS d = (v, d') ->
    Z.testbit v 5 = true \/ (con_lag d' < con_lag d)%nat
}.

(** The abstract state: memory, and the console. *)
Record pboard := PBoard { pb_mem : gmap Z Z; pb_uart : uart_view }.

Definition pset_uart (u : uart_view) (s : pboard) : pboard := PBoard (pb_mem s) u.
Definition pset_mem (m : gmap Z Z) (s : pboard) : pboard := PBoard m (pb_uart s).

Section board.
Context `{!Bus D, !PitonDisk D}.

Definition at_pboard (s : pboard) (w : world D) : Prop :=
  w_mem w = pb_mem s /\ uart_view_of (w_tr w) = pb_uart s.

#[export] Instance pboard_uart : UartHost at_pboard.
Proof.
  refine {| uh_view := pb_uart; uh_set := pset_uart; uh_lag := con_lag |}; try done.
  - by intros [].
  - intros s w a v Ha [Hm Hu]. split; [done|]. cbn. by rewrite <- Hu.
  - intros s w v d [Hm Hu] Hd. split; [done|]. by eapply con_lsr.
Defined.

#[export] Instance pboard_mem : MemHost at_pboard.
Proof. by refine {| mh_mem := pb_mem |}; [intros s w [-> _]|]. Defined.

(** The bytes of [n] bytes of the disk from byte [i]. *)
Definition disk_bytes (i : Z) (n : nat) : list Z := disk <$> seqZ i (Z.of_nat n).

Lemma disk_bytes_length i n : length (disk_bytes i n) = n.
Proof. unfold disk_bytes. rewrite length_fmap, length_seqZ. lia. Qed.

Lemma disk_bytes_byte i n : Forall is_byte (disk_bytes i n).
Proof. unfold disk_bytes. apply Forall_fmap, Forall_true. intros. apply disk_byte. Qed.

Lemma disk_bytes_app i n1 n2 :
  disk_bytes i (n1 + n2) = disk_bytes i n1 ++ disk_bytes (i + Z.of_nat n1) n2.
Proof. unfold disk_bytes. by rewrite Nat2Z.inj_add, seqZ_app, fmap_app by lia. Qed.

(** [n] bytes of the disk from byte [i], copied to [p]. *)
Definition copied (p i : Z) (n : nat) (s : pboard) : pboard :=
  pset_mem (write_bytes p (disk_bytes i n) (pb_mem s)) s.

Lemma copied_0 p i s : copied p i 0 s = s.
Proof. by destruct s. Qed.

Lemma copied_copied p i n1 n2 s :
  copied (p + Z.of_nat n1) (i + Z.of_nat n1) n2 (copied p i n1 s) = copied p i (n1 + n2) s.
Proof.
  unfold copied. cbn. by rewrite disk_bytes_app, write_bytes_app, disk_bytes_length.
Qed.

Lemma copied_put p i n bs s : copied p i n (put bs s) = put bs (copied p i n s).
Proof. done. Qed.

Lemma pb_mem_put bs s : pb_mem (put bs s) = pb_mem s.
Proof. done. Qed.

Lemma pset_mem_put m bs s : pset_mem m (put bs s) = put bs (pset_mem m s).
Proof. done. Qed.

Lemma pset_mem_copied m p i n s : pset_mem m (copied p i n s) = pset_mem m s.
Proof. done. Qed.

Lemma pb_mem_copied p i n s : pb_mem (copied p i n s) = write_bytes p (disk_bytes i n) (pb_mem s).
Proof. done. Qed.

Lemma ready_copied p i n s : uart_ready (copied p i n s) <-> uart_ready s.
Proof. done. Qed.
End board.

(** * The progress line *)

Definition progress_line (size blk : Z) : list Z :=
  str "copying block " ++ dec_text 1 blk ++ str " of " ++ dec_text 1 size ++ str " blocks ("
  ++ dec_text 1 (u32 (blk * 100) / size) ++ str " %)".

(** What is sent before block [blk]: every hundredth block the line before is erased and a new one
    is drawn. *)
Definition progress_at (size blk : Z) : list Z :=
  if blk mod 100 =? 0 then
    (if blk =? 0 then [] else replicate (length (progress_line size (blk - 100))) 8)
    ++ progress_line size blk
  else [].

Definition progress_text (size : Z) (n : nat) : list Z :=
  concat (progress_at size <$> seqZ 0 (Z.of_nat n)).

Lemma progress_text_S size n :
  progress_text size (S n) = progress_text size n ++ progress_at size (Z.of_nat n).
Proof.
  unfold progress_text. rewrite seqZ_S, fmap_app, concat_app. cbn [fmap list_fmap concat].
  by rewrite app_nil_r.
Qed.

Lemma progress_line_short size blk : (length (progress_line size blk) <= 60)%nat.
Proof.
  unfold progress_line. rewrite !length_app. unfold dec_text. rewrite !dec_digits_length.
  pose proof (dec_width_le 1 blk). pose proof (dec_width_le 1 size).
  pose proof (dec_width_le 1 (u32 (blk * 100) / size)). cbn [str length]. lia.
Qed.

(** * What the driver does *)

Section specs.
Context `{!Bus D, !PitonDisk D}.

Lemma awp_counts m bs s (Q : Z -> pboard -> Prop) :
  counts (R := at_pboard) m bs -> uart_ready s -> Q (Z.of_nat (length bs)) (put bs s) ->
  awp at_pboard m s Q.
Proof. intros Hm Hs HQ. eapply awp_mono; [by apply Hm|]. by intros r s' [-> ->]. Qed.

Lemma awp_erase n s :
  uart_ready s -> 0 <= n ->
  awp at_pboard (for_in (below n) (fun _ => print_uart backspace ;; mret tt)) s
    (fun _ s' => s' = put (replicate (Z.to_nat n) 8) s).
Proof.
  intros Hs Hn. eapply (awp_for_in _ _ _ (fun pre s' => s' = put (replicate (length pre) 8) s)).
  - change (s = put [] s). by rewrite put_nil.
  - intros pre x post s' _ ->. wp_seq.
    eapply awp_counts; [apply counts_print_uart; split; [literal | done] | by apply ready_put|].
    apply awp_ret. rewrite put_put, length_app. cbn [length]. by rewrite replicate_add.
  - intros s' ->. by rewrite below_length.
Qed.

(** One print of the progress line, and the count it adds. *)
Local Ltac count_step :=
  wp_seq; eapply awp_counts;
  [ first [ apply counts_print_uart; split; [literal | done] | apply counts_print_uart_dec ]
  | by rewrite ?ready_put | rewrite ?put_put; cbn beta zeta ].

(** The innermost of nested 32-bit sums, when it is small. *)
Local Ltac small_sum :=
  match goal with
  | |- context [u32 (?a + ?b)] =>
      lazymatch a with context [u32 _] => fail | _ => rewrite (u32_small (a + b)) by lia end
  end.

Lemma awp_print_progress blk size num s :
  uart_ready s -> 0 <= num -> 0 <= blk < size -> size < 2 ^ 32 ->
  awp at_pboard (print_progress blk size num) s (fun r s' =>
    r = Z.of_nat (length (progress_line size blk))
    /\ s' = put (replicate (Z.to_nat num) 8 ++ progress_line size blk) s).
Proof.
  intros Hs Hn Hb Hz. unfold print_progress. wp_seq.
  eapply awp_mono; [by apply awp_erase|]. intros [] s1 ->.
  assert (Hp : 0 <= u32 (blk * 100) / size < 2 ^ 32).
  { pose proof (Z.mod_pos_bound (blk * 100) (2 ^ 32)). unfold u32.
    split; [apply Z.div_pos; lia | apply Z.div_lt_upper_bound; nia]. }
  do 7 (count_step; [lia..|]). apply awp_ret. pose proof (progress_line_short size blk) as Hl.
  split; [|by rewrite <- !(assoc_L (++))].
  revert Hl. unfold progress_line. rewrite !length_app.
  generalize (length (dec_text 1 (u32 (blk * 100) / size))). intros l Hl.
  rewrite (u32_small (Z.of_nat _)) by lia. repeat small_sum. lia.
Qed.

(** ** Copying *)

Lemma awp_store_le k a v s (Q : unit -> pboard -> Prop) :
  Q tt (pset_mem (write_bytes a (le_bytes k v) (pb_mem s)) s) -> awp (D := D) at_pboard (store_le k a v) s Q.
Proof.
  intros HQ w [Hm Hu]. apply wp_store_le. eexists. split; [|exact HQ]. split; [|done].
  cbn. by rewrite Hm.
Qed.

(** One word of the disk. *)
Lemma awp_word i s (Q : Z -> pboard -> Prop) :
  0 <= i -> 8 * i < PITON_SD_LENGTH -> Q (le_val (disk_bytes (8 * i) 8)) s ->
  awp at_pboard (mmio_ld W64 (PITON_SD_BASE_ADDR + 8 * i)) s Q.
Proof.
  intros H0 Hi HQ w [Hm Hu]. apply wp_mmio_ld. intros v d Hd.
  destruct (disk_ld i (w_dev w) H0 Hi) as [d' E]. rewrite E in Hd. injection Hd as <- <-.
  exists s. done.
Qed.

Lemma awp_copy_words dst i s :
  0 <= i -> 8 * (i + 64) <= PITON_SD_LENGTH ->
  awp at_pboard (copy_words (dst, PITON_SD_BASE_ADDR + 8 * i)) s (fun r s' =>
    r = (dst + 512, PITON_SD_BASE_ADDR + 8 * i + 512) /\ s' = copied dst (8 * i) 512 s).
Proof.
  intros H0 Hi. unfold copy_words.
  eapply (awp_fold_in _ _ _ (fun pre r s' =>
    r = (dst + 8 * Z.of_nat (length pre), PITON_SD_BASE_ADDR + 8 * (i + Z.of_nat (length pre)))
    /\ s' = copied dst (8 * i) (8 * length pre) s)).
  - rewrite copied_0. split; [|done]. cbn [length]. f_equal; lia.
  - intros pre x post r s' El [-> ->]. destruct (below_split _ _ _ _ El) as [Ex Hx].
    wp_seq. apply awp_word; [lia | lia|]. wp_seq. apply awp_store_le. apply awp_ret.
    rewrite length_app. cbn [length]. split; [f_equal; lia|].
    rewrite <- (disk_bytes_length (8 * (i + Z.of_nat (length pre))) 8) at 1.
    rewrite le_bytes_val by apply disk_bytes_byte.
    replace (8 * (length pre + 1))%nat with (8 * length pre + 8)%nat by lia.
    rewrite <- copied_copied. unfold copied at 1 3.
    replace (dst + Z.of_nat (8 * length pre)) with (dst + 8 * Z.of_nat (length pre)) by lia.
    by replace (8 * i + Z.of_nat (8 * length pre)) with (8 * (i + Z.of_nat (length pre))) by lia.
  - intros r s' [-> ->]. rewrite below_length by lia. split; [f_equal; lia | done].
Qed.

(** The number of characters of the last progress line drawn before block [n]. *)
Definition last_line (size : Z) (n : nat) : Z :=
  match n with
  | O => 0
  | S n => Z.of_nat (length (progress_line size (100 * (Z.of_nat n / 100))))
  end.

Definition block_state (dst lba size : Z) (s : pboard) (n : nat) (st : Z * Z * Z) (s' : pboard) : Prop :=
  st = (dst + 512 * Z.of_nat n, PITON_SD_BASE_ADDR + 8 * (64 * (lba + Z.of_nat n)), last_line size n)
  /\ s' = put (progress_text size n) (copied dst (512 * lba) (512 * n) s).

Lemma awp_progress_step size n s :
  uart_ready s -> Z.of_nat n < size -> size < 2 ^ 32 ->
  awp at_pboard
    (if Z.of_nat n mod 100 =? 0 then print_progress (Z.of_nat n) size (last_line size n)
     else mret (last_line size n)) s
    (fun r s' => r = last_line size (Datatypes.S n) /\ s' = put (progress_at size (Z.of_nat n)) s).
Proof.
  intros Hs Hn Hz. unfold progress_at. cbn [last_line].
  destruct (Z.eqb_spec (Z.of_nat n mod 100) 0) as [Hm|Hm].
  - eapply awp_mono; [apply awp_print_progress; [done | destruct n; cbn; lia | lia | done]|].
    intros r s' [-> ->].
    replace (100 * (Z.of_nat n / 100)) with (Z.of_nat n) by divlia. split; [done|].
    f_equal. f_equal. destruct n as [|n]; cbn [last_line]; [done|].
    rewrite Nat2Z.id. destruct (Z.eqb_spec (Z.of_nat (Datatypes.S n)) 0); [lia|].
    f_equal. f_equal. f_equal. divlia.
  - apply awp_ret. rewrite put_nil. split; [|done]. destruct n as [|n]; [done|]. cbn [last_line].
    f_equal. f_equal. f_equal. divlia.
Qed.

Lemma awp_piton_block dst lba size s n st s' :
  uart_ready s -> 0 <= lba -> Z.of_nat n < size -> size < 2 ^ 32 ->
  512 * (lba + size) <= PITON_SD_LENGTH -> block_state dst lba size s n st s' ->
  awp at_pboard (block_body size (Z.of_nat n) st) s' (block_state dst lba size s (Datatypes.S n)).
Proof.
  intros Hs H0 Hn Hz Hl [-> ->]. unfold block_body. wp_seq.
  eapply awp_mono; [apply awp_progress_step; [by apply ready_put | done | done]|]. intros num s1 [-> ->].
  wp_seq. eapply awp_mono; [apply awp_copy_words; lia|]. intros pa s2 [-> ->].
  apply awp_ret. unfold block_state. split; [f_equal; f_equal; lia|].
  rewrite put_put, copied_put, <- progress_text_S. f_equal.
  replace (512 * Datatypes.S n)%nat with (512 * n + 512)%nat by lia.
  rewrite <- copied_copied. f_equal; [lia | lia].
Qed.

(** The copy: the blocks in order, and the progress lines. *)
Lemma awp_piton_copy dst lba size s :
  uart_ready s -> 0 <= lba -> 0 <= size < 2 ^ 32 -> 512 * (lba + size) <= PITON_SD_LENGTH ->
  awp at_pboard (sd_copy dst lba size) s (fun r s' =>
    r = 0 /\ s' = put (progress_text size (Z.to_nat size) ++ str crlf)
                     (copied dst (512 * lba) (512 * Z.to_nat size) s)).
Proof.
  intros Hs H0 Hz Hl. unfold sd_copy. cbn zeta. unfold PITON_SD_LENGTH in Hl.
  replace (u64 _) with (PITON_SD_BASE_ADDR + 8 * (64 * lba)).
  2: { rewrite Z.shiftl_mul_pow2 by lia. rewrite u64_small; unfold PITON_SD_BASE_ADDR; lia. }
  wp_seq. eapply (awp_fold_in _ _ _ (fun pre st s' => block_state dst lba size s (length pre) st s')).
  - split; [cbn; f_equal; f_equal; lia|]. rewrite copied_0. change (s = put [] s). by rewrite put_nil.
  - intros pre blk post st s' El Hst. destruct (below_split _ _ _ _ El) as [-> Hb].
    rewrite length_app, Nat.add_1_r. apply awp_piton_block; (done || lia).
  - intros [[p addr] num] s' [_ ->]. rewrite below_length by lia. wp_seq.
    eapply awp_counts; [apply counts_print_uart; split; [literal | done] | by apply ready_put|].
    apply awp_ret. by rewrite put_put.
Qed.

Lemma awp_piton_init_sd s :
  uart_ready s ->
  awp at_pboard init_sd s (fun r s' => r = 0 /\ s' = put (str ("initializing SD... " +:+ crlf)) s).
Proof.
  intros Hs. unfold init_sd. wp_seq.
  eapply awp_counts; [apply counts_print_uart; split; [literal | done] | done|]. by apply awp_ret.
Qed.
End specs.
