(* ===== verification/PitonGpt.v ===== *)
(** The search for the boot partition of the OpenPiton boot loader
    ([openpiton/bootrom/linux/src/gpt.c]): the table of [Gpt], read through the disk window and
    printed with the counting print functions. *)
From S2P Require Import Prelude Machine Uart Gpt PitonUart PitonSd.

(** Where the buffers of [gpt_find_boot_partition] lie in the stack. *)
Class Layout := {
  lba1_buf : Z;
  lba2_buf : Z
}.

Section driver.
Context `{!Bus D, !Layout}.

Definition report_failure (res : Z) : M D unit :=
  print_uart ("SD card failed!" +:+ crlf) ;;
  print_uart "sd copy return value: " ;;
  print_uart_addr (u64 res) ;;
  print_uart crlf ;;
  mret tt.

Definition print_pth (lba1 : Z) : M D unit :=
  print_uart "gpt partition table header:" ;;
  print_uart (crlf +:+ tab +:+ "signature:" +:+ tab) ;;
  v ← pth_u64 0 lba1; print_uart_addr v ;;
  print_uart (crlf +:+ tab +:+ "revision:" +:+ tab) ;;
  v ← pth_u32 1 lba1; print_uart_int v ;;
  print_uart (crlf +:+ tab +:+ "size:" +:+ tab +:+ tab) ;;
  v ← pth_u32 2 lba1; print_uart_int v ;;
  print_uart (crlf +:+ tab +:+ "crc_header:" +:+ tab) ;;
  v ← pth_u32 3 lba1; print_uart_int v ;;
  print_uart (crlf +:+ tab +:+ "reserved:" +:+ tab) ;;
  v ← pth_u32 4 lba1; print_uart_int v ;;
  print_uart (crlf +:+ tab +:+ "current lba:" +:+ tab) ;;
  v ← pth_u64 5 lba1; print_uart_addr v ;;
  print_uart (crlf +:+ tab +:+ "backup lda:" +:+ tab) ;;
  v ← pth_u64 6 lba1; print_uart_addr v ;;
  print_uart (crlf +:+ tab +:+ "partition entries lba:   " +:+ tab) ;;
  v ← pth_u64 10 lba1; print_uart_addr v ;;
  print_uart (crlf +:+ tab +:+ "number partition entries:" +:+ tab) ;;
  v ← pth_u32 11 lba1; print_uart_int v ;;
  print_uart (crlf +:+ tab +:+ "size partition entries:  " +:+ tab) ;;
  v ← pth_u32 12 lba1; print_uart_int v ;;
  print_uart crlf ;;
  mret tt.

Definition print_bytes (a n : Z) : M D unit :=
  for_in (below n) (fun j => b ← load8 (a + j); print_uart_byte b ;; mret tt).

Definition print_entry (lba2 i : Z) : M D unit :=
  let part_entry := lba2 + i * 128 in
  print_uart "gpt partition entry " ;;
  print_uart_byte (u8 i) ;;
  print_uart (crlf +:+ tab +:+ "partition type guid:" +:+ tab) ;;
  print_bytes (part_entry + Z.of_nat (ent_off 0)) 16 ;;
  print_uart (crlf +:+ tab +:+ "partition guid:     " +:+ tab) ;;
  print_bytes (part_entry + Z.of_nat (ent_off 1)) 16 ;;
  print_uart (crlf +:+ tab +:+ "first lba:" +:+ tab) ;;
  v ← ent_u64 2 part_entry; print_uart_addr v ;;
  print_uart (crlf +:+ tab +:+ "last lba:" +:+ tab) ;;
  v ← ent_u64 3 part_entry; print_uart_addr v ;;
  print_uart (crlf +:+ tab +:+ "attributes:" +:+ tab) ;;
  v ← ent_u64 4 part_entry; print_uart_addr v ;;
  print_uart (crlf +:+ tab +:+ "name:" +:+ tab) ;;
  print_bytes (part_entry + Z.of_nat (ent_off 5)) 72 ;;
  print_uart crlf ;;
  mret tt.

Definition load_image (dest : Z) : M D Z :=
  print_uart "copying boot image " ;;
  print_uart crlf ;;
  first ← ent_u64 2 lba2_buf;
  last ← ent_u64 3 lba2_buf;
  first' ← ent_u64 2 lba2_buf;
  res ← sd_copy dest (u32 first) (u32 (u64 (u64 (last - first') + 1)));
  if negb (res =? 0) then report_failure res ;; mret (-2) else
  print_uart (" done!" +:+ crlf) ;;
  mret 0.

Definition load_entries (dest : Z) : M D Z :=
  lba ← pth_u64 10 lba1_buf;
  res ← sd_copy lba2_buf (u32 lba) 1;
  if negb (res =? 0) then report_failure res ;; mret (-2) else
  for_in (below 4) (fun i => print_entry lba2_buf i) ;;
  load_image dest.

Definition load_header (dest : Z) : M D Z :=
  res ← sd_copy lba1_buf 1 1;
  if negb (res =? 0) then report_failure res ;; mret (-2) else
  print_pth lba1_buf ;;
  load_entries dest.

(** [size] is not used. *)
Definition gpt_find_boot_partition (dest size : Z) : M D Z :=
  ret ← init_sd;
  if negb (ret =? 0) then
    print_uart ("could not initialize sd... exiting" +:+ crlf) ;; mret (-1)
  else
  print_uart ("sd initialized!" +:+ crlf) ;;
  load_header dest.
End driver.

(** * What it prints *)

Section prints.
Context `{!Bus D, !PitonDisk D}.

Lemma prints_counts {a bs n} m txt : counts (R := at_pboard) m txt -> prints (R := at_pboard) a bs n m txt.
Proof. intros Hm s Hs _. eapply awp_mono; [by apply Hm|]. by intros r s' [_ ->]. Qed.

(** The end of a report. *)
Lemma prints_end {a bs n} (m : M D Z) txt :
  prints (R := at_pboard) a bs n m txt -> prints (R := at_pboard) a bs n (m ;; mret tt) txt.
Proof. intros Hm. rewrite <- (app_nil_r txt). apply prints_seq; [done | apply prints_ret]. Qed.

Lemma piton_prints_bytes a bs n o k :
  Forall is_byte bs -> (o + k <= n)%nat ->
  prints (R := at_pboard) a bs n (print_bytes (a + Z.of_nat o) (Z.of_nat k)) (hex_text (subbytes o k bs)).
Proof.
  intros Hb Hk. apply (prints_bytes_with _ _ _ _ _ (fun b => print_uart_byte b ;; mret tt)); [done..|].
  intros b Hbb s Hs. wp_seq. eapply awp_counts; [by apply counts_print_uart_byte | done|].
  by apply awp_ret.
Qed.

(** One statement of a report. *)
Ltac report_count :=
  apply prints_counts;
  lazymatch goal with
  | |- counts (print_uart _) _ => apply counts_print_uart; split; [literal | reflexivity]
  | |- counts (print_uart_addr _) _ => apply counts_print_uart_addr
  | |- counts (print_uart_int _) _ => apply counts_print_uart_int
  | |- counts (print_uart_byte _) _ => apply counts_print_uart_byte
  end.

Ltac report_step :=
  lazymatch goal with
  | |- prints _ _ _ (load_le _ _ ≫= _) _ => apply prints_load; [cbn; lia|]
  | |- prints _ _ _ (print_bytes _ ?k ;; _) (_ ++ _) =>
      apply prints_seq; [apply (piton_prints_bytes _ _ _ _ (Z.to_nat k)); [done | cbn; lia]|]
  | |- prints _ _ _ (_ ;; mret tt) _ => apply prints_end; report_count
  | |- prints _ _ _ (_ ;; _) (_ ++ _) => apply prints_seq; [report_count|]
  end.

Lemma piton_prints_pth a bs : prints (R := at_pboard) a bs 512 (print_pth a) (pth_text (pth_of bs)).
Proof. unfold print_pth, pth_text, pth_u32, pth_u64. repeat report_step. Qed.

Lemma piton_prints_entry a bs n i :
  Forall is_byte bs -> (128 <= n)%nat -> 0 <= i < 256 ->
  prints (R := at_pboard) (a + i * 128) bs n (print_entry a i) (entry_text i (entry_of bs)).
Proof.
  intros Hb Hn Hi. unfold print_entry, entry_text, ent_u64. cbn zeta.
  rewrite (u8_small i) by done. repeat report_step. done.
Qed.

Lemma piton_prints_entries a bs :
  Forall is_byte bs -> length bs = 512%nat ->
  prints (R := at_pboard) a bs 512 (for_in (below 4) (fun i => print_entry a i)) (entries_text bs).
Proof.
  intros Hb Hl s Hs Hh. eapply (awp_for_in _ _ _ (fun pre s' =>
    s' = put (concat ((fun i => entry_text i (entry (Z.to_nat i) bs)) <$> pre)) s)).
  - change (s = put [] s). by rewrite put_nil.
  - intros pre i post s' El ->. destruct (below_split _ _ _ _ El) as [_ Hi].
    eapply awp_mono.
    { apply (piton_prints_entry a (drop (128 * Z.to_nat i) bs) (512 - 128 * Z.to_nat i));
        [by apply Forall_drop | lia | lia | by rewrite ready_put|].
      apply holds_put. replace (a + i * 128) with (a + Z.of_nat (128 * Z.to_nat i)) by lia.
      apply holds_sub; [done | lia | done]. }
    intros _ s'' ->. rewrite put_put, fmap_app, concat_app. cbn [fmap list_fmap concat].
    by rewrite app_nil_r.
  - by intros s' ->.
Qed.
End prints.
