(* ===== verification/PitonBoot.v ===== *)
(** The zero-stage boot loader of the OpenPiton platform ([openpiton/bootrom/linux/src/main.c]), and
    what the whole of it does with a disk: the theorems of the OpenPiton part. *)
From S2P Require Import Prelude Machine Uart Gpt PitonUart PitonSd PitonGpt.

(** * The program *)

Section driver.
Context `{!Bus D, !Layout}.

(** [UART_FREQ] is set by the build, and [info] is a string the build generates. *)
Context (UART_FREQ : Z) (info : string).

Definition main : M D Z :=
  init_uart UART_FREQ 115200 ;;
  print_uart info ;;
  print_uart ("sd initialized!" +:+ crlf) ;;
  gpt_find_boot_partition 0x80000000 (2 * 16384) ;;
  mret 0.
End driver.

(** * What it does *)

Section specs.
Context `{!Bus D, !PitonDisk D, !Layout}.

Definition block (lba : Z) : list Z := disk_bytes (512 * lba) 512.

(** The partition table of the disk: its header, the block of entries it points to, and the first
    entry, with the number of blocks of its partition. *)
Definition header : gpt_pth_t := pth_of (block 1).
Definition entries_lba : Z := partition_entries_lba header.
Definition first_entry : partition_entries_t := entry 0 (block entries_lba).
Definition first_blocks : Z := last_lba first_entry - first_lba first_entry + 1.

(** The blocks lie in the window of the disk. *)
Definition in_window (lba n : Z) : Prop := 512 * (lba + n) <= PITON_SD_LENGTH.

(** The disk has a table, and a first partition that is not negative, inside of its window. *)
Definition table_in_window : Prop :=
  in_window entries_lba 1 /\ 0 <= first_blocks /\ in_window (first_lba first_entry) first_blocks.

(** What the search sends. *)
Definition copy_text (n : Z) : list Z := progress_text n (Z.to_nat n) ++ str crlf.

Definition search_text : list Z :=
  str ("initializing SD... " +:+ crlf) ++ str ("sd initialized!" +:+ crlf)
  ++ copy_text 1 ++ pth_text header
  ++ copy_text 1 ++ entries_text (block entries_lba)
  ++ str "copying boot image " ++ str crlf ++ copy_text first_blocks
  ++ str (" done!" +:+ crlf).

(** Memory after it. *)
Definition image : list Z :=
  disk_bytes (512 * first_lba first_entry) (512 * Z.to_nat first_blocks).

Definition searched (dest : Z) (m : gmap Z Z) : gmap Z Z :=
  write_bytes dest image
    (write_bytes lba2_buf (block entries_lba) (write_bytes lba1_buf (block 1) m)).

Lemma searched_image dest m : read_bytes (searched dest m) dest (length image) = Some image.
Proof. apply read_write_same. Qed.

Lemma searched_frame dest m k :
  ¬ in_range lba1_buf 512 k -> ¬ in_range lba2_buf 512 k ->
  ¬ in_range dest (Z.of_nat (length image)) k -> searched dest m !! k = m !! k.
Proof.
  intros H1 H2 H3. unfold searched.
  by rewrite !write_bytes_out by (unfold block; rewrite ?disk_bytes_length; assumption).
Qed.

(** Inside of the window no block number is cut to 32 bits. *)
Lemma field_nonneg o k i n : 0 <= field o k (disk_bytes i n).
Proof. apply le_val_bound. apply Forall_take, Forall_drop, disk_bytes_byte. Qed.

Lemma entries_lba_cut : in_window entries_lba 1 -> 0 <= entries_lba /\ u32 (partition_entries_lba header) = entries_lba.
Proof.
  unfold in_window, PITON_SD_LENGTH. intros Hw.
  assert (H0 : 0 <= entries_lba) by apply field_nonneg.
  split; [exact H0|]. unfold entries_lba in *. apply u32_small. lia.
Qed.

Lemma image_cut :
  0 <= first_blocks -> in_window (first_lba first_entry) first_blocks ->
  0 <= first_lba first_entry /\ image_lba first_entry = first_lba first_entry
  /\ image_blocks first_entry = first_blocks /\ first_blocks < 2 ^ 32.
Proof.
  unfold in_window, PITON_SD_LENGTH, image_lba, image_blocks. intros Hn Hw.
  assert (H0 : 0 <= first_lba first_entry) by apply field_nonneg.
  assert (E : u64 (u64 (last_lba first_entry - first_lba first_entry) + 1) = first_blocks).
  { unfold u64. rewrite Zplus_mod_idemp_l. apply Z.mod_small. unfold first_blocks in *. lia. }
  rewrite E, !u32_small by lia. lia.
Qed.

(** One block copied. *)
Lemma copied_block p lba s :
  copied p (512 * lba) (512 * Z.to_nat 1) s = pset_mem (write_bytes p (block lba) (pb_mem s)) s.
Proof. done. Qed.

Local Ltac text_step :=
  wp_seq; eapply awp_counts;
  [ apply counts_print_uart; split; [literal | reflexivity]
  | by rewrite ?ready_put, ?ready_copied | rewrite ?put_put; cbn beta zeta ].

(** The last part of the search, from the entries in memory. *)
Lemma awp_load_image dest s :
  uart_ready s -> read_bytes (pb_mem s) lba2_buf 512 = Some (block entries_lba) ->
  0 <= first_blocks -> in_window (first_lba first_entry) first_blocks ->
  awp at_pboard (load_image dest) s (fun r s' =>
    r = 0 /\ s' = put (str "copying boot image " ++ str crlf ++ copy_text first_blocks
                       ++ str (" done!" +:+ crlf))
                   (pset_mem (write_bytes dest image (pb_mem s)) s)).
Proof.
  intros Hr Hm Hn Hw. destruct (image_cut Hn Hw) as (H0 & El & Eb & Hb).
  unfold load_image. do 2 text_step.
  assert (Hf : forall k, (ent_off k + 8 <= 512)%nat ->
    read_bytes (mh_mem (put (str "copying boot image " ++ str crlf) s)) (lba2_buf + Z.of_nat (ent_off k)) 8
    = Some (take 8 (drop (ent_off k) (block entries_lba))))
    by (intros k Hk; rewrite mem_put; exact (read_bytes_sub _ _ _ _ _ _ Hm Hk)).
  unfold ent_u64. do 3 (wp_seq; eapply awp_load_le; [apply Hf; cbn; lia|]).
  wp_seq. eapply awp_mono.
  { apply (awp_piton_copy _ (image_lba first_entry) (image_blocks first_entry)); rewrite ?El, ?Eb;
      [by apply ready_put | lia | lia | exact Hw]. }
  intros r s1 [-> ->]. cbn [negb Z.eqb]. rewrite copied_put, put_put.
  text_step. apply awp_ret. split; [done|].
  rewrite El, Eb. unfold copy_text, copied, image. by rewrite <- !(assoc_L (++)).
Qed.

(** Its middle part, from the header in memory. *)
Lemma awp_load_entries dest s :
  uart_ready s -> read_bytes (pb_mem s) lba1_buf 512 = Some (block 1) ->
  table_in_window ->
  awp at_pboard (load_entries dest) s (fun r s' =>
    r = 0 /\ s' = put (copy_text 1 ++ entries_text (block entries_lba)
                       ++ str "copying boot image " ++ str crlf
                       ++ copy_text first_blocks ++ str (" done!" +:+ crlf))
                   (pset_mem (write_bytes dest image
                                (write_bytes lba2_buf (block entries_lba) (pb_mem s))) s)).
Proof.
  intros Hr Hm (Hw1 & Hn & Hw2). destruct (entries_lba_cut Hw1) as [H0 E0].
  unfold load_entries, pth_u64.
  wp_seq. eapply awp_load_le; [apply (read_bytes_sub _ _ _ _ _ _ Hm); cbn; lia|].
  wp_seq. eapply awp_mono.
  { apply (awp_piton_copy lba2_buf (u32 (partition_entries_lba header)) 1); rewrite ?E0;
      [done | lia | lia | exact Hw1]. }
  intros r s1 [-> ->]. cbn [negb Z.eqb]. rewrite E0.
  fold (copy_text 1). pose proof (disk_bytes_length (512 * entries_lba) 512) as Hl.
  assert (Hb : read_bytes (write_bytes lba2_buf (block entries_lba) (pb_mem s)) lba2_buf 512
               = Some (block entries_lba)).
  { apply read_write_len, Hl. }
  wp_seq. eapply awp_mono.
  { apply (piton_prints_entries lba2_buf (block entries_lba)); [apply disk_bytes_byte | exact Hl | |].
    - by rewrite ready_put, ready_copied.
    - apply holds_put. exact Hb. }
  intros _ s2 ->. rewrite put_put. eapply awp_mono.
  { apply awp_load_image; [by rewrite ready_put, ready_copied | exact Hb | exact Hn | exact Hw2]. }
  intros r s3 [-> ->]. split; [done|]. by rewrite pset_mem_put, put_put, ?pset_mem_copied, ?pb_mem_put, ?pb_mem_copied, <- ?(assoc_L (++)).
Qed.

(** The search. *)
Lemma awp_search dest size s :
  uart_ready s -> table_in_window ->
  awp at_pboard (gpt_find_boot_partition dest size) s (fun r s' =>
    r = 0 /\ s' = put search_text (pset_mem (searched dest (pb_mem s)) s)).
Proof.
  intros Hr Hw. unfold gpt_find_boot_partition, load_header.
  wp_seq. eapply awp_mono; [by apply awp_piton_init_sd|]. intros r s1 [-> ->]. cbn [negb Z.eqb].
  text_step. wp_seq. eapply awp_mono.
  { apply (awp_piton_copy lba1_buf 1 1); [by apply ready_put | lia | lia | done]. }
  intros r s2 [-> ->]. cbn [negb Z.eqb]. fold (copy_text 1). rewrite copied_put, put_put.
  assert (Hb : read_bytes (write_bytes lba1_buf (block 1) (pb_mem s)) lba1_buf 512 = Some (block 1)).
  { apply read_write_len, disk_bytes_length. }
  wp_seq. eapply awp_mono.
  { apply (piton_prints_pth lba1_buf (block 1)); [by rewrite ready_put, ready_copied | apply holds_put; exact Hb]. }
  intros _ s3 ->. rewrite put_put. eapply awp_mono.
  { apply awp_load_entries; [by rewrite ready_put, ready_copied | exact Hb | done..]. }
  intros r s4 [-> ->]. split; [done|]. unfold search_text, searched.
  by rewrite copied_block, pset_mem_put, put_put, pb_mem_put, <- ?(assoc_L (++)).
Qed.

(** The whole program. *)
Lemma awp_main UART_FREQ info s :
  Z.of_nat (String.length info) < 2 ^ 31 -> table_in_window ->
  awp at_pboard (main UART_FREQ info) s (fun r s' =>
    r = 0 /\ s' = put (until_nul (str info) ++ str ("sd initialized!" +:+ crlf) ++ search_text)
                   (pset_mem (searched 0x80000000 (pb_mem s))
                      (pset_uart (uart_configured (UART_FREQ / 1843200) (pb_uart s)) s))).
Proof.
  intros Hi Hw. unfold main. wp_seq. eapply awp_mono; [by apply awp_piton_init_uart|].
  intros [] s1 ->. change (u32 (Z.shiftl 115200 4)) with 1843200.
  wp_seq. eapply awp_counts; [by apply counts_print_uart_nul | done|].
  text_step. wp_seq. eapply awp_mono.
  { apply awp_search; [by apply ready_put | done..]. }
  intros r s2 [-> ->]. apply awp_ret. split; [done|].
  by rewrite pset_mem_put, put_put, ?pset_mem_copied, ?pb_mem_put, ?pb_mem_copied, <- ?(assoc_L (++)).
Qed.
End specs.

(** * A concrete platform *)

(** A disk that holds some bytes and zeros after them, and a console that is busy for three loads
    after each byte. *)
Record pdev := PDev { pd_busy : nat }.

Definition byte_at (l : list Z) (i : Z) : Z := u8 (nth (Z.to_nat i) l 0).

Section sim.
Context (content : list Z).

#[export] Instance pdev_bus : Bus pdev := {
  bus_ld w a d :=
    match w with
    | W64 => (le_val (byte_at content <$> seqZ (a - PITON_SD_BASE_ADDR) 8), d)
    | W8 => if a =? UART_LINE_STATUS
            then (match pd_busy d with O => 0x20 | S _ => 0 end, PDev (Nat.pred (pd_busy d)))
            else (0, d)
    | W32 => (0, d)
    end;
  bus_st w a v d := match w with W8 => if a =? UART_THR then PDev 3 else d | _ => d end;
  bus_nop d := d
}.

#[export] Instance pdev_disk : PitonDisk pdev.
Proof.
  refine {| disk := byte_at content; con_lag := pd_busy |}.
  - intros i. apply u8_byte.
  - intros i d H0 Hi. exists d. unfold dev_ld. cbn [bus_ld pdev_bus bits].
    replace (PITON_SD_BASE_ADDR + 8 * i - PITON_SD_BASE_ADDR) with (8 * i) by lia.
    f_equal. apply Z.mod_small.
    assert (Hb : Forall is_byte (byte_at content <$> seqZ (8 * i) 8))
      by (apply Forall_fmap, Forall_true; intros; apply u8_byte).
    pose proof (le_val_bound _ Hb) as Hl. rewrite length_fmap, length_seqZ in Hl. exact Hl.
  - intros [k] v d'. unfold dev_ld. cbn. destruct k as [|k]; cbn; intros [= <- <-]; [by left | right; cbn; lia].
Defined.
End sim.

(** A disk with a partition table in blocks 1 and 2 and a partition of two blocks from block 3. *)
Definition ex_header : gpt_pth_t :=
  GptPth 0x5452415020494645 0x10000 92 0 0 1 7 3 6 (replicate 16 0) 2 4 128 0.
Definition ex_entry : partition_entries_t :=
  PartitionEntry (replicate 16 1) (replicate 16 2) 3 4 0 (replicate 72 0).

Definition pad (l : list Z) : list Z := l ++ replicate (512 - length l) 0.

Definition ex_disk : list Z :=
  replicate 512 0 ++ pad (pth_bytes ex_header) ++ pad (entry_bytes ex_entry)
  ++ replicate 512 0x6f ++ replicate 512 0x13.

#[export] Instance ex_layout : Layout := {| lba1_buf := 0x83fff000; lba2_buf := 0x83fffe00 |}.

#[export] Instance ex_bus : Bus pdev := pdev_bus ex_disk.
#[export] Instance ex_window : PitonDisk pdev := pdev_disk ex_disk.

Definition ex_pboard : pboard := PBoard ∅ uart_reset.

(** * Theorems *)

Section theorems.
Context `{!Bus D, !PitonDisk D, !Layout}.

(** C17: a decimal number sent by [print_uart_dec] reads back as its argument; it has no leading
    zeros beyond the number of digits asked for, of which at most ten count, and the function
    returns how many characters it has sent. *)
Theorem print_uart_dec_reads_back v digits s :
  uart_ready s -> 0 <= v < 2 ^ 32 ->
  awp at_pboard (print_uart_dec v digits) s (fun r s' => exists txt,
    s' = put txt s /\ r = Z.of_nat (length txt)
    /\ parse_dec txt = v /\ Forall (fun c => 48 <= c <= 57) txt
    /\ (digits <= 0 -> v = 0 -> txt = [])
    /\ (forall k, 0 <= k < 10 -> k < Z.of_nat (length txt) <-> k < digits \/ 10 ^ k <= v)).
Proof.
  intros Hs Hv. eapply awp_mono; [by apply counts_print_uart_dec|]. intros r s' [-> ->].
  assert (Hl : length (dec_text digits v) = dec_width digits v) by apply dec_digits_length.
  exists (dec_text digits v). split_and!; [done | done | by apply parse_dec_text | apply dec_digits_ascii | |].
  - intros Hd ->. unfold dec_text, dec_width. replace (Z.to_nat (Z.min digits 10)) with 0%nat by lia. reflexivity.
  - intros k Hk. rewrite Hl, <- dec_width_spec by done. lia.
Qed.

(** C16: [sd_copy] of the OpenPiton boot loader returns 0 and leaves the blocks of the disk in memory,
    in order, and nothing else changed; it copies nothing when [size] is 0. *)
Theorem piton_sd_copy_copies dst lba size s :
  uart_ready s -> 0 <= lba -> 0 <= size < 2 ^ 32 -> in_window lba size ->
  awp at_pboard (sd_copy dst lba size) s (fun r s' =>
    r = 0
    /\ read_bytes (pb_mem s') dst (512 * Z.to_nat size)
       = Some (disk_bytes (512 * lba) (512 * Z.to_nat size))
    /\ (forall k, ¬ in_range dst (512 * size) k -> pb_mem s' !! k = pb_mem s !! k)
    /\ pb_uart s' = pb_uart (put (copy_text size) s)).
Proof.
  intros Hs H0 Hz Hw. eapply awp_mono; [by apply awp_piton_copy|]. intros r s' [-> ->].
  pose proof (disk_bytes_length (512 * lba) (512 * Z.to_nat size)) as Hl.
  split_and!; [done | | |done].
  - apply read_write_len, Hl.
  - intros k Hk. apply (write_bytes_out dst (disk_bytes (512 * lba) (512 * Z.to_nat size))).
    rewrite Hl. by replace (Z.of_nat _) with (512 * size) by lia.
Qed.

(** The progress line erases the line before it and shows the number of the block, the number of
    blocks and the percentage rounded down, up to block 42949672; from then on the product by 100
    wraps around, and at block 42949700 of 2 ^ 26 the line says 0 %, not 63 %. *)
Theorem piton_progress blk size num s :
  uart_ready s -> 0 <= num -> 0 <= blk < size -> size < 2 ^ 32 ->
  let line pct := str "copying block " ++ dec_text 1 blk ++ str " of " ++ dec_text 1 size
                  ++ str " blocks (" ++ dec_text 1 pct ++ str " %)" in
  (blk <= 42949672 ->
   awp at_pboard (print_progress blk size num) s (fun r s' =>
     r = Z.of_nat (length (line (100 * blk / size)))
     /\ s' = put (replicate (Z.to_nat num) 8 ++ line (100 * blk / size)) s))
  /\ (blk = 42949700 -> size = 2 ^ 26 ->
      awp at_pboard (print_progress blk size num) s (fun _ s' =>
        s' = put (replicate (Z.to_nat num) 8 ++ line 0) s)).
Proof.
  intros Hs Hn Hb Hz line. split.
  - intros Hk. eapply awp_mono; [by apply awp_print_progress|]. intros r s' [-> ->].
    unfold progress_line, line. by rewrite (Z.mul_comm blk), u32_small by lia.
  - intros -> ->. eapply awp_mono; [by apply awp_print_progress|]. by intros r s' [_ ->].
Qed.

(** C15: on a disk whose block of entries and whose first partition, blocks [first_lba] to [last_lba]
    of the first entry, lie in the memory window of the disk (where no block number is cut to the 32
    bits the copy takes), the OpenPiton boot loader ends with result 0, the console configured for
    its clock and exactly the blocks of that partition in memory from 0x80000000 on; outside of
    the image and of the two buffers memory is as before. *)
Theorem piton_boot_loader_loads UART_FREQ info s :
  Z.of_nat (String.length info) < 2 ^ 31 -> table_in_window ->
  awp at_pboard (main UART_FREQ info) s (fun r s' =>
    r = 0
    /\ read_bytes (pb_mem s') 0x80000000 (length image) = Some image
    /\ (forall k, ¬ in_range lba1_buf 512 k -> ¬ in_range lba2_buf 512 k ->
          ¬ in_range 0x80000000 (Z.of_nat (length image)) k -> pb_mem s' !! k = pb_mem s !! k)
    /\ divisor (pb_uart s') = (UART_FREQ / 1843200) mod 2 ^ 16
    /\ uv_sent (pb_uart s')
       = uv_sent (pb_uart s) ++ until_nul (str info) ++ str ("sd initialized!" +:+ crlf) ++ search_text).
Proof.
  intros Hi Hw. eapply awp_mono; [by apply awp_main|]. intros r s' [-> ->].
  rewrite pb_mem_put. cbn [pb_mem pset_mem].
  split; [done|]. split; [apply searched_image|]. split; [apply searched_frame|].
  split; [apply configured_divisor | done].
Qed.
End theorems.

(** * Witnesses *)

Lemma print_uart_dec_reads_back_witness :
  awp (D := pdev) at_pboard (print_uart_dec 1843200 1) ex_pboard
    (fun r s' => exists txt, s' = put txt ex_pboard /\ r = Z.of_nat (length txt) /\ parse_dec txt = 1843200).
Proof.
  eapply awp_mono; [by apply (print_uart_dec_reads_back 1843200 1 ex_pboard)|].
  intros r s' (txt & H1 & H2 & H3 & _). by exists txt.
Defined.

Lemma piton_sd_copy_copies_witness :
  awp (D := pdev) at_pboard (sd_copy 0x90000000 3 2) ex_pboard
    (fun r s' => r = 0
       /\ read_bytes (pb_mem s') 0x90000000 1024 = Some (replicate 512 0x6f ++ replicate 512 0x13)).
Proof.
  eapply awp_mono; [apply (piton_sd_copy_copies 0x90000000 3 2 ex_pboard); by vm_compute|].
  intros r s' (H1 & H2 & _). split; [done|].
  replace 1024%nat with (512 * Z.to_nat 2)%nat by reflexivity. rewrite H2. by vm_compute.
Defined.

Lemma piton_progress_witness :
  awp (D := pdev) at_pboard (print_progress 100 400 0) ex_pboard
    (fun r s' => s' = put (str "copying block 100 of 400 blocks (25 %)") ex_pboard).
Proof.
  destruct (piton_progress (D := pdev) 100 400 0 ex_pboard)
    as [H _]; [done | lia..|].
  eapply awp_mono; [apply H; lia|]. intros r s' [_ ->]. by vm_compute.
Defined.

Lemma piton_boot_loader_loads_witness :
  awp (D := pdev) at_pboard (main 30000000 "boot") ex_pboard
    (fun r s' => r = 0
       /\ read_bytes (pb_mem s') 0x80000000 1024 = Some (replicate 512 0x6f ++ replicate 512 0x13)
       /\ divisor (pb_uart s') = 16).
Proof.
  eapply awp_mono; [apply (piton_boot_loader_loads 30000000 "boot" ex_pboard); by vm_compute|].
  intros r s' (H1 & H2 & _ & H3 & _). split; [done|]. split; [|by rewrite H3].
  assert (E : image (D := pdev) = replicate 512 0x6f ++ replicate 512 0x13) by by vm_compute.
  rewrite E, length_app, !length_replicate in H2. exact H2.
Defined.
