(* ===== verification/Encoding.v ===== *)
(** The instruction and register encodings of the debug ROM ([riscv-dbg/debug_rom/encoding.h]): the
    header's macros as an environment, the tables it declares with them, and the decoder the tables
    define. The macros that expand to inline assembly are left out. *)
From S2P Require Import Prelude.

(** * The header *)

(** The replacement text of an object-like macro. *)
Inductive mexpr :=
  | Num (z : Z)
  | Ref (name : string)
  | Shl (a b : mexpr).

(** The status registers, and the debug control register. *)
Definition status_defines : list (string * mexpr) :=
  [("MSTATUS_UIE", Num 0x00000001); ("MSTATUS_SIE", Num 0x00000002); ("MSTATUS_HIE", Num 0x00000004);
   ("MSTATUS_MIE", Num 0x00000008); ("MSTATUS_UPIE", Num 0x00000010); ("MSTATUS_SPIE", Num 0x00000020);
   ("MSTATUS_HPIE", Num 0x00000040); ("MSTATUS_MPIE", Num 0x00000080); ("MSTATUS_SPP", Num 0x00000100);
   ("MSTATUS_HPP", Num 0x00000600); ("MSTATUS_MPP", Num 0x00001800); ("MSTATUS_FS", Num 0x00006000);
   ("MSTATUS_XS", Num 0x00018000); ("MSTATUS_MPRV", Num 0x00020000); ("MSTATUS_SUM", Num 0x00040000);
   ("MSTATUS_MXR", Num 0x00080000); ("MSTATUS_TVM", Num 0x00100000); ("MSTATUS_TW", Num 0x00200000);
   ("MSTATUS_TSR", Num 0x00400000); ("MSTATUS32_SD", Num 0x80000000);
   ("MSTATUS_UXL", Num 0x0000000300000000); ("MSTATUS_SXL", Num 0x0000000c00000000);
   ("MSTATUS64_SD", Num 0x8000000000000000); ("SSTATUS_UIE", Num 0x00000001);
   ("SSTATUS_SIE", Num 0x00000002); ("SSTATUS_UPIE", Num 0x00000010); ("SSTATUS_SPIE", Num 0x00000020);
   ("SSTATUS_SPP", Num 0x00000100); ("SSTATUS_FS", Num 0x00006000); ("SSTATUS_XS", Num 0x00018000);
   ("SSTATUS_SUM", Num 0x00040000); ("SSTATUS_MXR", Num 0x00080000); ("SSTATUS32_SD", Num 0x80000000);
   ("SSTATUS_UXL", Num 0x0000000300000000); ("SSTATUS64_SD", Num 0x8000000000000000);
   ("DCSR_XDEBUGVER", Shl (Num 3) (Num 30)); ("DCSR_NDRESET", Shl (Num 1) (Num 29));
   ("DCSR_FULLRESET", Shl (Num 1) (Num 28)); ("DCSR_EBREAKM", Shl (Num 1) (Num 15));
   ("DCSR_EBREAKH", Shl (Num 1) (Num 14)); ("DCSR_EBREAKS", Shl (Num 1) (Num 13));
   ("DCSR_EBREAKU", Shl (Num 1) (Num 12)); ("DCSR_STOPCYCLE", Shl (Num 1) (Num 10));
   ("DCSR_STOPTIME", Shl (Num 1) (Num 9)); ("DCSR_CAUSE", Shl (Num 7) (Num 6));
   ("DCSR_DEBUGINT", Shl (Num 1) (Num 5)); ("DCSR_HALT", Shl (Num 1) (Num 3));
   ("DCSR_STEP", Shl (Num 1) (Num 2)); ("DCSR_PRV", Shl (Num 3) (Num 0)); ("DCSR_CAUSE_NONE", Num 0);
   ("DCSR_CAUSE_SWBP", Num 1); ("DCSR_CAUSE_HWBP", Num 2); ("DCSR_CAUSE_DEBUGINT", Num 3);
   ("DCSR_CAUSE_STEP", Num 4); ("DCSR_CAUSE_HALT", Num 5)].

(** The fields of a trigger whose place depends on the width of the registers. *)
Definition MCONTROL_TYPE (xlen : Z) : Z := u64 (Z.shiftl 0xf (xlen - 4)).
Definition MCONTROL_DMODE (xlen : Z) : Z := u64 (Z.shiftl 1 (xlen - 5)).
Definition MCONTROL_MASKMAX (xlen : Z) : Z := u64 (Z.shiftl 0x3f (xlen - 11)).

(** Triggers, interrupts, address translation, memory protection and page tables. *)
Definition machine_defines : list (string * mexpr) :=
  [("MCONTROL_SELECT", Shl (Num 1) (Num 19)); ("MCONTROL_TIMING", Shl (Num 1) (Num 18));
   ("MCONTROL_ACTION", Shl (Num 0x3f) (Num 12)); ("MCONTROL_CHAIN", Shl (Num 1) (Num 11));
   ("MCONTROL_MATCH", Shl (Num 0xf) (Num 7)); ("MCONTROL_M", Shl (Num 1) (Num 6));
   ("MCONTROL_H", Shl (Num 1) (Num 5)); ("MCONTROL_S", Shl (Num 1) (Num 4));
   ("MCONTROL_U", Shl (Num 1) (Num 3)); ("MCONTROL_EXECUTE", Shl (Num 1) (Num 2));
   ("MCONTROL_STORE", Shl (Num 1) (Num 1)); ("MCONTROL_LOAD", Shl (Num 1) (Num 0));
   ("MCONTROL_TYPE_NONE", Num 0); ("MCONTROL_TYPE_MATCH", Num 2);
   ("MCONTROL_ACTION_DEBUG_EXCEPTION", Num 0); ("MCONTROL_ACTION_DEBUG_MODE", Num 1);
   ("MCONTROL_ACTION_TRACE_START", Num 2); ("MCONTROL_ACTION_TRACE_STOP", Num 3);
   ("MCONTROL_ACTION_TRACE_EMIT", Num 4); ("MCONTROL_MATCH_EQUAL", Num 0);
   ("MCONTROL_MATCH_NAPOT", Num 1); ("MCONTROL_MATCH_GE", Num 2); ("MCONTROL_MATCH_LT", Num 3);
   ("MCONTROL_MATCH_MASK_LOW", Num 4); ("MCONTROL_MATCH_MASK_HIGH", Num 5);
   ("MIP_SSIP", Shl (Num 1) (Ref "IRQ_S_SOFT")); ("MIP_HSIP", Shl (Num 1) (Ref "IRQ_H_SOFT"));
   ("MIP_MSIP", Shl (Num 1) (Ref "IRQ_M_SOFT")); ("MIP_STIP", Shl (Num 1) (Ref "IRQ_S_TIMER"));
   ("MIP_HTIP", Shl (Num 1) (Ref "IRQ_H_TIMER")); ("MIP_MTIP", Shl (Num 1) (Ref "IRQ_M_TIMER"));
   ("MIP_SEIP", Shl (Num 1) (Ref "IRQ_S_EXT")); ("MIP_HEIP", Shl (Num 1) (Ref "IRQ_H_EXT"));
   ("MIP_MEIP", Shl (Num 1) (Ref "IRQ_M_EXT")); ("SIP_SSIP", Ref "MIP_SSIP");
   ("SIP_STIP", Ref "MIP_STIP"); ("PRV_U", Num 0); ("PRV_S", Num 1); ("PRV_H", Num 2); ("PRV_M", Num 3);
   ("SATP32_MODE", Num 0x80000000); ("SATP32_ASID", Num 0x7fc00000); ("SATP32_PPN", Num 0x003fffff);
   ("SATP64_MODE", Num 0xf000000000000000); ("SATP64_ASID", Num 0x0ffff00000000000);
   ("SATP64_PPN", Num 0x00000fffffffffff); ("SATP_MODE_OFF", Num 0); ("SATP_MODE_SV32", Num 1);
   ("SATP_MODE_SV39", Num 8); ("SATP_MODE_SV48", Num 9); ("SATP_MODE_SV57", Num 10);
   ("SATP_MODE_SV64", Num 11); ("PMP_R", Num 0x01); ("PMP_W", Num 0x02); ("PMP_X", Num 0x04);
   ("PMP_A", Num 0x18); ("PMP_L", Num 0x80); ("PMP_SHIFT", Num 2); ("PMP_TOR", Num 0x08);
   ("PMP_NA4", Num 0x10); ("PMP_NAPOT", Num 0x18); ("IRQ_S_SOFT", Num 1); ("IRQ_H_SOFT", Num 2);
   ("IRQ_M_SOFT", Num 3); ("IRQ_S_TIMER", Num 5); ("IRQ_H_TIMER", Num 6); ("IRQ_M_TIMER", Num 7);
   ("IRQ_S_EXT", Num 9); ("IRQ_H_EXT", Num 10); ("IRQ_M_EXT", Num 11); ("IRQ_COP", Num 12);
   ("IRQ_HOST", Num 13); ("DEFAULT_RSTVEC", Num 0x00001000); ("CLINT_BASE", Num 0x02000000);
   ("CLINT_SIZE", Num 0x000c0000); ("EXT_IO_BASE", Num 0x40000000); ("DRAM_BASE", Num 0x80000000);
   ("PTE_V", Num 0x001); ("PTE_R", Num 0x002); ("PTE_W", Num 0x004); ("PTE_X", Num 0x008);
   ("PTE_U", Num 0x010); ("PTE_G", Num 0x020); ("PTE_A", Num 0x040); ("PTE_D", Num 0x080);
   ("PTE_SOFT", Num 0x300); ("PTE_PPN_SHIFT", Num 10)].

(** A page table entry that points to another table. *)
Definition PTE_TABLE (pte : Z) : bool := Z.land pte (Z.lor (Z.lor (Z.lor 0x1 0x2) 0x4) 0x8) =? 0x1.

(** Macros that depend on the width of the registers. *)
Definition xlen_defines (xlen : Z) : list (string * mexpr) :=
  if xlen =? 64 then
    [("MSTATUS_SD", Ref "MSTATUS64_SD"); ("SSTATUS_SD", Ref "SSTATUS64_SD");
     ("RISCV_PGLEVEL_BITS", Num 9); ("SATP_MODE", Ref "SATP64_MODE")]
  else
    [("MSTATUS_SD", Ref "MSTATUS32_SD"); ("SSTATUS_SD", Ref "SSTATUS32_SD");
     ("RISCV_PGLEVEL_BITS", Num 10); ("SATP_MODE", Ref "SATP32_MODE")].

Definition page_defines : list (string * mexpr) :=
  [("RISCV_PGSHIFT", Num 12); ("RISCV_PGSIZE", Shl (Num 1) (Ref "RISCV_PGSHIFT"))].

(** Encodings of instructions: the bits fixed by an instruction and their values. *)
Definition insn_defines_1 : list (string * mexpr) :=
  [("MATCH_BEQ", Num 0x63); ("MASK_BEQ", Num 0x707f); ("MATCH_BNE", Num 0x1063);
   ("MASK_BNE", Num 0x707f); ("MATCH_BLT", Num 0x4063); ("MASK_BLT", Num 0x707f);
   ("MATCH_BGE", Num 0x5063); ("MASK_BGE", Num 0x707f); ("MATCH_BLTU", Num 0x6063);
   ("MASK_BLTU", Num 0x707f); ("MATCH_BGEU", Num 0x7063); ("MASK_BGEU", Num 0x707f);
   ("MATCH_JALR", Num 0x67); ("MASK_JALR", Num 0x707f); ("MATCH_JAL", Num 0x6f); ("MASK_JAL", Num 0x7f);
   ("MATCH_LUI", Num 0x37); ("MASK_LUI", Num 0x7f); ("MATCH_AUIPC", Num 0x17); ("MASK_AUIPC", Num 0x7f);
   ("MATCH_ADDI", Num 0x13); ("MASK_ADDI", Num 0x707f); ("MATCH_SLLI", Num 0x1013);
   ("MASK_SLLI", Num 0xfc00707f); ("MATCH_SLTI", Num 0x2013); ("MASK_SLTI", Num 0x707f);
   ("MATCH_SLTIU", Num 0x3013); ("MASK_SLTIU", Num 0x707f); ("MATCH_XORI", Num 0x4013);
   ("MASK_XORI", Num 0x707f); ("MATCH_SRLI", Num 0x5013); ("MASK_SRLI", Num 0xfc00707f);
   ("MATCH_SRAI", Num 0x40005013); ("MASK_SRAI", Num 0xfc00707f); ("MATCH_ORI", Num 0x6013);
   ("MASK_ORI", Num 0x707f); ("MATCH_ANDI", Num 0x7013); ("MASK_ANDI", Num 0x707f);
   ("MATCH_ADD", Num 0x33); ("MASK_ADD", Num 0xfe00707f); ("MATCH_SUB", Num 0x40000033);
   ("MASK_SUB", Num 0xfe00707f); ("MATCH_SLL", Num 0x1033); ("MASK_SLL", Num 0xfe00707f);
   ("MATCH_SLT", Num 0x2033); ("MASK_SLT", Num 0xfe00707f); ("MATCH_SLTU", Num 0x3033);
   ("MASK_SLTU", Num 0xfe00707f); ("MATCH_XOR", Num 0x4033); ("MASK_XOR", Num 0xfe00707f);
   ("MATCH_SRL", Num 0x5033); ("MASK_SRL", Num 0xfe00707f); ("MATCH_SRA", Num 0x40005033);
   ("MASK_SRA", Num 0xfe00707f); ("MATCH_OR", Num 0x6033); ("MASK_OR", Num 0xfe00707f);
   ("MATCH_AND", Num 0x7033); ("MASK_AND", Num 0xfe00707f); ("MATCH_ADDIW", Num 0x1b);
   ("MASK_ADDIW", Num 0x707f); ("MATCH_SLLIW", Num 0x101b); ("MASK_SLLIW", Num 0xfe00707f);
   ("MATCH_SRLIW", Num 0x501b); ("MASK_SRLIW", Num 0xfe00707f); ("MATCH_SRAIW", Num 0x4000501b);
   ("MASK_SRAIW", Num 0xfe00707f); ("MATCH_ADDW", Num 0x3b); ("MASK_ADDW", Num 0xfe00707f);
   ("MATCH_SUBW", Num 0x4000003b); ("MASK_SUBW", Num 0xfe00707f); ("MATCH_SLLW", Num 0x103b);
   ("MASK_SLLW", Num 0xfe00707f); ("MATCH_SRLW", Num 0x503b); ("MASK_SRLW", Num 0xfe00707f);
   ("MATCH_SRAW", Num 0x4000503b); ("MASK_SRAW", Num 0xfe00707f); ("MATCH_LB", Num 0x3);
   ("MASK_LB", Num 0x707f); ("MATCH_LH", Num 0x1003); ("MASK_LH", Num 0x707f); ("MATCH_LW", Num 0x2003);
   ("MASK_LW", Num 0x707f); ("MATCH_LD", Num 0x3003); ("MASK_LD", Num 0x707f);
   ("MATCH_LBU", Num 0x4003); ("MASK_LBU", Num 0x707f); ("MATCH_LHU", Num 0x5003);
   ("MASK_LHU", Num 0x707f); ("MATCH_LWU", Num 0x6003); ("MASK_LWU", Num 0x707f);
   ("MATCH_SB", Num 0x23); ("MASK_SB", Num 0x707f); ("MATCH_SH", Num 0x1023); ("MASK_SH", Num 0x707f);
   ("MATCH_SW", Num 0x2023); ("MASK_SW", Num 0x707f); ("MATCH_SD", Num 0x3023); ("MASK_SD", Num 0x707f);
   ("MATCH_FENCE", Num 0xf); ("MASK_FENCE", Num 0x707f); ("MATCH_FENCE_I", Num 0x100f);
   ("MASK_FENCE_I", Num 0x707f); ("MATCH_MUL", Num 0x2000033); ("MASK_MUL", Num 0xfe00707f);
   ("MATCH_MULH", Num 0x2001033); ("MASK_MULH", Num 0xfe00707f); ("MATCH_MULHSU", Num 0x2002033);
   ("MASK_MULHSU", Num 0xfe00707f); ("MATCH_MULHU", Num 0x2003033); ("MASK_MULHU", Num 0xfe00707f);
   ("MATCH_DIV", Num 0x2004033); ("MASK_DIV", Num 0xfe00707f); ("MATCH_DIVU", Num 0x2005033);
   ("MASK_DIVU", Num 0xfe00707f); ("MATCH_REM", Num 0x2006033); ("MASK_REM", Num 0xfe00707f);
   ("MATCH_REMU", Num 0x2007033); ("MASK_REMU", Num 0xfe00707f); ("MATCH_MULW", Num 0x200003b);
   ("MASK_MULW", Num 0xfe00707f); ("MATCH_DIVW", Num 0x200403b); ("MASK_DIVW", Num 0xfe00707f);
   ("MATCH_DIVUW", Num 0x200503b); ("MASK_DIVUW", Num 0xfe00707f); ("MATCH_REMW", Num 0x200603b);
   ("MASK_REMW", Num 0xfe00707f); ("MATCH_REMUW", Num 0x200703b); ("MASK_REMUW", Num 0xfe00707f);
   ("MATCH_AMOADD_W", Num 0x202f); ("MASK_AMOADD_W", Num 0xf800707f);
   ("MATCH_AMOXOR_W", Num 0x2000202f); ("MASK_AMOXOR_W", Num 0xf800707f);
   ("MATCH_AMOOR_W", Num 0x4000202f); ("MASK_AMOOR_W", Num 0xf800707f);
   ("MATCH_AMOAND_W", Num 0x6000202f); ("MASK_AMOAND_W", Num 0xf800707f);
   ("MATCH_AMOMIN_W", Num 0x8000202f); ("MASK_AMOMIN_W", Num 0xf800707f);
   ("MATCH_AMOMAX_W", Num 0xa000202f); ("MASK_AMOMAX_W", Num 0xf800707f);
   ("MATCH_AMOMINU_W", Num 0xc000202f); ("MASK_AMOMINU_W", Num 0xf800707f);
   ("MATCH_AMOMAXU_W", Num 0xe000202f); ("MASK_AMOMAXU_W", Num 0xf800707f);
   ("MATCH_AMOSWAP_W", Num 0x800202f); ("MASK_AMOSWAP_W", Num 0xf800707f);
   ("MATCH_LR_W", Num 0x1000202f); ("MASK_LR_W", Num 0xf9f0707f); ("MATCH_SC_W", Num 0x1800202f);
   ("MASK_SC_W", Num 0xf800707f)].

(** Further instructions. *)
Definition insn_defines_2 : list (string * mexpr) :=
  [("MATCH_AMOADD_D", Num 0x302f); ("MASK_AMOADD_D", Num 0xf800707f);
   ("MATCH_AMOXOR_D", Num 0x2000302f); ("MASK_AMOXOR_D", Num 0xf800707f);
   ("MATCH_AMOOR_D", Num 0x4000302f); ("MASK_AMOOR_D", Num 0xf800707f);
   ("MATCH_AMOAND_D", Num 0x6000302f); ("MASK_AMOAND_D", Num 0xf800707f);
   ("MATCH_AMOMIN_D", Num 0x8000302f); ("MASK_AMOMIN_D", Num 0xf800707f);
   ("MATCH_AMOMAX_D", Num 0xa000302f); ("MASK_AMOMAX_D", Num 0xf800707f);
   ("MATCH_AMOMINU_D", Num 0xc000302f); ("MASK_AMOMINU_D", Num 0xf800707f);
   ("MATCH_AMOMAXU_D", Num 0xe000302f); ("MASK_AMOMAXU_D", Num 0xf800707f);
   ("MATCH_AMOSWAP_D", Num 0x800302f); ("MASK_AMOSWAP_D", Num 0xf800707f);
   ("MATCH_LR_D", Num 0x1000302f); ("MASK_LR_D", Num 0xf9f0707f); ("MATCH_SC_D", Num 0x1800302f);
   ("MASK_SC_D", Num 0xf800707f); ("MATCH_ECALL", Num 0x73); ("MASK_ECALL", Num 0xffffffff);
   ("MATCH_EBREAK", Num 0x100073); ("MASK_EBREAK", Num 0xffffffff); ("MATCH_URET", Num 0x200073);
   ("MASK_URET", Num 0xffffffff); ("MATCH_SRET", Num 0x10200073); ("MASK_SRET", Num 0xffffffff);
   ("MATCH_MRET", Num 0x30200073); ("MASK_MRET", Num 0xffffffff); ("MATCH_DRET", Num 0x7b200073);
   ("MASK_DRET", Num 0xffffffff); ("MATCH_SFENCE_VMA", Num 0x12000073);
   ("MASK_SFENCE_VMA", Num 0xfe007fff); ("MATCH_WFI", Num 0x10500073); ("MASK_WFI", Num 0xffffffff);
   ("MATCH_CSRRW", Num 0x1073); ("MASK_CSRRW", Num 0x707f); ("MATCH_CSRRS", Num 0x2073);
   ("MASK_CSRRS", Num 0x707f); ("MATCH_CSRRC", Num 0x3073); ("MASK_CSRRC", Num 0x707f);
   ("MATCH_CSRRWI", Num 0x5073); ("MASK_CSRRWI", Num 0x707f); ("MATCH_CSRRSI", Num 0x6073);
   ("MASK_CSRRSI", Num 0x707f); ("MATCH_CSRRCI", Num 0x7073); ("MASK_CSRRCI", Num 0x707f);
   ("MATCH_FADD_S", Num 0x53); ("MASK_FADD_S", Num 0xfe00007f); ("MATCH_FSUB_S", Num 0x8000053);
   ("MASK_FSUB_S", Num 0xfe00007f); ("MATCH_FMUL_S", Num 0x10000053); ("MASK_FMUL_S", Num 0xfe00007f);
   ("MATCH_FDIV_S", Num 0x18000053); ("MASK_FDIV_S", Num 0xfe00007f); ("MATCH_FSGNJ_S", Num 0x20000053);
   ("MASK_FSGNJ_S", Num 0xfe00707f); ("MATCH_FSGNJN_S", Num 0x20001053);
   ("MASK_FSGNJN_S", Num 0xfe00707f); ("MATCH_FSGNJX_S", Num 0x20002053);
   ("MASK_FSGNJX_S", Num 0xfe00707f); ("MATCH_FMIN_S", Num 0x28000053); ("MASK_FMIN_S", Num 0xfe00707f);
   ("MATCH_FMAX_S", Num 0x28001053); ("MASK_FMAX_S", Num 0xfe00707f); ("MATCH_FSQRT_S", Num 0x58000053);
   ("MASK_FSQRT_S", Num 0xfff0007f); ("MATCH_FADD_D", Num 0x2000053); ("MASK_FADD_D", Num 0xfe00007f);
   ("MATCH_FSUB_D", Num 0xa000053); ("MASK_FSUB_D", Num 0xfe00007f); ("MATCH_FMUL_D", Num 0x12000053);
   ("MASK_FMUL_D", Num 0xfe00007f); ("MATCH_FDIV_D", Num 0x1a000053); ("MASK_FDIV_D", Num 0xfe00007f);
   ("MATCH_FSGNJ_D", Num 0x22000053); ("MASK_FSGNJ_D", Num 0xfe00707f);
   ("MATCH_FSGNJN_D", Num 0x22001053); ("MASK_FSGNJN_D", Num 0xfe00707f);
   ("MATCH_FSGNJX_D", Num 0x22002053); ("MASK_FSGNJX_D", Num 0xfe00707f);
   ("MATCH_FMIN_D", Num 0x2a000053); ("MASK_FMIN_D", Num 0xfe00707f); ("MATCH_FMAX_D", Num 0x2a001053);
   ("MASK_FMAX_D", Num 0xfe00707f); ("MATCH_FCVT_S_D", Num 0x40100053);
   ("MASK_FCVT_S_D", Num 0xfff0007f); ("MATCH_FCVT_D_S", Num 0x42000053);
   ("MASK_FCVT_D_S", Num 0xfff0007f); ("MATCH_FSQRT_D", Num 0x5a000053);
   ("MASK_FSQRT_D", Num 0xfff0007f); ("MATCH_FADD_Q", Num 0x6000053); ("MASK_FADD_Q", Num 0xfe00007f);
   ("MATCH_FSUB_Q", Num 0xe000053); ("MASK_FSUB_Q", Num 0xfe00007f); ("MATCH_FMUL_Q", Num 0x16000053);
   ("MASK_FMUL_Q", Num 0xfe00007f); ("MATCH_FDIV_Q", Num 0x1e000053); ("MASK_FDIV_Q", Num 0xfe00007f);
   ("MATCH_FSGNJ_Q", Num 0x26000053); ("MASK_FSGNJ_Q", Num 0xfe00707f);
   ("MATCH_FSGNJN_Q", Num 0x26001053); ("MASK_FSGNJN_Q", Num 0xfe00707f);
   ("MATCH_FSGNJX_Q", Num 0x26002053); ("MASK_FSGNJX_Q", Num 0xfe00707f);
   ("MATCH_FMIN_Q", Num 0x2e000053); ("MASK_FMIN_Q", Num 0xfe00707f); ("MATCH_FMAX_Q", Num 0x2e001053);
   ("MASK_FMAX_Q", Num 0xfe00707f); ("MATCH_FCVT_S_Q", Num 0x40300053);
   ("MASK_FCVT_S_Q", Num 0xfff0007f); ("MATCH_FCVT_Q_S", Num 0x46000053);
   ("MASK_FCVT_Q_S", Num 0xfff0007f); ("MATCH_FCVT_D_Q", Num 0x42300053);
   ("MASK_FCVT_D_Q", Num 0xfff0007f); ("MATCH_FCVT_Q_D", Num 0x46100053);
   ("MASK_FCVT_Q_D", Num 0xfff0007f); ("MATCH_FSQRT_Q", Num 0x5e000053);
   ("MASK_FSQRT_Q", Num 0xfff0007f); ("MATCH_FLE_S", Num 0xa0000053); ("MASK_FLE_S", Num 0xfe00707f);
   ("MATCH_FLT_S", Num 0xa0001053); ("MASK_FLT_S", Num 0xfe00707f); ("MATCH_FEQ_S", Num 0xa0002053);
   ("MASK_FEQ_S", Num 0xfe00707f); ("MATCH_FLE_D", Num 0xa2000053); ("MASK_FLE_D", Num 0xfe00707f);
   ("MATCH_FLT_D", Num 0xa2001053); ("MASK_FLT_D", Num 0xfe00707f); ("MATCH_FEQ_D", Num 0xa2002053);
   ("MASK_FEQ_D", Num 0xfe00707f); ("MATCH_FLE_Q", Num 0xa6000053); ("MASK_FLE_Q", Num 0xfe00707f);
   ("MATCH_FLT_Q", Num 0xa6001053); ("MASK_FLT_Q", Num 0xfe00707f); ("MATCH_FEQ_Q", Num 0xa6002053);
   ("MASK_FEQ_Q", Num 0xfe00707f); ("MATCH_FCVT_W_S", Num 0xc0000053);
   ("MASK_FCVT_W_S", Num 0xfff0007f); ("MATCH_FCVT_WU_S", Num 0xc0100053);
   ("MASK_FCVT_WU_S", Num 0xfff0007f); ("MATCH_FCVT_L_S", Num 0xc0200053);
   ("MASK_FCVT_L_S", Num 0xfff0007f); ("MATCH_FCVT_LU_S", Num 0xc0300053);
   ("MASK_FCVT_LU_S", Num 0xfff0007f); ("MATCH_FMV_X_W", Num 0xe0000053);
   ("MASK_FMV_X_W", Num 0xfff0707f)].

(** Further instructions. *)
Definition insn_defines_3 : list (string * mexpr) :=
  [("MATCH_FCLASS_S", Num 0xe0001053); ("MASK_FCLASS_S", Num 0xfff0707f);
   ("MATCH_FCVT_W_D", Num 0xc2000053); ("MASK_FCVT_W_D", Num 0xfff0007f);
   ("MATCH_FCVT_WU_D", Num 0xc2100053); ("MASK_FCVT_WU_D", Num 0xfff0007f);
   ("MATCH_FCVT_L_D", Num 0xc2200053); ("MASK_FCVT_L_D", Num 0xfff0007f);
   ("MATCH_FCVT_LU_D", Num 0xc2300053); ("MASK_FCVT_LU_D", Num 0xfff0007f);
   ("MATCH_FMV_X_D", Num 0xe2000053); ("MASK_FMV_X_D", Num 0xfff0707f);
   ("MATCH_FCLASS_D", Num 0xe2001053); ("MASK_FCLASS_D", Num 0xfff0707f);
   ("MATCH_FCVT_W_Q", Num 0xc6000053); ("MASK_FCVT_W_Q", Num 0xfff0007f);
   ("MATCH_FCVT_WU_Q", Num 0xc6100053); ("MASK_FCVT_WU_Q", Num 0xfff0007f);
   ("MATCH_FCVT_L_Q", Num 0xc6200053); ("MASK_FCVT_L_Q", Num 0xfff0007f);
   ("MATCH_FCVT_LU_Q", Num 0xc6300053); ("MASK_FCVT_LU_Q", Num 0xfff0007f);
   ("MATCH_FMV_X_Q", Num 0xe6000053); ("MASK_FMV_X_Q", Num 0xfff0707f);
   ("MATCH_FCLASS_Q", Num 0xe6001053); ("MASK_FCLASS_Q", Num 0xfff0707f);
   ("MATCH_FCVT_S_W", Num 0xd0000053); ("MASK_FCVT_S_W", Num 0xfff0007f);
   ("MATCH_FCVT_S_WU", Num 0xd0100053); ("MASK_FCVT_S_WU", Num 0xfff0007f);
   ("MATCH_FCVT_S_L", Num 0xd0200053); ("MASK_FCVT_S_L", Num 0xfff0007f);
   ("MATCH_FCVT_S_LU", Num 0xd0300053); ("MASK_FCVT_S_LU", Num 0xfff0007f);
   ("MATCH_FMV_W_X", Num 0xf0000053); ("MASK_FMV_W_X", Num 0xfff0707f);
   ("MATCH_FCVT_D_W", Num 0xd2000053); ("MASK_FCVT_D_W", Num 0xfff0007f);
   ("MATCH_FCVT_D_WU", Num 0xd2100053); ("MASK_FCVT_D_WU", Num 0xfff0007f);
   ("MATCH_FCVT_D_L", Num 0xd2200053); ("MASK_FCVT_D_L", Num 0xfff0007f);
   ("MATCH_FCVT_D_LU", Num 0xd2300053); ("MASK_FCVT_D_LU", Num 0xfff0007f);
   ("MATCH_FMV_D_X", Num 0xf2000053); ("MASK_FMV_D_X", Num 0xfff0707f);
   ("MATCH_FCVT_Q_W", Num 0xd6000053); ("MASK_FCVT_Q_W", Num 0xfff0007f);
   ("MATCH_FCVT_Q_WU", Num 0xd6100053); ("MASK_FCVT_Q_WU", Num 0xfff0007f);
   ("MATCH_FCVT_Q_L", Num 0xd6200053); ("MASK_FCVT_Q_L", Num 0xfff0007f);
   ("MATCH_FCVT_Q_LU", Num 0xd6300053); ("MASK_FCVT_Q_LU", Num 0xfff0007f);
   ("MATCH_FMV_Q_X", Num 0xf6000053); ("MASK_FMV_Q_X", Num 0xfff0707f); ("MATCH_FLW", Num 0x2007);
   ("MASK_FLW", Num 0x707f); ("MATCH_FLD", Num 0x3007); ("MASK_FLD", Num 0x707f);
   ("MATCH_FLQ", Num 0x4007); ("MASK_FLQ", Num 0x707f); ("MATCH_FSW", Num 0x2027);
   ("MASK_FSW", Num 0x707f); ("MATCH_FSD", Num 0x3027); ("MASK_FSD", Num 0x707f);
   ("MATCH_FSQ", Num 0x4027); ("MASK_FSQ", Num 0x707f); ("MATCH_FMADD_S", Num 0x43);
   ("MASK_FMADD_S", Num 0x600007f); ("MATCH_FMSUB_S", Num 0x47); ("MASK_FMSUB_S", Num 0x600007f);
   ("MATCH_FNMSUB_S", Num 0x4b); ("MASK_FNMSUB_S", Num 0x600007f); ("MATCH_FNMADD_S", Num 0x4f);
   ("MASK_FNMADD_S", Num 0x600007f); ("MATCH_FMADD_D", Num 0x2000043); ("MASK_FMADD_D", Num 0x600007f);
   ("MATCH_FMSUB_D", Num 0x2000047); ("MASK_FMSUB_D", Num 0x600007f); ("MATCH_FNMSUB_D", Num 0x200004b);
   ("MASK_FNMSUB_D", Num 0x600007f); ("MATCH_FNMADD_D", Num 0x200004f);
   ("MASK_FNMADD_D", Num 0x600007f); ("MATCH_FMADD_Q", Num 0x6000043); ("MASK_FMADD_Q", Num 0x600007f);
   ("MATCH_FMSUB_Q", Num 0x6000047); ("MASK_FMSUB_Q", Num 0x600007f); ("MATCH_FNMSUB_Q", Num 0x600004b);
   ("MASK_FNMSUB_Q", Num 0x600007f); ("MATCH_FNMADD_Q", Num 0x600004f);
   ("MASK_FNMADD_Q", Num 0x600007f); ("MATCH_C_NOP", Num 0x1); ("MASK_C_NOP", Num 0xffff);
   ("MATCH_C_ADDI16SP", Num 0x6101); ("MASK_C_ADDI16SP", Num 0xef83); ("MATCH_C_JR", Num 0x8002);
   ("MASK_C_JR", Num 0xf07f); ("MATCH_C_JALR", Num 0x9002); ("MASK_C_JALR", Num 0xf07f);
   ("MATCH_C_EBREAK", Num 0x9002); ("MASK_C_EBREAK", Num 0xffff); ("MATCH_C_LD", Num 0x6000);
   ("MASK_C_LD", Num 0xe003); ("MATCH_C_SD", Num 0xe000); ("MASK_C_SD", Num 0xe003);
   ("MATCH_C_ADDIW", Num 0x2001); ("MASK_C_ADDIW", Num 0xe003); ("MATCH_C_LDSP", Num 0x6002);
   ("MASK_C_LDSP", Num 0xe003); ("MATCH_C_SDSP", Num 0xe002); ("MASK_C_SDSP", Num 0xe003);
   ("MATCH_C_ADDI4SPN", Num 0x0); ("MASK_C_ADDI4SPN", Num 0xe003); ("MATCH_C_FLD", Num 0x2000);
   ("MASK_C_FLD", Num 0xe003); ("MATCH_C_LW", Num 0x4000); ("MASK_C_LW", Num 0xe003);
   ("MATCH_C_FLW", Num 0x6000); ("MASK_C_FLW", Num 0xe003); ("MATCH_C_FSD", Num 0xa000);
   ("MASK_C_FSD", Num 0xe003); ("MATCH_C_SW", Num 0xc000); ("MASK_C_SW", Num 0xe003);
   ("MATCH_C_FSW", Num 0xe000); ("MASK_C_FSW", Num 0xe003); ("MATCH_C_ADDI", Num 0x1);
   ("MASK_C_ADDI", Num 0xe003); ("MATCH_C_JAL", Num 0x2001); ("MASK_C_JAL", Num 0xe003);
   ("MATCH_C_LI", Num 0x4001); ("MASK_C_LI", Num 0xe003); ("MATCH_C_LUI", Num 0x6001);
   ("MASK_C_LUI", Num 0xe003); ("MATCH_C_SRLI", Num 0x8001); ("MASK_C_SRLI", Num 0xec03);
   ("MATCH_C_SRAI", Num 0x8401); ("MASK_C_SRAI", Num 0xec03); ("MATCH_C_ANDI", Num 0x8801);
   ("MASK_C_ANDI", Num 0xec03); ("MATCH_C_SUB", Num 0x8c01); ("MASK_C_SUB", Num 0xfc63);
   ("MATCH_C_XOR", Num 0x8c21); ("MASK_C_XOR", Num 0xfc63); ("MATCH_C_OR", Num 0x8c41);
   ("MASK_C_OR", Num 0xfc63); ("MATCH_C_AND", Num 0x8c61); ("MASK_C_AND", Num 0xfc63);
   ("MATCH_C_SUBW", Num 0x9c01); ("MASK_C_SUBW", Num 0xfc63)].

(** Further instructions. *)
Definition insn_defines_4 : list (string * mexpr) :=
  [("MATCH_C_ADDW", Num 0x9c21); ("MASK_C_ADDW", Num 0xfc63); ("MATCH_C_J", Num 0xa001);
   ("MASK_C_J", Num 0xe003); ("MATCH_C_BEQZ", Num 0xc001); ("MASK_C_BEQZ", Num 0xe003);
   ("MATCH_C_BNEZ", Num 0xe001); ("MASK_C_BNEZ", Num 0xe003); ("MATCH_C_SLLI", Num 0x2);
   ("MASK_C_SLLI", Num 0xe003); ("MATCH_C_FLDSP", Num 0x2002); ("MASK_C_FLDSP", Num 0xe003);
   ("MATCH_C_LWSP", Num 0x4002); ("MASK_C_LWSP", Num 0xe003); ("MATCH_C_FLWSP", Num 0x6002);
   ("MASK_C_FLWSP", Num 0xe003); ("MATCH_C_MV", Num 0x8002); ("MASK_C_MV", Num 0xf003);
   ("MATCH_C_ADD", Num 0x9002); ("MASK_C_ADD", Num 0xf003); ("MATCH_C_FSDSP", Num 0xa002);
   ("MASK_C_FSDSP", Num 0xe003); ("MATCH_C_SWSP", Num 0xc002); ("MASK_C_SWSP", Num 0xe003);
   ("MATCH_C_FSWSP", Num 0xe002); ("MASK_C_FSWSP", Num 0xe003); ("MATCH_CUSTOM0", Num 0xb);
   ("MASK_CUSTOM0", Num 0x707f); ("MATCH_CUSTOM0_RS1", Num 0x200b); ("MASK_CUSTOM0_RS1", Num 0x707f);
   ("MATCH_CUSTOM0_RS1_RS2", Num 0x300b); ("MASK_CUSTOM0_RS1_RS2", Num 0x707f);
   ("MATCH_CUSTOM0_RD", Num 0x400b); ("MASK_CUSTOM0_RD", Num 0x707f);
   ("MATCH_CUSTOM0_RD_RS1", Num 0x600b); ("MASK_CUSTOM0_RD_RS1", Num 0x707f);
   ("MATCH_CUSTOM0_RD_RS1_RS2", Num 0x700b); ("MASK_CUSTOM0_RD_RS1_RS2", Num 0x707f);
   ("MATCH_CUSTOM1", Num 0x2b); ("MASK_CUSTOM1", Num 0x707f); ("MATCH_CUSTOM1_RS1", Num 0x202b);
   ("MASK_CUSTOM1_RS1", Num 0x707f); ("MATCH_CUSTOM1_RS1_RS2", Num 0x302b);
   ("MASK_CUSTOM1_RS1_RS2", Num 0x707f); ("MATCH_CUSTOM1_RD", Num 0x402b);
   ("MASK_CUSTOM1_RD", Num 0x707f); ("MATCH_CUSTOM1_RD_RS1", Num 0x602b);
   ("MASK_CUSTOM1_RD_RS1", Num 0x707f); ("MATCH_CUSTOM1_RD_RS1_RS2", Num 0x702b);
   ("MASK_CUSTOM1_RD_RS1_RS2", Num 0x707f); ("MATCH_CUSTOM2", Num 0x5b); ("MASK_CUSTOM2", Num 0x707f);
   ("MATCH_CUSTOM2_RS1", Num 0x205b); ("MASK_CUSTOM2_RS1", Num 0x707f);
   ("MATCH_CUSTOM2_RS1_RS2", Num 0x305b); ("MASK_CUSTOM2_RS1_RS2", Num 0x707f);
   ("MATCH_CUSTOM2_RD", Num 0x405b); ("MASK_CUSTOM2_RD", Num 0x707f);
   ("MATCH_CUSTOM2_RD_RS1", Num 0x605b); ("MASK_CUSTOM2_RD_RS1", Num 0x707f);
   ("MATCH_CUSTOM2_RD_RS1_RS2", Num 0x705b); ("MASK_CUSTOM2_RD_RS1_RS2", Num 0x707f);
   ("MATCH_CUSTOM3", Num 0x7b); ("MASK_CUSTOM3", Num 0x707f); ("MATCH_CUSTOM3_RS1", Num 0x207b);
   ("MASK_CUSTOM3_RS1", Num 0x707f); ("MATCH_CUSTOM3_RS1_RS2", Num 0x307b);
   ("MASK_CUSTOM3_RS1_RS2", Num 0x707f); ("MATCH_CUSTOM3_RD", Num 0x407b);
   ("MASK_CUSTOM3_RD", Num 0x707f); ("MATCH_CUSTOM3_RD_RS1", Num 0x607b);
   ("MASK_CUSTOM3_RD_RS1", Num 0x707f); ("MATCH_CUSTOM3_RD_RS1_RS2", Num 0x707b);
   ("MASK_CUSTOM3_RD_RS1_RS2", Num 0x707f)].

(** Numbers of control and status registers. *)
Definition csr_defines_1 : list (string * mexpr) :=
  [("CSR_FFLAGS", Num 0x1); ("CSR_FRM", Num 0x2); ("CSR_FCSR", Num 0x3); ("CSR_CYCLE", Num 0xc00);
   ("CSR_TIME", Num 0xc01); ("CSR_INSTRET", Num 0xc02); ("CSR_HPMCOUNTER3", Num 0xc03);
   ("CSR_HPMCOUNTER4", Num 0xc04); ("CSR_HPMCOUNTER5", Num 0xc05); ("CSR_HPMCOUNTER6", Num 0xc06);
   ("CSR_HPMCOUNTER7", Num 0xc07); ("CSR_HPMCOUNTER8", Num 0xc08); ("CSR_HPMCOUNTER9", Num 0xc09);
   ("CSR_HPMCOUNTER10", Num 0xc0a); ("CSR_HPMCOUNTER11", Num 0xc0b); ("CSR_HPMCOUNTER12", Num 0xc0c);
   ("CSR_HPMCOUNTER13", Num 0xc0d); ("CSR_HPMCOUNTER14", Num 0xc0e); ("CSR_HPMCOUNTER15", Num 0xc0f);
   ("CSR_HPMCOUNTER16", Num 0xc10); ("CSR_HPMCOUNTER17", Num 0xc11); ("CSR_HPMCOUNTER18", Num 0xc12);
   ("CSR_HPMCOUNTER19", Num 0xc13); ("CSR_HPMCOUNTER20", Num 0xc14); ("CSR_HPMCOUNTER21", Num 0xc15);
   ("CSR_HPMCOUNTER22", Num 0xc16); ("CSR_HPMCOUNTER23", Num 0xc17); ("CSR_HPMCOUNTER24", Num 0xc18);
   ("CSR_HPMCOUNTER25", Num 0xc19); ("CSR_HPMCOUNTER26", Num 0xc1a); ("CSR_HPMCOUNTER27", Num 0xc1b);
   ("CSR_HPMCOUNTER28", Num 0xc1c); ("CSR_HPMCOUNTER29", Num 0xc1d); ("CSR_HPMCOUNTER30", Num 0xc1e);
   ("CSR_HPMCOUNTER31", Num 0xc1f); ("CSR_SSTATUS", Num 0x100); ("CSR_SIE", Num 0x104);
   ("CSR_STVEC", Num 0x105); ("CSR_SCOUNTEREN", Num 0x106); ("CSR_SSCRATCH", Num 0x140);
   ("CSR_SEPC", Num 0x141); ("CSR_SCAUSE", Num 0x142); ("CSR_STVAL", Num 0x143); ("CSR_SIP", Num 0x144);
   ("CSR_SATP", Num 0x180); ("CSR_MSTATUS", Num 0x300); ("CSR_MISA", Num 0x301);
   ("CSR_MEDELEG", Num 0x302); ("CSR_MIDELEG", Num 0x303); ("CSR_MIE", Num 0x304);
   ("CSR_MTVEC", Num 0x305); ("CSR_MCOUNTEREN", Num 0x306); ("CSR_MSCRATCH", Num 0x340);
   ("CSR_MEPC", Num 0x341); ("CSR_MCAUSE", Num 0x342); ("CSR_MTVAL", Num 0x343); ("CSR_MIP", Num 0x344);
   ("CSR_PMPCFG0", Num 0x3a0); ("CSR_PMPCFG1", Num 0x3a1); ("CSR_PMPCFG2", Num 0x3a2);
   ("CSR_PMPCFG3", Num 0x3a3); ("CSR_PMPADDR0", Num 0x3b0); ("CSR_PMPADDR1", Num 0x3b1);
   ("CSR_PMPADDR2", Num 0x3b2); ("CSR_PMPADDR3", Num 0x3b3); ("CSR_PMPADDR4", Num 0x3b4);
   ("CSR_PMPADDR5", Num 0x3b5); ("CSR_PMPADDR6", Num 0x3b6); ("CSR_PMPADDR7", Num 0x3b7);
   ("CSR_PMPADDR8", Num 0x3b8); ("CSR_PMPADDR9", Num 0x3b9); ("CSR_PMPADDR10", Num 0x3ba);
   ("CSR_PMPADDR11", Num 0x3bb); ("CSR_PMPADDR12", Num 0x3bc); ("CSR_PMPADDR13", Num 0x3bd);
   ("CSR_PMPADDR14", Num 0x3be); ("CSR_PMPADDR15", Num 0x3bf); ("CSR_TSELECT", Num 0x7a0);
   ("CSR_TDATA1", Num 0x7a1); ("CSR_TDATA2", Num 0x7a2); ("CSR_TDATA3", Num 0x7a3);
   ("CSR_DCSR", Num 0x7b0); ("CSR_DPC", Num 0x7b1); ("CSR_DSCRATCH", Num 0x7b2);
   ("CSR_DSCRATCH0", Ref "CSR_DSCRATCH"); ("CSR_DSCRATCH1", Num 0x7b3); ("CSR_MCYCLE", Num 0xb00);
   ("CSR_MINSTRET", Num 0xb02); ("CSR_MHPMCOUNTER3", Num 0xb03); ("CSR_MHPMCOUNTER4", Num 0xb04);
   ("CSR_MHPMCOUNTER5", Num 0xb05); ("CSR_MHPMCOUNTER6", Num 0xb06); ("CSR_MHPMCOUNTER7", Num 0xb07);
   ("CSR_MHPMCOUNTER8", Num 0xb08); ("CSR_MHPMCOUNTER9", Num 0xb09); ("CSR_MHPMCOUNTER10", Num 0xb0a);
   ("CSR_MHPMCOUNTER11", Num 0xb0b); ("CSR_MHPMCOUNTER12", Num 0xb0c); ("CSR_MHPMCOUNTER13", Num 0xb0d);
   ("CSR_MHPMCOUNTER14", Num 0xb0e); ("CSR_MHPMCOUNTER15", Num 0xb0f); ("CSR_MHPMCOUNTER16", Num 0xb10);
   ("CSR_MHPMCOUNTER17", Num 0xb11); ("CSR_MHPMCOUNTER18", Num 0xb12); ("CSR_MHPMCOUNTER19", Num 0xb13);
   ("CSR_MHPMCOUNTER20", Num 0xb14); ("CSR_MHPMCOUNTER21", Num 0xb15); ("CSR_MHPMCOUNTER22", Num 0xb16);
   ("CSR_MHPMCOUNTER23", Num 0xb17); ("CSR_MHPMCOUNTER24", Num 0xb18); ("CSR_MHPMCOUNTER25", Num 0xb19);
   ("CSR_MHPMCOUNTER26", Num 0xb1a); ("CSR_MHPMCOUNTER27", Num 0xb1b); ("CSR_MHPMCOUNTER28", Num 0xb1c);
   ("CSR_MHPMCOUNTER29", Num 0xb1d); ("CSR_MHPMCOUNTER30", Num 0xb1e); ("CSR_MHPMCOUNTER31", Num 0xb1f);
   ("CSR_MHPMEVENT3", Num 0x323); ("CSR_MHPMEVENT4", Num 0x324); ("CSR_MHPMEVENT5", Num 0x325);
   ("CSR_MHPMEVENT6", Num 0x326); ("CSR_MHPMEVENT7", Num 0x327); ("CSR_MHPMEVENT8", Num 0x328);
   ("CSR_MHPMEVENT9", Num 0x329); ("CSR_MHPMEVENT10", Num 0x32a); ("CSR_MHPMEVENT11", Num 0x32b);
   ("CSR_MHPMEVENT12", Num 0x32c); ("CSR_MHPMEVENT13", Num 0x32d); ("CSR_MHPMEVENT14", Num 0x32e);
   ("CSR_MHPMEVENT15", Num 0x32f); ("CSR_MHPMEVENT16", Num 0x330); ("CSR_MHPMEVENT17", Num 0x331);
   ("CSR_MHPMEVENT18", Num 0x332); ("CSR_MHPMEVENT19", Num 0x333); ("CSR_MHPMEVENT20", Num 0x334);
   ("CSR_MHPMEVENT21", Num 0x335); ("CSR_MHPMEVENT22", Num 0x336); ("CSR_MHPMEVENT23", Num 0x337);
   ("CSR_MHPMEVENT24", Num 0x338); ("CSR_MHPMEVENT25", Num 0x339); ("CSR_MHPMEVENT26", Num 0x33a);
   ("CSR_MHPMEVENT27", Num 0x33b); ("CSR_MHPMEVENT28", Num 0x33c); ("CSR_MHPMEVENT29", Num 0x33d);
   ("CSR_MHPMEVENT30", Num 0x33e); ("CSR_MHPMEVENT31", Num 0x33f); ("CSR_MVENDORID", Num 0xf11);
   ("CSR_MARCHID", Num 0xf12); ("CSR_MIMPID", Num 0xf13); ("CSR_MHARTID", Num 0xf14)].

(** Further registers. *)
Definition csr_defines_2 : list (string * mexpr) :=
  [("CSR_CYCLEH", Num 0xc80); ("CSR_TIMEH", Num 0xc81); ("CSR_INSTRETH", Num 0xc82);
   ("CSR_HPMCOUNTER3H", Num 0xc83); ("CSR_HPMCOUNTER4H", Num 0xc84); ("CSR_HPMCOUNTER5H", Num 0xc85);
   ("CSR_HPMCOUNTER6H", Num 0xc86); ("CSR_HPMCOUNTER7H", Num 0xc87); ("CSR_HPMCOUNTER8H", Num 0xc88);
   ("CSR_HPMCOUNTER9H", Num 0xc89); ("CSR_HPMCOUNTER10H", Num 0xc8a); ("CSR_HPMCOUNTER11H", Num 0xc8b);
   ("CSR_HPMCOUNTER12H", Num 0xc8c); ("CSR_HPMCOUNTER13H", Num 0xc8d); ("CSR_HPMCOUNTER14H", Num 0xc8e);
   ("CSR_HPMCOUNTER15H", Num 0xc8f); ("CSR_HPMCOUNTER16H", Num 0xc90); ("CSR_HPMCOUNTER17H", Num 0xc91);
   ("CSR_HPMCOUNTER18H", Num 0xc92); ("CSR_HPMCOUNTER19H", Num 0xc93); ("CSR_HPMCOUNTER20H", Num 0xc94);
   ("CSR_HPMCOUNTER21H", Num 0xc95); ("CSR_HPMCOUNTER22H", Num 0xc96); ("CSR_HPMCOUNTER23H", Num 0xc97);
   ("CSR_HPMCOUNTER24H", Num 0xc98); ("CSR_HPMCOUNTER25H", Num 0xc99); ("CSR_HPMCOUNTER26H", Num 0xc9a);
   ("CSR_HPMCOUNTER27H", Num 0xc9b); ("CSR_HPMCOUNTER28H", Num 0xc9c); ("CSR_HPMCOUNTER29H", Num 0xc9d);
   ("CSR_HPMCOUNTER30H", Num 0xc9e); ("CSR_HPMCOUNTER31H", Num 0xc9f); ("CSR_MCYCLEH", Num 0xb80);
   ("CSR_MINSTRETH", Num 0xb82); ("CSR_MHPMCOUNTER3H", Num 0xb83); ("CSR_MHPMCOUNTER4H", Num 0xb84);
   ("CSR_MHPMCOUNTER5H", Num 0xb85); ("CSR_MHPMCOUNTER6H", Num 0xb86); ("CSR_MHPMCOUNTER7H", Num 0xb87);
   ("CSR_MHPMCOUNTER8H", Num 0xb88); ("CSR_MHPMCOUNTER9H", Num 0xb89);
   ("CSR_MHPMCOUNTER10H", Num 0xb8a); ("CSR_MHPMCOUNTER11H", Num 0xb8b);
   ("CSR_MHPMCOUNTER12H", Num 0xb8c); ("CSR_MHPMCOUNTER13H", Num 0xb8d);
   ("CSR_MHPMCOUNTER14H", Num 0xb8e); ("CSR_MHPMCOUNTER15H", Num 0xb8f);
   ("CSR_MHPMCOUNTER16H", Num 0xb90); ("CSR_MHPMCOUNTER17H", Num 0xb91);
   ("CSR_MHPMCOUNTER18H", Num 0xb92); ("CSR_MHPMCOUNTER19H", Num 0xb93);
   ("CSR_MHPMCOUNTER20H", Num 0xb94); ("CSR_MHPMCOUNTER21H", Num 0xb95);
   ("CSR_MHPMCOUNTER22H", Num 0xb96); ("CSR_MHPMCOUNTER23H", Num 0xb97);
   ("CSR_MHPMCOUNTER24H", Num 0xb98); ("CSR_MHPMCOUNTER25H", Num 0xb99);
   ("CSR_MHPMCOUNTER26H", Num 0xb9a); ("CSR_MHPMCOUNTER27H", Num 0xb9b);
   ("CSR_MHPMCOUNTER28H", Num 0xb9c); ("CSR_MHPMCOUNTER29H", Num 0xb9d);
   ("CSR_MHPMCOUNTER30H", Num 0xb9e); ("CSR_MHPMCOUNTER31H", Num 0xb9f)].

(** Causes of exceptions. *)
Definition cause_defines : list (string * mexpr) :=
  [("CAUSE_MISALIGNED_FETCH", Num 0x0); ("CAUSE_FETCH_ACCESS", Num 0x1);
   ("CAUSE_ILLEGAL_INSTRUCTION", Num 0x2); ("CAUSE_BREAKPOINT", Num 0x3);
   ("CAUSE_MISALIGNED_LOAD", Num 0x4); ("CAUSE_LOAD_ACCESS", Num 0x5);
   ("CAUSE_MISALIGNED_STORE", Num 0x6); ("CAUSE_STORE_ACCESS", Num 0x7); ("CAUSE_USER_ECALL", Num 0x8);
   ("CAUSE_SUPERVISOR_ECALL", Num 0x9); ("CAUSE_HYPERVISOR_ECALL", Num 0xa);
   ("CAUSE_MACHINE_ECALL", Num 0xb); ("CAUSE_FETCH_PAGE_FAULT", Num 0xc);
   ("CAUSE_LOAD_PAGE_FAULT", Num 0xd); ("CAUSE_STORE_PAGE_FAULT", Num 0xf)].

(** The declared instructions. *)
Definition declared_insns_1 : list (string * string * string) :=
  [("beq", "MATCH_BEQ", "MASK_BEQ"); ("bne", "MATCH_BNE", "MASK_BNE"); ("blt", "MATCH_BLT", "MASK_BLT");
   ("bge", "MATCH_BGE", "MASK_BGE"); ("bltu", "MATCH_BLTU", "MASK_BLTU");
   ("bgeu", "MATCH_BGEU", "MASK_BGEU"); ("jalr", "MATCH_JALR", "MASK_JALR");
   ("jal", "MATCH_JAL", "MASK_JAL"); ("lui", "MATCH_LUI", "MASK_LUI");
   ("auipc", "MATCH_AUIPC", "MASK_AUIPC"); ("addi", "MATCH_ADDI", "MASK_ADDI");
   ("slli", "MATCH_SLLI", "MASK_SLLI"); ("slti", "MATCH_SLTI", "MASK_SLTI");
   ("sltiu", "MATCH_SLTIU", "MASK_SLTIU"); ("xori", "MATCH_XORI", "MASK_XORI");
   ("srli", "MATCH_SRLI", "MASK_SRLI"); ("srai", "MATCH_SRAI", "MASK_SRAI");
   ("ori", "MATCH_ORI", "MASK_ORI"); ("andi", "MATCH_ANDI", "MASK_ANDI");
   ("add", "MATCH_ADD", "MASK_ADD"); ("sub", "MATCH_SUB", "MASK_SUB"); ("sll", "MATCH_SLL", "MASK_SLL");
   ("slt", "MATCH_SLT", "MASK_SLT"); ("sltu", "MATCH_SLTU", "MASK_SLTU");
   ("xor", "MATCH_XOR", "MASK_XOR"); ("srl", "MATCH_SRL", "MASK_SRL"); ("sra", "MATCH_SRA", "MASK_SRA");
   ("or", "MATCH_OR", "MASK_OR"); ("and", "MATCH_AND", "MASK_AND");
   ("addiw", "MATCH_ADDIW", "MASK_ADDIW"); ("slliw", "MATCH_SLLIW", "MASK_SLLIW");
   ("srliw", "MATCH_SRLIW", "MASK_SRLIW"); ("sraiw", "MATCH_SRAIW", "MASK_SRAIW");
   ("addw", "MATCH_ADDW", "MASK_ADDW"); ("subw", "MATCH_SUBW", "MASK_SUBW");
   ("sllw", "MATCH_SLLW", "MASK_SLLW"); ("srlw", "MATCH_SRLW", "MASK_SRLW");
   ("sraw", "MATCH_SRAW", "MASK_SRAW"); ("lb", "MATCH_LB", "MASK_LB"); ("lh", "MATCH_LH", "MASK_LH");
   ("lw", "MATCH_LW", "MASK_LW"); ("ld", "MATCH_LD", "MASK_LD"); ("lbu", "MATCH_LBU", "MASK_LBU");
   ("lhu", "MATCH_LHU", "MASK_LHU"); ("lwu", "MATCH_LWU", "MASK_LWU"); ("sb", "MATCH_SB", "MASK_SB");
   ("sh", "MATCH_SH", "MASK_SH"); ("sw", "MATCH_SW", "MASK_SW"); ("sd", "MATCH_SD", "MASK_SD");
   ("fence", "MATCH_FENCE", "MASK_FENCE"); ("fence_i", "MATCH_FENCE_I", "MASK_FENCE_I");
   ("mul", "MATCH_MUL", "MASK_MUL"); ("mulh", "MATCH_MULH", "MASK_MULH");
   ("mulhsu", "MATCH_MULHSU", "MASK_MULHSU"); ("mulhu", "MATCH_MULHU", "MASK_MULHU");
   ("div", "MATCH_DIV", "MASK_DIV"); ("divu", "MATCH_DIVU", "MASK_DIVU");
   ("rem", "MATCH_REM", "MASK_REM"); ("remu", "MATCH_REMU", "MASK_REMU");
   ("mulw", "MATCH_MULW", "MASK_MULW"); ("divw", "MATCH_DIVW", "MASK_DIVW");
   ("divuw", "MATCH_DIVUW", "MASK_DIVUW"); ("remw", "MATCH_REMW", "MASK_REMW");
   ("remuw", "MATCH_REMUW", "MASK_REMUW"); ("amoadd_w", "MATCH_AMOADD_W", "MASK_AMOADD_W");
   ("amoxor_w", "MATCH_AMOXOR_W", "MASK_AMOXOR_W"); ("amoor_w", "MATCH_AMOOR_W", "MASK_AMOOR_W");
   ("amoand_w", "MATCH_AMOAND_W", "MASK_AMOAND_W"); ("amomin_w", "MATCH_AMOMIN_W", "MASK_AMOMIN_W");
   ("amomax_w", "MATCH_AMOMAX_W", "MASK_AMOMAX_W"); ("amominu_w", "MATCH_AMOMINU_W", "MASK_AMOMINU_W");
   ("amomaxu_w", "MATCH_AMOMAXU_W", "MASK_AMOMAXU_W");
   ("amoswap_w", "MATCH_AMOSWAP_W", "MASK_AMOSWAP_W"); ("lr_w", "MATCH_LR_W", "MASK_LR_W");
   ("sc_w", "MATCH_SC_W", "MASK_SC_W"); ("amoadd_d", "MATCH_AMOADD_D", "MASK_AMOADD_D");
   ("amoxor_d", "MATCH_AMOXOR_D", "MASK_AMOXOR_D"); ("amoor_d", "MATCH_AMOOR_D", "MASK_AMOOR_D");
   ("amoand_d", "MATCH_AMOAND_D", "MASK_AMOAND_D"); ("amomin_d", "MATCH_AMOMIN_D", "MASK_AMOMIN_D");
   ("amomax_d", "MATCH_AMOMAX_D", "MASK_AMOMAX_D"); ("amominu_d", "MATCH_AMOMINU_D", "MASK_AMOMINU_D");
   ("amomaxu_d", "MATCH_AMOMAXU_D", "MASK_AMOMAXU_D");
   ("amoswap_d", "MATCH_AMOSWAP_D", "MASK_AMOSWAP_D"); ("lr_d", "MATCH_LR_D", "MASK_LR_D");
   ("sc_d", "MATCH_SC_D", "MASK_SC_D"); ("ecall", "MATCH_ECALL", "MASK_ECALL");
   ("ebreak", "MATCH_EBREAK", "MASK_EBREAK"); ("uret", "MATCH_URET", "MASK_URET");
   ("sret", "MATCH_SRET", "MASK_SRET"); ("mret", "MATCH_MRET", "MASK_MRET");
   ("dret", "MATCH_DRET", "MASK_DRET"); ("sfence_vma", "MATCH_SFENCE_VMA", "MASK_SFENCE_VMA");
   ("wfi", "MATCH_WFI", "MASK_WFI"); ("csrrw", "MATCH_CSRRW", "MASK_CSRRW");
   ("csrrs", "MATCH_CSRRS", "MASK_CSRRS"); ("csrrc", "MATCH_CSRRC", "MASK_CSRRC");
   ("csrrwi", "MATCH_CSRRWI", "MASK_CSRRWI"); ("csrrsi", "MATCH_CSRRSI", "MASK_CSRRSI");
   ("csrrci", "MATCH_CSRRCI", "MASK_CSRRCI"); ("fadd_s", "MATCH_FADD_S", "MASK_FADD_S");
   ("fsub_s", "MATCH_FSUB_S", "MASK_FSUB_S"); ("fmul_s", "MATCH_FMUL_S", "MASK_FMUL_S");
   ("fdiv_s", "MATCH_FDIV_S", "MASK_FDIV_S"); ("fsgnj_s", "MATCH_FSGNJ_S", "MASK_FSGNJ_S");
   ("fsgnjn_s", "MATCH_FSGNJN_S", "MASK_FSGNJN_S"); ("fsgnjx_s", "MATCH_FSGNJX_S", "MASK_FSGNJX_S");
   ("fmin_s", "MATCH_FMIN_S", "MASK_FMIN_S"); ("fmax_s", "MATCH_FMAX_S", "MASK_FMAX_S");
   ("fsqrt_s", "MATCH_FSQRT_S", "MASK_FSQRT_S"); ("fadd_d", "MATCH_FADD_D", "MASK_FADD_D");
   ("fsub_d", "MATCH_FSUB_D", "MASK_FSUB_D"); ("fmul_d", "MATCH_FMUL_D", "MASK_FMUL_D");
   ("fdiv_d", "MATCH_FDIV_D", "MASK_FDIV_D"); ("fsgnj_d", "MATCH_FSGNJ_D", "MASK_FSGNJ_D");
   ("fsgnjn_d", "MATCH_FSGNJN_D", "MASK_FSGNJN_D"); ("fsgnjx_d", "MATCH_FSGNJX_D", "MASK_FSGNJX_D");
   ("fmin_d", "MATCH_FMIN_D", "MASK_FMIN_D"); ("fmax_d", "MATCH_FMAX_D", "MASK_FMAX_D");
   ("fcvt_s_d", "MATCH_FCVT_S_D", "MASK_FCVT_S_D"); ("fcvt_d_s", "MATCH_FCVT_D_S", "MASK_FCVT_D_S");
   ("fsqrt_d", "MATCH_FSQRT_D", "MASK_FSQRT_D"); ("fadd_q", "MATCH_FADD_Q", "MASK_FADD_Q");
   ("fsub_q", "MATCH_FSUB_Q", "MASK_FSUB_Q"); ("fmul_q", "MATCH_FMUL_Q", "MASK_FMUL_Q");
   ("fdiv_q", "MATCH_FDIV_Q", "MASK_FDIV_Q"); ("fsgnj_q", "MATCH_FSGNJ_Q", "MASK_FSGNJ_Q");
   ("fsgnjn_q", "MATCH_FSGNJN_Q", "MASK_FSGNJN_Q"); ("fsgnjx_q", "MATCH_FSGNJX_Q", "MASK_FSGNJX_Q");
   ("fmin_q", "MATCH_FMIN_Q", "MASK_FMIN_Q"); ("fmax_q", "MATCH_FMAX_Q", "MASK_FMAX_Q");
   ("fcvt_s_q", "MATCH_FCVT_S_Q", "MASK_FCVT_S_Q"); ("fcvt_q_s", "MATCH_FCVT_Q_S", "MASK_FCVT_Q_S");
   ("fcvt_d_q", "MATCH_FCVT_D_Q", "MASK_FCVT_D_Q"); ("fcvt_q_d", "MATCH_FCVT_Q_D", "MASK_FCVT_Q_D");
   ("fsqrt_q", "MATCH_FSQRT_Q", "MASK_FSQRT_Q"); ("fle_s", "MATCH_FLE_S", "MASK_FLE_S");
   ("flt_s", "MATCH_FLT_S", "MASK_FLT_S"); ("feq_s", "MATCH_FEQ_S", "MASK_FEQ_S");
   ("fle_d", "MATCH_FLE_D", "MASK_FLE_D"); ("flt_d", "MATCH_FLT_D", "MASK_FLT_D");
   ("feq_d", "MATCH_FEQ_D", "MASK_FEQ_D"); ("fle_q", "MATCH_FLE_Q", "MASK_FLE_Q");
   ("flt_q", "MATCH_FLT_Q", "MASK_FLT_Q"); ("feq_q", "MATCH_FEQ_Q", "MASK_FEQ_Q");
   ("fcvt_w_s", "MATCH_FCVT_W_S", "MASK_FCVT_W_S"); ("fcvt_wu_s", "MATCH_FCVT_WU_S", "MASK_FCVT_WU_S");
   ("fcvt_l_s", "MATCH_FCVT_L_S", "MASK_FCVT_L_S"); ("fcvt_lu_s", "MATCH_FCVT_LU_S", "MASK_FCVT_LU_S");
   ("fmv_x_w", "MATCH_FMV_X_W", "MASK_FMV_X_W")].

(** The others. *)
Definition declared_insns_2 : list (string * string * string) :=
  [("fclass_s", "MATCH_FCLASS_S", "MASK_FCLASS_S"); ("fcvt_w_d", "MATCH_FCVT_W_D", "MASK_FCVT_W_D");
   ("fcvt_wu_d", "MATCH_FCVT_WU_D", "MASK_FCVT_WU_D"); ("fcvt_l_d", "MATCH_FCVT_L_D", "MASK_FCVT_L_D");
   ("fcvt_lu_d", "MATCH_FCVT_LU_D", "MASK_FCVT_LU_D"); ("fmv_x_d", "MATCH_FMV_X_D", "MASK_FMV_X_D");
   ("fclass_d", "MATCH_FCLASS_D", "MASK_FCLASS_D"); ("fcvt_w_q", "MATCH_FCVT_W_Q", "MASK_FCVT_W_Q");
   ("fcvt_wu_q", "MATCH_FCVT_WU_Q", "MASK_FCVT_WU_Q"); ("fcvt_l_q", "MATCH_FCVT_L_Q", "MASK_FCVT_L_Q");
   ("fcvt_lu_q", "MATCH_FCVT_LU_Q", "MASK_FCVT_LU_Q"); ("fmv_x_q", "MATCH_FMV_X_Q", "MASK_FMV_X_Q");
   ("fclass_q", "MATCH_FCLASS_Q", "MASK_FCLASS_Q"); ("fcvt_s_w", "MATCH_FCVT_S_W", "MASK_FCVT_S_W");
   ("fcvt_s_wu", "MATCH_FCVT_S_WU", "MASK_FCVT_S_WU"); ("fcvt_s_l", "MATCH_FCVT_S_L", "MASK_FCVT_S_L");
   ("fcvt_s_lu", "MATCH_FCVT_S_LU", "MASK_FCVT_S_LU"); ("fmv_w_x", "MATCH_FMV_W_X", "MASK_FMV_W_X");
   ("fcvt_d_w", "MATCH_FCVT_D_W", "MASK_FCVT_D_W"); ("fcvt_d_wu", "MATCH_FCVT_D_WU", "MASK_FCVT_D_WU");
   ("fcvt_d_l", "MATCH_FCVT_D_L", "MASK_FCVT_D_L"); ("fcvt_d_lu", "MATCH_FCVT_D_LU", "MASK_FCVT_D_LU");
   ("fmv_d_x", "MATCH_FMV_D_X", "MASK_FMV_D_X"); ("fcvt_q_w", "MATCH_FCVT_Q_W", "MASK_FCVT_Q_W");
   ("fcvt_q_wu", "MATCH_FCVT_Q_WU", "MASK_FCVT_Q_WU"); ("fcvt_q_l", "MATCH_FCVT_Q_L", "MASK_FCVT_Q_L");
   ("fcvt_q_lu", "MATCH_FCVT_Q_LU", "MASK_FCVT_Q_LU"); ("fmv_q_x", "MATCH_FMV_Q_X", "MASK_FMV_Q_X");
   ("flw", "MATCH_FLW", "MASK_FLW"); ("fld", "MATCH_FLD", "MASK_FLD"); ("flq", "MATCH_FLQ", "MASK_FLQ");
   ("fsw", "MATCH_FSW", "MASK_FSW"); ("fsd", "MATCH_FSD", "MASK_FSD"); ("fsq", "MATCH_FSQ", "MASK_FSQ");
   ("fmadd_s", "MATCH_FMADD_S", "MASK_FMADD_S"); ("fmsub_s", "MATCH_FMSUB_S", "MASK_FMSUB_S");
   ("fnmsub_s", "MATCH_FNMSUB_S", "MASK_FNMSUB_S"); ("fnmadd_s", "MATCH_FNMADD_S", "MASK_FNMADD_S");
   ("fmadd_d", "MATCH_FMADD_D", "MASK_FMADD_D"); ("fmsub_d", "MATCH_FMSUB_D", "MASK_FMSUB_D");
   ("fnmsub_d", "MATCH_FNMSUB_D", "MASK_FNMSUB_D"); ("fnmadd_d", "MATCH_FNMADD_D", "MASK_FNMADD_D");
   ("fmadd_q", "MATCH_FMADD_Q", "MASK_FMADD_Q"); ("fmsub_q", "MATCH_FMSUB_Q", "MASK_FMSUB_Q");
   ("fnmsub_q", "MATCH_FNMSUB_Q", "MASK_FNMSUB_Q"); ("fnmadd_q", "MATCH_FNMADD_Q", "MASK_FNMADD_Q");
   ("c_nop", "MATCH_C_NOP", "MASK_C_NOP"); ("c_addi16sp", "MATCH_C_ADDI16SP", "MASK_C_ADDI16SP");
   ("c_jr", "MATCH_C_JR", "MASK_C_JR"); ("c_jalr", "MATCH_C_JALR", "MASK_C_JALR");
   ("c_ebreak", "MATCH_C_EBREAK", "MASK_C_EBREAK"); ("c_ld", "MATCH_C_LD", "MASK_C_LD");
   ("c_sd", "MATCH_C_SD", "MASK_C_SD"); ("c_addiw", "MATCH_C_ADDIW", "MASK_C_ADDIW");
   ("c_ldsp", "MATCH_C_LDSP", "MASK_C_LDSP"); ("c_sdsp", "MATCH_C_SDSP", "MASK_C_SDSP");
   ("c_addi4spn", "MATCH_C_ADDI4SPN", "MASK_C_ADDI4SPN"); ("c_fld", "MATCH_C_FLD", "MASK_C_FLD");
   ("c_lw", "MATCH_C_LW", "MASK_C_LW"); ("c_flw", "MATCH_C_FLW", "MASK_C_FLW");
   ("c_fsd", "MATCH_C_FSD", "MASK_C_FSD"); ("c_sw", "MATCH_C_SW", "MASK_C_SW");
   ("c_fsw", "MATCH_C_FSW", "MASK_C_FSW"); ("c_addi", "MATCH_C_ADDI", "MASK_C_ADDI");
   ("c_jal", "MATCH_C_JAL", "MASK_C_JAL"); ("c_li", "MATCH_C_LI", "MASK_C_LI");
   ("c_lui", "MATCH_C_LUI", "MASK_C_LUI"); ("c_srli", "MATCH_C_SRLI", "MASK_C_SRLI");
   ("c_srai", "MATCH_C_SRAI", "MASK_C_SRAI"); ("c_andi", "MATCH_C_ANDI", "MASK_C_ANDI");
   ("c_sub", "MATCH_C_SUB", "MASK_C_SUB"); ("c_xor", "MATCH_C_XOR", "MASK_C_XOR");
   ("c_or", "MATCH_C_OR", "MASK_C_OR"); ("c_and", "MATCH_C_AND", "MASK_C_AND");
   ("c_subw", "MATCH_C_SUBW", "MASK_C_SUBW"); ("c_addw", "MATCH_C_ADDW", "MASK_C_ADDW");
   ("c_j", "MATCH_C_J", "MASK_C_J"); ("c_beqz", "MATCH_C_BEQZ", "MASK_C_BEQZ");
   ("c_bnez", "MATCH_C_BNEZ", "MASK_C_BNEZ"); ("c_slli", "MATCH_C_SLLI", "MASK_C_SLLI");
   ("c_fldsp", "MATCH_C_FLDSP", "MASK_C_FLDSP"); ("c_lwsp", "MATCH_C_LWSP", "MASK_C_LWSP");
   ("c_flwsp", "MATCH_C_FLWSP", "MASK_C_FLWSP"); ("c_mv", "MATCH_C_MV", "MASK_C_MV");
   ("c_add", "MATCH_C_ADD", "MASK_C_ADD"); ("c_fsdsp", "MATCH_C_FSDSP", "MASK_C_FSDSP");
   ("c_swsp", "MATCH_C_SWSP", "MASK_C_SWSP"); ("c_fswsp", "MATCH_C_FSWSP", "MASK_C_FSWSP");
   ("custom0", "MATCH_CUSTOM0", "MASK_CUSTOM0");
   ("custom0_rs1", "MATCH_CUSTOM0_RS1", "MASK_CUSTOM0_RS1");
   ("custom0_rs1_rs2", "MATCH_CUSTOM0_RS1_RS2", "MASK_CUSTOM0_RS1_RS2");
   ("custom0_rd", "MATCH_CUSTOM0_RD", "MASK_CUSTOM0_RD");
   ("custom0_rd_rs1", "MATCH_CUSTOM0_RD_RS1", "MASK_CUSTOM0_RD_RS1");
   ("custom0_rd_rs1_rs2", "MATCH_CUSTOM0_RD_RS1_RS2", "MASK_CUSTOM0_RD_RS1_RS2");
   ("custom1", "MATCH_CUSTOM1", "MASK_CUSTOM1");
   ("custom1_rs1", "MATCH_CUSTOM1_RS1", "MASK_CUSTOM1_RS1");
   ("custom1_rs1_rs2", "MATCH_CUSTOM1_RS1_RS2", "MASK_CUSTOM1_RS1_RS2");
   ("custom1_rd", "MATCH_CUSTOM1_RD", "MASK_CUSTOM1_RD");
   ("custom1_rd_rs1", "MATCH_CUSTOM1_RD_RS1", "MASK_CUSTOM1_RD_RS1");
   ("custom1_rd_rs1_rs2", "MATCH_CUSTOM1_RD_RS1_RS2", "MASK_CUSTOM1_RD_RS1_RS2");
   ("custom2", "MATCH_CUSTOM2", "MASK_CUSTOM2");
   ("custom2_rs1", "MATCH_CUSTOM2_RS1", "MASK_CUSTOM2_RS1");
   ("custom2_rs1_rs2", "MATCH_CUSTOM2_RS1_RS2", "MASK_CUSTOM2_RS1_RS2");
   ("custom2_rd", "MATCH_CUSTOM2_RD", "MASK_CUSTOM2_RD");
   ("custom2_rd_rs1", "MATCH_CUSTOM2_RD_RS1", "MASK_CUSTOM2_RD_RS1");
   ("custom2_rd_rs1_rs2", "MATCH_CUSTOM2_RD_RS1_RS2", "MASK_CUSTOM2_RD_RS1_RS2");
   ("custom3", "MATCH_CUSTOM3", "MASK_CUSTOM3");
   ("custom3_rs1", "MATCH_CUSTOM3_RS1", "MASK_CUSTOM3_RS1");
   ("custom3_rs1_rs2", "MATCH_CUSTOM3_RS1_RS2", "MASK_CUSTOM3_RS1_RS2");
   ("custom3_rd", "MATCH_CUSTOM3_RD", "MASK_CUSTOM3_RD");
   ("custom3_rd_rs1", "MATCH_CUSTOM3_RD_RS1", "MASK_CUSTOM3_RD_RS1");
   ("custom3_rd_rs1_rs2", "MATCH_CUSTOM3_RD_RS1_RS2", "MASK_CUSTOM3_RD_RS1_RS2")].

(** The declared registers. *)
Definition declared_csrs_1 : list (string * string) :=
  [("fflags", "CSR_FFLAGS"); ("frm", "CSR_FRM"); ("fcsr", "CSR_FCSR"); ("cycle", "CSR_CYCLE");
   ("time", "CSR_TIME"); ("instret", "CSR_INSTRET"); ("hpmcounter3", "CSR_HPMCOUNTER3");
   ("hpmcounter4", "CSR_HPMCOUNTER4"); ("hpmcounter5", "CSR_HPMCOUNTER5");
   ("hpmcounter6", "CSR_HPMCOUNTER6"); ("hpmcounter7", "CSR_HPMCOUNTER7");
   ("hpmcounter8", "CSR_HPMCOUNTER8"); ("hpmcounter9", "CSR_HPMCOUNTER9");
   ("hpmcounter10", "CSR_HPMCOUNTER10"); ("hpmcounter11", "CSR_HPMCOUNTER11");
   ("hpmcounter12", "CSR_HPMCOUNTER12"); ("hpmcounter13", "CSR_HPMCOUNTER13");
   ("hpmcounter14", "CSR_HPMCOUNTER14"); ("hpmcounter15", "CSR_HPMCOUNTER15");
   ("hpmcounter16", "CSR_HPMCOUNTER16"); ("hpmcounter17", "CSR_HPMCOUNTER17");
   ("hpmcounter18", "CSR_HPMCOUNTER18"); ("hpmcounter19", "CSR_HPMCOUNTER19");
   ("hpmcounter20", "CSR_HPMCOUNTER20"); ("hpmcounter21", "CSR_HPMCOUNTER21");
   ("hpmcounter22", "CSR_HPMCOUNTER22"); ("hpmcounter23", "CSR_HPMCOUNTER23");
   ("hpmcounter24", "CSR_HPMCOUNTER24"); ("hpmcounter25", "CSR_HPMCOUNTER25");
   ("hpmcounter26", "CSR_HPMCOUNTER26"); ("hpmcounter27", "CSR_HPMCOUNTER27");
   ("hpmcounter28", "CSR_HPMCOUNTER28"); ("hpmcounter29", "CSR_HPMCOUNTER29");
   ("hpmcounter30", "CSR_HPMCOUNTER30"); ("hpmcounter31", "CSR_HPMCOUNTER31");
   ("sstatus", "CSR_SSTATUS"); ("sie", "CSR_SIE"); ("stvec", "CSR_STVEC");
   ("scounteren", "CSR_SCOUNTEREN"); ("sscratch", "CSR_SSCRATCH"); ("sepc", "CSR_SEPC");
   ("scause", "CSR_SCAUSE"); ("stval", "CSR_STVAL"); ("sip", "CSR_SIP"); ("satp", "CSR_SATP");
   ("mstatus", "CSR_MSTATUS"); ("misa", "CSR_MISA"); ("medeleg", "CSR_MEDELEG");
   ("mideleg", "CSR_MIDELEG"); ("mie", "CSR_MIE"); ("mtvec", "CSR_MTVEC");
   ("mcounteren", "CSR_MCOUNTEREN"); ("mscratch", "CSR_MSCRATCH"); ("mepc", "CSR_MEPC");
   ("mcause", "CSR_MCAUSE"); ("mtval", "CSR_MTVAL"); ("mip", "CSR_MIP"); ("pmpcfg0", "CSR_PMPCFG0");
   ("pmpcfg1", "CSR_PMPCFG1"); ("pmpcfg2", "CSR_PMPCFG2"); ("pmpcfg3", "CSR_PMPCFG3");
   ("pmpaddr0", "CSR_PMPADDR0"); ("pmpaddr1", "CSR_PMPADDR1"); ("pmpaddr2", "CSR_PMPADDR2");
   ("pmpaddr3", "CSR_PMPADDR3"); ("pmpaddr4", "CSR_PMPADDR4"); ("pmpaddr5", "CSR_PMPADDR5");
   ("pmpaddr6", "CSR_PMPADDR6"); ("pmpaddr7", "CSR_PMPADDR7"); ("pmpaddr8", "CSR_PMPADDR8");
   ("pmpaddr9", "CSR_PMPADDR9"); ("pmpaddr10", "CSR_PMPADDR10"); ("pmpaddr11", "CSR_PMPADDR11");
   ("pmpaddr12", "CSR_PMPADDR12"); ("pmpaddr13", "CSR_PMPADDR13"); ("pmpaddr14", "CSR_PMPADDR14");
   ("pmpaddr15", "CSR_PMPADDR15"); ("tselect", "CSR_TSELECT"); ("tdata1", "CSR_TDATA1");
   ("tdata2", "CSR_TDATA2"); ("tdata3", "CSR_TDATA3"); ("dcsr", "CSR_DCSR"); ("dpc", "CSR_DPC");
   ("dscratch", "CSR_DSCRATCH"); ("dscratch0", "CSR_DSCRATCH0"); ("dscratch1", "CSR_DSCRATCH1");
   ("mcycle", "CSR_MCYCLE"); ("minstret", "CSR_MINSTRET"); ("mhpmcounter3", "CSR_MHPMCOUNTER3");
   ("mhpmcounter4", "CSR_MHPMCOUNTER4"); ("mhpmcounter5", "CSR_MHPMCOUNTER5");
   ("mhpmcounter6", "CSR_MHPMCOUNTER6"); ("mhpmcounter7", "CSR_MHPMCOUNTER7");
   ("mhpmcounter8", "CSR_MHPMCOUNTER8"); ("mhpmcounter9", "CSR_MHPMCOUNTER9");
   ("mhpmcounter10", "CSR_MHPMCOUNTER10"); ("mhpmcounter11", "CSR_MHPMCOUNTER11");
   ("mhpmcounter12", "CSR_MHPMCOUNTER12"); ("mhpmcounter13", "CSR_MHPMCOUNTER13");
   ("mhpmcounter14", "CSR_MHPMCOUNTER14"); ("mhpmcounter15", "CSR_MHPMCOUNTER15");
   ("mhpmcounter16", "CSR_MHPMCOUNTER16"); ("mhpmcounter17", "CSR_MHPMCOUNTER17");
   ("mhpmcounter18", "CSR_MHPMCOUNTER18"); ("mhpmcounter19", "CSR_MHPMCOUNTER19");
   ("mhpmcounter20", "CSR_MHPMCOUNTER20"); ("mhpmcounter21", "CSR_MHPMCOUNTER21");
   ("mhpmcounter22", "CSR_MHPMCOUNTER22"); ("mhpmcounter23", "CSR_MHPMCOUNTER23");
   ("mhpmcounter24", "CSR_MHPMCOUNTER24"); ("mhpmcounter25", "CSR_MHPMCOUNTER25");
   ("mhpmcounter26", "CSR_MHPMCOUNTER26"); ("mhpmcounter27", "CSR_MHPMCOUNTER27");
   ("mhpmcounter28", "CSR_MHPMCOUNTER28"); ("mhpmcounter29", "CSR_MHPMCOUNTER29");
   ("mhpmcounter30", "CSR_MHPMCOUNTER30"); ("mhpmcounter31", "CSR_MHPMCOUNTER31");
   ("mhpmevent3", "CSR_MHPMEVENT3"); ("mhpmevent4", "CSR_MHPMEVENT4"); ("mhpmevent5", "CSR_MHPMEVENT5");
   ("mhpmevent6", "CSR_MHPMEVENT6"); ("mhpmevent7", "CSR_MHPMEVENT7"); ("mhpmevent8", "CSR_MHPMEVENT8");
   ("mhpmevent9", "CSR_MHPMEVENT9"); ("mhpmevent10", "CSR_MHPMEVENT10");
   ("mhpmevent11", "CSR_MHPMEVENT11"); ("mhpmevent12", "CSR_MHPMEVENT12");
   ("mhpmevent13", "CSR_MHPMEVENT13"); ("mhpmevent14", "CSR_MHPMEVENT14");
   ("mhpmevent15", "CSR_MHPMEVENT15"); ("mhpmevent16", "CSR_MHPMEVENT16");
   ("mhpmevent17", "CSR_MHPMEVENT17"); ("mhpmevent18", "CSR_MHPMEVENT18");
   ("mhpmevent19", "CSR_MHPMEVENT19"); ("mhpmevent20", "CSR_MHPMEVENT20");
   ("mhpmevent21", "CSR_MHPMEVENT21"); ("mhpmevent22", "CSR_MHPMEVENT22");
   ("mhpmevent23", "CSR_MHPMEVENT23"); ("mhpmevent24", "CSR_MHPMEVENT24");
   ("mhpmevent25", "CSR_MHPMEVENT25"); ("mhpmevent26", "CSR_MHPMEVENT26");
   ("mhpmevent27", "CSR_MHPMEVENT27"); ("mhpmevent28", "CSR_MHPMEVENT28");
   ("mhpmevent29", "CSR_MHPMEVENT29"); ("mhpmevent30", "CSR_MHPMEVENT30");
   ("mhpmevent31", "CSR_MHPMEVENT31"); ("mvendorid", "CSR_MVENDORID"); ("marchid", "CSR_MARCHID");
   ("mimpid", "CSR_MIMPID"); ("mhartid", "CSR_MHARTID")].

(** The others. *)
Definition declared_csrs_2 : list (string * string) :=
  [("cycleh", "CSR_CYCLEH"); ("timeh", "CSR_TIMEH"); ("instreth", "CSR_INSTRETH");
   ("hpmcounter3h", "CSR_HPMCOUNTER3H"); ("hpmcounter4h", "CSR_HPMCOUNTER4H");
   ("hpmcounter5h", "CSR_HPMCOUNTER5H"); ("hpmcounter6h", "CSR_HPMCOUNTER6H");
   ("hpmcounter7h", "CSR_HPMCOUNTER7H"); ("hpmcounter8h", "CSR_HPMCOUNTER8H");
   ("hpmcounter9h", "CSR_HPMCOUNTER9H"); ("hpmcounter10h", "CSR_HPMCOUNTER10H");
   ("hpmcounter11h", "CSR_HPMCOUNTER11H"); ("hpmcounter12h", "CSR_HPMCOUNTER12H");
   ("hpmcounter13h", "CSR_HPMCOUNTER13H"); ("hpmcounter14h", "CSR_HPMCOUNTER14H");
   ("hpmcounter15h", "CSR_HPMCOUNTER15H"); ("hpmcounter16h", "CSR_HPMCOUNTER16H");
   ("hpmcounter17h", "CSR_HPMCOUNTER17H"); ("hpmcounter18h", "CSR_HPMCOUNTER18H");
   ("hpmcounter19h", "CSR_HPMCOUNTER19H"); ("hpmcounter20h", "CSR_HPMCOUNTER20H");
   ("hpmcounter21h", "CSR_HPMCOUNTER21H"); ("hpmcounter22h", "CSR_HPMCOUNTER22H");
   ("hpmcounter23h", "CSR_HPMCOUNTER23H"); ("hpmcounter24h", "CSR_HPMCOUNTER24H");
   ("hpmcounter25h", "CSR_HPMCOUNTER25H"); ("hpmcounter26h", "CSR_HPMCOUNTER26H");
   ("hpmcounter27h", "CSR_HPMCOUNTER27H"); ("hpmcounter28h", "CSR_HPMCOUNTER28H");
   ("hpmcounter29h", "CSR_HPMCOUNTER29H"); ("hpmcounter30h", "CSR_HPMCOUNTER30H");
   ("hpmcounter31h", "CSR_HPMCOUNTER31H"); ("mcycleh", "CSR_MCYCLEH"); ("minstreth", "CSR_MINSTRETH");
   ("mhpmcounter3h", "CSR_MHPMCOUNTER3H"); ("mhpmcounter4h", "CSR_MHPMCOUNTER4H");
   ("mhpmcounter5h", "CSR_MHPMCOUNTER5H"); ("mhpmcounter6h", "CSR_MHPMCOUNTER6H");
   ("mhpmcounter7h", "CSR_MHPMCOUNTER7H"); ("mhpmcounter8h", "CSR_MHPMCOUNTER8H");
   ("mhpmcounter9h", "CSR_MHPMCOUNTER9H"); ("mhpmcounter10h", "CSR_MHPMCOUNTER10H");
   ("mhpmcounter11h", "CSR_MHPMCOUNTER11H"); ("mhpmcounter12h", "CSR_MHPMCOUNTER12H");
   ("mhpmcounter13h", "CSR_MHPMCOUNTER13H"); ("mhpmcounter14h", "CSR_MHPMCOUNTER14H");
   ("mhpmcounter15h", "CSR_MHPMCOUNTER15H"); ("mhpmcounter16h", "CSR_MHPMCOUNTER16H");
   ("mhpmcounter17h", "CSR_MHPMCOUNTER17H"); ("mhpmcounter18h", "CSR_MHPMCOUNTER18H");
   ("mhpmcounter19h", "CSR_MHPMCOUNTER19H"); ("mhpmcounter20h", "CSR_MHPMCOUNTER20H");
   ("mhpmcounter21h", "CSR_MHPMCOUNTER21H"); ("mhpmcounter22h", "CSR_MHPMCOUNTER22H");
   ("mhpmcounter23h", "CSR_MHPMCOUNTER23H"); ("mhpmcounter24h", "CSR_MHPMCOUNTER24H");
   ("mhpmcounter25h", "CSR_MHPMCOUNTER25H"); ("mhpmcounter26h", "CSR_MHPMCOUNTER26H");
   ("mhpmcounter27h", "CSR_MHPMCOUNTER27H"); ("mhpmcounter28h", "CSR_MHPMCOUNTER28H");
   ("mhpmcounter29h", "CSR_MHPMCOUNTER29H"); ("mhpmcounter30h", "CSR_MHPMCOUNTER30H");
   ("mhpmcounter31h", "CSR_MHPMCOUNTER31H")].

(** The declared causes. *)
Definition declared_causes : list (string * string) :=
  [("misaligned fetch", "CAUSE_MISALIGNED_FETCH"); ("fetch access", "CAUSE_FETCH_ACCESS");
   ("illegal instruction", "CAUSE_ILLEGAL_INSTRUCTION"); ("breakpoint", "CAUSE_BREAKPOINT");
   ("misaligned load", "CAUSE_MISALIGNED_LOAD"); ("load access", "CAUSE_LOAD_ACCESS");
   ("misaligned store", "CAUSE_MISALIGNED_STORE"); ("store access", "CAUSE_STORE_ACCESS");
   ("user_ecall", "CAUSE_USER_ECALL"); ("supervisor_ecall", "CAUSE_SUPERVISOR_ECALL");
   ("hypervisor_ecall", "CAUSE_HYPERVISOR_ECALL"); ("machine_ecall", "CAUSE_MACHINE_ECALL");
   ("fetch page fault", "CAUSE_FETCH_PAGE_FAULT"); ("load page fault", "CAUSE_LOAD_PAGE_FAULT");
   ("store page fault", "CAUSE_STORE_PAGE_FAULT")].

(** * Expansion *)

(** All object-like macros, for a width of the registers. *)
Definition macros (xlen : Z) : list (string * mexpr) :=
  status_defines ++ machine_defines ++ xlen_defines xlen ++ page_defines
  ++ insn_defines_1 ++ insn_defines_2 ++ insn_defines_3 ++ insn_defines_4
  ++ csr_defines_1 ++ csr_defines_2 ++ cause_defines.

Fixpoint assoc {A} (name : string) (l : list (string * A)) : option A :=
  match l with
  | [] => None
  | (n, a) :: l => if String.eqb n name then Some a else assoc name l
  end.

(** The value of a macro; a name without a definition has none. *)
Fixpoint expand (fuel : nat) (env : list (string * mexpr)) (e : mexpr) : option Z :=
  match fuel with
  | O => None
  | S fuel =>
      match e with
      | Num z => Some z
      | Ref n => e ← assoc n env; expand fuel env e
      | Shl a b => x ← expand fuel env a; y ← expand fuel env b; Some (Z.shiftl x y)
      end
  end.

(** No chain of macros is longer than three: five steps reach the numbers at its end. *)
Definition value (xlen : Z) (name : string) : option Z := expand 5 (macros xlen) (Ref name).

Definition has_value (xlen : Z) (name : string) : bool :=
  match value xlen name with Some _ => true | None => false end.

(** * The declared tables *)

Record insn := Insn { i_name : string; i_match : Z; i_mask : Z }.

#[export] Instance insn_eq_dec : EqDecision insn.
Proof. solve_decision. Defined.

Definition resolve_insn (d : string * string * string) : option insn :=
  let '(name, m, k) := d in
  m ← value 64 m; k ← value 64 k; Some (Insn name m k).

Definition resolve_number (d : string * string) : option (string * Z) :=
  v ← value 64 (snd d); Some (fst d, v).

Definition declared_insns : list (string * string * string) := declared_insns_1 ++ declared_insns_2.
Definition declared_csrs : list (string * string) := declared_csrs_1 ++ declared_csrs_2.

(** The tables a client of the header gets when it defines [DECLARE_INSN] and [DECLARE_CSR]. *)
Definition insns : list insn := Eval vm_compute in omap resolve_insn declared_insns.
Definition csrs : list (string * Z) := Eval vm_compute in omap resolve_number declared_csrs.
Definition causes : list (string * Z) := Eval vm_compute in omap resolve_number declared_causes.

Lemma insns_resolve : mapM resolve_insn declared_insns = Some insns.
Proof. vm_compute. reflexivity. Qed.

Lemma csrs_resolve : mapM resolve_number declared_csrs = Some csrs.
Proof. vm_compute. reflexivity. Qed.

Lemma causes_resolve : mapM resolve_number declared_causes = Some causes.
Proof. vm_compute. reflexivity. Qed.

(** * The decoder *)

(** [(insn ^ match) & mask == 0] *)
Definition matches (i : insn) (w : Z) : bool := Z.land (Z.lxor w (i_match i)) (i_mask i) =? 0.

(** The first declared instruction that matches. *)
Definition decode (w : Z) : option insn := List.find (fun i => matches i w) insns.

(** ** The fields of a word *)

(** Bits [lo] to [lo + n - 1] of a word, and the signed value of [n] bits. *)
Definition bits_at (lo n w : Z) : Z := Z.shiftr w lo mod 2 ^ n.
Definition sext (n z : Z) : Z := if z <? 2 ^ (n - 1) then z else z - 2 ^ n.

Definition rd (w : Z) : Z := bits_at 7 5 w.
Definition rs1 (w : Z) : Z := bits_at 15 5 w.
Definition rs2 (w : Z) : Z := bits_at 20 5 w.
Definition imm_i (w : Z) : Z := sext 12 (bits_at 20 12 w).
Definition imm_s (w : Z) : Z := sext 12 (2 ^ 5 * bits_at 25 7 w + bits_at 7 5 w).
Definition imm_b (w : Z) : Z :=
  sext 13 (2 ^ 12 * bits_at 31 1 w + 2 ^ 11 * bits_at 7 1 w + 2 ^ 5 * bits_at 25 6 w + 2 * bits_at 8 4 w).
Definition imm_u (w : Z) : Z := sext 32 (2 ^ 12 * bits_at 12 20 w).
Definition imm_j (w : Z) : Z :=
  sext 21 (2 ^ 20 * bits_at 31 1 w + 2 ^ 12 * bits_at 12 8 w + 2 ^ 11 * bits_at 20 1 w + 2 * bits_at 21 10 w).

(** The two low bits of an instruction of four bytes are set. *)
Definition wide (i : insn) : bool := Z.land (i_match i) 3 =? 3.

(** Bits on which two patterns cannot agree. *)
Definition clash (i j : insn) : bool :=
  negb (Z.land (Z.lxor (i_match i) (i_match j)) (Z.land (i_mask i) (i_mask j)) =? 0).

(** * Facts of the tables, by evaluation *)

Lemma forallb_pairs {A} (f : A -> A -> bool) (l : list A) :
  forallb (fun x => forallb (f x) l) l = true -> forall x y, x ∈ l -> y ∈ l -> f x y = true.
Proof.
  rewrite forallb_forall. intros H x y Hx Hy. apply list_elem_of_In in Hx, Hy.
  specialize (H x Hx). rewrite forallb_forall in H. by apply H.
Qed.

Lemma forallb_elem {A} (f : A -> bool) (l : list A) : forallb f l = true -> forall x, x ∈ l -> f x = true.
Proof. rewrite forallb_forall. intros H x Hx. by apply H, list_elem_of_In. Qed.

Lemma insns_masks : forall i, i ∈ insns ->
  Z.land (i_mask i) 3 = 3 /\ Z.land (i_match i) (i_mask i) = i_match i /\ 0 <= i_mask i < 2 ^ 32.
Proof.
  intros i Hi.
  assert (H : (fun i => (Z.land (i_mask i) 3 =? 3) && (Z.land (i_match i) (i_mask i) =? i_match i)
                        && (0 <=? i_mask i) && (i_mask i <? 2 ^ 32)) i = true).
  { revert i Hi. apply forallb_elem. by vm_compute. }
  cbn beta in H. rewrite !andb_true_iff, !Z.eqb_eq, Z.leb_le, Z.ltb_lt in H. lia.
Qed.

Lemma insns_names : NoDup (i_name <$> insns).
Proof. apply (bool_decide_unpack _). by vm_compute. Qed.

Lemma wide_clash i j : i ∈ insns -> j ∈ insns -> wide i = true -> wide j = true -> i <> j -> clash i j = true.
Proof.
  intros Hi Hj Wi Wj Hne.
  assert (H : (fun i j => negb (wide i && wide j) || bool_decide (i = j) || clash i j) i j = true).
  { revert i j Hi Hj Wi Wj Hne. intros i j Hi Hj _ _ _. revert i j Hi Hj. apply forallb_pairs. by vm_compute. }
  cbn beta in H. by rewrite Wi, Wj, bool_decide_false in H by done.
Qed.

(** Compressed instructions that share words: one refines the other, or they belong to registers
    of different widths. *)
Definition overlapping : list (string * string) :=
  [("c_nop", "c_addi"); ("c_addi16sp", "c_lui"); ("c_jr", "c_mv"); ("c_ebreak", "c_jalr");
   ("c_jalr", "c_add"); ("c_ebreak", "c_add"); ("c_ld", "c_flw"); ("c_sd", "c_fsw");
   ("c_addiw", "c_jal"); ("c_ldsp", "c_flwsp"); ("c_sdsp", "c_fswsp")].

Definition overlap (i j : insn) : bool :=
  bool_decide ((i_name i, i_name j) ∈ overlapping) || bool_decide ((i_name j, i_name i) ∈ overlapping).

Lemma narrow_clash i j : i ∈ insns -> j ∈ insns -> i <> j -> clash i j = true \/ overlap i j = true.
Proof.
  intros Hi Hj Hne.
  assert (H : (fun i j => bool_decide (i = j) || clash i j || overlap i j) i j = true).
  { revert i j Hi Hj Hne. intros i j Hi Hj _. revert i j Hi Hj. apply forallb_pairs. by vm_compute. }
  cbn beta in H. rewrite bool_decide_false in H by done. by apply orb_true_iff in H.
Qed.

(** * Patterns *)

Lemma matches_bits i w :
  matches i w = true <->
  forall n, 0 <= n -> Z.testbit (i_mask i) n = true -> Z.testbit w n = Z.testbit (i_match i) n.
Proof.
  unfold matches. rewrite Z.eqb_eq. split.
  - intros H n Hn Hk. assert (E : Z.testbit (Z.land (Z.lxor w (i_match i)) (i_mask i)) n = false)
      by (rewrite H; apply Z.testbit_0_l).
    rewrite Z.land_spec, Z.lxor_spec, Hk in E.
    by destruct (Z.testbit w n), (Z.testbit (i_match i) n).
  - intros H. apply Z.bits_inj'. intros n Hn. rewrite Z.land_spec, Z.lxor_spec, Z.testbit_0_l.
    destruct (Z.testbit (i_mask i) n) eqn:E; [|by rewrite andb_false_r].
    rewrite (H n Hn E). by rewrite xorb_nilpotent.
Qed.

Lemma matches_no_clash i j w : matches i w = true -> matches j w = true -> clash i j = false.
Proof.
  rewrite !matches_bits. intros Hi Hj. unfold clash. apply negb_false_iff, Z.eqb_eq.
  apply Z.bits_inj'. intros n Hn. rewrite !Z.land_spec, Z.lxor_spec, Z.testbit_0_l.
  destruct (Z.testbit (i_mask i) n) eqn:Ei, (Z.testbit (i_mask j) n) eqn:Ej; cbn;
    rewrite ?andb_false_r; try done.
  rewrite <- (Hi n Hn Ei), <- (Hj n Hn Ej). by rewrite xorb_nilpotent.
Qed.

Lemma bits_01 z : Z.land z 3 = 3 <-> Z.testbit z 0 = true /\ Z.testbit z 1 = true.
Proof.
  split.
  - intros H.
    assert (E : forall n, Z.testbit (Z.land z 3) n = Z.testbit 3 n) by (intros n; by rewrite H).
    pose proof (E 0) as E0. pose proof (E 1) as E1. rewrite Z.land_spec, andb_true_r in E0, E1. done.
  - intros [H0 H1]. apply Z.bits_inj'. intros n Hn. rewrite Z.land_spec.
    destruct (decide (n = 0)) as [->|]; [by rewrite H0|].
    destruct (decide (n = 1)) as [->|]; [by rewrite H1|].
    change 3 with (Z.ones 2). rewrite Z.ones_spec_high by lia. apply andb_false_r.
Qed.

Lemma matches_wide i w : i ∈ insns -> matches i w = true -> wide i = (Z.land w 3 =? 3).
Proof.
  intros Hi Hm. destruct (insns_masks i Hi) as ([H0 H1]%bits_01 & _).
  rewrite matches_bits in Hm. apply Hm in H0, H1; [|lia..]. unfold wide.
  apply eq_true_iff_eq. rewrite !Z.eqb_eq, !bits_01. by rewrite H0, H1.
Qed.

Lemma decode_elem w i : decode w = Some i -> i ∈ insns /\ matches i w = true.
Proof. intros H. apply find_some in H as [H1 H2]. by apply list_elem_of_In in H1. Qed.

Lemma decode_none w i : decode w = None -> i ∈ insns -> matches i w = false.
Proof. intros H Hi. by apply (find_none _ _ H), list_elem_of_In. Qed.

Lemma decode_wide w i : Z.land w 3 = 3 -> i ∈ insns -> matches i w = true -> decode w = Some i.
Proof.
  intros Hw Hi Hm. destruct (decode w) as [j|] eqn:E.
  - destruct (decode_elem _ _ E) as [Hj Hmj]. destruct (decide (i = j)) as [->|Hne]; [done|].
    pose proof (wide_clash i j Hi Hj) as Hc. rewrite (matches_wide i w), (matches_wide j w) in Hc by done.
    rewrite Hw in Hc. specialize (Hc eq_refl eq_refl Hne). by rewrite (matches_no_clash i j w) in Hc.
  - by rewrite (decode_none _ _ E Hi) in Hm.
Qed.

(** * Theorems *)

(** C23: every name the header declares is defined, and a word of four bytes is decoded to an
    instruction exactly when the instruction is declared and its pattern matches: the patterns of
    the four-byte instructions exclude each other, so the order of the table does not matter. *)
Theorem insn_decode_unique w i :
  Z.land w 3 = 3 ->
  mapM resolve_insn declared_insns = Some insns
  /\ (decode w = Some i <-> i ∈ insns /\ matches i w = true).
Proof.
  intros Hw. split; [apply insns_resolve|]. split; [apply decode_elem|].
  intros [Hi Hm]. by apply decode_wide.
Qed.

(** Whatever the operands, a word with the fixed bits of a four-byte instruction decodes to that
    instruction. *)
Theorem insn_encode_decode i v :
  i ∈ insns -> wide i = true -> decode (Z.lor (i_match i) (Z.ldiff v (i_mask i))) = Some i.
Proof.
  intros Hi Hw. set (w := Z.lor _ _).
  assert (Hm : matches i w = true).
  { apply matches_bits. intros n Hn Hk. unfold w. rewrite Z.lor_spec, Z.ldiff_spec, Hk.
    by rewrite andb_false_r, orb_false_r. }
  apply decode_wide; [|done..]. rewrite (matches_wide i w Hi Hm) in Hw. by apply Z.eqb_eq.
Qed.

(** Two declared instructions that match the same word are compressed ones of eleven pairs, where
    the fixed bits of one are among those of the other. *)
Theorem insn_overlaps w i j :
  i ∈ insns -> j ∈ insns -> i <> j -> matches i w = true -> matches j w = true ->
  Z.land w 3 <> 3 /\ overlap i j = true
  /\ (Z.land (i_mask i) (i_mask j) = i_mask i \/ Z.land (i_mask i) (i_mask j) = i_mask j).
Proof.
  intros Hi Hj Hne Hmi Hmj.
  assert (Ho : overlap i j = true).
  { destruct (narrow_clash i j Hi Hj Hne) as [Hc|]; [|done]. by rewrite (matches_no_clash i j w) in Hc. }
  split; [|split; [done|]].
  - intros Hw. pose proof (decode_wide w i Hw Hi Hmi) as E. rewrite (decode_wide w j) in E by done. congruence.
  - assert (H : (fun i j => negb (overlap i j) || (Z.land (i_mask i) (i_mask j) =? i_mask i)
                            || (Z.land (i_mask i) (i_mask j) =? i_mask j)) i j = true).
    { clear -Hi Hj. revert i j Hi Hj. apply forallb_pairs. by vm_compute. }
    cbn beta in H. rewrite Ho in H. cbn in H. by rewrite orb_true_iff, !Z.eqb_eq in H.
Qed.

(** The names whose registers belong to machine and to supervisor mode. *)
Lemma cause_range n v : (n, v) ∈ causes -> 0 <= v < 16.
Proof.
  intros Hx.
  assert (H : (fun x => (0 <=? snd x) && (snd x <? 16)) (n, v) = true).
  { revert Hx. generalize (n, v). apply forallb_elem. by vm_compute. }
  cbn in H. rewrite andb_true_iff, Z.leb_le, Z.ltb_lt in H. lia.
Qed.

Definition starts (c : ascii) (s : string) : bool :=
  match s with String d _ => bool_decide (c = d) | EmptyString => false end.

(** C24: every control register and every cause the header declares has a number; register
    numbers fit their twelve bits, two declared registers have the same number only if
    they are dscratch and its alias dscratch0, and bits 8 and 9 of a number give the lowest mode
    that may access it: 3 for the registers named m..., 1 for those named s...; the causes are
    numbers below 16, each used once. *)
Theorem csr_numbers :
  mapM resolve_number declared_csrs = Some csrs /\ mapM resolve_number declared_causes = Some causes
  /\ NoDup (snd <$> causes) /\ (forall n v, (n, v) ∈ causes -> 0 <= v < 16)
  /\ (forall n v, (n, v) ∈ csrs -> 0 <= v < 2 ^ 12
     /\ (starts "m" n = true -> Z.land (Z.shiftr v 8) 3 = 3)
     /\ (starts "s" n = true -> Z.land (Z.shiftr v 8) 3 = 1))
  /\ forall n v n', (n, v) ∈ csrs -> (n', v) ∈ csrs -> n <> n' ->
       (n = "dscratch" /\ n' = "dscratch0") \/ (n = "dscratch0" /\ n' = "dscratch").
Proof.
  split; [apply csrs_resolve|]. split; [apply causes_resolve|].
  split; [apply (bool_decide_unpack _); by vm_compute|]. split; [apply cause_range|]. split.
  - intros n v Hx.
    assert (H : (fun x => (0 <=? snd x) && (snd x <? 2 ^ 12)
                 && (negb (starts "m" (fst x)) || (Z.land (Z.shiftr (snd x) 8) 3 =? 3))
                 && (negb (starts "s" (fst x)) || (Z.land (Z.shiftr (snd x) 8) 3 =? 1))) (n, v) = true).
    { revert Hx. generalize (n, v). apply forallb_elem. by vm_compute. }
    cbn beta iota delta [fst snd] in H. rewrite !andb_true_iff, Z.leb_le, Z.ltb_lt in H.
    destruct H as [[[H1 H2] H3] H4]. split; [done|].
    split; intros E; rewrite E in *; cbn in *; by apply Z.eqb_eq.
  - intros n v n' H1 H2 Hne.
    assert (H : (fun x y => negb (snd x =? snd y) || bool_decide (fst x = fst y)
                 || bool_decide (fst x = "dscratch" /\ fst y = "dscratch0")
                 || bool_decide (fst x = "dscratch0" /\ fst y = "dscratch")) (n, v) (n', v) = true).
    { revert H1 H2. generalize (n, v), (n', v). apply forallb_pairs. by vm_compute. }
    cbn beta iota delta [fst snd] in H. rewrite Z.eqb_refl, (bool_decide_false (n = n')) in H by done.
    cbn in H. by rewrite orb_true_iff, !bool_decide_eq_true in H.
Qed.

(** The values of some fields, and the bits they cover. *)
Definition fields (xlen : Z) (prefix : string) (names : list string) : option (list Z) :=
  mapM (fun n => value xlen (prefix +:+ n)) names.

Lemma pte_table_bits pte :
  PTE_TABLE pte = Z.testbit pte 0 && negb (Z.testbit pte 1) && negb (Z.testbit pte 2) && negb (Z.testbit pte 3).
Proof.
  unfold PTE_TABLE. change (Z.lor _ 8) with (Z.ones 4). rewrite Z.land_ones by lia.
  assert (H : forall n, 0 <= n < 4 -> Z.testbit pte n = Z.testbit (pte mod 2 ^ 4) n)
    by (intros n Hn; by rewrite Z.mod_pow2_bits_low by lia).
  rewrite !H by lia.
  assert (Hr : forallb (fun x => Bool.eqb (x =? 1) (Z.testbit x 0 && negb (Z.testbit x 1) && negb (Z.testbit x 2)
                                             && negb (Z.testbit x 3))) (seqZ 0 16) = true) by by vm_compute.
  rewrite forallb_forall in Hr. apply Bool.eqb_prop, Hr, list_elem_of_In, elem_of_seqZ.
  apply (Z.mod_pos_bound pte 16). lia.
Qed.

Definition covered (l : list Z) : Z := foldr Z.lor 0 l.

(** Each field starts above the end of the one before it. *)
Fixpoint ascending (low : Z) (l : list Z) : bool :=
  match l with
  | [] => true
  | x :: l => (0 <? x) && (Z.land x (Z.ones low) =? 0) && ascending (Z.log2 x + 1) l
  end.

(** No bit in two fields, since the sum of the fields is their union, and in the order listed, from
    bit 0 upwards; the bits they cover. *)
Definition layout (l : option (list Z)) : option (bool * Z) :=
  option_map (fun l => ((foldr Z.add 0 l =? covered l) && ascending 0 l, covered l)) l.

(** The list names every macro that starts with the prefix. *)
Definition all_named (xlen : Z) (prefix : string) (names : list string) : bool :=
  forallb (fun n => negb (String.prefix prefix n) || existsb (fun k => String.eqb (prefix +:+ k) n) names)
    (fst <$> macros xlen).

(** The fields of mstatus, lowest first; the field SD is the highest of the register, and the two
    fields of lengths exist above bit 31 only. *)
Definition mstatus_names (xlen : Z) : list string :=
  ["UIE"; "SIE"; "HIE"; "MIE"; "UPIE"; "SPIE"; "HPIE"; "MPIE"; "SPP"; "HPP"; "MPP"; "FS"; "XS";
   "MPRV"; "SUM"; "MXR"; "TVM"; "TW"; "TSR"] ++ (if xlen =? 32 then ["SD"; "UXL"; "SXL"] else ["UXL"; "SXL"; "SD"]).

Definition sstatus_names : list string :=
  ["UIE"; "SIE"; "UPIE"; "SPIE"; "SPP"; "FS"; "XS"; "SUM"; "MXR"; "UXL"; "SD"].

(** C25: every macro has a value. The fields of mstatus, every one the header has, do not overlap and come in the order of the
    register, in both widths; every field of sstatus is the field of mstatus of its name; the fields of
    the debug control register, of the interrupt registers and of the memory protection registers do
    not overlap, each in its order; in both widths mode, ASID and page number fill the satp register
    and the fields of the trigger control register do not overlap; the ten low bits of a page table
    entry are its flags, and it points to a table exactly when it is valid and neither readable,
    writable nor executable. *)
Theorem status_fields :
  (forall xlen, xlen = 32 \/ xlen = 64 ->
     forallb (has_value xlen) (fst <$> macros xlen) = true
     /\ layout (fields xlen "MSTATUS_" (mstatus_names xlen))
     = Some (true, 0xf007fffff + (if xlen =? 32 then 2 ^ 31 else 2 ^ 63))
     /\ all_named xlen "MSTATUS_" (mstatus_names xlen) = true
     /\ fields xlen "SSTATUS_" sstatus_names = fields xlen "MSTATUS_" sstatus_names
     /\ all_named xlen "SSTATUS_" sstatus_names = true)
  /\ layout (fields 64 "DCSR_"
       (reverse ["XDEBUGVER"; "NDRESET"; "FULLRESET"; "EBREAKM"; "EBREAKH"; "EBREAKS"; "EBREAKU"; "STOPCYCLE";
                 "STOPTIME"; "CAUSE"; "DEBUGINT"; "HALT"; "STEP"; "PRV"])) = Some (true, 0xf000f7ef)
  /\ (let names := ["SSIP"; "HSIP"; "MSIP"; "STIP"; "HTIP"; "MTIP"; "SEIP"; "HEIP"; "MEIP"] in
      layout (fields 64 "MIP_" names) = Some (true, 0xeee) /\ all_named 64 "MIP_" names = true)
  /\ fields 64 "SIP_" ["SSIP"; "STIP"] = fields 64 "MIP_" ["SSIP"; "STIP"]
  /\ layout (fields 64 "PMP_" ["R"; "W"; "X"; "A"; "L"]) = Some (true, 0x9f)
  /\ layout (fields 32 "SATP32_" ["PPN"; "ASID"; "MODE"]) = Some (true, 2 ^ 32 - 1)
  /\ layout (fields 64 "SATP64_" ["PPN"; "ASID"; "MODE"]) = Some (true, 2 ^ 64 - 1)
  /\ (forall xlen, xlen = 32 \/ xlen = 64 ->
        option_map fst (layout (option_map (fun l => reverse
            ([MCONTROL_TYPE xlen; MCONTROL_DMODE xlen; MCONTROL_MASKMAX xlen] ++ l))
          (fields xlen "MCONTROL_" ["SELECT"; "TIMING"; "ACTION"; "CHAIN"; "MATCH"; "M"; "H"; "S"; "U";
                                    "EXECUTE"; "STORE"; "LOAD"]))) = Some true)
  /\ layout (fields 64 "PTE_" ["V"; "R"; "W"; "X"; "U"; "G"; "A"; "D"; "SOFT"]) = Some (true, 2 ^ 10 - 1)
  /\ forall pte, PTE_TABLE pte = Z.testbit pte 0 && negb (Z.testbit pte 1)
                                 && negb (Z.testbit pte 2) && negb (Z.testbit pte 3).
Proof.
  split; [intros xlen [-> | ->]; split_and!; vm_compute; reflexivity|]. split; [by vm_compute|].
  split; [split; by vm_compute|]. do 4 (split; [by vm_compute|]).
  split; [intros xlen [-> | ->]; by vm_compute|]. split; [by vm_compute | apply pte_table_bits].
Qed.

Lemma insn_decode_unique_witness :
  Z.land 0x13 3 = 3 /\ decode 0x13 = Some (Insn "addi" 0x13 0x707f).
Proof.
  split; [done|]. apply (insn_decode_unique 0x13 (Insn "addi" 0x13 0x707f)); [done|].
  split; [|done]. apply (bool_decide_unpack _). by vm_compute.
Defined.

Lemma insn_encode_decode_witness : decode 0xff010113 = Some (Insn "addi" 0x13 0x707f).
Proof.
  apply (insn_encode_decode (Insn "addi" 0x13 0x707f) 0xff010100); [|done].
  apply (bool_decide_unpack _). by vm_compute.
Defined.

Lemma insn_overlaps_witness :
  overlap (Insn "c_nop" 0x1 0xffff) (Insn "c_addi" 0x1 0xe003) = true.
Proof.
  apply (insn_overlaps 1); [apply (bool_decide_unpack _); by vm_compute .. | done | done | done].
Defined.

Lemma csr_numbers_witness : 0 <= 0x7b2 < 2 ^ 12 /\ (starts "m" "mstatus" = true -> Z.land (Z.shiftr 0x300 8) 3 = 3).
Proof.
  split.
  - destruct csr_numbers as (_ & _ & _ & _ & H & _). apply (H "dscratch0"). apply (bool_decide_unpack _). by vm_compute.
  - destruct csr_numbers as (_ & _ & _ & _ & H & _). apply (H "mstatus"). apply (bool_decide_unpack _). by vm_compute.
Defined.

Lemma status_fields_witness :
  fields 64 "SSTATUS_" sstatus_names = fields 64 "MSTATUS_" sstatus_names.
Proof. apply (proj1 status_fields 64). by right. Defined.
