(* ===== verification/DebugRom.v ===== *)
(** The debug ROM ([riscv-dbg/debug_rom]): the two images the harts execute in debug mode, the
    assembly source they are built from, and a hart that executes them against a debug module. The
    instructions are decoded with the tables of [Encoding]; the debug module is a parameter. *)
From stdpp Require Import relations.
From S2P Require Import Prelude Machine Encoding.

(** * The images *)

(** [debug_rom.h]: relocatable to any page, uses two scratch registers. *)
Definition reset_vec_size : nat := 38.
Definition reset_vec : list Z :=
  [0x00c0006f; 0x07c0006f; 0x04c0006f; 0x0ff0000f; 0x7b241073; 0x7b351073; 0x00000517;
   0x00c55513; 0x00c51513; 0xf1402473; 0x10852023; 0x00a40433; 0x40044403; 0x00147413;
   0x02041c63; 0xf1402473; 0x00a40433; 0x40044403; 0x00247413; 0xfa041ce3; 0xfd5ff06f;
   0x00000517; 0x00c55513; 0x00c51513; 0x10052623; 0x7b302573; 0x7b202473; 0x00100073;
   0x10052223; 0x7b302573; 0x7b202473; 0xa85ff06f; 0xf1402473; 0x10852423; 0x7b302573;
   0x7b202473; 0x7b200073; 0x00000000].

(** [debug_rom_one_scratch.h]: at address 0, uses one scratch register. *)
Definition one_scratch_reset_vec_size : nat := 26.
Definition one_scratch_reset_vec : list Z :=
  [0x00c0006f; 0x0500006f; 0x0340006f; 0x0ff0000f; 0x7b241073; 0xf1402473; 0x10802023;
   0x40044403; 0x00147413; 0x02041263; 0xf1402473; 0x40044403; 0x00247413; 0xfc0418e3;
   0xfddff06f; 0x10002623; 0x7b202473; 0x00100073; 0x10002223; 0x7b202473; 0xab1ff06f;
   0xf1402473; 0x10802423; 0x7b202473; 0x7b200073; 0x00000000].

(** * Instructions *)

(** The instructions the images use, with their operands. *)
Inductive instr :=
  | Jal (rd imm : Z)
  | Bne (rs1 rs2 imm : Z)
  | Lbu (rd rs1 imm : Z)
  | Sw (rs2 rs1 imm : Z)
  | Andi (rd rs1 imm : Z)
  | Slli (rd rs1 shamt : Z)
  | Srli (rd rs1 shamt : Z)
  | Add (rd rs1 rs2 : Z)
  | Auipc (rd imm : Z)
  | Fence
  | Csrrw (rd csr rs1 : Z)
  | Csrrs (rd csr rs1 : Z)
  | Ebreak
  | Dret.

#[export] Instance instr_eq_dec : EqDecision instr.
Proof. solve_decision. Defined.

(** The operands of a decoded word, by the name of its instruction. *)
Definition operands : list (string * (Z -> instr)) :=
  [("jal", fun w => Jal (rd w) (imm_j w));
   ("bne", fun w => Bne (rs1 w) (rs2 w) (imm_b w));
   ("lbu", fun w => Lbu (rd w) (rs1 w) (imm_i w));
   ("sw", fun w => Sw (rs2 w) (rs1 w) (imm_s w));
   ("andi", fun w => Andi (rd w) (rs1 w) (imm_i w));
   ("slli", fun w => Slli (rd w) (rs1 w) (bits_at 20 6 w));
   ("srli", fun w => Srli (rd w) (rs1 w) (bits_at 20 6 w));
   ("add", fun w => Add (rd w) (rs1 w) (rs2 w));
   ("auipc", fun w => Auipc (rd w) (imm_u w));
   ("fence", fun _ => Fence);
   ("csrrw", fun w => Csrrw (rd w) (bits_at 20 12 w) (rs1 w));
   ("csrrs", fun w => Csrrs (rd w) (bits_at 20 12 w) (rs1 w));
   ("ebreak", fun _ => Ebreak);
   ("dret", fun _ => Dret)].

Definition disasm (w : Z) : option instr :=
  i ← decode w; f ← assoc (i_name i) operands; Some (f w).

(** * The source *)

(** [debug_rom.S]. *)
Definition HALTED : Z := 0x100.
Definition GOING : Z := 0x104.
Definition RESUMING : Z := 0x108.
Definition EXCEPTION : Z := 0x10C.
Definition FLAGS : Z := 0x400.
Definition FLAG_GO : Z := 0.
Definition FLAG_RESUME : Z := 1.

(** A line of assembly: a label, an instruction, or a jump to a label. *)
Inductive line :=
  | Label (name : string)
  | Op (i : instr)
  | JalTo (name : string)
  | BneTo (rs1 rs2 : Z) (name : string).

(** Registers by their ABI names, and the number the header gives a control register. *)
Definition zero : Z := 0.
Definition s0 : Z := 8.
Definition a0 : Z := 10.
Definition csr_no (name : string) : Z := default 0 (value 64 name).

Definition csrr (r : Z) (c : string) : line := Op (Csrrs r (csr_no c) zero).
Definition csrw (c : string) (r : Z) : line := Op (Csrrw zero (csr_no c) r).

(** The base of the debug module: the page of the program counter. *)
Definition page_of_pc : list line := [Op (Auipc a0 0); Op (Srli a0 a0 12); Op (Slli a0 a0 12)].

(** The source, with or without [SND_SCRATCH]. *)
Definition debug_rom (snd_scratch : bool) : list line :=
  let snd (l : list line) := if snd_scratch then l else [] in
  let dm := if snd_scratch then a0 else zero in
  [Label "entry"; JalTo "_entry"; Label "resume"; JalTo "_resume"; Label "exception"; JalTo "_exception";
   Label "_entry"; Op Fence; csrw "CSR_DSCRATCH0" s0]
  ++ snd (csrw "CSR_DSCRATCH1" a0 :: page_of_pc) ++
  [Label "entry_loop"; csrr s0 "CSR_MHARTID"; Op (Sw s0 dm HALTED)]
  ++ snd [Op (Add s0 s0 a0)] ++
  [Op (Lbu s0 s0 FLAGS); Op (Andi s0 s0 (Z.shiftl 1 FLAG_GO)); BneTo s0 zero "going";
   csrr s0 "CSR_MHARTID"]
  ++ snd [Op (Add s0 s0 a0)] ++
  [Op (Lbu s0 s0 FLAGS); Op (Andi s0 s0 (Z.shiftl 1 FLAG_RESUME)); BneTo s0 zero "resume";
   JalTo "entry_loop"; Label "_exception"]
  ++ snd page_of_pc ++ [Op (Sw zero dm EXCEPTION)] ++ snd [csrr a0 "CSR_DSCRATCH1"] ++
  [csrr s0 "CSR_DSCRATCH0"; Op Ebreak; Label "going"; Op (Sw zero dm GOING)]
  ++ snd [csrr a0 "CSR_DSCRATCH1"] ++
  [csrr s0 "CSR_DSCRATCH0"; JalTo "whereto"; Label "_resume"; csrr s0 "CSR_MHARTID";
   Op (Sw s0 dm RESUMING)]
  ++ snd [csrr a0 "CSR_DSCRATCH1"] ++ [csrr s0 "CSR_DSCRATCH0"; Op Dret].

(** [link.ld]: the code at 0x800, the variable ROM at 0x300. *)
Definition text_base : Z := 0x800.
Definition whereto : Z := 0x300.

(** The addresses of the labels, and the instructions with their targets. *)
Fixpoint labels (pc : Z) (l : list line) : list (string * Z) :=
  match l with
  | [] => [("whereto", whereto)]
  | Label n :: l => (n, pc) :: labels pc l
  | _ :: l => labels (pc + 4) l
  end.

Fixpoint assemble_from (tab : list (string * Z)) (pc : Z) (l : list line) : option (list instr) :=
  match l with
  | [] => Some []
  | Label _ :: l => assemble_from tab pc l
  | Op i :: l => l ← assemble_from tab (pc + 4) l; Some (i :: l)
  | JalTo n :: l => t ← assoc n tab; l ← assemble_from tab (pc + 4) l; Some (Jal zero (t - pc) :: l)
  | BneTo a b n :: l => t ← assoc n tab; l ← assemble_from tab (pc + 4) l; Some (Bne a b (t - pc) :: l)
  end.

Definition assemble (l : list line) : option (list instr) := assemble_from (labels text_base l) text_base l.

(** * The hart *)

(** Registers and control registers by number; [debug] tells whether the hart is in debug mode. *)
Record cpu (D : Type) := Cpu {
  pc : Z;
  xregs : Z -> Z;
  csrf : Z -> Z;
  debug : bool;
  dm : D
}.
Arguments Cpu {D} _ _ _ _ _.
Arguments pc {D} _.
Arguments xregs {D} _ _.
Arguments csrf {D} _ _.
Arguments debug {D} _.
Arguments dm {D} _.

Definition upd (f : Z -> Z) (k v : Z) : Z -> Z := fun x => if x =? k then v else f x.

(** Register 0 is always 0. *)
Definition xget (f : Z -> Z) (r : Z) : Z := if r =? 0 then 0 else f r.
Definition xset (f : Z -> Z) (r v : Z) : Z -> Z := if r =? 0 then f else upd f r v.

Section hart.
Context `{!Bus D}.

(** Where the debug module lies, and the image it holds at [text_base]. *)
Context (base : Z) (rom : list Z).

Definition dpc : Z := 0x7b1.

Definition exec (i : instr) (s : cpu D) : cpu D :=
  let '(Cpu pc x c g d) := s in
  let next := u64 (pc + 4) in
  match i with
  | Jal rd imm => Cpu (u64 (pc + imm)) (xset x rd next) c g d
  | Bne r1 r2 imm => Cpu (if xget x r1 =? xget x r2 then next else u64 (pc + imm)) x c g d
  | Lbu rd r1 imm => let '(v, d) := dev_ld W8 (u64 (xget x r1 + imm)) d in Cpu next (xset x rd v) c g d
  | Sw r2 r1 imm => Cpu next x c g (bus_st W32 (u64 (xget x r1 + imm)) (u32 (xget x r2)) d)
  | Andi rd r1 imm => Cpu next (xset x rd (Z.land (xget x r1) (u64 imm))) c g d
  | Slli rd r1 n => Cpu next (xset x rd (u64 (Z.shiftl (xget x r1) n))) c g d
  | Srli rd r1 n => Cpu next (xset x rd (Z.shiftr (xget x r1) n)) c g d
  | Add rd r1 r2 => Cpu next (xset x rd (u64 (xget x r1 + xget x r2))) c g d
  | Auipc rd imm => Cpu next (xset x rd (u64 (pc + imm))) c g d
  | Fence => Cpu next x c g d
  | Csrrw rd k r1 => Cpu next (xset x rd (c k)) (upd c k (xget x r1)) g d
  | Csrrs rd k r1 =>
      Cpu next (xset x rd (c k)) (if r1 =? 0 then c else upd c k (Z.lor (c k) (xget x r1))) g d
  (* in debug mode: the hart enters the ROM again *)
  | Ebreak => Cpu (u64 (base + text_base)) x c g d
  | Dret => Cpu (c dpc) x c false d
  end.

(** The word of the image the program counter points to. *)
Definition fetch (pc : Z) : option Z :=
  let off := pc - (base + text_base) in
  if (0 <=? off) && (off mod 4 =? 0) then rom !! Z.to_nat (off / 4) else None.

Definition cpu_step (s : cpu D) : option (cpu D) :=
  w ← fetch (pc s); i ← disasm w; Some (exec i s).

Definition steps : cpu D -> cpu D -> Prop := rtc (fun s s' => cpu_step s = Some s').
End hart.

(** * The images are the source *)

Lemma two_scratch_code : mapM disasm (take 37 reset_vec) = assemble (debug_rom true).
Proof. vm_compute. reflexivity. Qed.

Lemma one_scratch_code : mapM disasm (take 25 one_scratch_reset_vec) = assemble (debug_rom false).
Proof. vm_compute. reflexivity. Qed.

(** * Serving the debug module *)

(** What the debug module asks of a halted hart: run the code at [whereto], or resume. *)
Inductive request := Go | Resume.

Section service.
Context `{!Bus D}.
Context (base id : Z).

Definition announce (d : D) : D := bus_st W32 (base + HALTED) id d.
Definition flags (d : D) : Z * D := dev_ld W8 (base + FLAGS + id) d.

(** The polls of a halted hart, up to the one that sees a request: in each round the hart announces
    itself, reads its flags for [Go] and, when this is not set, again for [Resume]. *)
Inductive polled : D -> request -> D -> Prop :=
  | polled_go d v d1 :
      flags (announce d) = (v, d1) -> Z.testbit v FLAG_GO = true -> polled d Go d1
  | polled_resume d v1 d1 v2 d2 :
      flags (announce d) = (v1, d1) -> Z.testbit v1 FLAG_GO = false ->
      flags d1 = (v2, d2) -> Z.testbit v2 FLAG_RESUME = true -> polled d Resume d2
  | polled_again d v1 d1 v2 d2 r d' :
      flags (announce d) = (v1, d1) -> Z.testbit v1 FLAG_GO = false ->
      flags d1 = (v2, d2) -> Z.testbit v2 FLAG_RESUME = false ->
      polled d2 r d' -> polled d r d'.

(** How the hart leaves the ROM. *)
Definition served (s : cpu D) (r : request) (d : D) (s' : cpu D) : Prop :=
  match r with
  | Go => pc s' = base + whereto /\ debug s' = debug s /\ dm s' = bus_st W32 (base + GOING) 0 d
  | Resume => pc s' = csrf s dpc /\ debug s' = false /\ dm s' = bus_st W32 (base + RESUMING) id d
  end.

(** The registers of the interrupted program are as they were. *)
Definition same_regs (s s' : cpu D) : Prop := forall r, xget (xregs s') r = xget (xregs s) r.
End service.

Definition DSCRATCH0 : Z := 0x7b2.
Definition DSCRATCH1 : Z := 0x7b3.
Definition MHARTID : Z := 0xf14.

(** ** One instruction *)

Section run.
Context `{!Bus D} (base : Z) (rom : list Z) (code : list instr).
Context (Hcode : mapM disasm (take (length code) rom) = Some code).

Definition at_code (k : nat) : Z := base + text_base + 4 * Z.of_nat k.

Lemma disasm_at k i : code !! k = Some i -> exists w, rom !! k = Some w /\ disasm w = Some i.
Proof.
  intros Hk. apply mapM_Some_1 in Hcode. destruct (Forall2_lookup_r _ _ _ _ _ Hcode Hk) as (w & Hw & Hd).
  exists w. split; [|done]. apply lookup_take_Some in Hw. tauto.
Qed.

Lemma rom_step_at k i x c g d :
  code !! k = Some i ->
  cpu_step base rom (Cpu (at_code k) x c g d) = Some (exec base i (Cpu (at_code k) x c g d)).
Proof.
  intros Hk. destruct (disasm_at k i Hk) as (w & Hw & Hd).
  unfold cpu_step, fetch, at_code. cbn [pc].
  replace (base + text_base + 4 * Z.of_nat k - (base + text_base)) with (4 * Z.of_nat k) by lia.
  rewrite (Z.mul_comm 4), Z.mod_mul, Z.div_mul, Nat2Z.id by lia.
  destruct (Z.leb_spec 0 (Z.of_nat k * 4)); [|lia]. cbn [andb Z.eqb]. rewrite Hw. cbn [mbind option_bind]. by rewrite Hd.
Qed.

Definition reach (s : cpu D) (Q : cpu D -> Prop) : Prop := exists s', steps base rom s s' /\ Q s'.

Lemma rom_reach_here s (Q : cpu D -> Prop) : Q s -> reach s Q.
Proof. intros HQ. exists s. split; [apply rtc_refl | done]. Qed.

Lemma rom_reach_step k i p x c g d (Q : cpu D -> Prop) :
  p = at_code k -> code !! k = Some i ->
  reach (exec base i (Cpu (at_code k) x c g d)) Q -> reach (Cpu p x c g d) Q.
Proof.
  intros -> Hk (s' & Hs & HQ). exists s'. split; [|done].
  eapply rtc_l; [by apply rom_step_at | done].
Qed.

Lemma rom_reach_mono s (P Q : cpu D -> Prop) : reach s P -> (forall s', P s' -> Q s') -> reach s Q.
Proof. intros (s' & Hs & HP) H. exists s'. auto. Qed.

Lemma rom_reach_trans s (P Q : cpu D -> Prop) :
  reach s P -> (forall s', P s' -> reach s' Q) -> reach s Q.
Proof.
  intros (s1 & Hs1 & HP) H. destruct (H s1 HP) as (s2 & Hs2 & HQ). exists s2. split; [|done].
  by eapply rtc_trans.
Qed.
End run.

Lemma page_of base off :
  0 <= base -> base mod 4096 = 0 -> base + 4096 <= 2 ^ 64 -> 0 <= off < 4096 ->
  u64 (Z.shiftl (Z.shiftr (u64 (base + off)) 12) 12) = base.
Proof.
  intros H0 Hm Hb Ho. rewrite (u64_small (base + off)) by lia.
  rewrite Z.shiftr_div_pow2, Z.shiftl_mul_pow2 by lia. change (2 ^ 12) with 4096.
  replace ((base + off) / 4096 * 4096) with base by divlia. apply u64_small. lia.
Qed.

Lemma flag_go v : (Z.land v 1 =? 0) = negb (Z.testbit v FLAG_GO).
Proof. change 1 with (2 ^ 0) at 1. rewrite land_bit by done. by destruct (Z.testbit v FLAG_GO) eqn:E; unfold FLAG_GO in E; rewrite E. Qed.

Lemma flag_resume v : (Z.land v 2 =? 0) = negb (Z.testbit v FLAG_RESUME).
Proof. change 2 with (2 ^ 1) at 1. rewrite land_bit by done. by destruct (Z.testbit v FLAG_RESUME) eqn:E; unfold FLAG_RESUME in E; rewrite E. Qed.

(** Runs the instruction at a position: its program counter, the instruction, its effect. *)
Ltac at_pc := unfold at_code, text_base, whereto; repeat (rewrite u64_small by lia); lia.

Ltac run_at Hcode k :=
  eapply (rom_reach_step _ _ _ Hcode k); [at_pc | reflexivity |];
  cbn [exec xget xset Z.eqb Pos.eqb].

Lemma upd_eq f k v : upd f k v k = v.
Proof. unfold upd. by rewrite Z.eqb_refl. Qed.

Lemma upd_ne f k v r : r <> k -> upd f k v r = f r.
Proof. intros H. unfold upd. by destruct (Z.eqb_spec r k). Qed.

(** Lookups in registers updated at known places. *)
Ltac lookups := repeat first [rewrite upd_eq | rewrite upd_ne by lia].

Ltac upd_tac :=
  intros; unfold xget, upd, DSCRATCH0, DSCRATCH1, MHARTID, dpc in *; cbn [Z.eqb Pos.eqb];
  repeat match goal with |- context [Z.eqb ?a ?b] => destruct (Z.eqb_spec a b); subst end;
  auto; lia.

(** ** The image of [debug_rom.h] *)

Definition two_scratch_instrs : list instr := Eval vm_compute in default [] (assemble (debug_rom true)).

Lemma two_scratch_disasm :
  mapM disasm (take (length two_scratch_instrs) reset_vec) = Some two_scratch_instrs.
Proof. vm_compute. reflexivity. Qed.

(** The state of the hart when it leaves, with the registers [x] and [c']; [c] held the address to
    resume at. *)
Definition leaving `{!Bus D} (base id : Z) (c : Z -> Z) (g : bool) (r : request) (d : D) (x c' : Z -> Z) : cpu D :=
  match r with
  | Go => Cpu (base + whereto) x c' g (bus_st W32 (base + GOING) 0 d)
  | Resume => Cpu (c dpc) x c' false (bus_st W32 (base + RESUMING) id d)
  end.

(** Gone for a request, the registers as the interrupted program left them and the scratch
    registers in use. *)
Definition gone `{!Bus D} (snd_scratch : bool) (base id : Z) (x c : Z -> Z) (g : bool) (r : request) (d : D)
    (s' : cpu D) : Prop :=
  exists x' c', s' = leaving base id c g r d x' c' /\ (forall r, x' r = x r)
    /\ c' DSCRATCH0 = x 8 /\ (snd_scratch = true -> c' DSCRATCH1 = x 10)
    /\ forall k, k <> DSCRATCH0 -> (snd_scratch = true -> k <> DSCRATCH1) -> c' k = c k.

Section two_scratch.
Context `{!Bus D} (base id : Z).
Context (H0 : 0 <= base) (Hpage : base mod 4096 = 0) (Hb : base + 4096 <= 2 ^ 64) (Hid : 0 <= id < 0x400).

Local Abbreviation reach2 := (reach (D := D) base reset_vec).
Local Ltac run k := run_at two_scratch_disasm k.

(** The registers of the interrupted program, while the ROM uses s0 and a0 for itself. *)
Definition kept2 (x c x' c' : Z -> Z) : Prop :=
  x' 10 = base /\ (forall r, r <> 8 -> r <> 10 -> x' r = x r)
  /\ c' DSCRATCH0 = x 8 /\ c' DSCRATCH1 = x 10
  /\ (forall k, k <> DSCRATCH0 -> k <> DSCRATCH1 -> c' k = c k).

Lemma kept2_s0 x c x' c' v : kept2 x c x' c' -> kept2 x c (upd x' 8 v) c'.
Proof. intros (H1 & H2 & H3 & H4 & H5). split_and!; upd_tac. Qed.

Lemma page_of_at k :
  (k < 512)%nat -> u64 (Z.shiftl (Z.shiftr (u64 (at_code base k + 0)) 12) 12) = base.
Proof.
  intros Hk. unfold at_code, text_base.
  replace (base + 0x800 + 4 * Z.of_nat k + 0) with (base + (0x800 + 4 * Z.of_nat k)) by lia.
  apply page_of; lia.
Qed.

(** From the entry to [entry_loop]. *)
Lemma entry2 x c g d :
  reach2 (Cpu (at_code base 0) x c g d) (fun s' => exists x' c',
    s' = Cpu (at_code base 9) x' c' g d /\ kept2 x c x' c').
Proof.
  run 0%nat. run 3%nat. run 4%nat. run 5%nat. run 6%nat. run 7%nat. run 8%nat.
  apply rom_reach_here. eexists _, _. split; [f_equal; at_pc|]. split_and!.
  - apply (page_of_at 6%nat). lia.
  - upd_tac.
  - upd_tac.
  - upd_tac.
  - upd_tac.
Qed.

(** The bytes and words the ROM reads and writes. *)
Lemma store2 o v d : 0 <= o < 4096 -> 0 <= v < 2 ^ 32 ->
  bus_st W32 (u64 (base + o)) (u32 v) d = bus_st W32 (base + o) v d.
Proof. intros. by rewrite u64_small, u32_small by lia. Qed.

Lemma flags2 d : dev_ld W8 (u64 (u64 (id + base) + 1024)) d = flags base id d.
Proof.
  unfold flags, FLAGS. rewrite (u64_small (id + base)), u64_small by lia. f_equal. lia.
Qed.

(** The first half of a round: announce, and test [Go]. *)
Lemma poll2_go x c g d v d1 x' c' :
  kept2 x c x' c' -> c MHARTID = id -> flags base id (announce base id d) = (v, d1) ->
  reach2 (Cpu (at_code base 9) x' c' g d) (fun s' => exists x'',
    s' = Cpu (if Z.testbit v FLAG_GO then at_code base 28 else at_code base 15) x'' c' g d1
    /\ kept2 x c x'' c').
Proof.
  intros Hk Hi Hf. pose proof Hk as (Hx & _ & _ & _ & Hc).
  assert (Hid' : c' 0xf14 = id) by (rewrite Hc; done).
  run 9%nat. run 10%nat. lookups. rewrite Hid', Hx, store2 by lia.
  run 11%nat. run 12%nat. lookups. rewrite Hx, flags2.
  fold (announce base id d). change (base + 256) with (base + HALTED). fold (announce base id d). rewrite Hf.
  run 13%nat. run 14%nat. apply rom_reach_here. lookups.
  change (u64 1) with 1. rewrite flag_go.
  eexists. split; [destruct (Z.testbit v FLAG_GO); cbn [negb]; f_equal; at_pc|].
  by repeat apply kept2_s0.
Qed.

(** The second half: test [Resume]. *)
Lemma poll2_resume x c g d v d1 x' c' :
  kept2 x c x' c' -> c MHARTID = id -> flags base id d = (v, d1) ->
  reach2 (Cpu (at_code base 15) x' c' g d) (fun s' => exists x'',
    s' = Cpu (if Z.testbit v FLAG_RESUME then at_code base 1 else at_code base 9) x'' c' g d1
    /\ kept2 x c x'' c').
Proof.
  intros Hk Hi Hf. pose proof Hk as (Hx & _ & _ & _ & Hc).
  assert (Hid' : c' 0xf14 = id) by (rewrite Hc; done).
  run 15%nat. run 16%nat. lookups. rewrite Hid', Hx.
  run 17%nat. lookups. rewrite flags2, Hf.
  run 18%nat. run 19%nat. lookups.
  change (u64 2) with 2. rewrite flag_resume. destruct (Z.testbit v FLAG_RESUME); cbn [negb].
  - apply rom_reach_here. eexists. split; [f_equal; at_pc|]. by repeat apply kept2_s0.
  - run 20%nat. apply rom_reach_here. eexists. split; [f_equal; at_pc|]. by repeat apply kept2_s0.
Qed.

(** Restoring the two registers and leaving for [whereto]. *)
Lemma going2 x c g d x' c' :
  kept2 x c x' c' ->
  reach2 (Cpu (at_code base 28) x' c' g d) (fun s' => exists x'',
    s' = Cpu (base + whereto) x'' c' g (bus_st W32 (base + GOING) 0 d) /\ forall r, x'' r = x r).
Proof.
  intros (Hx & Hr & H8 & H10 & Hc).
  run 28%nat. rewrite Hx, (store2 260) by lia. run 29%nat. run 30%nat. run 31%nat.
  apply rom_reach_here. eexists. split; [f_equal; at_pc|]. unfold DSCRATCH0, DSCRATCH1 in *. upd_tac.
Qed.

(** Or for the interrupted program. *)
Lemma resuming2 x c g d x' c' :
  kept2 x c x' c' -> c MHARTID = id ->
  reach2 (Cpu (at_code base 1) x' c' g d) (fun s' => exists x'',
    s' = Cpu (c dpc) x'' c' false (bus_st W32 (base + RESUMING) id d) /\ forall r, x'' r = x r).
Proof.
  intros (Hx & Hr & H8 & H10 & Hc) Hi.
  assert (Hid' : c' 0xf14 = id) by (rewrite Hc; done).
  run 1%nat. run 32%nat. run 33%nat. lookups.
  rewrite Hid', Hx, (store2 264) by lia. run 34%nat. run 35%nat. run 36%nat.
  apply rom_reach_here. eexists. split; [f_equal; by apply Hc|]. unfold DSCRATCH0, DSCRATCH1 in *. upd_tac.
Qed.

(** From [entry_loop] until a request has been served. *)
Lemma serve2 x c g d r d' :
  polled base id d r d' -> c MHARTID = id -> forall x' c', kept2 x c x' c' ->
  reach2 (Cpu (at_code base 9) x' c' g d) (gone true base id x c g r d').
Proof.
  intros Hp Hi. induction Hp as [d v d1 Hf Hv|d v1 d1 v2 d2 Hf1 Hv1 Hf2 Hv2|d v1 d1 v2 d2 r d' Hf1 Hv1 Hf2 Hv2 _ IH];
    intros x' c' Hk; (eapply rom_reach_trans; [by eapply poll2_go|]); intros s (x1 & -> & Hk1).
  - rewrite Hv. pose proof Hk1 as (_ & _ & H8 & H10 & Hc). eapply rom_reach_mono; [by eapply going2|].
    intros s (x2 & -> & Hx). exists x2, c'. split_and!; try done; auto.
  - rewrite Hv1. eapply rom_reach_trans; [by eapply poll2_resume|]. intros s (x2 & -> & Hk2). rewrite Hv2.
    pose proof Hk1 as (_ & _ & H8 & H10 & Hc). eapply rom_reach_mono; [by eapply resuming2|].
    intros s (x3 & -> & Hx). exists x3, c'. split_and!; try done; auto.
  - rewrite Hv1. eapply rom_reach_trans; [by eapply poll2_resume|]. intros s (x2 & -> & Hk2). rewrite Hv2.
    by apply IH.
Qed.

(** The exception entry: tell the debug module, restore, and enter the ROM again. *)
Lemma exception2 x c g d :
  reach2 (Cpu (at_code base 2) x c g d) (fun s' => exists x',
    s' = Cpu (at_code base 0) x' c g (bus_st W32 (base + EXCEPTION) 0 d)
    /\ x' 8 = c DSCRATCH0 /\ x' 10 = c DSCRATCH1 /\ forall r, r <> 8 -> r <> 10 -> x' r = x r).
Proof.
  run 2%nat. run 21%nat. run 22%nat. run 23%nat. run 24%nat. lookups.
  rewrite page_of_at, (store2 268) by lia. run 25%nat. run 26%nat. run 27%nat.
  apply rom_reach_here. eexists. split; [f_equal; at_pc|]. split_and!; upd_tac.
Qed.
End two_scratch.

(** ** The image of [debug_rom_one_scratch.h] *)

Definition one_scratch_instrs : list instr := Eval vm_compute in default [] (assemble (debug_rom false)).

Lemma one_scratch_disasm :
  mapM disasm (take (length one_scratch_instrs) one_scratch_reset_vec) = Some one_scratch_instrs.
Proof. vm_compute. reflexivity. Qed.

Section one_scratch.
Context `{!Bus D} (id : Z) (Hid : 0 <= id < 0x400).

Local Abbreviation reach1 := (reach (D := D) 0 one_scratch_reset_vec).
Local Ltac run k := run_at one_scratch_disasm k.

Definition kept1 (x c x' c' : Z -> Z) : Prop :=
  (forall r, r <> 8 -> x' r = x r) /\ c' DSCRATCH0 = x 8 /\ (forall k, k <> DSCRATCH0 -> c' k = c k).

Lemma kept1_s0 x c x' c' v : kept1 x c x' c' -> kept1 x c (upd x' 8 v) c'.
Proof. intros (H1 & H2 & H3). split_and!; upd_tac. Qed.

Lemma entry1 x c g d :
  reach1 (Cpu (at_code 0 0) x c g d) (fun s' => exists x' c',
    s' = Cpu (at_code 0 5) x' c' g d /\ kept1 x c x' c').
Proof.
  run 0%nat. run 3%nat. run 4%nat. apply rom_reach_here. eexists _, _. split; [f_equal; at_pc|].
  split_and!; upd_tac.
Qed.

Lemma store1 o v d : 0 <= o < 4096 -> 0 <= v < 2 ^ 32 -> bus_st W32 (u64 o) (u32 v) d = bus_st W32 (0 + o) v d.
Proof. intros. by rewrite u64_small, u32_small by lia. Qed.

Lemma flags1 d : dev_ld W8 (u64 (id + 1024)) d = flags 0 id d.
Proof. unfold flags, FLAGS. rewrite u64_small by lia. f_equal. lia. Qed.

Lemma poll1_go x c g d v d1 x' c' :
  kept1 x c x' c' -> c MHARTID = id -> flags 0 id (announce 0 id d) = (v, d1) ->
  reach1 (Cpu (at_code 0 5) x' c' g d) (fun s' => exists x'',
    s' = Cpu (if Z.testbit v FLAG_GO then at_code 0 18 else at_code 0 10) x'' c' g d1
    /\ kept1 x c x'' c').
Proof.
  intros Hk Hi Hf. pose proof Hk as (_ & _ & Hc).
  assert (Hid' : c' 0xf14 = id) by (rewrite Hc; done).
  run 5%nat. run 6%nat. lookups. rewrite Hid'. cbn [Z.add]. rewrite (store1 256) by lia.
  run 7%nat. lookups. rewrite flags1.
  change (0 + 256) with (0 + HALTED). fold (announce 0 id d). rewrite Hf.
  run 8%nat. run 9%nat. apply rom_reach_here. lookups. change (u64 1) with 1. rewrite flag_go.
  eexists. split; [destruct (Z.testbit v FLAG_GO); cbn [negb]; f_equal; at_pc|].
  by repeat apply kept1_s0.
Qed.

Lemma poll1_resume x c g d v d1 x' c' :
  kept1 x c x' c' -> c MHARTID = id -> flags 0 id d = (v, d1) ->
  reach1 (Cpu (at_code 0 10) x' c' g d) (fun s' => exists x'',
    s' = Cpu (if Z.testbit v FLAG_RESUME then at_code 0 1 else at_code 0 5) x'' c' g d1
    /\ kept1 x c x'' c').
Proof.
  intros Hk Hi Hf. pose proof Hk as (_ & _ & Hc).
  assert (Hid' : c' 0xf14 = id) by (rewrite Hc; done).
  run 10%nat. run 11%nat. lookups. rewrite Hid', flags1, Hf.
  run 12%nat. run 13%nat. lookups. change (u64 2) with 2. rewrite flag_resume.
  destruct (Z.testbit v FLAG_RESUME); cbn [negb].
  - apply rom_reach_here. eexists. split; [f_equal; at_pc|]. by repeat apply kept1_s0.
  - run 14%nat. apply rom_reach_here. eexists. split; [f_equal; at_pc|]. by repeat apply kept1_s0.
Qed.

Lemma going1 x c g d x' c' :
  kept1 x c x' c' ->
  reach1 (Cpu (at_code 0 18) x' c' g d) (fun s' => exists x'',
    s' = Cpu (0 + whereto) x'' c' g (bus_st W32 (0 + GOING) 0 d) /\ forall r, x'' r = x r).
Proof.
  intros (Hr & H8 & Hc). run 18%nat. cbn [Z.add]. rewrite (store1 260) by lia. run 19%nat. run 20%nat.
  apply rom_reach_here. eexists. split; [f_equal; at_pc|]. unfold DSCRATCH0 in *. upd_tac.
Qed.

Lemma resuming1 x c g d x' c' :
  kept1 x c x' c' -> c MHARTID = id ->
  reach1 (Cpu (at_code 0 1) x' c' g d) (fun s' => exists x'',
    s' = Cpu (c dpc) x'' c' false (bus_st W32 (0 + RESUMING) id d) /\ forall r, x'' r = x r).
Proof.
  intros (Hr & H8 & Hc) Hi. assert (Hid' : c' 0xf14 = id) by (rewrite Hc; done).
  run 1%nat. run 21%nat. run 22%nat. lookups. rewrite Hid'. cbn [Z.add]. rewrite (store1 264) by lia.
  run 23%nat. run 24%nat.
  apply rom_reach_here. eexists. split; [f_equal; by apply Hc|]. unfold DSCRATCH0 in *. upd_tac.
Qed.

Lemma serve1 x c g d r d' :
  polled 0 id d r d' -> c MHARTID = id -> forall x' c', kept1 x c x' c' ->
  reach1 (Cpu (at_code 0 5) x' c' g d) (gone false 0 id x c g r d').
Proof.
  intros Hp Hi. induction Hp as [d v d1 Hf Hv|d v1 d1 v2 d2 Hf1 Hv1 Hf2 Hv2|d v1 d1 v2 d2 r d' Hf1 Hv1 Hf2 Hv2 _ IH];
    intros x' c' Hk; (eapply rom_reach_trans; [by eapply poll1_go|]); intros s (x1 & -> & Hk1).
  - rewrite Hv. pose proof Hk1 as (_ & H8 & Hc). eapply rom_reach_mono; [by eapply going1|].
    intros s (x2 & -> & Hx). exists x2, c'. split_and!; try done; auto.
  - rewrite Hv1. eapply rom_reach_trans; [by eapply poll1_resume|]. intros s (x2 & -> & Hk2). rewrite Hv2.
    pose proof Hk1 as (_ & H8 & Hc). eapply rom_reach_mono; [by eapply resuming1|].
    intros s (x3 & -> & Hx). exists x3, c'. split_and!; try done; auto.
  - rewrite Hv1. eapply rom_reach_trans; [by eapply poll1_resume|]. intros s (x2 & -> & Hk2). rewrite Hv2.
    by apply IH.
Qed.

Lemma exception1 x c g d :
  reach1 (Cpu (at_code 0 2) x c g d) (fun s' => exists x',
    s' = Cpu (at_code 0 0) x' c g (bus_st W32 (0 + EXCEPTION) 0 d)
    /\ x' 8 = c DSCRATCH0 /\ forall r, r <> 8 -> x' r = x r).
Proof.
  run 2%nat. run 15%nat. cbn [Z.add]. rewrite (store1 268) by lia. run 16%nat. run 17%nat.
  apply rom_reach_here. eexists. split; [f_equal; at_pc|]. split_and!; upd_tac.
Qed.
End one_scratch.

(** * Theorems *)

Definition image (snd_scratch : bool) : list Z := if snd_scratch then reset_vec else one_scratch_reset_vec.

(** Where an image may lie: on any page, or at address 0 when it has one scratch register. *)
Definition placed (snd_scratch : bool) (base : Z) : Prop :=
  0 <= base /\ base mod 4096 = 0 /\ base + 4096 <= 2 ^ 64 /\ (snd_scratch = false -> base = 0).

(** C26: both ROM images are the source: every word of them but the padding at the end decodes, and the
    decoded program is the assembly of [debug_rom.S] with and without [SND_SCRATCH]; the declared
    sizes are those of the images. *)
Theorem debug_rom_assembled :
  (exists code, mapM disasm (take 37 reset_vec) = Some code /\ assemble (debug_rom true) = Some code)
  /\ (exists code, mapM disasm (take 25 one_scratch_reset_vec) = Some code
                   /\ assemble (debug_rom false) = Some code)
  /\ disasm <$> drop 37 reset_vec = [None] /\ disasm <$> drop 25 one_scratch_reset_vec = [None]
  /\ length reset_vec = reset_vec_size /\ length one_scratch_reset_vec = one_scratch_reset_vec_size.
Proof.
  split; [exists two_scratch_instrs; split; by vm_compute|].
  split; [exists one_scratch_instrs; split; by vm_compute|]. by vm_compute.
Qed.

Section theorems.
Context `{!Bus D}.

(** C27: a hart that enters the debug ROM announces itself and polls its flags until the debug module
    has a request, and serves it: it leaves for the variable ROM after a store to GOING, or resumes
    the interrupted program after a store of its number to RESUMING. All its registers are as they
    were, the scratch registers hold s0 and a0, and no other control register has changed. *)
Theorem debug_rom_serves snd_scratch base id (s : cpu D) r d' :
  placed snd_scratch base -> 0 <= id < 0x400 -> csrf s MHARTID = id -> pc s = base + text_base ->
  polled base id (dm s) r d' ->
  exists s', steps base (image snd_scratch) s s' /\ served base id s r d' s' /\ same_regs s s'
    /\ csrf s' DSCRATCH0 = xregs s s0 /\ (snd_scratch = true -> csrf s' DSCRATCH1 = xregs s a0)
    /\ forall k, k <> DSCRATCH0 -> (snd_scratch = true -> k <> DSCRATCH1) -> csrf s' k = csrf s k.
Proof.
  intros (H0 & Hp & Hb & Hz) Hid Hi Hpc Hpl. destruct s as [p x c g d]. cbn [pc csrf dm] in *.
  assert (Hg : reach base (image snd_scratch) (Cpu p x c g d) (gone snd_scratch base id x c g r d')).
  { replace p with (at_code base 0) by (unfold at_code; lia). destruct snd_scratch.
    - eapply rom_reach_trans; [by apply entry2|]. intros s1 (x1 & c1 & -> & Hk). by eapply serve2.
    - rewrite (Hz eq_refl) in *. eapply rom_reach_trans; [by apply entry1|].
      intros s1 (x1 & c1 & -> & Hk). by eapply serve1. }
  destruct Hg as (s' & Hs & x' & c' & -> & Hx & H8 & H10 & Hc). eexists. split; [exact Hs|].
  assert (Hr : forall r, xget x' r = xget x r) by (intros k; unfold xget; by rewrite Hx).
  by destruct r.
Qed.

(** C28: after an exception in debug mode the hart tells the debug module, takes s0 and a0 back from
    the scratch registers, and is at the entry of the ROM again with everything else unchanged. *)
Theorem debug_rom_exception snd_scratch base (s : cpu D) :
  placed snd_scratch base -> pc s = base + text_base + 8 ->
  exists s', steps base (image snd_scratch) s s' /\ pc s' = base + text_base
    /\ dm s' = bus_st W32 (base + EXCEPTION) 0 (dm s) /\ debug s' = debug s
    /\ (forall k, csrf s' k = csrf s k)
    /\ xregs s' s0 = csrf s DSCRATCH0
    /\ xregs s' a0 = (if snd_scratch then csrf s DSCRATCH1 else xregs s a0)
    /\ forall r, r <> s0 -> r <> a0 -> xregs s' r = xregs s r.
Proof.
  intros (H0 & Hp & Hb & Hz) Hpc. destruct s as [p x c g d]. cbn [pc csrf dm debug xregs] in *.
  replace p with (at_code base 2) by (unfold at_code; lia). destruct snd_scratch.
  - destruct (exception2 base H0 Hp Hb x c g d) as (s' & Hs & x' & -> & H8 & H10 & Hr).
    eexists. split; [exact Hs|]. cbn. split_and!; auto. unfold at_code. lia.
  - rewrite (Hz eq_refl) in *. destruct (exception1 x c g d) as (s' & Hs & x' & -> & H8 & Hr).
    eexists. split; [exact Hs|]. cbn. split_and!; auto.
Qed.
End theorems.

(** * A concrete debug module *)

(** It answers the reads of the flags one after the other, and logs the stores. *)
Record dbg := Dbg { dbg_answers : list Z; dbg_log : list (Z * Z) }.

#[export] Instance dbg_bus : Bus dbg := {
  bus_ld _ _ d := (hd 0 (dbg_answers d), Dbg (tl (dbg_answers d)) (dbg_log d));
  bus_st _ a v d := Dbg (dbg_answers d) (dbg_log d ++ [(a, v)]);
  bus_nop d := d
}.

Definition ex_hart (pc : Z) (answers : list Z) : cpu dbg :=
  Cpu pc (fun r => 100 + r) (fun k => if k =? MHARTID then 3 else k) true (Dbg answers []).

Lemma ex_placed : placed true 0x1a110000.
Proof. by split_and!. Qed.

(** Two rounds: nothing, then a request to resume. *)
Lemma debug_rom_serves_witness :
  exists s', steps 0x1a110000 reset_vec (ex_hart 0x1a110800 [0; 0; 0; 2]) s'
    /\ dbg_log (dm s') = [(0x1a110100, 3); (0x1a110100, 3); (0x1a110108, 3)] /\ xregs s' 8 = 108.
Proof.
  destruct (debug_rom_serves true 0x1a110000 3 (ex_hart 0x1a110800 [0; 0; 0; 2]) Resume
    (Dbg [] [(0x1a110100, 3); (0x1a110100, 3)]))
    as (s' & Hs & (_ & _ & Hd) & Hr & _).
  - apply ex_placed.
  - done.
  - done.
  - done.
  - eapply polled_again; [reflexivity..|]. eapply polled_resume; reflexivity.
  - exists s'. split; [exact Hs|]. split; [by rewrite Hd | apply (Hr 8)].
Defined.

Lemma debug_rom_exception_witness :
  exists s', steps 0x1a110000 reset_vec (ex_hart 0x1a110808 []) s'
    /\ pc s' = 0x1a110800 /\ dbg_log (dm s') = [(0x1a11010c, 0)].
Proof.
  destruct (debug_rom_exception true 0x1a110000 (ex_hart 0x1a110808 [])) as (s' & Hs & Hp & Hd & _).
  - apply ex_placed.
  - done.
  - exists s'. split; [exact Hs|]. split; [exact Hp | by rewrite Hd].
Defined.
