(* ===== verification/Elf.v ===== *)
(** The ELF loader of the test bench ([corev_apu/tb/dpi/elfloader.cc]): it collects the loadable
    segments of a program and hands them to the simulator, which copies them to memory. The structures
    of the ELF format, which the loader takes from a header of another project, and the file system
    are parameters. Assertions are enabled. *)
From S2P Require Import Prelude.

(** * The ELF format *)

(** A member of a structure: its offset and its size. *)
Definition member : Type := nat * nat.

(** The structures, for programs of a word size. *)
Class Elf := {
  elf_bits : Z;
  e_entry : member; e_phoff : member; e_shoff : member;
  e_phnum : member; e_shnum : member; e_shstrndx : member;
  sizeof_phdr : Z;
  p_type : member; p_offset : member; p_paddr : member; p_filesz : member; p_memsz : member;
  sizeof_shdr : Z;
  sh_name : member; sh_type : member; sh_offset : member; sh_size : member;
  sizeof_sym : Z;
  st_name : member; st_value : member
}.

(** The rest of the header, and the largest vector the host can allocate. *)
Class Fesvr := {
  PT_LOAD : Z;
  sizeof_ehdr64 : Z;
  IS_ELF32 : list Z -> bool;
  IS_ELF64 : list Z -> bool;
  elf32 : Elf;
  elf64 : Elf;
  max_alloc : Z
}.

(** * The loader *)

Definition SHT_PROGBITS : Z := 0x1.
Definition SHT_GROUP : Z := 0x11.

(** Its global variables; the map [symbols] is never used, a local variable hides it. *)
Record loader := Loader {
  sections : list (Z * Z);
  mems : gmap Z (list Z);
  entry : Z;
  section_index : Z
}.

(** [std::map::insert] does not replace an element; the [int] index of the loop overflows beyond
    [INT_MAX]. *)
Definition write (address len : Z) (buf : list Z) (s : loader) : res loader :=
  if 2 ^ 31 - 1 <? len then Crash else
  if Z.of_nat (length buf) <? len then Crash else
  let mem := take (Z.to_nat len) buf in
  Ret (Loader (sections s)
         (match mems s !! address with Some _ => mems s | None => <[address := mem]> (mems s) end)
         (entry s) (section_index s)).

Definition get_section (s : loader) : option (Z * Z) * loader :=
  match sections s !! Z.to_nat (section_index s) with
  | Some x => (Some x, Loader (sections s) (mems s) (entry s) (section_index s + 1))
  | None => (None, s)
  end.

(** The contents of the buffer of the simulator after the call. *)
Definition read_section (address : Z) (buffer : list Z) (s : loader) : res (list Z) :=
  match mems s !! address with
  | None => Abort
  | Some mem =>
      if (length buffer <? length mem)%nat then Crash
      else Ret (mem ++ drop (length mem) buffer)
  end.

Section load.
Context {Fv : Fesvr}.

Section file.
Context (buf : list Z).

Definition size : Z := Z.of_nat (length buf).

Definition byte (off : Z) : res Z :=
  if off <? 0 then Crash else
  match buf !! Z.to_nat off with Some b => Ret b | None => Crash end.

(** A member of a structure at an offset of the file. *)
Definition get (base : Z) (m : member) : res Z :=
  let o := base + Z.of_nat (fst m) in
  if (o <? 0) || (size <? o + Z.of_nat (snd m)) then Crash
  else Ret (le_val (take (snd m) (drop (Z.to_nat o) buf))).

(** [strcmp (p, lit) == 0] and [strnlen (p, n)]. *)
Fixpoint strcmp_eq (off : Z) (lit : list Z) : res bool :=
  match lit with
  | [] => c ← byte off; Ret (c =? 0)
  | l :: lit => c ← byte off; if c =? l then strcmp_eq (off + 1) lit else Ret false
  end.

Fixpoint strnlen (off : Z) (n : nat) : res Z :=
  match n with
  | O => Ret 0
  | S n => c ← byte off; if c =? 0 then Ret 0 else k ← strnlen (off + 1) n; Ret (k + 1)
  end.

Section format.
Context {Ef : Elf}.

(** Sums and differences of members wrap at the word size of the program. *)
Definition word (z : Z) : Z := z mod 2 ^ elf_bits.

(** One turn of the loop over program headers. *)
Definition load_phdr (ph i : Z) (s : loader) : res loader :=
  let phi := ph + i * sizeof_phdr in
  ty ← get phi p_type;
  if negb (ty =? PT_LOAD) then Ret s else
  memsz ← get phi p_memsz;
  if memsz =? 0 then Ret s else
  filesz ← get phi p_filesz;
  s ← (if filesz =? 0 then Ret s else
       off ← get phi p_offset;
       assert (word (off + filesz) <=? size) ;;
       paddr ← get phi p_paddr;
       write paddr filesz (drop (Z.to_nat off) buf)
         (Loader (sections s ++ [(paddr, memsz)]) (mems s) (entry s) (section_index s)));
  if max_alloc <? word (memsz - filesz) then Abort else Ret s.

(** One turn of the loop over section headers, on [strtabidx] and [symtabidx]. *)
Definition scan_shdr (sh shstrtab shstrsz i : Z) (st : Z * Z) : res (Z * Z) :=
  let '(strtabidx, symtabidx) := st in
  let shi := sh + i * sizeof_shdr in
  name ← get shi sh_name;
  let max_len := u32 (shstrsz - name) in
  ty ← get shi sh_type;
  named ← (if Z.land ty SHT_GROUP =? 0 then Ret true else
           b ← strcmp_eq (shstrtab + name) (str ".strtab");
           if b : bool then Ret true else strcmp_eq (shstrtab + name) (str ".shstrtab"));
  (if named : bool then Ret tt else
   l ← strnlen (shstrtab + name) (Z.to_nat max_len); assert (l <? max_len)) ;;
  if negb (Z.land ty SHT_PROGBITS =? 0) then Ret (strtabidx, symtabidx) else
  b ← strcmp_eq (shstrtab + name) (str ".strtab");
  let strtabidx := if b : bool then i else strtabidx in
  b ← strcmp_eq (shstrtab + name) (str ".symtab");
  let symtabidx := if b : bool then i else symtabidx in
  Ret (strtabidx, symtabidx).

(** The loop over symbols; the map it fills is local. *)
Definition load_symbols (sh strtabidx symtabidx : Z) : res unit :=
  strtab ← get (sh + strtabidx * sizeof_shdr) sh_offset;
  sym ← get (sh + symtabidx * sizeof_shdr) sh_offset;
  symsz ← get (sh + symtabidx * sizeof_shdr) sh_size;
  for_each (seqZ 0 (symsz / sizeof_sym)) (fun i _ =>
    strsz ← get (sh + strtabidx * sizeof_shdr) sh_size;
    name ← get (sym + i * sizeof_sym) st_name;
    let max_len := u32 (strsz - name) in
    assert (name <? strsz) ;;
    l ← strnlen (strtab + name) (Z.to_nat max_len);
    assert (l <? max_len) ;;
    get (sym + i * sizeof_sym) st_value ;;
    Ret tt) tt.

(** The section headers: their checks, and the indices of the two tables. *)
Definition scan_shdrs : res (Z * Z) :=
  sh ← get 0 e_shoff;
  shnum ← get 0 e_shnum;
  assert (u64 (sh + u64 (shnum * sizeof_shdr)) <=? size) ;;
  ndx ← get 0 e_shstrndx;
  assert (ndx <? shnum) ;;
  stroff ← get (sh + ndx * sizeof_shdr) sh_offset;
  strsz ← get (sh + ndx * sizeof_shdr) sh_size;
  assert (word (stroff + strsz) <=? size) ;;
  for_each (seqZ 0 shnum) (scan_shdr sh stroff strsz) (0, 0).

(** The macro [LOAD_ELF]. *)
Definition LOAD_ELF (s : loader) : res loader :=
  ph ← get 0 e_phoff;
  en ← get 0 e_entry;
  let s := Loader (sections s) (mems s) en (section_index s) in
  phnum ← get 0 e_phnum;
  assert (u64 (ph + u64 (phnum * sizeof_phdr)) <=? size) ;;
  s ← for_each (seqZ 0 phnum) (load_phdr ph) s;
  idx ← scan_shdrs;
  sh ← get 0 e_shoff;
  (if negb (fst idx =? 0) && negb (snd idx =? 0) then load_symbols sh (fst idx) (snd idx) else Ret tt) ;;
  Ret s.
End format.
End file.

(** [file] is the contents of the file, if it can be opened and mapped. *)
Definition read_elf (file : option (list Z)) (s : loader) : res loader :=
  match file with
  | None => Abort
  | Some buf =>
      assert (sizeof_ehdr64 <=? size buf) ;;
      assert (IS_ELF32 buf || IS_ELF64 buf) ;;
      if IS_ELF32 buf then LOAD_ELF (Ef := elf32) buf s else LOAD_ELF (Ef := elf64) buf s
  end.
End load.

(** * Segments *)

(** A program header, and the segments the loader hands over. *)
Record segment := Segment {
  sg_type : Z; sg_offset : Z; sg_paddr : Z; sg_filesz : Z; sg_memsz : Z
}.

Section spec.
Context {Fv : Fesvr} {Ef : Elf} (buf : list Z).

(** The header [i] of the table at [ph] holds the segment. *)
Definition holds_segment (ph i : Z) (sg : segment) : Prop :=
  let a := ph + i * sizeof_phdr in
  get buf a p_type = Ret (sg_type sg) /\ get buf a p_offset = Ret (sg_offset sg)
  /\ get buf a p_paddr = Ret (sg_paddr sg) /\ get buf a p_filesz = Ret (sg_filesz sg)
  /\ get buf a p_memsz = Ret (sg_memsz sg).

Definition loads (sg : segment) : bool :=
  (sg_type sg =? PT_LOAD) && negb (sg_memsz sg =? 0) && negb (sg_filesz sg =? 0).

(** The bytes of a segment lie in the file, and what memory has beyond them can be allocated. *)
Definition segment_ok (sg : segment) : Prop :=
  sg_type sg = PT_LOAD -> sg_memsz sg <> 0 ->
  0 <= sg_offset sg /\ 0 <= sg_filesz sg < 2 ^ 31 /\ sg_offset sg + sg_filesz sg <= size buf
  /\ sg_offset sg + sg_filesz sg < 2 ^ elf_bits /\ word (sg_memsz sg - sg_filesz sg) <= max_alloc.

Definition content (sg : segment) : list Z := take (Z.to_nat (sg_filesz sg)) (drop (Z.to_nat (sg_offset sg)) buf).

Definition loaded (segs : list segment) : list segment := filter (fun sg => loads sg = true) segs.
Definition section_of (sg : segment) : Z * Z := (sg_paddr sg, sg_memsz sg).
Definition chunk_of (sg : segment) : Z * list Z := (sg_paddr sg, content sg).

(** The loader after [segs]: of two chunks for one address the first is kept. *)
Definition after_segments (segs : list segment) (s : loader) : loader :=
  Loader (sections s ++ (section_of <$> loaded segs))
         (mems s ∪ list_to_map (chunk_of <$> loaded segs)) (entry s) (section_index s).

Definition keep_first (k : Z) (v : list Z) (m : gmap Z (list Z)) : gmap Z (list Z) :=
  match m !! k with Some _ => m | None => <[k := v]> m end.

Definition after_segment (s : loader) (sg : segment) : loader :=
  if loads sg then
    Loader (sections s ++ [section_of sg]) (keep_first (sg_paddr sg) (content sg) (mems s))
           (entry s) (section_index s)
  else s.

Lemma keep_first_union k v m : keep_first k v m = m ∪ {[k := v]}.
Proof.
  unfold keep_first. destruct (m !! k) as [w|] eqn:E.
  - symmetry. apply map_eq. intros j. rewrite lookup_union.
    destruct (decide (j = k)) as [->|Hne]; [by rewrite E, lookup_singleton_eq|].
    rewrite lookup_singleton_ne by done. by destruct (m !! j).
  - by rewrite insert_union_singleton_r.
Qed.

Lemma foldl_after segs s : foldl after_segment s segs = after_segments segs s.
Proof.
  revert s. induction segs as [|sg segs IH]; intros s; cbn [foldl].
  - unfold after_segments, loaded. cbn. rewrite app_nil_r, (right_id_L ∅ (∪)). by destruct s.
  - rewrite IH. unfold after_segment, after_segments, loaded. rewrite filter_cons.
    destruct (loads sg) eqn:E; [rewrite decide_True by done | by rewrite decide_False by done].
    cbn [fmap list_fmap sections mems entry section_index list_to_map foldr].
    rewrite <- (assoc_L (++)). f_equal.
    rewrite keep_first_union, <- (assoc_L (∪)). f_equal. unfold chunk_of. cbn.
    by rewrite insert_union_singleton_l.
Qed.

Lemma write_chunk paddr filesz off s :
  0 <= off -> 0 <= filesz < 2 ^ 31 -> off + filesz <= size buf ->
  write paddr filesz (drop (Z.to_nat off) buf) s
  = Ret (Loader (sections s) (keep_first paddr (take (Z.to_nat filesz) (drop (Z.to_nat off) buf)) (mems s))
           (entry s) (section_index s)).
Proof.
  intros H0 H1 H2. unfold write, size in *.
  destruct (Z.ltb_spec (2 ^ 31 - 1) filesz); [lia|]. rewrite length_drop.
  destruct (Z.ltb_spec (Z.of_nat (length buf - Z.to_nat off)) filesz); [lia | done].
Qed.

Lemma word_small z : 0 <= z < 2 ^ elf_bits -> word z = z.
Proof. apply Z.mod_small. Qed.

Lemma load_phdr_segment ph i sg s :
  holds_segment ph i sg -> segment_ok sg -> load_phdr buf ph i s = Ret (after_segment s sg).
Proof.
  intros (H1 & H2 & H3 & H4 & H5) Hok. unfold load_phdr, after_segment, loads.
  rewrite H1. cbn [mbind res_bind].
  destruct (Z.eqb_spec (sg_type sg) PT_LOAD) as [Et|]; cbn [negb andb]; [|done].
  rewrite H5. cbn [mbind res_bind].
  destruct (Z.eqb_spec (sg_memsz sg) 0) as [|Em]; cbn [negb andb]; [done|].
  destruct (Hok Et Em) as (Ho & Hf & Hs & Hw & Ha). rewrite H4. cbn [mbind res_bind].
  destruct (Z.eqb_spec (sg_filesz sg) 0) as [Ez|Ez]; cbn [negb].
  - cbn [mbind res_bind]. destruct (Z.ltb_spec max_alloc (word (sg_memsz sg - sg_filesz sg))); [lia | done].
  - rewrite H2. cbn [mbind res_bind]. rewrite (word_small (sg_offset sg + sg_filesz sg)) by lia.
    destruct (Z.leb_spec (sg_offset sg + sg_filesz sg) (size buf)); [|lia]. cbn [assert mbind res_bind].
    rewrite H3. cbn [mbind res_bind]. rewrite write_chunk by lia. cbn [mbind res_bind].
    destruct (Z.ltb_spec max_alloc (word (sg_memsz sg - sg_filesz sg))); [lia | done].
Qed.

Lemma load_phdrs ph k segs s :
  (forall i sg, segs !! i = Some sg -> holds_segment ph (k + Z.of_nat i) sg /\ segment_ok sg) ->
  for_each (seqZ k (Z.of_nat (length segs))) (load_phdr buf ph) s = Ret (foldl after_segment s segs).
Proof.
  revert k s. induction segs as [|sg segs IH]; intros k s H; [done|].
  cbn [length]. rewrite Nat2Z.inj_succ, seqZ_cons, Z.pred_succ by lia. cbn [for_each foldl].
  destruct (H 0%nat sg eq_refl) as [Hh Ho]. rewrite Z.add_0_r in Hh.
  rewrite (load_phdr_segment _ _ sg) by done. cbn [mbind res_bind]. apply IH.
  intros i sg' Hi. replace (Z.succ k + Z.of_nat i) with (k + Z.of_nat (S i)) by lia. by apply H.
Qed.
End spec.

(** * Every run *)

Lemma for_each_keeps {S} (R : S -> S -> Prop) `{!PreOrder R} (l : list Z) f s s' :
  (forall i s s', i ∈ l -> f i s = Ret s' -> R s s') -> for_each l f s = Ret s' -> R s s'.
Proof.
  revert s. induction l as [|i l IH]; intros s Hf H; cbn in H; [by injection H as ->|].
  apply bind_Ret in H as (s1 & H1 & H). etrans; [by eapply Hf, H1; left | apply IH; [|done]].
  intros j t t' Hj. apply Hf. by right.
Qed.

Lemma for_each_Ret {S} (l : list Z) (f : Z -> S -> res S) s s' i :
  for_each l f s = Ret s' -> i ∈ l -> exists s1 s2, f i s1 = Ret s2.
Proof.
  revert s. induction l as [|j l IH]; intros s H Hi; cbn in H; [by apply elem_of_nil in Hi|].
  apply bind_Ret in H as (s1 & H1 & H). apply elem_of_cons in Hi as [->|Hi]; [eauto | by eapply IH].
Qed.

Section runs.
Context {Fv : Fesvr} {Ef : Elf} (buf : list Z).

(** What one run may do to the loader: sections are added at the end, each with a chunk; chunks are
    added, never replaced, and are pieces of the file. *)
Record extends (s s' : loader) : Prop := {
  ex_index : section_index s' = section_index s;
  ex_sections : exists l, sections s' = sections s ++ l
    /\ forall a n, (a, n) ∈ l -> is_Some (mems s' !! a);
  ex_kept : mems s ⊆ mems s';
  ex_new : forall a d, mems s' !! a = Some d -> mems s !! a = Some d
    \/ exists off n, d = take n (drop off buf)
}.

#[export] Instance extends_preorder : PreOrder extends.
Proof.
  split.
  - intros s. split; [done | | done | auto]. exists []. rewrite app_nil_r. split; [done|].
    intros a n Hn. by apply elem_of_nil in Hn.
  - intros s1 s2 s3 [I1 (l1 & S1 & D1) K1 N1] [I2 (l2 & S2 & D2) K2 N2]. split.
    + congruence.
    + exists (l1 ++ l2). rewrite S2, S1, (assoc_L (++)). split; [done|].
      intros a n [Ha|Ha]%elem_of_app; [|by eapply D2]. destruct (D1 _ _ Ha) as [d Hd].
      exists d. by eapply lookup_weaken.
    + by etrans.
    + intros a d H. destruct (N2 _ _ H) as [H'|]; [by apply N1 | auto].
Qed.

Lemma load_phdr_extends ph i s s' : load_phdr buf ph i s = Ret s' -> extends s s'.
Proof.
  intros H. unfold load_phdr in H. apply bind_Ret in H as (ty & _ & H).
  destruct (ty =? PT_LOAD); cbn [negb] in H; [|injection H as <-; reflexivity].
  apply bind_Ret in H as (memsz & _ & H). destruct (memsz =? 0); [injection H as <-; reflexivity|].
  apply bind_Ret in H as (filesz & _ & H). apply bind_Ret in H as (s1 & H1 & H).
  destruct (max_alloc <? word (memsz - filesz)); [done|]. injection H as <-.
  destruct (filesz =? 0); [injection H1 as <-; reflexivity|].
  apply bind_Ret in H1 as (off & _ & H1). apply bind_Ret in H1 as ([] & _ & H1).
  apply bind_Ret in H1 as (paddr & _ & H1). unfold write in H1.
  destruct (2 ^ 31 - 1 <? filesz); [done|]. destruct (_ <? filesz); [done|]. injection H1 as <-.
  cbn [sections mems entry section_index].
  set (d := take _ _). fold (keep_first paddr d (mems s)). rewrite keep_first_union. split; cbn.
  - done.
  - exists [(paddr, memsz)]. split; [done|]. intros a n Ha%list_elem_of_singleton. injection Ha as -> _.
    apply lookup_union_is_Some. right. exists d. apply lookup_singleton_eq.
  - apply map_union_subseteq_l.
  - intros a e [H1|[_ H1]]%lookup_union_Some_raw; [auto|]. right.
    apply lookup_singleton_Some in H1 as [_ <-]. by eexists _, _.
Qed.

Lemma LOAD_ELF_extends s s' : LOAD_ELF buf s = Ret s' -> extends s s'.
Proof.
  intros H. unfold LOAD_ELF in H. unbind H. injection H as <-.
  match goal with E : for_each _ _ _ = Ret ?s |- extends _ ?s =>
    apply (for_each_keeps extends) in E; [|intros * _; apply load_phdr_extends]; destruct E as [I S K N] end.
  by split.
Qed.

(** The scan never finds a string table whose section has the type of one. *)
Lemma scan_shdr_strtab sh off sz i st st' :
  (forall name ty, get buf (sh + i * sizeof_shdr) sh_name = Ret name ->
     get buf (sh + i * sizeof_shdr) sh_type = Ret ty ->
     strcmp_eq buf (off + name) (str ".strtab") = Ret true -> ty = 3) ->
  scan_shdr buf sh off sz i st = Ret st' -> fst st = 0 -> fst st' = 0.
Proof.
  intros Hty H Hst. destruct st as [a b]. cbn in Hst. subst a. unfold scan_shdr in H.
  apply bind_Ret in H as (name & En & H). apply bind_Ret in H as (ty & Et & H).
  apply bind_Ret in H as (named & _ & H). apply bind_Ret in H as ([] & _ & H).
  specialize (Hty _ _ En Et). destruct (Z.land ty SHT_PROGBITS =? 0) eqn:Ep; cbn [negb] in H.
  - apply bind_Ret in H as (c1 & E1 & H). apply bind_Ret in H as (c2 & E2 & H). injection H as <-.
    destruct c1; [|done]. rewrite (Hty E1) in Ep. done.
  - by injection H as <-.
Qed.
End runs.

(** * Handing over *)

(** Every section has a chunk, and the index of the next section is in range. *)
Definition loader_ok (s : loader) : Prop :=
  (forall a n, (a, n) ∈ sections s -> is_Some (mems s !! a))
  /\ 0 <= section_index s <= Z.of_nat (length (sections s)).

(** The sections a simulator gets when it asks [n] times. *)
Fixpoint drain (n : nat) (s : loader) : list (Z * Z) * loader :=
  match n with
  | O => ([], s)
  | S n =>
      match get_section s with
      | (Some x, s) => let '(l, s) := drain n s in (x :: l, s)
      | (None, s) => ([], s)
      end
  end.

Definition at_index (i : Z) (s : loader) : loader := Loader (sections s) (mems s) (entry s) i.

Lemma drain_all n s :
  0 <= section_index s -> (Z.to_nat (section_index s) + n = length (sections s))%nat ->
  drain n s = (drop (Z.to_nat (section_index s)) (sections s), at_index (section_index s + Z.of_nat n) s).
Proof.
  revert s. induction n as [|n IH]; intros s H0 Hn; cbn [drain].
  - rewrite drop_ge by lia. rewrite Z.add_0_r. by destruct s.
  - unfold get_section. destruct (lookup_lt_is_Some_2 (sections s) (Z.to_nat (section_index s))) as [x Hx]; [lia|].
    rewrite Hx. rewrite IH by (cbn; lia). cbn [sections mems entry section_index].
    rewrite (drop_S _ _ _ Hx). unfold at_index. cbn [sections mems entry section_index].
    replace (Z.to_nat (section_index s + 1)) with (S (Z.to_nat (section_index s))) by lia.
    do 2 f_equal. lia.
Qed.

Section read_elf.
Context {Fv : Fesvr}.

(** The structures of a file of 64-bit words are those of [elf64]. *)
Definition elf_of (buf : list Z) : Elf := if IS_ELF32 buf then elf32 else elf64.

Lemma read_elf_LOAD buf s :
  read_elf (Some buf) s =
    (assert (sizeof_ehdr64 <=? size buf) ;; assert (IS_ELF32 buf || IS_ELF64 buf) ;;
     LOAD_ELF (Ef := elf_of buf) buf s).
Proof. unfold read_elf, elf_of. by destruct (IS_ELF32 buf). Qed.

Lemma read_elf_extends buf s s' : read_elf (Some buf) s = Ret s' -> extends buf s s'.
Proof.
  rewrite read_elf_LOAD. intros H. unbind H. by eapply LOAD_ELF_extends.
Qed.

(** A section with the name of the string table has its type. *)
Definition typed_strtab {Ef : Elf} (buf : list Z) : Prop :=
  forall sh ndx off n i name ty,
    get buf 0 e_shoff = Ret sh -> get buf 0 e_shstrndx = Ret ndx ->
    get buf 0 e_shnum = Ret n -> 0 <= i < n ->
    get buf (sh + ndx * sizeof_shdr) sh_offset = Ret off ->
    get buf (sh + i * sizeof_shdr) sh_name = Ret name ->
    get buf (sh + i * sizeof_shdr) sh_type = Ret ty ->
    strcmp_eq buf (off + name) (str ".strtab") = Ret true -> ty = 3.

(** The scan then finds no string table. *)
Lemma scan_finds_no_strtab {Ef : Elf} buf idx :
  typed_strtab buf -> scan_shdrs buf = Ret idx -> fst idx = 0.
Proof.
  intros Hty H. unfold scan_shdrs in H. apply bind_Ret in H as (sh & Esh & H).
  apply bind_Ret in H as (n & En & H). apply bind_Ret in H as ([] & _ & H).
  apply bind_Ret in H as (ndx & Endx & H). apply bind_Ret in H as ([] & _ & H).
  apply bind_Ret in H as (off & Eoff & H). apply bind_Ret in H as (sz & _ & H).
  apply bind_Ret in H as ([] & _ & H).
  assert (PreOrder (fun st st' : Z * Z => fst st = 0 -> fst st' = 0))
    by (split; [by intros ? | intros ? ? ?; auto]).
  eapply (for_each_keeps (fun st st' : Z * Z => fst st = 0 -> fst st' = 0)) in H; [by apply H | | done].
  intros i st st' Hi%elem_of_seqZ Hs. eapply scan_shdr_strtab; [|exact Hs].
  intros name ty E1 E2 E3. by eapply (Hty sh ndx off n i); [..|lia|done|done|done|done].
Qed.

(** The loader without its loop over symbols: the entry point, the segments, and the checks of the
    section headers. *)
Definition load_without_symbols {Ef : Elf} (buf : list Z) (s : loader) : res loader :=
  ph ← get buf 0 e_phoff;
  en ← get buf 0 e_entry;
  phnum ← get buf 0 e_phnum;
  assert (u64 (ph + u64 (phnum * sizeof_phdr)) <=? size buf) ;;
  s ← for_each (seqZ 0 phnum) (load_phdr buf ph) (Loader (sections s) (mems s) en (section_index s));
  scan_shdrs buf ;;
  get buf 0 e_shoff ;;
  Ret s.

(** * Theorems *)

(** C29: from a file with a program header table inside it and segments inside it, [read_elf] makes one
    section for each loadable segment that has bytes in the file, in the order of the table, with the
    size it has in memory; the chunk kept for an address is the bytes in the file of the first
    segment with this address; the entry point is that of the header. *)
Theorem read_elf_loads buf s segs ph en idx sh :
  let Ef := elf_of buf in
  sizeof_ehdr64 <= size buf -> IS_ELF32 buf || IS_ELF64 buf = true ->
  get buf 0 e_phoff = Ret ph -> get buf 0 e_entry = Ret en ->
  get buf 0 e_phnum = Ret (Z.of_nat (length segs)) ->
  0 <= ph -> 0 <= sizeof_phdr -> ph + Z.of_nat (length segs) * sizeof_phdr <= size buf -> size buf < 2 ^ 64 ->
  (forall i sg, segs !! i = Some sg -> holds_segment buf ph (Z.of_nat i) sg /\ segment_ok buf sg) ->
  scan_shdrs buf = Ret idx -> get buf 0 e_shoff = Ret sh ->
  (fst idx = 0 \/ snd idx = 0 \/ load_symbols buf sh (fst idx) (snd idx) = Ret tt) ->
  read_elf (Some buf) s = Ret (Loader
    (sections s ++ (section_of <$> loaded segs))
    (mems s ∪ list_to_map (chunk_of buf <$> loaded segs))
    en (section_index s)).
Proof.
  intros Ef H1 H2 Hph Hen Hn H0 Hsz Hin Hsize Hseg Hidx Hsh Hsym. rewrite read_elf_LOAD.
  destruct (Z.leb_spec sizeof_ehdr64 (size buf)); [|lia]. rewrite H2. cbn [assert mbind res_bind].
  unfold LOAD_ELF. fold Ef. rewrite Hph, Hen, Hn. cbn [mbind res_bind].
  rewrite (u64_small (_ * _)), u64_small by nia.
  destruct (Z.leb_spec (ph + Z.of_nat (length segs) * sizeof_phdr) (size buf)); [|lia]. cbn [assert mbind res_bind].
  rewrite (load_phdrs buf ph 0 segs) by exact Hseg. cbn [mbind res_bind].
  rewrite Hidx, Hsh. cbn [mbind res_bind]. rewrite foldl_after. unfold after_segments.
  cbn [sections mems entry section_index].
  destruct (Z.eqb_spec (fst idx) 0), (Z.eqb_spec (snd idx) 0); cbn [negb andb mbind res_bind]; try done.
  by destruct Hsym as [?|[?| ->]].
Qed.

(** C30: after any successful [read_elf] a simulator that asks for sections gets all of them, in order and
    once, and then no more; for each it can read a chunk, which is what the loader had for this
    address before or a piece of the file; the rest of its buffer is left as it was. *)
Theorem elf_handover buf s s' :
  read_elf (Some buf) s = Ret s' -> loader_ok s ->
  loader_ok s'
  /\ (let n := (length (sections s') - Z.to_nat (section_index s'))%nat in
      fst (drain n s') = drop (Z.to_nat (section_index s)) (sections s')
      /\ fst (get_section (snd (drain n s'))) = None)
  /\ forall a n, (a, n) ∈ sections s' -> exists chunk,
       (mems s !! a = Some chunk \/ exists off k, chunk = take k (drop off buf))
       /\ forall buffer, (length chunk <= length buffer)%nat ->
            read_section a buffer s' = Ret (chunk ++ drop (length chunk) buffer).
Proof.
  intros H [Hok Hi]. apply read_elf_extends in H as [Hix (l & Hs & Hd) Hk Hn].
  assert (Hok' : forall a n, (a, n) ∈ sections s' -> is_Some (mems s' !! a)).
  { intros a n. rewrite Hs. intros [Ha|Ha]%elem_of_app; [|by eapply Hd].
    destruct (Hok a n Ha) as [d Hd']. exists d. by eapply lookup_weaken. }
  assert (Hl : 0 <= section_index s' <= Z.of_nat (length (sections s')))
    by (rewrite Hix, Hs, length_app; lia).
  split; [by split|]. split.
  - intros n. rewrite (drain_all n s') by (unfold n; lia). cbn [fst snd]. split; [by rewrite Hix|].
    unfold get_section, at_index. cbn [sections mems entry section_index].
    by rewrite lookup_ge_None_2 by (unfold n; lia).
  - intros a n Ha. destruct (Hok' a n Ha) as [chunk Hc]. exists chunk. split; [by apply Hn|].
    intros buffer Hb. unfold read_section. rewrite Hc.
    by destruct (Nat.ltb_spec (length buffer) (length chunk)); [lia|].
Qed.

(** A file with a loadable segment that reaches beyond its end is refused: [read_elf] does not
    return. *)
Theorem elf_truncated_refused buf s ph n i sg :
  let Ef := elf_of buf in
  get buf 0 e_phoff = Ret ph -> get buf 0 e_phnum = Ret n -> 0 <= i < n ->
  holds_segment buf ph i sg -> loads sg = true ->
  0 <= sg_offset sg + sg_filesz sg < 2 ^ elf_bits -> size buf < sg_offset sg + sg_filesz sg ->
  forall s', read_elf (Some buf) s <> Ret s'.
Proof.
  intros Ef Hph Hn Hi (H1 & H2 & H3 & H4 & H5) Hl Hw Hs s' H. rewrite read_elf_LOAD in H.
  apply bind_Ret in H as ([] & _ & H). apply bind_Ret in H as ([] & _ & H). unfold LOAD_ELF in H.
  fold Ef in H. rewrite Hph, Hn in H. cbn [mbind res_bind] in H. apply bind_Ret in H as (en & _ & H).
  cbn [mbind res_bind] in H. apply bind_Ret in H as ([] & _ & H). apply bind_Ret in H as (s1 & H & _).
  apply (for_each_Ret _ _ _ _ i) in H as (s2 & s3 & H); [|apply elem_of_seqZ; lia].
  unfold load_phdr in H. unfold loads in Hl. rewrite !andb_true_iff, !negb_true_iff in Hl.
  destruct Hl as [[Ht Hm] Hf]. rewrite H1, H5, H4, H2 in H. cbn [mbind res_bind] in H.
  rewrite Ht in H. cbn [negb mbind res_bind] in H. rewrite Hm in H. cbn [mbind res_bind] in H.
  rewrite Hf in H. cbn [mbind res_bind] in H. rewrite (word_small (sg_offset sg + _)) in H by done.
  destruct (Z.leb_spec (sg_offset sg + sg_filesz sg) (size buf)); [lia | done].
Qed.

(** C31: the symbols of a program are not loaded: in a file whose sections named .strtab have the type
    of string tables, which is 3, the scan skips them for the bit they share with SHT_PROGBITS, and
    finds no string table; so [read_elf] does, whatever else the file holds, a table of symbols
    included, what it would do without its loop over symbols. *)
Theorem elf_strtab_missed buf s :
  let Ef := elf_of buf in
  typed_strtab buf ->
  (forall idx, scan_shdrs buf = Ret idx -> fst idx = 0)
  /\ read_elf (Some buf) s =
       (assert (sizeof_ehdr64 <=? size buf) ;; assert (IS_ELF32 buf || IS_ELF64 buf) ;;
        load_without_symbols buf s).
Proof.
  intros Ef Hty. assert (H : forall idx, scan_shdrs buf = Ret idx -> fst idx = 0)
    by (intros; by eapply scan_finds_no_strtab).
  split; [exact H|]. rewrite read_elf_LOAD. unfold LOAD_ELF, load_without_symbols. fold Ef.
  destruct (scan_shdrs buf) as [[a b]| |]; [specialize (H _ eq_refl); cbn in H; subst a | |];
    repeat (apply res_bind_ext; intros ?; cbn [mbind res_bind]); done.
Qed.
End read_elf.

(** * A concrete format and a concrete file *)

(** The structures of the ELF specification for 64-bit programs, and for 32-bit ones. *)
#[export] Instance elf64_format : Elf := {
  elf_bits := 64;
  e_entry := (24, 8)%nat; e_phoff := (32, 8)%nat; e_shoff := (40, 8)%nat;
  e_phnum := (56, 2)%nat; e_shnum := (60, 2)%nat; e_shstrndx := (62, 2)%nat;
  sizeof_phdr := 56;
  p_type := (0, 4)%nat; p_offset := (8, 8)%nat; p_paddr := (24, 8)%nat; p_filesz := (32, 8)%nat; p_memsz := (40, 8)%nat;
  sizeof_shdr := 64;
  sh_name := (0, 4)%nat; sh_type := (4, 4)%nat; sh_offset := (24, 8)%nat; sh_size := (32, 8)%nat;
  sizeof_sym := 24;
  st_name := (0, 4)%nat; st_value := (8, 8)%nat
}.

Definition elf32_format : Elf := {|
  elf_bits := 32;
  e_entry := (24, 4)%nat; e_phoff := (28, 4)%nat; e_shoff := (32, 4)%nat;
  e_phnum := (44, 2)%nat; e_shnum := (48, 2)%nat; e_shstrndx := (50, 2)%nat;
  sizeof_phdr := 32;
  p_type := (0, 4)%nat; p_offset := (4, 4)%nat; p_paddr := (12, 4)%nat; p_filesz := (16, 4)%nat; p_memsz := (20, 4)%nat;
  sizeof_shdr := 40;
  sh_name := (0, 4)%nat; sh_type := (4, 4)%nat; sh_offset := (16, 4)%nat; sh_size := (20, 4)%nat;
  sizeof_sym := 16;
  st_name := (0, 4)%nat; st_value := (4, 4)%nat
|}.

#[export] Instance ex_fesvr : Fesvr := {
  PT_LOAD := 1;
  sizeof_ehdr64 := 64;
  IS_ELF32 buf := bool_decide (take 5 buf = [0x7f; 0x45; 0x4c; 0x46; 1]);
  IS_ELF64 buf := bool_decide (take 5 buf = [0x7f; 0x45; 0x4c; 0x46; 2]);
  elf32 := elf32_format;
  elf64 := elf64_format;
  max_alloc := 2 ^ 63 - 1
}.

Definition ex_phdr (ty off paddr filesz memsz : Z) : list Z :=
  le_bytes 4 ty ++ le_bytes 4 5 ++ le_bytes 8 off ++ le_bytes 8 paddr ++ le_bytes 8 paddr
  ++ le_bytes 8 filesz ++ le_bytes 8 memsz ++ le_bytes 8 4096.

Definition ex_shdr (name ty off sz : Z) : list Z :=
  le_bytes 4 name ++ le_bytes 4 ty ++ le_bytes 16 0 ++ le_bytes 8 off ++ le_bytes 8 sz ++ le_bytes 24 0.

(** A program of a segment with four bytes in the file and eight in memory, and a note; its string
    tables are sections 1 and 2. *)
Definition ex_elf (filesz : Z) : list Z :=
  [0x7f; 0x45; 0x4c; 0x46; 2; 1; 1] ++ replicate 9 0 ++ le_bytes 8 0 ++ le_bytes 8 0x80000000
  ++ le_bytes 8 64 ++ le_bytes 8 200 ++ le_bytes 8 0 ++ le_bytes 2 2 ++ le_bytes 2 64 ++ le_bytes 2 3 ++ le_bytes 2 2
  ++ ex_phdr 1 176 0x80000000 filesz 8 ++ ex_phdr 4 0 0 0 0
  ++ str "code" ++ [0] ++ str ".strtab" ++ [0] ++ str ".shstrtab" ++ [0] ++ [0]
  ++ ex_shdr 0 0 0 0 ++ ex_shdr 1 3 199 1 ++ ex_shdr 9 3 180 19.

Definition no_sections : loader := Loader [] ∅ 0 0.

Example ex_elf_loads :
  read_elf (Some (ex_elf 4)) no_sections
  = Ret (Loader [(0x80000000, 8)] {[0x80000000 := str "code"]} 0x80000000 0).
Proof. vm_compute. reflexivity. Qed.

Lemma read_elf_loads_witness :
  read_elf (Some (ex_elf 4)) no_sections
  = Ret (Loader [(0x80000000, 8)] {[0x80000000 := str "code"]} 0x80000000 0).
Proof.
  etrans.
  - apply (read_elf_loads (ex_elf 4) no_sections
      [Segment 1 176 0x80000000 4 8; Segment 4 0 0 0 0] 64 0x80000000 (0, 0) 200);
      [by vm_compute .. | | by vm_compute | by vm_compute | by left].
    intros [|[|i]] sg E; [injection E as <-..|done].
    + split; [repeat split; by vm_compute | intros _ _; repeat split; by vm_compute].
    + split; [repeat split; by vm_compute | by intros E%(f_equal Z.to_nat)].
  - by vm_compute.
Defined.

Lemma elf_handover_witness :
  exists chunk, forall buffer, (length chunk <= length buffer)%nat ->
    read_section 0x80000000 buffer (Loader [(0x80000000, 8)] {[0x80000000 := str "code"]} 0x80000000 0)
    = Ret (chunk ++ drop (length chunk) buffer).
Proof.
  destruct (elf_handover (ex_elf 4) no_sections _ ex_elf_loads) as (_ & _ & H).
  - split; [intros a n Hn; by apply elem_of_nil in Hn | by vm_compute].
  - destruct (H 0x80000000 8) as (chunk & _ & Hc); [by apply list_elem_of_singleton|]. by exists chunk.
Defined.

Lemma elf_truncated_refused_witness : ~ exists s', read_elf (Some (ex_elf 400)) no_sections = Ret s'.
Proof.
  intros [s' H].
  apply (elf_truncated_refused (ex_elf 400) no_sections 64 2 0 (Segment 1 176 0x80000000 400 8)) in H;
    [exact H | by vm_compute ..].
Defined.

(** The same program with a table of one symbol, named main, in section 3. *)
Definition ex_sym_elf : list Z :=
  [0x7f; 0x45; 0x4c; 0x46; 2; 1; 1] ++ replicate 9 0 ++ le_bytes 8 0 ++ le_bytes 8 0x80000000
  ++ le_bytes 8 64 ++ le_bytes 8 240 ++ le_bytes 8 0 ++ le_bytes 2 2 ++ le_bytes 2 64 ++ le_bytes 2 4 ++ le_bytes 2 2
  ++ ex_phdr 1 176 0x80000000 4 8 ++ ex_phdr 4 0 0 0 0
  ++ str "code" ++ [0] ++ str ".strtab" ++ [0] ++ str ".shstrtab" ++ [0] ++ str ".symtab" ++ [0]
  ++ ([0] ++ str "main" ++ [0]) ++ (le_bytes 8 1 ++ le_bytes 8 0x80000000 ++ le_bytes 8 4) ++ replicate 3 0
  ++ ex_shdr 0 0 0 0 ++ ex_shdr 1 3 207 6 ++ ex_shdr 9 3 180 27 ++ ex_shdr 19 2 213 24.

Lemma elf_strtab_missed_witness :
  scan_shdrs ex_sym_elf = Ret (0, 3)
  /\ read_elf (Some ex_sym_elf) no_sections
     = Ret (Loader [(0x80000000, 8)] {[0x80000000 := str "code"]} 0x80000000 0).
Proof.
  split; [by vm_compute|].
  destruct (elf_strtab_missed ex_sym_elf no_sections) as [_ E]; [|rewrite E; by vm_compute].
  intros sh ndx off n i name ty E1 E2 E3 Hi.
  vm_compute in E1, E2, E3. injection E1 as <-. injection E2 as <-. injection E3 as <-.
  intros E4. vm_compute in E4. injection E4 as <-.
  assert (i = 0 \/ i = 1 \/ i = 2 \/ i = 3) as [-> | [-> | [-> | ->]]] by lia; intros E5 E6;
    vm_compute in E5, E6; injection E5 as <-; injection E6 as <-; intros E7; by vm_compute in E7.
Defined.
