(* ===== verification/RemoteBitbang.v ===== *)
(** The remote bit-bang server of the debug test bench ([riscv-dbg/tb/remote_bitbang]): one command
    of a socket client per tick drives the JTAG pins or samples TDO. The operating system's socket
    calls are a parameter. [Fault] stands for [abort ()]; messages to [stderr] are left out. *)
From S2P Require Import Prelude Machine.

(** * The operating system *)

Inductive read_result := RdErr (errno : Z) | RdEnd | RdByte (c : Z).
Inductive call_result := Ok (n : Z) | Failed (errno : Z).

(** The calls the server makes. [write] answers the number of bytes it took. *)
Class Os (W : Type) := {
  EAGAIN : Z;
  os_socket : W -> call_result * W;
  os_nonblock : Z -> W -> W;
  os_setsockopt : Z -> W -> call_result * W;
  os_bind : Z -> Z -> W -> call_result * W;
  os_listen : Z -> W -> call_result * W;
  os_getsockname : Z -> W -> call_result * W;
  os_accept : Z -> W -> call_result * W;
  os_read : Z -> W -> read_result * W;
  os_write : Z -> Z -> W -> call_result * W;
  os_close : Z -> W -> W
}.

(** * The server *)

(** Its global variables. *)
Record rbs := Rbs {
  rbs_err : Z;
  tck : Z; tms : Z; tdi : Z; trstn : Z; tdo : Z; quit : Z;
  socket_fd : Z; client_fd : Z;
  recv_start : Z; recv_end : Z;
  init : Z
}.

(** Before [main]: everything is zero. *)
Definition rbs_zero : rbs := Rbs 0 0 0 0 0 0 0 0 0 0 0 0.

Record sys (W : Type) := Sys { sy_vars : rbs; sy_os : W }.
Arguments Sys {W} _ _.
Arguments sy_vars {W} _.
Arguments sy_os {W} _.

Definition set_pins (a b c : Z) (s : rbs) : rbs :=
  Rbs (rbs_err s) a b c (trstn s) (tdo s) (quit s) (socket_fd s) (client_fd s) (recv_start s) (recv_end s) (init s).
Definition set_tdo (v : Z) (s : rbs) : rbs :=
  Rbs (rbs_err s) (tck s) (tms s) (tdi s) (trstn s) v (quit s) (socket_fd s) (client_fd s) (recv_start s) (recv_end s) (init s).
Definition set_quit (v : Z) (s : rbs) : rbs :=
  Rbs (rbs_err s) (tck s) (tms s) (tdi s) (trstn s) (tdo s) v (socket_fd s) (client_fd s) (recv_start s) (recv_end s) (init s).
Definition set_client (v : Z) (s : rbs) : rbs :=
  Rbs (rbs_err s) (tck s) (tms s) (tdi s) (trstn s) (tdo s) (quit s) (socket_fd s) v (recv_start s) (recv_end s) (init s).
Definition set_socket (v : Z) (s : rbs) : rbs :=
  Rbs (rbs_err s) (tck s) (tms s) (tdi s) (trstn s) (tdo s) (quit s) v (client_fd s) (recv_start s) (recv_end s) (init s).
Definition set_init (v : Z) (s : rbs) : rbs :=
  Rbs (rbs_err s) (tck s) (tms s) (tdi s) (trstn s) (tdo s) (quit s) (socket_fd s) (client_fd s) (recv_start s) (recv_end s) v.

(** The assignments [rbs_init] starts and ends with. *)
Definition clear_vars (s : rbs) : rbs :=
  Rbs 0 (tck s) (tms s) (tdi s) (trstn s) (tdo s) (quit s) 0 0 0 0 (init s).
Definition idle_pins (s : rbs) : rbs :=
  Rbs (rbs_err s) 1 1 1 1 (tdo s) 0 (socket_fd s) (client_fd s) (recv_start s) (recv_end s) (init s).

Section driver.
Context `{!Os W}.

Definition get : M (sys W) rbs := fun _ w => (Val (sy_vars (w_dev w)), w).

Definition update (f : rbs -> rbs) : M (sys W) unit := fun _ w =>
  (Val tt, World (Sys (f (sy_vars (w_dev w))) (sy_os (w_dev w))) (w_mem w) (w_tr w)).

Definition call {A} (f : W -> A * W) : M (sys W) A := fun _ w =>
  let '(a, o) := f (sy_os (w_dev w)) in
  (Val a, World (Sys (sy_vars (w_dev w)) o) (w_mem w) (w_tr w)).

Definition abort {A} : M (sys W) A := fault.

(** A call whose failure aborts. *)
Definition must (f : W -> call_result * W) : M (sys W) Z :=
  r ← call f;
  match r with Ok n => mret n | Failed _ => abort end.

Definition rbs_init (port : Z) : M (sys W) Z :=
  update clear_vars ;;
  fd ← must os_socket;
  update (set_socket fd) ;;
  call (fun o => (tt, os_nonblock fd o)) ;;
  must (os_setsockopt fd) ;;
  must (os_bind fd port) ;;
  must (os_listen fd) ;;
  must (os_getsockname fd) ;;
  update idle_pins ;;
  mret 1.

Definition rbs_accept : M (sys W) unit :=
  iter (fun _ : unit =>
    s ← get;
    r ← call (os_accept (socket_fd s));
    match r with
    | Failed e => update (set_client (-1)) ;; if e =? EAGAIN then mret (inl tt) else abort
    | Ok fd => update (set_client fd) ;; call (fun o => (tt, os_nonblock fd o)) ;; mret (inr tt)
    end) tt.

Definition rbs_reset : M (sys W) unit := mret tt.

Definition rbs_set_pins (a b c : Z) : M (sys W) unit := update (set_pins a b c).

(** The loop that reads a command: [None] at the end of the stream. *)
Definition read_command : M (sys W) (option Z) :=
  iter (fun _ : unit =>
    s ← get;
    r ← call (os_read (client_fd s));
    match r with
    | RdErr e => if e =? EAGAIN then mret (inl tt) else abort
    | RdEnd => mret (inr None)
    | RdByte c => mret (inr (Some c))
    end) tt.

(** The loop that sends the answer to a read request. *)
Definition send_answer (tosend : Z) : M (sys W) unit :=
  iter (fun _ : unit =>
    s ← get;
    r ← call (os_write (client_fd s) tosend);
    match r with
    | Failed _ => abort
    | Ok n => if n >? 0 then mret (inr tt) else mret (inl tt)
    end) tt.

(** The switch on the command: what is to be sent, if anything. *)
Definition dispatch (command : Z) : M (sys W) (option Z) :=
  if command =? code "B" then mret None
  else if command =? code "b" then mret None
  else if command =? code "r" then rbs_reset ;; mret None
  else if command =? code "s" then rbs_reset ;; mret None
  else if command =? code "t" then rbs_reset ;; mret None
  else if command =? code "u" then rbs_reset ;; mret None
  else if command =? code "0" then rbs_set_pins 0 0 0 ;; mret None
  else if command =? code "1" then rbs_set_pins 0 0 1 ;; mret None
  else if command =? code "2" then rbs_set_pins 0 1 0 ;; mret None
  else if command =? code "3" then rbs_set_pins 0 1 1 ;; mret None
  else if command =? code "4" then rbs_set_pins 1 0 0 ;; mret None
  else if command =? code "5" then rbs_set_pins 1 0 1 ;; mret None
  else if command =? code "6" then rbs_set_pins 1 1 0 ;; mret None
  else if command =? code "7" then rbs_set_pins 1 1 1 ;; mret None
  else if command =? code "R" then
    s ← get; mret (Some (if tdo s =? 0 then code "0" else code "1"))
  else if command =? code "Q" then update (set_quit 1) ;; mret None
  else mret None.

Definition rbs_execute_command : M (sys W) unit :=
  command ← read_command;
  match command with
  | None => mret tt
  | Some command =>
      tosend ← dispatch command;
      match tosend with Some b => send_answer b | None => mret tt end ;;
      s ← get;
      if quit s =? 0 then mret tt
      else call (fun o => (tt, os_close (client_fd s) o)) ;; update (set_client 0)
  end.

(** The values of the four pins. *)
Definition rbs_tick (jtag_tdo : Z) : M (sys W) (Z * Z * Z * Z) :=
  s ← get;
  (if client_fd s >? 0 then update (set_tdo jtag_tdo) ;; rbs_execute_command
   else rbs_accept) ;;
  s ← get;
  mret (tck s, tms s, tdi s, trstn s).

Definition rbs_done : M (sys W) Z := s ← get; mret (quit s).
Definition rbs_exit_code : M (sys W) Z := s ← get; mret (rbs_err s).

(** [sim_jtag.c]: the entry the simulator calls; a port out of range is only reported. *)
Definition jtag_tick (port jtag_TDO : Z) : M (sys W) (Z * (Z * Z * Z * Z)) :=
  s ← get;
  (if init s =? 0 then i ← rbs_init (u16 port); update (set_init i) else mret tt) ;;
  pins ← rbs_tick jtag_TDO;
  d ← rbs_done;
  if d =? 0 then mret (0, pins)
  else e ← rbs_exit_code; mret (Z.lor (Z.shiftl e 1) 1, pins).

(** [rbs_test.c]: initialise on any port, and one tick. *)
Definition rbs_test_main : M (sys W) Z :=
  rbs_init 0 ;;
  rbs_tick 0 ;;
  rbs_done ;;
  mret 0.
End driver.

(** * The protocol *)


(** A client of the protocol: [inbox] are the commands it has sent and the server has not read,
    [outbox] what the server has answered; [os_lag] bounds how often a call has to be repeated. *)
Class OsClient (W : Type) `{!Os W} := {
  inbox : W -> list Z;
  outbox : W -> list Z;
  os_lag : W -> nat;
  os_read_law : forall fd o c l, inbox o = c :: l ->
    let '(r, o') := os_read fd o in
    outbox o' = outbox o /\
    ((r = RdByte c /\ inbox o' = l)
     \/ (r = RdErr EAGAIN /\ inbox o' = inbox o /\ (os_lag o' < os_lag o)%nat));
  os_write_law : forall fd b o,
    let '(r, o') := os_write fd b o in
    inbox o' = inbox o /\
    exists n, r = Ok n /\
      ((0 < n /\ outbox o' = outbox o ++ [b])
       \/ (n <= 0 /\ outbox o' = outbox o /\ (os_lag o' < os_lag o)%nat));
  os_close_law : forall fd o, inbox (os_close fd o) = inbox o /\ outbox (os_close fd o) = outbox o
}.

Section primitives.
Context `{!Os W}.





End primitives.




Definition pins (v : rbs) : Z * Z * Z := (tck v, tms v, tdi v).

Section specs.
Context `{!Os W, !OsClient W}.







End specs.

(** * Every run *)

Definition is_bit (z : Z) : Prop := z = 0 \/ z = 1.

(** The variables hold bits, and no error code is ever set. *)
Record rbs_wf (v : rbs) : Prop := {
  wf_tck : is_bit (tck v); wf_tms : is_bit (tms v); wf_tdi : is_bit (tdi v);
  wf_trstn : is_bit (trstn v); wf_quit : is_bit (quit v); wf_err : rbs_err v = 0
}.

Section closed.
Context `{!Os W}.

(** An invariant of the variables alone. *)
Definition vars_inv (P : rbs -> Prop) (w : world (sys W)) : Prop := P (sy_vars (w_dev w)).

Lemma safe_get P : safe (vars_inv P) get P.
Proof. intros n w Hw. split; [done|]. by intros v [= <-]. Qed.

Lemma keeps_get P : keeps (vars_inv P) get.
Proof. by intros n w Hw. Qed.

Lemma keeps_update P f : (forall v, P v -> P (f v)) -> keeps (vars_inv P) (update f).
Proof. intros Hf n w Hw. split; [by apply Hf | done]. Qed.

Lemma keeps_call P {A} (f : W -> A * W) : keeps (vars_inv P) (call f).
Proof. intros n w Hw. unfold call. by destruct (f (sy_os (w_dev w))). Qed.

Lemma keeps_must P f : keeps (vars_inv P) (must f).
Proof. apply keeps_bind; [apply keeps_call|]. intros [k|k]; [apply keeps_ret | apply keeps_fault]. Qed.

(** What an invariant of the variables must satisfy to hold of every run of a tick. *)
Class RbsInv (P : rbs -> Prop) : Prop := {
  ri_client : forall fd v, P v -> P (set_client fd v);
  ri_tdo : forall t v, P v -> P (set_tdo t v);
  ri_pins : forall a b c v, is_bit a -> is_bit b -> is_bit c -> P v -> P (set_pins a b c v);
  ri_quit : forall v, P v -> P (set_quit 1 v)
}.

Context (P : rbs -> Prop) `{!RbsInv P}.

#[local] Hint Resolve keeps_get keeps_call keeps_must : keeps.
#[local] Hint Extern 2 (keeps (vars_inv _) (update _)) => apply keeps_update : keeps.

Lemma keeps_rbs_init port :
  (forall v, P v -> P (clear_vars v)) -> (forall fd v, P v -> P (set_socket fd v)) ->
  (forall v, P v -> P (idle_pins v)) -> keeps (vars_inv P) (rbs_init port).
Proof. intros H1 H2 H3. unfold rbs_init. keeps_tac. Qed.

Lemma keeps_rbs_accept : keeps (vars_inv P) rbs_accept.
Proof.
  apply keeps_iter. intros []. keeps_tac. destruct a0 as [fd|e]; keeps_tac;
    try apply keeps_fault; apply keeps_update, ri_client.
Qed.

Lemma keeps_read_command : keeps (vars_inv P) read_command.
Proof. apply keeps_iter. intros []. keeps_tac. destruct a0; keeps_tac. Qed.

Lemma keeps_send_answer b : keeps (vars_inv P) (send_answer b).
Proof. apply keeps_iter. intros []. keeps_tac. destruct a0; keeps_tac. Qed.

Lemma keeps_dispatch c : keeps (vars_inv P) (dispatch c).
Proof.
  unfold dispatch, rbs_reset, rbs_set_pins, is_bit.
  repeat first [apply keeps_if | apply keeps_bind; [|intros ?]];
    auto with keeps; apply keeps_update; intros v Hv;
    first [apply ri_quit, Hv | apply ri_pins; unfold is_bit; auto].
Qed.

Lemma keeps_execute_command : keeps (vars_inv P) rbs_execute_command.
Proof.
  unfold rbs_execute_command. apply keeps_bind; [apply keeps_read_command|]. intros [c|]; [|apply keeps_ret].
  apply keeps_bind; [apply keeps_dispatch|]. intros a. apply keeps_bind.
  - destruct a; [apply keeps_send_answer | apply keeps_ret].
  - intros _. keeps_tac. apply keeps_update, ri_client.
Qed.

Lemma safe_rbs_tick t :
  safe (vars_inv P) (rbs_tick t) (fun p => exists v, P v /\ p = (tck v, tms v, tdi v, trstn v)).
Proof.
  unfold rbs_tick. apply safe_then; [apply keeps_get|]. intros s. apply safe_then.
  - apply keeps_if; [|apply keeps_rbs_accept].
    apply keeps_bind; [apply keeps_update, ri_tdo | intros; apply keeps_execute_command].
  - intros _. eapply safe_bind; [apply safe_get|]. intros v Hv. apply safe_ret. eauto.
Qed.
End closed.

Lemma rbs_inv_of (P : rbs -> Prop) :
  (forall v v', P v -> rbs_err v' = rbs_err v -> trstn v' = trstn v ->
     (tck v' = tck v /\ tms v' = tms v /\ tdi v' = tdi v
      \/ is_bit (tck v') /\ is_bit (tms v') /\ is_bit (tdi v')) ->
     (quit v' = quit v \/ quit v' = 1) -> init v' = init v -> P v') ->
  RbsInv P.
Proof.
  intros HP. split.
  - intros fd v Hv. apply (HP v); cbn; auto.
  - intros t v Hv. apply (HP v); cbn; auto.
  - intros a b c v Ha Hb Hc Hv. apply (HP v); cbn; auto.
  - intros v Hv. apply (HP v); cbn; auto.
Qed.

#[export] Instance rbs_wf_inv : RbsInv rbs_wf.
Proof.
  apply rbs_inv_of. intros v v' [] E1 E2 E3 E4 _.
  split; unfold is_bit in *; rewrite ?E1, ?E2; intuition congruence.
Qed.

#[export] Instance trst_inv : RbsInv (fun v => trstn v = 1).
Proof. apply rbs_inv_of. intros v v' Hv _ -> _ _ _. exact Hv. Qed.

#[export] Instance quit_inv : RbsInv (fun v => quit v = 1 /\ rbs_err v = 0 /\ init v <> 0).
Proof. apply rbs_inv_of. intros v v' (H1 & H2 & H3) -> _ _ [-> | ->] ->; auto. Qed.

(** [rbs_init] returns 1 with the pins idle, or aborts. *)
Lemma rbs_init_idle `{!Os W} port n w :
  let '(o, w') := rbs_init port n w in
  (o = Val 1 /\ exists fd, sy_vars (w_dev w') = idle_pins (set_socket fd (clear_vars (sy_vars (w_dev w)))))
  \/ o = Fault.
Proof.
  unfold rbs_init, must, mbind, M_bind, update, call, mret, M_ret, abort, fault. cbn.
  destruct w as [[v o] m tr]. cbn.
  destruct (os_socket o) as [[fd|e] o1]; [|by right]. cbn.
  destruct (os_setsockopt fd (os_nonblock fd o1)) as [[?|?] o2]; [|by right]. cbn.
  destruct (os_bind fd port o2) as [[?|?] o3]; [|by right]. cbn.
  destruct (os_listen fd o3) as [[?|?] o4]; [|by right]. cbn.
  destruct (os_getsockname fd o4) as [[?|?] o5]; [|by right]. cbn.
  left. split; [done | by exists fd].
Qed.

(** A tick after the first. *)
Lemma jtag_tick_started `{!Os W} port t n w :
  init (sy_vars (w_dev w)) <> 0 ->
  jtag_tick port t n w =
    (p ← rbs_tick t; d ← rbs_done;
     if d =? 0 then mret (0, p) else e ← rbs_exit_code; mret (Z.lor (Z.shiftl e 1) 1, p)) n w.
Proof.
  intros Hi. unfold jtag_tick. unfold mbind at 1, M_bind at 1, get at 1.
  destruct (Z.eqb_spec (init (sy_vars (w_dev w))) 0); [done|]. done.
Qed.

Lemma safe_jtag_result `{!Os W} (P : rbs -> Prop) `{!RbsInv P} t (Q : Z * (Z * Z * Z * Z) -> Prop) :
  (forall v v', P v -> P v' ->
     Q (if quit v' =? 0 then 0 else Z.lor (Z.shiftl (rbs_err v') 1) 1, (tck v, tms v, tdi v, trstn v))) ->
  safe (vars_inv P)
    (p ← rbs_tick t; d ← rbs_done;
     if d =? 0 then mret (0, p) else e ← rbs_exit_code; mret (Z.lor (Z.shiftl e 1) 1, p) : M (sys W) _) Q.
Proof.
  intros HQ. eapply safe_bind; [by apply safe_rbs_tick|]. intros p (v & Hv & ->).
  intros n w Hw. unfold rbs_done, rbs_exit_code, mbind, M_bind, get, mret, M_ret.
  specialize (HQ v (sy_vars (w_dev w)) Hv Hw).
  destruct (quit (sy_vars (w_dev w)) =? 0); split; try done; by intros r [= <-].
Qed.

(** * Properties *)

(** A client that has sent its commands; some calls have to be repeated. *)
Record tape_os := TapeOs { to_in : list Z; to_out : list Z; to_lag : nat }.

#[export] Instance tape_os_calls : Os tape_os := {
  EAGAIN := 11;
  os_socket o := (Ok 3, o);
  os_nonblock _ o := o;
  os_setsockopt _ o := (Ok 0, o);
  os_bind _ _ o := (Ok 0, o);
  os_listen _ o := (Ok 0, o);
  os_getsockname _ o := (Ok 0, o);
  os_accept _ o := (Ok 4, o);
  os_read _ o :=
    match to_lag o, to_in o with
    | S n, _ => (RdErr 11, TapeOs (to_in o) (to_out o) n)
    | O, [] => (RdEnd, o)
    | O, c :: l => (RdByte c, TapeOs l (to_out o) 2)
    end;
  os_write _ b o :=
    match to_lag o with
    | S n => (Ok 0, TapeOs (to_in o) (to_out o) n)
    | O => (Ok 1, TapeOs (to_in o) (to_out o ++ [b]) 2)
    end;
  os_close _ o := o
}.

#[export] Instance tape_os_client : OsClient tape_os.
Proof.
  refine {| inbox := to_in; outbox := to_out; os_lag := to_lag |}; [| |done].
  - intros fd [i o [|n]] c l Hi; cbn in *; subst; split; auto.
  - intros fd b [i o [|n]]; cbn; (split; [done|]).
    + exists 1. split; [done|]. left. split; [lia | done].
    + exists 0. split; [done|]. right. split_and!; [lia | done | lia].
Defined.

Definition connected : rbs := Rbs 0 1 1 1 1 0 0 3 4 0 0 1.

Section properties.
Context `{!Os W}.


(** Whatever the operating system answers and whatever the commands, the server's pins are bits
    and [jtag_tick] returns 0 or 1: no error code ever reaches the simulator. *)
Theorem jtag_tick_bits port t n (w : world (sys W)) :
  rbs_wf (sy_vars (w_dev w)) ->
  let '(o, w') := jtag_tick port t n w in
  rbs_wf (sy_vars (w_dev w')) /\
  forall r a b c d, o = Val (r, (a, b, c, d)) ->
    (r = 0 \/ r = 1) /\ is_bit a /\ is_bit b /\ is_bit c /\ is_bit d.
Proof.
  intros Hw.
  assert (Hs : safe (vars_inv rbs_wf) (jtag_tick port t : M (sys W) _) (fun '(r, (a, b, c, d)) =>
    (r = 0 \/ r = 1) /\ is_bit a /\ is_bit b /\ is_bit c /\ is_bit d)).
  { unfold jtag_tick. apply safe_then; [apply keeps_get|]. intros s. apply safe_then.
    - apply keeps_if; [|apply keeps_ret]. apply keeps_bind; [|intros; apply keeps_update].
      + apply keeps_rbs_init; [intros v [] | intros fd v [] | intros v []]; split; unfold is_bit; auto.
      + intros v []. by split.
    - intros _. apply safe_jtag_result; [apply _|]. intros v v' [] [].
      split_and!; try done. destruct (Z.eqb_spec (quit v') 0); [by left | right]. by rewrite wf_err1. }
  specialize (Hs n w Hw). destruct (jtag_tick port t n w) as [o w']. destruct Hs as [H1 H2].
  split; [done|]. intros r a b c d ->. apply (H2 _ eq_refl).
Qed.

(** TRST is never asserted: from the first tick on, the reset pin handed to the simulator is 1,
    for the reset commands as well. *)
Theorem jtag_tick_never_resets port t n (w : world (sys W)) :
  init (sy_vars (w_dev w)) = 0 \/ trstn (sy_vars (w_dev w)) = 1 ->
  forall r a b c d, fst (jtag_tick port t n w) = Val (r, (a, b, c, d)) -> d = 1.
Proof.
  intros Hi r a b c d. unfold jtag_tick. unfold mbind at 1, M_bind at 1, get at 1.
  unfold mbind at 1, M_bind at 1.
  match goal with |- context [(if ?e then ?x else ?y) n w] => set (start := if e then x else y) end.
  assert (Hw : match start n w with
               | (Val _, w') => trstn (sy_vars (w_dev w')) = 1 | _ => True end).
  { unfold start. destruct (Z.eqb_spec (init (sy_vars (w_dev w))) 0) as [E|E].
    - unfold mbind, M_bind. pose proof (rbs_init_idle (u16 port) n w) as Hr.
      destruct (rbs_init (u16 port) n w) as [o w']. destruct Hr as [[-> [fd Hfd]] | ->]; [|done].
      unfold update. cbn. by rewrite Hfd.
    - by destruct Hi. }
  destruct (start n w) as [[[]| |] w']; try done. intros Hr.
  pose proof (safe_jtag_result (W := W) (fun v => trstn v = 1) t (fun '(_, (_, _, _, d)) => d = 1)) as Hs.
  specialize (Hs ltac:(auto) n w' Hw).
  match type of Hs with context [let '(_, _) := ?m in _] => set (run := m) in *; change (fst run = Val (r, (a, b, c, d))) in Hr end.
  destruct run as [o w2]. destruct Hs as [_ Hs]. cbn in Hr. subst o. apply (Hs _ eq_refl).
Qed.

(** Once the client has sent Q, [jtag_tick] returns 1 for ever, whoever connects again. *)
Theorem jtag_tick_quit_is_final port t n (w : world (sys W)) :
  quit (sy_vars (w_dev w)) = 1 -> rbs_err (sy_vars (w_dev w)) = 0 -> init (sy_vars (w_dev w)) <> 0 ->
  let '(o, w') := jtag_tick port t n w in
  quit (sy_vars (w_dev w')) = 1 /\ forall r p, o = Val (r, p) -> r = 1.
Proof.
  intros H1 H2 H3. rewrite jtag_tick_started by done.
  pose proof (safe_jtag_result (W := W) (fun v => quit v = 1 /\ rbs_err v = 0 /\ init v <> 0) t
    (fun '(r, _) => r = 1)) as Hs.
  specialize (Hs ltac:(intros v v' _ (-> & -> & _); done) n w (conj H1 (conj H2 H3))).
  match type of Hs with context [let '(_, _) := ?m in _] => destruct m as [o w'] end.
  destruct Hs as [(Hq & _) Hs]. split; [done|].
  intros r p ->. apply (Hs _ eq_refl).
Qed.

(** While the client sends nothing, a tick does not come back: against the comment of
    [rbs_execute_command], it does not try again the next call but reads again at once. *)
Theorem silent_client_blocks t n (w : world (sys W)) :
  client_fd (sy_vars (w_dev w)) > 0 ->
  (forall fd o, os_read fd o = (RdErr EAGAIN, o)) ->
  fst (rbs_tick t n w) = OutOfFuel.
Proof.
  intros Hc Hr. unfold rbs_tick. unfold mbind at 1, M_bind at 1, get at 1.
  destruct (Z.gtb_spec (client_fd (sy_vars (w_dev w))) 0); [|lia].
  unfold mbind at 1, M_bind at 1, mbind at 1, M_bind at 1, update at 1. 
  unfold rbs_execute_command, mbind at 1, M_bind at 1.
  set (w1 := World _ _ _). clearbody w1.
  assert (E : forall n w, fst ((read_command : M (sys W) _) n w) = OutOfFuel).
  { clear -Hr. induction n as [|n IH]; intros w; [done|]. unfold read_command in *. cbn.
    unfold mbind, M_bind, get, call in *. rewrite Hr, Z.eqb_refl. apply IH. }
  specialize (E n w1). destruct (read_command n w1) as [o w2]. cbn in E. by subst.
Qed.
End properties.


Definition bitbang_world (v : rbs) : world (sys tape_os) := World (Sys v (TapeOs (str "6RQ") [] 1)) ∅ [].

Lemma jtag_tick_bits_witness :
  rbs_wf (sy_vars (w_dev (snd (jtag_tick 9999 0 5%nat (bitbang_world rbs_zero))))).
Proof.
  pose proof (jtag_tick_bits 9999 0 5%nat (bitbang_world rbs_zero)) as H.
  destruct (jtag_tick 9999 0 5%nat (bitbang_world rbs_zero)) as [o w'].
  apply H. split; unfold is_bit; cbn; auto.
Defined.

Lemma jtag_tick_never_resets_witness : exists r a b c d,
  fst (jtag_tick 9999 0 5%nat (bitbang_world rbs_zero)) = Val (r, (a, b, c, d)) /\ d = 1.
Proof.
  do 5 eexists. split; [vm_compute; reflexivity|].
  eapply (jtag_tick_never_resets 9999 0 5%nat (bitbang_world rbs_zero)); [by left | by vm_compute].
Defined.

Lemma jtag_tick_quit_is_final_witness :
  quit (sy_vars (w_dev (snd (jtag_tick 9999 0 5%nat (bitbang_world (set_quit 1 connected)))))) = 1.
Proof.
  pose proof (jtag_tick_quit_is_final 9999 0 5%nat (bitbang_world (set_quit 1 connected)) eq_refl eq_refl) as H.
  destruct (jtag_tick 9999 0 5%nat (bitbang_world (set_quit 1 connected))) as [o w']. by apply H.
Defined.

(** A client that is connected and sends nothing. *)
Definition silent_os : Os unit := {|
  EAGAIN := 11;
  os_socket o := (Ok 3, o); os_nonblock _ o := o; os_setsockopt _ o := (Ok 0, o);
  os_bind _ _ o := (Ok 0, o); os_listen _ o := (Ok 0, o); os_getsockname _ o := (Ok 0, o);
  os_accept _ o := (Ok 4, o); os_read _ o := (RdErr 11, o); os_write _ _ o := (Ok 1, o);
  os_close _ o := o
|}.

Lemma silent_client_blocks_witness :
  fst (rbs_tick (Os0 := silent_os) 0 1000%nat (World (Sys connected tt) ∅ [])) = OutOfFuel.
Proof. by apply (silent_client_blocks (Os0 := silent_os)). Defined.
