(* ===== verification/SimJtag.v ===== *)
(** The bit-bang server of the simulation test bench ([tb/dpi/remote_bitbang.cc], [remote_bitbang.h]
    and [SimJTAG.cc]): a class with the variables and the commands of the C server of
    [RemoteBitbang], and the entry the simulator calls, which makes the one object there is. The two
    servers are compared by a relational logic on the statements of both. *)
From S2P Require Import Prelude Machine RemoteBitbang.

(** * The class *)

(** The members of an object are those of [rbs], but for [init]. *)
Section methods.
Context `{!Os W}.

(** The initialiser list. *)
Definition clear_members (s : rbs) : rbs :=
  Rbs 0 (tck s) (tms s) (tdi s) (trstn s) (tdo s) (quit s) 0 0 0 0 (init s).

(** The constructor. *)
Definition remote_bitbang_t (port : Z) : M (sys W) unit :=
  update clear_members ;;
  fd ← must os_socket;
  update (set_socket fd) ;;
  call (fun o => (tt, os_nonblock fd o)) ;;
  must (os_setsockopt fd) ;;
  must (os_bind fd port) ;;
  must (os_listen fd) ;;
  must (os_getsockname fd) ;;
  update idle_pins.

Definition accept : M (sys W) unit :=
  iter (fun _ : unit =>
    s ← get;
    r ← call (os_accept (socket_fd s));
    match r with
    | Failed e => update (set_client (-1)) ;; if e =? EAGAIN then mret (inl tt) else abort
    | Ok fd => update (set_client fd) ;; call (fun o => (tt, os_nonblock fd o)) ;; mret (inr tt)
    end) tt.

Definition reset : M (sys W) unit := mret tt.

Definition set_pins (a b c : Z) : M (sys W) unit := update (RemoteBitbang.set_pins a b c).

(** The loop that reads a command: it goes on at the end of the stream. *)
Definition read_command : M (sys W) Z :=
  iter (fun _ : unit =>
    s ← get;
    r ← call (os_read (client_fd s));
    match r with
    | RdErr e => if e =? EAGAIN then mret (inl tt) else abort
    | RdEnd => mret (inl tt)
    | RdByte c => mret (inr c)
    end) tt.

(** The switch on the command: what is to be sent, if anything. *)
Definition dispatch (command : Z) : M (sys W) (option Z) :=
  if command =? code "B" then mret None
  else if command =? code "b" then mret None
  else if command =? code "r" then reset ;; mret None
  else if command =? code "0" then set_pins 0 0 0 ;; mret None
  else if command =? code "1" then set_pins 0 0 1 ;; mret None
  else if command =? code "2" then set_pins 0 1 0 ;; mret None
  else if command =? code "3" then set_pins 0 1 1 ;; mret None
  else if command =? code "4" then set_pins 1 0 0 ;; mret None
  else if command =? code "5" then set_pins 1 0 1 ;; mret None
  else if command =? code "6" then set_pins 1 1 0 ;; mret None
  else if command =? code "7" then set_pins 1 1 1 ;; mret None
  else if command =? code "R" then
    s ← get; mret (Some (if tdo s =? 0 then code "0" else code "1"))
  else if command =? code "Q" then update (set_quit 1) ;; mret None
  else mret None.

(** The loop that sends the answer to a read request. *)
Definition send_answer (tosend : Z) : M (sys W) unit :=
  iter (fun _ : unit =>
    s ← get;
    bytes ← call (os_write (client_fd s) tosend);
    match bytes with
    | Failed _ => abort
    | Ok bytes => if bytes >? 0 then mret (inr tt) else mret (inl tt)
    end) tt.

Definition execute_command : M (sys W) unit :=
  command ← read_command;
  tosend ← dispatch command;
  match tosend with Some b => send_answer b | None => mret tt end ;;
  s ← get;
  if quit s =? 0 then mret tt
  else call (fun o => (tt, os_close (client_fd s) o)) ;; update (set_client 0).

Definition tick (jtag_tdo : Z) : M (sys W) (Z * Z * Z * Z) :=
  s ← get;
  (if client_fd s >? 0 then update (set_tdo jtag_tdo) ;; execute_command else accept) ;;
  s ← get;
  mret (tck s, tms s, tdi s, trstn s).

Definition done : M (sys W) Z := s ← get; mret (quit s).
Definition exit_code : M (sys W) Z := s ← get; mret (rbs_err s).
End methods.

(** * The entry of the simulator *)

(** The pointer [jtag] to the object, and the operating system. *)
Record jsys (W : Type) := JSys { js_jtag : option rbs; js_os : W }.
Arguments JSys {W} _ _.
Arguments js_jtag {W} _.
Arguments js_os {W} _.

Section entry.
Context `{!Os W}.

(** What a new object's memory holds: the constructor does not set [tdo]. *)
Context (garbage : rbs).

(** A method called on an object, whose pointer is set in [after]. *)
Definition on_object {A} (v : rbs) (m : M (sys W) A) : M (jsys W) A := fun n w =>
  let '(o, w') := m n (World (Sys v (js_os (w_dev w))) (w_mem w) (w_tr w)) in
  (o, World (JSys (Some (sy_vars (w_dev w'))) (sy_os (w_dev w'))) (w_mem w') (w_tr w')).

(** [jtag->m ()] *)
Definition arrow {A} (m : M (sys W) A) : M (jsys W) A := fun n w =>
  match js_jtag (w_dev w) with None => (Fault, w) | Some v => on_object v m n w end.

(** [if (!jtag) jtag = new remote_bitbang_t (0)] *)
Definition make_jtag : M (jsys W) unit := fun n w =>
  match js_jtag (w_dev w) with
  | None => on_object garbage (remote_bitbang_t 0) n w
  | Some _ => (Val tt, w)
  end.

Definition jtag_tick (jtag_TDO : Z) : M (jsys W) (Z * (Z * Z * Z * Z)) :=
  make_jtag ;;
  pins ← arrow (tick jtag_TDO);
  d ← arrow done;
  if d =? 0 then mret (0, pins)
  else e ← arrow exit_code; mret (Z.lor (Z.shiftl e 1) 1, pins).
End entry.

(** * Two programs side by side *)

Section relational.
Context {W : Type}.
Implicit Types R S T : rbs -> rbs -> Prop.

(** Worlds with the same operating system and related variables. *)
Definition rel R (w w' : world (sys W)) : Prop :=
  R (sy_vars (w_dev w)) (sy_vars (w_dev w')) /\ sy_os (w_dev w) = sy_os (w_dev w')
  /\ w_mem w = w_mem w' /\ w_tr w = w_tr w'.

(** Started in worlds related by [R], with the same fuel, the two statements end in the same way
    and leave the operating system in the same state; when they end with a value, the variables are
    related by [T]. *)
Definition coupled {A} R T (m m' : M (sys W) A) : Prop := forall n w w',
  rel R w w' ->
  fst (m n w) = fst (m' n w')
  /\ rel (fun v v' => forall a, fst (m n w) = Val a -> T v v') (snd (m n w)) (snd (m' n w')).

Lemma rel_mono R T w w' : (forall v v', R v v' -> T v v') -> rel R w w' -> rel T w w'.
Proof. intros H (H1 & H2). split; auto. Qed.

Lemma coupled_ret {A} R (a : A) : coupled R R (mret a) (mret a).
Proof. intros n w w' H. split; [done|]. by eapply rel_mono; [|exact H]. Qed.

Lemma coupled_fault {A} R T : coupled (A := A) R T fault fault.
Proof. intros n w w' H. split; [done|]. by eapply rel_mono; [|exact H]. Qed.

Lemma coupled_mono {A} R T T' (m m' : M (sys W) A) :
  (forall v v', T v v' -> T' v v') -> coupled R T m m' -> coupled R T' m m'.
Proof.
  intros HT H n w w' Hw. destruct (H n w w' Hw) as [H1 H2]. split; [done|].
  eapply rel_mono; [|exact H2]. cbn. eauto.
Qed.

Lemma coupled_bind {A B} R S T (m m' : M (sys W) A) (k k' : A -> M (sys W) B) :
  coupled R S m m' -> (forall a, coupled S T (k a) (k' a)) -> coupled R T (m ≫= k) (m' ≫= k').
Proof.
  intros Hm Hk n w w' Hw. destruct (Hm n w w' Hw) as [H1 H2]. unfold mbind, M_bind.
  destruct (m n w) as [o w1], (m' n w') as [o' w1']. cbn [fst snd] in *. subst o'.
  destruct o as [a| |]; [apply Hk; eapply rel_mono; [|exact H2]; cbn; eauto | ..];
    (split; [done|]; eapply rel_mono; [|exact H2]; by cbn).
Qed.

Lemma coupled_iter {A X} R T (body body' : X -> M (sys W) (X + A)) x :
  (forall x, coupled R T (body x) (body' x)) -> (forall v v', T v v' -> R v v') ->
  coupled R T (iter body x) (iter body' x).
Proof.
  intros Hb HT n. revert x. induction n as [|n IH]; intros x w w' Hw; cbn.
  - split; [done|]. by eapply rel_mono; [|exact Hw].
  - destruct (Hb x n w w' Hw) as [H1 H2].
    destruct (body x n w) as [o w1], (body' x n w') as [o' w1']. cbn [fst snd] in *. subst o'.
    destruct o as [[y|a]| |]; cbn; [apply IH; eapply rel_mono; [|exact H2]; cbn; eauto | ..];
      (split; [done|]; eapply rel_mono; [|exact H2]; cbn; eauto; done).
Qed.

Lemma coupled_get {B} R T (k k' : rbs -> M (sys W) B) :
  (forall v v', R v v' -> coupled R T (k v) (k' v')) -> coupled R T (get ≫= k) (get ≫= k').
Proof. intros Hk n w w' Hw. apply (Hk _ _ (proj1 Hw) n w w' Hw). Qed.

Lemma coupled_update R T f f' :
  (forall v v', R v v' -> T (f v) (f' v')) -> coupled R T (update f) (update f').
Proof. intros Hf n w w' (H1 & H2 & H3 & H4). split; [done|]. split; [cbn; auto | done]. Qed.

Lemma coupled_keep R f f' :
  (forall v v', R v v' -> R (f v) (f' v')) -> coupled R R (update f) (update f').
Proof. apply coupled_update. Qed.

Lemma coupled_call {A} R (f : W -> A * W) : coupled R R (call f) (call f).
Proof.
  intros n w w' (H1 & H2 & H3 & H4). unfold call. rewrite <- H2.
  destruct (f (sy_os (w_dev w))) as [a o]. split; [done|]. by split.
Qed.
End relational.

(** * The two servers *)

(** The same variables but for [init], which is [i] in the second, and for [tdo] when [b] is set. *)
Definition twins (b : bool) (i : Z) (v v' : rbs) : Prop :=
  v' = set_init i (if b then set_tdo (tdo v') v else v).

Section twins.
Context `{!Os W}.

(** No read finds the end of the stream. *)
Context (Hend : forall fd o, fst (os_read fd o) <> RdEnd).

Lemma M_bind_ext_l {A B} (m m' : M (sys W) A) (k : A -> M (sys W) B) n w :
  m n w = m' n w -> (m ≫= k) n w = (m' ≫= k) n w.
Proof. unfold mbind, M_bind. by intros ->. Qed.

(** Until the end of the stream the two loops that read a command are the same. *)
Lemma read_command_agrees n w :
  (RemoteBitbang.read_command : M (sys W) _) n w = (c ← read_command; mret (Some c)) n w.
Proof.
  revert w. induction n as [|n IH]; intros w; [done|].
  unfold RemoteBitbang.read_command, read_command, mbind, M_bind, get, call in *. cbn.
  specialize (Hend (client_fd (sy_vars (w_dev w))) (sy_os (w_dev w))).
  destruct (os_read (client_fd (sy_vars (w_dev w))) (sy_os (w_dev w))) as [[e| |c] o]; cbn in *; [|done..].
  destruct (e =? EAGAIN); [apply IH | done].
Qed.

(** The commands the C server knows besides do nothing. *)
Lemma dispatch_agrees c n w : (RemoteBitbang.dispatch c : M (sys W) _) n w = dispatch c n w.
Proof.
  unfold RemoteBitbang.dispatch, dispatch, rbs_reset, reset, rbs_set_pins, set_pins.
  destruct (c =? code "B"), (c =? code "b"), (c =? code "r"); try done.
  destruct (Z.eqb_spec c (code "s")) as [->|]; [done|]. destruct (Z.eqb_spec c (code "t")) as [->|]; [done|].
  by destruct (Z.eqb_spec c (code "u")) as [->|].
Qed.

Lemma execute_agrees n w : (rbs_execute_command : M (sys W) _) n w = execute_command n w.
Proof.
  unfold rbs_execute_command, execute_command.
  transitivity (((c ← read_command; mret (Some c)) ≫= (fun command =>
    match command with
    | None => mret tt
    | Some command =>
        tosend ← RemoteBitbang.dispatch command;
        match tosend with Some b => send_answer b | None => mret tt end ;;
        s ← get;
        if quit s =? 0 then mret tt
        else call (fun o => (tt, os_close (client_fd s) o)) ;; update (set_client 0)
    end)) n w).
  { apply M_bind_ext_l, read_command_agrees. }
  rewrite M_bind_assoc. apply M_bind_ext. intros c w1. apply (M_bind_ext_l _ _ _ _ _ (dispatch_agrees c n w1)).
Qed.

Lemma tick_agrees t n w : rbs_tick t n w = tick t n w.
Proof.
  unfold rbs_tick, tick. apply M_bind_ext. intros v w1. apply M_bind_ext_l.
  destruct (client_fd v >? 0); [|done]. apply M_bind_ext. intros [] w2. apply execute_agrees.
Qed.
End twins.

(** * Ticks *)

Section ticks.
Context `{!Os W}.

Lemma twins_fields b i v v' : twins b i v v' ->
  client_fd v' = client_fd v /\ socket_fd v' = socket_fd v /\ quit v' = quit v /\ rbs_err v' = rbs_err v
  /\ (tck v', tms v', tdi v', trstn v') = (tck v, tms v, tdi v, trstn v) /\ (b = false -> tdo v' = tdo v).
Proof. intros ->. by destruct v, b. Qed.

(** One step of a coupling; the variables read are rewritten to those of the first run. *)
Ltac couple :=
  first
    [ apply coupled_ret | apply coupled_fault | apply coupled_call
    | apply coupled_keep; intros [] [] E; unfold twins in *; repeat match goal with b : bool |- _ => destruct b end; injection E; intros; by subst
    | apply coupled_get; intros ? ? Htw; apply twins_fields in Htw as (E1 & E2 & E3 & E4 & E5 & E6);
      rewrite ?E1, ?E2, ?E3, ?E4, ?E5; try rewrite (E6 eq_refl); clear E1 E2 E3 E4 E5 E6 ].

Lemma coupled_accept b i : coupled (W := W) (twins b i) (twins b i) accept accept.
Proof.
  apply coupled_iter; [|done]. intros _. couple. eapply coupled_bind; [couple|].
  intros [fd|e]; (eapply coupled_bind; [couple|]); intros [].
  - eapply coupled_bind; [couple|]. intros _. couple.
  - destruct (e =? EAGAIN); couple.
Qed.

Lemma coupled_execute i : coupled (W := W) (twins false i) (twins false i) execute_command execute_command.
Proof.
  eapply coupled_bind.
  { apply coupled_iter; [|done]. intros _. couple. eapply coupled_bind; [couple|].
    intros [e| |c]; [destruct (e =? EAGAIN)|..]; couple. }
  intros c. eapply coupled_bind.
  { unfold dispatch, reset, set_pins. repeat (case_match; [|]).
    all: try (eapply coupled_bind; [couple | intros; couple]); try couple.
    couple. }
  intros a. eapply (coupled_bind _ (twins false i)).
  { destruct a; [|couple]. apply coupled_iter; [|done]. intros _. couple.
    eapply coupled_bind; [couple|]. intros [k|e]; [destruct (k >? 0)|]; couple. }
  intros []. couple. destruct (quit v =? 0); [couple|].
  eapply coupled_bind; [couple|]. intros []. couple.
Qed.

Lemma coupled_tick t i : coupled (W := W) (twins true i) (twins true i) (tick t) (tick t).
Proof.
  couple. apply (coupled_bind _ (twins true i)).
  - destruct (client_fd v >? 0); [|apply coupled_accept].
    apply (coupled_bind _ (twins false i)).
    + apply coupled_update. intros [] [] E. unfold twins in *. injection E. intros. by subst.
    + intros []. eapply coupled_mono; [|apply coupled_execute].
      intros [] [] E. unfold twins in *. injection E. intros. by subst.
  - intros _. couple. couple.
Qed.

(** The constructor and [rbs_init] set the same variables. *)
Lemma init_agrees port n w :
  (rbs_init port : M (sys W) _) n w = (remote_bitbang_t port ;; mret 1) n w.
Proof.
  unfold rbs_init, remote_bitbang_t. repeat (rewrite M_bind_assoc; apply M_bind_ext; intros ? ?). done.
Qed.

(** What the constructor has set while it runs. *)
Definition begun (i : Z) (v v' : rbs) : Prop :=
  init v' = i /\ rbs_err v' = rbs_err v /\ socket_fd v' = socket_fd v /\ client_fd v' = client_fd v
  /\ recv_start v' = recv_start v /\ recv_end v' = recv_end v.

Lemma coupled_init i port :
  coupled (W := W) (fun _ v' => init v' = i) (twins true i) (remote_bitbang_t port) (remote_bitbang_t port).
Proof.
  assert (Hm : forall f : W -> call_result * W, coupled (begun i) (begun i) (must f) (must f)).
  { intros f. eapply coupled_bind; [apply coupled_call|]. intros []; [apply coupled_ret | apply coupled_fault]. }
  eapply coupled_bind; [apply (coupled_update _ (begun i)); by intros ? ? <-|]. intros _.
  eapply coupled_bind; [apply Hm|]. intros fd.
  eapply coupled_bind; [apply coupled_keep; by intros ? ? (?&?&?&?&?&?)|]. intros _.
  eapply coupled_bind; [apply coupled_call|]. intros _.
  do 4 (eapply coupled_bind; [apply Hm|]; intros _).
  apply coupled_update. intros [] [] (?&?&?&?&?&?). cbn in *. by subst.
Qed.

(** The first call: [init] is set after the constructor's work. *)
Lemma coupled_started port :
  coupled (W := W) (fun _ v' => init v' = 0) (twins true 1)
    (remote_bitbang_t port) (remote_bitbang_t port ;; update (set_init 1)).
Proof.
  intros n w w' Hw. destruct (coupled_init 0 port n w w' Hw) as [E (H1 & H2 & H3 & H4)].
  unfold mbind, M_bind. destruct (remote_bitbang_t port n w) as [o w1].
  destruct (remote_bitbang_t port n w') as [o' w1']. cbn [fst snd] in *. subst o'.
  destruct o as [[]| |]; cbn; (split; [done|]); [|by split..]. split; [|done].
  intros a _. cbn. by rewrite (H1 tt eq_refl).
Qed.

(** What a call does once the server is there. *)
Definition jtag_body (t : Z) : M (sys W) (Z * (Z * Z * Z * Z)) :=
  pins ← tick t; d ← done;
  if d =? 0 then mret (0, pins) else e ← exit_code; mret (Z.lor (Z.shiftl e 1) 1, pins).

Lemma coupled_body t i : coupled (W := W) (twins true i) (twins true i) (jtag_body t) (jtag_body t).
Proof.
  eapply coupled_bind; [apply coupled_tick|]. intros pins. eapply (coupled_bind _ (twins true i)).
  { couple. couple. }
  intros d. destruct (d =? 0); [couple|]. eapply (coupled_bind _ (twins true i)); [couple; couple|].
  intros e. couple.
Qed.
End ticks.

(** * Sessions *)

(** Consecutive calls of an entry. *)
Fixpoint each {D A} (f : Z -> M D A) (ts : list Z) : M D (list A) :=
  match ts with
  | [] => mret []
  | t :: ts => a ← f t; l ← each f ts; mret (a :: l)
  end.

Section sessions.
Context `{!Os W} (garbage : rbs).

(** The object of the one server and the variables of the other. *)
Definition twin_worlds (wj : world (jsys W)) (w : world (sys W)) : Prop :=
  js_os (w_dev wj) = sy_os (w_dev w) /\ w_mem wj = w_mem w /\ w_tr wj = w_tr w
  /\ match js_jtag (w_dev wj) with
     | None => init (sy_vars (w_dev w)) = 0
     | Some v => exists i, i <> 0 /\ twins true i v (sy_vars (w_dev w))
     end.

Lemma on_object_bind {A B} v (m : M (sys W) A) (k : A -> M (sys W) B) n w :
  on_object v (m ≫= k) n w = (a ← on_object v m; arrow (k a)) n w.
Proof. unfold on_object, arrow, mbind, M_bind. by destruct (m n _) as [[a| |] [[] ? ?]]. Qed.

Lemma body_arrow t n (w : world (jsys W)) :
  (pins ← arrow (tick t); d ← arrow done;
   if d =? 0 then mret (0, pins) else e ← arrow exit_code; mret (Z.lor (Z.shiftl e 1) 1, pins)) n w
  = arrow (jtag_body t) n w.
Proof.
  unfold jtag_body, arrow, on_object, mbind, M_bind. destruct (js_jtag (w_dev w)) as [v|]; [|done].
  destruct (tick t n _) as [[p| |] [[u o] m tr]]; [|done..].
  unfold done, exit_code, get, mbind, M_bind. cbn. by destruct (quit u =? 0).
Qed.

Lemma jtag_body_agrees t n w :
  (forall fd o, fst (os_read fd o) <> RdEnd) ->
  (pins ← rbs_tick t; d ← rbs_done;
   if d =? 0 then mret (0, pins) else e ← rbs_exit_code; mret (Z.lor (Z.shiftl e 1) 1, pins)) n w
  = jtag_body (W := W) t n w.
Proof. intros Hend. apply M_bind_ext_l. by apply tick_agrees. Qed.

(** A method called on the object, coupled with a statement on the variables. *)
Lemma coupled_object {A} R i v (m m' : M (sys W) A) n wj w :
  coupled R (twins true i) m m' -> i <> 0 ->
  js_os (w_dev wj) = sy_os (w_dev w) -> w_mem wj = w_mem w -> w_tr wj = w_tr w -> R v (sy_vars (w_dev w)) ->
  fst (on_object v m n wj) = fst (m' n w)
  /\ js_os (w_dev (snd (on_object v m n wj))) = sy_os (w_dev (snd (m' n w)))
  /\ forall a, fst (m' n w) = Val a -> twin_worlds (snd (on_object v m n wj)) (snd (m' n w)).
Proof.
  intros Hm Hi H1 H2 H3 Hv. unfold on_object.
  destruct (Hm n (World (Sys v (js_os (w_dev wj))) (w_mem wj) (w_tr wj)) w) as [E (T1 & T2 & T3 & T4)]; [done|].
  rewrite <- E. destruct (m n (World _ _ _)) as [o w1]. cbn in *. split; [done|]. split; [done|].
  intros a ->. split_and!; [done..|]. exists i. split; [done | by eapply T1].
Qed.

(** Up to the end of the stream, one call of each server. *)
Lemma one_call t n wj w :
  (forall fd o, fst (os_read fd o) <> RdEnd) -> twin_worlds wj w ->
  fst (jtag_tick garbage t n wj) = fst (RemoteBitbang.jtag_tick 0 t n w)
  /\ js_os (w_dev (snd (jtag_tick garbage t n wj))) = sy_os (w_dev (snd (RemoteBitbang.jtag_tick 0 t n w)))
  /\ forall a, fst (RemoteBitbang.jtag_tick 0 t n w) = Val a ->
       twin_worlds (snd (jtag_tick garbage t n wj)) (snd (RemoteBitbang.jtag_tick 0 t n w)).
Proof.
  intros Hend (H1 & H2 & H3 & H4). destruct (js_jtag (w_dev wj)) as [v|] eqn:Ej.
  - destruct H4 as (i & Hi & Ht).
    assert (E1 : jtag_tick garbage t n wj = on_object v (jtag_body t) n wj).
    { unfold jtag_tick. unfold mbind at 1, M_bind at 1, make_jtag at 1. rewrite Ej. cbn.
      rewrite body_arrow. unfold arrow. by rewrite Ej. }
    assert (E2 : RemoteBitbang.jtag_tick 0 t n w = jtag_body t n w).
    { rewrite jtag_tick_started by (by rewrite Ht). by apply jtag_body_agrees. }
    rewrite E1, E2. eapply coupled_object; try done. apply coupled_body.
  - assert (E1 : jtag_tick garbage t n wj
        = on_object garbage (remote_bitbang_t 0 ;; jtag_body t) n wj).
    { unfold jtag_tick. rewrite on_object_bind. unfold mbind at 1 5, M_bind at 1 5, make_jtag at 1. rewrite Ej.
      destruct (on_object _ _ _ _) as [[[]| |] w1]; [|done..]. apply body_arrow. }
    assert (E2 : RemoteBitbang.jtag_tick 0 t n w
        = ((remote_bitbang_t 0 ;; update (set_init 1)) ;; jtag_body t) n w).
    { unfold RemoteBitbang.jtag_tick. unfold mbind at 1, M_bind at 1, get at 1. rewrite H4. cbn [Z.eqb].
      transitivity (((i ← rbs_init 0; update (set_init i)) ;; jtag_body t) n w).
      - apply M_bind_ext. intros [] w1. by apply jtag_body_agrees.
      - apply M_bind_ext_l. rewrite (M_bind_ext_l _ _ _ _ _ (init_agrees 0 n w)), M_bind_assoc. done. }
    rewrite E1, E2. apply (coupled_object (fun _ v' => init v' = 0) 1); try done.
    apply (coupled_bind _ (twins true 1)); [|intros []; apply coupled_body]. apply coupled_started.
Qed.

Lemma many_calls ts n wj w :
  (forall fd o, fst (os_read fd o) <> RdEnd) -> twin_worlds wj w ->
  fst (each (jtag_tick garbage) ts n wj) = fst (each (RemoteBitbang.jtag_tick 0) ts n w)
  /\ js_os (w_dev (snd (each (jtag_tick garbage) ts n wj)))
     = sy_os (w_dev (snd (each (RemoteBitbang.jtag_tick 0) ts n w))).
Proof.
  intros Hend. revert wj w. induction ts as [|t ts IH]; intros wj w Hw; cbn [each].
  - split; [done | apply Hw].
  - destruct (one_call t n wj w Hend Hw) as (H1 & H2 & H3). unfold mbind, M_bind.
    destruct (jtag_tick garbage t n wj) as [o wj1], (RemoteBitbang.jtag_tick 0 t n w) as [o' w1].
    cbn [fst snd] in *. subst o'. destruct o as [a| |]; [|done..].
    destruct (IH wj1 w1 (H3 a eq_refl)) as [I1 I2].
    destruct (each (jtag_tick garbage) ts n wj1) as [o wj2].
    destruct (each (RemoteBitbang.jtag_tick 0) ts n w1) as [o' w2]. cbn [fst snd] in *. subst o'.
    by destruct o.
Qed.

(** C32: the two servers are one: from the start, with whatever memory the object gets, and as long as
    no client closes its connection, every sequence of calls has the same results, the same pins and
    the same effects on the operating system, and uses the same fuel. *)
Theorem bitbang_twins ts n (w : world (sys W)) :
  (forall fd o, fst (os_read fd o) <> RdEnd) -> init (sy_vars (w_dev w)) = 0 ->
  let wj := World (JSys None (sy_os (w_dev w))) (w_mem w) (w_tr w) in
  fst (each (jtag_tick garbage) ts n wj) = fst (each (RemoteBitbang.jtag_tick 0) ts n w)
  /\ js_os (w_dev (snd (each (jtag_tick garbage) ts n wj)))
     = sy_os (w_dev (snd (each (RemoteBitbang.jtag_tick 0) ts n w))).
Proof. intros Hend Hi wj. by apply many_calls. Qed.

(** C33: the end of a connection tells them apart: when the client has closed it, the C server returns
    with its pins as they were, while the server of the simulation reads again for ever and the
    simulator hangs. *)
Theorem bitbang_end_of_stream t (w : world (sys W)) :
  client_fd (sy_vars (w_dev w)) > 0 ->
  (forall o, os_read (client_fd (sy_vars (w_dev w))) o = (RdEnd, o)) ->
  (forall n, fst (tick t n w) = OutOfFuel)
  /\ wp (rbs_tick t) w (fun p w' =>
       (let v := sy_vars (w_dev w) in p = (tck v, tms v, tdi v, trstn v))
       /\ w_dev w' = Sys (set_tdo t (sy_vars (w_dev w))) (sy_os (w_dev w))).
Proof.
  intros Hc Hr. split.
  - intros n. unfold tick. unfold mbind at 1, M_bind at 1, get at 1.
    destruct (Z.gtb_spec (client_fd (sy_vars (w_dev w))) 0); [|lia].
    assert (E : forall k w1, sy_vars (w_dev w1) = set_tdo t (sy_vars (w_dev w)) ->
      fst (read_command k w1) = OutOfFuel).
    { induction k as [|k IH]; intros w1 Hw; [done|]. unfold read_command, mbind, M_bind, get, call in *. cbn.
      rewrite Hw. cbn. rewrite Hr. by apply IH. }
    set (w1 := World (Sys (set_tdo t (sy_vars (w_dev w))) (sy_os (w_dev w))) (w_mem w) (w_tr w)).
    specialize (E n w1 eq_refl). unfold execute_command, mbind, M_bind, update. cbn. fold w1.
    destruct (read_command n w1) as [o w2]. cbn in E. by subst.
  - exists (tck (sy_vars (w_dev w)), tms (sy_vars (w_dev w)), tdi (sy_vars (w_dev w)), trstn (sy_vars (w_dev w))).
    exists (World (Sys (set_tdo t (sy_vars (w_dev w))) (sy_os (w_dev w))) (w_mem w) (w_tr w)).
    split; [|done]. exists 1%nat. intros [|n] Hn; [lia|]. unfold rbs_tick. unfold mbind at 1, M_bind at 1, get at 1.
    destruct (Z.gtb_spec (client_fd (sy_vars (w_dev w))) 0); [|lia].
    unfold rbs_execute_command, RemoteBitbang.read_command, mbind, M_bind, update, get, call. cbn. by rewrite Hr.
Qed.
End sessions.

(** A client that sends the commands of a list over and over, with a lag before each. *)
Record loop_os := LoopOs { lp_cmds : list Z; lp_at : nat; lp_lag : nat; lp_out : list Z }.

#[export] Instance loop_os_calls : Os loop_os := {
  EAGAIN := 11;
  os_socket o := (Ok 3, o); os_nonblock _ o := o; os_setsockopt _ o := (Ok 0, o);
  os_bind _ _ o := (Ok 0, o); os_listen _ o := (Ok 0, o); os_getsockname _ o := (Ok 0, o);
  os_accept _ o := (Ok 4, o);
  os_read _ o :=
    match lp_lag o with
    | S n => (RdErr 11, LoopOs (lp_cmds o) (lp_at o) n (lp_out o))
    | O => (RdByte (nth (lp_at o) (lp_cmds o) 66),
            LoopOs (lp_cmds o) (S (lp_at o) mod length (lp_cmds o)) 2 (lp_out o))
    end;
  os_write _ b o := (Ok 1, LoopOs (lp_cmds o) (lp_at o) (lp_lag o) (lp_out o ++ [b]));
  os_close _ o := o
}.

Definition garbage : rbs := Rbs 7 7 7 7 7 7 7 7 7 7 7 7.

(** The session 6, R, s, R twice over. *)
Lemma bitbang_twins_witness :
  fst (each (jtag_tick garbage) [0; 1; 1; 0; 0; 1] 10%nat (World (JSys None (LoopOs (str "6RsR") 0 1 [])) ∅ []))
  = Val [(0, (1, 1, 1, 1)); (0, (1, 1, 0, 1)); (0, (1, 1, 0, 1)); (0, (1, 1, 0, 1)); (0, (1, 1, 0, 1));
         (0, (1, 1, 0, 1))].
Proof.
  etrans.
  { apply (bitbang_twins garbage [0; 1; 1; 0; 0; 1] 10%nat
             (World (Sys rbs_zero (LoopOs (str "6RsR") 0 1 [])) ∅ [])); [|done].
    intros fd [l i [|k] o]; done. }
  by vm_compute.
Defined.

(** A client that has closed its connection. *)
Definition closed_os : Os unit := {|
  EAGAIN := 11;
  os_socket o := (Ok 3, o); os_nonblock _ o := o; os_setsockopt _ o := (Ok 0, o);
  os_bind _ _ o := (Ok 0, o); os_listen _ o := (Ok 0, o); os_getsockname _ o := (Ok 0, o);
  os_accept _ o := (Ok 4, o); os_read _ o := (RdEnd, o); os_write _ _ o := (Ok 1, o);
  os_close _ o := o
|}.

Lemma bitbang_end_of_stream_witness :
  fst (tick (Os0 := closed_os) 1 1000%nat (World (Sys connected tt) ∅ [])) = OutOfFuel
  /\ wp (rbs_tick (Os0 := closed_os) 1) (World (Sys connected tt) ∅ []) (fun p _ => p = (1, 1, 1, 1)).
Proof.
  split.
  - by apply (bitbang_end_of_stream (Os0 := closed_os)).
  - eapply wp_mono; [by apply (bitbang_end_of_stream (Os0 := closed_os) 1 (World (Sys connected tt) ∅ []))|].
    by intros p w' [-> _].
Defined.
