(* ===== verification/SimDtm.v ===== *)
(** The debug transport of the simulation test bench ([tb/dpi/SimDTM.cc] and [msim_helper.cc]): the
    command line of the simulator is cleaned of what is not meant for the host, and the transport
    module of another project, a parameter here, is made from the rest and ticked. *)
From S2P Require Import Prelude.

(** * Strings of C *)

(** The bytes of an array that holds a string: up to its first NUL. *)
Fixpoint cstr (buf : list Z) : res (list Z) :=
  match buf with
  | [] => Crash
  | c :: buf => if c =? 0 then Ret [] else s ← cstr buf; Ret (c :: s)
  end.

Definition strlen (buf : list Z) : res Z := s ← cstr buf; Ret (Z.of_nat (length s)).

(** [strcmp (buf, lit) == 0] *)
Fixpoint strcmp_eq (buf lit : list Z) : res bool :=
  match buf, lit with
  | [], _ => Crash
  | c :: _, [] => Ret (c =? 0)
  | c :: buf, l :: lit => if c =? l then strcmp_eq buf lit else Ret false
  end.

Definition at_index (buf : list Z) (i : nat) : res Z :=
  match buf !! i with Some c => Ret c | None => Crash end.

(** * The command line *)

(** The loop that removes the pluses in place, from index [j] on; the length is computed at each turn,
    and its difference is that of [size_t]. [n] is the number of bytes from [j] to the end of the
    array: when none is left, a turn that goes on is outside of it. *)
Fixpoint shift_loop (n j : nat) (buf : list Z) : res (list Z) :=
  len ← strlen buf;
  if Z.of_nat j <? u64 (len - 1) then
    c ← at_index buf (j + 2);
    match n with
    | O => Crash
    | S n => shift_loop n (S j) (<[j := c]> buf)
    end
  else Ret buf.

(** [argv[i][0] == '+' && argv[i][1] == '+' && strlen(argv[i]) > 3] *)
Definition double_plus (buf : list Z) : res bool :=
  c ← at_index buf 0;
  if negb (c =? code "+") then Ret false else
  c ← at_index buf 1;
  if negb (c =? code "+") then Ret false else
  len ← strlen buf; Ret (3 <? len).

(** One turn of the loop over the arguments: on [permissive_on], [htif_args] and the argument. *)
Definition sanitize_arg (permissive_on : bool) (htif_args : list (list Z)) (arg : list Z)
    : res (bool * list (list Z) * list Z) :=
  on ← strcmp_eq arg (str "+permissive");
  let permissive_on := if on : bool then true else permissive_on in
  b ← double_plus arg;
  arg ← (if b : bool then shift_loop (length arg) 0 arg else Ret arg);
  htif_args ← (if permissive_on then Ret htif_args else s ← cstr arg; Ret (htif_args ++ [s]));
  off ← strcmp_eq arg (str "+permissive-off");
  let permissive_on := if off : bool then false else permissive_on in
  Ret (permissive_on, htif_args, arg).

Fixpoint sanitize_loop (permissive_on : bool) (htif_args : list (list Z)) (argv : list (list Z))
    : res (list (list Z) * list (list Z)) :=
  match argv with
  | [] => Ret (htif_args, [])
  | arg :: argv =>
      '(permissive_on, htif_args, arg) ← sanitize_arg permissive_on htif_args arg;
      '(htif_args, argv) ← sanitize_loop permissive_on htif_args argv;
      Ret (htif_args, arg :: argv)
  end.

(** [info] is what [vpi_get_vlog_info] answers: the arrays of the simulator's arguments, which are
    changed in place; the first is its own name. *)
Definition sanitize_args (info : option (list (list Z))) : res (list (list Z) * list (list Z)) :=
  match info with
  | None => Abort
  | Some [] => Ret ([], [])
  | Some (name :: argv) =>
      '(htif_args, argv) ← sanitize_loop false [] argv;
      Ret (htif_args, name :: argv)
  end.

(** * The tick *)

(** The transport module: made from the command line of the host; one tick takes what the simulated
    debug module has put on its wires. The fields of its requests and responses are unsigned numbers
    of 32 bits, its exit code is an [int]. *)
Class Dtm (T : Type) := {
  dtm_t : list (list Z) -> T;
  dtm_tick : bool -> bool -> Z * Z -> T -> T;
  resp_ready : T -> bool;
  req_valid : T -> bool;
  req_addr : T -> Z;
  req_op : T -> Z;
  req_data : T -> Z;
  dtm_done : T -> bool;
  dtm_exit_code : T -> Z
}.

(** The wires: from the simulated debug module, and to it; the numbers are [int]s. *)
Record wires_in := WiresIn { req_ready : bool; resp_valid : bool; resp_resp : Z; resp_data : Z }.
Record wires_out := WiresOut {
  o_resp_ready : bool; o_req_valid : bool; o_req_addr : Z; o_req_op : Z; o_req_data : Z
}.

(** The pointer [dtm], and the simulator's command line. *)
Record sim (T : Type) := Sim { sim_dtm : option T; sim_info : option (list (list Z)) }.
Arguments Sim {T} _ _.
Arguments sim_dtm {T} _.
Arguments sim_info {T} _.

Section debug_tick.
Context `{!Dtm T}.

(** [if (!dtm) ... dtm = new dtm_t(argc, argv)] *)
Definition make_dtm (s : sim T) : res (T * option (list (list Z))) :=
  match sim_dtm s with
  | Some d => Ret (d, sim_info s)
  | None =>
      '(htif_args, argv) ← sanitize_args (sim_info s);
      Ret (dtm_t (str "htif" :: htif_args), Some argv)
  end.

(** One call. Shifting an exit code of more than 30 bits, or a negative one, is undefined in older
    standards of the language; compilers shift its 32 bits. *)
Definition debug_tick (i : wires_in) (s : sim T) : res (Z * wires_out * sim T) :=
  '(d, info) ← make_dtm s;
  let d := dtm_tick (req_ready i) (resp_valid i) (u32 (resp_resp i), u32 (resp_data i)) d in
  let o := WiresOut (resp_ready d) (req_valid d) (s32 (req_addr d)) (s32 (req_op d)) (s32 (req_data d)) in
  Ret (if dtm_done d then Z.lor (s32 (Z.shiftl (dtm_exit_code d) 1)) 1 else 0, o, Sim (Some d) info).
End debug_tick.

(** * Cleaning *)

(** The bytes of a string: none is NUL. *)
Definition text (s : list Z) : Prop := 0 ∉ s.

(** An array that holds a string, perhaps with bytes after it. *)
Definition array_of (s buf : list Z) : Prop := exists r, buf = s ++ 0 :: r.

Section strings.
Implicit Types s r buf : list Z.

Lemma cstr_app s r : text s -> cstr (s ++ 0 :: r) = Ret s.
Proof.
  unfold text. induction s as [|c s IH]; intros H; [done|].
  apply not_elem_of_cons in H as [Hc Hs]. cbn. destruct (Z.eqb_spec c 0); [congruence|].
  by rewrite IH.
Qed.

Lemma strlen_app s r : text s -> strlen (s ++ 0 :: r) = Ret (Z.of_nat (length s)).
Proof. intros H. unfold strlen. by rewrite cstr_app. Qed.

Lemma strcmp_app s r lit : text s -> text lit -> strcmp_eq (s ++ 0 :: r) lit = Ret (bool_decide (s = lit)).
Proof.
  unfold text. revert lit. induction s as [|c s IH]; intros [|l lit] Hs Hl.
  - done.
  - apply not_elem_of_cons in Hl as [Hl _]. rewrite bool_decide_false by done. cbn [strcmp_eq app].
    destruct (Z.eqb_spec 0 l); [congruence | done].
  - apply not_elem_of_cons in Hs as [Hs _]. rewrite bool_decide_false by done. cbn [strcmp_eq app].
    destruct (Z.eqb_spec c 0); [congruence | done].
  - apply not_elem_of_cons in Hs as [_ Hs]. apply not_elem_of_cons in Hl as [_ Hl]. cbn.
    destruct (Z.eqb_spec c l) as [->|Hne].
    + rewrite IH by done. f_equal. apply bool_decide_ext. split; congruence.
    + by rewrite bool_decide_false by congruence.
Qed.

Lemma text_take n s : text s -> text (take n s).
Proof. unfold text. intros H Hi. apply H. rewrite <- (take_drop n s). apply elem_of_app. auto. Qed.

Lemma text_drop n s : text s -> text (drop n s).
Proof. unfold text. intros H Hi. apply H. rewrite <- (take_drop n s). apply elem_of_app. auto. Qed.

Lemma text_app s r : text s -> text r -> text (s ++ r).
Proof. unfold text. rewrite elem_of_app. tauto. Qed.
End strings.

(** The array after [j] turns: its first [j] bytes are those of two places on. *)
Definition shifted (j : nat) (buf : list Z) : list Z := take j (drop 2 buf) ++ drop j buf.

Lemma shifted_S j buf c :
  buf !! (j + 2)%nat = Some c -> <[j := c]> (shifted j buf) = shifted (S j) buf.
Proof.
  intros Hc. unfold shifted. apply lookup_lt_Some in Hc as Hl.
  rewrite insert_app_r_alt by (rewrite length_take, length_drop; lia).
  rewrite length_take, length_drop. replace (j - j `min` (length buf - 2))%nat with 0%nat by lia.
  destruct (drop j buf) as [|b l] eqn:E; [apply (f_equal length) in E; rewrite length_drop in E; cbn in E; lia|].
  cbn [insert list_insert].
  assert (Hl' : l = drop (S j) buf) by (by rewrite <- Nat.add_1_r, <- drop_drop, E).
  rewrite (take_S_r _ _ c), <- (assoc_L (++)) by (rewrite lookup_drop; by rewrite Nat.add_comm).
  by rewrite Hl'.
Qed.

Lemma shifted_end s r : (2 <= length s)%nat ->
  shifted (length s - 1) (s ++ 0 :: r) = drop 2 s ++ 0 :: drop (length s - 1) (s ++ 0 :: r).
Proof.
  intros H2. unfold shifted. rewrite drop_app_le, take_app_ge by (rewrite ?length_drop; lia).
  rewrite length_drop. replace (length s - 1 - (length s - 2))%nat with 1%nat by lia.
  cbn [take]. by rewrite <- (assoc_L (++)).
Qed.

(** The loop ends, and leaves the string without its first two bytes. With a string of two bytes it
    would not: the length becomes 0, and the difference the largest number of [size_t]. *)
Lemma shift_loop_runs s r n j :
  text s -> (3 <= length s)%nat -> Z.of_nat (length s) < 2 ^ 63 -> (j + n = length s + S (length r))%nat ->
  (j < length s)%nat ->
  shift_loop n j (shifted j (s ++ 0 :: r)) = Ret (shifted (length s - 1) (s ++ 0 :: r)).
Proof.
  intros Hs H2 H63. revert j. induction n as [|n IH]; intros j Hn Hj; [lia|].
  assert (Hlen : length (s ++ 0 :: r) = (length s + S (length r))%nat) by (by rewrite length_app).
  destruct (decide (j = length s - 1)%nat) as [->|Hne].
  - (* the string is now two bytes shorter *)
    cbn [shift_loop]. rewrite shifted_end at 1 by lia. rewrite strlen_app by (by apply text_drop). cbn [mbind res_bind].
    rewrite length_drop, u64_small by lia.
    by destruct (Z.ltb_spec (Z.of_nat (length s - 1)) (Z.of_nat (length s - 2) - 1)); [lia|].
  - assert (E : shifted j (s ++ 0 :: r) = (take j (drop 2 s) ++ drop j s) ++ 0 :: r).
    { unfold shifted. rewrite !drop_app_le, take_app_le by (rewrite ?length_drop; lia).
      by rewrite <- (assoc_L (++)). }
    assert (Ht : text (take j (drop 2 s) ++ drop j s)) by auto using text_app, text_take, text_drop.
    assert (Hl : length (take j (drop 2 s) ++ drop j s) = length s)
      by (rewrite length_app, length_take, !length_drop; lia).
    assert (Hc : exists c, (s ++ 0 :: r) !! (j + 2)%nat = Some c /\ shifted j (s ++ 0 :: r) !! (j + 2)%nat = Some c).
    { destruct (lookup_lt_is_Some_2 (s ++ 0 :: r) (j + 2)) as [c Hc]; [rewrite Hlen; lia|].
      exists c. split; [done|]. unfold shifted. rewrite lookup_app_r by (rewrite length_take, length_drop; lia).
      rewrite lookup_drop, length_take, length_drop. rewrite <- Hc. f_equal. lia. }
    destruct Hc as (c & Hc & Hc'). cbn [shift_loop]. rewrite E at 1. rewrite strlen_app by done.
    cbn [mbind res_bind]. rewrite Hl, u64_small by lia.
    destruct (Z.ltb_spec (Z.of_nat j) (Z.of_nat (length s) - 1)); [|lia].
    unfold at_index. rewrite Hc'. cbn [mbind res_bind]. rewrite (shifted_S _ _ c) by done. apply IH; lia.
Qed.

(** What becomes of an argument. *)
Definition starts_double (s : list Z) : bool := bool_decide (take 2 s = str "++") && (3 <? Z.of_nat (length s)).
Definition strip (s : list Z) : list Z := if starts_double s then drop 2 s else s.

Lemma double_plus_array s r : text s -> double_plus (s ++ 0 :: r) = Ret (starts_double s).
Proof.
  intros Hs. unfold double_plus, starts_double, at_index. change (code "+") with 43. change (str "++") with [43; 43].
  destruct s as [|a [|b s]]; [done | |].
  - cbn [app lookup list_lookup mbind res_bind]. destruct (a =? 43); [|by rewrite bool_decide_false by done].
    cbn. by rewrite bool_decide_false by done.
  - cbn [app lookup list_lookup mbind res_bind negb].
    destruct (Z.eqb_spec a 43) as [->|Ha]; cbn [negb]; [|rewrite bool_decide_false by (cbn; congruence); done].
    destruct (Z.eqb_spec b 43) as [->|Hb]; cbn [negb]; [|rewrite bool_decide_false by (cbn; congruence); done].
    change (43 :: 43 :: s ++ 0 :: r) with ((43 :: 43 :: s) ++ 0 :: r). rewrite strlen_app by done. done.
Qed.

Lemma text_strip s : text s -> text (strip s).
Proof. unfold strip. destruct (starts_double s); auto using text_drop. Qed.

(** One argument: what is pushed, what is left in its array, and the flag for the next one. *)
Lemma sanitize_arg_array on l s buf :
  text s -> Z.of_nat (length s) < 2 ^ 63 -> array_of s buf ->
  let on' := on || bool_decide (s = str "+permissive") in
  exists buf', array_of (strip s) buf' /\
    sanitize_arg on l buf = Ret (on' && negb (bool_decide (strip s = str "+permissive-off")),
                                 if on' then l else l ++ [strip s], buf').
Proof.
  intros Hs H63 [r ->] on'. unfold sanitize_arg.
  rewrite strcmp_app by (done || apply (bool_decide_unpack _); by vm_compute). cbn [mbind res_bind].
  replace (if bool_decide (s = str "+permissive") then true else on) with on' by (unfold on'; by destruct on, (bool_decide _)).
  rewrite double_plus_array by done. cbn [mbind res_bind].
  assert (Hb : exists buf', array_of (strip s) buf' /\
    (if starts_double s then shift_loop (length (s ++ 0 :: r)) 0 (s ++ 0 :: r) else Ret (s ++ 0 :: r)) = Ret buf').
  { unfold strip. destruct (starts_double s) eqn:Ed; [|by eexists; split; [exists r|]].
    apply andb_true_iff in Ed as [_ H3%Z.ltb_lt]. exists (shifted (length s - 1) (s ++ 0 :: r)). split.
    - exists (drop (length s - 1) (s ++ 0 :: r)). apply shifted_end. lia.
    - apply (shift_loop_runs s r _ 0); [done | lia | done | | lia]. rewrite length_app. done. }
  destruct Hb as (buf' & Ha & ->). cbn [mbind res_bind]. exists buf'. split; [done|].
  destruct Ha as [r' ->]. rewrite strcmp_app by (by apply text_strip || apply (bool_decide_unpack _); by vm_compute).
  destruct on'; cbn [mbind res_bind andb].
  - by destruct (bool_decide (strip s = str "+permissive-off")).
  - rewrite cstr_app by (by apply text_strip). cbn [mbind res_bind].
    by destruct (bool_decide (strip s = str "+permissive-off")).
Qed.

(** The arguments that are pushed, on strings. *)
Fixpoint cleaned (on : bool) (args : list (list Z)) : list (list Z) :=
  match args with
  | [] => []
  | s :: args =>
      let on := on || bool_decide (s = str "+permissive") in
      (if on then [] else [strip s])
      ++ cleaned (on && negb (bool_decide (strip s = str "+permissive-off"))) args
  end.

(** Strings as a command line can hold. *)
Definition arguments (args : list (list Z)) : Prop :=
  Forall (fun s => text s /\ Z.of_nat (length s) < 2 ^ 63) args.

Lemma sanitize_loop_arrays on l args bufs :
  arguments args -> Forall2 array_of args bufs ->
  exists bufs', Forall2 array_of (strip <$> args) bufs'
    /\ sanitize_loop on l bufs = Ret (l ++ cleaned on args, bufs').
Proof.
  intros Ha Hb. revert on l Ha. induction Hb as [|s buf args bufs Hs _ IH]; intros on l Ha.
  - exists []. cbn. by rewrite app_nil_r.
  - inversion Ha as [|? ? [Ht H63] Ha']; subst. cbn [sanitize_loop cleaned fmap list_fmap].
    destruct (sanitize_arg_array on l s buf Ht H63 Hs) as (buf' & Hb' & E). rewrite E. cbn [mbind res_bind].
    set (on' := on || _). edestruct IH as (bufs' & Hbs & E'); [done|]. rewrite E'. cbn [mbind res_bind].
    exists (buf' :: bufs'). split; [by constructor|]. destruct on'; [done|]. by rewrite <- (assoc_L (++)).
Qed.

(** A part of the command line that is kept, then one between switches that is not. *)
Record segment := Segment { sg_kept : list (list Z); sg_skipped : list (list Z); sg_off : list Z }.

Definition segment_args (g : segment) : list (list Z) :=
  sg_kept g ++ str "+permissive" :: sg_skipped g ++ [sg_off g].

(** Nothing kept is the one switch, nothing skipped is the other, which may have two pluses more. *)
Definition kept_ok (l : list (list Z)) : Prop := str "+permissive" ∉ l.
Definition skipped_ok (l : list (list Z)) : Prop := Forall (fun s => strip s <> str "+permissive-off") l.
Definition segment_ok (g : segment) : Prop :=
  kept_ok (sg_kept g) /\ skipped_ok (sg_skipped g) /\ strip (sg_off g) = str "+permissive-off".

Lemma cleaned_kept l rest : kept_ok l -> cleaned false (l ++ rest) = (strip <$> l) ++ cleaned false rest.
Proof.
  unfold kept_ok. induction l as [|s l IH]; intros H; [done|]. apply not_elem_of_cons in H as [H1 H2].
  cbn [app cleaned fmap list_fmap]. rewrite bool_decide_false by congruence. cbn [orb andb app].
  by rewrite IH.
Qed.

Lemma cleaned_skipped l rest : skipped_ok l -> cleaned true (l ++ rest) = cleaned true rest.
Proof.
  induction 1 as [|s l Hs _ IH]; [done|]. cbn [app cleaned orb andb].
  rewrite bool_decide_false by done. exact IH.
Qed.

Lemma cleaned_on l : cleaned false (str "+permissive" :: l) = cleaned true l.
Proof. cbn [cleaned]. rewrite bool_decide_true by done. done. Qed.

Lemma cleaned_segment g rest :
  segment_ok g -> cleaned false (segment_args g ++ rest) = (strip <$> sg_kept g) ++ cleaned false rest.
Proof.
  intros (H1 & H2 & H3). unfold segment_args.
  rewrite <- (assoc_L (++)), cleaned_kept by done. f_equal. rewrite <- app_comm_cons, cleaned_on.
  rewrite <- (assoc_L (++)), cleaned_skipped by done. cbn [app cleaned orb andb].
  by rewrite bool_decide_true.
Qed.

Lemma cleaned_segments gs last rest :
  Forall segment_ok gs -> kept_ok last ->
  cleaned false (concat (segment_args <$> gs) ++ last ++ rest)
  = (strip <$> (concat (sg_kept <$> gs) ++ last)) ++ cleaned false rest.
Proof.
  intros Hg Hl. induction Hg as [|g gs Hg _ IH]; cbn [fmap list_fmap concat app].
  - by apply cleaned_kept.
  - rewrite <- (assoc_L (++)), cleaned_segment by done. rewrite IH.
    rewrite <- !(assoc_L (++)), !fmap_app, <- !(assoc_L (++)). done.
Qed.

(** * Theorems *)

(** C34: the host gets the arguments of the simulator that are not between +permissive and
    +permissive-off, in their order, without the switches; of an argument that starts with two
    pluses and has more than three characters the two are removed, in the simulator's own array as
    well; a last +permissive needs no end. *)
Theorem sanitize_args_cleans gs last tail name bufs :
  let args := concat (segment_args <$> gs) ++ last ++ tail in
  Forall segment_ok gs -> kept_ok last ->
  tail = [] \/ (exists l, tail = str "+permissive" :: l /\ skipped_ok l) ->
  arguments args -> Forall2 array_of args bufs ->
  exists bufs', sanitize_args (Some (name :: bufs))
    = Ret (strip <$> (concat (sg_kept <$> gs) ++ last), name :: bufs')
  /\ Forall2 array_of (strip <$> args) bufs'.
Proof.
  intros args Hg Hl Ht Ha Hb. destruct (sanitize_loop_arrays false [] args bufs Ha Hb) as (bufs' & Hbs & E).
  exists bufs'. split; [|done]. cbn [sanitize_args]. rewrite E. cbn [mbind res_bind app].
  unfold args. rewrite cleaned_segments by done.
  destruct Ht as [-> | (l & -> & Hs)]; [by rewrite app_nil_r|].
  rewrite cleaned_on, <- (app_nil_r l), cleaned_skipped by done. cbn [cleaned]. by rewrite app_nil_r.
Qed.

Section sessions.
Context `{!Dtm T}.

(** The module after a tick, and after each of several. *)
Definition dtm_step (d : T) (i : wires_in) : T :=
  dtm_tick (req_ready i) (resp_valid i) (u32 (resp_resp i), u32 (resp_data i)) d.

Fixpoint dtm_states (d : T) (ins : list wires_in) : list T :=
  match ins with
  | [] => []
  | i :: ins => dtm_step d i :: dtm_states (dtm_step d i) ins
  end.

(** Consecutive calls of the simulator. *)
Fixpoint debug_ticks (ins : list wires_in) (s : sim T) : res (list (Z * wires_out) * sim T) :=
  match ins with
  | [] => Ret ([], s)
  | i :: ins =>
      '(r, o, s) ← debug_tick i s;
      '(l, s) ← debug_ticks ins s;
      Ret ((r, o) :: l, s)
  end.

(** An [int] with the 32 bits of [v]. *)
Definition carries (x v : Z) : Prop := - 2 ^ 31 <= x < 2 ^ 31 /\ u32 x = u32 v.

(** A call's answer shows the state of the module: its wires, whether it is done, and how; the exit
    code is above the lowest bit when it leaves room for that bit. *)
Definition shows (d : T) (a : Z * wires_out) : Prop :=
  let '(r, o) := a in
  Z.odd r = dtm_done d
  /\ (dtm_done d = true -> carries r (2 * dtm_exit_code d + 1)
        /\ (Z.shiftr r 1 = dtm_exit_code d <-> - 2 ^ 30 <= dtm_exit_code d < 2 ^ 30))
  /\ (dtm_done d = false -> r = 0)
  /\ o_resp_ready o = resp_ready d /\ o_req_valid o = req_valid d
  /\ carries (o_req_addr o) (req_addr d) /\ carries (o_req_op o) (req_op d)
  /\ carries (o_req_data o) (req_data d).

Lemma carries_s32 v : carries (s32 v) v.
Proof. split; [apply s32_range | apply u32_s32]. Qed.

(** Bit 0 of a number shifted left is free. *)
Lemma answer_value c : Z.lor (s32 (Z.shiftl c 1)) 1 = s32 (2 * c + 1).
Proof.
  rewrite Z.shiftl_mul_pow2 by lia. change (2 ^ 1) with 2. rewrite (Z.mul_comm c 2).
  assert (E : s32 (2 * c) = 2 * ((c + 2 ^ 30) mod 2 ^ 31 - 2 ^ 30)).
  { unfold s32. replace (2 * c + 2 ^ 31) with (2 * (c + 2 ^ 30)) by lia.
    change (2 ^ 32) with (2 * 2 ^ 31). rewrite Z.mul_mod_distr_l by lia. lia. }
  assert (E1 : s32 (2 * c + 1) = 2 * ((c + 2 ^ 30) mod 2 ^ 31 - 2 ^ 30) + 1).
  { unfold s32. Z.to_euclidean_division_equations; lia. }
  rewrite E, E1. set (k := _ - _). rewrite Z.lor_comm.
  pose proof (Z.add_lor_land 1 (2 * k)) as Ea.
  assert (El : Z.land 1 (2 * k) = 0).
  { rewrite Z.land_comm. change 1 with (Z.ones 1). rewrite Z.land_ones by lia.
    change (2 ^ 1) with 2. rewrite Z.mul_comm. by apply Z.mod_mul. }
  lia.
Qed.

Lemma answer_shows d :
  shows d (if dtm_done d then Z.lor (s32 (Z.shiftl (dtm_exit_code d) 1)) 1 else 0,
           WiresOut (resp_ready d) (req_valid d) (s32 (req_addr d)) (s32 (req_op d)) (s32 (req_data d))).
Proof.
  unfold shows. cbn [o_resp_ready o_req_valid o_req_addr o_req_op o_req_data].
  split_and!; try done; try apply carries_s32; destruct (dtm_done d); try done; rewrite answer_value.
  - by rewrite s32_odd, Z.odd_add, Z.odd_mul.
  - intros _. split; [apply carries_s32|]. pose proof (s32_range (2 * dtm_exit_code d + 1)).
    rewrite Z.shiftr_div_pow2 by lia. change (2 ^ 1) with 2.
    split; [intros; divlia|]. intros Hc. rewrite s32_small by lia. divlia.
Qed.

Lemma debug_ticks_made ins d info :
  exists l, debug_ticks ins (Sim (Some d) info) = Ret (l, Sim (Some (foldl dtm_step d ins)) info)
    /\ Forall2 shows (dtm_states d ins) l.
Proof.
  revert d. induction ins as [|i ins IH]; intros d; [by exists []; split|].
  destruct (IH (dtm_step d i)) as (l & E & Hl). cbn [debug_ticks debug_tick make_dtm sim_dtm sim_info].
  unfold debug_tick, make_dtm. cbn [sim_dtm sim_info mbind res_bind]. fold (dtm_step d i). rewrite E.
  eexists. split; [done|]. constructor; [apply answer_shows | done].
Qed.

(** C35: the first call makes the module from the cleaned command line, and the command line is cleaned
    once; every call, the first included, ticks the module once with the wires of the simulator and
    answers with the module's wires, bit for bit, and with an odd result exactly when it is done.
    The result is an [int] whose 32 bits are those of twice the exit code, plus 1: above its lowest
    bit it holds the exit code when that is at least -2^30 and less than 2^30, and no other. *)
Theorem debug_tick_session ins s args argv :
  sim_dtm s = None -> ins <> [] -> sanitize_args (sim_info s) = Ret (args, argv) ->
  let d0 := dtm_t (str "htif" :: args) in
  exists l, debug_ticks ins s = Ret (l, Sim (Some (foldl dtm_step d0 ins)) (Some argv))
    /\ Forall2 shows (dtm_states d0 ins) l.
Proof.
  intros Hs Hi Ha d0. destruct (debug_ticks_made ins d0 (Some argv)) as (l & E & Hl). exists l. split; [|done].
  destruct ins as [|i ins]; [done|]. rewrite <- E. cbn [debug_ticks]. unfold debug_tick, make_dtm.
  by rewrite Hs, Ha.
Qed.
End sessions.

(** A module that counts its ticks and is done after two, with exit code 3. *)
#[export] Instance count_dtm : Dtm Z := {
  dtm_t args := Z.of_nat (length args);
  dtm_tick _ _ _ t := t + 1;
  resp_ready _ := true;
  req_valid t := Z.even t;
  req_addr t := t;
  req_op _ := 1;
  req_data t := 2 * t;
  dtm_done t := 4 <? t;
  dtm_exit_code _ := 3
}.

Definition ex_argv : list (list Z) :=
  (fun s => str s ++ [0]) <$>
  ["++a.elf"; "+permissive"; "+verbose"; "+permissive-off"; "+x"; "+permissive"; "++seed"].

Lemma sanitize_args_cleans_witness : exists bufs',
  sanitize_args (Some (str "sim" :: ex_argv)) = Ret ([str "a.elf"; str "+x"], str "sim" :: bufs').
Proof.
  destruct (sanitize_args_cleans
    [Segment [str "++a.elf"] [str "+verbose"] (str "+permissive-off")] [str "+x"]
    [str "+permissive"; str "++seed"] (str "sim") ex_argv) as (bufs' & E & _).
  - repeat constructor; apply (bool_decide_unpack _); by vm_compute.
  - apply (bool_decide_unpack _); by vm_compute.
  - right. exists [str "++seed"]. split; [done|]. repeat constructor. apply (bool_decide_unpack _); by vm_compute.
  - repeat constructor; apply (bool_decide_unpack _); by vm_compute.
  - repeat constructor; by exists [].
  - by exists bufs'.
Defined.

Definition idle_wires : wires_in := WiresIn true false 0 0.

Lemma debug_tick_session_witness : exists argv l,
  debug_ticks [idle_wires; idle_wires] (Sim None (Some (str "sim" :: ex_argv))) = Ret (l, Sim (Some 5) (Some argv))
  /\ Forall2 shows [4; 5] l.
Proof.
  assert (E : exists argv, sanitize_args (Some (str "sim" :: ex_argv)) = Ret ([str "a.elf"; str "+x"], argv))
    by (eexists; vm_compute; reflexivity).
  destruct E as [argv E]. exists argv.
  destruct (debug_tick_session (T := Z) [idle_wires; idle_wires] (Sim None (Some (str "sim" :: ex_argv)))
    [str "a.elf"; str "+x"] argv) as (l & Hl & Hf); [done | done | exact E |]. exists l. split; [exact Hl | exact Hf].
Defined.
