(* ===== verification/TestBench.v ===== *)
(** The simulation test bench ([tb/ariane_tb.cpp], built without wave traces): its command line, the
    preloading of a program, and the loop that clocks the model of the hardware until the program,
    the debugger or the host ends it. The model, the host's transport, [getopt_long] and the options
    of the host are parameters. *)
From S2P Require Import Prelude Elf.

(** * Numbers on the command line *)

Definition is_space (c : Z) : bool := (c =? 32) || ((9 <=? c) && (c <=? 13)).
Definition is_digit (c : Z) : bool := (48 <=? c) && (c <=? 57).

Fixpoint digits (acc : Z) (s : list Z) : Z :=
  match s with
  | [] => acc
  | c :: s => if is_digit c then digits (10 * acc + (c - 48)) s else acc
  end.

(** [strtol] to base 10: blanks, a sign, digits. *)
Fixpoint number (s : list Z) : Z :=
  match s with
  | [] => 0
  | c :: s =>
      if is_space c then number s
      else if c =? code "-" then - digits 0 s
      else if c =? code "+" then digits 0 s
      else digits 0 (c :: s)
  end.

(** [atoi] and [atoll]: a number out of range is undefined. *)
Definition ato (w : Z) (s : list Z) : res Z :=
  if (- 2 ^ (w - 1) <=? number s) && (number s <? 2 ^ (w - 1)) then Ret (number s) else Crash.
Definition atoi : list Z -> res Z := ato 32.
Definition atoll : list Z -> res Z := ato 64.

(** * The command line *)

(** The state of [getopt_long], and the options of the host. *)
Class Getopt (G : Type) := {
  getopt_long : G -> Z * G;
  optarg : G -> list Z;
  optind : G -> Z;
  back : G -> G                       (* [optind--] *)
}.
Class Htif := {
  htif_long_options : list (list Z);  (* names *)
  HTIF_LONG_OPTIONS_OPTIND : Z
}.

(** The array is not ended by a null pointer. *)
Definition verilog_plusargs : list (list Z) :=
  str <$> ["jtag_rbb_enable"; "time_out"; "debug_disable"].

Record opts := Opts {
  verbose : bool; perf : bool; random_seed : Z; max_cycles : Z; print_cycles : bool; rbb_port : Z;
  verilog_plusargs_legal : bool
}.

Definition set_legal (b : bool) (o : opts) : opts :=
  Opts (verbose o) (perf o) (random_seed o) (max_cycles o) (print_cycles o) (rbb_port o) b.

(** How a turn of the loop over options ends: with the next turn, at the label [done_processing], or
    with a return from [main]. *)
Inductive next := Again (o : opts) | Processed (o : opts) | Exit (ret : Z).

(** [arg.substr (k, strlen (p)) == p] *)
Definition substr_is (k : nat) (p arg : list Z) : bool := bool_decide (take (length p) (drop k arg) = p).

(** The loop over [verilog_plusargs]: a turn reads the element it has come to before it looks whether
    the one before has matched, so that a match of the last element does not stop it in time. *)
Fixpoint legal_plusarg (arg : list Z) (legal : bool) (l : list (list Z)) : res bool :=
  match l with
  | [] => Crash
  | p :: l => if legal then Ret true else legal_plusarg arg (substr_is 1 p arg) l
  end.

(** The switch; [goto retry] is a call with the new character, [fuel] bounds them: two are enough. *)
Section switch.
Context `{!Htif}.

Fixpoint switch (fuel : nat) (c : Z) (optarg : list Z) (o : opts) : option (res next) :=
  match fuel with
  | O => None
  | S fuel =>
      let '(Opts v p r m n b l) := o in
      if c =? code "?" then Some (Ret (Exit 1))
      else if c =? code "c" then Some (Ret (Again (Opts v p r m true b l)))
      else if c =? code "h" then Some (Ret (Exit 0))
      else if c =? code "m" then Some (k ← atoll optarg; Ret (Again (Opts v p r (u64 k) n b l)))
      else if c =? code "s" then Some (k ← atoi optarg; Ret (Again (Opts v p (u32 k) m n b l)))
      else if c =? code "r" then Some (k ← atoi optarg; Ret (Again (Opts v p r m n (u16 k) l)))
      else if c =? code "V" then Some (Ret (Again (Opts true p r m n b l)))
      else if c =? code "p" then Some (Ret (Again (Opts v true r m n b l)))
      else if c =? 1 then
        if negb (bool_decide (take 1 optarg = str "+")) then Some (Ret (Processed o))
        else if bool_decide (optarg = str "+verbose") then switch fuel (code "V") optarg o
        else if substr_is 0 (str "+max-cycles=") optarg then switch fuel (code "m") (drop 12 optarg) o
        else if substr_is 0 (str "+cycle-count") optarg then switch fuel (code "c") optarg o
        else if l then
          match legal_plusarg optarg false verilog_plusargs with
          | Ret true => switch fuel (code "P") optarg o
          | Ret false => switch fuel c optarg (set_legal false o)
          | Abort => Some Abort
          | Crash => Some Crash
          end
        else if existsb (fun h => substr_is 1 h optarg) htif_long_options then Some (Ret (Processed o))
        else switch fuel (code "?") optarg o
      else if c =? code "P" then Some (Ret (Again o))
      else if HTIF_LONG_OPTIONS_OPTIND <=? c then Some (Ret (Processed o))
      else switch fuel (code "?") optarg o
  end.

(** The loop over options: the state of [getopt_long] at [done_processing], or a return. *)
Fixpoint options `{!Getopt G} (fuel : nat) (g : G) (o : opts) : option (res (G * opts + Z)) :=
  match fuel with
  | O => None
  | S fuel =>
      let '(c, g) := getopt_long g in
      if c =? -1 then Some (Ret (inl (g, o)))
      else
        match switch 2 c (optarg g) o with
        | Some (Ret (Again o)) => options fuel g o
        | Some (Ret (Processed o)) => Some (Ret (inl (back g, o)))
        | Some (Ret (Exit r)) => Some (Ret (inr r))
        | Some Abort => Some Abort
        | Some Crash => Some Crash
        | None => None
        end
  end.
End switch.

(** * The simulation *)

(** The pins the test bench drives. *)
Record pins := Pins { rst_ni : Z; clk_i : Z; rtc_i : Z }.

(** The model with all it calls, the host's transport and the bit-bang server included. The function
    that copies a section, of those the loader holds, into the model's memory is defined outside of the
    repository. *)
Class Harness (E : Type) := {
  eval : pins -> E -> E;
  exit_o : E -> Z;
  dtm_done : E -> bool;
  dtm_exit_code : E -> Z;
  jtag_done : E -> bool;
  jtag_exit_code : E -> Z;
  read_section_void : Z -> Z -> gmap Z (list Z) -> E -> E
}.

Record tb (E : Type) := Tb { tb_pins : pins; tb_env : E; main_time : Z }.
Arguments Tb {E} _ _ _.
Arguments tb_pins {E} _.
Arguments tb_env {E} _.
Arguments main_time {E} _.

Section simulation.
Context `{!Harness E}.

(** Assignments to pins, each followed by [eval]. *)
Definition drive (p : pins) (s : tb E) : tb E := Tb p (eval p (tb_env s)) (main_time s).
Definition set_pins (p : pins) (s : tb E) : tb E := Tb p (tb_env s) (main_time s).
Definition set_env (e : E) (s : tb E) : tb E := Tb (tb_pins s) e (main_time s).
Definition pass (s : tb E) : tb E := Tb (tb_pins s) (tb_env s) (u64 (main_time s + 1)).

Definition reset_cycle (s : tb E) : tb E := pass (drive (Pins 0 1 0) (drive (Pins 0 0 0) s)).

Definition release_reset (s : tb E) : tb E :=
  let '(Pins _ c r) := tb_pins s in set_pins (Pins 1 c r) s.

Definition mem_size : Z := 0xFFFFFF.

(** The loop that preloads memory; [fuel] bounds its turns. *)
Fixpoint preload (fuel : nat) (l : loader) (s : tb E) : option (loader * tb E) :=
  match fuel with
  | O => None
  | S fuel =>
      match get_section l with
      | (None, l) => Some (l, s)
      | (Some (addr, len), l) =>
          preload fuel l
            (if addr =? 0x80000000 then set_env (read_section_void addr mem_size (mems l) (tb_env s)) s else s)
      end
  end.

Definition clock_cycle (s : tb E) : tb E :=
  let '(Pins r _ t) := tb_pins s in
  let s := drive (Pins r 1 t) (drive (Pins r 0 t) s) in
  pass (if main_time s mod 2 =? 0 then set_pins (Pins r 1 (Z.lxor t 1)) s else s).

Definition finished (e : E) : bool := dtm_done e || jtag_done e || negb (Z.land (exit_o e) 0x1 =? 0).

Fixpoint clock (fuel : nat) (s : tb E) : option (tb E) :=
  match fuel with
  | O => None
  | S fuel => if finished (tb_env s) then Some s else clock fuel (clock_cycle s)
  end.

(** The result of [main]. *)
Definition exit_status (e : E) : Z :=
  if negb (dtm_exit_code e =? 0) then dtm_exit_code e
  else if negb (jtag_exit_code e =? 0) then jtag_exit_code e
  else if negb (Z.land (exit_o e) 0xFFFFFFFE =? 0) then Z.shiftr (exit_o e) 1
  else 0.

(** [main] from the construction of the model on. *)
Definition simulate (fuel : nat) (l : loader) (e : E) : option (Z * tb E) :=
  let s := Nat.iter 10 reset_cycle (Tb (Pins 0 0 0) e 0) in
  '(_, s) ← preload fuel l (release_reset s);
  s ← clock fuel s;
  Some (exit_status (tb_env s), s).
End simulation.

(** [main]: the variables [verbose] and [perf] are not initialised, and start with the values
    [verbose0] and [perf0] they happen to have, which nothing but a report depends on; [start] makes the bit-bang server, on the port, and the transport, from the host's
    arguments, and [open] the file to load. *)
Section main.
Context `{!Htif, !Getopt G, !Fesvr, !Harness E}.
Context (start : Z -> list (list Z) -> E) (open : list Z -> option (list Z)).

Definition main (fuel : nat) (verbose0 perf0 : bool) (argv : list (list Z)) (seed : Z) (g : G)
    : option (res Z) :=
  let o := Opts verbose0 perf0 seed (2 ^ 64 - 1) false 0 true in
  match options fuel g o with
  | None => None
  | Some Abort => Some Abort
  | Some Crash => Some Crash
  | Some (Ret (inr r)) => Some (Ret r)
  | Some (Ret (inl (g, o))) =>
      if optind g =? Z.of_nat (length argv) then Some (Ret 1)
      else
        let htif_argv := take 1 argv ++ drop (Z.to_nat (optind g)) argv in
        let e := start (rbb_port o) htif_argv in
        match htif_argv !! 1%nat with
        | None => Some Crash
        | Some file =>
            match read_elf (open file) (Loader [] ∅ 0 0) with
            | Abort => Some Abort
            | Crash => Some Crash
            | Ret l => '(r, s) ← simulate fuel l e; Some (Ret r)
            end
        end
  end.
End main.

(** * The command line, once more *)

Section command_line.
Context `{!Htif}.

(** No plus argument that reaches the loop over [verilog_plusargs] is found wanting: either an element
    before the last matches, or the loop runs over the end of the array. *)
Lemma legal_plusarg_cases arg b l : legal_plusarg arg b l = Ret true \/ legal_plusarg arg b l = Crash.
Proof. revert b. induction l as [|p l IH]; intros b; cbn; [auto|]. by destruct b; [left|]. Qed.

Lemma legal_plusarg_spec arg l p :
  legal_plusarg arg false (l ++ [p])
  = if existsb (fun q => substr_is 1 q arg) l then Ret true else Crash.
Proof.
  induction l as [|q l IH]; [done|]. cbn [app legal_plusarg existsb].
  destruct (substr_is 1 q arg); [by destruct l | exact IH].
Qed.

Lemma switch_question fuel arg o : switch (S fuel) (code "?") arg o = Some (Ret (Exit 1)).
Proof. by destruct o. Qed.

(** The characters [goto retry] is taken with end the turn. *)
Lemma switch_direct fuel c arg o :
  c ∈ [code "V"; code "m"; code "c"; code "P"; code "?"] -> switch (S fuel) c arg o <> None.
Proof.
  rewrite !elem_of_cons, elem_of_nil. destruct o.
  intros [-> | [-> | [-> | [-> | [-> | []]]]]]; by cbn.
Qed.

(** The switch takes [goto retry] once at most. *)
Lemma switch_total fuel c arg o : switch (S (S fuel)) c arg o <> None.
Proof.
  assert (Hd : forall c arg o, c ∈ [code "V"; code "m"; code "c"; code "P"; code "?"] ->
    switch (S fuel) c arg o <> None) by (intros; by apply switch_direct).
  remember (S fuel) as f eqn:Ef. cbn [switch]. destruct o as [v p r m n b l].
  repeat (case_match; [first [done | apply Hd; set_solver]|]).
  repeat case_match; try first [done | apply Hd; set_solver].
  destruct (legal_plusarg_cases arg false verilog_plusargs); congruence.
Qed.
End command_line.

(** * The simulation, once more *)

Section simulation_facts.
Context `{!Harness E}.

(** What the model sees: its pins at each [eval]. *)
Definition evals (ps : list pins) (e : E) : E := foldl (fun e p => eval p e) e ps.

Definition reset_pins : list pins := concat (replicate 10 [Pins 0 0 0; Pins 0 1 0]).

(** The real-time clock in cycle [k] after reset: it has half the frequency of half the clock. *)
Definition rtc (k : nat) : Z := (Z.of_nat k + 1) / 2 mod 2.
Definition cycle_pins (k : nat) : list pins := [Pins 1 0 (rtc k); Pins 1 1 (rtc k)].

(** Memory after preloading: the sections at 0x80000000, in order. *)
Definition preloaded (l : loader) (e : E) : E :=
  foldl (fun e x => if fst x =? 0x80000000 then read_section_void (fst x) mem_size (mems l) e else e)
        e (drop (Z.to_nat (section_index l)) (sections l)).

(** The model after reset, preloading and [k] cycles. *)
Definition env_at (l : loader) (e : E) (k : nat) : E :=
  evals (concat (cycle_pins <$> seq 0 k)) (preloaded l (evals reset_pins e)).

Lemma reset_ten e :
  Nat.iter 10 reset_cycle (Tb (Pins 0 0 0) e 0) = Tb (Pins 0 1 0) (evals reset_pins e) 10.
Proof. reflexivity. Qed.

Lemma preload_runs fuel l s :
  0 <= section_index l -> (length (sections l) - Z.to_nat (section_index l) < fuel)%nat ->
  exists l', preload fuel l s = Some (l', set_env (preloaded l (tb_env s)) s).
Proof.
  revert l s. induction fuel as [|fuel IH]; intros l s H0 Hf; [lia|].
  cbn [preload]. unfold get_section, preloaded.
  destruct (sections l !! Z.to_nat (section_index l)) as [[a n]|] eqn:E1.
  - rewrite (drop_S _ _ _ E1). cbn [foldl fst].
    set (s' := if a =? 0x80000000 then _ else _).
    set (l1 := Loader (sections l) (mems l) (entry l) (section_index l + 1)).
    apply lookup_lt_Some in E1. destruct (IH l1 s') as [l' Hl']; [cbn; lia | cbn; lia |].
    exists l'. rewrite Hl'. f_equal. f_equal. unfold preloaded. cbn [section_index sections mems l1].
    replace (Z.to_nat (section_index l + 1)) with (S (Z.to_nat (section_index l))) by lia.
    unfold s'. by destruct (a =? 0x80000000).
  - exists l. apply lookup_ge_None in E1. rewrite drop_ge by done. cbn. by destruct s.
Qed.

Lemma rtc_S k : rtc (S k) = if (10 + Z.of_nat k) mod 2 =? 0 then Z.lxor (rtc k) 1 else rtc k.
Proof.
  unfold rtc. destruct (Z.Even_or_Odd (Z.of_nat k)) as [[j Hj]|[j Hj]].
  - replace ((10 + Z.of_nat k) mod 2) with 0 by (rewrite Hj; Z.to_euclidean_division_equations; lia).
    cbn. replace ((Z.of_nat (S k) + 1) / 2) with (j + 1) by (Z.to_euclidean_division_equations; lia).
    replace ((Z.of_nat k + 1) / 2) with j by (Z.to_euclidean_division_equations; lia).
    destruct (Z.Even_or_Odd j) as [[i Hi]|[i Hi]].
    + replace (j mod 2) with 0 by (Z.to_euclidean_division_equations; lia).
      replace ((j + 1) mod 2) with 1 by (Z.to_euclidean_division_equations; lia). done.
    + replace (j mod 2) with 1 by (Z.to_euclidean_division_equations; lia).
      replace ((j + 1) mod 2) with 0 by (Z.to_euclidean_division_equations; lia). done.
  - replace ((10 + Z.of_nat k) mod 2) with 1 by (rewrite Hj; Z.to_euclidean_division_equations; lia).
    cbn. f_equal. Z.to_euclidean_division_equations; lia.
Qed.

(** The state of the test bench [k] cycles after reset. *)
Definition tb_at (l : loader) (e : E) (k : nat) : tb E :=
  Tb (Pins 1 1 (rtc k)) (env_at l e k) (u64 (10 + Z.of_nat k)).

Lemma clock_cycle_at l e k : clock_cycle (tb_at l e k) = tb_at l e (S k).
Proof.
  unfold clock_cycle, tb_at, drive, pass, set_pins. cbn [tb_pins tb_env main_time].
  assert (Em : u64 (10 + Z.of_nat k) mod 2 = (10 + Z.of_nat k) mod 2).
  { apply Z.mod_mod_divide. by exists (2 ^ 63). }
  assert (Et : u64 (u64 (10 + Z.of_nat k) + 1) = u64 (10 + Z.of_nat (S k))).
  { unfold u64. rewrite Zplus_mod_idemp_l. f_equal. lia. }
  assert (Ee : eval (Pins 1 1 (rtc k)) (eval (Pins 1 0 (rtc k)) (env_at l e k)) = env_at l e (S k)).
  { unfold env_at. rewrite seq_S, fmap_app, concat_app. unfold evals. by rewrite foldl_app. }
  rewrite Em, rtc_S. destruct ((10 + Z.of_nat k) mod 2 =? 0); cbn [tb_pins tb_env main_time];
    by rewrite Et, Ee.
Qed.

Lemma clock_runs l e j k fuel :
  (forall i, (j <= i < k)%nat -> finished (env_at l e i) = false) -> (j <= k)%nat ->
  finished (env_at l e k) = true -> (k - j < fuel)%nat -> clock fuel (tb_at l e j) = Some (tb_at l e k).
Proof.
  revert j. induction fuel as [|fuel IH]; intros j Hn Hj Hk Hf; [lia|]. cbn [clock tb_env tb_at].
  destruct (decide (j = k)) as [->|]; [by rewrite Hk|].
  rewrite Hn by lia. change (Tb _ _ _) with (tb_at l e j). rewrite clock_cycle_at.
  apply IH; [intros; apply Hn; lia | lia | done | lia].
Qed.

Lemma clock_spins l e j fuel :
  (forall i, finished (env_at l e i) = false) -> clock fuel (tb_at l e j) = None.
Proof.
  intros Hn. revert j. induction fuel as [|fuel IH]; intros j; [done|]. cbn [clock tb_env tb_at].
  rewrite Hn. change (Tb _ _ _) with (tb_at l e j). by rewrite clock_cycle_at.
Qed.

Lemma simulate_unfold fuel l e :
  0 <= section_index l -> (length (sections l) - Z.to_nat (section_index l) < fuel)%nat ->
  simulate fuel l e = (s ← clock fuel (tb_at l e 0); Some (exit_status (tb_env s), s)).
Proof.
  intros H0 Hf. unfold simulate. rewrite reset_ten.
  destruct (preload_runs fuel l (release_reset (Tb (Pins 0 1 0) (evals reset_pins e) 10)) H0 Hf) as [l' E1].
  rewrite E1. reflexivity.
Qed.

Lemma preload_short fuel l s :
  0 <= section_index l -> (fuel <= length (sections l) - Z.to_nat (section_index l))%nat ->
  preload fuel l s = None.
Proof.
  revert l s. induction fuel as [|fuel IH]; intros l s H0 Hf; [done|]. cbn [preload]. unfold get_section.
  destruct (lookup_lt_is_Some_2 (sections l) (Z.to_nat (section_index l))) as [[a n] E1]; [lia|].
  rewrite E1. apply IH; cbn; lia.
Qed.

Lemma simulate_spins fuel l e :
  0 <= section_index l -> (forall i, finished (env_at l e i) = false) -> simulate fuel l e = None.
Proof.
  intros H0 Hn. destruct (decide (fuel <= length (sections l) - Z.to_nat (section_index l))%nat).
  - unfold simulate. by rewrite preload_short.
  - rewrite simulate_unfold by lia. by rewrite clock_spins.
Qed.

(** The host or the debugger is done, or the program has set the lowest bit of its output. *)
Definition ended (e : E) : Prop := dtm_done e = true \/ jtag_done e = true \/ Z.odd (exit_o e) = true.

Lemma finished_ended e : finished e = true <-> ended e.
Proof.
  unfold finished, ended. change 0x1 with (Z.ones 1). rewrite Z.land_ones by lia. change (2 ^ 1) with 2.
  rewrite Zmod_odd. destruct (dtm_done e), (jtag_done e), (Z.odd (exit_o e)); cbn; intuition congruence.
Qed.

Lemma not_ended e : ~ ended e -> finished e = false.
Proof. rewrite <- finished_ended. by destruct (finished e). Qed.

(** The first cycle after which the loop ends. *)
Definition ends_after (l : loader) (e : E) (k : nat) : Prop :=
  ended (env_at l e k) /\ forall i, (i < k)%nat -> ~ ended (env_at l e i).

Lemma simulate_ends fuel l e k :
  0 <= section_index l -> ends_after l e k -> (k + length (sections l) < fuel)%nat ->
  simulate fuel l e = Some (exit_status (env_at l e k), tb_at l e k).
Proof.
  intros H0 [Hk Hn] Hf. rewrite simulate_unfold by lia.
  rewrite (clock_runs l e 0 k) by (by apply finished_ended || lia || (intros; apply not_ended, Hn; lia)). done.
Qed.

(** The value the program has written, without the bit that ends the simulation. *)
Lemma program_code z : 0 <= z < 2 ^ 32 -> (Z.land z 0xFFFFFFFE = 0 <-> Z.shiftr z 1 = 0).
Proof.
  intros Hz. assert (E1 : Z.land z 0xFFFFFFFE = Z.shiftl (Z.shiftr z 1) 1).
  { change 0xFFFFFFFE with (Z.shiftl (Z.ones 31) 1). apply Z.bits_inj'. intros n Hn.
    rewrite Z.land_spec, !Z.shiftl_spec by lia. destruct (Z.eq_dec n 0) as [->|]; [by rewrite andb_false_r|].
    rewrite Z.shiftr_spec by lia. replace (n - 1 + 1) with n by lia.
    destruct (Z.lt_ge_cases n 32); [rewrite Z.ones_spec_low by lia; apply andb_true_r|].
    assert (E1 : Z.testbit z n = false); [|by rewrite E1].
    apply Z.testbit_false; [lia|]. rewrite Z.div_small; [done|].
    split; [lia|]. apply (Z.lt_le_trans _ (2 ^ 32)); [lia|]. apply Z.pow_le_mono_r; lia. }
  rewrite E1, Z.shiftl_mul_pow2 by lia. lia.
Qed.

(** What is reported: the first of the three that is not 0. *)
Definition reported (e : E) (r : Z) : Prop :=
  (dtm_exit_code e <> 0 /\ r = dtm_exit_code e)
  \/ (dtm_exit_code e = 0 /\ jtag_exit_code e <> 0 /\ r = jtag_exit_code e)
  \/ (dtm_exit_code e = 0 /\ jtag_exit_code e = 0 /\ r = exit_o e / 2).

Lemma exit_status_reported e : 0 <= exit_o e < 2 ^ 32 -> reported e (exit_status e).
Proof.
  intros He. pose proof (program_code (exit_o e) He) as Hp. unfold reported, exit_status.
  rewrite Z.shiftr_div_pow2 in * by lia. change (2 ^ 1) with 2 in *.
  destruct (Z.eqb_spec (dtm_exit_code e) 0); cbn [negb]; [|tauto].
  destruct (Z.eqb_spec (jtag_exit_code e) 0); cbn [negb]; [|tauto].
  destruct (Z.eqb_spec (Z.land (exit_o e) 0xFFFFFFFE) 0) as [E0|]; cbn [negb]; [|tauto].
  rewrite (proj1 Hp E0). tauto.
Qed.
End simulation_facts.

(** * Theorems *)

(** C37: a plus argument of the simulator that is none of the emulator's own is taken when it starts
    with one of the names of the array but the last, and the next option is read; any other, and
    one that starts with the last name too, sends the search over the end of the array. (This is so
    while [verilog_plusargs_legal] has the value it starts with; only a search that finds nothing
    would change it.) No argument makes the switch run for ever. *)
Theorem unknown_plus_argument `{!Htif} arg o :
  take 1 arg = str "+" -> arg <> str "+verbose" ->
  substr_is 0 (str "+max-cycles=") arg = false -> substr_is 0 (str "+cycle-count") arg = false ->
  verilog_plusargs_legal o = true ->
  switch 2 1 arg o = Some (if substr_is 1 (str "jtag_rbb_enable") arg || substr_is 1 (str "time_out") arg
                           then Ret (Again o) else Crash)
  /\ forall c arg' o', switch 2 c arg' o' <> None.
Proof.
  intros H1 H2 H3 H4 Hl. split; [|intros; apply switch_total].
  cbn [switch]. destruct o as [v p r m n b l]. cbn in Hl. subst l.
  rewrite (bool_decide_true (take 1 arg = _)), (bool_decide_false (arg = _)), H3, H4 by done.
  change verilog_plusargs with ([str "jtag_rbb_enable"; str "time_out"] ++ [str "debug_disable"]).
  rewrite legal_plusarg_spec. cbn [existsb]. rewrite orb_false_r. cbn.
  by destruct (_ || _).
Qed.

(** C36: when the command line names a file that loads, the model sees ten cycles of reset with the
    real-time clock at rest, then its memory with the sections at 0x80000000, then clock cycles, with
    the real-time clock at a quarter of their frequency. If after some cycle the program, the
    debugger or the host has ended the simulation, [main] returns what they report after the first
    such cycle: the host's exit code when it is not 0, else the debugger's when that is not 0, else the
    program's output, a word of 32 bits, without its lowest bit. Otherwise it never returns, whatever the limit of
    cycles on the command line. *)
Theorem test_bench_result `{!Htif, !Getopt G, !Fesvr, !Harness E} (start : Z -> list (list Z) -> E) open
    n0 argv verbose0 perf0 seed g g' o i file l :
  (forall n, (n0 <= n)%nat ->
     options n g (Opts verbose0 perf0 seed (2 ^ 64 - 1) false 0 true) = Some (Ret (inl (g', o)))) ->
  optind g' = Z.of_nat i -> (1 <= i)%nat -> argv !! i = Some file ->
  read_elf (open file) (Loader [] ∅ 0 0) = Ret l ->
  let e := start (rbb_port o) (take 1 argv ++ drop i argv) in
  (forall k, ends_after l e k -> 0 <= exit_o (env_at l e k) < 2 ^ 32 ->
     exists n1 r, reported (env_at l e k) r
       /\ forall n, (n1 <= n)%nat -> main start open n verbose0 perf0 argv seed g = Some (Ret r))
  /\ ((forall k, ~ ended (env_at l e k)) ->
      forall n, (n0 <= n)%nat -> main start open n verbose0 perf0 argv seed g = None).
Proof.
  intros Ho Hi H1 Hfile Hl e.
  assert (Hix : 0 <= section_index l).
  { destruct (open file) as [buf|]; [|done]. apply read_elf_extends in Hl as [Hx _ _ _]. by rewrite Hx. }
  assert (Em : forall n, (n0 <= n)%nat ->
    main start open n verbose0 perf0 argv seed g = ('(r, s) ← simulate n l e; Some (Ret r))).
  { intros n Hn. unfold main. rewrite Ho by done. apply lookup_lt_Some in Hfile as Hlt.
    destruct (Z.eqb_spec (optind g') (Z.of_nat (length argv))); [lia|].
    rewrite Hi, Nat2Z.id. rewrite lookup_app_r by (rewrite length_take; lia).
    rewrite length_take, lookup_drop. replace (i + (1 - 1 `min` length argv))%nat with i by lia.
    by rewrite Hfile, Hl. }
  split.
  - intros k Hk He. exists (n0 + S (k + length (sections l)))%nat, (exit_status (env_at l e k)).
    split; [by apply exit_status_reported|].
    intros n Hn. rewrite Em by lia. by rewrite (simulate_ends n l e k) by (done || lia).
  - intros Hn n Hle. rewrite Em by done. rewrite simulate_spins; [done..|]. intros j. by apply not_ended.
Qed.

(** A model that ends after three cycles with the program's code 21, and options from a list. *)
Record toy := Toy { toy_evals : Z; toy_mem : list Z }.

#[export] Instance toy_harness : Harness toy := {
  eval p t := Toy (toy_evals t + clk_i p * rst_ni p) (toy_mem t);
  exit_o t := if 3 <=? toy_evals t then 43 else 0;
  dtm_done _ := false; dtm_exit_code _ := 0;
  jtag_done _ := false; jtag_exit_code _ := 0;
  read_section_void a n m t := Toy (toy_evals t) (default [] (m !! a))
}.

#[export] Instance toy_htif : Htif := {| htif_long_options := []; HTIF_LONG_OPTIONS_OPTIND := 1024 |}.

(** The answers to come, with their arguments; the argument of the last one; and the index. *)
#[export] Instance toy_getopt : Getopt (list (Z * list Z) * list Z * Z) := {
  getopt_long g :=
    let '(l, a, i) := g in
    match l with [] => (-1, g) | (c, a) :: l => (c, (l, a, i + 1)) end;
  optarg g := snd (fst g);
  optind g := snd g;
  back g := (fst g, snd g - 1)
}.

Definition toy_start (port : Z) (args : list (list Z)) : toy := Toy 0 [].
Definition toy_argv : list (list Z) := [str "sim"; str "+verbose"; str "a.elf"].

(** The answers to +verbose and to the name of the file. *)
Definition toy_answers : list (Z * list Z) * list Z * Z := ([(1, str "+verbose"); (1, str "a.elf")], [], 1).

Lemma unknown_plus_argument_witness :
  let o := Opts false false 5 (2 ^ 64 - 1) false 0 true in
  switch 2 1 (str "+trace") o = Some Crash
  /\ switch 2 1 (str "+debug_disable") o = Some Crash
  /\ switch 2 1 (str "+time_out=5") o = Some (Ret (Again o)).
Proof.
  intros o. split; [|split].
  - by apply (unknown_plus_argument (str "+trace") o).
  - by apply (unknown_plus_argument (str "+debug_disable") o).
  - by apply (unknown_plus_argument (str "+time_out=5") o).
Defined.

Lemma test_bench_result_witness : exists n1, forall n, (n1 <= n)%nat ->
  main toy_start (fun _ => Some (ex_elf 4)) n true false toy_argv 5 toy_answers = Some (Ret 21).
Proof.
  destruct (test_bench_result toy_start (fun _ => Some (ex_elf 4)) 2 toy_argv true false 5 toy_answers
    ([], str "a.elf", 2) (Opts true false 5 (2 ^ 64 - 1) false 0 true) 2 (str "a.elf")
    (Loader [(0x80000000, 8)] {[0x80000000 := str "code"]} 0x80000000 0)) as [H _].
  - intros [|[|n]] Hn; [lia | lia | done].
  - done.
  - lia.
  - done.
  - exact ex_elf_loads.
  - destruct (H 3%nat) as (n1 & r & Hr & Hm).
    + split; [by right; right|]. intros [|[|[|k]]] Hk; [by intros [|[]].. | lia].
    + done.
    + exists n1. destruct Hr as [[Hd _]|[(_ & Hj & _)|(_ & _ & ->)]]; [done..|exact Hm].
Defined.
