(* ===== verification/TbTop.v ===== *)
(** The Verilator test bench of the debug system ([riscv-dbg/tb/tb_top_verilator.cpp], built without
    wave traces): it dumps the memory of the model to a file and clocks the model until the design
    calls [$finish]. The model, with the function it exports, and the file are parameters. *)
From S2P Require Import Prelude.

(** * The environment *)

(** [top->eval ()] on the input pins; [read_byte], which returns 32 bits. *)
Class Verilated (V : Type) := {
  eval : bool -> bool -> bool -> V -> V;
  gotFinish : V -> bool;
  read_byte : Z -> V -> Z
}.

(** Which operation on the file fails first, if any: its opening, the line of an index, its closing. *)
Inductive file_fault := NoFault | OpenFails | LineFails (i : Z) | CloseFails.

(** * The memory dump *)

Definition hex_digit (d : Z) : Z := if d <? 10 then 48 + d else 87 + d.

(** The digits of an unsigned number to base 16, [n] at most. *)
Fixpoint hex (n : nat) (v : Z) (acc : list Z) : list Z :=
  match n with
  | O => acc
  | S n =>
      let acc := hex_digit (v mod 16) :: acc in
      if v / 16 =? 0 then acc else hex n (v / 16) acc
  end.

(** [setfill('0')], [setw(2)]. *)
Definition set_width (l : list Z) : list Z := replicate (2 - length l) 48 ++ l.

Definition dump_line (v : Z) : list Z := set_width (hex 8 (u32 v) []) ++ [10].

Definition MEMORY : Z := 1048576.

Inductive message := Finished | FileError.

Section bench.
Context `{!Verilated V}.

Definition dump_lines (n : Z) (m : V) : list Z := concat ((fun i => dump_line (read_byte i m)) <$> seqZ 0 n).

(** The contents of the file, when it could be opened, and the message. *)
Definition dump_memory (f : file_fault) (m : V) : option (list Z) * message :=
  match f with
  | NoFault => (Some (dump_lines MEMORY m), Finished)
  | OpenFails => (None, FileError)
  | LineFails i => (Some (dump_lines i m), FileError)
  | CloseFails => (Some (dump_lines MEMORY m), FileError)
  end.

(** * The clock *)

Record tb := Tb { t : Z; fetch_enable_i : bool; clk_i : bool; rst_ni : bool; top : V }.

(** One turn of the loop. *)
Definition half_cycle (s : tb) : tb :=
  let rst := if t s >? 40 then true else rst_ni s in
  let clk := negb (clk_i s) in
  Tb (u64 (t s + 5)) (fetch_enable_i s) clk rst (eval (fetch_enable_i s) clk rst (top s)).

Fixpoint run (fuel : nat) (s : tb) : option tb :=
  match fuel with
  | O => None
  | S fuel => if gotFinish (top s) then Some s else run fuel (half_cycle s)
  end.

(** [main]: the memory is dumped after one evaluation in reset; the status is 0. *)
Definition main (fuel : nat) (f : file_fault) (m : V) : option (Z * (option (list Z) * message)) :=
  let s := Tb 0 true false false (eval true false false m) in
  let dump := dump_memory f (top s) in
  _ ← run fuel s; Some (0, dump).

(** * What it does *)

(** The model after [k] evaluations in the loop: the clock starts high, and the first nine are in
    reset. *)
Fixpoint clocked (k : nat) (m : V) : V :=
  match k with
  | O => m
  | S k => eval true (Nat.even k) (9 <=? k)%nat (clocked k m)
  end.

Lemma tb_after k m :
  Nat.iter k half_cycle (Tb 0 true false false m)
  = Tb (u64 (5 * Z.of_nat k)) true (Nat.odd k) (10 <=? k)%nat (clocked k m).
Proof.
  induction k as [|k IH]; [done|]. cbn [Nat.iter]. unfold Nat.iter in *. cbn [nat_rect]. rewrite IH.
  unfold half_cycle. cbn [t fetch_enable_i clk_i rst_ni top clocked].
  assert (Er : (if u64 (5 * Z.of_nat k) >? 40 then true else (10 <=? k)%nat) = (9 <=? k)%nat).
  { destruct (Nat.leb_spec 10 k).
    - destruct (Nat.leb_spec 9 k); [by destruct (_ >? _) | lia].
    - rewrite u64_small by lia. destruct (Z.gtb_spec (5 * Z.of_nat k) 40), (Nat.leb_spec 9 k); try done; lia. }
  assert (Ec : negb (Nat.odd k) = Nat.even k) by (unfold Nat.odd; by rewrite negb_involutive).
  rewrite Er, Ec, Nat.odd_succ. f_equal.
  unfold u64. rewrite Zplus_mod_idemp_l. f_equal. lia.
Qed.

Lemma run_after j n s :
  (forall i, (i < j)%nat -> gotFinish (top (Nat.iter i half_cycle s)) = false) ->
  run (j + n) s = run n (Nat.iter j half_cycle s).
Proof.
  revert s. induction j as [|j IH]; intros s H; [done|]. cbn [Nat.add run].
  assert (E : gotFinish (top s) = false) by exact (H 0%nat ltac:(lia)). rewrite E, IH.
  - by rewrite Nat.iter_succ_r.
  - intros i Hi. rewrite <- Nat.iter_succ_r. apply (H (S i)). lia.
Qed.

Lemma dump_line_byte v : is_byte v -> dump_line v = [hex_digit (v / 16); hex_digit (v mod 16); 10].
Proof.
  intros Hv. assert (H : forallb (fun v => bool_decide (dump_line v = [hex_digit (v / 16); hex_digit (v mod 16); 10])) (seqZ 0 256) = true)
    by by vm_compute.
  rewrite forallb_forall in H. apply (bool_decide_unpack _), Is_true_true, H, list_elem_of_In, elem_of_seqZ.
  unfold is_byte in Hv. lia.
Qed.

Lemma dump_lines_at n m i :
  (forall j, is_byte (read_byte j m)) -> 0 <= i < n ->
  take 3 (drop (3 * Z.to_nat i) (dump_lines n m)) = dump_line (read_byte i m).
Proof.
  intros Hb Hi. unfold dump_lines.
  assert (H : forall l : list Z, length (concat ((fun i => dump_line (read_byte i m)) <$> l)) = (3 * length l)%nat).
  { induction l as [|x l IH]; [done|]. cbn [fmap list_fmap concat length]. rewrite length_app, IH, (dump_line_byte _ (Hb x)).
    cbn [length]. lia. }
  replace n with (i + (1 + (n - i - 1))) by lia.
  rewrite (seqZ_app 0 i), fmap_app, concat_app by lia.
  rewrite drop_app_length' by (rewrite H, length_seqZ; lia).
  rewrite (seqZ_app _ 1), fmap_app, concat_app by lia. rewrite (seqZ_cons (0 + i)) by lia.
  rewrite (seqZ_nil (Z.succ (0 + i))) by lia. cbn [fmap list_fmap concat]. rewrite app_nil_r.
  replace (0 + i) with i by lia. by rewrite (dump_line_byte _ (Hb i)).
Qed.

Lemma run_clocked j n m :
  (forall i, (i < j)%nat -> gotFinish (clocked i m) = false) ->
  run (j + n) (Tb 0 true false false m) = run n (Tb (u64 (5 * Z.of_nat j)) true (Nat.odd j) (10 <=? j)%nat (clocked j m)).
Proof. intros H. rewrite run_after; [by rewrite tb_after | intros i Hi; rewrite tb_after; by apply H]. Qed.

(** C39: [main] dumps the memory of the model in reset and clocks the model, the first nine half cycles
    in reset, however long it runs; it returns 0 after the first half cycle at whose end the
    design has finished, and never when it does not finish. The file holds a line per address: the
    two digits of its byte. *)
Theorem tb_top_session f m :
  let m0 := eval true false false m in
  (forall k, gotFinish (clocked k m0) = true -> (forall i, (i < k)%nat -> gotFinish (clocked i m0) = false) ->
     forall n, (k < n)%nat -> main n f m = Some (0, dump_memory f m0))
  /\ ((forall k, gotFinish (clocked k m0) = false) -> forall n, main n f m = None)
  /\ ((forall j, is_byte (read_byte j m0)) -> forall i, 0 <= i < MEMORY ->
       let v := read_byte i m0 in
       take 3 (drop (3 * Z.to_nat i) (dump_lines MEMORY m0)) = [hex_digit (v / 16); hex_digit (v mod 16); 10]).
Proof.
  intros m0. split_and!.
  - intros k Hk Hi n Hn. unfold main. replace n with (k + S (n - S k))%nat by lia.
    fold m0. rewrite run_clocked by done. cbn [run top]. by rewrite Hk.
  - intros Hi n. unfold main. fold m0. replace n with (n + 0)%nat by lia. by rewrite run_clocked.
  - intros Hb i Hi v. rewrite (dump_lines_at _ _ _ Hb Hi). apply dump_line_byte, Hb.
Qed.
End bench.

(** A design that finishes after its 12th half cycle out of reset, with a memory of sevens. *)
#[local] Instance counting : Verilated nat :=
  {| eval _ _ rst n := if rst then S n else 0%nat; gotFinish n := (12 <=? n)%nat; read_byte _ _ := 7 |}.

Lemma tb_top_session_witness :
  main 100 OpenFails 5%nat = Some (0, (None, FileError))
  /\ take 3 (drop (3 * Z.to_nat 2) (dump_lines MEMORY 0%nat)) = [48; 55; 10].
Proof.
  destruct (tb_top_session OpenFails 5%nat) as (H1 & _ & H3). split.
  - apply (H1 21%nat); [done | | lia]. intros i Hi.
    assert (H : forallb (fun i => negb (gotFinish (clocked i 0%nat))) (seq 0 21) = true) by by vm_compute.
    rewrite forallb_forall in H. apply negb_true_iff, H, in_seq. lia.
  - apply (H3 (fun _ => ltac:(unfold is_byte; cbn; lia)) 2). by split.
Defined.
