(* ===== verification/Syscalls.v ===== *)
(** The system calls of the debug test programs ([riscv-dbg/tb/prog/syscalls.c]): the stubs newlib
    calls, the console output, and the program break. The constants of newlib's headers and the
    symbols of the linker script are parameters. *)
From S2P Require Import Prelude Machine.

(** * What the headers and the linker give *)

Class Newlib := {
  ENOSYS : Z; ENOMEM : Z; EAGAIN : Z; EINVAL : Z; EMLINK : Z; ENOENT : Z; ECHILD : Z;
  S_IFCHR : Z;
  st_mode_offset : Z;
  heap_start : Z;
  heap_end : Z
}.

Definition STDOUT_REG : Z := 0x10000000.
Definition RESULT_REG : Z := 0x20000000.
Definition EXIT_REG : Z := 0x20000004.
Definition STDOUT_FILENO : Z := 1.

(** The variables of the library, next to the devices. *)
Record libc (D : Type) := Libc { lc_errno : Z; lc_brk : Z; lc_dev : D }.
Arguments Libc {D} _ _ _.
Arguments lc_errno {D} _.
Arguments lc_brk {D} _.
Arguments lc_dev {D} _.

Section driver.
Context `{!Bus D, !Newlib}.

#[export] Instance libc_bus : Bus (libc D) := {
  bus_ld w a d := let '(v, x) := bus_ld w a (lc_dev d) in (v, Libc (lc_errno d) (lc_brk d) x);
  bus_st w a v d := Libc (lc_errno d) (lc_brk d) (bus_st w a v (lc_dev d));
  bus_nop d := Libc (lc_errno d) (lc_brk d) (bus_nop (lc_dev d))
}.

Definition set_errno (e : Z) : M (libc D) unit := fun _ w =>
  (Val tt, World (Libc e (lc_brk (w_dev w)) (lc_dev (w_dev w))) (w_mem w) (w_tr w)).
Definition get_brk : M (libc D) Z := fun _ w => (Val (lc_brk (w_dev w)), w).
Definition set_brk (b : Z) : M (libc D) unit := fun _ w =>
  (Val tt, World (Libc (lc_errno (w_dev w)) b (lc_dev (w_dev w))) (w_mem w) (w_tr w)).

(** The characters up to the NUL, one word store each. *)
Fixpoint put_string (s : string) : M (libc D) unit :=
  match s with
  | EmptyString => mret tt
  | String c s => if code c =? 0 then mret tt else mmio_st W32 STDOUT_REG (code c) ;; put_string s
  end.

Definition unimplemented_syscall : M (libc D) unit :=
  put_string ("Unimplemented system call called!" +:+ String "010" EmptyString).

(** A stub: the arguments are ignored. *)
Definition stub (e r : Z) : M (libc D) Z := set_errno e ;; mret r.

Definition nanosleep (rqtp rmtp : Z) : M (libc D) Z := stub ENOSYS (-1).
Definition _access (file mode : Z) : M (libc D) Z := stub ENOSYS (-1).
Definition _chdir (path : Z) : M (libc D) Z := stub ENOSYS (-1).
Definition _chmod (path mode : Z) : M (libc D) Z := stub ENOSYS (-1).
Definition _chown (path owner group : Z) : M (libc D) Z := stub ENOSYS (-1).
Definition _close (file : Z) : M (libc D) Z := mret (-1).
Definition _execve (name argv env : Z) : M (libc D) Z := stub ENOMEM (-1).

(** [wfi] is shown as a [Nop]; the call returns when an interrupt is pending. *)
Definition _exit (exit_status : Z) : M (libc D) unit := mmio_st W32 EXIT_REG exit_status ;; nop.

Definition _faccessat (dirfd file mode flags : Z) : M (libc D) Z := stub ENOSYS (-1).
Definition _fork : M (libc D) Z := stub EAGAIN (-1).
Definition _fstat (file st : Z) : M (libc D) Z := store_le 4 (st + st_mode_offset) S_IFCHR ;; mret 0.
Definition _fstatat (dirfd file st flags : Z) : M (libc D) Z := stub ENOSYS (-1).
Definition _ftime (tp : Z) : M (libc D) Z := stub ENOSYS (-1).
Definition _getcwd (buf size : Z) : M (libc D) Z := stub (- ENOSYS) 0.
Definition _getpid : M (libc D) Z := mret 1.
Definition _gettimeofday (tp tzp : Z) : M (libc D) Z := stub (- ENOSYS) (-1).
Definition _isatty (file : Z) : M (libc D) Z := mret (Z.b2z (file =? STDOUT_FILENO)).
Definition _kill (pid sig : Z) : M (libc D) Z := stub EINVAL (-1).
Definition _link (old_name new_name : Z) : M (libc D) Z := stub EMLINK (-1).
Definition _lseek (file ptr dir : Z) : M (libc D) Z := mret 0.
Definition _lstat (file st : Z) : M (libc D) Z := stub ENOSYS (-1).
Definition _open (name flags mode : Z) : M (libc D) Z := mret (-1).
Definition _openat (dirfd name flags mode : Z) : M (libc D) Z := stub ENOSYS (-1).
Definition _read (file ptr len : Z) : M (libc D) Z := mret 0.
Definition _stat (file st : Z) : M (libc D) Z := store_le 4 (st + st_mode_offset) S_IFCHR ;; mret 0.
Definition _sysconf (name : Z) : M (libc D) Z := mret (-1).
Definition _times (buf : Z) : M (libc D) Z := mret (-1).
Definition _unlink (name : Z) : M (libc D) Z := stub ENOENT (-1).
Definition _utime (path times : Z) : M (libc D) Z := stub ENOSYS (-1).
Definition _wait (status : Z) : M (libc D) Z := stub ECHILD (-1).

(** [char] is unsigned on RISC-V. *)
Definition _write (file ptr len : Z) : M (libc D) Z :=
  if negb (file =? STDOUT_FILENO) then set_errno ENOSYS ;; mret (-1) else
  for_in (below len) (fun i => c ← load8 (ptr + i); mmio_st W32 STDOUT_REG c) ;;
  mret len.

Definition _brk (addr : Z) : M (libc D) Z := set_brk addr ;; mret 0.

(** The comparison of the source assigns, and so does its branch. *)
Definition _sbrk (incr : Z) : M (libc D) Z :=
  old_brk ← get_brk;
  if heap_start =? heap_end then mret 0 else
  set_brk (old_brk + incr) ;;
  b ← get_brk;
  (if b <? heap_end then set_brk (b + incr) else set_brk heap_end) ;;
  mret old_brk.
End driver.

(** * What they do *)

(** The stores of [bs] to the console, newest first. *)
Definition stdout_events (bs : list Z) : list event := rev ((fun b => St W32 STDOUT_REG b) <$> bs).

(** What the console shows of a trace. *)
Fixpoint stdout_of (tr : list event) : list Z :=
  match tr with
  | [] => []
  | St W32 a v :: tr => if a =? STDOUT_REG then stdout_of tr ++ [v] else stdout_of tr
  | _ :: tr => stdout_of tr
  end.

Lemma stdout_of_events bs tr : stdout_of (stdout_events bs ++ tr) = stdout_of tr ++ bs.
Proof.
  induction bs as [|b bs IH] using rev_ind; [by rewrite app_nil_r|].
  unfold stdout_events in *. rewrite fmap_app, rev_app_distr. cbn. rewrite IH. by rewrite (assoc_L (++)).
Qed.

Section specs.
Context `{!Bus D, !Newlib}.

(** Memory and trace, the only parts of the world the output depends on. *)
Definition out_state : Type := gmap Z Z * list event * Z * Z.
Definition at_out (s : out_state) (w : world (libc D)) : Prop :=
  s = (w_mem w, w_tr w, lc_errno (w_dev w), lc_brk (w_dev w)).

Lemma awp_write_loop ptr bs m tr e b :
  read_bytes m ptr (length bs) = Some bs -> Forall is_byte bs ->
  awp at_out (for_in (below (Z.of_nat (length bs))) (fun i =>
      c ← load8 (ptr + i); mmio_st W32 STDOUT_REG c)) (m, tr, e, b)
    (fun _ s' => s' = (m, stdout_events bs ++ tr, e, b)).
Proof.
  intros Hr Hb. eapply (awp_for_in _ _ _ (fun pre s' =>
    s' = (m, stdout_events (take (length pre) bs) ++ tr, e, b))); [done | |].
  - intros pre i post s' El ->. destruct (below_split _ _ _ _ El) as [Ei Hi].
    destruct (read_bytes_at _ _ _ _ i Hr Hi) as (c & Hc & Hm).
    assert (Hcb : is_byte c) by by eapply Forall_lookup_1.
    rewrite length_app. cbn [length]. rewrite Nat.add_1_r.
    rewrite (take_S_r _ _ c) by (by rewrite Ei, Nat2Z.id in Hc).
    intros w Hw. unfold at_out in Hw. injection Hw as E1 E2 E3 E4.
    wp_seq. eapply wp_load8; [rewrite <- E1; exact Hm|]. apply wp_mmio_st.
    eexists. split; [done|]. cbn [w_mem w_tr w_dev]. cbn -[stdout_events].
    rewrite Z.mod_small by (unfold is_byte in Hcb; cbn; lia).
    rewrite <- E1, <- E2, <- E3, <- E4. do 3 f_equal.
    unfold stdout_events. rewrite fmap_app, rev_app_distr. done.
  - intros s' ->. rewrite below_length by lia. by rewrite Nat2Z.id, firstn_all.
Qed.

(** C21: [_write] to the standard output sends the bytes of the buffer, in order, one word store each,
    and returns their number; to any other file it sends nothing, sets [errno] and returns -1. *)
Theorem write_sends file ptr bs (w : world (libc D)) :
  read_bytes (w_mem w) ptr (length bs) = Some bs -> Forall is_byte bs ->
  wp (_write file ptr (Z.of_nat (length bs))) w (fun r w' =>
    w_mem w' = w_mem w /\ lc_brk (w_dev w') = lc_brk (w_dev w) /\
    if file =? 1 then
      r = Z.of_nat (length bs) /\ lc_errno (w_dev w') = lc_errno (w_dev w)
      /\ stdout_of (w_tr w') = stdout_of (w_tr w) ++ bs
    else r = -1 /\ lc_errno (w_dev w') = ENOSYS /\ w_tr w' = w_tr w).
Proof.
  intros Hr Hb. unfold _write, STDOUT_FILENO. destruct (file =? 1); cbn [negb].
  - wp_seq. eapply wp_mono; [by apply (awp_write_loop ptr bs (w_mem w) (w_tr w) (lc_errno (w_dev w)) (lc_brk (w_dev w)) Hr Hb)|].
    intros [] w' (s & Hw' & ->). injection Hw' as E1 E2 E3 E4. apply wp_ret.
    rewrite <- E1, <- E2, <- E3, <- E4. by rewrite stdout_of_events.
  - wp_seq. eapply wp_step; [done|]. by apply wp_ret.
Qed.

(** Every stub returns its error at once, with no store to a device or to memory: the ones that
    are not implemented set [errno] to ENOSYS and return -1. *)
Theorem stubs_fail a b c d n (w : world (libc D)) :
  let failed e r := (Val r, World (Libc e (lc_brk (w_dev w)) (lc_dev (w_dev w))) (w_mem w) (w_tr w)) in
  Forall (fun m : M (libc D) Z => m n w = failed ENOSYS (-1))
    [nanosleep a b; _access a b; _chdir a; _chmod a b; _chown a b c; _faccessat a b c d;
     _fstatat a b c d; _ftime a; _lstat a b; _openat a b c d; _utime a b]
  /\ _execve a b c n w = failed ENOMEM (-1) /\ _fork n w = failed EAGAIN (-1)
  /\ _kill a b n w = failed EINVAL (-1) /\ _link a b n w = failed EMLINK (-1)
  /\ _unlink a n w = failed ENOENT (-1) /\ _wait a n w = failed ECHILD (-1)
  /\ _getcwd a b n w = failed (- ENOSYS) 0 /\ _gettimeofday a b n w = failed (- ENOSYS) (-1).
Proof. split; [repeat constructor | by split_and!]. Qed.

(** C22: [_sbrk] returns the old break and never reports that the heap is full; a request that fits
    moves the break by twice its size, so that the break can pass the end of the heap. *)
Theorem sbrk_moves incr n (w : world (libc D)) :
  heap_start <> heap_end ->
  let b := lc_brk (w_dev w) in
  exists w', _sbrk incr n w = (Val b, w') /\ w_mem w' = w_mem w /\ w_tr w' = w_tr w
    /\ lc_brk (w_dev w') = if b + incr <? heap_end then b + 2 * incr else heap_end.
Proof.
  intros Hh b. unfold _sbrk, mbind, M_bind, get_brk, set_brk, mret, M_ret. cbn.
  destruct (Z.eqb_spec heap_start heap_end); [done|]. cbn. fold b.
  destruct (b + incr <? heap_end); cbn; eexists; (split; [done|]); cbn; split_and!; try done. lia.
Qed.
End specs.

#[export] Instance ex_newlib : Newlib := {
  ENOSYS := 88; ENOMEM := 12; EAGAIN := 11; EINVAL := 22; EMLINK := 31; ENOENT := 2; ECHILD := 10;
  S_IFCHR := 0x2000; st_mode_offset := 4; heap_start := 0x1000; heap_end := 0x2000
}.

#[export] Instance null_bus : Bus unit := {
  bus_ld _ _ d := (0, d); bus_st _ _ _ d := d; bus_nop d := d
}.

Definition ex_libc (brk : Z) : world (libc unit) :=
  World (Libc 0 brk tt) (write_bytes 0x100 (str "ok") ∅) [].

Lemma write_sends_witness :
  wp (_write 1 0x100 2) (ex_libc 0x1000) (fun r w' =>
    r = 2 /\ stdout_of (w_tr w') = [111; 107]).
Proof.
  eapply wp_mono; [apply (write_sends 1 0x100 (str "ok") (ex_libc 0x1000)); [by vm_compute | apply str_bytes]|].
  by intros r w' (_ & _ & -> & _ & ->).
Defined.

(** Half the heap twice: the second block starts at the end, and the break is past it. *)
Lemma sbrk_moves_witness :
  exists w', _sbrk 0xfff 0%nat (ex_libc 0x1000) = (Val 0x1000, w') /\ heap_end < lc_brk (w_dev w').
Proof.
  destruct (sbrk_moves (D := unit) 0xfff 0%nat (ex_libc 0x1000)) as (w' & E & _ & _ & Hb); [done|].
  exists w'. split; [exact E|]. by rewrite Hb.
Defined.
