(* ===== verification/Smp.v ===== *)
(** The start-up barriers of the two boot ROMs ([smp.h], used by [startup.S]): hart 0 runs the boot
    loader while the others wait, and no hart enters the loaded image before all may. Each barrier
    is a step relation on the program counters of the harts and the shared memory they use; a
    register-only instruction belongs to the step of the load or store before it. *)
From stdpp Require Import relations.
From S2P Require Import Prelude.

Definition NONSMP_HART : nat := 0.

(** * Lists of program counters *)

Section harts.
Context {P : Type} (rank : P -> nat).

(** What is left to do, over all harts. *)
Fixpoint total (l : list P) : nat := match l with [] => 0 | p :: l => rank p + total l end.

Lemma total_insert l i p p' :
  l !! i = Some p -> (rank p' < rank p)%nat -> (total (<[i := p']> l) < total l)%nat.
Proof.
  revert i. induction l as [|x l IH]; intros [|i] Hi Hr; cbn in *; try done.
  - injection Hi as ->. lia.
  - apply Nat.add_lt_mono_l. exact (IH i Hi Hr).
Qed.

(** Every hart is done, or one is not. *)
Lemma all_or_one (f : P -> bool) (l : list P) :
  (forall i p, l !! i = Some p -> f p = true) \/ exists i p, l !! i = Some p /\ f p = false.
Proof.
  destruct (decide (Forall (fun p => f p = true) l)) as [Hl|Hl].
  - left. intros i p Hi. exact (Forall_lookup_1 _ _ _ _ Hl Hi).
  - right. apply not_Forall_Exists in Hl; [|apply _]. apply Exists_exists in Hl as (p & Hp & Hf).
    apply list_elem_of_lookup_1 in Hp as [i Hi]. exists i, p. split; [done|]. by apply not_true_is_false.
Qed.
End harts.

(** * The memory barrier of the OpenPiton boot ROM *)

Definition SMP_BARRIER_ADDR : Z := 0x84000000 + 64.
Definition piton_MAX_HARTS : nat := 2.

(** Where a hart is: before [smp_pause], in [main], at label 42, before [amoswap], at label 43, and
    past the barrier. *)
Inductive piton_pc := PStart | PMain | PWait | PSwap | PSpin | POut.

#[export] Instance piton_pc_eq_dec : EqDecision piton_pc.
Proof. solve_decision. Defined.

Record piton_state := PitonState {
  p_harts : list piton_pc;
  p_barrier : Z;          (* the word at [SMP_BARRIER_ADDR] *)
  p_loaded : bool         (* [main] has returned *)
}.

Section piton.
Context (N : nat).        (* the number of harts, [MAX_HARTS] *)

Inductive piton_step : piton_state -> piton_state -> Prop :=
  (* smp_pause *)
  | p_pause_main l b d :
      l !! NONSMP_HART = Some PStart -> piton_step (PitonState l b d) (PitonState (<[NONSMP_HART := PMain]> l) b d)
  | p_pause_other l b d i :
      i <> NONSMP_HART -> l !! i = Some PStart ->
      piton_step (PitonState l b d) (PitonState (<[i := PWait]> l) b d)
  (* call main *)
  | p_main l b d i : l !! i = Some PMain -> piton_step (PitonState l b d) (PitonState (<[i := PWait]> l) b true)
  (* 42: lw; bne *)
  | p_wait_again l b d i : l !! i = Some PWait -> b <> Z.of_nat i -> piton_step (PitonState l b d) (PitonState l b d)
  | p_wait l b d i :
      l !! i = Some PWait -> b = Z.of_nat i -> piton_step (PitonState l b d) (PitonState (<[i := PSwap]> l) b d)
  (* addi; amoswap.w *)
  | p_swap l b d i :
      l !! i = Some PSwap ->
      piton_step (PitonState l b d) (PitonState (<[i := PSpin]> l) (Z.of_nat i + 1) d)
  (* 43: lw; bne *)
  | p_spin_again l b d i : l !! i = Some PSpin -> b <> Z.of_nat N -> piton_step (PitonState l b d) (PitonState l b d)
  | p_spin l b d i :
      l !! i = Some PSpin -> b = Z.of_nat N -> piton_step (PitonState l b d) (PitonState (<[i := POut]> l) b d).

Definition piton_init : piton_state := PitonState (replicate N PStart) 0 false.

Definition arrived (p : piton_pc) : bool := match p with PSpin | POut => true | _ => false end.

(** The barrier counts the harts that have arrived, in the order of their numbers. *)
Definition piton_inv (s : piton_state) : Prop :=
  exists k, p_barrier s = Z.of_nat k /\ (length (p_harts s) = N /\ (k <= N)%nat) /\
  (forall i p, p_harts s !! i = Some p ->
    (arrived p = true <-> (i < k)%nat)
    /\ (p = PSwap -> i = k)
    /\ (p = PMain -> i = NONSMP_HART)
    /\ (i = NONSMP_HART -> p = PWait \/ p = PSwap \/ arrived p = true -> p_loaded s = true)
    /\ (p = POut -> k = N)).

Lemma piton_inv_init : piton_inv piton_init.
Proof.
  exists 0%nat. split; [done|]. split; [split; [apply length_replicate | lia]|].
  intros i p Hi. apply lookup_replicate in Hi as [-> _]. split; [split; [done | lia]|].
  split_and!; try done. intros _ [|[|]]; done.
Qed.

(** A hart moves without touching the barrier. *)
Lemma piton_move l b d d' i p p' :
  piton_inv (PitonState l b d) -> l !! i = Some p -> arrived p' = arrived p ->
  (p' = PSwap -> b = Z.of_nat i) -> (p' = PMain -> i = NONSMP_HART) ->
  (i = NONSMP_HART -> p' = PWait \/ p' = PSwap \/ arrived p' = true -> d' = true) ->
  (p' = POut -> b = Z.of_nat N) -> (d = true -> d' = true) ->
  piton_inv (PitonState (<[i := p']> l) b d').
Proof.
  intros (k & Hb & [Hl Hk'] & H) Hi Ha H1 H2 H3 H4 Hd. cbn in *. exists k. cbn.
  split; [done|]. split; [by rewrite length_insert|].
  intros j q Hj. apply list_lookup_insert_Some in Hj as [(<- & <- & _)|[Hne Hj]].
  - destruct (H i p Hi) as (Hk & _). split; [by rewrite Ha|].
    split; [intros E; specialize (H1 E); lia|]. split; [exact H2|]. split; [exact H3|].
    intros E. specialize (H4 E). lia.
  - destruct (H j q Hj) as (Hk & Hs & Hm & Hlo & Ho). auto 10.
Qed.

Lemma piton_inv_step s s' : piton_inv s -> piton_step s s' -> piton_inv s'.
Proof.
  intros Hinv Hstep. destruct Hstep as [l b d Hi|l b d i Hne Hi|l b d i Hi|l b d i Hi Hb|l b d i Hi Hb|l b d i Hi
    |l b d i Hi Hb|l b d i Hi Hb]; try done.
  - apply (piton_move l b d d _ PStart PMain Hinv Hi); try done. by intros _ [|[|]].
  - by apply (piton_move l b d d _ PStart PWait Hinv Hi).
  - by apply (piton_move l b d true _ PMain PWait Hinv Hi).
  - apply (piton_move l b d d _ PWait PSwap Hinv Hi); try done.
    destruct Hinv as (k & _ & _ & H). destruct (H i _ Hi) as (_ & _ & _ & Hlo & _). cbn in *. auto.
  - destruct Hinv as (k & Hk & [Hl Hk'] & H). cbn in *. destruct (H i _ Hi) as (Hik & Hs & _ & Hlo & _).
    specialize (Hs eq_refl). subst i. exists (S k).
    assert (Hkl : (k < N)%nat) by (rewrite <- Hl; by eapply lookup_lt_Some).
    cbn. split; [lia|]. split; [split; [by rewrite length_insert | lia]|].
    intros j q Hj. apply list_lookup_insert_Some in Hj as [(<- & <- & _)|[Hne Hj]].
    + split; [split; [lia | done]|]. split_and!; try done. intros E _. auto.
    + destruct (H j q Hj) as (Hjk & Hjs & Hm & Hjl & Ho). split_and!; auto.
      * rewrite Hjk. lia.
      * intros E. specialize (Hjs E). congruence.
      * intros E. specialize (Ho E). lia.
  - apply (piton_move l b d d _ PSpin POut Hinv Hi); try done.
    destruct Hinv as (k & _ & _ & H). destruct (H i _ Hi) as (_ & _ & _ & Hlo & _). cbn in *. auto.
Qed.

Lemma piton_inv_reachable s : rtc piton_step piton_init s -> piton_inv s.
Proof.
  intros Hs. remember piton_init as s0 eqn:E. assert (H0 : piton_inv s0) by (subst; apply piton_inv_init).
  clear E. induction Hs as [|s1 s2 s3 H1 _ IH]; [done|]. by apply IH, (piton_inv_step s1).
Qed.

(** ** Progress *)

Definition piton_rank (p : piton_pc) : nat :=
  match p with PStart => 5 | PMain => 4 | PWait => 3 | PSwap => 2 | PSpin => 1 | POut => 0 end.

Definition piton_left (s : piton_state) : nat := total piton_rank (p_harts s).

Definition piton_done (s : piton_state) : Prop := forall i p, p_harts s !! i = Some p -> p = POut.

Lemma piton_can_step s :
  piton_inv s -> piton_done s \/ exists s', piton_step s s' /\ (piton_left s' < piton_left s)%nat.
Proof.
  destruct s as [l b d]. intros (k & Hb & [Hl Hk] & H). cbn in *. subst b.
  assert (Go : forall i p p' b' d', l !! i = Some p -> (piton_rank p' < piton_rank p)%nat ->
    piton_step (PitonState l (Z.of_nat k) d) (PitonState (<[i := p']> l) b' d') ->
    exists s', piton_step (PitonState l (Z.of_nat k) d) s'
      /\ (piton_left s' < piton_left (PitonState l (Z.of_nat k) d))%nat).
  { intros i p p' b' d' Hi Hr Hs. eexists. split; [exact Hs|]. by eapply total_insert. }
  destruct (decide (k = N)) as [->|Hne].
  - destruct (all_or_one (fun p => if p is POut then true else false) l) as [Ha|(i & p & Hi & Hp)].
    + left. intros i p Hi. specialize (Ha i p Hi). by destruct p.
    + right. destruct (H i p Hi) as (Hik & _).
      assert (Hin : (i < N)%nat) by (rewrite <- Hl; by eapply lookup_lt_Some).
      apply Hik in Hin. destruct p; try done. eapply (Go i); [exact Hi | | by apply p_spin]. cbn. lia.
  - right. destruct (lookup_lt_is_Some_2 l k) as [p Hp]; [lia|].
    destruct (H k p Hp) as (Hkk & _). destruct p; try (exfalso; cbn in Hkk; lia).
    + destruct (decide (k = NONSMP_HART)) as [->|Hn0].
      * eapply (Go NONSMP_HART); [exact Hp | | by apply p_pause_main]. cbn. lia.
      * eapply (Go k); [exact Hp | | by apply p_pause_other]. cbn. lia.
    + eapply (Go k); [exact Hp | | by apply p_main]. cbn. lia.
    + eapply (Go k); [exact Hp | | by apply p_wait]. cbn. lia.
    + eapply (Go k); [exact Hp | | by apply p_swap]. cbn. lia.
Qed.

Lemma piton_finishes s : piton_inv s -> exists s', rtc piton_step s s' /\ piton_done s'.
Proof.
  remember (piton_left s) as n eqn:En. revert s En.
  induction n as [n IH] using lt_wf_ind; intros s -> Hs.
  destruct (piton_can_step s Hs) as [Hd|(s1 & H1 & Hr)]; [by exists s|].
  destruct (IH _ Hr s1 eq_refl) as (s' & H2 & Hd); [by eapply piton_inv_step|].
  exists s'. split; [by eapply rtc_l | done].
Qed.
End piton.

(** * The software-interrupt barrier of the FPGA boot ROM

    The macros for a call that returns. The [main] of this boot loader does not return ([Startup]): with
    it the state in which hart 0 is in [main] is the last one, and the others stay at label 42. *)

Definition CLINT_CTRL_ADDR : Z := 0x2000000.
Definition MAX_HARTS : nat := 256.

(** Where a hart is: before [smp_pause], in [main], raising the interrupt of hart [j] (the first
    label 41), at label 42, before it clears its own interrupt, waiting for hart [j] to clear its
    interrupt (the second label 41), and past the barrier. *)
Inductive clint_pc := FStart | FMain | FRaise (j : nat) | FWfi | FClear | FPoll (j : nat) | FOut.

#[export] Instance clint_pc_eq_dec : EqDecision clint_pc.
Proof. solve_decision. Defined.

(** The software-interrupt registers of the harts there are; the others read zero. *)
Record clint_state := ClintState {
  f_harts : list clint_pc;
  f_msip : list bool;
  f_loaded : bool
}.

Section clint.
Context (N : nat).        (* the number of harts *)

Definition next_raise (j : nat) : clint_pc := if (S j <? MAX_HARTS)%nat then FRaise (S j) else FWfi.
Definition next_poll (j : nat) : clint_pc := if (S j <? MAX_HARTS)%nat then FPoll (S j) else FOut.
Definition pending (m : list bool) (j : nat) : bool := default false (m !! j).

Inductive clint_step : clint_state -> clint_state -> Prop :=
  (* smp_pause *)
  | f_pause_main l m d :
      l !! NONSMP_HART = Some FStart -> clint_step (ClintState l m d) (ClintState (<[NONSMP_HART := FMain]> l) m d)
  | f_pause_other l m d i :
      i <> NONSMP_HART -> l !! i = Some FStart -> clint_step (ClintState l m d) (ClintState (<[i := FWfi]> l) m d)
  (* call main *)
  | f_main l m d i : l !! i = Some FMain -> clint_step (ClintState l m d) (ClintState (<[i := FRaise 0]> l) m true)
  (* 41: sw; addi; blt *)
  | f_raise l m d i j :
      l !! i = Some (FRaise j) ->
      clint_step (ClintState l m d) (ClintState (<[i := next_raise j]> l) (<[j := true]> m) d)
  (* 42: wfi; csrr mip; andi; beqz *)
  | f_wfi_again l m d i :
      l !! i = Some FWfi -> pending m i = false -> clint_step (ClintState l m d) (ClintState l m d)
  | f_wfi l m d i :
      l !! i = Some FWfi -> pending m i = true -> clint_step (ClintState l m d) (ClintState (<[i := FClear]> l) m d)
  (* sw zero *)
  | f_clear l m d i :
      l !! i = Some FClear -> clint_step (ClintState l m d) (ClintState (<[i := FPoll 0]> l) (<[i := false]> m) d)
  (* 41: lw; bnez; addi; blt *)
  | f_poll_again l m d i j :
      l !! i = Some (FPoll j) -> pending m j = true -> clint_step (ClintState l m d) (ClintState l m d)
  | f_poll l m d i j :
      l !! i = Some (FPoll j) -> pending m j = false ->
      clint_step (ClintState l m d) (ClintState (<[i := next_poll j]> l) m d).

Definition clint_init : clint_state := ClintState (replicate N FStart) (replicate N false) false.

(** The harts that have cleared their interrupt. *)
Definition cleared (p : clint_pc) : bool := match p with FPoll _ | FOut => true | _ => false end.

(** How many interrupts hart 0 has raised. *)
Definition raised (p0 : clint_pc) : nat :=
  match p0 with FStart | FMain => 0 | FRaise j => j | _ => MAX_HARTS end.

(** How far a hart has got through the registers of the others. *)
Definition seen (p : clint_pc) : nat := match p with FPoll j => j | FOut => MAX_HARTS | _ => 0 end.

(** Register [i] is set from when hart 0 raises it until hart [i] clears it; a hart that has seen
    the registers of the first [j] harts at zero has seen them cleared. *)
Definition clint_inv (s : clint_state) : Prop :=
  (0 < N <= MAX_HARTS)%nat /\ length (f_harts s) = N /\ length (f_msip s) = N /\
  exists p0, f_harts s !! NONSMP_HART = Some p0 /\
  (p0 <> FStart -> p0 <> FMain -> f_loaded s = true) /\
  (forall j, p0 = FRaise j -> (j < MAX_HARTS)%nat) /\
  forall i p, f_harts s !! i = Some p ->
    (f_msip s !! i = Some true <-> (i < raised p0)%nat /\ cleared p = false)
    /\ (p = FClear \/ cleared p = true -> (i < raised p0)%nat)
    /\ (i <> NONSMP_HART -> p <> FMain /\ forall j, p <> FRaise j)
    /\ (forall k q, (k < seen p)%nat -> f_harts s !! k = Some q -> cleared q = true).

Lemma clint_inv_init : (0 < N <= MAX_HARTS)%nat -> clint_inv clint_init.
Proof.
  intros HN. split; [done|]. cbn. rewrite !length_replicate. split; [done|]. split; [done|].
  exists FStart. split; [apply lookup_replicate; split; [done | unfold NONSMP_HART; lia]|].
  split; [done|]. split; [done|]. intros i p Hi. apply lookup_replicate in Hi as [-> Hi].
  split; [|split; [|split]].
  - rewrite lookup_replicate_2 by done. split; [done | intros [? _]; cbn in *; lia].
  - by intros [|].
  - done.
  - cbn. lia.
Qed.

(** A hart moves: [m'] and [d'] are what it leaves. *)
Lemma clint_update l m d m' d' i p p' p0 p0' :
  clint_inv (ClintState l m d) -> l !! i = Some p -> l !! NONSMP_HART = Some p0 ->
  p0' = (if decide (i = NONSMP_HART) then p' else p0) ->
  length m' = length m -> (d = true -> d' = true) -> (raised p0 <= raised p0')%nat ->
  (p0' <> FStart -> p0' <> FMain -> d' = true) -> (forall j, p0' = FRaise j -> (j < MAX_HARTS)%nat) ->
  (cleared p = true -> cleared p' = true) ->
  (forall k q, l !! k = Some q ->
     m' !! k = Some true <-> (k < raised p0')%nat /\ cleared (if decide (k = i) then p' else q) = false) ->
  (p' = FClear \/ cleared p' = true -> (i < raised p0')%nat) ->
  (i <> NONSMP_HART -> p' <> FMain /\ forall j, p' <> FRaise j) ->
  (forall k q, (k < seen p')%nat -> l !! k = Some q -> cleared (if decide (k = i) then p' else q) = true) ->
  clint_inv (ClintState (<[i := p']> l) m' d').
Proof.
  intros (HN & Hl & Hm & p1 & H0 & _ & _ & H) Hi H0' -> Elen Hd Hle Hld Hj Hcl Hms Hc Hi0 Hs.
  cbn in *. assert (p1 = p0) as -> by congruence.
  assert (Hlook : forall k q, <[i := p']> l !! k = Some q ->
    exists q0, l !! k = Some q0 /\ q = if decide (k = i) then p' else q0).
  { intros k q Hk. apply list_lookup_insert_Some in Hk as [(<- & <- & _)|[Hne Hk]].
    - exists p. by rewrite decide_True.
    - exists q. by rewrite decide_False. }
  split; [done|]. cbn [f_harts f_msip f_loaded]. split; [by rewrite length_insert|]. split; [lia|].
  eexists. split; [|split; [exact Hld | split; [exact Hj|]]].
  { destruct (decide (i = NONSMP_HART)) as [->|Hne].
    - apply list_lookup_insert_eq. by eapply lookup_lt_Some.
    - by rewrite list_lookup_insert_ne. }
  intros k q Hk. destruct (Hlook k q Hk) as (q0 & Hq & ->). destruct (H k q0 Hq) as (_ & Hk2 & Hk3 & Hk4).
  split; [by apply Hms|]. split; [|split].
  - destruct (decide (k = i)) as [->|Hne]; [done|]. intros Hx. specialize (Hk2 Hx). lia.
  - destruct (decide (k = i)) as [->|Hne]; [done|]. exact Hk3.
  - intros x y Hx Hy. destruct (Hlook x y Hy) as (y0 & Hy0 & ->).
    destruct (decide (k = i)) as [->|Hne]; [by eapply Hs|]. specialize (Hk4 x y0 Hx Hy0).
    destruct (decide (x = i)) as [->|]; [|done]. apply Hcl. congruence.
Qed.

(** A move that neither raises nor clears an interrupt. *)
Lemma clint_quiet l m d d' i p p' :
  clint_inv (ClintState l m d) -> l !! i = Some p -> cleared p' = cleared p ->
  (i = NONSMP_HART -> raised p' = raised p) ->
  (i = NONSMP_HART -> p' <> FStart -> p' <> FMain -> d' = true) ->
  (forall j, p' = FRaise j -> i = NONSMP_HART /\ (j < MAX_HARTS)%nat) ->
  (p' = FClear -> m !! i = Some true) -> (i <> NONSMP_HART -> p' <> FMain) ->
  (forall k q, (k < seen p')%nat -> l !! k = Some q -> cleared q = true) -> (d = true -> d' = true) ->
  clint_inv (ClintState (<[i := p']> l) m d').
Proof.
  intros Hinv Hi Hcl Hr Hld Hj Hfc Hm Hs Hd. pose proof Hinv as (HN & Hl & Hlm & p0 & H0 & Hl0 & Hj0 & H).
  cbn in *.
  assert (Er : raised (if decide (i = NONSMP_HART) then p' else p0) = raised p0).
  { destruct (decide (i = NONSMP_HART)) as [->|]; [|done]. rewrite Hr by done. congruence. }
  assert (Ec : forall k q, l !! k = Some q -> cleared (if decide (k = i) then p' else q) = cleared q).
  { intros k q Hk. destruct (decide (k = i)) as [->|]; [|done]. rewrite Hcl. congruence. }
  eapply (clint_update l m d m d' i p p' p0 _ Hinv Hi H0 eq_refl); try done.
  - rewrite Er. lia.
  - destruct (decide (i = NONSMP_HART)); [auto|]. intros Ha Hb. by apply Hd, Hl0.
  - intros j. destruct (decide (i = NONSMP_HART)); [|apply Hj0]. intros E. by apply Hj.
  - by rewrite Hcl.
  - intros k q Hk. rewrite Er, Ec by done. by apply (H k q).
  - rewrite Er. destruct (H i p Hi) as (H1 & H2 & _). rewrite Hcl. intros [E|E]; [|auto].
    by apply H1, Hfc.
  - intros Hne. split; [auto|]. intros j E. by apply Hj in E as [? _].
  - intros k q Hk Hq. rewrite Ec by done. by eapply Hs.
Qed.

Lemma pending_true m i : pending m i = true -> m !! i = Some true.
Proof. unfold pending. by destruct (m !! i) as [[]|]. Qed.

Lemma clint_raise l m d j i :
  clint_inv (ClintState l m d) -> l !! i = Some (FRaise j) ->
  clint_inv (ClintState (<[i := next_raise j]> l) (<[j := true]> m) d).
Proof.
  intros Hinv Hi. pose proof Hinv as (HN & Hl & Hlm & p0 & H0 & Hl0 & Hj0 & H). cbn in *.
  destruct (H i _ Hi) as (_ & _ & Hi3 & _).
  assert (i = NONSMP_HART) as ->.
  { destruct (decide (i = NONSMP_HART)); [done|]. destruct Hi3 as [_ Hi3]; [done|]. by specialize (Hi3 j). }
  assert (p0 = FRaise j) as -> by congruence. specialize (Hj0 j eq_refl).
  assert (Er : raised (next_raise j) = S j).
  { unfold next_raise. destruct (Nat.ltb_spec (S j) MAX_HARTS); cbn [raised]; lia. }
  assert (Ec : cleared (next_raise j) = false) by (unfold next_raise; by destruct (_ <? _)%nat).
  assert (Es : seen (next_raise j) = 0%nat) by (unfold next_raise; by destruct (_ <? _)%nat).
  eapply (clint_update l m d _ d _ _ (next_raise j) _ (next_raise j) Hinv Hi H0 eq_refl).
  - by rewrite length_insert.
  - done.
  - rewrite Er. cbn. lia.
  - intros _ _. by apply Hl0.
  - intros x. unfold next_raise. destruct (Nat.ltb_spec (S j) MAX_HARTS); [|done]. intros [= <-]. done.
  - done.
  - intros k q Hk. rewrite Er.
    assert (Eq : cleared (if decide (k = NONSMP_HART) then next_raise j else q) = cleared q).
    { destruct (decide (k = NONSMP_HART)) as [->|]; [|done]. assert (q = FRaise j) as -> by congruence. by rewrite Ec. }
    rewrite Eq. destruct (H k q Hk) as (Hk1 & Hk2 & _). cbn [raised] in *.
    destruct (decide (k = j)) as [->|Hne].
    + rewrite list_lookup_insert_eq by (rewrite Hlm, <- Hl; by eapply lookup_lt_Some).
      split; [|done]. intros _. split; [lia|]. destruct (cleared q) eqn:E; [|done].
      specialize (Hk2 (or_intror eq_refl)). lia.
    + rewrite list_lookup_insert_ne by done. rewrite Hk1. split; intros [? ?]; (split; [lia | done]).
  - rewrite Ec. intros [E|E]; [|done]. unfold next_raise in E. by destruct (_ <? _)%nat.
  - done.
  - rewrite Es. lia.
Qed.

Lemma clint_clear l m d i :
  clint_inv (ClintState l m d) -> l !! i = Some FClear ->
  clint_inv (ClintState (<[i := FPoll 0]> l) (<[i := false]> m) d).
Proof.
  intros Hinv Hi. pose proof Hinv as (HN & Hl & Hlm & p0 & H0 & Hl0 & Hj0 & H). cbn in *.
  destruct (H i _ Hi) as (_ & Hi2 & _). specialize (Hi2 (or_introl eq_refl)).
  assert (Er : raised (if decide (i = NONSMP_HART) then FPoll 0 else p0) = raised p0).
  { destruct (decide (i = NONSMP_HART)) as [->|]; [|done]. assert (p0 = FClear) as -> by congruence. done. }
  eapply (clint_update l m d _ d i _ (FPoll 0) p0 _ Hinv Hi H0 eq_refl); try done.
  - by rewrite length_insert.
  - rewrite Er. lia.
  - destruct (decide (i = NONSMP_HART)) as [->|]; [|done]. intros _ _.
    assert (p0 = FClear) as -> by congruence. by apply Hl0.
  - intros j. destruct (decide (i = NONSMP_HART)); [done | apply Hj0].
  - intros k q Hk. rewrite Er. destruct (decide (k = i)) as [->|Hne].
    + rewrite list_lookup_insert_eq by (rewrite Hlm, <- Hl; by eapply lookup_lt_Some).
      split; [done | by intros [_ ?]].
    + rewrite list_lookup_insert_ne by done. by apply (H k q).
  - rewrite Er. auto.
  - cbn. lia.
Qed.

(** A register that reads zero belongs to a hart that has cleared it, once hart 0 has raised it. *)
Lemma clint_poll_cleared l m d i j :
  clint_inv (ClintState l m d) -> l !! i = Some (FPoll j) -> pending m j = false ->
  forall k q, (k < S j)%nat -> l !! k = Some q -> cleared q = true.
Proof.
  intros (HN & Hl & Hlm & p0 & H0 & Hl0 & Hj0 & H) Hi Hp k q Hk Hq. cbn in *.
  destruct (H i _ Hi) as (_ & Hi2 & _ & Hi4). cbn in *. specialize (Hi2 (or_intror eq_refl)).
  destruct (decide (k < j)%nat) as [Hkj|Hkj]; [by eapply Hi4|].
  assert (k = j) as -> by lia. destruct (H j q Hq) as (Hj1 & _).
  destruct (cleared q) eqn:E; [done|]. exfalso.
  assert (Hr : (j < raised p0)%nat).
  { destruct j as [|j]; [lia|]. assert (Hc0 : cleared p0 = true) by (eapply (Hi4 0%nat); [lia | exact H0]).
    assert (Hb : (S j < N)%nat) by (rewrite <- Hl; by eapply lookup_lt_Some).
    destruct p0; try done; cbn [raised]; lia. }
  unfold pending in Hp. rewrite (proj2 Hj1) in Hp by done. done.
Qed.

Lemma clint_inv_step s s' : clint_inv s -> clint_step s s' -> clint_inv s'.
Proof.
  intros Hinv Hstep. destruct Hstep as [l m d Hi|l m d i Hne Hi|l m d i Hi|l m d i j Hi|l m d i Hi Hp|l m d i Hi Hp
    |l m d i Hi|l m d i j Hi Hp|l m d i j Hi Hp]; try done.
  - apply (clint_quiet l m d d _ FStart FMain Hinv Hi); try done. cbn. lia.
  - apply (clint_quiet l m d d _ FStart FWfi Hinv Hi); try done. cbn. lia.
  - pose proof Hinv as (HN & Hl & Hlm & p0 & H0 & Hl0 & Hj0 & H).
    cbn [f_harts f_msip f_loaded] in *.
    destruct (H i _ Hi) as (_ & _ & Hi3 & _).
    assert (i = NONSMP_HART) as ->.
    { destruct (decide (i = NONSMP_HART)); [done|]. destruct Hi3 as [Hi3 _]; done. }
    apply (clint_quiet l m d true _ FMain (FRaise 0) Hinv Hi); try done; [|cbn; lia].
    intros j [= <-]. split; [done | unfold MAX_HARTS; lia].
  - by apply clint_raise.
  - pose proof Hinv as (HN & Hl & Hlm & p0 & H0 & Hl0 & Hj0 & H).
    cbn [f_harts f_msip f_loaded] in *.
    apply (clint_quiet l m d d _ FWfi FClear Hinv Hi); try done; [| |cbn; lia].
    + intros -> _ _. assert (p0 = FWfi) as -> by congruence. by apply Hl0.
    + intros _. by apply pending_true.
  - by apply clint_clear.
  - pose proof Hinv as (HN & Hl & Hlm & p0 & H0 & Hl0 & Hj0 & H).
    cbn [f_harts f_msip f_loaded] in *.
    pose proof (clint_poll_cleared _ _ _ _ _ Hinv Hi Hp) as Hc. destruct (H i _ Hi) as (_ & _ & Hi3 & Hi4).
    apply (clint_quiet l m d d _ (FPoll j) (next_poll j) Hinv Hi); unfold next_poll;
      try (by destruct (_ <? _)%nat); try done.
    + intros -> _ _. assert (p0 = FPoll j) as -> by congruence. by apply Hl0.
    + intros k q Hk. apply Hc. destruct (Nat.ltb_spec (S j) MAX_HARTS); cbn [seen] in Hk; lia.
Qed.

Lemma clint_inv_reachable s : (0 < N <= MAX_HARTS)%nat -> rtc clint_step clint_init s -> clint_inv s.
Proof.
  intros HN Hs. remember clint_init as s0 eqn:E.
  assert (H0 : clint_inv s0) by (subst; by apply clint_inv_init).
  clear E. induction Hs as [|s1 s2 s3 H1 _ IH]; [done|]. by apply IH, (clint_inv_step s1).
Qed.

(** ** Progress *)

Definition clint_rank (p : clint_pc) : nat :=
  match p with
  | FStart => 1000 | FMain => 900 | FRaise j => 300 + (MAX_HARTS - j)
  | FWfi => 290 | FClear => 280 | FPoll j => 1 + (MAX_HARTS - j) | FOut => 0
  end.

Definition clint_left (s : clint_state) : nat := total clint_rank (f_harts s).

Definition clint_done (s : clint_state) : Prop := forall i p, f_harts s !! i = Some p -> p = FOut.

Lemma pending_false l m d p0 j :
  clint_inv (ClintState l m d) -> l !! NONSMP_HART = Some p0 ->
  (forall i p, l !! i = Some p -> cleared p = true) -> pending m j = false.
Proof.
  intros (HN & Hl & Hlm & p1 & H0 & _ & _ & H) _ Ha. cbn in *. unfold pending.
  destruct (m !! j) as [[]|] eqn:E; try done. exfalso.
  destruct (lookup_lt_is_Some_2 l j) as [q Hq]; [rewrite Hl, <- Hlm; by eapply lookup_lt_Some|].
  destruct (H j q Hq) as (Hj & _). destruct (proj1 Hj E) as [_ Hc]. by rewrite (Ha j q Hq) in Hc.
Qed.

Lemma clint_progress s :
  clint_inv s -> clint_done s \/ exists s', clint_step s s' /\ (clint_left s' < clint_left s)%nat.
Proof.
  destruct s as [l m d]. intros Hinv. pose proof Hinv as (HN & Hl & Hlm & p0 & H0 & _ & Hj0 & H). cbn in *.
  assert (Go : forall i p p' m' d', l !! i = Some p -> (clint_rank p' < clint_rank p)%nat ->
    clint_step (ClintState l m d) (ClintState (<[i := p']> l) m' d') ->
    exists s', clint_step (ClintState l m d) s' /\ (clint_left s' < clint_left (ClintState l m d))%nat).
  { intros i p p' m' d' Hi Hr Hs. eexists. split; [exact Hs|]. by eapply total_insert. }
  assert (Hp0 : (exists s', clint_step (ClintState l m d) s' /\ (clint_left s' < clint_left (ClintState l m d))%nat)
                \/ raised p0 = MAX_HARTS /\ (forall i p, l !! i = Some p -> p <> FMain /\ forall j, p <> FRaise j)).
  { destruct (decide (p0 = FMain \/ p0 = FStart)) as [Hx|Hx].
    - left. destruct Hx as [-> | ->].
      + eapply (Go NONSMP_HART); [exact H0 | | by apply f_main]. cbn. lia.
      + eapply (Go NONSMP_HART); [exact H0 | | by apply f_pause_main]. cbn. lia.
    - assert (Ho : (forall j, p0 <> FRaise j) -> forall i p, l !! i = Some p -> p <> FMain /\ forall j, p <> FRaise j).
      { intros Hr i p Hi. destruct (decide (i = NONSMP_HART)) as [->|Hne]; [|by apply (H i p Hi)].
        assert (p = p0) as -> by congruence. split; [tauto | done]. }
      destruct p0; try tauto; try (right; split; [done | apply Ho; done]).
      left. specialize (Hj0 j eq_refl). eapply (Go NONSMP_HART); [exact H0 | | by apply f_raise].
      unfold next_raise. destruct (Nat.ltb_spec (S j) MAX_HARTS); cbn [clint_rank]; lia. }
  destruct Hp0 as [?|[Hr Hno]]; [by right|].
  destruct (all_or_one cleared l) as [Ha|(i & p & Hi & Hp)].
  - destruct (all_or_one (fun p => if p is FOut then true else false) l) as [Hd|(i & p & Hi & Hp)].
    + left. intros i p Hi. specialize (Hd i p Hi). by destruct p.
    + right. specialize (Ha i p Hi) as Hc. destruct p; try done.
      eapply (Go i); [exact Hi | | apply f_poll; [exact Hi | by eapply pending_false]; exact Hinv].
      unfold next_poll. destruct (Nat.ltb_spec (S j) MAX_HARTS); cbn [clint_rank]; lia.
  - right. destruct (Hno i p Hi) as [Hm Hj]. destruct (H i p Hi) as (H1 & _).
    assert (Hin : (i < N)%nat) by (rewrite <- Hl; by eapply lookup_lt_Some).
    destruct p; try done.
    + destruct (decide (i = NONSMP_HART)) as [->|Hn0].
      * eapply (Go NONSMP_HART); [exact Hi | | by apply f_pause_main]. cbn. lia.
      * eapply (Go i); [exact Hi | | by apply f_pause_other]. cbn. lia.
    + by destruct (Hj j).
    + eapply (Go i); [exact Hi | | apply f_wfi; [exact Hi|]]; [cbn; lia|].
      unfold pending. rewrite (proj2 H1); [done|]. split; [lia | done].
    + eapply (Go i); [exact Hi | | by apply f_clear]. cbn. lia.
Qed.

Lemma clint_finishes s : clint_inv s -> exists s', rtc clint_step s s' /\ clint_done s'.
Proof.
  remember (clint_left s) as n eqn:En. revert s En.
  induction n as [n IH] using lt_wf_ind; intros s -> Hs.
  destruct (clint_progress s Hs) as [Hd|(s1 & H1 & Hr)]; [by exists s|].
  destruct (IH _ Hr s1 eq_refl) as (s' & H2 & Hd); [by eapply clint_inv_step|].
  exists s'. split; [by eapply rtc_l | done].
Qed.
End clint.

(** * Properties *)

(** C18: on the OpenPiton boot ROM, with the barrier word zero at reset and [N] harts: in every
    reachable state a hart that has left the barrier knows that hart 0 has loaded the image and that
    every hart has arrived; and from every reachable state the harts can all leave: none is stuck. *)
Theorem piton_barrier N s :
  rtc (piton_step N) (piton_init N) s ->
  (forall i, p_harts s !! i = Some POut ->
     p_loaded s = true /\ forall j p, p_harts s !! j = Some p -> arrived p = true)
  /\ exists s', rtc (piton_step N) s s' /\ piton_done s'.
Proof.
  intros Hs. pose proof (piton_inv_reachable N s Hs) as Hinv. split; [|by apply (piton_finishes N)].
  intros i Hi. destruct Hinv as (k & Hb & [Hl Hk] & H).
  destruct (H i _ Hi) as (_ & _ & _ & _ & Ho). specialize (Ho eq_refl). subst k.
  assert (Ha : forall j p, p_harts s !! j = Some p -> arrived p = true).
  { intros j p Hj. apply (H j p Hj). rewrite <- Hl. by eapply lookup_lt_Some. }
  split; [|exact Ha].
  destruct (lookup_lt_is_Some_2 (p_harts s) NONSMP_HART) as [p0 Hp0].
  { apply lookup_lt_Some in Hi. unfold NONSMP_HART. lia. }
  destruct (H _ p0 Hp0) as (_ & _ & _ & Hld & _). apply Hld; [done|]. right. right. by eapply Ha.
Qed.

(** C19: the interrupt barrier that [smp_pause] and [smp_resume] make around a call that returns, with
    1 to 256 harts: in every reachable state a hart that has left the barrier knows that the call
    has returned and that every hart has been woken and has cleared its interrupt; and from every
    reachable state the harts can all leave. *)
Theorem clint_barrier N s :
  (0 < N <= MAX_HARTS)%nat -> rtc clint_step (clint_init N) s ->
  (forall i, f_harts s !! i = Some FOut ->
     f_loaded s = true /\ (forall j p, f_harts s !! j = Some p -> cleared p = true)
     /\ forall j, f_msip s !! j <> Some true)
  /\ exists s', rtc clint_step s s' /\ clint_done s'.
Proof.
  intros HN Hs. pose proof (clint_inv_reachable N s HN Hs) as Hinv. split; [|by apply (clint_finishes N)].
  intros i Hi. pose proof Hinv as (_ & Hl & Hlm & p0 & H0 & Hl0 & Hj0 & H).
  destruct (H i _ Hi) as (_ & _ & _ & Hsn).
  assert (Ha : forall j p, f_harts s !! j = Some p -> cleared p = true).
  { intros j p Hj. eapply Hsn; [|exact Hj]. cbn [seen]. apply lookup_lt_Some in Hj. lia. }
  pose proof (Ha _ _ H0) as Hc0. split_and!; [by apply Hl0; destruct p0 | exact Ha |].
  intros j Hj. destruct (lookup_lt_is_Some_2 (f_harts s) j) as [q Hq].
  { rewrite Hl, <- Hlm. by eapply lookup_lt_Some. }
  destruct (proj1 (proj1 (H j q Hq)) Hj) as [_ Hc]. by rewrite (Ha j q Hq) in Hc.
Qed.

Lemma piton_barrier_witness :
  (forall i, p_harts (PitonState [PMain; PStart] 0 false) !! i = Some POut ->
     p_loaded (PitonState [PMain; PStart] 0 false) = true
     /\ forall j p, p_harts (PitonState [PMain; PStart] 0 false) !! j = Some p -> arrived p = true)
  /\ exists s', rtc (piton_step piton_MAX_HARTS) (PitonState [PMain; PStart] 0 false) s' /\ piton_done s'.
Proof. apply (piton_barrier piton_MAX_HARTS). by apply rtc_once, p_pause_main. Defined.

Lemma clint_barrier_witness :
  (forall i, f_harts (ClintState [FMain; FStart] [false; false] false) !! i = Some FOut ->
     f_loaded (ClintState [FMain; FStart] [false; false] false) = true
     /\ (forall j p, f_harts (ClintState [FMain; FStart] [false; false] false) !! j = Some p -> cleared p = true)
     /\ forall j, f_msip (ClintState [FMain; FStart] [false; false] false) !! j <> Some true)
  /\ exists s', rtc clint_step (ClintState [FMain; FStart] [false; false] false) s' /\ clint_done s'.
Proof.
  apply (clint_barrier 2).
  - unfold MAX_HARTS. lia.
  - by apply rtc_once, f_pause_main.
Defined.
