(* ===== verification/Rom64.v ===== *)
(** The ROM image of the 64-bit FPGA boot loader, as the build generates it for the simulation and the
    board ([fpga/src/bootrom/bootrom_64.h]): the words in order. [Rom] reads them. *)
From Stdlib Require Import ZArith List.
Import ListNotations.
Open Scope Z_scope.

Definition reset_vec_size_64 : Z := 1790.

(** The words, in parts of 150. *)
Definition reset_vec_64_0 : list Z :=
  [0x00800913; 0x30491073; 0x00000493; 0xf1402973; 0x03249663; 0x0210011b; 0x01a11113; 0x303000ef;
   0x020004b7; 0x00100913; 0x0124a023; 0x00448493; 0x02000937; 0x4009091b; 0xff24c6e3; 0x10500073;
   0x34402973; 0x00897913; 0xfe090ae3; 0x020004b7; 0xf1402973; 0x00291913; 0x00990933; 0x00092023;
   0x0004a903; 0xfe091ee3; 0x00448493; 0x02000937; 0x4009091b; 0xff24c6e3; 0xf1402573; 0x00001597;
   0xc8458593; 0x0010049b; 0x01f49493; 0x00048067; 0x00000000; 0x00000000; 0x00000000; 0x00000000;
   0x00000000; 0x00000000; 0x00000000; 0x00000000; 0x00000000; 0x00000000; 0x00000000; 0x00000000;
   0x00000000; 0x00000000; 0x00000000; 0x00000000; 0x00000000; 0x00000000; 0x00000000; 0x00000000;
   0x00000000; 0x00000000; 0x00000000; 0x00000000; 0x00000000; 0x00000000; 0x00000000; 0x00000000;
   0x00238082; 0x808200b5; 0x00054503; 0x07b78082; 0xc5031000; 0x75130147; 0x80820205; 0x10000737;
   0x01474783; 0x0207f793; 0x0023dfe5; 0x808200a7; 0x0045959b; 0x02b5553b; 0x100007b7; 0x00078223;
   0xf8000713; 0x00e78623; 0x0ff57713; 0x0085551b; 0x00e78023; 0x0ff57513; 0x00a78223; 0x8623470d;
   0x071300e7; 0x8423fc70; 0x071300e7; 0x88230200; 0x808200e7; 0xe0221141; 0x842ae406; 0x00044503;
   0x60a2e509; 0x01416402; 0xf0ef8082; 0x0405f93f; 0x1797b7f5; 0x87930000; 0x7713a6e7; 0x973e00f5;
   0x00074703; 0x97aa8111; 0x00e580a3; 0x0007c783; 0x00f58023; 0x71798082; 0xec26f022; 0xf406e84a;
   0x446184aa; 0xd53b5961; 0x002c0084; 0x0ff57513; 0xfc3ff0ef; 0x00814503; 0xf0ef3461; 0x4503f43f;
   0xf0ef0091; 0x10e3f3bf; 0x70a2ff24; 0x64e27402; 0x61456942; 0x71798082; 0xec26f022; 0xf406e84a;
   0x041384aa; 0x59610380; 0x0084d533; 0x7513002c; 0xf0ef0ff5; 0x4503f81f; 0x34610081; 0xf01ff0ef;
   0x00914503; 0xef9ff0ef; 0xff2410e3; 0x740270a2; 0x694264e2; 0x80826145; 0x002c1101; 0xf0efec06;
   0x4503f55f; 0xf0ef0081; 0x4503ed7f; 0x60e20091; 0xb5e96105; 0x8082c10c].

Definition reset_vec_64_1 : list Z :=
  [0x80824108; 0x00001517; 0x05131101; 0xec066ac5; 0xe426e822; 0xf09ff0ef; 0x200007b7; 0xc3b84729;
   0x000147a9; 0xfff537fd; 0x20000437; 0x10400793; 0x5064d03c; 0x00001517; 0x68c50513; 0xee1ff0ef;
   0x95132481; 0x91010204; 0xf57ff0ef; 0x00001517; 0x69450513; 0xec9ff0ef; 0x16600793; 0x5064d03c;
   0x00001517; 0x66050513; 0xeb5ff0ef; 0x95132481; 0x91010204; 0xf2bff0ef; 0x00001517; 0x66850513;
   0xe9dff0ef; 0xd03c4799; 0x60e26442; 0x151764a2; 0x05130000; 0x61056425; 0x1101b551; 0x200007b7;
   0xe822ec06; 0x5779e426; 0xd7a8dbb8; 0x06400793; 0x37fd0001; 0x07b7fff5; 0x07132000; 0xd3b81060;
   0x849353f8; 0x8b050647; 0x57e0ff65; 0x240153fc; 0xe3958b85; 0x00001517; 0x61450513; 0xe41ff0ef;
   0x15024088; 0xf0ef9101; 0x1517eb9f; 0x05130000; 0xf0ef5f65; 0x60e2e2bf; 0x200007b7; 0x7513577d;
   0x64420ff4; 0x4719dbb8; 0x64a2d3b8; 0x80826105; 0x10000793; 0x06b7ee63; 0x200007b7; 0xdbb85779;
   0x200006b7; 0x871b4781; 0x61630007; 0x079304b7; 0x00010320; 0xfff537fd; 0x10600713; 0x200007b7;
   0x0737d3b8; 0x537c2000; 0xfff58b85; 0x20000537; 0x20000837; 0x0007869b; 0x02b6e163; 0x200007b7;
   0xdbb8577d; 0xd3b84719; 0x80824501; 0x00f50733; 0x00074703; 0xd6b80785; 0x5178b77d; 0xff698b05;
   0x06c82683; 0x00f60733; 0x00230785; 0xb7d900d7; 0x8082557d; 0x0ff00513; 0x1101b709; 0xe822ec06;
   0x842ee426; 0xe04a84b2; 0xf0ef892a; 0x6513febf; 0xf0ef0409; 0x551bee9f; 0xf0ef0184; 0x551bee1f;
   0x75130104; 0xf0ef0ff5; 0x551bed5f; 0x75130084; 0xf0ef0ff5; 0x7513ec9f; 0xf0ef0ff4; 0x8526ec1f;
   0xebbff0ef; 0x06400413; 0xfadff0ef; 0x0185179b; 0x4187d79b; 0x0007d463; 0xf47d147d; 0x644260e2;
   0x690264a2; 0x80826105; 0xe4261101; 0x151784aa; 0x05130000; 0xec064f25; 0x842ee822; 0xd01ff0ef;
   0xf0ef8526; 0x1517cfbf; 0x05130000; 0xf0ef4ea5; 0x8522ceff; 0xdadff0ef; 0x60e26442; 0x151764a2;
   0x05130000; 0x61054a25; 0x1101b9d1; 0x6409e822; 0xec06e04a; 0x0413e426].

Definition reset_vec_64_2 : list Z :=
  [0x49057104; 0x09500613; 0x45014581; 0xf37ff0ef; 0x84aa347d; 0xf29ff0ef; 0x95e3c00d; 0x1517ff24;
   0x05130000; 0x45854aa5; 0xf89ff0ef; 0x60e24505; 0x64a26442; 0x61056902; 0x45018082; 0x1101bfcd;
   0x08700613; 0x1aa00593; 0xec064521; 0xe426e822; 0xf0efe04a; 0x892aef1f; 0xee5ff0ef; 0xee1ff0ef;
   0xeddff0ef; 0xf0ef84aa; 0x842aed7f; 0xed1ff0ef; 0xecdff0ef; 0x45014785; 0x00f91a63; 0x976388bd;
   0x24010124; 0xf5640413; 0x00143513; 0x644260e2; 0x690264a2; 0x80826105; 0x06131141; 0x45810650;
   0x03700513; 0xe022e406; 0xe9bff0ef; 0xf0ef842a; 0x1517e8ff; 0x85a20000; 0x41e50513; 0xef5ff0ef;
   0x051b60a2; 0x64020004; 0x3513157d; 0x01410015; 0x11018082; 0xec06e426; 0x4485e822; 0xfbdff0ef;
   0x07700613; 0x400005b7; 0x02900513; 0xe57ff0ef; 0x85aa842a; 0x00001517; 0x3e450513; 0xeb5ff0ef;
   0xe3dff0ef; 0xfc940ce3; 0x051b60e2; 0x64420004; 0x351364a2; 0x61050015; 0x11418082; 0xe022e406;
   0xc8dff0ef; 0x00001517; 0x3bc50513; 0xb99ff0ef; 0x347d4429; 0xe09ff0ef; 0xf0effc6d; 0x57fdeb9f;
   0xf0efc911; 0x57f9efdf; 0xf0efc511; 0x4781f89f; 0x57f5e111; 0x640260a2; 0x0141853e; 0x8de98082;
   0x0075d79b; 0x0045d51b; 0x75138d3d; 0x8d2d0ff5; 0x0045179b; 0x0ff7f793; 0x75138d3d; 0x808207f5;
   0x0085179b; 0x0085551b; 0x17c28fc9; 0x8dbd93c1; 0x0045d51b; 0x8d2d893d; 0x00c5179b; 0x171b8d3d;
   0x571b0105; 0x67890107; 0x0057171b; 0x8ff91781; 0x15428d3d; 0x80829141; 0xe1a27155; 0x842ef94a;
   0x0593ed56; 0x8aaa0ff0; 0x02061913; 0x0613850a; 0xe5860800; 0xf54efd26; 0xe95af152; 0x00efe55e;
   0x559b3e60; 0x45010184; 0xf77ff0ef; 0x0104559b; 0x0ff5f593; 0xf6bff0ef; 0x0084559b; 0x0ff5f593;
   0xf5fff0ef; 0x0ff47593; 0xf57ff0ef; 0x0015161b; 0x00166613; 0x0ff67613; 0x454985a2; 0xd27ff0ef;
   0x5913e959; 0x09930209; 0x0a130fe0; 0xf0ef3e80; 0x1ee3d0ff; 0x8456ff35; 0x8b134481; 0x8622200a;
   0x04000593; 0xf0ef850a; 0x4a81c73f; 0x04000b93; 0x015407b3; 0x0007c583].

Definition reset_vec_64_3 : list Z :=
  [0x0a858526; 0xf25ff0ef; 0x97e384aa; 0x0413ff7a; 0x1ae30404; 0xf0effd64; 0x8aa2ccff; 0x0085141b;
   0x90411442; 0xcc1ff0ef; 0x14428c49; 0x24819041; 0x06941a63; 0x034967b3; 0x1517e799; 0x05130000;
   0xf0ef2865; 0x197da2bf; 0xf92047e3; 0x46054401; 0x45314581; 0xc97ff0ef; 0xc8dff0ef; 0xf0efa805;
   0xf0efc87f; 0xf0efc83f; 0xf0efc7ff; 0xf0efc7bf; 0xf0efc77f; 0xf0efc73f; 0xf0efc6ff; 0x1517c6bf;
   0x05130000; 0xf0ef2225; 0x547d9e7f; 0x852260ae; 0x74ea640e; 0x79aa794a; 0x6aea7a0a; 0x6baa6b4a;
   0x80826169; 0xb7655479; 0xe0a2715d; 0xe486f052; 0xf84afc26; 0xec56f44e; 0xe45ee85a; 0x0880e062;
   0xf0ef8a2a; 0xc51de01f; 0x00001517; 0x20050513; 0x99dff0ef; 0x011354fd; 0x60a6fb04; 0x64068526;
   0x794274e2; 0x7a0279a2; 0x6b426ae2; 0x6c026ba2; 0x80826161; 0x00001517; 0x1fc50513; 0x971ff0ef;
   0x46057101; 0x850a4585; 0xe59ff0ef; 0x84aa890a; 0x1517c905; 0x05130000; 0xf0ef1f65; 0x1517953f;
   0x05130000; 0xf0ef2025; 0x8526947f; 0x9c3ff0ef; 0x00001517; 0x10050513; 0x935ff0ef; 0xbf6154f9;
   0x00001517; 0x1f850513; 0x925ff0ef; 0x00001517; 0x20c50513; 0x919ff0ef; 0xf0ef6502; 0x1517995f;
   0x05130000; 0xf0ef20a5; 0x4522907f; 0x943ff0ef; 0x00001517; 0x20850513; 0x8f5ff0ef; 0xf0ef4532;
   0x1517931f; 0x05130000; 0xf0ef2065; 0x45428e3f; 0x91fff0ef; 0x00001517; 0x20450513; 0x8d1ff0ef;
   0xf0ef4552; 0x151790df; 0x05130000; 0xf0ef2025; 0x65628bff; 0x93bff0ef; 0x00001517; 0x20850513;
   0x8adff0ef; 0xf0ef7502; 0x1517929f; 0x05130000; 0xf0ef2065; 0x652689bf; 0x917ff0ef; 0x00001517;
   0x21450513; 0x889ff0ef; 0xf0ef4546; 0x15178c5f; 0x05130000; 0xf0ef2225; 0x4556877f; 0x8b3ff0ef;
   0x00001517; 0x03050513; 0x865ff0ef; 0x04892583; 0x46057101; 0xf0ef850a; 0x8a8ad4bf; 0x1004892a;
   0x10051b63; 0x4b114bc1; 0x00001517; 0x20850513; 0x83dff0ef; 0x0ff97513; 0x8f9ff0ef; 0x00001517;
   0x20c50513; 0xfe048c13; 0x825ff0ef; 0x07b34981; 0xc503013c; 0x09850007].

Definition reset_vec_64_4 : list Z :=
  [0x8d9ff0ef; 0xff7999e3; 0x00001517; 0x20850513; 0x805ff0ef; 0xff048993; 0x0009c503; 0xf0ef0985;
   0x9be38bbf; 0x1517ff34; 0x05130000; 0xf0ef20a5; 0x6088fe6f; 0x01848993; 0x06048c13; 0x85bff0ef;
   0x00001517; 0x20050513; 0xfccff0ef; 0xf0ef6488; 0x1517849f; 0x05130000; 0xf0ef1fe5; 0x6888fbaf;
   0x837ff0ef; 0x00001517; 0x1fc50513; 0xfa8ff0ef; 0x0009c503; 0xf0ef0985; 0x9be3863f; 0x1517ff89;
   0x05130000; 0x2905f5a5; 0xf8cff0ef; 0x08048493; 0xf56910e3; 0x00001517; 0x1dc50513; 0xf78ff0ef;
   0x028ab603; 0x020aa583; 0x26058552; 0xf0ef9e0d; 0x84aac5bf; 0x1517c929; 0x05130000; 0xf0efffa5;
   0x1517f56f; 0x05130000; 0xf0ef0065; 0x8526f4af; 0xfc6ff0ef; 0x00001517; 0xf0450513; 0x1517b511;
   0x05130000; 0xf0effd25; 0x1517f2ef; 0x05130000; 0xf0effde5; 0x854af22f; 0xf9eff0ef; 0x00001517;
   0xedc50513; 0x1517bbf1; 0x05130000; 0xf0ef1825; 0xb3b5f06f; 0x872a433d; 0x02c37163; 0x00f77793;
   0xe1bde3c1; 0xff067693; 0x96ba8a3d; 0xe70ce30c; 0x6de30741; 0xe211fed7; 0x06b38082; 0x068a40c3;
   0x00000297; 0x80679696; 0x072300a6; 0x06a300b7; 0x062300b7; 0x05a300b7; 0x052300b7; 0x04a300b7;
   0x042300b7; 0x03a300b7; 0x032300b7; 0x02a300b7; 0x022300b7; 0x01a300b7; 0x012300b7; 0x00a300b7;
   0x002300b7; 0x808200b7; 0x0ff5f593; 0x00859693; 0x96938dd5; 0x8dd50105; 0x02059693; 0xb7598dd5;
   0x00279693; 0x00000297; 0x82869696; 0xfa2680e7; 0x17c18096; 0x963e8f1d; 0xf8c371e3; 0x65f1b79d;
   0x02faf537; 0x85931141; 0x05132005; 0xe4060805; 0xe00ff0ef; 0x00001517; 0xdc450513; 0xe38ff0ef;
   0x65a14505; 0xf0ef057e; 0xe909c6bf; 0x0010041b; 0x0597047e; 0x85930000; 0x84021ae5; 0x0000a001;
   0x00000000; 0x00000000; 0x00000000; 0x00000000; 0x00000000; 0x00000000; 0x00000000; 0x00000000;
   0x00000000; 0x00000000; 0x00000000; 0x00000000; 0x00000000; 0x00000000; 0x00000000; 0x00000000;
   0x00000000; 0x00000000; 0x00000000; 0x00000000; 0x00000000; 0x00000000].

Definition reset_vec_64_5 : list Z :=
  [0x00000000; 0x00000000; 0x00000000; 0x00000000; 0x00000000; 0x00000000; 0x00000000; 0x00000000;
   0x00000000; 0x00000000; 0x00000000; 0x00000000; 0x00000000; 0x00000000; 0x00000000; 0x00000000;
   0x00000000; 0x00000000; 0x33323130; 0x37363534; 0x42413938; 0x46454443; 0x00000000; 0x00000000;
   0x00000000; 0x00000000; 0x00000000; 0x00000000; 0x00000000; 0x00000000; 0x00000000; 0x00000000;
   0x00000000; 0x00000000; 0x00000000; 0x00000000; 0x00000000; 0x00000000; 0x00000000; 0x00000000;
   0x00000000; 0x00000000; 0x00000000; 0x00000000; 0x00000000; 0x00000000; 0x00000000; 0x00000000;
   0x00000000; 0x00000000; 0x00000000; 0x00000000; 0x00000000; 0x00000000; 0x00000000; 0x00000000;
   0x00000000; 0x00000000; 0x00000000; 0x00000000; 0x00000000; 0x00000000; 0x00000000; 0x00000000;
   0x00000000; 0x00000000; 0x00000000; 0x00000000; 0x00000000; 0x00000000; 0x00000000; 0x00000000;
   0x00000000; 0x00000000; 0x00000000; 0x00000000; 0x00000000; 0x00000000; 0x00000000; 0x00000000;
   0x00000000; 0x00000000; 0xedfe0dd0; 0xf20b0000; 0x38000000; 0x20090000; 0x28000000; 0x11000000;
   0x10000000; 0x00000000; 0xd2020000; 0xe8080000; 0x00000000; 0x00000000; 0x00000000; 0x00000000;
   0x01000000; 0x00000000; 0x03000000; 0x04000000; 0x00000000; 0x02000000; 0x03000000; 0x04000000;
   0x0f000000; 0x02000000; 0x03000000; 0x14000000; 0x1b000000; 0x2c687465; 0x61697261; 0x622d656e;
   0x2d657261; 0x00766564; 0x03000000; 0x10000000; 0x26000000; 0x2c687465; 0x61697261; 0x622d656e;
   0x00657261; 0x01000000; 0x736f6863; 0x00006e65; 0x03000000; 0x1a000000; 0x2c000000; 0x636f732f;
   0x7261752f; 0x30314074; 0x30303030; 0x313a3030; 0x30323531; 0x00000030; 0x02000000; 0x01000000;
   0x73757063; 0x00000000; 0x03000000; 0x04000000; 0x00000000; 0x01000000; 0x03000000; 0x04000000;
   0x0f000000; 0x00000000; 0x03000000; 0x04000000; 0x38000000; 0x40787d01].

Definition reset_vec_64_6 : list Z :=
  [0x01000000; 0x40757063; 0x00000030; 0x03000000; 0x04000000; 0x4b000000; 0x80f0fa02; 0x03000000;
   0x04000000; 0x5b000000; 0x00757063; 0x03000000; 0x04000000; 0x67000000; 0x00000000; 0x03000000;
   0x05000000; 0x6b000000; 0x79616b6f; 0x00000000; 0x03000000; 0x12000000; 0x1b000000; 0x2c687465;
   0x69726120; 0x00656e61; 0x63736972; 0x00000076; 0x03000000; 0x0b000000; 0x72000000; 0x34367672;
   0x66616d69; 0x00006364; 0x03000000; 0x0b000000; 0x7c000000; 0x63736972; 0x76732c76; 0x00003933;
   0x03000000; 0x00000000; 0x85000000; 0x01000000; 0x65746e69; 0x70757272; 0x6f632d74; 0x6f72746e;
   0x72656c6c; 0x00000000; 0x03000000; 0x04000000; 0x8f000000; 0x01000000; 0x03000000; 0x00000000;
   0xa0000000; 0x03000000; 0x0f000000; 0x1b000000; 0x63736972; 0x70632c76; 0x6e692d75; 0x00006374;
   0x03000000; 0x04000000; 0xb5000000; 0x02000000; 0x02000000; 0x02000000; 0x02000000; 0x01000000;
   0x6f6d656d; 0x38407972; 0x30303030; 0x00303030; 0x03000000; 0x07000000; 0x5b000000; 0x6f6d656d;
   0x00007972; 0x03000000; 0x10000000; 0x67000000; 0x00000000; 0x00000080; 0x00000000; 0x00000040;
   0x02000000; 0x01000000; 0x7364656c; 0x00000000; 0x03000000; 0x0a000000; 0x1b000000; 0x6f697067;
   0x64656c2d; 0x00000073; 0x01000000; 0x72616568; 0x61656274; 0x656c2d74; 0x00000064; 0x03000000;
   0x0c000000; 0xbd000000; 0x01000000; 0x01000000; 0x00000000; 0x03000000; 0x0a000000; 0xc3000000;
   0x72616568; 0x61656274; 0x00000074; 0x03000000; 0x00000000; 0xd9000000; 0x02000000; 0x02000000;
   0x01000000; 0x00636f73; 0x03000000; 0x04000000; 0x00000000; 0x02000000; 0x03000000; 0x04000000;
   0x0f000000; 0x02000000; 0x03000000; 0x1f000000; 0x1b000000; 0x2c687465; 0x61697261; 0x622d656e;
   0x2d657261; 0x00636f73; 0x706d6973; 0x622d656c; 0x00007375; 0x03000000; 0x00000000; 0xf0000000;
   0x01000000; 0x6e696c63; 0x30324074; 0x30303030; 0x00000030; 0x03000000].

Definition reset_vec_64_7 : list Z :=
  [0x0d000000; 0x1b000000; 0x63736972; 0x6c632c76; 0x30746e69; 0x00000000; 0x03000000; 0x10000000;
   0xf7000000; 0x02000000; 0x03000000; 0x02000000; 0x07000000; 0x03000000; 0x10000000; 0x67000000;
   0x00000000; 0x00000002; 0x00000000; 0x00000c00; 0x03000000; 0x08000000; 0x0b010000; 0x746e6f63;
   0x006c6f72; 0x02000000; 0x01000000; 0x65746e69; 0x70757272; 0x6f632d74; 0x6f72746e; 0x72656c6c;
   0x30306340; 0x30303030; 0x00000000; 0x03000000; 0x04000000; 0x00000000; 0x00000000; 0x03000000;
   0x04000000; 0x8f000000; 0x01000000; 0x03000000; 0x0c000000; 0x1b000000; 0x63736972; 0x6c702c76;
   0x00306369; 0x03000000; 0x00000000; 0xa0000000; 0x03000000; 0x10000000; 0xf7000000; 0x02000000;
   0x0b000000; 0x02000000; 0x09000000; 0x03000000; 0x10000000; 0x67000000; 0x00000000; 0x0000000c;
   0x00000000; 0x00000004; 0x03000000; 0x04000000; 0x15010000; 0x07000000; 0x03000000; 0x04000000;
   0x28010000; 0x1e000000; 0x03000000; 0x04000000; 0xb5000000; 0x03000000; 0x02000000; 0x01000000;
   0x74726175; 0x30303140; 0x30303030; 0x00000030; 0x03000000; 0x09000000; 0x1b000000; 0x3631736e;
   0x61303535; 0x00000000; 0x03000000; 0x10000000; 0x67000000; 0x00000000; 0x00000010; 0x00000000;
   0x00100000; 0x03000000; 0x04000000; 0x4b000000; 0x80f0fa02; 0x03000000; 0x04000000; 0x33010000;
   0x00c20100; 0x03000000; 0x04000000; 0x41010000; 0x03000000; 0x03000000; 0x04000000; 0x52010000;
   0x01000000; 0x03000000; 0x04000000; 0x5d010000; 0x02000000; 0x03000000; 0x04000000; 0x67010000;
   0x04000000; 0x02000000; 0x01000000; 0x656d6974; 0x38314072; 0x30303030; 0x00003030; 0x03000000;
   0x0f000000; 0x1b000000; 0x706c7570; 0x6270612c; 0x6d69745f; 0x00007265; 0x03000000; 0x10000000;
   0x52010000; 0x04000000; 0x05000000; 0x06000000; 0x07000000; 0x03000000; 0x10000000; 0x67000000;
   0x00000000; 0x00000018; 0x00000000; 0x00100000; 0x03000000; 0x04000000].

Definition reset_vec_64_8 : list Z :=
  [0x41010000; 0x03000000; 0x03000000; 0x08000000; 0x0b010000; 0x746e6f63; 0x006c6f72; 0x02000000;
   0x01000000; 0x2d737078; 0x40697073; 0x30303032; 0x30303030; 0x00000000; 0x03000000; 0x28000000;
   0x1b000000; 0x786e6c78; 0x7370782c; 0x6970732d; 0x302e322d; 0x00622e30; 0x786e6c78; 0x7370782c;
   0x6970732d; 0x302e322d; 0x00612e30; 0x03000000; 0x04000000; 0x00000000; 0x01000000; 0x03000000;
   0x04000000; 0x0f000000; 0x00000000; 0x03000000; 0x04000000; 0x41010000; 0x03000000; 0x03000000;
   0x08000000; 0x52010000; 0x02000000; 0x02000000; 0x03000000; 0x10000000; 0x67000000; 0x00000000;
   0x00000020; 0x00000000; 0x00100000; 0x03000000; 0x08000000; 0x74010000; 0x746e696b; 0x00377865;
   0x03000000; 0x04000000; 0x80010000; 0x01000000; 0x03000000; 0x04000000; 0x90010000; 0x01000000;
   0x03000000; 0x04000000; 0xa1010000; 0x08000000; 0x03000000; 0x04000000; 0xb8010000; 0x04000000;
   0x01000000; 0x40636d6d; 0x00000030; 0x03000000; 0x0d000000; 0x1b000000; 0x2d636d6d; 0x2d697073;
   0x746f6c73; 0x00000000; 0x03000000; 0x04000000; 0x67000000; 0x00000000; 0x03000000; 0x04000000;
   0xc7010000; 0x20bcbe00; 0x03000000; 0x08000000; 0xd9010000; 0xe40c0000; 0xe40c0000; 0x03000000;
   0x00000000; 0xe8010000; 0x02000000; 0x02000000; 0x01000000; 0x72776f6c; 0x2d637369; 0x40687465;
   0x30303033; 0x30303030; 0x00000000; 0x03000000; 0x0c000000; 0x1b000000; 0x72776f6c; 0x2d637369;
   0x00687465; 0x03000000; 0x08000000; 0x5b000000; 0x7774656e; 0x006b726f; 0x03000000; 0x04000000;
   0x41010000; 0x03000000; 0x03000000; 0x08000000; 0x52010000; 0x03000000; 0x00000000; 0x03000000;
   0x06000000; 0xf3010000; 0x023e1800; 0x00007fe3; 0x03000000; 0x10000000; 0x67000000; 0x00000000;
   0x00000030; 0x00000000; 0x00800000; 0x02000000; 0x01000000; 0x6f697067; 0x30303440; 0x30303030;
   0x00000030; 0x03000000; 0x04000000; 0x05020000; 0x02000000; 0x03000000].

Definition reset_vec_64_9 : list Z :=
  [0x15000000; 0x1b000000; 0x786e6c78; 0x7370782c; 0x6970672d; 0x2e312d6f; 0x612e3030; 0x00000000;
   0x03000000; 0x00000000; 0x11020000; 0x03000000; 0x10000000; 0x67000000; 0x00000000; 0x00000040;
   0x00000000; 0x00000100; 0x03000000; 0x04000000; 0x21020000; 0x00000000; 0x03000000; 0x04000000;
   0x31020000; 0x00000000; 0x03000000; 0x04000000; 0x43020000; 0x00000000; 0x03000000; 0x04000000;
   0x55020000; 0x00000000; 0x03000000; 0x04000000; 0x69020000; 0x08000000; 0x03000000; 0x04000000;
   0x79020000; 0x08000000; 0x03000000; 0x04000000; 0x8a020000; 0x00000000; 0x03000000; 0x04000000;
   0xa1020000; 0x01000000; 0x03000000; 0x04000000; 0xae020000; 0xffffffff; 0x03000000; 0x04000000;
   0xbf020000; 0xffffffff; 0x03000000; 0x04000000; 0xb5000000; 0x01000000; 0x02000000; 0x02000000;
   0x02000000; 0x09000000; 0x64646123; 0x73736572; 0x6c65632d; 0x2300736c; 0x657a6973; 0x6c65632d;
   0x6300736c; 0x61706d6f; 0x6c626974; 0x6f6d0065; 0x006c6564; 0x6f647473; 0x702d7475; 0x00687461;
   0x656d6974; 0x65736162; 0x6572662d; 0x6e657571; 0x63007963; 0x6b636f6c; 0x6572662d; 0x6e657571;
   0x64007963; 0x63697665; 0x79745f65; 0x72006570; 0x73006765; 0x75746174; 0x69720073; 0x2c766373;
   0x00617369; 0x2d756d6d; 0x65707974; 0x626c7400; 0x6c70732d; 0x23007469; 0x65746e69; 0x70757272;
   0x65632d74; 0x00736c6c; 0x65746e69; 0x70757272; 0x6f632d74; 0x6f72746e; 0x72656c6c; 0x61687000;
   0x656c646e; 0x69706700; 0x6c00736f; 0x78756e69; 0x6665642c; 0x746c7561; 0x6972742d; 0x72656767;
   0x74657200; 0x2d6e6961; 0x74617473; 0x75732d65; 0x6e657073; 0x00646564; 0x676e6172; 0x69007365;
   0x7265746e; 0x74707572; 0x78652d73; 0x646e6574; 0x72006465; 0x6e2d6765; 0x73656d61; 0x73697200;
   0x6d2c7663; 0x702d7861; 0x726f6972; 0x00797469; 0x63736972; 0x646e2c76; 0x63007665; 0x65727275;
   0x732d746e; 0x64656570; 0x746e6900; 0x75727265; 0x702d7470; 0x6e657261].

Definition reset_vec_64_10 : list Z :=
  [0x6e690074; 0x72726574; 0x73747075; 0x67657200; 0x6968732d; 0x72007466; 0x692d6765; 0x69772d6f;
   0x00687464; 0x786e6c78; 0x6d61662c; 0x00796c69; 0x786e6c78; 0x6669662c; 0x78652d6f; 0x00747369;
   0x786e6c78; 0x6d756e2c; 0x2d73732d; 0x73746962; 0x6e6c7800; 0x756e2c78; 0x72742d6d; 0x66736e61;
   0x622d7265; 0x00737469; 0x786e6c78; 0x6b63732c; 0x7461722d; 0x73006f69; 0x6d2d6970; 0x662d7861;
   0x75716572; 0x79636e65; 0x6c6f7600; 0x65676174; 0x6e61722d; 0x00736567; 0x61736964; 0x2d656c62;
   0x6c007077; 0x6c61636f; 0x63616d2d; 0x6464612d; 0x73736572; 0x70672300; 0x632d6f69; 0x736c6c65;
   0x69706700; 0x6f632d6f; 0x6f72746e; 0x72656c6c; 0x6e6c7800; 0x6c612c78; 0x6e692d6c; 0x73747570;
   0x6e6c7800; 0x6c612c78; 0x6e692d6c; 0x73747570; 0x7800322d; 0x2c786e6c; 0x74756f64; 0x6665642d;
   0x746c7561; 0x6e6c7800; 0x6f642c78; 0x642d7475; 0x75616665; 0x322d746c; 0x6e6c7800; 0x70672c78;
   0x772d6f69; 0x68746469; 0x6e6c7800; 0x70672c78; 0x2d326f69; 0x74646977; 0x6c780068; 0x692c786e;
   0x7265746e; 0x74707572; 0x6572702d; 0x746e6573; 0x6e6c7800; 0x73692c78; 0x6175642d; 0x6c78006c;
   0x742c786e; 0x642d6972; 0x75616665; 0x7800746c; 0x2c786e6c; 0x2d697274; 0x61666564; 0x2d746c75;
   0x00000032; 0x00000000; 0x6c6c6548; 0x6f57206f; 0x21646c72; 0x00000a0d; 0x74696e69; 0x49505320;
   0x00000a0d; 0x00000000; 0x74617473; 0x203a7375; 0x00007830; 0x00000000; 0x20495053; 0x74696e69;
   0x696c6169; 0x2164657a; 0x00000a0d; 0x00000000; 0x66207872; 0x206f6669; 0x20746f6e; 0x74706d65;
   0x203f3f79; 0x00000000; 0x63204453; 0x616d6d6f; 0x0020646e; 0x00000000; 0x65720920; 0x6e6f7073;
   0x3a206573; 0x00000020; 0x30646d63; 0x00000000; 0x35646d63; 0x00000035; 0x34646d63; 0x00000031;
   0x74696e69; 0x696c6169; 0x676e697a; 0x2e445320; 0x0d202e2e; 0x0000000a; 0x6c756f63; 0x6f6e2064;
   0x65722074; 0x53206461; 0x6c622044; 0x0d6b636f; 0x0000000a; 0x00000000].

Definition reset_vec_64_11 : list Z :=
  [0x0000002e; 0x00000000; 0x6c756f63; 0x6f6e2064; 0x6e692074; 0x61697469; 0x657a696c; 0x2e647320;
   0x65202e2e; 0x69746978; 0x0a0d676e; 0x00000000; 0x69206473; 0x6974696e; 0x7a696c61; 0x0d216465;
   0x0000000a; 0x00000000; 0x63204453; 0x20647261; 0x6c696166; 0x0d216465; 0x0000000a; 0x00000000;
   0x63206473; 0x2079706f; 0x75746572; 0x76206e72; 0x65756c61; 0x0000203a; 0x20747067; 0x74726170;
   0x6f697469; 0x6174206e; 0x20656c62; 0x64616568; 0x003a7265; 0x00000000; 0x73090a0d; 0x616e6769;
   0x65727574; 0x0000093a; 0x72090a0d; 0x73697665; 0x3a6e6f69; 0x00000009; 0x73090a0d; 0x3a657a69;
   0x00000909; 0x00000000; 0x63090a0d; 0x685f6372; 0x65646165; 0x00093a72; 0x72090a0d; 0x72657365;
   0x3a646576; 0x00000009; 0x63090a0d; 0x65727275; 0x6c20746e; 0x093a6162; 0x00000000; 0x00000000;
   0x62090a0d; 0x756b6361; 0x646c2070; 0x00093a61; 0x70090a0d; 0x69747261; 0x6e6f6974; 0x746e6520;
   0x73656972; 0x61626c20; 0x2020203a; 0x00000009; 0x6e090a0d; 0x65626d75; 0x61702072; 0x74697472;
   0x206e6f69; 0x72746e65; 0x3a736569; 0x00000009; 0x73090a0d; 0x20657a69; 0x74726170; 0x6f697469;
   0x6e65206e; 0x65697274; 0x20203a73; 0x00000009; 0x20747067; 0x74726170; 0x6f697469; 0x6e65206e;
   0x20797274; 0x00000000; 0x70090a0d; 0x69747261; 0x6e6f6974; 0x70797420; 0x75672065; 0x093a6469;
   0x00000000; 0x00000000; 0x70090a0d; 0x69747261; 0x6e6f6974; 0x69756720; 0x20203a64; 0x09202020;
   0x00000000; 0x00000000; 0x66090a0d; 0x74737269; 0x61626c20; 0x0000093a; 0x6c090a0d; 0x20747361;
   0x3a61626c; 0x00000009; 0x61090a0d; 0x69727474; 0x65747562; 0x00093a73; 0x6e090a0d; 0x3a656d61;
   0x00000009; 0x00000000; 0x79706f63; 0x20676e69; 0x746f6f62; 0x616d6920; 0x00206567; 0x00000000;
   0x6e6f6420; 0x0a0d2165; 0x00000000; 0x00000000].

Definition reset_vec_64 : list Z :=
  reset_vec_64_0 ++ reset_vec_64_1 ++ reset_vec_64_2 ++ reset_vec_64_3 ++ reset_vec_64_4
  ++ reset_vec_64_5 ++ reset_vec_64_6 ++ reset_vec_64_7 ++ reset_vec_64_8 ++
  reset_vec_64_9 ++ reset_vec_64_10 ++ reset_vec_64_11.
