(* ===== verification/Rom32.v ===== *)
(** The ROM image of the 32-bit FPGA boot loader ([fpga/src/bootrom/bootrom_32.h]): the words in order.
    [Rom] reads them. *)
From Stdlib Require Import ZArith List.
Import ListNotations.
Open Scope Z_scope.

Definition reset_vec_size_32 : Z := 1976.

(** The words, in parts of 150. *)
Definition reset_vec_32_0 : list Z :=
  [0x00800913; 0x30491073; 0x00000493; 0xf1402973; 0x03249463; 0x84000137; 0x685000ef; 0x020004b7;
   0x00100913; 0x0124a023; 0x00448493; 0x02000937; 0x40090913; 0xff24c6e3; 0x10500073; 0x34402973;
   0x00897913; 0xfe090ae3; 0x020004b7; 0xf1402973; 0x00291913; 0x00990933; 0x00092023; 0x0004a903;
   0xfe091ee3; 0x00448493; 0x02000937; 0x40090913; 0xff24c6e3; 0xf1402573; 0x00001597; 0xf8858593;
   0x800004b7; 0x00048067; 0x00000000; 0x00000000; 0x00000000; 0x00000000; 0x00000000; 0x00000000;
   0x00000000; 0x00000000; 0x00000000; 0x00000000; 0x00000000; 0x00000000; 0x00000000; 0x00000000;
   0x00000000; 0x00000000; 0x00000000; 0x00000000; 0x00000000; 0x00000000; 0x00000000; 0x00000000;
   0x00000000; 0x00000000; 0x00000000; 0x00000000; 0x00000000; 0x00000000; 0x00000000; 0x00000000;
   0x00008067; 0x00b50023; 0x00008067; 0x00054503; 0x00008067; 0x100007b7; 0x0147c503; 0x02057513;
   0x00008067; 0x10000737; 0x01474783; 0x0207f793; 0xfe078ce3; 0x00a70023; 0x00008067; 0x00459593;
   0x02b55533; 0x100007b7; 0x00078223; 0xf8000713; 0x00e78623; 0x0ff57713; 0x00855513; 0x00e78023;
   0x0ff57513; 0x00a78223; 0x00300713; 0x00e78623; 0xfc700713; 0x00e78423; 0x02000713; 0x00e78823;
   0x00008067; 0x00054683; 0x02068263; 0x10000737; 0x01474783; 0x0207f793; 0xfe078ce3; 0x00d70023;
   0x00150513; 0x00054683; 0xfe0694e3; 0x00008067; 0x00001797; 0xd5078793; 0x00f57713; 0x00e78733;
   0x00074703; 0x00455513; 0x00a787b3; 0x00e580a3; 0x0007c783; 0x00f58023; 0x00008067; 0x00001597;
   0x01800693; 0xd2458593; 0x10000737; 0xff800893; 0x00d557b3; 0x0ff7f793; 0x00f7f613; 0x0047d793;
   0x00c58633; 0x00f587b3; 0x00064603; 0x0007c803; 0x01474783; 0x0207f793; 0xfe078ce3; 0x01070023;
   0x01474783; 0x0207f793; 0xfe078ce3; 0x00c70023; 0xff868693; 0xfb169ee3; 0x00008067; 0x00001817;
   0x03800693; 0xcc480813; 0x00159e93; 0x01f00e13; 0x10000737; 0xff800313].

Definition reset_vec_32_1 : list Z :=
  [0xfe068793; 0x0407c863; 0x00f5d7b3; 0x0ff7f793; 0x00f7f613; 0x0047d793; 0x00c80633; 0x00f807b3;
   0x00064603; 0x0007c883; 0x01474783; 0x0207f793; 0xfe078ce3; 0x01170023; 0x01474783; 0x0207f793;
   0xfe078ce3; 0x00c70023; 0xff868693; 0xfa669ae3; 0x00008067; 0x40de0633; 0x00ce9633; 0x00d557b3;
   0x00f667b3; 0xfa9ff06f; 0x00001797; 0xc4078793; 0x00f57713; 0x00455513; 0x00e78733; 0x00a787b3;
   0x0007c603; 0x00074683; 0x10000737; 0x01474783; 0x0207f793; 0xfe078ce3; 0x00c70023; 0x10000737;
   0x01474783; 0x0207f793; 0xfe078ce3; 0x00d70023; 0x00008067; 0x00b52023; 0x00008067; 0x00052503;
   0x00008067; 0x00002517; 0xff010113; 0x91450513; 0x00112623; 0x00812423; 0x00912223; 0xe51ff0ef;
   0x200007b7; 0x00a00713; 0x04e7a023; 0x00a00793; 0x00000013; 0xfff78793; 0xfe079ce3; 0x20000437;
   0x10400793; 0x06f42023; 0x06442483; 0x00002517; 0x8d850513; 0xe19ff0ef; 0x00000593; 0x00048513;
   0xec5ff0ef; 0x00002517; 0x8dc50513; 0xe01ff0ef; 0x16600793; 0x06f42023; 0x06442483; 0x00002517;
   0x8a850513; 0xde9ff0ef; 0x00048513; 0x00000593; 0xe95ff0ef; 0x00002517; 0x8ac50513; 0xdd1ff0ef;
   0x00600793; 0x06f42023; 0x00812403; 0x00c12083; 0x00412483; 0x00002517; 0x87c50513; 0x01010113;
   0xdadff06f; 0xff010113; 0x200007b7; 0x00112623; 0x00812423; 0x00912223; 0xffe00713; 0x06e7a823;
   0x06a7a423; 0x06400793; 0x00000013; 0xfff78793; 0xfe079ce3; 0x10600713; 0x200007b7; 0x06e7a023;
   0x20000737; 0x06472783; 0x06470413; 0x0017f793; 0xfe079ae3; 0x06c72483; 0x06472783; 0x0017f793;
   0x02078863; 0x200007b7; 0xfff00713; 0x00c12083; 0x00812403; 0x06e7a823; 0x00600713; 0x06e7a023;
   0x0ff4f513; 0x00412483; 0x01010113; 0x00008067; 0x00001517; 0x7f450513; 0xd15ff0ef; 0x00042503;
   0x00000593; 0xdc1ff0ef; 0x00001517; 0x7d850513; 0xcfdff0ef; 0xfb1ff06f; 0x10000793; 0x0ab7e063;
   0xffe00713; 0x200007b7; 0x06e7a823; 0x00b506b3; 0x20000737; 0x00058a63].

Definition reset_vec_32_2 : list Z :=
  [0x00054783; 0x00150513; 0x06f72423; 0xfed51ae3; 0x03200793; 0x00000013; 0xfff78793; 0xfe079ce3;
   0x10600713; 0x200007b7; 0x06e7a023; 0x20000737; 0x06472783; 0x0017f793; 0xfe079ce3; 0x00b605b3;
   0x20000737; 0x200006b7; 0x02c58063; 0x06472783; 0x0017f793; 0xfe079ae3; 0x06c6a783; 0x00160613;
   0xfef60fa3; 0xfec594e3; 0x200007b7; 0xfff00713; 0x06e7a823; 0x00600713; 0x06e7a023; 0x00000513;
   0x00008067; 0xfff00513; 0x00008067; 0x0ff00513; 0xe9dff06f; 0xff010113; 0x01212023; 0x00050913;
   0x0ff00513; 0x00112623; 0x00812423; 0x00912223; 0x00058413; 0x00060493; 0xe75ff0ef; 0x04096513;
   0xe6dff0ef; 0x01845513; 0xe65ff0ef; 0x01045513; 0x0ff57513; 0xe59ff0ef; 0x00845513; 0x0ff57513;
   0xe4dff0ef; 0x0ff47513; 0xe45ff0ef; 0x00048513; 0xe3dff0ef; 0x06400413; 0x0080006f; 0x00040e63;
   0x0ff00513; 0xe29ff0ef; 0x01851793; 0x4187d793; 0xfff40413; 0xfe07c4e3; 0x00c12083; 0x00812403;
   0x00412483; 0x00012903; 0x01010113; 0x00008067; 0xff010113; 0x00912223; 0x00050493; 0x00001517;
   0x68850513; 0x00112623; 0x00812423; 0x00058413; 0xb85ff0ef; 0x00048513; 0xb7dff0ef; 0x00001517;
   0x67450513; 0xb71ff0ef; 0x00040513; 0xca5ff0ef; 0x00812403; 0x00c12083; 0x00412483; 0x00001517;
   0x62c50513; 0x01010113; 0xb4dff06f; 0xff010113; 0x09500613; 0x00000593; 0x00000513; 0x00112623;
   0x00812423; 0x00912223; 0x01212023; 0xee9ff0ef; 0x00050493; 0x00002437; 0x0ff00513; 0xd71ff0ef;
   0x70f40413; 0x00100913; 0x0180006f; 0xec9ff0ef; 0x00050493; 0x0ff00513; 0xd55ff0ef; 0x04040263;
   0x09500613; 0x00000593; 0x00000513; 0xfff40413; 0xfd249ee3; 0x00001517; 0x5ec50513; 0x00100593;
   0xf31ff0ef; 0x00c12083; 0x00812403; 0x00412483; 0x00012903; 0x00100513; 0x01010113; 0x00008067;
   0x00c12083; 0x00812403; 0x00412483; 0x00012903; 0x00000513; 0x01010113; 0x00008067; 0xff010113;
   0x08700613; 0x1aa00593; 0x00800513; 0x00112623; 0x00812423; 0x00912223].

Definition reset_vec_32_3 : list Z :=
  [0x01212023; 0xe39ff0ef; 0x00050413; 0x0ff00513; 0xcc5ff0ef; 0x0ff00513; 0xcbdff0ef; 0x0ff00513;
   0xcb5ff0ef; 0x00050493; 0x0ff00513; 0xca9ff0ef; 0x00050913; 0x0ff00513; 0xc9dff0ef; 0x0ff00513;
   0xc95ff0ef; 0x00100793; 0x00000513; 0x00f40e63; 0x00c12083; 0x00812403; 0x00412483; 0x00012903;
   0x01010113; 0x00008067; 0x00f4f493; 0xfe8492e3; 0x00c12083; 0x00812403; 0xf5690513; 0x00412483;
   0x00012903; 0x00153513; 0x01010113; 0x00008067; 0xff010113; 0x06500613; 0x00000593; 0x03700513;
   0x00112623; 0x00812423; 0xd95ff0ef; 0x00050413; 0x0ff00513; 0xc21ff0ef; 0x00001517; 0x00040593;
   0x4d850513; 0xe15ff0ef; 0xfff40513; 0x00c12083; 0x00812403; 0x00153513; 0x01010113; 0x00008067;
   0xff010113; 0x00912223; 0x00112623; 0x00812423; 0x00100493; 0xf9dff0ef; 0x07700613; 0x400005b7;
   0x02900513; 0xd39ff0ef; 0x00050413; 0x00050593; 0x00001517; 0x48850513; 0xdc1ff0ef; 0x0ff00513;
   0xbb5ff0ef; 0xfc9408e3; 0x00143513; 0x00c12083; 0x00812403; 0x00412483; 0x01010113; 0x00008067;
   0xff010113; 0x00112623; 0x00812423; 0xac9ff0ef; 0x00001517; 0x45050513; 0x925ff0ef; 0x00a00413;
   0xfff40413; 0x0ff00513; 0xb6dff0ef; 0xfe041ae3; 0xdc5ff0ef; 0x02050663; 0xe6dff0ef; 0x02050663;
   0xf61ff0ef; 0x00000793; 0x02050463; 0x00c12083; 0x00812403; 0x00078513; 0x01010113; 0x00008067;
   0xfff00793; 0xfe9ff06f; 0xffe00793; 0xfe1ff06f; 0xffd00793; 0xfd9ff06f; 0x00b575b3; 0x0075d793;
   0x0045d513; 0x00f54533; 0x00b54533; 0x00451593; 0x00a5c533; 0x07f57513; 0x00008067; 0x00851793;
   0x00855513; 0x00a7e7b3; 0x01079793; 0x0107d793; 0x00b7c5b3; 0x0045d513; 0x00f57513; 0x00b545b3;
   0x00c59513; 0x00a5c533; 0x01051513; 0x41055513; 0x01051793; 0x0107d793; 0x00002737; 0xfe070713;
   0x00579793; 0x00e7f7b3; 0x00f54533; 0x01051513; 0x01055513; 0x00008067; 0xf5010113; 0x0a912223;
   0x09312e23; 0x0a112623; 0x0a812423; 0x0b212023; 0x09412c23; 0x09512a23].

Definition reset_vec_32_4 : list Z :=
  [0x09612823; 0x09712623; 0x00050493; 0x00060993; 0x00010793; 0x08010693; 0xfff00713; 0x00e78023;
   0x00178793; 0xfed79ce3; 0x00100613; 0x01200513; 0xbb5ff0ef; 0x20048493; 0x14051663; 0x00002b37;
   0x0fe00913; 0xfe0b0b13; 0x3e800a13; 0xe0048b93; 0x0ff00513; 0xa29ff0ef; 0xff251ce3; 0xe4048a93;
   0x00000413; 0x000b8613; 0x04000593; 0x00010513; 0xac1ff0ef; 0x000b8713; 0x00074683; 0x00841793;
   0x00845413; 0x0087e433; 0x00d44433; 0x01041793; 0x0107d793; 0x0047d413; 0x00f47413; 0x00f44433;
   0x00c41793; 0x00f44433; 0x01041413; 0x41045413; 0x01041793; 0x0107d793; 0x00579793; 0x0167f7b3;
   0x00f44433; 0x01041413; 0x00170713; 0x01045413; 0xfb5714e3; 0x040b8b93; 0x04070a93; 0xf89b94e3;
   0x0ff00513; 0x999ff0ef; 0x00851a93; 0x010a9a93; 0x0ff00513; 0x010ada93; 0x985ff0ef; 0x00aae7b3;
   0x01079793; 0x0107d793; 0x02879863; 0x0349e7b3; 0x00078c63; 0xfff98993; 0x20048493; 0xf33048e3;
   0x00000413; 0x0180006f; 0x00001517; 0x25450513; 0xef4ff0ef; 0xfe1ff06f; 0xffe00413; 0x00100613;
   0x00000593; 0x00c00513; 0xa9dff0ef; 0x0ff00513; 0x92dff0ef; 0x00040513; 0x0ac12083; 0x0a812403;
   0x0a412483; 0x0a012903; 0x09c12983; 0x09812a03; 0x09412a83; 0x09012b03; 0x08c12b83; 0x0b010113;
   0x00008067; 0x00800413; 0xfff40413; 0x0ff00513; 0x8edff0ef; 0xfe041ae3; 0x00001517; 0x1c850513;
   0xe84ff0ef; 0xfff00413; 0xfadff06f; 0xfd010113; 0x02812423; 0x01712623; 0x02112623; 0x02912223;
   0x03212023; 0x01312e23; 0x01412c23; 0x01512a23; 0x01612823; 0x01812423; 0x03010413; 0x00050b93;
   0xd09ff0ef; 0x28051e63; 0x00001517; 0x1c050513; 0xe34ff0ef; 0xe0010113; 0x00100613; 0x00100593;
   0x00010513; 0xdddff0ef; 0x00010913; 0x00050493; 0x2e051a63; 0x00001517; 0x1d450513; 0xe08ff0ef;
   0x00001517; 0x1e450513; 0xdfcff0ef; 0x00412583; 0x00012503; 0xea8ff0ef; 0x00001517; 0x1dc50513;
   0xde4ff0ef; 0x00812503; 0xe34ff0ef; 0x00001517; 0x1d850513; 0xdd0ff0ef].

Definition reset_vec_32_5 : list Z :=
  [0x00c12503; 0xe20ff0ef; 0x00001517; 0x1d050513; 0xdbcff0ef; 0x01012503; 0xe0cff0ef; 0x00001517;
   0x1cc50513; 0xda8ff0ef; 0x01412503; 0xdf8ff0ef; 0x00001517; 0x1c850513; 0xd94ff0ef; 0x01c12583;
   0x01812503; 0xe40ff0ef; 0x00001517; 0x1c450513; 0xd7cff0ef; 0x02412583; 0x02012503; 0xe28ff0ef;
   0x00001517; 0x1bc50513; 0xd64ff0ef; 0x04c12583; 0x04812503; 0xe10ff0ef; 0x00001517; 0x1c450513;
   0xd4cff0ef; 0x05012503; 0xd9cff0ef; 0x00001517; 0x1d050513; 0xd38ff0ef; 0x05412503; 0xd88ff0ef;
   0x00001517; 0x00050513; 0xd24ff0ef; 0x04892583; 0xe0010113; 0x00100613; 0x00010513; 0xccdff0ef;
   0x00010c13; 0x00050a93; 0x1a051663; 0x08010913; 0x02010993; 0x01010a13; 0x00400b13; 0x00001517;
   0x1a050513; 0xce8ff0ef; 0x0ffaf513; 0xe1cff0ef; 0x00001517; 0x1a450513; 0xcd4ff0ef; 0xf8090493;
   0x0004c503; 0x00148493; 0xe00ff0ef; 0xff449ae3; 0x00001517; 0x1a050513; 0xcb4ff0ef; 0x000a0493;
   0x0004c503; 0x00148493; 0xde0ff0ef; 0xff349ae3; 0x00001517; 0x19c50513; 0xc94ff0ef; 0x0049a583;
   0x0009a503; 0xfb890493; 0xd3cff0ef; 0x00001517; 0x19050513; 0xc78ff0ef; 0x00c9a583; 0x0089a503;
   0xd24ff0ef; 0x00001517; 0x18850513; 0xc60ff0ef; 0x0109a503; 0x0149a583; 0xd0cff0ef; 0x00001517;
   0x18050513; 0xc48ff0ef; 0x0004c503; 0x00148493; 0xd78ff0ef; 0xff249ae3; 0x00001517; 0xf0850513;
   0x001a8a93; 0xc28ff0ef; 0x08048913; 0x08098993; 0x080a0a13; 0xf36a94e3; 0x00001517; 0x15050513;
   0xc0cff0ef; 0x028c2603; 0x020c2583; 0x000b8513; 0x00160613; 0x40b60633; 0xbb1ff0ef; 0x00050493;
   0x04051e63; 0x00001517; 0x13850513; 0xbe0ff0ef; 0xfd040113; 0x02c12083; 0x00048513; 0x02812403;
   0x02412483; 0x02012903; 0x01c12983; 0x01812a03; 0x01412a83; 0x01012b03; 0x00c12b83; 0x00812c03;
   0x03010113; 0x00008067; 0x00001517; 0xf0050513; 0xb9cff0ef; 0xfff00493; 0xfb9ff06f; 0x00001517;
   0xf2850513; 0xb88ff0ef; 0x00001517; 0xf3050513; 0xb7cff0ef; 0x00048513].

Definition reset_vec_32_6 : list Z :=
  [0x41f4d593; 0xc28ff0ef; 0x00001517; 0xe4050513; 0xb64ff0ef; 0xffe00493; 0xf81ff06f; 0x00001517;
   0xef050513; 0xb50ff0ef; 0x00001517; 0xef850513; 0xb44ff0ef; 0x000a8513; 0x41fad593; 0xbf0ff0ef;
   0x00001517; 0xe0850513; 0xb2cff0ef; 0xffe00493; 0xf49ff06f; 0x00001517; 0xeb850513; 0xb18ff0ef;
   0x00001517; 0xec050513; 0xb0cff0ef; 0x00048513; 0x41f4d593; 0xbb8ff0ef; 0x00001517; 0xdd050513;
   0xaf4ff0ef; 0xffe00493; 0xf11ff06f; 0x0001c5b7; 0x02faf537; 0xff010113; 0x20058593; 0x08050513;
   0x00112623; 0xa88ff0ef; 0x00001517; 0xd6850513; 0xac4ff0ef; 0x000085b7; 0x80000537; 0xc41ff0ef;
   0x00051a63; 0x80000437; 0x00000597; 0x12858593; 0x00040067; 0x0000006f; 0x00000000; 0x00000000;
   0x00000000; 0x00000000; 0x00000000; 0x00000000; 0x33323130; 0x37363534; 0x42413938; 0x46454443;
   0x00000000; 0x00000000; 0x00000000; 0x00000000; 0x00000000; 0x00000000; 0x00000000; 0x00000000;
   0x00000000; 0x00000000; 0x00000000; 0x00000000; 0x00000000; 0x00000000; 0x00000000; 0x00000000;
   0x00000000; 0x00000000; 0x00000000; 0x00000000; 0x00000000; 0x00000000; 0x00000000; 0x00000000;
   0x00000000; 0x00000000; 0x00000000; 0x00000000; 0x00000000; 0x00000000; 0x00000000; 0x00000000;
   0x00000000; 0x00000000; 0x00000000; 0x00000000; 0x00000000; 0x00000000; 0x00000000; 0x00000000;
   0x00000000; 0x00000000; 0x00000000; 0x00000000; 0x00000000; 0x00000000; 0x00000000; 0x00000000;
   0x00000000; 0x00000000; 0x00000000; 0x00000000; 0x00000000; 0x00000000; 0x00000000; 0x00000000;
   0x00000000; 0x00000000; 0x00000000; 0x00000000; 0xedfe0dd0; 0x1e0c0000; 0x38000000; 0x4c090000;
   0x28000000; 0x11000000; 0x10000000; 0x00000000; 0xd2020000; 0x14090000; 0x00000000; 0x00000000;
   0x00000000; 0x00000000; 0x01000000; 0x00000000; 0x03000000; 0x04000000; 0x00000000; 0x01000000;
   0x03000000; 0x04000000; 0x0f000000; 0x01000000; 0x03000000; 0x14000000].

Definition reset_vec_32_7 : list Z :=
  [0x1b000000; 0x2c687465; 0x61697261; 0x622d656e; 0x2d657261; 0x00766564; 0x03000000; 0x10000000;
   0x26000000; 0x2c687465; 0x61697261; 0x622d656e; 0x00657261; 0x01000000; 0x736f6863; 0x00006e65;
   0x03000000; 0x1a000000; 0x2c000000; 0x636f732f; 0x7261752f; 0x30314074; 0x30303030; 0x313a3030;
   0x30323531; 0x00000030; 0x02000000; 0x01000000; 0x73757063; 0x00000000; 0x03000000; 0x04000000;
   0x00000000; 0x01000000; 0x03000000; 0x04000000; 0x0f000000; 0x00000000; 0x03000000; 0x04000000;
   0x38000000; 0x40787d01; 0x01000000; 0x40757063; 0x00000030; 0x03000000; 0x04000000; 0x4b000000;
   0x80f0fa02; 0x03000000; 0x04000000; 0x5b000000; 0x00757063; 0x03000000; 0x04000000; 0x67000000;
   0x00000000; 0x03000000; 0x05000000; 0x6b000000; 0x79616b6f; 0x00000000; 0x03000000; 0x12000000;
   0x1b000000; 0x2c687465; 0x69726120; 0x00656e61; 0x63736972; 0x00000076; 0x03000000; 0x08000000;
   0x72000000; 0x32337672; 0x00616d69; 0x03000000; 0x0b000000; 0x7c000000; 0x63736972; 0x76732c76;
   0x00003233; 0x03000000; 0x00000000; 0x85000000; 0x01000000; 0x65746e69; 0x70757272; 0x6f632d74;
   0x6f72746e; 0x72656c6c; 0x00000000; 0x03000000; 0x04000000; 0x8f000000; 0x01000000; 0x03000000;
   0x00000000; 0xa0000000; 0x03000000; 0x0f000000; 0x1b000000; 0x63736972; 0x70632c76; 0x6e692d75;
   0x00006374; 0x03000000; 0x04000000; 0xb5000000; 0x02000000; 0x02000000; 0x02000000; 0x02000000;
   0x01000000; 0x6f6d656d; 0x38407972; 0x30303030; 0x00303030; 0x03000000; 0x07000000; 0x5b000000;
   0x6f6d656d; 0x00007972; 0x03000000; 0x08000000; 0x67000000; 0x00000080; 0x00000008; 0x02000000;
   0x01000000; 0x7364656c; 0x00000000; 0x03000000; 0x0a000000; 0x1b000000; 0x6f697067; 0x64656c2d;
   0x00000073; 0x01000000; 0x72616568; 0x61656274; 0x656c2d74; 0x00000064; 0x03000000; 0x0c000000;
   0xbd000000; 0x01000000; 0x01000000; 0x00000000; 0x03000000; 0x0a000000].

Definition reset_vec_32_8 : list Z :=
  [0xc3000000; 0x72616568; 0x61656274; 0x00000074; 0x03000000; 0x00000000; 0xd9000000; 0x02000000;
   0x02000000; 0x01000000; 0x00636f73; 0x03000000; 0x04000000; 0x00000000; 0x01000000; 0x03000000;
   0x04000000; 0x0f000000; 0x01000000; 0x03000000; 0x1f000000; 0x1b000000; 0x2c687465; 0x61697261;
   0x622d656e; 0x2d657261; 0x00636f73; 0x706d6973; 0x622d656c; 0x00007375; 0x03000000; 0x00000000;
   0xf0000000; 0x01000000; 0x6e696c63; 0x30324074; 0x30303030; 0x00000030; 0x03000000; 0x0d000000;
   0x1b000000; 0x63736972; 0x6c632c76; 0x30746e69; 0x00000000; 0x03000000; 0x10000000; 0xf7000000;
   0x02000000; 0x03000000; 0x02000000; 0x07000000; 0x03000000; 0x08000000; 0x67000000; 0x00000002;
   0x00000c00; 0x03000000; 0x08000000; 0x0b010000; 0x746e6f63; 0x006c6f72; 0x02000000; 0x01000000;
   0x65746e69; 0x70757272; 0x6f632d74; 0x6f72746e; 0x72656c6c; 0x30306340; 0x30303030; 0x00000000;
   0x03000000; 0x04000000; 0x00000000; 0x00000000; 0x03000000; 0x04000000; 0x8f000000; 0x01000000;
   0x03000000; 0x0c000000; 0x1b000000; 0x63736972; 0x6c702c76; 0x00306369; 0x03000000; 0x00000000;
   0xa0000000; 0x03000000; 0x10000000; 0xf7000000; 0x02000000; 0x0b000000; 0x02000000; 0x09000000;
   0x03000000; 0x08000000; 0x67000000; 0x0000000c; 0x00000004; 0x03000000; 0x04000000; 0x15010000;
   0x07000000; 0x03000000; 0x04000000; 0x28010000; 0x1e000000; 0x03000000; 0x04000000; 0xb5000000;
   0x03000000; 0x02000000; 0x01000000; 0x75626564; 0x6f632d67; 0x6f72746e; 0x72656c6c; 0x00003040;
   0x03000000; 0x10000000; 0x1b000000; 0x63736972; 0x65642c76; 0x2d677562; 0x00333130; 0x03000000;
   0x08000000; 0xf7000000; 0x02000000; 0xffff0000; 0x03000000; 0x08000000; 0x67000000; 0x00000000;
   0x00100000; 0x03000000; 0x08000000; 0x0b010000; 0x746e6f63; 0x006c6f72; 0x02000000; 0x01000000;
   0x74726175; 0x30303140; 0x30303030; 0x00000030; 0x03000000; 0x08000000].

Definition reset_vec_32_9 : list Z :=
  [0x1b000000; 0x3631736e; 0x00303537; 0x03000000; 0x08000000; 0x67000000; 0x00000010; 0x00100000;
   0x03000000; 0x04000000; 0x4b000000; 0x80f0fa02; 0x03000000; 0x04000000; 0x33010000; 0x00c20100;
   0x03000000; 0x04000000; 0x41010000; 0x03000000; 0x03000000; 0x04000000; 0x52010000; 0x01000000;
   0x03000000; 0x04000000; 0x5d010000; 0x02000000; 0x03000000; 0x04000000; 0x67010000; 0x04000000;
   0x02000000; 0x01000000; 0x656d6974; 0x38314072; 0x30303030; 0x00003030; 0x03000000; 0x0f000000;
   0x1b000000; 0x706c7570; 0x6270612c; 0x6d69745f; 0x00007265; 0x03000000; 0x10000000; 0x52010000;
   0x04000000; 0x05000000; 0x06000000; 0x07000000; 0x03000000; 0x08000000; 0x67000000; 0x00000018;
   0x00100000; 0x03000000; 0x04000000; 0x41010000; 0x03000000; 0x03000000; 0x08000000; 0x0b010000;
   0x746e6f63; 0x006c6f72; 0x02000000; 0x01000000; 0x2d737078; 0x40697073; 0x30303032; 0x30303030;
   0x00000000; 0x03000000; 0x28000000; 0x1b000000; 0x786e6c78; 0x7370782c; 0x6970732d; 0x302e322d;
   0x00622e30; 0x786e6c78; 0x7370782c; 0x6970732d; 0x302e322d; 0x00612e30; 0x03000000; 0x04000000;
   0x00000000; 0x01000000; 0x03000000; 0x04000000; 0x0f000000; 0x00000000; 0x03000000; 0x04000000;
   0x41010000; 0x03000000; 0x03000000; 0x08000000; 0x52010000; 0x02000000; 0x02000000; 0x03000000;
   0x08000000; 0x67000000; 0x00000020; 0x00100000; 0x03000000; 0x08000000; 0x74010000; 0x746e696b;
   0x00377865; 0x03000000; 0x04000000; 0x80010000; 0x01000000; 0x03000000; 0x04000000; 0x90010000;
   0x01000000; 0x03000000; 0x04000000; 0xa1010000; 0x08000000; 0x03000000; 0x04000000; 0xb8010000;
   0x04000000; 0x01000000; 0x40636d6d; 0x00000030; 0x03000000; 0x0d000000; 0x1b000000; 0x2d636d6d;
   0x2d697073; 0x746f6c73; 0x00000000; 0x03000000; 0x04000000; 0x67000000; 0x00000000; 0x03000000;
   0x04000000; 0xc7010000; 0x20bcbe00; 0x03000000; 0x08000000; 0xd9010000].

Definition reset_vec_32_10 : list Z :=
  [0xe40c0000; 0xe40c0000; 0x03000000; 0x00000000; 0xe8010000; 0x02000000; 0x02000000; 0x01000000;
   0x72776f6c; 0x2d637369; 0x40687465; 0x30303033; 0x30303030; 0x00000000; 0x03000000; 0x0c000000;
   0x1b000000; 0x72776f6c; 0x2d637369; 0x00687465; 0x03000000; 0x08000000; 0x5b000000; 0x7774656e;
   0x006b726f; 0x03000000; 0x04000000; 0x41010000; 0x03000000; 0x03000000; 0x08000000; 0x52010000;
   0x03000000; 0x00000000; 0x03000000; 0x06000000; 0xf3010000; 0x023e1800; 0x00007fe3; 0x03000000;
   0x08000000; 0x67000000; 0x00000030; 0x00800000; 0x02000000; 0x01000000; 0x6f697067; 0x30303440;
   0x30303030; 0x00000030; 0x03000000; 0x04000000; 0x05020000; 0x02000000; 0x03000000; 0x15000000;
   0x1b000000; 0x786e6c78; 0x7370782c; 0x6970672d; 0x2e312d6f; 0x612e3030; 0x00000000; 0x03000000;
   0x00000000; 0x11020000; 0x03000000; 0x08000000; 0x67000000; 0x00000040; 0x00000100; 0x03000000;
   0x04000000; 0x21020000; 0x00000000; 0x03000000; 0x04000000; 0x31020000; 0x00000000; 0x03000000;
   0x04000000; 0x43020000; 0x00000000; 0x03000000; 0x04000000; 0x55020000; 0x00000000; 0x03000000;
   0x04000000; 0x69020000; 0x08000000; 0x03000000; 0x04000000; 0x79020000; 0x08000000; 0x03000000;
   0x04000000; 0x8a020000; 0x00000000; 0x03000000; 0x04000000; 0xa1020000; 0x01000000; 0x03000000;
   0x04000000; 0xae020000; 0xffffffff; 0x03000000; 0x04000000; 0xbf020000; 0xffffffff; 0x03000000;
   0x04000000; 0xb5000000; 0x01000000; 0x02000000; 0x02000000; 0x02000000; 0x09000000; 0x64646123;
   0x73736572; 0x6c65632d; 0x2300736c; 0x657a6973; 0x6c65632d; 0x6300736c; 0x61706d6f; 0x6c626974;
   0x6f6d0065; 0x006c6564; 0x6f647473; 0x702d7475; 0x00687461; 0x656d6974; 0x65736162; 0x6572662d;
   0x6e657571; 0x63007963; 0x6b636f6c; 0x6572662d; 0x6e657571; 0x64007963; 0x63697665; 0x79745f65;
   0x72006570; 0x73006765; 0x75746174; 0x69720073; 0x2c766373; 0x00617369].

Definition reset_vec_32_11 : list Z :=
  [0x2d756d6d; 0x65707974; 0x626c7400; 0x6c70732d; 0x23007469; 0x65746e69; 0x70757272; 0x65632d74;
   0x00736c6c; 0x65746e69; 0x70757272; 0x6f632d74; 0x6f72746e; 0x72656c6c; 0x61687000; 0x656c646e;
   0x69706700; 0x6c00736f; 0x78756e69; 0x6665642c; 0x746c7561; 0x6972742d; 0x72656767; 0x74657200;
   0x2d6e6961; 0x74617473; 0x75732d65; 0x6e657073; 0x00646564; 0x676e6172; 0x69007365; 0x7265746e;
   0x74707572; 0x78652d73; 0x646e6574; 0x72006465; 0x6e2d6765; 0x73656d61; 0x73697200; 0x6d2c7663;
   0x702d7861; 0x726f6972; 0x00797469; 0x63736972; 0x646e2c76; 0x63007665; 0x65727275; 0x732d746e;
   0x64656570; 0x746e6900; 0x75727265; 0x702d7470; 0x6e657261; 0x6e690074; 0x72726574; 0x73747075;
   0x67657200; 0x6968732d; 0x72007466; 0x692d6765; 0x69772d6f; 0x00687464; 0x786e6c78; 0x6d61662c;
   0x00796c69; 0x786e6c78; 0x6669662c; 0x78652d6f; 0x00747369; 0x786e6c78; 0x6d756e2c; 0x2d73732d;
   0x73746962; 0x6e6c7800; 0x756e2c78; 0x72742d6d; 0x66736e61; 0x622d7265; 0x00737469; 0x786e6c78;
   0x6b63732c; 0x7461722d; 0x73006f69; 0x6d2d6970; 0x662d7861; 0x75716572; 0x79636e65; 0x6c6f7600;
   0x65676174; 0x6e61722d; 0x00736567; 0x61736964; 0x2d656c62; 0x6c007077; 0x6c61636f; 0x63616d2d;
   0x6464612d; 0x73736572; 0x70672300; 0x632d6f69; 0x736c6c65; 0x69706700; 0x6f632d6f; 0x6f72746e;
   0x72656c6c; 0x6e6c7800; 0x6c612c78; 0x6e692d6c; 0x73747570; 0x6e6c7800; 0x6c612c78; 0x6e692d6c;
   0x73747570; 0x7800322d; 0x2c786e6c; 0x74756f64; 0x6665642d; 0x746c7561; 0x6e6c7800; 0x6f642c78;
   0x642d7475; 0x75616665; 0x322d746c; 0x6e6c7800; 0x70672c78; 0x772d6f69; 0x68746469; 0x6e6c7800;
   0x70672c78; 0x2d326f69; 0x74646977; 0x6c780068; 0x692c786e; 0x7265746e; 0x74707572; 0x6572702d;
   0x746e6573; 0x6e6c7800; 0x73692c78; 0x6175642d; 0x6c78006c; 0x742c786e; 0x642d6972; 0x75616665;
   0x7800746c; 0x2c786e6c; 0x2d697274; 0x61666564; 0x2d746c75; 0x00000032].

Definition reset_vec_32_12 : list Z :=
  [0x6c6c6548; 0x6f57206f; 0x21646c72; 0x00000a0d; 0x74696e69; 0x49505320; 0x00000a0d; 0x74617473;
   0x203a7375; 0x00007830; 0x20495053; 0x74696e69; 0x696c6169; 0x2164657a; 0x00000a0d; 0x66207872;
   0x206f6669; 0x20746f6e; 0x74706d65; 0x203f3f79; 0x00000000; 0x63204453; 0x616d6d6f; 0x0020646e;
   0x65720920; 0x6e6f7073; 0x3a206573; 0x00000020; 0x30646d63; 0x00000000; 0x35646d63; 0x00000035;
   0x34646d63; 0x00000031; 0x74696e69; 0x696c6169; 0x676e697a; 0x2e445320; 0x0d202e2e; 0x0000000a;
   0x6c756f63; 0x6f6e2064; 0x65722074; 0x53206461; 0x6c622044; 0x0d6b636f; 0x0000000a; 0x0000002e;
   0x6c756f63; 0x6f6e2064; 0x6e692074; 0x61697469; 0x657a696c; 0x2e647320; 0x65202e2e; 0x69746978;
   0x0a0d676e; 0x00000000; 0x69206473; 0x6974696e; 0x7a696c61; 0x0d216465; 0x0000000a; 0x63204453;
   0x20647261; 0x6c696166; 0x0d216465; 0x0000000a; 0x63206473; 0x2079706f; 0x75746572; 0x76206e72;
   0x65756c61; 0x0000203a; 0x20747067; 0x74726170; 0x6f697469; 0x6174206e; 0x20656c62; 0x64616568;
   0x003a7265; 0x73090a0d; 0x616e6769; 0x65727574; 0x0000093a; 0x72090a0d; 0x73697665; 0x3a6e6f69;
   0x00000009; 0x73090a0d; 0x3a657a69; 0x00000909; 0x63090a0d; 0x685f6372; 0x65646165; 0x00093a72;
   0x72090a0d; 0x72657365; 0x3a646576; 0x00000009; 0x63090a0d; 0x65727275; 0x6c20746e; 0x093a6162;
   0x00000000; 0x62090a0d; 0x756b6361; 0x646c2070; 0x00093a61; 0x70090a0d; 0x69747261; 0x6e6f6974;
   0x746e6520; 0x73656972; 0x61626c20; 0x2020203a; 0x00000009; 0x6e090a0d; 0x65626d75; 0x61702072;
   0x74697472; 0x206e6f69; 0x72746e65; 0x3a736569; 0x00000009; 0x73090a0d; 0x20657a69; 0x74726170;
   0x6f697469; 0x6e65206e; 0x65697274; 0x20203a73; 0x00000009; 0x20747067; 0x74726170; 0x6f697469;
   0x6e65206e; 0x20797274; 0x00000000; 0x70090a0d; 0x69747261; 0x6e6f6974; 0x70797420; 0x75672065;
   0x093a6469; 0x00000000; 0x70090a0d; 0x69747261; 0x6e6f6974; 0x69756720].

Definition reset_vec_32_13 : list Z :=
  [0x20203a64; 0x09202020; 0x00000000; 0x66090a0d; 0x74737269; 0x61626c20; 0x0000093a; 0x6c090a0d;
   0x20747361; 0x3a61626c; 0x00000009; 0x61090a0d; 0x69727474; 0x65747562; 0x00093a73; 0x6e090a0d;
   0x3a656d61; 0x00000009; 0x79706f63; 0x20676e69; 0x746f6f62; 0x616d6920; 0x00206567; 0x6e6f6420;
   0x0a0d2165; 0x00000000].

Definition reset_vec_32 : list Z :=
  reset_vec_32_0 ++ reset_vec_32_1 ++ reset_vec_32_2 ++ reset_vec_32_3 ++ reset_vec_32_4
  ++ reset_vec_32_5 ++ reset_vec_32_6 ++ reset_vec_32_7 ++ reset_vec_32_8 ++
  reset_vec_32_9 ++ reset_vec_32_10 ++ reset_vec_32_11 ++ reset_vec_32_12 ++
  reset_vec_32_13.
