(* ===== verification/Riscv.v ===== *)
(** The processor the boot ROM runs on: the instructions of RV64 the image uses, compressed ones
    included, decoded with the tables of [Encoding], and a hart that executes them from the ROM on a
    world of [Machine]. Registers hold 64 bits: they are read through [xget]. *)
From stdpp Require Import relations.
From S2P Require Import Prelude Machine Encoding.

(** * Instructions *)

Inductive cond := Beq | Bne | Blt | Bge | Bltu | Bgeu.

(** Operations on 64 bits, and on 32 bits with a sign-extended result. *)
Inductive aluop :=
  | Add | Sub | And | Or | Xor | Sll | Srl | Sra | Slt | Sltu | Rem
  | Addw | Subw | Sllw | Srlw | Sraw | Divuw.

Inductive loadop := Lbu | Lw | Ld64.

Inductive instr :=
  | Lui (rd imm : Z)
  | Auipc (rd imm : Z)
  | Jal (rd imm : Z)
  | Jalr (rd rs1 imm : Z)
  | Branch (c : cond) (rs1 rs2 imm : Z)
  | Load (o : loadop) (rd rs1 imm : Z)
  | Store (w : width) (rs2 rs1 imm : Z)
  | Imm (o : aluop) (rd rs1 imm : Z)
  | Reg (o : aluop) (rd rs1 rs2 : Z)
  | Csrrw (rd csr rs1 : Z)
  | Csrrs (rd csr rs1 : Z)
  | Wfi
  | Nop16.

#[export] Instance cond_eq_dec : EqDecision cond.
Proof. solve_decision. Defined.
#[export] Instance aluop_eq_dec : EqDecision aluop.
Proof. solve_decision. Defined.
#[export] Instance loadop_eq_dec : EqDecision loadop.
Proof. solve_decision. Defined.
#[export] Instance instr_eq_dec : EqDecision instr.
Proof. solve_decision. Defined.

(** The operands of the four-byte instructions, by their names in the tables. *)
Definition wide_operands : list (string * (Z -> instr)) :=
  let imm o := fun w => Imm o (rd w) (rs1 w) (imm_i w) in
  let shift o n := fun w => Imm o (rd w) (rs1 w) (bits_at 20 n w) in
  let reg o := fun w => Reg o (rd w) (rs1 w) (rs2 w) in
  let branch c := fun w => Branch c (rs1 w) (rs2 w) (imm_b w) in
  let load o := fun w => Load o (rd w) (rs1 w) (imm_i w) in
  let store s := fun w => Store s (rs2 w) (rs1 w) (imm_s w) in
  [("jal", fun w => Jal (rd w) (imm_j w)); ("addi", imm Add); ("auipc", fun w => Auipc (rd w) (imm_u w));
   ("sb", store W8); ("andi", imm And); ("lui", fun w => Lui (rd w) (imm_u w)); ("lbu", load Lbu);
   ("bne", branch Bne); ("srliw", shift Srlw 5); ("slli", shift Sll 6); ("slliw", shift Sllw 5);
   ("addiw", imm Addw); ("add", reg Add); ("lw", load Lw);
   ("csrrs", fun w => Csrrs (rd w) (bits_at 20 12 w) (rs1 w)); ("bltu", branch Bltu);
   ("sltiu", imm Sltu); ("jalr", fun w => Jalr (rd w) (rs1 w) (imm_i w)); ("blt", branch Blt);
   ("sw", store W32); ("ori", imm Or); ("bgeu", branch Bgeu); ("beq", branch Beq); ("wfi", fun _ => Wfi);
   ("sub", reg Sub); ("srlw", reg Srlw); ("srli", shift Srl 6); ("srl", reg Srl);
   ("sraiw", shift Sraw 5); ("rem", reg Rem); ("ld", load Ld64); ("divuw", reg Divuw);
   ("csrrw", fun w => Csrrw (rd w) (bits_at 20 12 w) (rs1 w)); ("bge", branch Bge)].

(** The fields of the compressed instructions. *)
Definition crd (w : Z) : Z := bits_at 7 5 w.
Definition crs2 (w : Z) : Z := bits_at 2 5 w.
Definition crd' (w : Z) : Z := 8 + bits_at 2 3 w.
Definition crs1' (w : Z) : Z := 8 + bits_at 7 3 w.
Definition cimm6 (w : Z) : Z := 2 ^ 5 * bits_at 12 1 w + bits_at 2 5 w.
Definition cimm_i (w : Z) : Z := sext 6 (cimm6 w).
Definition cimm_16sp (w : Z) : Z :=
  sext 10 (2 ^ 9 * bits_at 12 1 w + 2 ^ 4 * bits_at 6 1 w + 2 ^ 6 * bits_at 5 1 w
           + 2 ^ 7 * bits_at 3 2 w + 2 ^ 5 * bits_at 2 1 w).
Definition cimm_4spn (w : Z) : Z :=
  2 ^ 4 * bits_at 11 2 w + 2 ^ 6 * bits_at 7 4 w + 2 ^ 2 * bits_at 6 1 w + 2 ^ 3 * bits_at 5 1 w.
Definition cimm_lw (w : Z) : Z := 2 ^ 3 * bits_at 10 3 w + 2 ^ 2 * bits_at 6 1 w + 2 ^ 6 * bits_at 5 1 w.
Definition cimm_ld (w : Z) : Z := 2 ^ 3 * bits_at 10 3 w + 2 ^ 6 * bits_at 5 2 w.
Definition cimm_lwsp (w : Z) : Z := 2 ^ 5 * bits_at 12 1 w + 2 ^ 2 * bits_at 4 3 w + 2 ^ 6 * bits_at 2 2 w.
Definition cimm_ldsp (w : Z) : Z := 2 ^ 5 * bits_at 12 1 w + 2 ^ 3 * bits_at 5 2 w + 2 ^ 6 * bits_at 2 3 w.
Definition cimm_sdsp (w : Z) : Z := 2 ^ 3 * bits_at 10 3 w + 2 ^ 6 * bits_at 7 3 w.
Definition cimm_j (w : Z) : Z :=
  sext 12 (2 ^ 11 * bits_at 12 1 w + 2 ^ 4 * bits_at 11 1 w + 2 ^ 8 * bits_at 9 2 w + 2 ^ 10 * bits_at 8 1 w
           + 2 ^ 6 * bits_at 7 1 w + 2 ^ 7 * bits_at 6 1 w + 2 * bits_at 3 3 w + 2 ^ 5 * bits_at 2 1 w).
Definition cimm_b (w : Z) : Z :=
  sext 9 (2 ^ 8 * bits_at 12 1 w + 2 ^ 3 * bits_at 10 2 w + 2 ^ 6 * bits_at 5 2 w
          + 2 * bits_at 3 2 w + 2 ^ 5 * bits_at 2 1 w).

(** The compressed instructions: each is one of the others. *)
Definition compressed_operands : list (string * (Z -> instr)) :=
  let ca o := fun w => Reg o (crs1' w) (crs1' w) (crd' w) in
  [("c_nop", fun _ => Nop16); ("c_ldsp", fun w => Load Ld64 (crd w) 2 (cimm_ldsp w));
   ("c_sdsp", fun w => Store W64 (crs2 w) 2 (cimm_sdsp w)); ("c_li", fun w => Imm Add (crd w) 0 (cimm_i w));
   ("c_mv", fun w => Reg Add (crd w) 0 (crs2 w)); ("c_addi", fun w => Imm Add (crd w) (crd w) (cimm_i w));
   ("c_jr", fun w => Jalr 0 (crd w) 0); ("c_addi16sp", fun w => Imm Add 2 2 (cimm_16sp w));
   ("c_j", fun w => Jal 0 (cimm_j w)); ("c_bnez", fun w => Branch Bne (crs1' w) 0 (cimm_b w));
   ("c_beqz", fun w => Branch Beq (crs1' w) 0 (cimm_b w));
   ("c_sw", fun w => Store W32 (crd' w) (crs1' w) (cimm_lw w));
   ("c_lw", fun w => Load Lw (crd' w) (crs1' w) (cimm_lw w));
   ("c_addiw", fun w => Imm Addw (crd w) (crd w) (cimm_i w));
   ("c_srli", fun w => Imm Srl (crs1' w) (crs1' w) (cimm6 w));
   ("c_slli", fun w => Imm Sll (crd w) (crd w) (cimm6 w));
   ("c_andi", fun w => Imm And (crs1' w) (crs1' w) (cimm_i w)); ("c_xor", ca Xor); ("c_or", ca Or);
   ("c_and", ca And); ("c_sub", ca Sub); ("c_subw", ca Subw);
   ("c_add", fun w => Reg Add (crd w) (crd w) (crs2 w)); ("c_lwsp", fun w => Load Lw (crd w) 2 (cimm_lwsp w));
   ("c_addi4spn", fun w => Imm Add (crd' w) 2 (cimm_4spn w));
   ("c_lui", fun w => Lui (crd w) (sext 18 (2 ^ 12 * cimm6 w)));
   ("c_ld", fun w => Load Ld64 (crd' w) (crs1' w) (cimm_ld w));
   ("c_sd", fun w => Store W64 (crd' w) (crs1' w) (cimm_ld w))].

Definition disasm (w : Z) : option instr :=
  i ← decode w; f ← assoc (i_name i) (wide_operands ++ compressed_operands); Some (f w).

(** * The ROM *)

(** [linker.lds]. *)
Definition ROM_BASE : Z := 0x10000.

Section rom.
Context (img : list Z).

Definition in_rom (a : Z) : bool := (ROM_BASE <=? a) && (a <? ROM_BASE + 4 * Z.of_nat (length img)).

Definition rom_word (a : Z) : Z := nth (Z.to_nat ((a - ROM_BASE) / 4)) img 0.
Definition rom_byte (a : Z) : Z := bits_at (8 * ((a - ROM_BASE) mod 4)) 8 (rom_word a).
Definition rom_half (a : Z) : Z := rom_byte a + 2 ^ 8 * rom_byte (a + 1).

(** The instruction at an address, and its length. *)
Definition fetch (pc : Z) : option (instr * Z) :=
  if negb (in_rom pc && (pc mod 2 =? 0)) then None else
  let lo := rom_half pc in
  let '(w, len) := if lo mod 4 =? 3 then (lo + 2 ^ 16 * rom_half (pc + 2), 4) else (lo, 2) in
  i ← disasm w; Some (i, len).
End rom.

(** * The hart *)

Definition upd (f : Z -> Z) (k v : Z) : Z -> Z := fun x => if x =? k then v else f x.

(** Registers hold 64 bits; register 0 is always 0. *)
Definition xget (f : Z -> Z) (r : Z) : Z := if r =? 0 then 0 else u64 (f r).
Definition xset (f : Z -> Z) (r v : Z) : Z -> Z := if r =? 0 then f else upd f r (u64 v).

Definition s64 (z : Z) : Z := sext 64 (u64 z).
(** The low 32 bits, sign-extended. *)
Definition sextw (z : Z) : Z := sext 32 (u32 z).

Definition alu (o : aluop) (a b : Z) : Z :=
  match o with
  | Add => a + b
  | Sub => a - b
  | And => Z.land a b
  | Or => Z.lor a b
  | Xor => Z.lxor a b
  | Sll => Z.shiftl a (b mod 64)
  | Srl => Z.shiftr a (b mod 64)
  | Sra => Z.shiftr (s64 a) (b mod 64)
  | Slt => Z.b2z (s64 a <? s64 b)
  | Sltu => Z.b2z (a <? b)
  | Rem => if b =? 0 then a else Z.rem (s64 a) (s64 b)
  | Addw => sextw (a + b)
  | Subw => sextw (a - b)
  | Sllw => sextw (Z.shiftl a (b mod 32))
  | Srlw => sextw (Z.shiftr (u32 a) (b mod 32))
  | Sraw => Z.shiftr (sextw a) (b mod 32)
  | Divuw => if u32 b =? 0 then -1 else sextw (u32 a / u32 b)
  end.

Definition holds_cond (c : cond) (a b : Z) : bool :=
  match c with
  | Beq => a =? b
  | Bne => negb (a =? b)
  | Blt => s64 a <? s64 b
  | Bge => s64 b <=? s64 a
  | Bltu => a <? b
  | Bgeu => b <=? a
  end.

Definition load_width (o : loadop) : width := match o with Lbu => W8 | Lw => W32 | Ld64 => W64 end.
Definition extend (o : loadop) (v : Z) : Z := match o with Lbu => v | Lw => sextw v | Ld64 => v end.
Definition nbytes (w : width) : nat := match w with W8 => 1 | W32 => 4 | W64 => 8 end.

(** [startup.S]: memory starts here. Below it, outside the ROM, are the devices. *)
Definition DRAM_BASE : Z := 0x80000000.

Record hart (D : Type) := Hart {
  h_pc : Z;
  h_x : Z -> Z;
  h_csr : Z -> Z;
  h_w : world D
}.
Arguments Hart {D} _ _ _ _.
Arguments h_pc {D} _.
Arguments h_x {D} _ _.
Arguments h_csr {D} _ _.
Arguments h_w {D} _.

Section hart.
Context `{!Bus D} (img : list Z).

(** A load: from the ROM, from memory that has been written, or from a device. *)
Definition load (w : width) (a : Z) (s : world D) : option (Z * world D) :=
  if in_rom img a then Some (le_val (rom_byte img <$> seqZ a (Z.of_nat (nbytes w))), s)
  else if DRAM_BASE <=? a then
    bs ← read_bytes (w_mem s) a (nbytes w); Some (le_val bs, s)
  else
    let '(v, d) := dev_ld w a (w_dev s) in Some (v, World d (w_mem s) (Ld w a v :: w_tr s)).

Definition store (w : width) (a v : Z) (s : world D) : world D :=
  if DRAM_BASE <=? a then World (w_dev s) (write_bytes a (le_bytes (nbytes w) v) (w_mem s)) (w_tr s)
  else let v := v mod 2 ^ bits w in World (bus_st w a v (w_dev s)) (w_mem s) (St w a v :: w_tr s).

(** The target of an indirect jump: its lowest bit is cleared. *)
Definition target (a : Z) : Z := u64 a - u64 a mod 2.

Definition exec (i : instr) (len : Z) (h : hart D) : option (hart D) :=
  let '(Hart pc x c s) := h in
  let next := pc + len in
  match i with
  | Lui rd imm => Some (Hart next (xset x rd imm) c s)
  | Auipc rd imm => Some (Hart next (xset x rd (pc + imm)) c s)
  | Jal rd imm => Some (Hart (pc + imm) (xset x rd next) c s)
  | Jalr rd r1 imm => Some (Hart (target (xget x r1 + imm)) (xset x rd next) c s)
  | Branch k r1 r2 imm => Some (Hart (if holds_cond k (xget x r1) (xget x r2) then pc + imm else next) x c s)
  | Load o rd r1 imm =>
      '(v, s) ← load (load_width o) (u64 (xget x r1 + imm)) s; Some (Hart next (xset x rd (extend o v)) c s)
  | Store w r2 r1 imm => Some (Hart next x c (store w (u64 (xget x r1 + imm)) (xget x r2) s))
  | Imm o rd r1 imm => Some (Hart next (xset x rd (alu o (xget x r1) (u64 imm))) c s)
  | Reg o rd r1 r2 => Some (Hart next (xset x rd (alu o (xget x r1) (xget x r2))) c s)
  | Csrrw rd k r1 => Some (Hart next (xset x rd (c k)) (upd c k (xget x r1)) s)
  | Csrrs rd k r1 =>
      Some (Hart next (xset x rd (c k)) (if r1 =? 0 then c else upd c k (Z.lor (c k) (xget x r1))) s)
  | Wfi => Some (Hart next x c s)
  (* the [nop] of the delay loops of C *)
  | Nop16 => Some (Hart next x c (World (bus_nop (w_dev s)) (w_mem s) (Nop :: w_tr s)))
  end.

Definition step (h : hart D) : option (hart D) := '(i, len) ← fetch img (h_pc h); exec i len h.

Definition steps : hart D -> hart D -> Prop := rtc (fun h h' => step h = Some h').

(** From [h] the hart gets to a state with [Q]. *)
Definition reach (h : hart D) (Q : hart D -> Prop) : Prop := exists h', steps h h' /\ Q h'.
End hart.
