(* ===== verification/Startup.v ===== *)
(** The start of the FPGA boot loader ([startup.S], with the macros of [smp.h]), for one hart: hart 0
    goes into [main]; every other hart waits for its software interrupt and then for all the
    interrupts to be cleared, and enters the image. *)
From S2P Require Import Prelude Machine Uart Board Spi Crc Sd Gpt Boot Smp Riscv.

Section driver.
Context `{!Bus D, !Layout}.

(** The interrupt register of a hart. *)
Definition msip_reg (hart : Z) : Z := CLINT_CTRL_ADDR + 4 * hart.

(** [smp_resume] from its label 42 on: [wfi] until the interrupt of this hart is pending, clear it, and
    poll the registers of all harts, one after the other. [pending] is bit 3 of [mip], which does
    not change as this hart runs. *)
Definition smp_join (id : Z) (pending : bool) : M D unit :=
  wait_while (mret (negb pending)) ;;
  mmio_st W32 (msip_reg id) 0 ;;
  for_in (below (Z.of_nat MAX_HARTS)) (fun j =>
    wait_while (v ← mmio_ld W32 (msip_reg j); mret (negb (v =? 0)))).

(** [smp_pause] sends hart 0 to [main], which does not return: it jumps to the image itself, or stays
    in its loop. So hart 0 raises no interrupt. The others end with [la a1, _dtb; li s1, DRAM_BASE;
    jr s1]. *)
Definition prog_start (id : Z) (pending : bool) : M D exit :=
  if id =? Z.of_nat NONSMP_HART then main
  else smp_join id pending ;; mret (Jump DRAM_BASE dtb_addr).
End driver.
