(* ===== verification/Rom.v ===== *)
(** Reasoning about the code in a boot ROM: when a routine of the image does what a C function of the
    model does. The two run on worlds that agree: the same device and the same trace of accesses, and
    memory equal outside of the hart's private part, its stack. *)
From stdpp Require Import relations.
From S2P Require Import Prelude Machine Encoding Riscv.

(** * Running *)

Section run.
Context `{!Bus D} (img : list Z).
Implicit Types h : hart D.

Lemma reach_here h Q : Q h -> reach img h Q.
Proof. intros H. exists h. split; [apply rtc_refl | done]. Qed.

Lemma reach_step h h' Q : step img h = Some h' -> reach img h' Q -> reach img h Q.
Proof. intros H (h2 & Hs & HQ). exists h2. split; [by eapply rtc_l | done]. Qed.

Lemma reach_trans h P Q : reach img h P -> (forall h', P h' -> reach img h' Q) -> reach img h Q.
Proof.
  intros (h1 & H1 & HP) H. destruct (H h1 HP) as (h2 & H2 & HQ). exists h2. split; [by etrans | done].
Qed.

Lemma reach_mono h P Q : reach img h P -> (forall h', P h' -> Q h') -> reach img h Q.
Proof. intros (h1 & H1 & HP) H. exists h1. auto. Qed.

Lemma reach_run pc i len x c s h' Q :
  fetch img pc = Some (i, len) -> exec img i len (Hart pc x c s) = Some h' -> reach img h' Q ->
  reach img (Hart pc x c s) Q.
Proof. intros Hf He. apply reach_step. unfold step. cbn [h_pc]. by rewrite Hf. Qed.
End run.

(** * Registers *)

Lemma xget_range x r : 0 <= xget x r < 2 ^ 64.
Proof. unfold xget, u64. destruct (r =? 0); [lia|]. apply Z.mod_pos_bound. lia. Qed.

Lemma u64_range z : 0 <= u64 z < 2 ^ 64.
Proof. apply Z.mod_pos_bound. lia. Qed.

Lemma u64_xget x r : u64 (xget x r) = xget x r.
Proof. apply u64_small, xget_range. Qed.

Lemma xget_set_eq x r v : r <> 0 -> xget (xset x r v) r = u64 v.
Proof.
  intros Hr. unfold xget, xset. destruct (Z.eqb_spec r 0); [done|]. unfold upd. rewrite Z.eqb_refl.
  apply u64_small, u64_range.
Qed.

Lemma xget_set_ne x r k v : r <> k -> xget (xset x k v) r = xget x r.
Proof.
  intros Hr. unfold xget, xset, upd. destruct (Z.eqb_spec r 0); [done|].
  destruct (Z.eqb_spec k 0); [done|]. by destruct (Z.eqb_spec r k).
Qed.

(** The registers a routine of the calling convention leaves as they were: [sp], [gp], [tp], [s0] to
    [s11]. *)
Definition callee_saved (r : Z) : bool :=
  ((2 <=? r) && (r <=? 4)) || (r =? 8) || (r =? 9) || ((18 <=? r) && (r <=? 27)).

(** * Worlds that agree *)

(** Memory from [a] holds the bytes [bs]. *)
Definition slot {D} (w : world D) (a : Z) (bs : list Z) : Prop := read_bytes (w_mem w) a (length bs) = Some bs.

Section agree.
Context {D : Type} (priv : Z -> Prop).
Implicit Types c w : world D.

Record agree c w : Prop := {
  ag_dev : w_dev w = w_dev c;
  ag_tr : w_tr w = w_tr c;
  ag_mem : forall a v, ~ priv a -> w_mem c !! a = Some v -> w_mem w !! a = Some v /\ is_byte v
}.

(** Memory from [sp] upwards keeps its private part. *)
Definition kept (sp : Z) w w' : Prop := forall a, sp <= a -> priv a -> w_mem w' !! a = w_mem w !! a.

Lemma kept_refl sp w : kept sp w w.
Proof. done. Qed.

Lemma kept_trans sp w1 w2 w3 : kept sp w1 w2 -> kept sp w2 w3 -> kept sp w1 w3.
Proof. intros H1 H2 a Ha Hp. by rewrite H2, H1. Qed.

Lemma kept_le sp sp' w w' : kept sp w w' -> sp <= sp' -> kept sp' w w'.
Proof. intros H Hle a Ha. apply H. lia. Qed.

Lemma kept_mem sp w w' : w_mem w' = w_mem w -> kept sp w w'.
Proof. intros H a _ _. by rewrite H. Qed.

Lemma slot_ext w w' a bs :
  slot w a bs -> (forall k, a <= k < a + Z.of_nat (length bs) -> w_mem w' !! k = w_mem w !! k) -> slot w' a bs.
Proof. intros H He. unfold slot. rewrite <- H. apply read_bytes_ext. exact He. Qed.

Lemma slot_mem w w' a bs : w_mem w' = w_mem w -> slot w a bs -> slot w' a bs.
Proof. intros H. unfold slot. by rewrite H. Qed.

Lemma slot_kept sp w w' a bs :
  kept sp w w' -> slot w a bs -> sp <= a ->
  (forall k, a <= k < a + Z.of_nat (length bs) -> priv k) -> slot w' a bs.
Proof. intros Hk H Ha Hp. eapply slot_ext; [exact H|]. intros k Hk'. apply Hk; [lia | auto]. Qed.

Lemma slot_agree c w a bs :
  agree c w -> slot c a bs -> (forall k, a <= k < a + Z.of_nat (length bs) -> ~ priv k) -> slot w a bs.
Proof.
  intros [_ _ Hm]. unfold slot. revert a. induction bs as [|b bs IH]; intros a; [done|].
  cbn [length read_bytes]. intros H Hp. destruct (w_mem c !! a) as [v|] eqn:E; [|done]. cbn in H.
  rewrite (proj1 (Hm a v (Hp a ltac:(lia)) E)). cbn.
  destruct (read_bytes (w_mem c) (a + 1) (length bs)) as [l|] eqn:El; [|done]. cbn in H.
  injection H as -> ->. rewrite (IH (a + 1)); [done | done |]. intros k Hk. apply Hp. lia.
Qed.
End agree.
Arguments ag_dev {D priv c w} _.
Arguments ag_tr {D priv c w} _.
Arguments ag_mem {D priv c w} _.

Section memory.
Context `{!Bus D} (img : list Z) (priv : Z -> Prop).
Implicit Types c w : world D.

(** ** Stores to memory *)

Lemma store_mem_other wd a v w k :
  DRAM_BASE <= a -> ~ (a <= k < a + Z.of_nat (nbytes wd)) -> w_mem (store wd a v w) !! k = w_mem w !! k.
Proof.
  intros Ha Hk. unfold store. destruct (Z.leb_spec DRAM_BASE a); [|lia]. cbn.
  apply write_bytes_out. rewrite le_bytes_length. exact Hk.
Qed.

Lemma slot_here wd a a' v w :
  DRAM_BASE <= a -> a = a' -> slot (store wd a v w) a' (le_bytes (nbytes wd) v).
Proof.
  intros Ha <-. unfold slot, store. destruct (Z.leb_spec DRAM_BASE a); [|lia]. cbn. apply read_write_same.
Qed.

Lemma slot_there wd a v w b bs :
  slot w b bs -> DRAM_BASE <= a ->
  b + Z.of_nat (length bs) <= a \/ a + Z.of_nat (nbytes wd) <= b -> slot (store wd a v w) b bs.
Proof. intros H Ha Hd. eapply slot_ext; [exact H|]. intros k Hk. apply store_mem_other; [done | lia]. Qed.

Lemma agree_push c w wd a v :
  agree priv c w -> DRAM_BASE <= a -> (forall k, a <= k < a + Z.of_nat (nbytes wd) -> priv k) ->
  agree priv c (store wd a v w).
Proof.
  intros [Hd Ht Hm] Ha Hp. split.
  - unfold store. destruct (Z.leb_spec DRAM_BASE a); [done | lia].
  - unfold store. destruct (Z.leb_spec DRAM_BASE a); [done | lia].
  - intros k u Hk Hc. rewrite store_mem_other; [by apply Hm | done |]. intros Hin. by apply Hk, Hp.
Qed.

Lemma kept_push sp w wd a v :
  DRAM_BASE <= a -> a + Z.of_nat (nbytes wd) <= sp -> kept priv sp w (store wd a v w).
Proof. intros Ha Hle k Hk _. apply store_mem_other; [done | lia]. Qed.

Lemma kept_public sp w a v :
  DRAM_BASE <= a -> ~ priv a -> kept priv sp w (store W8 a v w).
Proof.
  intros Ha Hp k _ Hk. apply store_mem_other; [done|]. cbn. intros H. apply Hp. by replace a with k by lia.
Qed.

Lemma load_slot wd a bs w :
  slot w a bs -> length bs = nbytes wd -> DRAM_BASE <= a -> in_rom img a = false ->
  load img wd a w = Some (le_val bs, w).
Proof.
  unfold slot, load. intros H Hl Ha ->. rewrite Hl in H.
  destruct (Z.leb_spec DRAM_BASE a); [|lia]. by rewrite H.
Qed.
End memory.

(** * Following a statement of the model *)

Section follows.
Context `{!Bus D} (img : list Z) (priv : Z -> Prop).
Implicit Types (c w : world D) (h : hart D).

(** [follows (m n c) h Q]: with whatever result [m] stops from [c], the hart gets from [h] to a world
    that agrees with the one [m] leaves; when [m] ends with a value, [Q] holds there. *)
Definition follows {A} (r : outcome A * world D) h (Q : A -> world D -> hart D -> Prop) : Prop :=
  reach img h (fun h' => agree priv (snd r) (h_w h') /\
    match fst r with Val a => Q a (snd r) h' | _ => True end).

Lemma follows_ret {A} (a : A) n c h Q : agree priv c (h_w h) -> Q a c h -> follows ((mret a : M D A) n c) h Q.
Proof. intros Ha HQ. by apply reach_here. Qed.

Lemma follows_fault {A} n c h (Q : A -> _) : agree priv c (h_w h) -> follows ((fault : M D A) n c) h Q.
Proof. intros Ha. by apply reach_here. Qed.

Lemma follows_mono {A} (r : outcome A * world D) h (P Q : A -> world D -> hart D -> Prop) :
  follows r h P -> (forall a c' h', agree priv c' (h_w h') -> P a c' h' -> Q a c' h') -> follows r h Q.
Proof.
  intros H HPQ. eapply reach_mono; [exact H|]. intros h' [Ha HP]. split; [done|].
  destruct (fst r); auto.
Qed.

Lemma follows_bind {A B} (m : M D A) (k : A -> M D B) n c h (Q : B -> _) :
  follows (m n c) h (fun a c' h' => follows (k a n c') h' Q) -> follows ((m ≫= k) n c) h Q.
Proof.
  intros H. unfold mbind, M_bind, follows in *. destruct (m n c) as [[a| |] c']; cbn [fst snd] in *.
  - eapply reach_trans; [exact H|]. by intros h' [_ HQ].
  - exact H.
  - exact H.
Qed.

(** The same, knowing how the first statement ended. *)
Lemma follows_bind_eq {A B} (m : M D A) (k : A -> M D B) n c h (Q : B -> _) :
  follows (m n c) h (fun a c' h' => m n c = (Val a, c') -> follows (k a n c') h' Q) -> follows ((m ≫= k) n c) h Q.
Proof.
  intros H. unfold mbind, M_bind, follows in *. destruct (m n c) as [[a| |] c']; cbn [fst snd] in *.
  - eapply reach_trans; [exact H|]. intros h' [_ HQ]. by apply HQ.
  - exact H.
  - exact H.
Qed.

(** What the statement keeps of the model's world. *)
Lemma follows_keep {A} I (m : M D A) n c h (Q : A -> world D -> hart D -> Prop) :
  keeps I m -> I c -> follows (m n c) h (fun a c' h' => I c' -> Q a c' h') -> follows (m n c) h Q.
Proof.
  intros Hk Hc H. pose proof (keeps_run (D := D) I m n c Hk Hc) as HI. unfold follows in *.
  destruct (m n c) as [[a| |] c']; cbn [fst snd] in *; [|exact H..].
  eapply reach_mono; [exact H|]. intros h' [Ha HQ]. split; [done | by apply HQ].
Qed.

(** The hart may go on after the statement has ended. *)
Lemma follows_then {A} (r : outcome A * world D) h (Q : A -> world D -> hart D -> Prop) :
  follows r h (fun a c' h' => follows (Val a, c') h' Q) -> follows r h Q.
Proof.
  unfold follows. intros H. eapply reach_trans; [exact H|]. intros h' [Ha HP].
  destruct (fst r); [exact HP | by apply reach_here..].
Qed.

Lemma follows_done {A} (a : A) c h (Q : A -> world D -> hart D -> Prop) :
  agree priv c (h_w h) -> Q a c h -> follows (Val a, c) h Q.
Proof. intros Ha HQ. by apply reach_here. Qed.

Lemma follows_run {A} pc i len x csr w h' (r : outcome A * world D) Q :
  fetch img pc = Some (i, len) -> exec img i len (Hart pc x csr w) = Some h' -> follows r h' Q ->
  follows r (Hart pc x csr w) Q.
Proof. apply reach_run. Qed.

Lemma follows_iter {S A} (I : S -> world D -> hart D -> Prop) (body : S -> M D (S + A)) s n c h Q :
  (forall s c h, I s c h -> agree priv c (h_w h)) ->
  (forall n s c h, I s c h ->
     follows (body s n c) h (fun r c' h' => match r with inl s' => I s' c' h' | inr a => Q a c' h' end)) ->
  I s c h -> follows (iter body s n c) h Q.
Proof.
  intros Ha Hb. revert s c h. induction n as [|n IH]; intros s c h HI.
  - apply reach_here. split; [by eapply Ha | done].
  - cbn. specialize (Hb n s c h HI). unfold follows in *.
    destruct (body s n c) as [[[s'|a]| |] c']; cbn [fst snd] in *; try exact Hb.
    eapply reach_trans; [exact Hb|]. intros h' [_ HI']. by apply IH.
Qed.

Lemma follows_wait_while (I : world D -> hart D -> Prop) (m : M D bool) n c h (Q : unit -> _) :
  (forall c h, I c h -> agree priv c (h_w h)) ->
  (forall n c h, I c h -> follows (m n c) h (fun b c' h' => if b : bool then I c' h' else Q tt c' h')) ->
  I c h -> follows (wait_while m n c) h Q.
Proof.
  intros Ha Hm HI. eapply (follows_iter (fun _ => I)); [intros _; exact Ha | | exact HI].
  intros n' _ c1 h1 H1. apply follows_bind. eapply follows_mono; [by apply Hm|].
  intros [] c2 h2 Ha2 H2; by apply follows_ret.
Qed.

Lemma follows_for_in {X} (I : list X -> world D -> hart D -> Prop) (l : list X) (f : X -> M D unit) n c h Q :
  (forall x l c h, I (x :: l) c h -> follows (f x n c) h (fun _ c' h' => I l c' h')) ->
  (forall c h, I [] c h -> agree priv c (h_w h) /\ Q tt c h) ->
  I l c h -> follows (for_in l f n c) h Q.
Proof.
  intros Hf HQ. revert c h. induction l as [|x l IH]; intros c h HI.
  - destruct (HQ c h HI). by apply follows_ret.
  - apply follows_bind. eapply follows_mono; [by apply Hf|]. intros [] c' h' _ HI'. by apply IH.
Qed.

Lemma follows_fold_in {X S} (I : list X -> S -> world D -> hart D -> Prop) (l : list X)
    (f : X -> S -> M D S) s n c h Q :
  (forall x l s c h, I (x :: l) s c h -> follows (f x s n c) h (fun s' c' h' => I l s' c' h')) ->
  (forall s c h, I [] s c h -> agree priv c (h_w h) /\ Q s c h) ->
  I l s c h -> follows (fold_in l f s n c) h Q.
Proof.
  intros Hf HQ. revert s c h. induction l as [|x l IH]; intros s c h HI.
  - destruct (HQ s c h HI). by apply follows_ret.
  - apply follows_bind. eapply follows_mono; [by apply Hf|]. intros s' c' h' _ HI'. by apply IH.
Qed.

(** ** Accesses to devices *)

Lemma follows_ld o a pc rd r1 imm len x csr w n c Q :
  fetch img pc = Some (Load o rd r1 imm, len) -> u64 (xget x r1 + imm) = a ->
  negb (in_rom img a) && (a <? DRAM_BASE) = true -> agree priv c w ->
  (forall v c' w', 0 <= v < 2 ^ bits (load_width o) -> agree priv c' w' -> w_mem w' = w_mem w ->
     w_mem c' = w_mem c -> Q v c' (Hart (pc + len) (xset x rd (extend o v)) csr w')) ->
  follows (mmio_ld (load_width o) a n c) (Hart pc x csr w) Q.
Proof.
  intros Hf Ha Hdev Hag HQ. apply andb_true_iff in Hdev as [Hrom Hd%Z.ltb_lt].
  apply negb_true_iff in Hrom. unfold mmio_ld.
  destruct (dev_ld (load_width o) a (w_dev c)) as [v d] eqn:E.
  set (w' := World d (w_mem w) (Ld (load_width o) a v :: w_tr w)).
  assert (Hl : load img (load_width o) (u64 (xget x r1 + imm)) w = Some (v, w')).
  { rewrite Ha. unfold load. rewrite Hrom. destruct (Z.leb_spec DRAM_BASE a); [lia|].
    by rewrite (ag_dev Hag), E. }
  eapply reach_step.
  { unfold step. cbn [h_pc]. rewrite Hf. cbn [mbind option_bind exec]. by rewrite Hl. }
  assert (Hag' : agree priv (World d (w_mem c) (Ld (load_width o) a v :: w_tr c)) w').
  { split; [done | cbn; by rewrite (ag_tr Hag) | exact (ag_mem Hag)]. }
  apply reach_here. split; [exact Hag'|]. apply HQ; try done.
  unfold dev_ld in E. destruct (bus_ld _ _ _) as [v0 d0]. injection E as <- <-.
  apply Z.mod_pos_bound, Z.pow_pos_nonneg; [lia | by destruct (load_width o)].
Qed.

Lemma follows_st wd a v pc r2 r1 imm len x csr w n c Q :
  fetch img pc = Some (Store wd r2 r1 imm, len) -> u64 (xget x r1 + imm) = a -> (a <? DRAM_BASE) = true ->
  xget x r2 mod 2 ^ bits wd = v mod 2 ^ bits wd -> agree priv c w ->
  (forall c' w', agree priv c' w' -> w_mem w' = w_mem w -> w_mem c' = w_mem c ->
     Q tt c' (Hart (pc + len) x csr w')) ->
  follows (mmio_st wd a v n c) (Hart pc x csr w) Q.
Proof.
  intros Hf Ha Hd%Z.ltb_lt Hv Hag HQ. unfold mmio_st.
  eapply reach_step; [unfold step; cbn [h_pc]; by rewrite Hf|].
  unfold store. rewrite Ha, Hv. destruct (Z.leb_spec DRAM_BASE a); [lia|].
  set (w' := World _ _ _). set (c' := World _ _ _).
  assert (Hag' : agree priv c' w').
  { split; [unfold c', w'; cbn; by rewrite (ag_dev Hag) | unfold c', w'; cbn; by rewrite (ag_tr Hag) | exact (ag_mem Hag)]. }
  apply reach_here. split; [exact Hag'|]. by apply HQ.
Qed.

Lemma follows_nop pc len x csr w n c Q :
  fetch img pc = Some (Nop16, len) -> agree priv c w ->
  (forall c' w', agree priv c' w' -> w_mem w' = w_mem w -> w_mem c' = w_mem c ->
     Q tt c' (Hart (pc + len) x csr w')) ->
  follows (nop n c) (Hart pc x csr w) Q.
Proof.
  intros Hf Hag HQ. unfold nop. eapply reach_step; [unfold step; cbn [h_pc]; by rewrite Hf|].
  set (w' := World _ _ _). set (c' := World _ _ _).
  assert (Hag' : agree priv c' w').
  { split; [unfold c', w'; cbn; by rewrite (ag_dev Hag) | unfold c', w'; cbn; by rewrite (ag_tr Hag) | exact (ag_mem Hag)]. }
  apply reach_here. split; [exact Hag'|]. by apply HQ.
Qed.

(** ** Accesses to memory *)

Lemma follows_load8 a a' pc rd r1 imm len x csr w n c Q :
  fetch img pc = Some (Load Lbu rd r1 imm, len) -> u64 (xget x r1 + imm) = a' ->
  DRAM_BASE <= a' -> in_rom img a' = false -> agree priv c w ->
  (forall v, w_mem c !! a = Some v -> w_mem w !! a' = Some v /\ is_byte v) ->
  (forall v, is_byte v -> Q v c (Hart (pc + len) (xset x rd v) csr w)) ->
  follows (load8 a n c) (Hart pc x csr w) Q.
Proof.
  intros Hf Ha Hd Hr Hag Hm HQ. unfold load8. destruct (w_mem c !! a) as [v|] eqn:E; [|by apply reach_here].
  destruct (Hm v eq_refl) as [Hw Hv].
  assert (Hl : load img (load_width Lbu) (u64 (xget x r1 + imm)) w = Some (v, w)).
  { rewrite Ha. unfold load. rewrite Hr. destruct (Z.leb_spec DRAM_BASE a'); [|lia].
    cbn [load_width nbytes read_bytes]. rewrite Hw. cbn [mbind option_bind le_val]. do 2 f_equal. lia. }
  eapply reach_step; [unfold step; cbn [h_pc]; rewrite Hf; cbn [mbind option_bind exec]; by rewrite Hl|].
  apply reach_here. split; [done|]. by apply HQ.
Qed.

(** A load of the model, which the hart makes at another time. *)
Lemma follows_load_le {B} k a (g : Z -> M D B) n c h (Q : B -> _) :
  agree priv c (h_w h) ->
  (forall bs, slot c a bs -> length bs = k -> follows (g (le_val bs) n c) h Q) ->
  follows ((load_le k a ≫= g) n c) h Q.
Proof.
  intros Ha H. apply follows_bind. unfold load_le. destruct (read_bytes (w_mem c) a k) as [bs|] eqn:E.
  - pose proof (read_bytes_length _ _ _ _ E) as Hl. apply follows_done; [done|]. apply H; [|done].
    unfold slot. by rewrite Hl.
  - by apply reach_here.
Qed.

(** Slots next to each other. *)
Lemma slot_app w a (l1 l2 : list Z) :
  slot w a l1 -> slot w (a + Z.of_nat (length l1)) l2 -> slot w a (l1 ++ l2).
Proof.
  unfold slot. intros H1 H2. rewrite length_app, read_bytes_app, H1. cbn. by rewrite H2.
Qed.

Lemma agree_store8 c w a v u :
  agree priv c w -> DRAM_BASE <= a -> u mod 2 ^ 8 = u8 v ->
  agree priv (World (w_dev c) (<[a := u8 v]> (w_mem c)) (w_tr c)) (store W8 a u w).
Proof.
  intros [Hd Ht Hm] Ha Hu. unfold store. destruct (Z.leb_spec DRAM_BASE a); [|lia]. split; [done..|]. cbn.
  intros k z Hk Hz. change 256 with (2 ^ 8). rewrite Hu. destruct (decide (k = a)) as [->|Hne].
  - rewrite lookup_insert_eq in Hz |- *. injection Hz as <-. split; [done | apply u8_byte].
  - rewrite lookup_insert_ne in Hz |- * by done. auto.
Qed.

Lemma follows_store8 a v pc r2 r1 imm len x csr w n c Q :
  fetch img pc = Some (Store W8 r2 r1 imm, len) -> u64 (xget x r1 + imm) = a -> DRAM_BASE <= a ->
  xget x r2 mod 2 ^ 8 = u8 v -> agree priv c w ->
  (forall c' w', agree priv c' w' -> w' = store W8 a (xget x r2) w -> w_mem c' = <[a := u8 v]> (w_mem c) ->
     Q tt c' (Hart (pc + len) x csr w')) ->
  follows (store8 a v n c) (Hart pc x csr w) Q.
Proof.
  intros Hf Ha Hd Hv Hag HQ. eapply reach_step; [unfold step; cbn [h_pc]; by rewrite Hf|]. rewrite Ha.
  pose proof (agree_store8 _ _ _ _ _ Hag Hd Hv). apply reach_here. split; [done|]. by apply HQ.
Qed.

(** A store of the model alone, to an array that the hart has elsewhere. *)
Lemma agree_private c w c' :
  agree priv c w -> w_dev c' = w_dev c -> w_tr c' = w_tr c ->
  (forall a, ~ priv a -> w_mem c' !! a = w_mem c !! a) -> agree priv c' w.
Proof.
  intros [Hd Ht Hm] E1 E2 E3. split; [by rewrite E1 | by rewrite E2|]. intros a v Ha. rewrite E3 by done. auto.
Qed.

(** ** Routines *)

(** Room for [depth] bytes of private stack below [sp]. *)
Definition stack_ok (depth sp : Z) : Prop :=
  DRAM_BASE + depth <= sp /\ forall a, sp - depth <= a < sp -> priv a.

Lemma stack_le d d' sp : stack_ok d sp -> d' <= d -> stack_ok d' sp.
Proof. intros [H1 H2] H. split; [lia|]. intros a Ha. apply H2. lia. Qed.

Lemma stack_sub d d' k sp : stack_ok d sp -> d' <= d + k -> k <= 0 -> stack_ok d' (sp + k).
Proof. intros [H1 H2] H Hk. split; [lia|]. intros a Ha. apply H2. lia. Qed.

Lemma stack_frame d sp : stack_ok d (sp + d) -> stack_ok 0 sp.
Proof. intros [H1 H2]. split; [lia|]. intros a Ha. lia. Qed.

(** The hart is back from the call it was in at [h]. *)
Definition returned h h' : Prop :=
  h_pc h' = xget (h_x h) 1
  /\ (forall r, callee_saved r = true -> xget (h_x h') r = xget (h_x h) r)
  /\ h_csr h' = h_csr h /\ kept priv (xget (h_x h) 2) (h_w h) (h_w h').

(** The routine at [entry], with [depth] bytes of stack, does what [m] does, for argument registers
    and worlds with [pre]; [res] relates the value of [m] with the registers at its end. *)
Definition routine {A} (entry depth : Z) (pre : (Z -> Z) -> world D -> world D -> Prop) (m : M D A)
    (res : A -> (Z -> Z) -> Prop) : Prop :=
  forall n c x csr w,
    pre (xget x) c w -> xget x 1 mod 2 = 0 -> stack_ok depth (xget x 2) -> agree priv c w ->
    follows (m n c) (Hart entry x csr w) (fun a c' h' =>
      returned (Hart entry x csr w) h' /\ res a (xget (h_x h'))).
(** Calling a routine, or jumping to it. *)
Lemma follows_call {A} entry depth pre (m : M D A) res ra sp n c x csr w Q :
  routine entry depth pre m res -> pre (xget x) c w -> xget x 1 = ra -> ra mod 2 = 0 ->
  xget x 2 = sp -> stack_ok depth sp -> agree priv c w ->
  (forall a c' x' w', agree priv c' w' -> (forall r, callee_saved r = true -> xget x' r = xget x r) ->
     kept priv sp w w' -> res a (xget x') -> Q a c' (Hart ra x' csr w')) ->
  follows (m n c) (Hart entry x csr w) Q.
Proof.
  intros Hm Hpre <- Hra <- Hst Hag HQ. eapply follows_mono; [by apply Hm|].
  intros a c' [pc' x' csr' w'] Hag' [(Hpc & Hs & Hcsr & Hk) Hres]. cbn in *. subst.
  by apply HQ.
Qed.

(** A string with its terminating NUL, in the ROM. *)
Fixpoint rom_string (a : Z) (s : string) : bool :=
  match s with
  | EmptyString => in_rom img a && (rom_byte img a =? 0)
  | String ch s => in_rom img a && (rom_byte img a =? code ch) && negb (code ch =? 0) && rom_string (a + 1) s
  end.

Lemma in_rom_dram a : (ROM_BASE + 4 * Z.of_nat (length img) <=? DRAM_BASE) = true -> DRAM_BASE <= a -> in_rom img a = false.
Proof. intros H%Z.leb_le Ha. unfold in_rom. apply andb_false_iff. right. apply Z.ltb_ge. lia. Qed.

Lemma in_rom_range a :
  (ROM_BASE + 4 * Z.of_nat (length img) <=? DRAM_BASE) = true -> in_rom img a = true -> 0x10000 <= a < 0x80000000.
Proof.
  intros H%Z.leb_le [H1%Z.leb_le H2%Z.ltb_lt]%andb_true_iff. unfold ROM_BASE, DRAM_BASE in *. lia.
Qed.

Lemma load_rom_byte a w : in_rom img a = true -> load img W8 a w = Some (rom_byte img a, w).
Proof. intros H. unfold load. rewrite H. assert (E : seqZ a (Z.of_nat (nbytes W8)) = [a]) by (change (Z.of_nat (nbytes W8)) with 1; rewrite seqZ_cons by lia; by rewrite seqZ_nil by lia).
  rewrite E.
  cbn [fmap list_fmap le_val]. by rewrite Z.mul_0_r, Z.add_0_r. Qed.
End follows.

(** * Running the image *)

Section exec_rules.
Context `{!Bus D} (img : list Z) (priv : Z -> Prop).

Lemma u64_add_r a b : u64 (a + u64 b) = u64 (a + b).
Proof. apply Zplus_mod_idemp_r. Qed.

Lemma u64_u64 z : u64 (u64 z) = u64 z.
Proof. apply u64_small, u64_range. Qed.

Lemma u64_land_r a b : 0 <= b < 2 ^ 64 -> u64 (Z.land a b) = Z.land a b.
Proof.
  intros Hb. unfold u64. rewrite <- Z.land_ones, <- Z.land_assoc, Z.land_ones by lia.
  by rewrite Z.mod_small.
Qed.

Lemma xset_u64 x r v v' : u64 v = v' -> xset x r v = xset x r v'.
Proof. intros <-. unfold xset. by rewrite u64_u64. Qed.

Lemma run_set {A} i len k v v' pc pc' x csr w (r : outcome A * world D) Q :
  fetch img pc = Some (i, len) -> exec img i len (Hart pc x csr w) = Some (Hart pc' (xset x k v) csr w) ->
  u64 v = v' -> follows img priv r (Hart pc' (xset x k v') csr w) Q -> follows img priv r (Hart pc x csr w) Q.
Proof. intros Hf He Hv H. eapply follows_run; [exact Hf | exact He |]. by rewrite (xset_u64 _ _ _ _ Hv). Qed.

Lemma run_load {A} o rd r1 imm len a v v' pc x csr w (r : outcome A * world D) Q :
  fetch img pc = Some (Load o rd r1 imm, len) -> u64 (xget x r1 + imm) = a ->
  load img (load_width o) a w = Some (v, w) -> u64 (extend o v) = v' ->
  follows img priv r (Hart (pc + len) (xset x rd v') csr w) Q -> follows img priv r (Hart pc x csr w) Q.
Proof.
  intros Hf <- Hl Hv H. eapply follows_run; [exact Hf | cbn [exec]; by rewrite Hl |].
  by rewrite (xset_u64 _ _ _ _ Hv).
Qed.

Lemma run_store {A} wd r2 r1 imm len a v pc x csr w (r : outcome A * world D) Q :
  fetch img pc = Some (Store wd r2 r1 imm, len) -> u64 (xget x r1 + imm) = a -> xget x r2 = v ->
  follows img priv r (Hart (pc + len) x csr (store wd a v w)) Q -> follows img priv r (Hart pc x csr w) Q.
Proof. intros Hf <- <- H. eapply follows_run; [exact Hf | reflexivity | exact H]. Qed.

Lemma run_branch {A} k r1 r2 imm len a b (t : bool) pc x csr w (r : outcome A * world D) Q :
  fetch img pc = Some (Branch k r1 r2 imm, len) -> xget x r1 = a -> xget x r2 = b -> holds_cond k a b = t ->
  follows img priv r (Hart (if t then pc + imm else pc + len) x csr w) Q ->
  follows img priv r (Hart pc x csr w) Q.
Proof. intros Hf <- <- <- H. eapply follows_run; [exact Hf | reflexivity | exact H]. Qed.

Lemma run_jump {A} imm len pc pc' x csr w (r : outcome A * world D) Q :
  fetch img pc = Some (Jal 0 imm, len) -> pc + imm = pc' -> follows img priv r (Hart pc' x csr w) Q ->
  follows img priv r (Hart pc x csr w) Q.
Proof. intros Hf <- H. eapply follows_run; [exact Hf | reflexivity | exact H]. Qed.

Lemma run_jr {A} r1 imm len a pc x csr w (r : outcome A * world D) Q :
  fetch img pc = Some (Jalr 0 r1 imm, len) -> u64 (xget x r1 + imm) = a -> a mod 2 = 0 ->
  follows img priv r (Hart a x csr w) Q -> follows img priv r (Hart pc x csr w) Q.
Proof.
  intros Hf <- Hev H. eapply follows_run; [exact Hf | reflexivity |]. unfold target.
  by rewrite Hev, Z.sub_0_r.
Qed.
End exec_rules.

(** Facts about the conversions of the 32-bit instructions. *)
Lemma mod_pow_mod z n m : 0 <= n <= m -> (z mod 2 ^ m) mod 2 ^ n = z mod 2 ^ n.
Proof.
  intros H. apply Z.mod_mod_divide. exists (2 ^ (m - n)). rewrite <- Z.pow_add_r by lia. f_equal. lia.
Qed.

Lemma sext_mod k n z : 0 <= n <= k -> 0 < k -> 0 <= z < 2 ^ k -> sext k z mod 2 ^ n = z mod 2 ^ n.
Proof.
  intros Hn Hk Hz. unfold sext. destruct (z <? 2 ^ (k - 1)); [done|].
  rewrite <- (mod_pow_mod (z - 2 ^ k) n k) by lia.
  replace (z - 2 ^ k) with (z + (-1) * 2 ^ k) by lia. rewrite Z.mod_add by (apply Z.pow_nonzero; lia).
  by apply mod_pow_mod.
Qed.

Lemma sextw_mod n z : 0 <= n <= 32 -> sextw z mod 2 ^ n = z mod 2 ^ n.
Proof.
  intros Hn. unfold sextw. rewrite sext_mod; [by apply mod_pow_mod | lia | lia |].
  apply Z.mod_pos_bound. lia.
Qed.

Lemma u64_mod n z : 0 <= n <= 64 -> u64 z mod 2 ^ n = z mod 2 ^ n.
Proof. apply mod_pow_mod. Qed.

Lemma u32_sextw z : u32 (sextw z) = u32 z.
Proof. apply (sextw_mod 32). lia. Qed.

Lemma u32_u64 z : u32 (u64 z) = u32 z.
Proof. apply (u64_mod 32). lia. Qed.

Lemma sextw_small z : 0 <= z < 2 ^ 31 -> sextw z = z.
Proof.
  intros H. unfold sextw, sext. rewrite u32_small by lia. destruct (Z.ltb_spec z (2 ^ (32 - 1))); [done | lia].
Qed.

Lemma sextw_id z : - 2 ^ 31 <= z < 2 ^ 31 -> sextw z = z.
Proof.
  intros H. destruct (Z.lt_ge_cases z 0); [|apply sextw_small; lia].
  unfold sextw, sext, u32. replace (z mod 2 ^ 32) with (z + 2 ^ 32); [destruct (Z.ltb_spec (z + 2 ^ 32) (2 ^ (32 - 1))); lia|].
  symmetry. rewrite <- (Z.mod_add z 1) by lia. apply Z.mod_small. lia.
Qed.

Lemma s64_id z : - 2 ^ 63 <= z < 2 ^ 63 -> s64 (u64 z) = z.
Proof.
  intros Hz. unfold s64, sext. rewrite Zmod_mod || rewrite u64_u64. destruct (Z.lt_ge_cases z 0).
  - replace (u64 z) with (z + 2 ^ 64); [destruct (Z.ltb_spec (z + 2 ^ 64) (2 ^ (64 - 1))); lia|].
    unfold u64. symmetry. rewrite <- (Z.mod_add z 1) by lia. apply Z.mod_small. lia.
  - rewrite u64_small by lia. destruct (Z.ltb_spec z (2 ^ (64 - 1))); lia.
Qed.

Lemma s64_small z : 0 <= z < 2 ^ 63 -> s64 z = z.
Proof. intros Hz. rewrite <- (u64_small z) at 1 by lia. apply s64_id. lia. Qed.

Lemma addiw_small a k : - 2 ^ 31 <= a + k < 2 ^ 31 -> sextw (a + u64 k) = a + k.
Proof.
  intros H. rewrite <- (sextw_id (a + k)) by done. unfold sextw. f_equal. unfold u32, u64.
  rewrite <- (Zplus_mod_idemp_r (k mod 2 ^ 64)), mod_pow_mod, Zplus_mod_idemp_r by lia. done.
Qed.

Lemma sextw_u32 z : sextw (u32 z) = sextw z.
Proof. unfold sextw, u32. by rewrite Zmod_mod. Qed.

Lemma byte_mod z k m : 0 <= k -> k + 8 <= m -> Z.land (Z.shiftr (z mod 2 ^ m) k) 255 = Z.land (Z.shiftr z k) 255.
Proof.
  intros Hk Hm. apply Z.bits_inj'. intros i Hi. rewrite !Z.land_spec, !Z.shiftr_spec by done.
  change 255 with (Z.ones 8). destruct (Z.lt_ge_cases i 8).
  - by rewrite Z.mod_pow2_bits_low by lia.
  - by rewrite Z.ones_spec_high, !andb_false_r by lia.
Qed.

Lemma land_255 z : Z.land z 255 = z mod 2 ^ 8.
Proof. apply land_ff. Qed.

Lemma le_val_64 v : le_val (le_bytes (nbytes W64) v) = u64 v.
Proof. apply le_val_bytes. Qed.

Lemma le_val_8 v : le_val (le_bytes (nbytes W8) v) = u8 v.
Proof. apply le_val_bytes. Qed.

Lemma land_1_sextw v : Z.land (u64 (sextw v)) 1 = Z.land v 1.
Proof.
  change 1 with (Z.ones 1). rewrite !Z.land_ones, u64_mod by lia. apply (sextw_mod 1). lia.
Qed.

Lemma bit_0_set v : holds_cond Bne (Z.land v 1) 0 = (Z.land v 1 =? 1).
Proof. cbn [holds_cond]. rewrite land_1. by destruct (Z.testbit v 0). Qed.

Lemma bit_0_clear v : (Z.land v 1 =? 1) = false -> Z.land v 1 = 0.
Proof. rewrite land_1. by destruct (Z.testbit v 0). Qed.

(** Zero extension, by two shifts. *)
Lemma zext_shifts v : 0 <= v < 2 ^ 32 -> u64 (Z.shiftr (u64 (Z.shiftl (u64 (sextw v)) 32)) 32) = v.
Proof.
  intros Hv. unfold u64 at 2. rewrite Z.shiftl_mul_pow2 by lia. change (2 ^ 64) with (2 ^ 32 * 2 ^ 32).
  rewrite Z.mul_mod_distr_r, u64_mod, sextw_mod by lia. rewrite Z.mod_small by done.
  rewrite Z.shiftr_div_pow2, Z.div_mul by lia. apply u64_small. lia.
Qed.

Lemma sextw_sextw v : sextw (u64 (sextw v)) = sextw v.
Proof. unfold sextw at 1. by rewrite u32_u64, u32_sextw. Qed.

Lemma u64_u8 z : u64 (u8 z) = u8 z.
Proof. apply u64_small. pose proof (u8_byte z). unfold is_byte in *. lia. Qed.

Lemma u8_u8 z : u8 (u8 z) = u8 z.
Proof. apply Zmod_mod. Qed.

(** Closed integers. *)
Ltac is_num t :=
  lazymatch t with
  | Z0 => idtac
  | Zpos ?p => is_num p
  | Zneg ?p => is_num p
  | xI ?p => is_num p
  | xO ?p => is_num p
  | xH => idtac
  end.

Ltac is_closed t :=
  lazymatch t with
  | ?f ?a ?b => is_op f; is_closed a; is_closed b
  | u64 ?a => is_closed a
  | u32 ?a => is_closed a
  | u8 ?a => is_closed a
  | sextw ?a => is_closed a
  | s64 ?a => is_closed a
  | Z.b2z (?a =? ?b) => is_closed a; is_closed b
  | _ => is_num t
  end
with is_op f :=
  lazymatch f with
  | Z.add => idtac | Z.sub => idtac | Z.mul => idtac | Z.modulo => idtac | Z.div => idtac
  | Z.land => idtac | Z.lor => idtac | Z.lxor => idtac | Z.shiftl => idtac | Z.shiftr => idtac
  | Z.rem => idtac | alu Add => idtac | Z.pow => idtac
  end.

(** Reads of registers that have just been set. *)
Ltac xgets :=
  repeat match goal with
  | |- context [xget (xset ?x ?k ?v) ?r] =>
      lazymatch eval vm_compute in (Z.eqb r k) with
      | true => rewrite (xget_set_eq x k v) by discriminate
      | false => rewrite (xget_set_ne x r k v) by discriminate
      end
  | |- context [xget ?x 0] => change (xget x 0) with 0
  | H : xget ?x ?r = _ |- context [xget ?x ?r] => rewrite H
  | H : forall q, _ -> xget ?x q = _ |- context [xget ?x ?r] =>
      rewrite (H r) by (first [discriminate | reflexivity])
  | H : forall q, _ -> _ -> xget ?x q = _ |- context [xget ?x ?r] =>
      rewrite (H r) by (first [discriminate | reflexivity])
  | H : forall q, _ -> _ -> _ -> xget ?x q = _ |- context [xget ?x ?r] =>
      rewrite (H r) by (first [discriminate | reflexivity])
  | H : forall q, _ -> _ -> _ -> _ -> xget ?x q = _ |- context [xget ?x ?r] =>
      rewrite (H r) by (first [discriminate | reflexivity])
  | H : forall q, _ -> _ -> _ -> _ -> _ -> xget ?x q = _ |- context [xget ?x ?r] =>
      rewrite (H r) by (first [discriminate | reflexivity])
  | H : forall q, _ -> _ -> _ -> _ -> _ -> _ -> xget ?x q = _ |- context [xget ?x ?r] =>
      rewrite (H r) by (first [discriminate | reflexivity])
  | H : forall q, _ -> _ -> _ -> _ -> _ -> _ -> _ -> xget ?x q = _ |- context [xget ?x ?r] =>
      rewrite (H r) by (first [discriminate | reflexivity])
  end.

Ltac u64s :=
  repeat match goal with
  | |- context [u64 ?e] =>
      first
      [ is_closed e; let v := eval vm_compute in (u64 e) in change (u64 e) with v
      | lazymatch e with
        | u64 _ => rewrite u64_u64
        | u8 _ => rewrite u64_u8
        | xget _ _ => rewrite u64_xget
        | ?a + 0 => rewrite (Z.add_0_r a)
        | 0 + ?a => rewrite (Z.add_0_l a)
        | ?a + u64 ?b => rewrite (u64_add_r a b)
        | Z.land ?a ?b => is_num b; rewrite (u64_land_r a b) by lia
        | _ => rewrite (u64_small e) by lia
        end ]
  end.

(** Immediates, and the shift amounts they give. *)
Ltac consts :=
  repeat match goal with
  | |- context [u64 ?e] => is_closed e; let v := eval vm_compute in (u64 e) in progress change (u64 e) with v
  | |- context [?a mod ?b] => is_closed a; is_num b; let v := eval vm_compute in (a mod b) in change (a mod b) with v
  end.

(** Sums of 32 bits that do not wrap around. *)
Ltac words :=
  repeat match goal with
  | |- context [sextw (u64 ?e + u64 ?k)] => rewrite (u64_small e) by lia
  | |- context [sextw (?a + u64 ?k)] => rewrite (addiw_small a k) by lia
  end.

(** Sums of constants. *)
Ltac sums :=
  repeat match goal with
  | |- context [?a + ?b + ?c] =>
      is_num b; is_num c;
      let v := eval vm_compute in (b + c) in
      replace (a + b + c) with (a + v) by (rewrite <- Z.add_assoc; reflexivity)
  end;
  rewrite ?Z.add_0_r.

(** Brings the left side of an equation to the form in which the state shows it. *)
Ltac value :=
  cbn [alu extend]; rewrite ?le_val_64, ?le_val_8; xgets; rewrite ?sextw_sextw;
  first [ lazymatch goal with |- ?e = _ => is_closed e;
            let v := eval vm_compute in e in transitivity v; [vm_cast_no_check (eq_refl v) | reflexivity] end
        | words; u64s; consts; sums; reflexivity ].

Ltac pcs :=
  lazymatch goal with
  | |- follows _ _ _ (Hart ?p _ _ _) _ => let q := eval vm_compute in p in change p with q
  end.

(** What holds of every byte. *)
Lemma every_byte (f : Z -> bool) : forallb f (seqZ 0 256) = true -> forall b, is_byte b -> f b = true.
Proof.
  rewrite forallb_forall. intros H b Hb. apply H, list_elem_of_In, elem_of_seqZ. unfold is_byte in Hb. lia.
Qed.

(** Shifting up and down again keeps the low bits. *)
Lemma shifts_low k z : 0 <= k <= 64 -> u64 (Z.shiftr (u64 (Z.shiftl z (64 - k))) (64 - k)) = z mod 2 ^ k.
Proof.
  intros Hk. unfold u64 at 2. rewrite Z.shiftl_mul_pow2 by lia.
  replace (2 ^ 64) with (2 ^ k * 2 ^ (64 - k)) by (rewrite <- Z.pow_add_r by lia; f_equal; lia).
  rewrite Z.mul_mod_distr_r by (apply Z.pow_nonzero; lia).
  rewrite Z.shiftr_div_pow2, Z.div_mul by (first [lia | apply Z.pow_nonzero; lia]). apply u64_small.
  pose proof (Z.mod_pos_bound z (2 ^ k) ltac:(apply Z.pow_pos_nonneg; lia)).
  pose proof (Z.pow_le_mono_r 2 k 64 ltac:(lia) ltac:(lia)). lia.
Qed.

Ltac fetched f := vm_cast_no_check (eq_refl f).

(** Runs the instruction at the program counter, when it only changes registers. *)
Ltac run :=
  pcs;
  lazymatch goal with
  | |- follows ?img ?priv ?r (Hart ?pc ?x ?c ?w) ?Q =>
      let f := eval vm_compute in (fetch img pc) in
      lazymatch f with
      | Some (Jal 0 ?imm, ?len) => eapply (run_jump img priv imm len pc); [fetched f | reflexivity | pcs]
      | Some (Jalr 0 ?r1 ?imm, ?len) =>
          eapply (run_jr img priv r1 imm len _ pc); [fetched f | value | try done |]
      | Some (Branch ?k ?r1 ?r2 ?imm, ?len) =>
          eapply (run_branch img priv k r1 r2 imm len _ _ _ pc); [fetched f | value | value | |]
      | Some (Load ?o ?rd ?r1 ?imm, ?len) =>
          eapply (run_load img priv o rd r1 imm len _ _ _ pc); [fetched f | value | | | pcs]
      | Some (Store ?wd ?r2 ?r1 ?imm, ?len) =>
          eapply (run_store img priv wd r2 r1 imm len _ _ pc); [fetched f | value | value | pcs]
      | Some (?i, ?len) =>
          eapply (run_set img priv i len _ _ _ pc); [fetched f | cbn [exec]; reflexivity | value | pcs]
      end
  end.

(** Runs a load whose result the tactic [t] finds. *)
Tactic Notation "run" "by" tactic3(t) := run; [t | value |].

(** The same, with the value [v'] for the new register: that it is the value is left to show. *)
Ltac run_as v' :=
  pcs;
  lazymatch goal with
  | |- follows ?img ?priv ?r (Hart ?pc ?x ?c ?w) ?Q =>
      let f := eval vm_compute in (fetch img pc) in
      lazymatch f with
      | Some (?i, ?len) =>
          eapply (run_set img priv i len _ _ v' pc);
          [fetched f | cbn [exec]; reflexivity | cbn [alu]; xgets; words; consts; rewrite ?sextw_sextw, ?u64_u64, ?u64_xget | pcs]
      end
  end.

(** The registers of the caller, after a number of updates and calls. *)
Ltac saved_at r Hr :=
  repeat match goal with
  | |- xget (xset ?x ?k ?v) r = _ =>
      destruct (Z.eq_dec r k) as [->|];
      [ first [discriminate Hr | contradiction | clear Hr; xgets; u64s; first [congruence | lia]]
      | rewrite (xget_set_ne x r k v) by assumption ]
  | H : context [xget ?x _ = _] |- xget ?x r = _ =>
      rewrite H by (first [assumption | intros ->; discriminate])
  end; try reflexivity.

Ltac saved := let r := fresh "r" in let Hr := fresh "Hr" in intros r Hr; saved_at r Hr.

(** The low bits of a value, which a store takes. *)
Ltac lows :=
  repeat first
  [ rewrite u64_mod by lia | rewrite sextw_mod by lia | rewrite land_255 | rewrite Zmod_mod
  | rewrite mod_pow_mod by lia ].

(** Worlds that agree behind a number of pushes. *)
Ltac agrees :=
  repeat (apply agree_push;
    [ | unfold DRAM_BASE; lia | cbn [nbytes];
      let k := fresh "k" in let Hk := fresh "Hk" in intros k Hk;
      match goal with H : stack_ok _ _ _ |- _ => apply (proj2 H); lia end]);
  eassumption.

(** Forgets the worlds between. *)
Ltac forget c w Hc Hw :=
  try match goal with H : w_mem w = _ |- _ => rewrite H in Hw; clear H end;
  try match goal with H : w_mem c = _ |- _ => rewrite H in Hc; clear H end;
  try match goal with H : agree _ c w |- _ => clear H end.

(** A load from, and a store to, a device, in step with the model. *)
Ltac run_ld v Hv :=
  pcs;
  lazymatch goal with
  | |- follows ?img ?priv (mmio_ld ?wd ?a ?n ?c) (Hart ?pc ?x ?csr ?w) ?Q =>
      let f := eval vm_compute in (fetch img pc) in
      lazymatch f with
      | Some (Load ?o ?rd ?r1 ?imm, ?len) =>
          eapply (follows_ld img priv o a pc rd r1 imm len x csr w n c);
          [fetched f | value | vm_compute; reflexivity | agrees |];
          let c' := fresh "c" in let w' := fresh "w" in let Ha := fresh "Ha" in let Hw := fresh "Hw" in
          let Hc := fresh "Hc" in
          intros v c' w' Hv Ha Hw Hc; cbn [load_width bits extend] in *; forget c w Hc Hw
      end
  end.

Ltac run_st :=
  pcs;
  lazymatch goal with
  | |- follows ?img ?priv (mmio_st ?wd ?a ?v ?n ?c) (Hart ?pc ?x ?csr ?w) ?Q =>
      let f := eval vm_compute in (fetch img pc) in
      lazymatch f with
      | Some (Store ?wd ?r2 ?r1 ?imm, ?len) =>
          eapply (follows_st img priv wd a v pc r2 r1 imm len x csr w n c);
          [fetched f | value | vm_compute; reflexivity | cbn [bits]; xgets; lows | agrees |];
          [try reflexivity|
          let c' := fresh "c" in let w' := fresh "w" in let Ha := fresh "Ha" in let Hw := fresh "Hw" in
          let Hc := fresh "Hc" in
          intros c' w' Ha Hw Hc; forget c w Hc Hw]
      end
  end.

(** Brings a hypothesis to the form in which the state shows its values. *)
Ltac tidy H := revert H; cbn [h_pc h_x h_csr h_w]; xgets; u64s; sums; intros H.

(** Enters a routine. *)
Ltac enter n c x csr w Hpre Hra Hst Hag :=
  intros n c x csr w Hpre Hra Hst Hag;
  pose proof (xget_range x 2); pose proof (proj1 Hst) as Hroom; unfold DRAM_BASE in Hroom.

(** Finds what memory holds behind a number of stores and calls. *)
Ltac slots :=
  first
  [ eassumption
  | apply slot_here; [unfold DRAM_BASE; lia | lia]
  | eapply slot_mem; [eassumption | slots]
  | eapply slot_there; [slots | unfold DRAM_BASE; lia | rewrite ?le_bytes_length; cbn [length nbytes]; lia]
  | eapply slot_kept; [eassumption | slots | lia |
      rewrite ?le_bytes_length; cbn [length nbytes];
      let k := fresh "k" in let Hk := fresh "Hk" in intros k Hk;
      match goal with H : stack_ok _ _ _ |- _ => apply (proj2 H); lia end] ].

Ltac keeps_tac :=
  cbn [h_x h_w];
  first
  [ apply kept_refl
  | apply kept_mem; cbn [h_w]; congruence
  | eapply kept_trans; [ | apply kept_push; [unfold DRAM_BASE; lia | cbn [nbytes]; lia] ]; keeps_tac
  | eapply kept_trans; [ | eapply kept_le; [eassumption | lia] ]; keeps_tac
  | eapply kept_trans; [ | apply kept_mem; eassumption ]; keeps_tac ].

(** Calls the routine [H] describes, or jumps to it. *)
Ltac call H :=
  eapply follows_call;
  [ eapply H | cbn beta; xgets; u64s; rewrite ?u8_u8;
    lazymatch goal with
    | |- rom_string _ ?a ?s = true => first [assumption | is_num a; vm_compute; reflexivity | idtac]
    | _ => try reflexivity end | value | first [reflexivity | eassumption | idtac] | value
  | match goal with Hst : stack_ok _ _ _ |- _ => first [exact Hst | eapply stack_sub; [exact Hst | lia | lia]
      | eapply stack_le; [exact Hst | lia]] end
  | agrees |].

(** A register from the stack. *)
Ltac run_pop :=
  run by (eapply load_slot; [slots | first [apply le_bytes_length | reflexivity] | unfold DRAM_BASE; lia
    | apply in_rom_dram; [vm_compute; reflexivity | unfold DRAM_BASE; lia]]).

(** The result of a routine, in its register. *)
Ltac results :=
  first [ done | assumption | cbn [h_x]; xgets; u64s; reflexivity | solve [auto with bytes]
        | split; results | idtac ].

(** Back from a routine: what is left is its result. *)
Ltac leave :=
  apply follows_done; [cbn [h_w]; agrees|]; split;
  [split_and!; [done | cbn [h_x]; saved | done | keeps_tac]
  | results].

(** Back from a routine that ended in a jump to another. *)
Ltac leave_tail :=
  intros; split; [split_and!; [done | cbn [h_x]; saved | done | keeps_tac] | results].

(** After a call: the result, and what the routine says of it. *)
Ltac back r Hr :=
  let c' := fresh "c" in let x' := fresh "x" in let w' := fresh "w" in let Ha := fresh "Ha" in
  let Hx := fresh "Hx" in let Hk := fresh "Hk" in
  intros r c' x' w' Ha Hx Hk Hr; cbn beta in Hr; tidy Hk.

Ltac back_void :=
  let r := fresh "r" in let Hr := fresh "Hr" in back r Hr; clear Hr; try destruct r.

(** A load, and a store, of a byte of memory in step with the model. *)
Ltac run_load8 a' v Hv :=
  pcs;
  lazymatch goal with
  | |- follows ?img ?priv (load8 ?a ?n ?c) (Hart ?pc ?x ?csr ?w) ?Q =>
      let f := eval vm_compute in (fetch img pc) in
      lazymatch f with
      | Some (Load Lbu ?rd ?r1 ?imm, ?len) =>
          eapply (follows_load8 img priv a a' pc rd r1 imm len x csr w n c);
          [ fetched f | value | unfold DRAM_BASE; lia
          | apply in_rom_dram; [vm_compute; reflexivity | unfold DRAM_BASE; lia] | agrees | | intros v Hv ]
      end
  end.

Ltac run_store8 :=
  pcs;
  lazymatch goal with
  | |- follows ?img ?priv (store8 ?a ?v ?n ?c) (Hart ?pc ?x ?csr ?w) ?Q =>
      let f := eval vm_compute in (fetch img pc) in
      lazymatch f with
      | Some (Store W8 ?r2 ?r1 ?imm, ?len) =>
          eapply (follows_store8 img priv a v pc r2 r1 imm len x csr w n c);
          [ fetched f | value | unfold DRAM_BASE; lia | xgets; lows | agrees |
            let c' := fresh "c" in let w' := fresh "w" in let Ha := fresh "Ha" in let Hw := fresh "Hw" in
            let Hc := fresh "Hc" in intros c' w' Ha Hw Hc ]
      end
  end.
