(* ===== verification/RomUart.v ===== *)
(** The console driver in the ROM image of the FPGA boot loader: the code of [uart.c]. *)
From stdpp Require Import relations.
From S2P Require Import Prelude Machine Uart Board Riscv Rom Rom64.

Section uart.
Context `{!Bus D} (priv : Z -> Prop).

Local Abbreviation flw := (follows reset_vec_64 priv).
Local Abbreviation routine64 := (routine (D := D) reset_vec_64 priv).

(** Waiting for the transmitter: the loop at 0x10120. *)
Definition polling (x : Z -> Z) (csr : Z -> Z) (w c : world D) (h : hart D) : Prop :=
  exists x' w', h = Hart 0x10120 x' csr w' /\ agree priv c w' /\ w_mem w' = w_mem w
    /\ xget x' 14 = 0x10000000 /\ forall r, r <> 14 -> r <> 15 -> xget x' r = xget x r.

Lemma land_32 v : (Z.land v 32 =? 0) = negb (Z.testbit v 5).
Proof. change 32 with (2 ^ 5). rewrite land_bit by done. by destruct (Z.testbit v 5). Qed.

Lemma write_serial_code a :
  routine64 0x1011c 0 (fun g _ _ => u8 (g 10) = u8 a) (write_serial (D := D) a) (fun _ _ => True).
Proof.
  intros n c x csr w Hpre Hra Hst Hag. unfold write_serial. apply follows_bind.
  run.
  eapply (follows_wait_while _ _ (polling x csr w)).
  - intros c1 h1 (x1 & w1 & -> & Ha & _). exact Ha.
  - clear c Hag. intros m c1 h1 (x1 & w1 & -> & Ha & Hm & H14 & Hx).
    apply follows_bind. unfold is_transmit_empty, read_reg_u8. apply follows_bind.
    run_ld v Hv. apply follows_ret; [done|].
    run. run; [apply land_32|].
    rewrite land_32. destruct (Z.testbit v 5); cbn [negb]; pcs; (apply follows_ret; [done|]).
    + unfold write_reg_u8. apply follows_then. pose proof (Hx 1 ltac:(lia) ltac:(lia)) as H1.
      run_st; [exact Hpre|].
      run. apply follows_done; [done|]. split; [|done]. split_and!; [done | | done |].
      * cbn [h_x]. saved.
      * apply kept_mem. cbn [h_w]. congruence.
    + eexists _, _. split_and!; [reflexivity | done | congruence | xgets; reflexivity |].
      intros r H1 H2. rewrite !xget_set_ne by done. by apply Hx.
  - eexists _, _. split_and!; [reflexivity | done.. | xgets; reflexivity |].
    intros r H1 H2. by rewrite !xget_set_ne.
Qed.

(** The loop of [print_uart], with the string at [s0]. *)
Lemma print_loop s : forall n c x csr w,
  rom_string reset_vec_64 (xget x 8) s = true -> stack_ok priv 0 (xget x 2) -> agree priv c w ->
  flw (print_uart s n c) (Hart 0x1017c x csr w) (fun _ c' h' => exists x' w',
    h' = Hart 0x10182 x' csr w' /\ (forall r, callee_saved r = true -> r <> 8 -> xget x' r = xget x r)
    /\ kept priv (xget x 2) w w').
Proof.
  induction s as [|ch s IH]; intros n c x csr w Hs Hst Hag; cbn [rom_string print_uart] in *;
    rewrite ?andb_true_iff in Hs.
  - destruct Hs as [Hin Hb%Z.eqb_eq]. apply follows_then. apply follows_ret; [done|].
    run by (rewrite load_rom_byte, Hb by exact Hin; reflexivity). run; [reflexivity|]. pcs.
    apply follows_done; [done|]. eexists _, _. split_and!; [done | | apply kept_refl].
    intros r Hr Hr8. rewrite xget_set_ne; [done | intros ->; done].
  - destruct Hs as [[[Hin Hb%Z.eqb_eq] Hnz%negb_true_iff] Hs]. rewrite Hnz. pose proof (code_byte ch).
    unfold is_byte in *. run by (rewrite load_rom_byte, Hb by exact Hin; reflexivity). run; [cbn [holds_cond]; rewrite Hnz; reflexivity|]. pcs. run. apply follows_bind. call (write_serial_code (code ch)).
    back_void.
    apply in_rom_range in Hin; [|vm_compute; reflexivity].
    run. run. eapply follows_mono; [apply IH; [| |done]|].
    + xgets. by rewrite u64_small by lia.
    + by xgets.
    + intros [] c2 h2 _ (x2 & w2 & -> & Hx2 & Hk2). eexists _, _. split_and!; [reflexivity | |].
      * intros r Hr Hr8. saved_at r Hr.
      * eapply kept_trans; [eassumption|]. revert Hk2. by xgets.
Qed.

Lemma print_uart_code s :
  routine64 0x10174 16 (fun g _ _ => rom_string reset_vec_64 (g 10) s = true) (print_uart (D := D) s) (fun _ _ => True).
Proof.
  enter n c x csr w Hpre Hra Hst Hag.
  run. run. run. run.
  apply follows_then. eapply follows_mono; [apply print_loop; [|  |agrees]|].
  - xgets. by rewrite u64_xget.
  - xgets. rewrite u64_small by lia. eapply stack_sub; [exact Hst | lia | lia].
  - intros [] c1 h1 Ha1 (x1 & w1 & -> & Hx1 & Hk1). 
    tidy Ha1. tidy Hk1. pose proof (Hx1 2 eq_refl ltac:(lia)) as H2. tidy H2.
    run_pop. run_pop. run. run. leave.
Qed.

Lemma init_uart_code freq baud :
  routine64 0x10130 0 (fun g _ _ => u32 (g 10) = freq /\ u32 (g 11) = baud) (init_uart (D := D) freq baud) (fun _ _ => True).
Proof.
  enter n c x csr w Hpre Hra Hst Hag. destruct Hpre as [<- <-]. unfold init_uart, write_reg_u8.
  destruct (Z.eqb_spec (u32 (Z.shiftl (u32 (xget x 11)) 4)) 0) as [|Hd]; [by apply follows_fault|].
  set (d := u32 (Z.shiftl (u32 (xget x 11)) 4)) in *. set (q := u32 (xget x 10) / d).
  assert (Hq : 0 <= q < 2 ^ 32).
  { pose proof (Z.mod_pos_bound (xget x 10) (2 ^ 32) ltac:(lia)). pose proof (Z.mod_pos_bound (Z.shiftl (u32 (xget x 11)) 4) (2 ^ 32) ltac:(lia)).
    unfold q, d, u32 in *. split; [apply Z.div_pos; lia|]. apply Z.div_lt_upper_bound; [lia|]. nia. }
  assert (Hd' : u32 (Z.shiftl (xget x 11) 4) = d).
  { unfold d, u32. rewrite !Z.shiftl_mul_pow2 by lia. by rewrite Zmult_mod_idemp_l. }
  run. run_as (u64 (sextw q)).
  { rewrite u32_u64, u32_sextw, Hd'. by destruct (Z.eqb_spec d 0). }
  run. apply follows_bind. run_st. run. apply follows_bind. run_st.
  run. run_as (Z.shiftr q 8). 
  { rewrite u32_u64, u32_sextw, u32_small by done. 
    rewrite sextw_small, u64_small; [done | |]. all: rewrite Z.shiftr_div_pow2 by lia; divlia. }
  apply follows_bind. run_st. run. apply follows_bind. run_st.
  run. apply follows_bind. run_st. run. apply follows_bind. run_st. run.
  apply follows_then. run_st. run. leave.
Qed.

(** [bin_to_hex_table], in the data of the image. *)
Lemma load_hex_table d w :
  0 <= d < 16 -> load (D := D) reset_vec_64 W8 (0x10c00 + d) w = Some (nth (Z.to_nat d) bin_to_hex_table 0, w).
Proof.
  intros Hd. rewrite load_rom_byte.
  - do 2 f_equal. assert (H : forallb (fun d => rom_byte reset_vec_64 (0x10c00 + d) =? nth (Z.to_nat d) bin_to_hex_table 0) (seqZ 0 16) = true)
      by (vm_compute; reflexivity).
    rewrite forallb_forall in H. apply Z.eqb_eq, H. apply list_elem_of_In, elem_of_seqZ. lia.
  - assert (H : forallb (fun d => in_rom reset_vec_64 (0x10c00 + d)) (seqZ 0 16) = true) by (vm_compute; reflexivity).
    rewrite forallb_forall in H. apply H. apply list_elem_of_In, elem_of_seqZ. lia.
Qed.

(** [bin_to_hex]: the two digits go to the array at [a1]. *)
Lemma bin_to_hex_code {A} (r : outcome A * world D) b p ra x csr w Q :
  xget x 10 = b -> is_byte b -> xget x 11 = p -> DRAM_BASE <= p < 2 ^ 64 - 1 -> xget x 1 = ra -> ra mod 2 = 0 ->
  (forall x', (forall r, callee_saved r = true -> xget x' r = xget x r) ->
     flw r (Hart ra x' csr
       (store W8 p (fst (bin_to_hex b)) (store W8 (p + 1) (snd (bin_to_hex b)) w))) Q) ->
  flw r (Hart 0x10192 x csr w) Q.
Proof.
  intros Ha Hb Hp Hpr <- Hra HQ. unfold is_byte, DRAM_BASE in *.
  assert (Hlo : 0 <= Z.land b 15 < 16) by (rewrite land_f; divlia).
  assert (Hhi : 0 <= Z.shiftr b 4 < 16) by (rewrite Z.shiftr_div_pow2 by lia; divlia).
  assert (Hdig : forall d, 0 <= d < 16 -> 0 <= nth (Z.to_nat d) bin_to_hex_table 0 < 256).
  { intros d Hd. rewrite table_digit by done. by apply hex_digit_byte. }
  pose proof (Hdig _ Hlo). pose proof (Hdig _ Hhi). unfold bin_to_hex in HQ. cbn [fst snd] in HQ.
  assert (E : Z.land (Z.shiftr b 4) 15 = Z.shiftr b 4) by (rewrite land_f; by apply Z.mod_small).
  rewrite E in HQ.
  run. run. run. run. run by (rewrite (Z.add_comm _ 68608); by apply (load_hex_table (Z.land b 15))).
  run. run. run. run by (by apply (load_hex_table (Z.shiftr b 4))). run. run. apply HQ. saved.
Qed.

(** Two digits from the stack to the console: the rest of [print_uart_byte]. *)
Lemma print_uart_byte_code b :
  is_byte b ->
  routine64 0x10238 32 (fun g _ _ => g 10 = b) (print_uart_byte (D := D) b) (fun _ _ => True).
Proof.
  intros Hb. enter n c x csr w Hpre Hra Hst Hag.
  run. run. run. run. eapply bin_to_hex_code; [value | exact Hb | value | unfold DRAM_BASE; lia | value | reflexivity |].
  intros x1 Hx1. 
  run_pop. run. apply follows_bind. call (write_serial_code (fst (bin_to_hex b))).
  back_void. run_pop. run_pop. run. run. 
  call (write_serial_code (snd (bin_to_hex b))).
  leave_tail.
Qed.

(** One round of the loops of [print_uart_int] and [print_uart_addr]: the digits of byte [i]. *)
Definition round_done (back out i : Z) (x csr : Z -> Z) (w : world D) (h' : hart D) : Prop :=
  exists x' w', h' = Hart (if i =? 0 then out else back) x' csr w'
    /\ (forall r, callee_saved r = true -> r <> 8 -> xget x' r = xget x r)
    /\ xget x' 8 = u64 (8 * i - 8) /\ kept priv (xget x 2 + 16) w w'.

Lemma round_back i : 0 <= i -> 8 * i < 2 ^ 32 -> holds_cond Bne (u64 (8 * i + -8)) (u64 (-8)) = negb (i =? 0).
Proof.
  intros Hi Hb. cbn [holds_cond]. f_equal. destruct (Z.eqb_spec i 0) as [->|]; [done|].
  rewrite u64_small by lia. apply Z.eqb_neq. change (u64 (-8)) with (2 ^ 64 - 8). lia.
Qed.

Lemma print_int_round i a n c x csr w :
  0 <= i <= 3 -> u32 (xget x 9) = u32 a -> xget x 8 = 8 * i -> xget x 18 = u64 (-8) ->
  stack_ok priv 48 (xget x 2 + 48) -> xget x 2 + 48 < 2 ^ 64 -> agree priv c w ->
  let hex := bin_to_hex (Z.land (Z.shiftr a (i * 8)) 0xff) in
  flw ((write_serial (fst hex) ;; write_serial (snd hex)) n c) (Hart 0x101c6 x csr w)
    (fun _ _ => round_done 0x101c6 0x101ea i x csr w).
Proof.
  intros Hi Ha H8 H18 Hst Hsp Hag hex. unfold hex. set (b := Z.land (Z.shiftr a (i * 8)) 255). clear hex.
  pose proof (xget_range x 2). pose proof (proj1 Hst) as Hroom. unfold DRAM_BASE in Hroom.
  assert (Hb : is_byte b) by (unfold b; rewrite land_255; apply Z.mod_pos_bound; lia).
  pose proof (stack_frame _ _ _ Hst) as Hst0.
  run. run. run_as b.
  { rewrite u64_land_r, land_255 by lia. lows. rewrite (Z.mod_small (8 * i)) by lia.
    rewrite <- land_255, Ha. unfold u32. rewrite byte_mod by lia. unfold b. do 2 f_equal. lia. }
  pose proof Hb as Hb2. unfold is_byte in Hb2.
  run. eapply (bin_to_hex_code _ b); [value | exact Hb | value | unfold DRAM_BASE; lia | value | reflexivity |].
  intros x1 Hx1. run_pop. run_as (u64 (8 * i + -8)).
  { done. }
  run. apply follows_bind. call (write_serial_code (fst (bin_to_hex b))).
  back_void. run_pop. run. apply follows_then. call (write_serial_code (snd (bin_to_hex b))).
  intros [] c3 x3 w3 Ha3 Hx3 Hk3 _. run; [apply round_back; lia|]. apply follows_done; [done|].
  exists x3, w3. split_and!.
  - by destruct (i =? 0).
  - intros r Hr Hr8. saved_at r Hr.
  - xgets. by rewrite u64_u64.
  - keeps_tac.
Qed.

(** The same in [print_uart_addr], where the shift is of 64 bits. *)
Lemma print_addr_round i a n c x csr w :
  0 <= i <= 7 -> xget x 9 = u64 a -> xget x 8 = 8 * i -> xget x 18 = u64 (-8) ->
  stack_ok priv 48 (xget x 2 + 48) -> xget x 2 + 48 < 2 ^ 64 -> agree priv c w ->
  let hex := bin_to_hex (Z.land (Z.shiftr a (i * 8)) 0xff) in
  flw ((write_serial (fst hex) ;; write_serial (snd hex)) n c) (Hart 0x10208 x csr w)
    (fun _ _ => round_done 0x10208 0x1022c i x csr w).
Proof.
  intros Hi Ha H8 H18 Hst Hsp Hag hex. unfold hex. set (b := Z.land (Z.shiftr a (i * 8)) 255). clear hex.
  pose proof (xget_range x 2). pose proof (proj1 Hst) as Hroom. unfold DRAM_BASE in Hroom.
  assert (Hb : is_byte b) by (unfold b; rewrite land_255; apply Z.mod_pos_bound; lia).
  pose proof (stack_frame _ _ _ Hst) as Hst0.
  run. run. run_as b.
  { rewrite u64_land_r, land_255 by lia. lows. rewrite (Z.mod_small (8 * i)) by lia.
    rewrite <- land_255. unfold u64. rewrite byte_mod by lia. unfold b. do 2 f_equal. lia. }
  pose proof Hb as Hb2. unfold is_byte in Hb2.
  run. eapply (bin_to_hex_code _ b); [value | exact Hb | value | unfold DRAM_BASE; lia | value | reflexivity |].
  intros x1 Hx1. run_pop. run_as (u64 (8 * i + -8)).
  { done. }
  run. apply follows_bind. call (write_serial_code (fst (bin_to_hex b))).
  back_void. run_pop. run. apply follows_then. call (write_serial_code (snd (bin_to_hex b))).
  intros [] c3 x3 w3 Ha3 Hx3 Hk3 _. run; [apply round_back; lia|]. apply follows_done; [done|].
  exists x3, w3. split_and!.
  - by destruct (i =? 0).
  - intros r Hr Hr8. saved_at r Hr.
  - xgets. by rewrite u64_u64.
  - keeps_tac.
Qed.

(** All rounds. *)
Fixpoint down (k : nat) : list Z := match k with O => [] | S k => Z.of_nat k :: down k end.

Lemma rounds_code back out (f : Z -> M D unit) (P : (Z -> Z) -> Prop) csr :
  (forall x x', P x -> (forall r, callee_saved r = true -> r <> 8 -> xget x' r = xget x r) -> P x') ->
  forall k, (forall i n c x w, 0 <= i < Z.of_nat k -> P x -> xget x 8 = 8 * i -> agree priv c w ->
    flw (f i n c) (Hart back x csr w) (fun _ _ => round_done back out i x csr w)) ->
  forall n c x w, P x -> xget x 8 = 8 * (Z.of_nat k - 1) -> (0 < k)%nat -> agree priv c w ->
  flw (for_in (down k) f n c) (Hart back x csr w) (fun _ _ h' => exists x' w',
    h' = Hart out x' csr w' /\ (forall r, callee_saved r = true -> r <> 8 -> xget x' r = xget x r)
    /\ kept priv (xget x 2 + 16) w w').
Proof.
  intros HP k. induction k as [|k IH]; intros Hf n c x w Px H8 Hk Hag; [lia|].
  cbn [down for_in]. apply follows_bind.
  eapply follows_mono; [apply Hf; [lia | done | lia | done]|].
  intros [] c1 h1 Ha1 (x1 & w1 & -> & Hx1 & H81 & Hk1). destruct (Z.eqb_spec (Z.of_nat k) 0) as [E|E].
  - destruct k; [|lia]. apply follows_ret; [done|]. by exists x1, w1.
  - eapply follows_mono.
    + apply IH; [intros i n' c' x' w' Hi; apply Hf; lia | by eapply HP | pose proof (xget_range x 8); rewrite H81, u64_small; lia | lia | done].
    + intros [] c2 h2 _ (x2 & w2 & -> & Hx2 & Hk2). exists x2, w2. split_and!; [done | |].
      * intros r Hr Hr8. by rewrite Hx2, Hx1.
      * eapply kept_trans; [exact Hk1|]. revert Hk2. by rewrite Hx1.
Qed.

(** Entering and leaving the two loops. *)
Local Ltac digits P Hround :=
  apply follows_then; eapply follows_mono;
  [ eapply (rounds_code _ _ _ P);
    [ intros x1 x2 (H1 & H2 & H3) Hx; rewrite !Hx by done; auto
    | intros i m c1 x1 w1 Hi (H1 & H2 & H3) H4 Ha1; eapply Hround; try done;
      [lia | rewrite H3; by sums | lia]
    | xgets; rewrite ?u64_xget, ?u64_u64, (u64_small (xget _ 2 + -48)) by lia; done
    | by xgets | lia | agrees ]
  | intros [] c1 h1 Ha1 (x1 & w1 & -> & Hx1 & Hk1); tidy Ha1; tidy Hk1;
    pose proof (Hx1 2 eq_refl ltac:(lia)) as H2; tidy H2;
    run_pop; run_pop; run_pop; run_pop; run; run; leave ].

Lemma print_uart_int_code a :
  routine64 0x101b6 48 (fun g _ _ => u32 (g 10) = u32 a) (print_uart_int (D := D) a) (fun _ _ => True).
Proof.
  enter n c x csr w Hpre Hra Hst Hag. run. run. run. run. run. run. run. run.
  unfold print_uart_int. change [3; 2; 1; 0] with (down 4).
  digits (fun x' => u32 (xget x' 9) = u32 a /\ xget x' 18 = u64 (-8) /\ xget x' 2 = xget x 2 + -48) print_int_round.
Qed.

Lemma print_uart_addr_code a :
  routine64 0x101f6 48 (fun g _ _ => g 10 = u64 a) (print_uart_addr (D := D) a) (fun _ _ => True).
Proof.
  enter n c x csr w Hpre Hra Hst Hag. run. run. run. run. run. run. run. run.
  unfold print_uart_addr. change [7; 6; 5; 4; 3; 2; 1; 0] with (down 8).
  digits (fun x' => xget x' 9 = u64 a /\ xget x' 18 = u64 (-8) /\ xget x' 2 = xget x 2 + -48) print_addr_round.
Qed.
End uart.
