(* ===== verification/RomSpi.v ===== *)
(** The SPI driver in the ROM image of the FPGA boot loader: the code of [spi.c]. *)
From stdpp Require Import relations.
From S2P Require Import Prelude Machine Uart Board Spi Sd Riscv Rom Rom64 RomUart.

Section spi.
Context `{!Bus D} (priv : Z -> Prop).

Local Abbreviation flw := (follows reset_vec_64 priv).
Local Abbreviation routine64 := (routine (D := D) reset_vec_64 priv).

(** The delay loops, with the count in [a5]. *)
Definition delay_at (pc : Z) : bool :=
  bool_decide (fetch reset_vec_64 pc = Some (Nop16, 2))
  && bool_decide (fetch reset_vec_64 (pc + 2) = Some (Imm Addw 15 15 (-1), 2))
  && bool_decide (fetch reset_vec_64 (pc + 4) = Some (Branch Bne 15 0 (-4), 2)).

Lemma delay_code pc k : delay_at pc = true -> forall n c x csr w,
  xget x 15 = Z.of_nat k -> (0 < k)%nat -> Z.of_nat k < 2 ^ 31 -> agree priv c w ->
  flw (nops (Z.of_nat k) n c) (Hart pc x csr w) (fun _ c' h' => exists x' w',
    h' = Hart (pc + 6) x' csr w' /\ agree priv c' w' /\ w_mem w' = w_mem w /\ w_mem c' = w_mem c
    /\ forall r, r <> 15 -> xget x' r = xget x r).
Proof.
  intros Hpc. unfold delay_at in Hpc. rewrite !andb_true_iff, !bool_decide_eq_true in Hpc.
  destruct Hpc as [[H1 H2] H3]. unfold nops.
  assert (G : forall (l : list Z) n c x csr w, xget x 15 = Z.of_nat (length l) -> (0 < length l)%nat ->
    Z.of_nat (length l) < 2 ^ 31 -> agree priv c w ->
    flw (for_in l (fun _ => nop) n c) (Hart pc x csr w) (fun _ c' h' => exists x' w',
      h' = Hart (pc + 6) x' csr w' /\ agree priv c' w' /\ w_mem w' = w_mem w /\ w_mem c' = w_mem c
      /\ forall r, r <> 15 -> xget x' r = xget x r)).
  { clear k. induction l as [|i l IH]; intros n c x csr w Hx Hk Hlt Hag; cbn [length] in *; [lia|].
    cbn [for_in]. apply follows_bind. eapply follows_nop; [exact H1 | exact Hag|].
    intros c1 w1 Ha1 Hw1 Hc1.
    eapply (run_set _ _ _ 2 15 _ (Z.of_nat (length l)) (pc + 2)); [exact H2 | cbn [exec]; reflexivity | |].
    { cbn [alu]. rewrite Hx, addiw_small, u64_small by lia. lia. }
    replace (pc + 2 + 2) with (pc + 4) by lia.
    eapply (run_branch _ _ Bne 15 0 (-4) 2 (Z.of_nat (length l)) 0 (negb (Z.of_nat (length l) =? 0)) (pc + 4));
      [exact H3 | rewrite xget_set_eq by done; apply u64_small; lia | done | done |].
    destruct l as [|j l]; cbn [length Z.of_nat Z.eqb negb].
    - replace (pc + 4 + 2) with (pc + 6) by lia. apply follows_ret; [done|].
      exists (xset x 15 0), w1. split_and!; try done. intros r Hr. by rewrite xget_set_ne.
    - replace (pc + 4 + -4) with pc by lia. eapply follows_mono.
      + apply IH; cbn [length] in *; [rewrite xget_set_eq by done; apply u64_small | ..]; try lia. done.
      + intros [] c2 h2 _ (x2 & w2 & -> & Ha2 & Hw2 & Hc2 & Hx2). exists x2, w2.
        split_and!; [done.. | congruence | congruence |].
        intros r Hr. by rewrite Hx2, xget_set_ne by done. }
  intros n c x csr w Hx Hk Hlt. assert (El : length (below (Z.of_nat k)) = k) by (rewrite below_length by lia; lia).
  rewrite <- El in Hx, Hk, Hlt. by apply G.
Qed.

Local Ltac delay k :=
  pcs;
  lazymatch goal with
  | |- follows _ _ (nops _ ?n ?c) (Hart ?pc ?x ?csr ?w) _ =>
      eapply follows_mono;
      [ apply (delay_code pc k); [vm_compute; reflexivity | value | lia | lia | agrees] |];
      let c' := fresh "c" in let x' := fresh "x" in let w' := fresh "w" in let Ha := fresh "Ha" in
      let Hw := fresh "Hw" in let Hc := fresh "Hc" in let Hx := fresh "Hx" in
      intros [] c' ? _ (x' & w' & -> & Ha & Hw & Hc & Hx); forget c w Hc Hw
  end.

Lemma spi_txrx_code b :
  routine64 0x102f2 80 (fun g _ _ => u32 (g 10) = u32 b) (spi_txrx (D := D) b) (fun r g => g 10 = r /\ is_byte r).
Proof.
  enter n c x csr w Hpre Hra Hst Hag. unfold spi_txrx, write_reg, read_reg.
  run. run. run. run. run. run. apply follows_bind. run_st. 
  apply follows_bind. run_st; [exact Hpre|]. run. apply follows_bind. delay 100%nat.
  run. run. apply follows_bind. run_st. pcs.
  apply follows_bind.
  lazymatch goal with |- follows _ _ _ (Hart _ ?X _ ?W) _ =>
    eapply (follows_wait_while _ _ (fun c' h' => exists x' w', h' = Hart 0x10318 x' csr w' /\ agree priv c' w'
      /\ w_mem w' = w_mem W /\ xget x' 15 = 0x20000000
      /\ forall r, callee_saved r = true -> r <> 9 -> xget x' r = xget X r)) end.
  { intros c4 h4 (x4 & w4 & -> & Ha4 & _). exact Ha4. }
  { intros n' c4 h4 (x4 & w4 & -> & Ha4 & Hw4 & H15 & Hx4).
    apply follows_bind. run_ld v Hv. run. run. rewrite land_1_sextw. run; [apply bit_0_set|].
    destruct (Z.land v 1 =? 1); pcs; (apply follows_ret; [done|]).
    { eexists _, _. split_and!; [reflexivity | done | congruence | by xgets |].
      intros r Hr Hr9. saved_at r Hr. }
    pose proof (Hx4 2 eq_refl ltac:(lia)) as H2. tidy H2.
    apply follows_bind. run_ld rx Hrx. 
    apply follows_bind. run_ld v2 Hv2. run. run. rewrite land_1_sextw. apply follows_bind. run; [apply bit_0_set|].
    lazymatch goal with |- follows _ _ _ (Hart _ ?X _ ?W) _ =>
      apply (follows_mono _ _ _ _ (fun _ c' h' => exists x' w', h' = Hart 0x1034e x' csr w'
        /\ kept priv (xget x 2 + -32) W w' /\ forall r, callee_saved r = true -> xget x' r = xget X r)) end.
    { destruct (Z.land v2 1 =? 1); cbn [negb]; pcs.
      - apply follows_ret; [done|]. by eexists _, _.
      - run. run. run. apply follows_bind. call (print_uart_code priv "rx fifo not empty?? ").
        back_void. apply follows_bind. run_ld v3 Hv3. run.
        run_as v3; [by apply zext_shifts|]. run. apply follows_bind. call (print_uart_addr_code priv v3).
        back_void. run. run. run. apply follows_then. call (print_uart_code priv crlf).
        back_void. apply follows_done; [done|].
        eexists _, _. split_and!; [reflexivity | keeps_tac |].
        intros r Hr. saved_at r Hr. }
    intros [] c' h' Ha' (x' & w' & -> & Hk' & Hx'). tidy Ha'.
    pose proof (Hx' 2 eq_refl) as H2'. tidy H2'.
    run_pop. run. run. run_as (u8 rx). { rewrite u64_land_r by lia. lows. reflexivity. }
    run_pop. apply follows_bind. run_st. run. apply follows_bind. run_st.
    apply follows_then. apply follows_ret; [done|]. run_pop. run. run. leave. }
  eexists _, _. split_and!; [reflexivity | done | done | by xgets |]. intros r Hr Hr9. done.
Qed.

Lemma sd_dummy_code :
  routine64 0x103ec 80 (fun _ _ _ => True) (sd_dummy (D := D)) (fun r g => g 10 = r /\ is_byte r).
Proof.
  enter n c x csr w Hpre Hra Hst Hag. run. run. call (spi_txrx_code 255). leave_tail.
Qed.

Lemma spi_write_bytes_code pm bytes len ret :
  0 <= len < 2 ^ 31 -> DRAM_BASE <= pm -> pm + len < 2 ^ 64 -> DRAM_BASE <= ret -> ret + len < 2 ^ 64 ->
  (forall i, 0 <= i < len -> ~ priv (ret + i)) ->
  routine64 0x10368 0
    (fun g c w => g 10 = pm /\ g 11 = len /\ g 12 = ret
       /\ forall i v, 0 <= i < len -> w_mem c !! (bytes + i) = Some v -> w_mem w !! (pm + i) = Some v /\ is_byte v)
    (spi_write_bytes (D := D) bytes len ret) (fun r g => g 10 = u64 r).
Proof.
  intros Hlen Hpm Hpm' Hret Hret' Hpub. enter n c x csr w Hpre Hra Hst Hag.
  destruct Hpre as (H10 & H11 & H12 & Hbytes). unfold spi_write_bytes, write_reg, read_reg, DRAM_BASE in *.
  run. run; [reflexivity|]. rewrite Z.gtb_ltb. cbn [holds_cond]. destruct (256 <? len).
  { run. run. apply follows_ret; [done|]. split; [split_and!; [done | cbn [h_x]; saved | done | keeps_tac] | results]. }
  pcs. run. run. apply follows_bind. run_st. run. run. pcs.
  apply follows_bind.
  lazymatch goal with |- follows _ _ _ (Hart _ ?X _ ?W) _ =>
    eapply (follows_for_in _ _ (fun l c' h' => exists i x' w', h' = Hart 0x1037e x' csr w' /\ agree priv c' w'
      /\ w_mem w' = w_mem w /\ w_mem c' = w_mem c /\ l = seqZ i (len - i) /\ 0 <= i <= len /\ xget x' 15 = i
      /\ forall r, r <> 14 -> r <> 15 -> xget x' r = xget X r)) end.
  { intros i l c1 h1 (i' & x1 & w1 & -> & Ha1 & Hw1 & Hc1 & El & Hi & H15 & Hx1).
    assert (i' < len) by (destruct (Z.eq_dec i' len) as [->|]; [rewrite Z.sub_diag, seqZ_nil in El by lia; done | lia]).
    rewrite seqZ_cons in El by lia. injection El as -> El.
    run. run; [cbn [holds_cond]; apply (proj2 (Z.ltb_lt i' len)); lia|]. pcs. run.
    apply follows_bind. run_load8 (pm + i') v Hv.
    { intros v Hv. rewrite Hw1. rewrite Hc1 in Hv. apply Hbytes; [lia | done]. }
    unfold is_byte in Hv. run. apply follows_then.
    run_st; [by rewrite (Z.mod_small v (2 ^ 8)) by lia|].
    run. apply follows_done; [done|]. exists (i' + 1). eexists _, _. split_and!; try done; try lia.
    - rewrite El. f_equal; lia.
    - by xgets; u64s.
    - intros r Hr14 Hr15. saved_at r Hr14. }
  2: { exists 0. eexists _, _. split_and!; try done; [by rewrite Z.sub_0_r | lia]. }
  intros c1 h1 (i & x1 & w1 & -> & Ha1 & Hw1 & Hc1 & El & Hi & H15 & Hx1). split; [done|].
  assert (i = len) as ->.
  { destruct (Z.eq_dec i len); [done|]. by rewrite seqZ_cons in El by lia. }
  run. run; [cbn [holds_cond]; apply Z.ltb_irrefl|]. pcs. run. apply follows_bind. delay 50%nat.
  run. run. apply follows_bind. run_st. run. pcs. apply follows_bind.
  lazymatch goal with |- follows _ _ _ (Hart _ ?X _ ?W) _ =>
    eapply (follows_wait_while _ _ (fun c' h' => exists x' w', h' = Hart 0x1039e x' csr w' /\ agree priv c' w'
      /\ w_mem w' = w_mem w /\ forall r, r <> 15 -> xget x' r = xget X r)) end.
  { intros c4 h4 (x4 & w4 & -> & Ha4 & _). exact Ha4. }
  2: { eexists _, _. split_and!; try done. }
  intros n' c4 h4 (x4 & w4 & -> & Ha4 & Hw4 & Hx4).
  apply follows_bind. run_ld v Hv. run. rewrite land_1_sextw. run; [apply bit_0_set|].
  destruct (Z.land v 1 =? 1) eqn:Ev; pcs; (apply follows_ret; [done|]).
  { eexists _, _. split_and!; [reflexivity | done | congruence |]. intros r Hr. saved_at r Hr. }
  apply bit_0_clear in Ev. rewrite Ev. run. run. run. pcs. apply follows_bind.
  lazymatch goal with |- follows _ _ _ (Hart _ ?X _ ?W) _ =>
    eapply (follows_iter _ _ (fun i c' h' => exists x' w', h' = Hart 0x103b0 x' csr w' /\ agree priv c' w'
      /\ 0 <= i <= len /\ kept priv (xget x 2) w w' /\ xget x' 13 = i /\ xget x' 15 = i
      /\ forall r, r <> 13 -> r <> 14 -> r <> 15 -> xget x' r = xget X r)) end.
  { intros i c6 h6 (x6 & w6 & -> & Ha6 & _). exact Ha6. }
  2: { eexists _, _. split_and!; try done; [lia | by apply kept_mem | by xgets.. ]. }
  intros n2 i c6 h6 (x6 & w6 & -> & Ha6 & Hi6 & Hk6 & H13 & H15' & Hx6).
  destruct (Z.ltb_spec i len).
  - run; [by apply Z.ltb_lt|]. pcs. apply follows_bind. run_ld v2 Hv2. run. rewrite land_1_sextw.
    run; [apply bit_0_set|]. destruct (Z.land v2 1 =? 1); cbn [negb]; pcs.
    { apply follows_ret; [done|]. eexists _, _.
      split_and!; [reflexivity | done | lia | lia | keeps_tac | by xgets.. | intros r Hr; intros; saved_at r Hr]. }
    apply follows_bind. run_ld v3 Hv3. run. run. apply follows_bind. pose proof (Hpub i ltac:(lia)).
    run_store8; [by lows|]. subst. apply follows_then. apply follows_ret; [done|]. run. run. apply follows_done; [done|].
    eexists _, _. split_and!; [reflexivity | done | lia | lia | | (xgets; u64s; lia).. |].
    + eapply kept_trans; [|apply kept_public; [unfold DRAM_BASE; lia | done]]. keeps_tac.
    + intros r Hr; intros; saved_at r Hr.
  - assert (i = len) as -> by lia. run; [cbn [holds_cond]; apply Z.ltb_irrefl|]. pcs. apply follows_ret; [done|].
    run. run. apply follows_bind. run_st. run. apply follows_bind. run_st.
    apply follows_then. apply follows_ret; [done|]. run. run. leave.
Qed.

Lemma spi_init_code : routine64 0x1025c 80 (fun _ _ _ => True) (spi_init (D := D)) (fun _ _ => True).
Proof.
  enter n c x csr w Hpre Hra Hst Hag. unfold spi_init, write_reg, read_reg.
  run. run. run. run. run. run. run. apply follows_bind. call (print_uart_code priv ("init SPI" +:+ crlf)). back_void.
  run. run. apply follows_bind. run_st. run. apply follows_bind. delay 10%nat.
  run. run. apply follows_bind. run_st. apply follows_bind. run_ld v1 Hv1.
  run. run. run. apply follows_bind. call (print_uart_code priv "status: 0x"). back_void.
  run. run. run_as v1; [by apply zext_shifts|]. run. apply follows_bind. call (print_uart_addr_code priv v1). back_void.
  run. run. run. apply follows_bind. call (print_uart_code priv crlf). back_void.
  run. apply follows_bind. run_st. apply follows_bind. run_ld v2 Hv2.
  run. run. run. apply follows_bind. call (print_uart_code priv "status: 0x"). back_void.
  run. run. run_as v2; [by apply zext_shifts|]. run. apply follows_bind. call (print_uart_addr_code priv v2). back_void.
  run. run. run. apply follows_bind. call (print_uart_code priv crlf). back_void.
  run. apply follows_bind. run_st. run_pop. run_pop. run_pop. run. run. run. run.
  call (print_uart_code priv ("SPI initialized!" +:+ crlf)). leave_tail.
Qed.
End spi.
