(* ===== verification/RomSd.v ===== *)
(** The SD card driver in the ROM image of the FPGA boot loader: the code of [sd.c]. *)
From stdpp Require Import relations.
From S2P Require Import Prelude Machine Uart Board Spi Crc Sd Riscv Rom Rom64 RomUart RomSpi.

(** * Values of the code *)

(** The test of bit 7 of a response, as a sign. *)
Lemma response_sign b :
  is_byte b -> holds_cond Bge (u64 (Z.shiftr (sextw (Z.shiftl b 24)) 24)) 0 = (Z.land b 0x80 =? 0).
Proof.
  intros Hb. apply Bool.eqb_prop. revert b Hb.
  refine (every_byte (fun b => Bool.eqb (holds_cond Bge (u64 (Z.shiftr (sextw (Z.shiftl b 24)) 24)) 0)
    (Z.land b 0x80 =? 0)) _). vm_compute. reflexivity.
Qed.

(** The bytes of a command. *)
Lemma cmd_byte b : is_byte b -> u64 (Z.lor b 64) = u8 (Z.lor 64 b).
Proof.
  intros Hb. apply Z.eqb_eq. revert b Hb. apply every_byte. vm_compute. reflexivity.
Qed.

Lemma arg_byte a b k :
  u32 a = u32 b -> 0 <= k <= 24 -> Z.land (u64 (sextw (Z.shiftr (u32 a) k))) 255 = u8 (Z.shiftr b k).
Proof.
  intros E Hk. rewrite land_255. lows. rewrite E. unfold u32, u8. rewrite <- land_255, byte_mod by lia. apply land_255.
Qed.

Lemma arg_top a b : u32 a = u32 b -> u64 (sextw (Z.shiftr (u32 a) 24)) = u8 (Z.shiftr b 24).
Proof.
  intros E. pose proof (Z.mod_pos_bound a (2 ^ 32) ltac:(lia)). unfold u32 in *.
  assert (0 <= Z.shiftr (a mod 2 ^ 32) 24 < 2 ^ 8) by (rewrite Z.shiftr_div_pow2 by lia; divlia).
  rewrite sextw_small, u64_small by lia. unfold u8. rewrite <- land_255, <- (byte_mod b 24 32) by lia.
  rewrite <- E, land_255. symmetry. apply Z.mod_small. lia.
Qed.

Lemma bool_reg b : u64 (Z.b2z b) = Z.b2z b.
Proof. by destruct b. Qed.

(** The comparison of a response with a constant. *)
Lemma response_eq b k :
  is_byte b -> 0 <= k < 256 -> u64 (Z.b2z (u64 (u64 (sextw b) + - k) <? 1)) = Z.b2z (b =? k).
Proof.
  unfold is_byte. intros Hb Hk. rewrite bool_reg. f_equal. rewrite sextw_small, (u64_small b) by lia.
  destruct (Z.eqb_spec b k) as [->|Hne]; [by rewrite Z.add_opp_diag_r|]. apply Z.ltb_ge.
  destruct (Z.lt_ge_cases b k); [|rewrite u64_small; lia].
  unfold u64. rewrite <- (Z.mod_add (b + - k) 1), Z.mod_small; lia.
Qed.

(** * The driver *)

Section sd.
Context `{!Bus D, !Layout} (priv : Z -> Prop).

Local Abbreviation flw := (follows reset_vec_64 priv).
Local Abbreviation routine64 := (routine (D := D) reset_vec_64 priv).

(** ** The checksums *)

Lemma crc7_code {A} (r : outcome A * world D) p i ra x csr w Q :
  xget x 10 = p -> xget x 11 = i -> is_byte p -> is_byte i -> xget x 1 = ra -> ra mod 2 = 0 ->
  (forall x', (forall r, callee_saved r = true -> xget x' r = xget x r) -> xget x' 10 = crc7 p i ->
     flw r (Hart ra x' csr w) Q) ->
  flw r (Hart 0x1060e x csr w) Q.
Proof.
  intros Hp Hi Bp Bi <- Hra HQ.
  assert (Br : is_byte (Z.land i p)).
  { unfold is_byte in *. rewrite Z.land_comm. assert (0 <= Z.land p i) by (apply Z.land_nonneg; lia).
    split; [done|]. rewrite <- (Z.mod_small i (2 ^ 8)), <- Z.land_ones, Z.land_assoc, Z.land_ones by lia.
    apply Z.mod_pos_bound. lia. }
  run. run. run. run. run. run. run. run. run. run. run. apply HQ; [saved|]. xgets. unfold crc7.
  rewrite (Z.land_comm p i). revert Br. generalize (Z.land i p) as b. intros b Hb.
  apply Z.eqb_eq. revert b Hb. apply every_byte. vm_compute. reflexivity.
Qed.

Lemma crc16_code {A} (r : outcome A * world D) c b ra x csr w Q :
  xget x 10 = c -> xget x 11 = b -> 0 <= c < 2 ^ 16 -> is_byte b -> xget x 1 = ra -> ra mod 2 = 0 ->
  (forall x', (forall r, callee_saved r = true -> xget x' r = xget x r) -> xget x' 10 = crc16 c b ->
     flw r (Hart ra x' csr w) Q) ->
  flw r (Hart 0x10630 x csr w) Q.
Proof.
  intros Hc Hb Bc Bb <- Hra HQ. unfold is_byte in *.
  assert (B8 : forall z k n, 0 <= z < 2 ^ n -> 0 <= k -> 0 <= n -> k + n < 32 -> 0 <= Z.shiftl z k < 2 ^ 31).
  { intros z k n Hz Hk Hn Hs. rewrite Z.shiftl_mul_pow2 by done. pose proof (Z.pow_le_mono_r 2 (k + n) 31 ltac:(lia) ltac:(lia)).
    rewrite Z.pow_add_r in * by lia. nia. }
  assert (Bw : 0 <= swap16 c < 2 ^ 16) by (apply Z.mod_pos_bound; lia).
  pose proof (B8 c 8 16 Bc ltac:(lia) ltac:(lia) ltac:(lia)).
  run_as (Z.shiftl c 8). { rewrite sextw_small, u64_small by lia. done. }
  assert (Bh : 0 <= Z.shiftr c 8 < 2 ^ 8) by (rewrite Z.shiftr_div_pow2 by lia; divlia).
  run_as (Z.shiftr c 8). { rewrite (u32_small c), sextw_small by lia. apply u64_small. lia. }
  run. run. run_as (swap16 c).
  { rewrite (shifts_low 16) by lia. lows. unfold swap16, u16. f_equal.
    rewrite Z.lor_comm. f_equal. symmetry. apply u8_small. unfold is_byte. lia. }
  set (c2 := Z.lxor (swap16 c) b). assert (B2 : 0 <= c2 < 2 ^ 16) by (apply lxor_bound; lia).
  run_as c2. { u64s. rewrite Z.lxor_comm. apply u64_small. fold c2. lia. }
  assert (Bs : 0 <= Z.shiftr c2 4 < 2 ^ 16) by (rewrite Z.shiftr_div_pow2 by lia; divlia).
  run_as (Z.shiftr c2 4). { u64s. rewrite u32_small, sextw_small by lia. apply u64_small. lia. }
  run. set (c3 := Z.lxor c2 (Z.land (Z.shiftr c2 4) 15)).
  assert (B3 : 0 <= c3 < 2 ^ 16) by (apply lxor_bound; [lia | lia | rewrite land_f; divlia]).
  run_as c3. { u64s. rewrite Z.lxor_comm. apply u64_small. fold c3. lia. }
  pose proof (B8 c3 12 16 B3 ltac:(lia) ltac:(lia) ltac:(lia)) as Bt.
  run_as (Z.shiftl c3 12). { u64s. rewrite sextw_small by lia. apply u64_small. lia. }
  set (d := Z.lxor c3 (Z.shiftl c3 12)). assert (Bd : 0 <= d < 2 ^ 31) by (apply lxor_bound; lia).
  run_as d. { u64s. reflexivity. }
  run. assert (Bu : 0 <= u16 d < 2 ^ 16) by (apply Z.mod_pos_bound; lia).
  run_as (u16 d).
  { u64s. rewrite u32_u64, u32_sextw. unfold u32, u16. rewrite !Z.shiftl_mul_pow2 by lia.
    change (2 ^ 32) with (2 ^ 16 * 2 ^ 16). rewrite Z.mul_mod_distr_r by lia.
    rewrite Z.shiftr_div_pow2, Z.div_mul by lia. unfold u16 in Bu. rewrite sextw_small by lia. apply u64_small. lia. }
  run. pose proof (B8 (u16 d) 5 16 Bu ltac:(lia) ltac:(lia) ltac:(lia)) as B5.
  run_as (Z.shiftl (u16 d) 5). { u64s. rewrite sextw_small by lia. apply u64_small. lia. }
  run. set (m := Z.shiftl (Z.land (u16 d) 255) 5).
  assert (Bm : 0 <= m < 2 ^ 31) by (apply (B8 _ _ 8); [rewrite land_255; apply Z.mod_pos_bound; lia | lia..]).
  run_as m.
  { u64s. rewrite Z.land_comm. change 8160 with (Z.shiftl 255 5). rewrite <- Z.shiftl_land. apply u64_small. fold m. lia. }
  assert (Be : 0 <= Z.lxor d m < 2 ^ 31) by (apply lxor_bound; lia).
  run. run. run_as (crc16 c b).
  { u64s. rewrite (shifts_low 16) by lia. rewrite crc16_split by exact Bb. fold c2. unfold crc16_mix. cbv zeta.
    replace (Z.land (u8 (Z.shiftr c2 4)) 15) with (Z.land (Z.shiftr c2 4) 15).
    2: { rewrite !land_f. unfold u8. symmetry. apply (mod_pow_mod _ 4 8). lia. }
    fold c3. rewrite (u16_small c3) by done. fold d. fold m. change (u16 (Z.lxor d m) = u16 (Z.lxor (u16 d) m)).
    rewrite !linear_u16. f_equal. unfold u16. by rewrite Zmod_mod. }
  run. apply HQ; [saved | xgets; apply u64_small; pose proof (crc16_range c b); lia].
Qed.

(** ** Commands *)

Lemma sd_cmd_code cmd arg crc :
  is_byte cmd ->
  routine64 0x103f2 112 (fun g _ _ => g 10 = cmd /\ u32 (g 11) = u32 arg /\ u32 (g 12) = u32 crc)
    (sd_cmd (D := D) cmd arg crc) (fun r g => g 10 = r /\ is_byte r).
Proof.
  intros Hcmd. enter n c x csr w Hpre Hra Hst Hag. destruct Hpre as (H10 & H11 & H12). unfold is_byte in Hcmd.
  unfold sd_cmd. run. run. run. run. run. run. run. run. run. apply follows_bind. call (sd_dummy_code priv). back r0 Hr0.
  run. run. apply follows_bind. call (spi_txrx_code priv (u8 (Z.lor 0x40 cmd))).
  { by rewrite cmd_byte. } back r1 Hr1.
  run_as (u8 (Z.shiftr arg 24)); [by apply arg_top|]. run. apply follows_bind. call (spi_txrx_code priv (u8 (Z.shiftr arg 24))). back r2 Hr2.
  run. run_as (u8 (Z.shiftr arg 16)); [u64s; by apply arg_byte|]. run. apply follows_bind.
  call (spi_txrx_code priv (u8 (Z.shiftr arg 16))). back r3 Hr3.
  run. run_as (u8 (Z.shiftr arg 8)); [u64s; by apply arg_byte|]. run. apply follows_bind.
  call (spi_txrx_code priv (u8 (Z.shiftr arg 8))). back r4 Hr4.
  run_as (u8 arg). { u64s. rewrite land_255. unfold u8. rewrite <- (mod_pow_mod _ 8 32), <- (mod_pow_mod arg 8 32) by lia. by f_equal. }
  run. apply follows_bind. call (spi_txrx_code priv (u8 arg)). back r5 Hr5.
  run. run. apply follows_bind. call (spi_txrx_code priv crc); [by rewrite H12|]. back r6 Hr6.
  run. pcs.
  lazymatch goal with |- follows _ _ _ (Hart _ ?X _ ?W) _ =>
    eapply (follows_iter _ _ (fun k c' h' => exists x' w', h' = Hart 0x10440 x' csr w' /\ agree priv c' w'
      /\ 0 < k <= 100 /\ kept priv (xget x 2 + -32) W w' /\ xget x' 8 = k
      /\ forall r, callee_saved r = true -> r <> 8 -> xget x' r = xget X r)) end.
  { intros k c' h' (x' & w' & -> & Ha' & _). exact Ha'. }
  2: { eexists _, _. split_and!; [reflexivity | agrees | lia | lia | apply kept_refl | by xgets | done]. }
  intros n' k c' h' (x' & w' & -> & Ha' & Hk' & Hm' & H8' & Hx').
  run. apply follows_bind. call (sd_dummy_code priv). back b Hb. destruct Hb as [Hb Bb].
  run. run. run; [exact (response_sign b Bb)|].
  assert (Hend : forall x8, (forall r, callee_saved r = true -> r <> 8 -> xget x8 r = xget x7 r) -> xget x8 10 = b ->
    flw (Val b, c7) (Hart 0x10454 x8 csr w7) (fun a _ h' =>
      returned priv (Hart 0x103f2 x csr w) h' /\ xget (h_x h') 10 = a /\ is_byte a)).
  { intros x8 Hx8 H10'. run_pop. run_pop. run_pop. run_pop. run. run. leave. }
  destruct (Z.land b 128 =? 0); pcs.
  { apply follows_then, follows_ret; [done|]. apply Hend; [intros r Hr; intros; saved_at r Hr | by xgets]. }
  run. run; [reflexivity|]. rewrite Z.gtb_ltb. destruct (Z.ltb_spec 0 (k - 1)) as [Hlt|Hge].
  - replace (holds_cond Bne (k + -1) 0) with true by (symmetry; apply negb_true_iff, Z.eqb_neq; lia). pcs.
    apply follows_ret; [done|]. eexists _, _.
    split_and!; [reflexivity | done | lia | lia | keeps_tac | xgets; u64s; lia | intros r Hr; intros; saved_at r Hr].
  - replace (holds_cond Bne (k + -1) 0) with false by (symmetry; apply negb_false_iff, Z.eqb_eq; lia). pcs.
    apply follows_then, follows_ret; [done|]. apply Hend; [intros r Hr; intros; saved_at r Hr | by xgets].
Qed.

Lemma print_status_code cmd response :
  is_byte response ->
  routine64 0x10460 64 (fun g _ _ => rom_string reset_vec_64 (g 10) cmd = true /\ g 11 = response)
    (print_status (D := D) cmd response) (fun _ _ => True).
Proof.
  intros Hb. enter n c x csr w Hpre Hra Hst Hag. destruct Hpre as [Hs H11]. unfold print_status, is_byte in *.
  run. run. run. run. run. run. run. run. run. apply follows_bind. call (print_uart_code priv "SD command "). back_void.
  run. run. apply follows_bind. call (print_uart_code priv cmd). back_void.
  run. run. run. apply follows_bind. call (print_uart_code priv (" " +:+ tab +:+ "response : ")). back_void.
  run. run. apply follows_bind. call (print_uart_byte_code priv response); [done|]. back_void.
  run_pop. run_pop. run_pop. run. run. run. run. call (print_uart_code priv crlf). leave_tail.
Qed.

(** ** Initialisation *)

Lemma sd_cmd0_code : routine64 0x104a2 144 (fun _ _ _ => True) (sd_cmd0 (D := D)) (fun r g => g 10 = r).
Proof.
  enter n c x csr w Hpre Hra Hst Hag. unfold sd_cmd0.
  run. run. run. run. run. run. run. run. pcs. apply follows_bind.
  lazymatch goal with |- follows _ _ _ (Hart _ ?X _ ?W) _ =>
    eapply (follows_iter _ _ (fun '(k, r) c' h' => exists x' w',
      h' = Hart (if r =? 1 then 0x104ce else 0x104b4) x' csr w' /\ agree priv c' w'
      /\ 0 < k <= 10000 /\ kept priv (xget x 2 + -32) W w' /\ xget x' 8 = k
      /\ forall q, callee_saved q = true -> q <> 8 -> q <> 9 -> xget x' q = xget X q)) end.
  { intros [k r] c' h' (x' & w' & -> & Ha' & _). exact Ha'. }
  2: { eexists _, _. split_and!; [reflexivity | agrees | lia | lia | apply kept_refl | by xgets | done]. }
  intros n' [k r] c' h' (x' & w' & -> & Ha' & Hk' & Hm' & H8' & Hx'). cbn [cmd0_body].
  destruct (Z.eqb_spec r 1) as [->|Hr].
  - apply follows_ret; [done|]. run. run. run. run. apply follows_bind. call (print_status_code "cmd0" 1); [done | by split|]. back_void.
    run. apply follows_then, follows_ret; [done|]. run_pop. run_pop. run_pop. run_pop. run. run. leave.
  - run. run. run. run. apply follows_bind. call (sd_cmd_code 0 0 0x95); [done | done|]. back r1 Hr1. destruct Hr1 as [Hr1 B1].
    run. run. run. apply follows_bind. call (sd_dummy_code priv). back r2 Hr2.
    run; [reflexivity|]. destruct (Z.leb_spec (k - 1) 0) as [Hle|Hgt].
    + replace (holds_cond Beq (k + -1) 0) with true by (symmetry; apply Z.eqb_eq; lia). pcs.
      apply follows_ret; [done|]. run. run. apply follows_then, follows_ret; [done|].
      run_pop. run_pop. run_pop. run_pop. run. run. leave.
    + replace (holds_cond Beq (k + -1) 0) with false by (symmetry; apply Z.eqb_neq; lia). pcs.
      apply follows_then, follows_ret; [done|]. unfold is_byte in B1. run; [reflexivity|]. cbn [holds_cond].
      destruct (r1 =? 1) eqn:E1; cbn [negb]; pcs; (apply follows_done; [done|]); eexists _, _; rewrite E1;
        (split_and!; [reflexivity | done | lia | lia | keeps_tac | xgets; u64s; lia | intros q Hq; intros; saved_at q Hq]).
Qed.

Lemma sd_cmd8_code : routine64 0x104ee 144 (fun _ _ _ => True) (sd_cmd8 (D := D)) (fun r g => g 10 = r).
Proof.
  enter n c x csr w Hpre Hra Hst Hag. unfold sd_cmd8.
  run. run. run. run. run. run. run. run. run. apply follows_bind. call (sd_cmd_code 8 0x1aa 0x87); [done | done|].
  back r1 Hr1. destruct Hr1 as [Hr1 B1].
  run. run. apply follows_bind. call (sd_dummy_code priv). back r2 Hr2.
  run. apply follows_bind. call (sd_dummy_code priv). back r3 Hr3.
  run. apply follows_bind. call (sd_dummy_code priv). back r4 Hr4. destruct Hr4 as [Hr4 B4].
  run. run. apply follows_bind. call (sd_dummy_code priv). back r5 Hr5. destruct Hr5 as [Hr5 B5].
  run. run. apply follows_bind. call (sd_dummy_code priv). back r6 Hr6.
  run. apply follows_bind. call (sd_dummy_code priv). back r7 Hr7.
  unfold is_byte in *.
  apply follows_then, follows_ret; [done|]. run. run.
  assert (Hend : forall x8 v, (forall r, callee_saved r = true -> r <> 8 -> r <> 9 -> xget x8 r = xget x6 r) -> xget x8 10 = v ->
    flw (Val v, c6) (Hart 0x1053c x8 csr w6) (fun a _ h' =>
      returned priv (Hart 0x104ee x csr w) h' /\ xget (h_x h') 10 = a)).
  { intros x8 v Hx8 H10'. run_pop. run_pop. run_pop. run_pop. run. run. leave. }
  run; [reflexivity|]. cbn [holds_cond].
  destruct (Z.eqb_spec r1 1) as [E1|E1]; cbn [negb andb Z.b2z]; pcs; [|apply Hend; [intros r Hr; intros; saved_at r Hr | by xgets]].
  run. run; [reflexivity|]. cbn [holds_cond]. rewrite ?E1.
  destruct (Z.land r4 15 =? 1); cbn [negb andb Z.b2z]; pcs; [|apply Hend; [intros r Hr; intros; saved_at r Hr | by xgets]].
  run. run. run_as (Z.b2z (r5 =? 170)).
  { by apply (response_eq r5 170). }
  apply Hend; [intros r Hr; intros; saved_at r Hr | xgets; apply bool_reg].
Qed.

Lemma sd_cmd55_code : routine64 0x10548 128 (fun _ _ _ => True) (sd_cmd55 (D := D)) (fun r g => g 10 = r).
Proof.
  enter n c x csr w Hpre Hra Hst Hag. unfold sd_cmd55.
  run. run. run. run. run. run. run. apply follows_bind. call (sd_cmd_code 55 0 0x65); [done | done|].
  back r1 Hr1. destruct Hr1 as [Hr1 B1]. unfold is_byte in B1.
  run. run. apply follows_bind. call (sd_dummy_code priv). back r2 Hr2.
  run. run. run. run. apply follows_bind. call (print_status_code "cmd55" r1); [done | split; [vm_compute; reflexivity | by u64s]|]. back_void.
  apply follows_then, follows_ret; [done|]. run_pop. run. run_pop. run. run_as (Z.b2z (r1 =? 1)).
  { rewrite <- (response_eq r1 1) by (done || lia). by rewrite sextw_small, (u64_small r1) by lia. }
  run. run. leave. cbn [h_x]. xgets. apply bool_reg.
Qed.

Lemma sd_acmd41_code : routine64 0x10582 160 (fun _ _ _ => True) (sd_acmd41 (D := D)) (fun r g => g 10 = r).
Proof.
  enter n c x csr w Hpre Hra Hst Hag. unfold sd_acmd41.
  run. run. run. run. run. pcs. apply follows_bind.
  lazymatch goal with |- follows _ _ _ (Hart _ ?X _ ?W) _ =>
    eapply (follows_iter _ _ (fun _ c' h' => exists x' w',
      h' = Hart 0x1058c x' csr w' /\ agree priv c' w' /\ kept priv (xget x 2 + -32) W w'
      /\ forall q, callee_saved q = true -> q <> 8 -> xget x' q = xget X q)) end.
  { intros [] c' h' (x' & w' & -> & Ha' & _). exact Ha'. }
  2: { eexists _, _. split_and!; [reflexivity | agrees | apply kept_refl | done]. }
  intros n' [] c' h' (x' & w' & -> & Ha' & Hm' & Hx'). unfold acmd41_body.
  run. apply follows_bind. call sd_cmd55_code. back r0 Hr0.
  run. run. run. run. apply follows_bind. call (sd_cmd_code 41 0x40000000 0x77); [done | done|].
  back r1 Hr1. destruct Hr1 as [Hr1 B1]. unfold is_byte in B1.
  run. run. run. run. run. apply follows_bind. call (print_status_code "cmd41" r1); [done | split; [vm_compute; reflexivity | by u64s]|]. back_void.
  run. apply follows_bind. call (sd_dummy_code priv). back r2 Hr2.
  run; [reflexivity|]. cbn [holds_cond]. destruct (Z.eqb_spec r1 1) as [E1|E1]; pcs.
  - apply follows_ret; [done|]. eexists _, _. 
    split_and!; [reflexivity | done | keeps_tac | intros q Hq; intros; saved_at q Hq].
  - apply follows_ret; [done|]. apply follows_then, follows_ret; [done|].
    run_pop. run. run_pop. run_pop. run_as (Z.b2z (r1 =? 0)).
    { rewrite bool_reg, (u64_small r1) by lia. f_equal. destruct (Z.eqb_spec r1 0), (Z.ltb_spec r1 1); first [done | lia]. }
    run. run. leave. cbn [h_x]. xgets. apply bool_reg.
Qed.

Lemma init_sd_code : routine64 0x105ca 176 (fun _ _ _ => True) (init_sd (D := D))
  (fun r g => g 10 = u64 r /\ -3 <= r <= 0).
Proof.
  enter n c x csr w Hpre Hra Hst Hag. unfold init_sd.
  run. run. run. run. apply follows_bind. call (spi_init_code priv). back_void.
  run. run. run. apply follows_bind. call (print_uart_code priv ("initializing SD... " +:+ crlf)). back_void.
  run. pcs. apply follows_bind.
  lazymatch goal with |- follows _ _ _ (Hart _ ?X _ ?W) _ =>
    eapply (follows_for_in _ _ (fun l c' h' => exists x' w',
      h' = Hart (if l is [] then 0x105ea else 0x105e2) x' csr w' /\ agree priv c' w'
      /\ kept priv (xget x 2 + -16) W w' /\ xget x' 8 = Z.of_nat (length l) /\ (length l <= 10)%nat
      /\ forall q, callee_saved q = true -> q <> 8 -> xget x' q = xget X q)) end.
  3: { eexists _, _. split_and!; [reflexivity | agrees | apply kept_refl | by xgets | done | done]. }
  { intros k l c' h' (x' & w' & -> & Ha' & Hm' & H8' & Hl & Hx'). cbn [length] in *.
    run. run. apply follows_bind. call (sd_dummy_code priv). back r0 Hr0.
    apply follows_then, follows_ret; [done|].
    run; [reflexivity|]. destruct l as [|k2 l];
      [replace (holds_cond Bne _ 0) with false by reflexivity
      | replace (holds_cond Bne _ 0) with true by (symmetry; apply negb_true_iff, Z.eqb_neq; cbn [length]; lia)]; pcs;
      (apply follows_done; [done|]); eexists _, _; cbn [length] in *;
      (split_and!; [reflexivity | done | keeps_tac | xgets; u64s; lia | lia | intros q Hq; intros; saved_at q Hq]). }
  intros c' h' (x' & w' & -> & Ha' & Hm' & H8' & _ & Hx'). split; [exact Ha'|].
  assert (Hend : forall n5 c5 x5 w5 v, agree priv c5 w5 -> kept priv (xget x 2 + -16) w' w5 ->
    (forall q, callee_saved q = true -> q <> 8 -> xget x5 q = xget x' q) -> xget x5 15 = u64 v -> -3 <= v <= 0 ->
    flw ((mret v : M D Z) n5 c5) (Hart 0x10604 x5 csr w5) (fun a _ h' =>
      returned priv (Hart 0x105ca x csr w) h' /\ xget (h_x h') 10 = u64 a /\ -3 <= a <= 0)).
  { intros n5 c5 x5 w5 v Ha5 Hk5 Hx5 H15 Bv. apply follows_then, follows_ret; [done|].
    run_pop. run_pop. run. run. run. leave. }
  run. apply follows_bind. call sd_cmd0_code. back r1 Hr1.
  run. run; [reflexivity|]. cbn [holds_cond]. destruct (r1 =? 0); pcs.
  { apply Hend; [done | keeps_tac | intros q Hq; intros; saved_at q Hq | by xgets | done]. }
  run. apply follows_bind. call sd_cmd8_code. back r2 Hr2.
  run. run; [reflexivity|]. cbn [holds_cond]. destruct (r2 =? 0); pcs.
  { apply Hend; [done | keeps_tac | intros q Hq; intros; saved_at q Hq | by xgets | done]. }
  run. apply follows_bind. call sd_acmd41_code. back r3 Hr3.
  run. run; [reflexivity|]. cbn [holds_cond]. destruct (r3 =? 0); cbn [negb]; pcs; [run|];
    (apply Hend; [done | keeps_tac | intros q Hq; intros; saved_at q Hq | by xgets | done]).
Qed.
End sd.
