(* ===== verification/RomCopy.v ===== *)
(** The block copy in the ROM image of the FPGA boot loader: [sd_copy] of [sd.c], with the call of
    [memset] that fills its buffer. *)
From stdpp Require Import relations.
From S2P Require Import Prelude Machine Uart Board Spi Crc Sd Gpt Boot Riscv Rom Rom64 RomUart RomSpi RomSd.

Section copy.
Context `{!Bus D, !Layout} (priv : Z -> Prop).

Local Abbreviation flw := (follows reset_vec_64 priv).
Local Abbreviation routine64 := (routine (D := D) reset_vec_64 priv).

(** ** The buffer *)

Lemma slot_ones a n w :
  slot w a (replicate n 255) -> DRAM_BASE <= a ->
  slot (store W64 (a + Z.of_nat n) 0xffffffffffffffff w) a (replicate (n + 8) 255).
Proof.
  intros Hs Ha. rewrite replicate_add. apply slot_app.
  - apply slot_there; [exact Hs | lia | left; rewrite length_replicate; lia].
  - rewrite length_replicate. apply slot_here; lia.
Qed.

Lemma memset_code {A} (r : outcome A * world D) c a ra x csr w Q :
  xget x 10 = a -> xget x 11 = 255 -> xget x 12 = 128 -> xget x 1 = ra -> ra mod 2 = 0 ->
  a mod 16 = 0 -> DRAM_BASE <= a -> a + 128 < 2 ^ 64 -> (forall k, a <= k < a + 128 -> priv k) ->
  agree priv c w ->
  (forall x' w', (forall r, callee_saved r = true -> xget x' r = xget x r) -> agree priv c w' ->
     slot w' a (replicate 128 255) -> kept priv (a + 128) w w' -> flw r (Hart ra x' csr w') Q) ->
  flw r (Hart 0x10a74 x csr w) Q.
Proof.
  intros H10 H11 H12 <- Hra Hal Ha Ha' Hp Hag HQ. unfold DRAM_BASE in *.
  run. run. run; [reflexivity|]. run_as 0. { change 15 with (Z.ones 4). rewrite Z.land_ones by lia. rewrite u64_mod by lia. change (2 ^ 4) with 16. by rewrite Hal. }
  run; [reflexivity|]. run; [reflexivity|].
  run. run. run. run. run. run. run. run. run. run. run.
  pcs. do 7 (run; run; run; run; [cbn [holds_cond]; apply Z.ltb_lt; lia|]).
  run. run. run. run; [cbn [holds_cond]; rewrite (Z.add_comm 128); apply Z.ltb_irrefl|].
  run; [reflexivity|]. run.
  apply HQ.
  - saved.
  - repeat (apply agree_push; [|unfold DRAM_BASE; lia | cbn [nbytes]; intros k Hk; apply Hp; lia]). exact Hag.
  - let rec ones n :=
      lazymatch n with
      | S O => apply slot_here; [exact Ha | done]
      | S ?m => apply (slot_ones a (8 * m)); [ones m | exact Ha]
      end in ones 16%nat.
  - keeps_tac.
Qed.

(** ** The checksum of the command *)

Lemma crc7_byte p i : is_byte (crc7 p i).
Proof.
  unfold crc7, is_byte. cbv zeta. change 0x7f with (Z.ones 7). rewrite Z.land_ones by lia. divlia.
Qed.

Lemma read_crc_code {A} (r : outcome A * world D) lba x csr w Q :
  u32 (xget x 8) = u32 lba ->
  (forall x', (forall q, callee_saved q = true -> xget x' q = xget x q) -> xget x' 12 = read_cmd_crc lba ->
     flw r (Hart 0x106c8 x' csr w) Q) ->
  flw r (Hart 0x10692 x csr w) Q.
Proof.
  intros H8 HQ. unfold read_cmd_crc in HQ. cbv zeta in HQ. rewrite !land_255 in HQ.
  change (crc7 0 (Z.lor 64 SD_CMD_READ_BLOCK_MULTIPLE)) with 0 in HQ.
  change (?z mod 2 ^ 8) with (u8 z) in HQ.
  run_as (u8 (Z.shiftr lba 24)). { by apply arg_top. }
  set (k1 := crc7 0 (u8 (Z.shiftr lba 24))) in HQ. assert (B1 : is_byte k1) by apply crc7_byte.
  run. run. eapply (crc7_code priv _ 0 (u8 (Z.shiftr lba 24)) 0x1069c); [by xgets | xgets; by u64s | done | apply u8_byte | by xgets | done |].
  fold k1. intros x2 Hx2 H2. clearbody k1.
  set (k2 := crc7 k1 (u8 (Z.shiftr lba 16))) in HQ. assert (B2 : is_byte k2) by apply crc7_byte.
  run. run_as (u8 (Z.shiftr lba 16)). { u64s. by apply arg_byte. }
  run. eapply (crc7_code priv _ k1 (u8 (Z.shiftr lba 16)) 0x106a8); [by xgets | xgets; by u64s | done | apply u8_byte | by xgets | done |].
  fold k2. intros x3 Hx3 H3. clearbody k2.
  set (k3 := crc7 k2 (u8 (Z.shiftr lba 8))) in HQ. assert (B3 : is_byte k3) by apply crc7_byte.
  run. run_as (u8 (Z.shiftr lba 8)). { u64s. by apply arg_byte. }
  run. eapply (crc7_code priv _ k2 (u8 (Z.shiftr lba 8)) 0x106b4); [by xgets | xgets; by u64s | done | apply u8_byte | by xgets | done |].
  fold k3. intros x4 Hx4 H4. clearbody k3.
  set (k4 := crc7 k3 (u8 lba)) in HQ. assert (B4 : is_byte k4) by apply crc7_byte.
  run_as (u8 lba). { u64s. rewrite land_255. unfold u8. rewrite <- (mod_pow_mod _ 8 32), <- (mod_pow_mod lba 8 32) by lia. by f_equal. }
  run. eapply (crc7_code priv _ k3 (u8 lba) 0x106bc); [by xgets | xgets; by u64s | done | apply u8_byte | by xgets | done |].
  fold k4. intros x5 Hx5 H5. clearbody k4.
  unfold is_byte in B4. run_as (Z.shiftl k4 1).
  { rewrite Z.shiftl_mul_pow2, sextw_small by lia. apply u64_small. lia. }
  run. run_as (u8 (Z.lor (Z.shiftl k4 1) 1)). { rewrite (u64_small (Z.shiftl k4 1)) by (rewrite Z.shiftl_mul_pow2 by lia; lia). rewrite land_255, u64_mod by lia. apply u64_u8. }
  apply HQ; [saved | xgets; by u64s].
Qed.

(** ** The copy *)

(** What filling the buffer does to the memory of the model. *)
Lemma fill_ff l n c :
  exists c', for_in (D := D) l (fun j => store8 (ff_buf + j) 0xff) n c = (Val tt, c')
    /\ w_dev c' = w_dev c /\ w_tr c' = w_tr c
    /\ (forall k, (forall j, j ∈ l -> k <> ff_buf + j) -> w_mem c' !! k = w_mem c !! k)
    /\ forall j, j ∈ l -> w_mem c' !! (ff_buf + j) = Some 255.
Proof.
  revert c. induction l as [|j l IH]; intros c; [eexists; split_and!; try done; set_solver|].
  destruct (IH (World (w_dev c) (<[ff_buf + j := u8 0xff]> (w_mem c)) (w_tr c))) as (c' & E & Hd & Ht & Ho & Hi).
  exists c'. split_and!; [exact E | done | done | |].
  - intros k Hk. rewrite Ho by set_solver. cbn. apply lookup_insert_ne. intros <-. apply (Hk j); [set_solver | done].
  - intros i [->|Hil]%elem_of_cons; [|by apply Hi].
    destruct (decide (j ∈ l)) as [Hl|Hl]; [by apply Hi|]. rewrite Ho by (intros i Hil Eij; assert (i = j) as -> by lia; done).
    cbn. by rewrite lookup_insert_eq.
Qed.

(** The buffer of the model stays full. *)
Definition ff_full (c : world D) : Prop := forall i, 0 <= i < 128 -> w_mem c !! (ff_buf + i) = Some 255.

Lemma ff_full_unchanged {A} (f : M D A) :
  (forall m, keeps (unchanged (fun k => ~ in_range ff_buf 128 k) m) f) -> keeps ff_full f.
Proof.
  intros Hf n c Hc. specialize (Hf (w_mem c) n c ltac:(done)). destruct (f n c) as [o c']. split; [|done].
  intros i Hi. rewrite (proj1 Hf); [by apply Hc|]. unfold in_range. lia.
Qed.

#[local] Instance ff_full_closed : Closed ff_full (fun k => ~ in_range ff_buf 128 k).
Proof.
  assert (HC : forall m, Closed (D := D) (unchanged (fun k => ~ in_range ff_buf 128 k) m) (fun k => ~ in_range ff_buf 128 k))
    by (intros m; apply _).
  split; intros; apply ff_full_unchanged; intros m; destruct (HC m); auto.
Qed.

Lemma crc_loop_code p crc n c x csr w :
  DRAM_BASE <= p -> p + 64 < 2 ^ 64 -> (forall i, 0 <= i < 64 -> ~ priv (p + i)) ->
  xget x 8 = p -> xget x 9 = crc -> 0 <= crc < 2 ^ 16 -> xget x 21 = 0 -> xget x 23 = 64 -> agree priv c w ->
  flw (fold_in (below 64) (fun i crc => b ← load8 (p + i); mret (crc16 crc b)) crc n c) (Hart 0x10700 x csr w)
    (fun crc' c' h' => exists x', h' = Hart 0x10716 x' csr w /\ c' = c /\ xget x' 9 = crc' /\ 0 <= crc' < 2 ^ 16
       /\ forall r, callee_saved r = true -> r <> 9 -> r <> 21 -> xget x' r = xget x r).
Proof.
  intros Hp Hp' Hpub H8 H9 Hcrc H21 H23 Hag. unfold DRAM_BASE in *.
  eapply (follows_fold_in _ _ (fun l crc' c' h' => exists i x',
    h' = Hart (if l is [] then 0x10716 else 0x10700) x' csr w /\ c' = c /\ l = seqZ i (64 - i) /\ 0 <= i <= 64
    /\ xget x' 21 = i /\ xget x' 9 = crc' /\ 0 <= crc' < 2 ^ 16
    /\ forall r, callee_saved r = true -> r <> 9 -> r <> 21 -> xget x' r = xget x r)).
  3: { exists 0, x. split_and!; first [done | lia]. }
  2: { intros crc' c' h' (i & x' & -> & -> & _ & _ & _ & H9' & Hc' & Hx'). split; [done|]. by exists x'. }
  intros i l crc' c' h' (i' & x' & -> & -> & El & Hi & H21' & H9' & Hc' & Hx').
  assert (i' < 64) by (destruct (Z.eq_dec i' 64) as [->|]; [done | lia]).
  rewrite seqZ_cons in El by lia. injection El as -> El.
  run. apply follows_bind. run_load8 (p + i') b Hb.
  { intros v Hv. apply (ag_mem Hag); [apply Hpub; lia | done]. }
  apply follows_then, follows_ret; [done|]. run. run. run.
  pose proof Hb as Hb'. unfold is_byte in Hb'.
  apply (crc16_code priv _ crc' b 0x10710); [xgets; by u64s | xgets; by u64s | done | done | by xgets | done |].
  intros x2 Hx2 H10. pose proof (crc16_range crc' b) as Hr. revert H10 Hr. generalize (crc16 crc' b) as v.
  intros v H10 Hv. run. run; [reflexivity|].
  replace (holds_cond Bne _ _) with (if l is [] then false else true).
  2: { cbn [holds_cond]. subst l. destruct (Z.eqb_spec (i' + 1) 64) as [E|E].
    - by rewrite seqZ_nil by lia.
    - by rewrite seqZ_cons by lia. }
  apply follows_done; [done|]. exists (i' + 1). eexists.
  split_and!; [by destruct l | done | rewrite El; f_equal; lia | lia | lia | xgets; by u64s | xgets; by u64s | lia | lia |].
  intros q Hq Hq9 Hq21. saved_at q Hq.
Qed.

Lemma chunks_code sp p n c x csr w :
  xget x 2 = sp -> xget x 8 = p -> xget x 9 = 0 -> xget x 22 = p + 512 -> stack_ok priv 0 sp ->
  DRAM_BASE <= sp -> sp + 128 < 2 ^ 64 -> (forall i, 0 <= i < 128 -> priv (sp + i)) ->
  DRAM_BASE <= p -> p + 512 < 2 ^ 64 -> (forall i, 0 <= i < 512 -> ~ priv (p + i)) ->
  (forall i, 0 <= i < 128 -> priv (ff_buf + i)) ->
  ff_full c -> slot w sp (replicate 128 255) -> agree priv c w ->
  flw (iter chunk_body (p, 512, 0) n c) (Hart 0x106ee x csr w)
    (fun r c' h' => exists x' w', h' = Hart 0x1071e x' csr w' /\ kept priv sp w w'
       /\ fst r = p + 512 /\ 0 <= snd r < 2 ^ 16 /\ xget x' 8 = p + 512 /\ xget x' 9 = snd r
       /\ forall q, callee_saved q = true -> q <> 8 -> q <> 9 -> q <> 21 -> q <> 23 -> xget x' q = xget x q).
Proof.
  intros H2 H8 H9 H22 Hst Hsp Hsp' Hps Hp Hp' Hpub Hff Hfull Hslot Hag. unfold DRAM_BASE in *.
  eapply (follows_iter _ _ (fun '(p', m, crc) c' h' => exists x' w', h' = Hart 0x106ee x' csr w' /\ agree priv c' w'
    /\ ff_full c' /\ kept priv sp w w' /\ p' + m = p + 512 /\ 64 <= m <= 512 /\ m mod 64 = 0 /\ 0 <= crc < 2 ^ 16
    /\ xget x' 8 = p' /\ xget x' 9 = crc
    /\ forall q, callee_saved q = true -> q <> 8 -> q <> 9 -> q <> 21 -> q <> 23 -> xget x' q = xget x q)).
  { intros [[p' m] crc] c' h' (x' & w' & -> & Ha' & _). exact Ha'. }
  2: { eexists _, _. split_and!; done. }
  intros n' [[p' m] crc] c' h' (x' & w' & -> & Ha' & Hfull' & Hk' & Epm & Hm & Hm64 & Hcrc & H8' & H9' & Hx').
  unfold chunk_body. cbv zeta. run. run. run. run. apply follows_bind.
  eapply (follows_keep _ _ ff_full); [apply (keeps_spi_write_bytes (A := fun k => ~ in_range ff_buf 128 k)) | exact Hfull' |].
  { intros i Hi Hr. apply (Hpub (p' + i - p)); [lia|]. replace (p + (p' + i - p)) with (ff_buf + (p' + i - ff_buf)) by lia.
    apply Hff. unfold in_range in Hr. lia. }
  call (spi_write_bytes_code priv sp ff_buf 64 p'); [done | unfold DRAM_BASE; lia | lia | unfold DRAM_BASE; lia | lia | | | ].
  { intros i Hi. replace (p' + i) with (p + (p' + i - p)) by lia. apply Hpub. lia. }
  { split_and!; [done..|]. intros i v Hi Hv. rewrite (Hfull' i ltac:(lia)) in Hv. injection Hv as <-. split; [|done].
    assert (Hs : slot w' sp (replicate 128 255)) by (eapply slot_kept; [exact Hk' | exact Hslot | lia |];
      rewrite length_replicate; intros k Hk2; replace k with (sp + (k - sp)) by lia; apply Hps; lia).
    replace i with (Z.of_nat (Z.to_nat i)) by lia. eapply read_bytes_lookup; [exact Hs|]. apply lookup_replicate_2. lia. }
  back r Hr. intros Hf2. run. run. apply follows_bind.
  eapply follows_mono; [eapply (crc_loop_code p' crc)|].
  { unfold DRAM_BASE; lia. } { lia. }
  { intros i Hi. replace (p' + i) with (p + (p' + i - p)) by lia. apply Hpub. lia. }
  { by xgets. } { by xgets. } { lia. } { by xgets. } { by xgets. } { done. }
  intros crc2 c2 h2 _ (x2 & -> & -> & H9'' & Hc2 & Hx2).
  run. run; [reflexivity|]. rewrite Z.gtb_ltb. destruct (Z.ltb_spec 0 (m - 64)).
  - replace (holds_cond Bne _ _) with true by (symmetry; apply negb_true_iff, Z.eqb_neq; lia). pcs.
    apply follows_ret; [done|]. eexists _, _.
    split_and!; [reflexivity | done | done | keeps_tac | lia | divlia | lia | divlia | lia | lia | by xgets; u64s | by xgets |].
    intros q Hq; intros; saved_at q Hq.
  - replace (holds_cond Bne _ _) with false by (symmetry; apply negb_false_iff, Z.eqb_eq; lia). pcs.
    apply follows_ret; [done|]. eexists _, _.
    split_and!; [reflexivity | keeps_tac | cbn; lia | cbn; lia | cbn; lia | xgets; u64s; lia | by xgets |].
    intros q Hq; intros; saved_at q Hq.
Qed.
Lemma blocks_code sp dst size n c x csr w :
  xget x 2 = sp -> xget x 21 = dst -> xget x 18 = size -> xget x 19 = 254 -> xget x 20 = 1000 -> stack_ok priv 80 sp ->
  DRAM_BASE <= sp -> sp + 128 < 2 ^ 64 -> (forall i, 0 <= i < 128 -> priv (sp + i)) ->
  DRAM_BASE <= dst -> dst + 512 * Z.max 1 size < 2 ^ 64 -> 0 <= size < 2 ^ 32 ->
  (forall i, 0 <= i < 512 * Z.max 1 size -> ~ priv (dst + i)) ->
  (forall i, 0 <= i < 128 -> priv (ff_buf + i)) ->
  ff_full c -> slot w sp (replicate 128 255) -> agree priv c w ->
  flw (iter block_body (dst, size) n c) (Hart 0x106de x csr w)
    (fun rc c' h' => exists x' w', h' = Hart 0x10756 x' csr w' /\ kept priv sp w w' /\ xget x' 8 = u64 rc /\ -2 <= rc <= 0
       /\ forall q, callee_saved q = true -> q <> 8 -> q <> 9 -> q <> 18 -> q <> 21 -> q <> 22 -> q <> 23 -> xget x' q = xget x q).
Proof.
  intros H2 H21 H18 H19 H20 Hst Hsp Hsp' Hps Hdst Hend Hsize Hpub Hff Hfull Hslot Hag. unfold DRAM_BASE in *.
  eapply (follows_iter _ _ (fun '(p, i) c' h' => exists x' w', h' = Hart 0x106de x' csr w' /\ agree priv c' w'
    /\ ff_full c' /\ kept priv sp w w' /\ dst <= p /\ p + 512 * Z.max 1 i <= dst + 512 * Z.max 1 size /\ 0 <= i < 2 ^ 32
    /\ xget x' 21 = p /\ xget x' 18 = i
    /\ forall q, callee_saved q = true -> q <> 8 -> q <> 9 -> q <> 18 -> q <> 21 -> q <> 22 -> q <> 23 -> xget x' q = xget x q)).
  { intros [p i] c' h' (x' & w' & -> & Ha' & _). exact Ha'. }
  2: { eexists _, _. split_and!; first [done | lia]. }
  intros n' [p i] c' h' (x' & w' & -> & Ha' & Hfull' & Hk' & Hp & Hpi & Hi & H21' & H18' & Hx').
  unfold block_body. apply follows_bind.
  eapply (follows_wait_while _ _ (fun c' h' => exists x2 w2, h' = Hart 0x106de x2 csr w2 /\ agree priv c' w2
    /\ ff_full c' /\ kept priv sp w' w2 /\ forall q, callee_saved q = true -> xget x2 q = xget x' q)).
  { intros c2 h2 (x2 & w2 & -> & Ha2 & _). exact Ha2. }
  2: { eexists _, _. split_and!; try done. }
  intros n2 c2 h2 (x2 & w2 & -> & Ha2 & Hf2 & Hk2 & Hx2).
  run. apply follows_bind. eapply (follows_keep _ _ ff_full); [apply (keeps_sd_dummy (A := fun k => ~ in_range ff_buf 128 k)) | exact Hf2 |].
  call (sd_dummy_code priv). back r Hr. intros Hf3. destruct Hr as [Hr Br]. unfold is_byte in Br.
  run; [reflexivity|]. change (holds_cond Bne r 254) with (negb (r =? SD_DATA_TOKEN)).
  apply follows_ret; [done|]. destruct (negb (r =? SD_DATA_TOKEN)).
  { eexists _, _. split_and!; [reflexivity | done | done | keeps_tac | saved]. }
  pcs. run. run. run. apply follows_bind.
  assert (Hpub' : forall j, 0 <= j < 512 -> ~ priv (p + j)).
  { intros j Hj. replace (p + j) with (dst + (p + j - dst)) by lia. apply Hpub. lia. }
  eapply (follows_keep _ _ ff_full).
  { eapply safe_mono; [apply (safe_chunks (A := fun k => ~ in_range ff_buf 128 k))|done].
    intros j Hj Hr2. apply (Hpub' j Hj). replace (p + j) with (ff_buf + (p + j - ff_buf)) by lia.
    apply Hff. unfold in_range in Hr2. lia. }
  { exact Hf3. }
  eapply follows_mono; [eapply (chunks_code sp p)|].
  { by xgets. } { xgets; by u64s. } { by xgets. } { xgets. by u64s. } { eapply stack_le; [exact Hst | lia]. }
  { done. } { done. } { done. } { unfold DRAM_BASE; lia. } { lia. } { done. } { done. } { done. }
  { eapply (slot_kept _ sp); [| exact Hslot | lia |].
    - keeps_tac.
    - rewrite length_replicate; intros k Hk3; replace k with (sp + (k - sp)) by lia; apply Hps; lia. }
  { done. }
  intros [p4 crc] c4 h4 Ha4 (x4 & w4 & -> & Hk4 & E4 & Hc4 & H84 & H94 & Hx4) Hf4. cbn [fst snd] in *. subst p4.
  cbn [h_w] in Ha4. cbn zeta iota beta.
  run. apply follows_bind. eapply (follows_keep _ _ ff_full); [apply (keeps_sd_dummy (A := fun k => ~ in_range ff_buf 128 k)) | exact Hf4 |].
  call (sd_dummy_code priv). back hi Hhi. intros Hf5. destruct Hhi as [Hhi Bhi]. unfold is_byte in Bhi.
  assert (Bs : 0 <= Z.shiftl hi 8 < 2 ^ 16) by (rewrite Z.shiftl_mul_pow2 by lia; lia).
  run. run_as (Z.shiftl hi 8). { rewrite sextw_small by lia. apply u64_small. lia. }
  run. run_as (u16 (Z.shiftl hi 8)). { by rewrite (shifts_low 16) by lia. }
  set (hi8 := u16 (Z.shiftl hi 8)). assert (Bh : 0 <= hi8 < 2 ^ 16) by (apply Z.mod_pos_bound; lia).
  run. apply follows_bind. eapply (follows_keep _ _ ff_full); [apply (keeps_sd_dummy (A := fun k => ~ in_range ff_buf 128 k)) | exact Hf5 |].
  call (sd_dummy_code priv). back lo Hlo. intros Hf6. destruct Hlo as [Hlo Blo]. unfold is_byte in Blo.
  run. run. run_as (u16 (Z.lor hi8 lo)). { rewrite (shifts_low 16), u64_mod by lia. done. }
  assert (Be : 0 <= u16 (Z.lor hi8 lo) < 2 ^ 16) by (apply Z.mod_pos_bound; lia).
  revert Be. generalize (u16 (Z.lor hi8 lo)) as crc_exp. intros crc_exp Be.
  run.
  run; [reflexivity|].
  change (holds_cond Bne crc_exp crc) with (negb (crc_exp =? crc)). rewrite (Z.eqb_sym crc_exp).
  destruct (crc =? crc_exp); cbn [negb]; pcs.
  2: { run. run. apply follows_ret; [done|]. eexists _, _. split_and!; [reflexivity | keeps_tac | by xgets | done | done |].
       intros q Hq; intros; saved_at q Hq. }
  run_as (i mod 1000).
  { change (1000 =? 0) with false. cbv iota. change (s64 1000) with 1000. rewrite s64_small, Z.rem_mod_nonneg by lia.
    apply u64_small. divlia. }
  assert (Bm : 0 <= i mod 1000 < 1000) by (apply Z.mod_pos_bound; lia). revert Bm. generalize (i mod 1000) as m. intros m Bm.
  run; [reflexivity|]. change (holds_cond Bne m 0) with (negb (m =? 0)).
  lazymatch goal with |- follows _ _ _ (Hart _ ?X _ ?W) _ =>
    apply follows_bind, (follows_mono _ _ _ _ (fun _ c' h' => exists x' w', h' = Hart 0x1074e x' csr w'
      /\ ff_full c' /\ kept priv sp W w' /\ forall q, callee_saved q = true -> xget x' q = xget X q)) end.
  { destruct (m =? 0); cbn [negb]; pcs.
    - run. run. run. eapply (follows_keep _ _ ff_full); [apply (keeps_print_uart (A := fun k => ~ in_range ff_buf 128 k)) | exact Hf6 |].
      call (print_uart_code priv "."). back_void. intros Hf7. eexists _, _. split_and!; [reflexivity | done | keeps_tac | saved].
    - apply follows_ret; [done|]. eexists _, _. split_and!; [reflexivity | done | keeps_tac | done]. }
  intros [] c7 h7 Ha7 (x7 & w7 & -> & Hf7 & Hk7 & Hx7).
  tidy Ha7. run_as (u64 (i - 1)). { change 18446744073709551615 with (u64 (-1)). by rewrite u64_add_r. }
  run; [cbn [holds_cond]; rewrite s64_id by lia; reflexivity|]. change (s64 0) with 0. rewrite Z.gtb_ltb.
  destruct (Z.ltb_spec 0 (i - 1)); pcs.
  - apply follows_ret; [done|]. eexists _, _.
    split_and!; [reflexivity | done | done | keeps_tac | lia | lia | lia | lia | xgets; by u64s | xgets; by u64s |].
    intros q Hq; intros; saved_at q Hq.
  - run. apply follows_ret; [done|]. eexists _, _. split_and!; [reflexivity | keeps_tac | by xgets | done | done |].
    intros q Hq; intros; saved_at q Hq.
Qed.
Lemma sd_copy_code dst lba size :
  DRAM_BASE <= dst -> dst + 512 * Z.max 1 size < 2 ^ 64 -> 0 <= size < 2 ^ 32 ->
  (forall i, 0 <= i < 512 * Z.max 1 size -> ~ priv (dst + i)) ->
  (forall i, 0 <= i < 128 -> priv (ff_buf + i)) ->
  routine64 0x10668 320
    (fun g _ _ => g 2 mod 16 = 0 /\ g 10 = dst /\ u32 (g 11) = u32 lba /\ u32 (g 12) = size)
    (sd_copy (D := D) dst lba size) (fun r g => g 10 = u64 r /\ -2 <= r <= 0).
Proof.
  intros Hdst Hend Hsize Hpub Hff. enter n c x csr w Hpre Hra Hst Hag.
  destruct Hpre as (Hal & H10 & H11 & H12). unfold sd_copy. unfold DRAM_BASE in *.
  do 17 run. apply follows_bind.
  destruct (fill_ff (below 128) n c) as (c1 & -> & Hd1 & Ht1 & Ho1 & Hi1).
  apply (memset_code _ c1 (xget x 2 + -208) 0x10692); [xgets; by u64s | by xgets | by xgets | by xgets | done | divlia
    | unfold DRAM_BASE; lia | lia | intros k Hk; apply (proj2 Hst); lia | |].
  { eapply agree_private; [agrees | done | done |]. intros a Ha. apply Ho1. intros j Hj%elem_of_seqZ ->.
    apply Ha, Hff. lia. }
  intros x1 w1 Hx1 Ha1 Hs1 Hk1. apply follows_done; [done|].
  assert (Hfull : ff_full c1) by (intros j Hj; apply Hi1, elem_of_seqZ; lia).
  replace (xget x 2 + -208 + 128) with (xget x 2 + -80) in Hk1 by lia.
  eapply (read_crc_code _ lba); [xgets; by u64s|]. intros x2 Hx2 H12'.
  assert (Hret : forall n5 c5 x5 w5 rc, agree priv c5 w5 -> kept priv (xget x 2 + -208) w1 w5 ->
    (forall q, callee_saved q = true -> q <> 8 -> q <> 9 -> q <> 18 -> q <> 19 -> q <> 20 -> q <> 21 -> q <> 22 -> q <> 23 ->
       xget x5 q = xget x1 q) -> xget x5 2 = xget x 2 + -208 -> xget x5 8 = u64 rc -> -2 <= rc <= 0 ->
    flw ((mret rc : M D Z) n5 c5) (Hart 0x10794 x5 csr w5) (fun a _ h' =>
      returned priv (Hart 0x10668 x csr w) h' /\ xget (h_x h') 10 = u64 a /\ -2 <= a <= 0)).
  { intros n5 c5 x5 w5 rc Ha5 Hk5 Hx5 H25 H85 Brc. apply follows_then, follows_ret; [done|].
    run_pop. run. run_pop. run_pop. run_pop. run_pop. run_pop. run_pop. run_pop. run_pop. run. run. leave. }
  run. run. run. apply follows_bind.
  eapply (follows_keep _ _ ff_full); [apply (keeps_sd_cmd (A := fun k => ~ in_range ff_buf 128 k)) | exact Hfull |].
  call (sd_cmd_code priv 18 lba (read_cmd_crc lba)). { done. } { done. }
  back r Hr. intros Hf3. destruct Hr as [Hr Br].
  run; [reflexivity|]. change (holds_cond Bne r 0) with (negb (r =? 0)). destruct (r =? 0); cbn [negb]; pcs.
  - run_as size.
    { rewrite (shifts_low 32) by lia. exact H12. }
    run. run. apply follows_bind. eapply follows_mono; [eapply (blocks_code (xget x 2 + -208) dst size)|].
    { xgets; by u64s. } { xgets; by u64s. } { xgets; by u64s. } { by xgets. } { by xgets. } { eapply stack_sub; [exact Hst | lia | lia]. }
    { unfold DRAM_BASE; lia. } { lia. } { intros k Hk'; apply (proj2 Hst); lia. } { done. } { done. } { done. } { done. } { done. }
    { done. } { eapply slot_kept; [exact Hk | exact Hs1 | lia |].
      rewrite length_replicate; intros k Hk'; apply (proj2 Hst); lia. }
    { done. }
    intros rc c4 h4 Ha4 (x4 & w4 & -> & Hk4 & H84 & Hrc & Hx4).
    tidy Ha4. run. run. run. run. apply follows_bind. call (sd_cmd_code priv 12 0 1); [done | done|]. back r5 Hr5.
    run. apply follows_bind. call (sd_dummy_code priv). back r6 Hr6. run.
    apply Hret; [done | keeps_tac | intros q Hq; intros; saved_at q Hq | xgets; by u64s | xgets; by u64s | done].
  - change (below 8) with [0; 1; 2; 3; 4; 5; 6; 7]. apply follows_bind.
    do 8 (apply follows_bind; run; apply follows_bind; call (sd_dummy_code priv);
      let r' := fresh "r" in let Hr' := fresh "Hr" in back r' Hr'; clear r' Hr'; apply follows_then, follows_ret; [done|];
      apply follows_done; [done|]).
    apply follows_ret; [done|]. run. run. run. apply follows_bind.
    call (print_uart_code priv ("could not read SD block" +:+ crlf)). back_void.
    run. apply Hret; [done | keeps_tac | intros q Hq; intros; saved_at q Hq | xgets; by u64s | xgets; by u64s | done].
Qed.
End copy.
