(* ===== verification/RomGpt.v ===== *)
(** The search for the boot partition in the ROM image of the FPGA boot loader:
    [gpt_find_boot_partition] of [gpt.c]. Its two arrays grow the stack one after the other, so that
    the private part of the stack shrinks from one copy to the next. *)
From stdpp Require Import relations.
From S2P Require Import Prelude Machine Uart Board Spi Crc Sd Gpt Boot Riscv Rom Rom64 RomUart RomSpi RomSd RomCopy.

(** ** Loads of the model, against the hart's *)

Lemma slot_bytes {D} (priv : Z -> Prop) (c w : world D) a bs :
  agree priv c w -> slot c a bs -> (forall k, a <= k < a + Z.of_nat (length bs) -> ~ priv k) -> Forall is_byte bs.
Proof.
  intros Hag Hs Hp. apply Forall_lookup. intros i b Hi. pose proof (lookup_lt_Some _ _ _ Hi).
  apply (ag_mem Hag (a + Z.of_nat i)); [apply Hp; lia|]. by eapply read_bytes_lookup.
Qed.

Lemma slot_take {D} (w : world D) a k bs : slot w a bs -> (k <= length bs)%nat -> slot w a (take k bs).
Proof.
  unfold slot. intros Hs Hk. pose proof (read_bytes_sub _ _ _ _ 0 k Hs ltac:(lia)) as Ht.
  rewrite Z.add_0_r, drop_0 in Ht. by rewrite length_take, Nat.min_l by done.
Qed.

Lemma le_val_take4 bs : (4 <= length bs)%nat -> u32 (le_val (take 4 bs)) = u32 (le_val bs).
Proof.
  intros Hl. rewrite <- (take_drop 4 bs) at 2. destruct bs as [|b0 [|b1 [|b2 [|b3 bs]]]]; cbn in Hl; try lia.
  change (take 4 _) with [b0; b1; b2; b3]. change (drop 4 _) with bs. cbn [app le_val]. unfold u32.
  replace (b0 + 256 * (b1 + 256 * (b2 + 256 * (b3 + 256 * le_val bs))))
    with (b0 + 256 * (b1 + 256 * (b2 + 256 * (b3 + 256 * 0))) + le_val bs * 2 ^ 32) by lia.
  symmetry. by apply Z.mod_add.
Qed.

(** The number of blocks of the image, in 32-bit words. *)
Lemma u32_shift z k : u32 (z + k * 2 ^ 32) = u32 z.
Proof. unfold u32. by apply Z.mod_add. Qed.

Lemma u32_word z z' : u32 z = u32 z' -> exists k, z = z' + k * 2 ^ 32.
Proof.
  unfold u32. intros Hz. exists (z / 2 ^ 32 - z' / 2 ^ 32).
  pose proof (Z.div_mod z (2 ^ 32)). pose proof (Z.div_mod z' (2 ^ 32)). lia.
Qed.

Lemma blocks_word f f4 l :
  u32 f4 = u32 f ->
  u32 (u64 (sextw (u64 (sextw (u64 l + 1)) - u64 (sextw f4)))) = u32 (u64 (u64 (l - f) + 1)).
Proof.
  intros Hf. rewrite !u32_u64, u32_sextw.
  destruct (u32_word (u64 (sextw (u64 l + 1))) (u64 l + 1)) as [k1 ->]; [by rewrite u32_u64, u32_sextw|].
  destruct (u32_word (u64 l) l) as [k2 ->]; [apply u32_u64|].
  destruct (u32_word (u64 (sextw f4)) f) as [k3 ->]; [by rewrite u32_u64, u32_sextw|].
  destruct (u32_word (u64 (l - f)) (l - f)) as [k4 ->]; [apply u32_u64|].
  rewrite <- (u32_shift _ (k4 - k1 - k2 + k3)). f_equal. lia.
Qed.

(** A result of [sd_copy] or [init_sd] as the register has it. *)
Lemma code_zero r : -3 <= r <= 0 -> (u64 r =? 0) = (r =? 0).
Proof.
  intros Hr. assert (r = 0 \/ r = -1 \/ r = -2 \/ r = -3) as [-> | [-> | [-> | ->]]] by lia; reflexivity.
Qed.

Section print.
Context `{!Bus D, !Layout} (priv : Z -> Prop).

Local Abbreviation flw := (follows reset_vec_64 priv).

Ltac say t := run; run; run; apply follows_bind; call (print_uart_code priv t); back_void.

(** A field of a structure: its load, and the call that prints it. *)
Ltac field_load bs Hl :=
  let Hbs := fresh "Hbs" in
  apply follows_load_le; [cbn [h_w]; agrees | intros bs Hbs Hl];
  run by (eapply load_slot;
    [ eapply slot_agree; [eassumption | exact Hbs | let k := fresh "k" in let Hk := fresh "Hk" in
        intros k Hk; rewrite Hl in Hk; match goal with H : forall i, 0 <= i < _ -> ~ priv (?a + i) |- _ =>
          replace k with (a + (k - a)) by lia; apply H; lia end]
    | exact Hl | unfold DRAM_BASE; lia | apply in_rom_dram; [vm_compute; reflexivity | unfold DRAM_BASE; lia]]);
  try clear Hbs.

Ltac show_addr :=
  let bs := fresh "bs" in let Hl := fresh "Hl" in field_load bs Hl;
  run; apply follows_bind; call (print_uart_addr_code priv (le_val bs)); back_void; clear Hl.

Ltac show_int :=
  let bs := fresh "bs" in let Hl := fresh "Hl" in field_load bs Hl;
  run; apply follows_bind; call (print_uart_int_code priv (le_val bs)); [by rewrite u32_u64, u32_sextw|]; back_void; clear Hl.

Lemma print_pth_code a n c x csr w :
  xget x 2 = a -> stack_ok priv 48 a -> a + 512 < 2 ^ 64 -> (forall i, 0 <= i < 512 -> ~ priv (a + i)) -> agree priv c w ->
  flw (print_pth a n c) (Hart 0x10848 x csr w) (fun _ c' h' => exists x' w', h' = Hart 0x10914 x' csr w' /\ kept priv a w w'
    /\ forall r, callee_saved r = true -> xget x' r = xget x r).
Proof.
  intros H2 Hst Ha Hpub Hag. pose proof (proj1 Hst). unfold DRAM_BASE in *. unfold print_pth, pth_u64, pth_u32. eval_offsets.
  say "gpt partition table header:".
  say (crlf +:+ tab +:+ "signature:" +:+ tab). show_addr. say (crlf +:+ tab +:+ "revision:" +:+ tab). show_int.
  say (crlf +:+ tab +:+ "size:" +:+ tab +:+ tab). show_int. say (crlf +:+ tab +:+ "crc_header:" +:+ tab). show_int.
  say (crlf +:+ tab +:+ "reserved:" +:+ tab). show_int. say (crlf +:+ tab +:+ "current lba:" +:+ tab). show_addr.
  say (crlf +:+ tab +:+ "backup lda:" +:+ tab). show_addr.
  say (crlf +:+ tab +:+ "partition entries lba:   " +:+ tab). show_addr.
  say (crlf +:+ tab +:+ "number partition entries:" +:+ tab). show_int.
  say (crlf +:+ tab +:+ "size partition entries:  " +:+ tab). show_int.
  run. run. run. apply follows_then. call (print_uart_code priv crlf). back_void.
  apply follows_done; [done|]. eexists _, _. split_and!; [reflexivity | keeps_tac | saved].
Qed.
(** ** The entries *)

Lemma seqZ_here {j n k : Z} {l} : k :: l = seqZ j (n - j) -> k = j /\ j < n /\ l = seqZ (j + 1) (n - (j + 1)).
Proof.
  intros E. destruct (Z.lt_ge_cases j n); [|by rewrite seqZ_nil in E by lia].
  rewrite seqZ_cons in E by lia. injection E as -> ->. split_and!; [done | done | f_equal; lia].
Qed.

Lemma seqZ_end {j n : Z} {l} : l = seqZ j (n - j) -> j <= n -> (if l is [] then true else false) = (j =? n).
Proof.
  intros -> Hj. destruct (Z.eqb_spec j n) as [->|]; [by rewrite seqZ_nil by lia | by rewrite seqZ_cons by lia].
Qed.

(** A loop that prints [m] bytes from [p]: its index is in [s3]. *)
Definition bytes_loop (entry exit : Z) (ireg : Z -> Z -> Z) (bound : (Z -> Z) -> Prop) (p m : Z) : Prop :=
  forall n c x csr w,
    stack_ok priv 32 (xget x 2) -> (forall j, 0 <= j < m -> ~ priv (p + j)) -> agree priv c w ->
    bound (xget x) -> xget x 19 = ireg p 0 ->
    flw (print_bytes p m n c) (Hart entry x csr w) (fun _ c' h' => exists x' w', h' = Hart exit x' csr w'
      /\ kept priv (xget x 2) w w' /\ forall q, callee_saved q = true -> q <> 19 -> xget x' q = xget x q).

Ltac bytes_loop_tac p m ireg entry exit :=
  let n := fresh "n" in let c := fresh "c" in let x := fresh "x" in let csr := fresh "csr" in let w := fresh "w" in
  intros n c x csr w Hst Hpub Hag Hb H19; pose proof (proj1 Hst); pose proof (xget_range x 2); unfold DRAM_BASE in *; unfold print_bytes;
  eapply (follows_for_in _ _ (fun l c' h' => exists j x' w', h' = Hart (if l is [] then exit else entry) x' csr w'
    /\ agree priv c' w' /\ l = seqZ j (m - j) /\ 0 <= j <= m /\ kept priv (xget x 2) w w'
    /\ xget x' 19 = ireg p j /\ forall q, callee_saved q = true -> q <> 19 -> xget x' q = xget x q)).

Ltac bytes_loop_end m :=
  lazymatch goal with El : ?l = seqZ (?j + 1) (m - (?j + 1)) |- _ =>
    run; [reflexivity|];
    replace (holds_cond Bne _ _) with (negb (j + 1 =? m))
      by (cbn [holds_cond]; apply Bool.eq_iff_eq_true; rewrite !negb_true_iff, !Z.eqb_neq; lia);
    rewrite <- (seqZ_end El) by lia; apply follows_done; [done|]; exists (j + 1); eexists _, _;
    split_and!; [by destruct l | done | exact El | lia | lia | keeps_tac | xgets; u64s; lia
      | let q := fresh "q" in let Hq := fresh "Hq" in intros q Hq; intros; saved_at q Hq]
  end.

Lemma type_guid_loop p :
  DRAM_BASE <= p -> p + 16 < 2 ^ 64 ->
  bytes_loop 0x10956 0x10968 (fun _ j => j) (fun g => g 24 = p /\ g 23 = 16) p 16.
Proof.
  intros Hp Hp'. bytes_loop_tac p 16 (fun (_ j : Z) => j) 0x10956 0x10968.
  3: { exists 0, x, w. split_and!; first [done | lia]. }
  2: { intros c' h' (j & x' & w' & -> & Ha' & _ & _ & Hk & _ & Hx'). split; [exact Ha'|]. by exists x', w'. }
  intros k l c' h' (j & x' & w' & -> & Ha' & El & Hj & Hk & Hj' & Hx'). destruct (seqZ_here El) as (-> & Hj2 & El').
  destruct Hb as [H24 H23]. cbv beta in *.
  run. apply follows_bind. run_load8 (p + j) b Hb.
  { intros v Hv. apply (ag_mem Ha'); [apply Hpub; lia | done]. }
  pose proof Hb as Hb'. unfold is_byte in Hb'. run. run. apply follows_then. call (print_uart_byte_code priv b); [done|]. back_void.
  bytes_loop_end 16.
Qed.

Lemma guid_loop p :
  DRAM_BASE <= p -> p + 16 < 2 ^ 64 ->
  bytes_loop 0x10978 0x10986 Z.add (fun g => g 9 = p + 16) p 16.
Proof.
  intros Hp Hp'. bytes_loop_tac p 16 Z.add 0x10978 0x10986.
  3: { exists 0, x, w. split_and!; first [done | lia]. }
  2: { intros c' h' (j & x' & w' & -> & Ha' & _ & _ & Hk & _ & Hx'). split; [exact Ha'|]. by exists x', w'. }
  intros k l c' h' (j & x' & w' & -> & Ha' & El & Hj & Hk & Hj' & Hx'). destruct (seqZ_here El) as (-> & Hj2 & El').
  cbv beta in *.
  apply follows_bind. run_load8 (p + j) b Hb'.
  { intros v Hv. apply (ag_mem Ha'); [apply Hpub; lia | done]. }
  pose proof Hb' as Bb. unfold is_byte in Bb. run. run. apply follows_then. call (print_uart_byte_code priv b); [done|]. back_void.
  bytes_loop_end 16.
Qed.

Lemma name_loop p :
  DRAM_BASE <= p -> p + 72 < 2 ^ 64 ->
  bytes_loop 0x109d0 0x109de Z.add (fun g => g 24 = p + 72) p 72.
Proof.
  intros Hp Hp'. bytes_loop_tac p 72 Z.add 0x109d0 0x109de.
  3: { exists 0, x, w. split_and!; first [done | lia]. }
  2: { intros c' h' (j & x' & w' & -> & Ha' & _ & _ & Hk & _ & Hx'). split; [exact Ha'|]. by exists x', w'. }
  intros k l c' h' (j & x' & w' & -> & Ha' & El & Hj & Hk & Hj' & Hx'). destruct (seqZ_here El) as (-> & Hj2 & El').
  cbv beta in *.
  apply follows_bind. run_load8 (p + j) b Hb'.
  { intros v Hv. apply (ag_mem Ha'); [apply Hpub; lia | done]. }
  pose proof Hb' as Bb. unfold is_byte in Bb. run. run. apply follows_then. call (print_uart_byte_code priv b); [done|]. back_void.
  bytes_loop_end 72.
Qed.
Lemma print_entry_code a i p n c x csr w :
  a + i * 128 = p -> 0 <= i < 4 -> xget x 9 = p + 32 -> xget x 18 = i -> xget x 23 = 16 ->
  stack_ok priv 48 (xget x 2) -> DRAM_BASE <= p -> p + 512 < 2 ^ 64 -> (forall j, 0 <= j < 128 -> ~ priv (p + j)) ->
  agree priv c w ->
  flw (print_entry a i n c) (Hart 0x10930 x csr w) (fun _ c' h' => exists x' w', h' = Hart 0x109f0 x' csr w'
    /\ kept priv (xget x 2) w w' /\ xget x' 9 = p + 160 /\ xget x' 18 = i + 1
    /\ forall q, callee_saved q = true -> q <> 9 -> q <> 18 -> q <> 19 -> q <> 24 -> xget x' q = xget x q).
Proof.
  intros Ep Hi H9 H18 H23 Hst Hp Hp' Hpub Hag. pose proof (proj1 Hst). pose proof (xget_range x 2). unfold DRAM_BASE in *.
  unfold print_entry, ent_u64. eval_offsets. cbv zeta. rewrite Ep. change (Z.of_nat 0) with 0. rewrite (Z.add_0_r p).
  say "gpt partition entry ".
  run_as (u8 i). { u64s. apply land_255. }
  run. apply follows_bind. call (print_uart_byte_code priv (u8 i)); [apply u8_byte|]. back_void.
  run. run. run. run. apply follows_bind. call (print_uart_code priv (crlf +:+ tab +:+ "partition type guid:" +:+ tab)). back_void.
  run. pcs. apply follows_bind. eapply follows_mono; [eapply (type_guid_loop p)|].
  { done. } { lia. } { xgets. eapply stack_le; [exact Hst | lia]. } { intros j Hj. apply Hpub. lia. } { done. }
  { cbv beta. split; xgets; by u64s. } { by xgets. }
  intros [] c6 h6 Ha6 (x6 & w6 & -> & Hk6 & Hx6). tidy Hk6. tidy Ha6.
  say (crlf +:+ tab +:+ "partition guid:     " +:+ tab).
  run. pcs. apply follows_bind. eapply follows_mono; [eapply (guid_loop (p + Z.of_nat 16))|].
  { unfold DRAM_BASE; lia. } { lia. } { xgets. eapply stack_le; [exact Hst | lia]. }
  { intros j Hj. replace (p + Z.of_nat 16 + j) with (p + (16 + j)) by lia. apply Hpub. lia. } { done. }
  { xgets; lia. } { xgets; u64s. lia. }
  intros [] c7 h7 Ha7 (x7 & w7 & -> & Hk7 & Hx7). tidy Hk7. tidy Ha7.
  say (crlf +:+ tab +:+ "first lba:" +:+ tab).
  let bs := fresh "bs" in let Hl := fresh "Hl" in field_load bs Hl;
  run; run; run; apply follows_bind; call (print_uart_addr_code priv (le_val bs)); back_void; clear Hl.
  say (crlf +:+ tab +:+ "last lba:" +:+ tab). show_addr. say (crlf +:+ tab +:+ "attributes:" +:+ tab). show_addr.
  say (crlf +:+ tab +:+ "name:" +:+ tab).
  pcs. apply follows_bind. eapply follows_mono; [eapply (name_loop (p + Z.of_nat 56))|].
  { unfold DRAM_BASE; lia. } { lia. } { xgets. eapply stack_le; [exact Hst | lia]. }
  { intros j Hj. replace (p + Z.of_nat 56 + j) with (p + (56 + j)) by lia. apply Hpub. lia. } { done. }
  { cbv beta. xgets; u64s; lia. } { xgets; u64s. lia. }
  intros [] c20 h20 Ha20 (x20 & w20 & -> & Hk20 & Hx20). tidy Hk20. tidy Ha20.
  run. run. run. run. apply follows_then. call (print_uart_code priv crlf). back_void. run. apply follows_done; [done|].
  eexists _, _. split_and!; [reflexivity | keeps_tac | xgets; u64s; lia | xgets; u64s; lia
    | intros q Hq; intros; saved_at q Hq].
Qed.
Lemma print_entries_code a n c x csr w :
  xget x 9 = a + 32 -> xget x 18 = 0 -> xget x 23 = 16 -> xget x 22 = 4 ->
  stack_ok priv 48 (xget x 2) -> DRAM_BASE <= a -> a + 1024 < 2 ^ 64 -> (forall j, 0 <= j < 512 -> ~ priv (a + j)) ->
  agree priv c w ->
  flw (for_in (below 4) (fun i => print_entry a i) n c) (Hart 0x10930 x csr w) (fun _ c' h' => exists x' w',
    h' = Hart 0x109f4 x' csr w' /\ kept priv (xget x 2) w w'
    /\ forall q, callee_saved q = true -> q <> 9 -> q <> 18 -> q <> 19 -> q <> 24 -> xget x' q = xget x q).
Proof.
  intros H9 H18 H23 H22 Hst Ha Ha' Hpub Hag. pose proof (proj1 Hst). pose proof (xget_range x 2). unfold DRAM_BASE in *.
  eapply (follows_for_in _ _ (fun l c' h' => exists i x' w', h' = Hart (if l is [] then 0x109f4 else 0x10930) x' csr w'
    /\ agree priv c' w' /\ l = seqZ i (4 - i) /\ 0 <= i <= 4 /\ kept priv (xget x 2) w w'
    /\ xget x' 9 = a + i * 128 + 32 /\ xget x' 18 = i
    /\ forall q, callee_saved q = true -> q <> 9 -> q <> 18 -> q <> 19 -> q <> 24 -> xget x' q = xget x q)).
  3: { exists 0, x, w. split_and!; first [done | lia]. }
  2: { intros c' h' (j & x' & w' & -> & Hc' & _ & _ & Hk & _ & _ & Hx'). split; [exact Hc'|]. by exists x', w'. }
  intros k l c' h' (i & x' & w' & -> & Hc' & El & Hi & Hk & H9' & H18' & Hx'). destruct (seqZ_here El) as (-> & Hi2 & El').
  apply follows_then. eapply follows_mono; [eapply (print_entry_code a i (a + i * 128))|].
  { done. } { lia. } { done. } { done. } { by xgets. } { by xgets. } { unfold DRAM_BASE; lia. } { lia. }
  { intros j Hj. replace (a + i * 128 + j) with (a + (i * 128 + j)) by lia. apply Hpub. lia. } { done. }
  intros [] c2 h2 Ha2 (x2 & w2 & -> & Hk2 & H92 & H182 & Hx2). tidy Hk2. tidy Ha2.
  run; [reflexivity|].
  replace (holds_cond Bne _ _) with (negb (i + 1 =? 4))
    by (cbn [holds_cond]; apply Bool.eq_iff_eq_true; rewrite !negb_true_iff, !Z.eqb_neq; lia).
  rewrite <- (seqZ_end El') by lia. apply follows_done; [done|]. exists (i + 1). eexists _, _.
  split_and!; [by destruct l | done | exact El' | lia | lia | keeps_tac | lia | lia | intros q Hq; intros; saved_at q Hq].
Qed.
End print.

(** * The search *)

(** ** In two parts: the tables, and the copy of the image *)

Section split.
Context `{!Bus D, !Layout}.

(** The search up to the copy of the image: a result, when it has ended before. *)
Definition load_tables : M D (option Z) :=
  ret ← init_sd;
  if negb (ret =? 0) then
    print_uart ("could not initialize sd... exiting" +:+ crlf) ;; mret (Some (-1))
  else
  print_uart ("sd initialized!" +:+ crlf) ;;
  res ← sd_copy lba1_buf 1 1;
  if negb (res =? 0) then report_failure res ;; mret (Some (-2)) else
  print_pth lba1_buf ;;
  lba ← pth_u64 10 lba1_buf;
  res ← sd_copy lba2_buf (u32 lba) 1;
  if negb (res =? 0) then report_failure res ;; mret (Some (-2)) else
  for_in (below 4) (fun i => print_entry lba2_buf i) ;;
  mret None.

Lemma gpt_split dest size n c :
  gpt_find_boot_partition dest size n c
  = (r ← load_tables; match r with Some v => mret v | None => load_image dest end) n c.
Proof.
  unfold gpt_find_boot_partition, load_tables, load_header, load_entries. rewrite M_bind_assoc.
  apply M_bind_ext. intros ret c1. destruct (negb (ret =? 0)); [rewrite M_bind_assoc; by apply M_bind_ext|].
  rewrite M_bind_assoc. apply M_bind_ext. intros [] c2. rewrite M_bind_assoc.
  apply M_bind_ext. intros res c3. destruct (negb (res =? 0)); [rewrite M_bind_assoc; by apply M_bind_ext|].
  rewrite M_bind_assoc. apply M_bind_ext. intros [] c4. rewrite M_bind_assoc.
  apply M_bind_ext. intros lba c5. rewrite M_bind_assoc.
  apply M_bind_ext. intros res2 c6. destruct (negb (res2 =? 0)); [rewrite M_bind_assoc; by apply M_bind_ext|].
  rewrite M_bind_assoc. by apply M_bind_ext.
Qed.
End split.

(** ** Shrinking the private part *)

Section priv.
Context `{!Bus D} (img : list Z) (P P' : Z -> Prop) (HP : forall a, P' a -> P a).

Lemma agree_weaken (c w : world D) : agree P' c w -> agree P c w.
Proof. intros [Hd Ht Hm]. split; [done..|]. intros a v Ha. apply Hm. auto. Qed.

Lemma follows_weaken {A} (r : outcome A * world D) h Q :
  follows img P' r h Q -> follows img P r h Q.
Proof.
  intros H. eapply reach_mono; [exact H|]. intros h' [Ha HQ]. split; [by apply agree_weaken | exact HQ].
Qed.

Lemma kept_weaken sp (w w' : world D) : kept P sp w w' -> kept P' sp w w'.
Proof. intros H a Ha Hp. apply H; auto. Qed.
End priv.

(** [n] bytes from [b] become public. *)
Definition without (P : Z -> Prop) (b n : Z) (a : Z) : Prop := P a /\ ~ in_range b n a.

Lemma agree_without {D} P b n (c w : world D) :
  agree P c w -> (forall a, in_range b n a -> w_mem c !! a = None) -> agree (without P b n) c w.
Proof.
  intros [Hd Ht Hm] Hn. split; [done..|]. intros a v Ha Hv.
  destruct (decide (in_range b n a)) as [Hr|Hr]; [by rewrite Hn in Hv|]. apply Hm; [|done]. intros Hp. by apply Ha.
Qed.

(** Bytes the model has not written. *)
Definition blank {D} (b n : Z) (c : world D) : Prop := forall a, in_range b n a -> w_mem c !! a = None.

#[export] Instance blank_closed `{!Bus D} b n : Closed (D := D) (blank b n) (fun k => ~ in_range b n k).
Proof.
  assert (HC : forall m, Closed (D := D) (unchanged (fun k => ~ in_range b n k) m) (fun k => ~ in_range b n k))
    by (intros m; apply _).
  assert (HB : forall {A} (f : M D A), (forall m, keeps (unchanged (fun k => ~ in_range b n k) m) f) -> keeps (blank b n) f).
  { intros A f Hf k c Hc. specialize (Hf (w_mem c) k c ltac:(done)). destruct (f k c) as [o c']. split; [|done].
    intros a Ha. rewrite (proj1 Hf) by tauto. by apply Hc. }
  split; intros; apply HB; intros m; destruct (HC m); auto.
Qed.

(** A call of the model that leaves the [512] bytes at [b] blank. *)
Tactic Notation "keep_blank" constr(b) uconstr(L) :=
  eapply (follows_keep _ _ (blank b 512)); [apply L | match goal with H : blank b _ ?c |- blank b _ ?c => exact H end |].

(** ** The code *)

Section search.
Context `{!Bus D, !Layout} (P0 : Z -> Prop).

Local Abbreviation P1 := (without P0 lba1_buf 512).
Local Abbreviation P2 := (without P1 lba2_buf 512).

(** The state at the call. *)
Context (x csr : Z -> Z) (w : world D) (sp dest : Z).
Context (Hsp : xget x 2 = sp) (Hst : stack_ok P0 1424 sp) (Hal : sp mod 16 = 0) (Hra : xget x 1 mod 2 = 0).
Context (H1 : lba1_buf = sp - 592) (H2 : lba2_buf = sp - 1104).
Context (Hff : forall i, 0 <= i < 128 -> P2 (ff_buf + i)).

(** The registers [gpt_find_boot_partition] saves. *)
Definition gpt_saved : list Z := [8; 20; 1; 9; 18; 19; 21; 22; 23; 24].
Definition gpt_slots : list Z := [sp - 16; sp - 48; sp - 8; sp - 24; sp - 32; sp - 40; sp - 56; sp - 64; sp - 72; sp - 80].

(** A point of the search: what it has kept for its return. *)
Record framed (x' : Z -> Z) (w' : world D) : Prop := {
  fr_slots : Forall2 (fun a r => slot w' a (le_bytes 8 (xget x r))) gpt_slots gpt_saved;
  fr_kept : forall a, sp <= a -> P0 a -> w_mem w' !! a = w_mem w !! a;
  fr_fp : xget x' 8 = sp;
  fr_dest : xget x' 20 = dest;
  fr_regs : forall q, callee_saved q = true -> q <> 2 -> q <> 8 -> q <> 9 -> q <> 18 -> q <> 19 -> q <> 20 -> q <> 21 ->
    q <> 22 -> q <> 23 -> q <> 24 -> xget x' q = xget x q
}.

Lemma private_here a : sp - 80 <= a -> P0 a -> P2 a.
Proof. intros Ha Hp. unfold without, in_range. rewrite H1, H2. split_and!; [done | lia..]. Qed.

Lemma framed_kept P sp' x1 w1 x2 w2 :
  framed x1 w1 -> kept P sp' w1 w2 -> sp' <= sp - 80 -> (forall a, P2 a -> P a) ->
  (forall q, callee_saved q = true -> q <> 2 -> q <> 9 -> q <> 18 -> q <> 19 -> q <> 21 -> q <> 22 -> q <> 23 -> q <> 24 ->
     xget x2 q = xget x1 q) ->
  framed x2 w2.
Proof.
  intros [Hs Hk Hf Hd Hr] Hk2 Hsp' HP Hx. unfold stack_ok in Hst. destruct Hst as [Hlo Hpr].
  assert (Hsl : forall a v, sp - 80 <= a <= sp - 8 -> slot w1 a (le_bytes 8 v) -> slot w2 a (le_bytes 8 v)).
  { intros a v Ha Hs0. eapply slot_kept; [exact Hk2 | exact Hs0 | lia |].
    rewrite le_bytes_length. intros k Hk'. apply HP, private_here; [lia|]. apply Hpr. lia. }
  split.
  - unfold gpt_slots, gpt_saved in *. repeat (apply Forall2_cons in Hs as [? Hs]).
    repeat (apply Forall2_cons; split; [apply Hsl; [lia | assumption]|]). by apply Forall2_nil.
  - intros a Ha Hp. rewrite Hk2; [by apply Hk | lia | apply HP, private_here; [lia | done]].
  - by rewrite Hx.
  - by rewrite Hx.
  - intros q Hq; intros. rewrite Hx by done. by apply Hr.
Qed.

(** Back to the caller. *)
Lemma gpt_end {A} P (r : outcome A * world D) x' w' v Q :
  framed x' w' -> (forall a, P2 a -> P a) -> xget x' 9 = v ->
  (forall x'', returned P0 (Hart 0x107b0 x csr w) (Hart (xget x 1) x'' csr w') -> xget x'' 10 = v ->
     follows reset_vec_64 P r (Hart (xget x 1) x'' csr w') Q) ->
  follows reset_vec_64 P r (Hart 0x107de x' csr w') Q.
Proof.
  intros [Hs Hk Hf Hd Hr] HP H9 HQ. destruct Hst as [Hlo _]. pose proof (xget_range x 2). rewrite Hsp in *. unfold DRAM_BASE in *.
  unfold gpt_slots, gpt_saved in Hs. repeat (apply Forall2_cons in Hs as [? Hs]).
  run. run_pop. run. do 9 run_pop. run. run. apply HQ.
  - split_and!; [done | cbn [h_x]; rewrite ?Hsp | done | intros a Ha Hp; apply Hk; [by rewrite <- Hsp | done]].
    intros r0 Hr0. destruct (Z.eq_dec r0 2) as [->|]; [by rewrite xget_set_eq, u64_small by (done || lia)|]. saved_at r0 Hr0.
  - xgets. u64s. rewrite <- H9. apply u64_xget.
Qed.

(** What the search does when a copy has failed: the report, and -2. *)
Definition failed P res (x' : Z -> Z) (w' : world D) (entry rreg : Z) : Prop :=
  forall n c Q, framed x' w' -> (forall a, P2 a -> P a) -> stack_ok P 48 (xget x' 2) -> xget x' 2 <= sp - 80 ->
    agree P c w' -> xget x' rreg = u64 res ->
    (forall c' x'' w'', agree P c' w'' -> returned P0 (Hart 0x107b0 x csr w) (Hart (xget x 1) x'' csr w'') ->
       xget x'' 10 = u64 (-2) -> follows reset_vec_64 P (Val tt, c') (Hart (xget x 1) x'' csr w'') Q) ->
    follows reset_vec_64 P (report_failure res n c) (Hart entry x' csr w') Q.

Lemma report_tail P c x' w' Q :
  framed x' w' -> (forall a, P2 a -> P a) -> stack_ok P 48 (xget x' 2) -> xget x' 2 <= sp - 80 -> agree P c w' ->
  rom_string reset_vec_64 (xget x' 10) crlf = true ->
  (forall c' x'' w'', agree P c' w'' -> returned P0 (Hart 0x107b0 x csr w) (Hart (xget x 1) x'' csr w'') ->
     xget x'' 10 = u64 (-2) -> follows reset_vec_64 P (Val tt, c') (Hart (xget x 1) x'' csr w'') Q) ->
  forall n, follows reset_vec_64 P (print_uart crlf n c) (Hart 0x10840 x' csr w') Q.
Proof.
  intros Hf HP Hs Hsp' Hag H10 HQ n. run. apply follows_then. call (print_uart_code P crlf). back_void. run. run.
  eapply (gpt_end P); [| exact HP | by xgets |].
  - eapply framed_kept; [exact Hf | exact Hk | done | exact HP | intros q Hq; intros; saved_at q Hq].
  - intros x'' Hret H10'. by apply HQ.
Qed.

Ltac report P res :=
  unfold report_failure; run; run; run; apply follows_bind;
  call (print_uart_code P ("SD card failed!" +:+ crlf)); back_void;
  run; run; run; apply follows_bind; call (print_uart_code P "sd copy return value: "); back_void;
  run; run; apply follows_bind; call (print_uart_addr_code P (u64 res)); back_void.

Ltac still P a Hf HP :=
  eapply (framed_kept P a); [exact Hf | keeps_tac | lia | exact HP
    | let q := fresh "q" in let Hq := fresh "Hq" in intros q Hq; intros; saved_at q Hq].

Ltac report_end P a Hf HP :=
  eapply report_tail; [still P a Hf HP | exact HP | xgets; eassumption | xgets; lia | done | xgets; vm_compute; reflexivity | eassumption].

Lemma failed_header P res x' w' : failed P res x' w' 0x1081a 9.
Proof.
  intros n c Q Hf HP Hs Hsp' Hag H9 HQ. report P res. run. run. report_end P (xget x' 2) Hf HP.
Qed.

Lemma failed_entries P res x' w' : failed P res x' w' 0x10a3e 18.
Proof.
  intros n c Q Hf HP Hs Hsp' Hag H9 HQ. report P res. run. run. run. report_end P (xget x' 2) Hf HP.
Qed.

Lemma failed_image P res x' w' : failed P res x' w' 0x10a16 9.
Proof.
  intros n c Q Hf HP Hs Hsp' Hag H9 HQ. report P res. run. run. run. report_end P (xget x' 2) Hf HP.
Qed.


(** ** The table's entries *)

Lemma stack_entries : stack_ok P2 320 (sp - 1104).
Proof.
  destruct Hst as [Hlo Hp]. split; [lia|]. intros a Ha. unfold without, in_range. rewrite H1, H2.
  split_and!; [apply Hp; lia | lia..].
Qed.

Lemma stack_header : stack_ok P1 320 (sp - 592).
Proof.
  destruct Hst as [Hlo Hp]. split; [lia|]. intros a Ha. unfold without, in_range. rewrite H1. split_and!; [apply Hp; lia | lia..].
Qed.

Lemma entries_phase n c x1 w1 (Q : option Z -> world D -> hart D -> Prop) :
  framed x1 w1 -> xget x1 2 = sp - 592 -> xget x1 18 = sp - 592 -> agree P1 c w1 -> blank lba2_buf 512 c ->
  (forall c' x' w', framed x' w' -> xget x' 2 = sp - 1104 -> xget x' 21 = sp - 1104 -> agree P2 c' w' ->
     Q None c' (Hart 0x109f4 x' csr w')) ->
  (forall c' h', returned P0 (Hart 0x107b0 x csr w) h' -> xget (h_x h') 10 = u64 (-2) -> Q (Some (-2)) c' h') ->
  follows reset_vec_64 P1
    ((lba ← pth_u64 10 lba1_buf;
      res ← sd_copy lba2_buf (u32 lba) 1;
      if negb (res =? 0) then report_failure res ;; mret (Some (-2)) else
      for_in (below 4) (fun i => print_entry lba2_buf i) ;;
      mret None) n c) (Hart 0x10914 x1 csr w1) Q.
Proof.
  intros Hf Hx2 Hx18 Hag Hb HN HS. pose proof stack_entries as Hs3. replace (sp - 1104) with (sp - 592 + -512) in Hs3 by lia. pose proof (proj1 Hst). pose proof (xget_range x 2). rewrite Hsp in *. unfold DRAM_BASE in *.
  unfold pth_u64. eval_offsets. apply follows_load_le; [exact Hag|]. intros bs Hbs Hl.
  run by (eapply (load_slot _ _ _ (take 4 bs));
    [ apply slot_take; [|by rewrite Hl; lia]; eapply slot_agree; [exact Hag | rewrite <- H1; exact Hbs |];
      intros k Hk; rewrite Hl in Hk; unfold without, in_range; rewrite H1; lia
    | by rewrite length_take, Hl | unfold DRAM_BASE; lia | apply in_rom_dram; [vm_compute; reflexivity | unfold DRAM_BASE; lia]]).
  assert (Hag2 : agree P2 c w1) by (by apply agree_without).
  apply (follows_weaken _ P1 P2); [by intros a []|]. run. run. run. run. apply follows_bind.
  call (sd_copy_code P2 lba2_buf (u32 (le_val bs)) 1).
  { unfold DRAM_BASE; lia. } { lia. } { done. } { intros i Hi [_ Hn]. apply Hn. unfold in_range. lia. } { exact Hff. }
  { split_and!; [divlia | lia | | done]. rewrite u32_u64, u32_sextw, le_val_take4 by lia. symmetry. apply Zmod_mod. }
  back r Hr. destruct Hr as [Hr Br]. run. run. run. run; [reflexivity|].
  change (holds_cond Bne (u64 r) 0) with (negb (u64 r =? 0)). rewrite code_zero by lia.
  assert (Hf2 : forall x2, (forall q, callee_saved q = true -> q <> 2 -> q <> 9 -> q <> 18 -> q <> 21 -> q <> 22 -> q <> 23 ->
    xget x2 q = xget x0 q) -> framed x2 w0).
  { intros x2 Hq. eapply (framed_kept P2 (sp - 592 + -512)); [exact Hf | exact Hk | lia | done |].
    intros q Hq'; intros. rewrite Hq by done. saved_at q Hq'. }
  destruct (Z.eqb_spec r 0) as [->|Hne]; cbn [negb]; pcs.
  - run. run. apply follows_bind. eapply follows_mono; [eapply (print_entries_code P2 lba2_buf)|].
    { xgets. u64s. lia. } { by xgets. } { by xgets. } { by xgets. } { xgets. u64s. eapply stack_le; [exact Hs3 | lia]. }
    { unfold DRAM_BASE; lia. } { lia. } { intros i Hi [_ Hn]. apply Hn. unfold in_range. lia. } { done. }
    intros [] c2 h2 Ha2 (x2 & w2 & -> & Hk2 & Hx2'). tidy Hk2. tidy Ha2.
    apply follows_ret; [done|]. apply HN; [| xgets; u64s; lia | xgets; u64s; lia | done].
    eapply (framed_kept P2 (sp - 592 + -512)); [apply (Hf2 x0); by intros | exact Hk2 | lia | done |].
    intros q Hq; intros. saved_at q Hq.
  - apply follows_bind. eapply failed_entries.
    { apply Hf2. intros q Hq; intros. saved_at q Hq. } { done. } { xgets. u64s. eapply stack_le; [exact Hs3 | lia]. }
    { xgets. u64s. lia. } { done. } { xgets. apply u64_u64. }
    intros c2 x2 w2 Ha2 Hret H10. apply follows_done; [done|]. apply follows_done; [done|]. by apply HS.
Qed.

(** ** The table's header *)

Lemma header_phase n c x1 w1 (Q : option Z -> world D -> hart D -> Prop) :
  framed x1 w1 -> xget x1 2 = sp - 80 -> agree P0 c w1 -> blank lba1_buf 512 c -> blank lba2_buf 512 c ->
  (forall c' x' w', framed x' w' -> xget x' 2 = sp - 1104 -> xget x' 21 = sp - 1104 -> agree P2 c' w' ->
     Q None c' (Hart 0x109f4 x' csr w')) ->
  (forall c' h', returned P0 (Hart 0x107b0 x csr w) h' -> xget (h_x h') 10 = u64 (-2) -> Q (Some (-2)) c' h') ->
  follows reset_vec_64 P0
    ((print_uart ("sd initialized!" +:+ crlf) ;;
      res ← sd_copy lba1_buf 1 1;
      if negb (res =? 0) then report_failure res ;; mret (Some (-2)) else
      print_pth lba1_buf ;;
      lba ← pth_u64 10 lba1_buf;
      res ← sd_copy lba2_buf (u32 lba) 1;
      if negb (res =? 0) then report_failure res ;; mret (Some (-2)) else
      for_in (below 4) (fun i => print_entry lba2_buf i) ;;
      mret None) n c) (Hart 0x107fc x1 csr w1) Q.
Proof.
  intros Hf Hx2 Hag Hb1 Hb2 HN HS. pose proof stack_header as Hs3.
  assert (Hs1 : forall a, a = sp - 592 -> stack_ok P1 48 a) by (intros a ->; eapply stack_le; [exact Hs3 | lia]).
  replace (sp - 592) with (sp - 80 + -512) in Hs3 by lia.
  pose proof (proj1 Hst). pose proof (xget_range x 2). rewrite Hsp in *. unfold DRAM_BASE in *.
  assert (Hs2 : stack_ok P0 48 (sp - 80)).
  { split; [unfold DRAM_BASE; lia|]. intros a Ha. apply (proj2 Hst); lia. }
  run. run. run. apply follows_bind. keep_blank lba1_buf (keeps_print_uart (A := fun k => ~ in_range lba1_buf 512 k)).
  keep_blank lba2_buf (keeps_print_uart (A := fun k => ~ in_range lba2_buf 512 k)).
  call (print_uart_code P0 ("sd initialized!" +:+ crlf)). back_void. intros Hb2' Hb1'.
  assert (Hag1 : agree P1 c0 w0) by (by apply agree_without).
  apply (follows_weaken _ P0 P1); [by intros a []|].
  run. run. run. run. run. apply follows_bind.
  eapply (follows_keep _ _ (blank lba2_buf 512)); [|exact Hb2'|].
  { apply (keeps_sd_copy (A := fun k => ~ in_range lba2_buf 512 k)).
    - intros i Hi. apply Hff, Hi.
    - intros i Hi. unfold in_range. lia. }
  call (sd_copy_code P1 lba1_buf 1 1).
  { unfold DRAM_BASE; lia. } { lia. } { done. } { intros i Hi [_ Hn]. apply Hn. unfold in_range. lia. } { intros i Hi. apply Hff, Hi. }
  { split_and!; [divlia | lia | done | done]. }
  back r Hr. intros Hb3. destruct Hr as [Hr Br]. run. run. run; [reflexivity|].
  change (holds_cond Beq (u64 r) 0) with (u64 r =? 0). rewrite code_zero by lia.
  assert (Hf0 : framed x0 w0).
  { eapply (framed_kept P0 (sp - 80)); [exact Hf | exact Hk | lia | by intros a [[]] |]. intros q Hq; intros. saved_at q Hq. }
  assert (Hf2 : framed (xset (xset x2 18 (sp - 80 + -512)) 9 (u64 r)) w2).
  { eapply (framed_kept P1 (sp - 80 + -512)); [exact Hf0 | exact Hk0 | lia | by intros a [] |]. intros q Hq; intros. saved_at q Hq. }
  destruct (Z.eqb_spec r 0) as [->|Hne]; cbn [negb]; pcs.
  - apply follows_bind. eapply (follows_keep _ _ (blank lba2_buf 512));
      [apply (keeps_print_pth (A := fun k => ~ in_range lba2_buf 512 k)) | exact Hb3 |].
    eapply follows_mono; [eapply (print_pth_code P1 lba1_buf)|].
    { xgets. u64s. lia. } { apply Hs1; lia. }
    { lia. } { intros i Hi [_ Hn]. apply Hn. unfold in_range. lia. } { done. }
    intros [] c3 h3 Ha3 (x3 & w3 & -> & Hk3 & Hx3) Hb4. tidy Ha3.
    eapply entries_phase; [| xgets; u64s; lia | xgets; u64s; lia | exact Ha3 | exact Hb4 | exact HN | exact HS].
    eapply (framed_kept P1 lba1_buf); [exact Hf2 | exact Hk3 | lia | by intros a [] |].
    intros q Hq; intros. saved_at q Hq.
  - apply follows_bind. eapply failed_header; [exact Hf2 | by intros a [] | | | done | by xgets; rewrite u64_u64|].
    { xgets. u64s. eapply stack_le; [exact Hs3 | lia]. } { xgets. u64s. lia. }
    intros c2 x3 w3 Ha2 Hret H10. apply follows_done; [done|]. apply follows_done; [done|]. by apply HS.
Qed.

(** ** The search up to the copy of the image *)

Lemma tables_code n c :
  agree P0 c w -> blank lba1_buf 512 c -> blank lba2_buf 512 c -> xget x 10 = dest ->
  follows reset_vec_64 P0 (load_tables n c) (Hart 0x107b0 x csr w) (fun r c' h' =>
    match r with
    | Some v => returned P0 (Hart 0x107b0 x csr w) h' /\ xget (h_x h') 10 = u64 v /\ -2 <= v <= 0
    | None => exists x' w', h' = Hart 0x109f4 x' csr w' /\ framed x' w' /\ xget x' 2 = sp - 1104
                /\ xget x' 21 = sp - 1104 /\ agree P2 c' w'
    end).
Proof.
  intros Hag Hb1 Hb2 H10. pose proof (proj1 Hst). pose proof (xget_range x 2). rewrite Hsp in *. unfold DRAM_BASE in *.
  assert (Hs0 : stack_ok P0 1424 sp) by done.
  unfold load_tables. do 14 run. apply follows_bind.
  keep_blank lba1_buf (keeps_init_sd (A := fun k => ~ in_range lba1_buf 512 k)).
  keep_blank lba2_buf (keeps_init_sd (A := fun k => ~ in_range lba2_buf 512 k)).
  call (init_sd_code P0). back r Hr. intros Hb2' Hb1'. destruct Hr as [Hr Br].
  assert (Hf : forall x2, (forall q, callee_saved q = true -> q <> 9 -> xget x2 q = xget x0 q) -> framed x2 w0).
  { intros x2 Hx2. split.
    - unfold gpt_slots, gpt_saved. repeat (apply Forall2_cons; split; [slots|]). by apply Forall2_nil.
    - assert (Hkw : kept P0 sp w w0) by keeps_tac. exact Hkw.
    - rewrite Hx2 by done. xgets. by u64s.
    - rewrite Hx2 by done. xgets. rewrite u64_u64, <- H10. apply u64_xget.
    - intros q Hq; intros. rewrite Hx2 by done. saved_at q Hq. }
  run; [reflexivity|]. change (holds_cond Beq (u64 r) 0) with (u64 r =? 0). rewrite code_zero by lia.
  destruct (Z.eqb_spec r 0) as [->|Hne]; cbn [negb]; pcs.
  - eapply header_phase; [by apply Hf | xgets; u64s; lia | done | done | done | |].
    + intros c' x' w' Hf' H2' H21' Ha'. eexists _, _. by split_and!.
    + intros c' h' Hret H10'. by split_and!.
  - run. run. run. apply follows_bind. call (print_uart_code P0 ("could not initialize sd... exiting" +:+ crlf)). back_void.
    run. apply follows_then, follows_ret; [done|]. eapply (gpt_end P0); [| by intros a [[]] | by xgets |].
    { eapply (framed_kept P0 (sp + -80)); [by apply (Hf x0) | exact Hk0 | lia | by intros a [[]] |].
      intros q Hq; intros. saved_at q Hq. }
    intros x'' Hret H10'. apply follows_done; [done|]. split_and!; [exact Hret | cbn [h_x]; by rewrite H10' | done | done].
Qed.

(** ** The copy of the image *)

(** The image the table [c] holds names stays off the private stack. *)
Definition image_room (c : world D) : Prop :=
  forall bf bl, slot c (lba2_buf + 32) bf -> length bf = 8%nat -> slot c (lba2_buf + 40) bl -> length bl = 8%nat ->
  forall i, 0 <= i < 512 * Z.max 1 (u32 (u64 (u64 (le_val bl - le_val bf) + 1))) -> ~ P0 (dest + i).

Lemma image_phase n c x1 w1 :
  framed x1 w1 -> xget x1 2 = sp - 1104 -> xget x1 21 = sp - 1104 -> agree P2 c w1 -> image_room c ->
  DRAM_BASE <= dest -> dest + 2 ^ 42 < 2 ^ 64 ->
  follows reset_vec_64 P0 (load_image dest n c) (Hart 0x109f4 x1 csr w1) (fun r c' h' =>
    returned P0 (Hart 0x107b0 x csr w) h' /\ xget (h_x h') 10 = u64 r /\ -2 <= r <= 0).
Proof.
  intros Hf Hx2 Hx21 Hag Hroom Hd Hd'. pose proof stack_entries as Hs3.
  pose proof (proj1 Hst). pose proof (xget_range x 2). rewrite Hsp in *. unfold DRAM_BASE in *.
  apply (follows_weaken _ P0 P2); [by intros a [[]]|]. unfold load_image, ent_u64. eval_offsets.
  pose proof (fr_dest _ _ Hf) as Hx20.
  assert (Hnp : forall k, in_range lba2_buf 512 k -> ~ P2 k) by (intros k Hk [_ Hn]; done).
  run. run. run. apply follows_bind.
  eapply (follows_keep _ _ (unchanged (fun _ => False) (w_mem c))); [apply (keeps_print_uart (A := fun _ => False)) | done |].
  call (print_uart_code P2 "copying boot image "). back_void. intros Hu.
  apply follows_load_le; [done|]. intros bf Hbf Hlf. apply follows_load_le; [done|]. intros bl Hbl Hll.
  apply follows_load_le; [done|]. intros bf' Hbf' Hlf'.
  assert (bf' = bf) as ->.
  { unfold slot in Hbf, Hbf'. rewrite Hlf' in Hbf'. rewrite Hlf in Hbf. congruence. }
  assert (Hrm := Hroom bf bl ltac:(eapply slot_ext; [exact Hbf | intros k _; symmetry; apply Hu; tauto]) Hlf
    ltac:(eapply slot_ext; [exact Hbl | intros k _; symmetry; apply Hu; tauto]) Hll).
  assert (Hbf1 : slot w0 (sp - 1104 + 32) bf).
  { rewrite <- H2. eapply slot_agree; [exact Ha | exact Hbf |]. intros k Hk'. apply Hnp. rewrite Hlf in Hk'. unfold in_range. lia. }
  assert (Hbl1 : slot w0 (sp - 1104 + 40) bl).
  { rewrite <- H2. eapply slot_agree; [exact Ha | exact Hbl |]. intros k Hk'. apply Hnp. rewrite Hll in Hk'. unfold in_range. lia. }
  run by (eapply load_slot; [exact Hbl1 | exact Hll | unfold DRAM_BASE; lia
    | apply in_rom_dram; [vm_compute; reflexivity | unfold DRAM_BASE; lia]]).
  run by (eapply (load_slot _ _ _ (take 4 bf)); [apply slot_take; [exact Hbf1 | by rewrite Hlf; lia] | by rewrite length_take, Hlf | unfold DRAM_BASE; lia
    | apply in_rom_dram; [vm_compute; reflexivity | unfold DRAM_BASE; lia]]).
  set (blocks := u32 (u64 (u64 (le_val bl - le_val bf) + 1))) in *.
  assert (Hbk : 0 <= blocks < 2 ^ 32) by (apply Z.mod_pos_bound; lia).
  run. run. run. run. apply follows_bind. call (sd_copy_code P2 dest (u32 (le_val bf)) blocks).
  { unfold DRAM_BASE; lia. } { lia. } { done. } { intros i Hi [[Hp _] _]. by apply (Hrm i). } { exact Hff. }
  { split_and!; [divlia | done | |].
    - rewrite u32_u64, u32_sextw, le_val_take4 by lia. symmetry. apply Zmod_mod.
    - rewrite blocks_word with (f := le_val bf) by (apply le_val_take4; lia). done. }
  back r Hr. destruct Hr as [Hr Br]. run. run; [reflexivity|].
  change (holds_cond Beq (u64 r) 0) with (u64 r =? 0). rewrite code_zero by lia.
  assert (Hf2 : framed (xset x2 9 (u64 r)) w2).
  { eapply (framed_kept P2 (sp - 1104)); [exact Hf | eapply kept_trans; [exact Hk | exact Hk0] | lia | done |].
    intros q Hq; intros. saved_at q Hq. }
  destruct (Z.eqb_spec r 0) as [->|Hne]; cbn [negb]; pcs.
  - run. run. run. apply follows_bind. call (print_uart_code P2 (" done!" +:+ crlf)). back_void.
    run. apply follows_then, follows_ret; [done|]. eapply (gpt_end P2); [| done | by xgets |].
    { eapply (framed_kept P2 (sp - 1104)); [exact Hf2 | exact Hk1 | lia | done |]. intros q Hq; intros. saved_at q Hq. }
    intros x'' Hret H10'. apply follows_done; [done|]. split_and!; [exact Hret | cbn [h_x]; by rewrite H10' | done | done].
  - apply follows_bind. eapply failed_image; [exact Hf2 | done | | | done | by xgets; rewrite u64_u64|].
    { xgets. u64s. eapply stack_le; [exact Hs3 | lia]. } { xgets. u64s. lia. }
    intros c2 x3 w3 Ha2 Hret H10. apply follows_done; [done|]. apply follows_done; [done|]. by split_and!.
Qed.

(** ** The whole search *)

Lemma gpt_code size n c :
  agree P0 c w -> blank lba1_buf 512 c -> blank lba2_buf 512 c -> xget x 10 = dest ->
  DRAM_BASE <= dest -> dest + 2 ^ 42 < 2 ^ 64 ->
  (forall c', load_tables n c = (Val None, c') -> image_room c') ->
  follows reset_vec_64 P0 (gpt_find_boot_partition dest size n c) (Hart 0x107b0 x csr w) (fun r c' h' =>
    returned P0 (Hart 0x107b0 x csr w) h' /\ xget (h_x h') 10 = u64 r /\ -2 <= r <= 0).
Proof.
  intros Hag Hb1 Hb2 H10 Hd Hd' Hroom. rewrite gpt_split. apply follows_bind_eq.
  eapply follows_mono; [by apply tables_code|]. intros [v|] c' h' Ha Hp E; cbv beta iota in Hp |- *.
  - by apply follows_done.
  - destruct Hp as (x' & w' & -> & Hf & H2' & H21 & Ha'). apply image_phase; auto.
Qed.
End search.
