(* ===== verification/RomBoot.v ===== *)
(** The ROM image of the FPGA boot loader as a whole: [main] of [main.c], and a hart from its reset
    vector ([startup.S]) to the jump into the image. *)
From stdpp Require Import relations.
From S2P Require Import Prelude Machine Uart Board Spi Crc Sd Gpt Boot Card Smp Startup Riscv Rom Rom64 RomUart RomSpi RomSd RomCopy RomGpt.

(** [startup.S] puts the stack of the boot hart here. *)
Definition STACK_TOP : Z := 0x84000000.

(** Where the compiler has put the arrays: in the frames of [gpt_find_boot_partition] and [sd_copy],
    below the 16 bytes of [main]; and the device tree, behind the code. *)
Definition rom_layout : Layout := {|
  lba1_buf := STACK_TOP - 16 - 592;
  lba2_buf := STACK_TOP - 16 - 1104;
  ff_buf := STACK_TOP - 16 - 1104 - 208;
  dtb_addr := 0x10d00
|}.
#[local] Existing Instance rom_layout.

(** The boot hart's stack, as deep as it gets. *)
Definition stack_depth : Z := 1440.
Definition stack_part (a : Z) : Prop := in_range (STACK_TOP - stack_depth) stack_depth a.

(** Runs an instruction on a control register. *)
Ltac run_csr :=
  pcs;
  lazymatch goal with
  | |- follows ?img ?priv ?r (Hart ?pc ?x ?c ?w) ?Q =>
      let f := eval vm_compute in (fetch img pc) in
      lazymatch f with
      | Some (?i, ?len) => eapply (follows_run img priv pc i len); [fetched f | reflexivity | pcs]
      end
  end.

Section boot.
Context `{!Bus D}.

(** [main] up to the copy of the image. *)
Definition main_tables : M D (option Z) :=
  init_uart 50000000 115200 ;;
  print_uart ("Hello World!" +:+ crlf) ;;
  load_tables.

(** The image ends below the stack. *)
Definition fits (c : world D) : Prop :=
  image_room stack_part image_base c.

Lemma main_code n c x csr w :
  xget x 2 = STACK_TOP -> xget x 1 mod 2 = 0 -> agree stack_part c w ->
  (forall a, stack_part a -> w_mem c !! a = None) ->
  (forall c', main_tables n c = (Val None, c') -> fits c') ->
  follows reset_vec_64 stack_part (main n c) (Hart 0x10b1e x csr w) (fun e _ h' =>
    match e with Jump pc a1 => h_pc h' = pc /\ xget (h_x h') 10 = 0 /\ xget (h_x h') 11 = a1 end).
Proof.
  intros H2 Hra Hag Hbl Hfits. unfold STACK_TOP in H2.
  assert (Hs0 : stack_ok stack_part 16 0x84000000).
  { split; [done|]. intros a Ha. unfold stack_part, in_range, stack_depth, STACK_TOP. lia. }
  assert (Hs1 : stack_ok stack_part 1424 0x83fffff0).
  { split; [done|]. intros a Ha. unfold stack_part, in_range, stack_depth, STACK_TOP. lia. }
  assert (Hb : forall b, 0x83fffa60 <= b -> b + 512 <= 0x84000000 -> blank b 512 c).
  { intros b Hb1 Hb2 a Ha. apply Hbl. unfold stack_part, in_range, stack_depth, STACK_TOP in *. lia. }
  assert (Hbl1 : blank lba1_buf 512 c) by by apply Hb. assert (Hbl2 : blank lba2_buf 512 c) by by apply Hb.
  unfold main. do 7 run. apply follows_bind_eq.
  keep_blank lba1_buf (cl_init_uart (A := fun k => ~ in_range lba1_buf 512 k)).
  keep_blank lba2_buf (cl_init_uart (A := fun k => ~ in_range lba2_buf 512 k)).
  call (init_uart_code stack_part 50000000 115200).
  { done. } back_void. intros Hb2a Hb1a E1. run. run. run. apply follows_bind_eq.
  keep_blank lba1_buf (keeps_print_uart (A := fun k => ~ in_range lba1_buf 512 k)).
  keep_blank lba2_buf (keeps_print_uart (A := fun k => ~ in_range lba2_buf 512 k)).
  call (print_uart_code stack_part ("Hello World!" +:+ crlf)). back_void. intros Hb2b Hb1b E2.
  run. run. run. run. apply follows_bind. eapply follows_mono.
  { eapply (gpt_code stack_part _ _ _ 0x83fffff0 image_base).
    - by xgets.
    - exact Hs1.
    - done.
    - by xgets.
    - done.
    - done.
    - intros i Hi. unfold without, stack_part, in_range, stack_depth. cbn [ff_buf lba1_buf lba2_buf rom_layout]. unfold STACK_TOP. lia.
    - done.
    - done.
    - done.
    - by xgets.
    - done.
    - done.
    - intros c' E3. apply Hfits. unfold main_tables, mbind, M_bind. by rewrite E1, E2. }
  intros res c' [pc' x' csr' w'] Ha' ((Hpc & Hsv & Hcsr & _) & H10 & Br). cbn [h_pc h_x h_csr h_w] in *.
  subst csr'. revert Hpc. xgets. intros ->. rewrite u64_small by lia.
  run; [reflexivity|]. change (holds_cond Bne (u64 res) 0) with (negb (u64 res =? 0)). rewrite code_zero by lia.
  destruct (Z.eqb_spec res 0) as [->|]; cbn [negb]; pcs.
  - run. run. run. run. run. apply follows_ret; [done|]. cbn [h_pc h_x]. split_and!; [done | by xgets..].
  - rewrite spin_never. apply reach_here. by split.
Qed.

(** * The harts that wait *)

(** A register reads zero. *)
Lemma lw_zero v : 0 <= v < 2 ^ 32 -> (u64 (sextw v) =? 0) = (v =? 0).
Proof.
  intros Hv. destruct (Z.eqb_spec v 0) as [->|Hne]; [done|]. apply Z.eqb_neq. intros E. apply Hne.
  rewrite <- (u32_small v Hv), <- (u32_sextw v), <- (u32_u64 (sextw v)), E. done.
Qed.

Lemma pending_bit z : holds_cond Beq (Z.land (u64 z) 8) 0 = negb (Z.testbit z 3).
Proof.
  cbn [holds_cond]. change 8 with (2 ^ 3). rewrite land_bit by done. unfold u64. rewrite Z.mod_pow2_bits_low by lia.
  by destruct (Z.testbit z 3).
Qed.

(** The loop at 0x10060, at register [j]. *)
Lemma poll_code j n c x csr w :
  xget x 9 = msip_reg j -> 0 <= j < 256 -> agree stack_part c w ->
  follows reset_vec_64 stack_part (wait_while (v ← mmio_ld W32 (msip_reg j); mret (negb (v =? 0))) n c)
    (Hart 0x10060 x csr w) (fun _ c' h' => exists x' w',
      h' = Hart 0x10068 x' csr w' /\ agree stack_part c' w' /\ forall r, r <> 18 -> xget x' r = xget x r).
Proof.
  intros H9 Hj Hag. unfold msip_reg, CLINT_CTRL_ADDR in *.
  eapply (follows_wait_while _ _ (fun c' h' => exists x' w',
    h' = Hart 0x10060 x' csr w' /\ agree stack_part c' w' /\ forall r, r <> 18 -> xget x' r = xget x r)).
  - by intros c1 h1 (x1 & w1 & -> & Ha & _).
  - clear c Hag. intros m c1 h1 (x1 & w1 & -> & Ha & Hx). pose proof (Hx 9 ltac:(done)) as H9'. rewrite H9 in H9'.
    apply follows_bind. pcs. 
    eapply (follows_ld reset_vec_64 stack_part Lw (0x2000000 + 4 * j) 0x10060 18 9 0 4 x1 csr w1 m c1).
    + vm_compute; reflexivity.
    + rewrite H9', Z.add_0_r. apply u64_small. lia.
    + unfold in_rom. apply andb_true_iff. split; [apply negb_true_iff, andb_false_iff; right; apply Z.ltb_ge; vm_compute (Z.of_nat _); unfold ROM_BASE; lia | apply Z.ltb_lt; unfold DRAM_BASE; lia].
    + done.
    + intros v c' w' Hv Ha' _ _. cbn [load_width bits extend] in *.
      run; [reflexivity|]. change (holds_cond Bne (u64 (sextw v)) 0) with (negb (u64 (sextw v) =? 0)).
      rewrite lw_zero by done. destruct (v =? 0); cbn [negb]; pcs; (apply follows_ret; [done|]);
        (eexists _, _; split_and!; [reflexivity | done | intros r Hr; rewrite xget_set_ne by done; by apply Hx]).
  - by exists x, w.
Qed.

(** [smp_resume] from label 42 on, at 0x1003c. *)
Lemma join_code n c x csr w :
  0 <= u64 (csr 0xf14) < 256 -> agree stack_part c w ->
  follows reset_vec_64 stack_part (smp_join (u64 (csr 0xf14)) (Z.testbit (csr 0x344) 3) n c) (Hart 0x1003c x csr w)
    (fun _ c' h' => exists x' w', h' = Hart 0x10078 x' csr w' /\ agree stack_part c' w').
Proof.
  intros Hid Hag. unfold smp_join. apply follows_bind.
  eapply follows_mono.
  { eapply (follows_wait_while _ _ (fun c' h' => exists x', h' = Hart 0x1003c x' csr w /\ agree stack_part c' w)
      (mret _) n c _ (fun _ c' h' => exists x', h' = Hart 0x1004c x' csr w /\ agree stack_part c' w)).
    - by intros c1 h1 (x1 & -> & Ha).
    - intros m c1 h1 (x1 & -> & Ha). run_csr. run_csr. run. run; [reflexivity|].
      replace (holds_cond Beq _ _) with (negb (Z.testbit (csr 0x344) 3)) by (symmetry; apply pending_bit).
      change (if 0 =? 0 then csr else _) with csr.
      destruct (Z.testbit (csr 0x344) 3); cbn [negb]; pcs; (apply follows_ret; [done|]); by eexists.
    - by exists x. }
  intros [] c1 h1 _ (x1 & -> & Ha1). run. run_csr. run. run.
  change (if 0 =? 0 then csr else _) with csr. apply follows_bind.
  eapply (follows_st reset_vec_64 stack_part W32 (msip_reg (u64 (csr 0xf14))) 0 0x1005c 0 18 0 4).
  { vm_compute; reflexivity. }
  { xgets. rewrite Z.shiftl_mul_pow2 by lia. unfold msip_reg, CLINT_CTRL_ADDR. pose proof (u64_range (csr 0xf14)); generalize dependent (u64 (csr 0xf14)); intros i Hid _. change (2 ^ 2) with 4. rewrite Z.add_0_r, !u64_u64, (u64_small (i * 4)), u64_small by lia. lia. }
  { apply Z.ltb_lt. unfold msip_reg, CLINT_CTRL_ADDR, DRAM_BASE. lia. }
  { done. }
  { done. }
  intros c2 w2 Ha2 _ _.
  eapply (follows_for_in _ _ (fun l c' h' => exists k x' w', l = seqZ k (256 - k) /\ 0 <= k <= 256
    /\ h' = Hart (if l is [] then 0x10078 else 0x10060) x' csr w' /\ agree stack_part c' w' /\ xget x' 9 = msip_reg k)).
  - intros j l c3 h3 (k & x3 & w3 & Hl & Hk & -> & Ha3 & H9).
    destruct (decide (k = 256)) as [->|]; [done|]. rewrite seqZ_cons in Hl by lia. injection Hl as -> ->.
    cbn beta iota. eapply follows_then, follows_mono; [apply (poll_code k); [done | lia | done]|].
    intros [] c4 h4 _ (x4 & w4 & -> & Ha4 & Hx4). pose proof (Hx4 9 ltac:(done)) as H9'. rewrite H9 in H9'.
    unfold msip_reg, CLINT_CTRL_ADDR in H9'.
    run. run. run. run; [reflexivity|].
    replace (holds_cond Blt _ _) with (k + 1 <? 256).
    2: { cbn [holds_cond]. rewrite !s64_small by lia. destruct (Z.ltb_spec (k + 1) 256), (Z.ltb_spec (33554432 + 4 * k + 4) 33555456); lia. }
    replace (Z.succ k) with (k + 1) by lia. replace (Z.pred (256 - k)) with (256 - (k + 1)) by lia.
    assert (E : (if k + 1 <? 256 then 65652 + -20 else 65652 + 4) = if seqZ (k + 1) (256 - (k + 1)) is [] then 65656 else 65632).
    { destruct (Z.ltb_spec (k + 1) 256); [rewrite seqZ_cons by lia; reflexivity | by rewrite seqZ_nil by lia]. }
    rewrite E. apply follows_done; [done|]. exists (k + 1). eexists _, _.
    split_and!; [done | lia.. | reflexivity | done | xgets; rewrite u64_small by lia; unfold msip_reg, CLINT_CTRL_ADDR; lia].
  - intros c3 h3 (k & x3 & w3 & Hl & Hk & -> & Ha3 & _). cbn [h_w]. split; [done|]. by eexists _, _.
  - exists 0. eexists _, _. split_and!; [done | lia.. | reflexivity | done | by xgets].
Qed.

(** * From reset *)

(** A hart at the first instruction, with any registers. *)
Lemma boot_code n d m tr x csr :
  0 <= u64 (csr 0xf14) < 256 ->
  (forall c', main_tables n (World d ∅ tr) = (Val None, c') -> fits c') ->
  follows reset_vec_64 stack_part (prog_start (u64 (csr 0xf14)) (Z.testbit (csr 0x344) 3) n (World d ∅ tr))
    (Hart ROM_BASE x csr (World d m tr)) (fun e _ h' =>
    match e with Jump pc a1 => h_pc h' = pc /\ xget (h_x h') 10 = u64 (csr 0xf14) /\ xget (h_x h') 11 = a1 end).
Proof.
  intros Hid Hfits. unfold ROM_BASE, prog_start. change (Z.of_nat NONSMP_HART) with 0.
  run. run_csr. run. run_csr. change (if 0 =? 0 then upd csr _ _ else _) with (upd csr 0x304 (xget (xset x 18 8) 18)).
  set (csr1 := upd csr _ _). assert (E1 : csr1 0xf14 = csr 0xf14) by reflexivity. assert (E2 : csr1 0x344 = csr 0x344) by reflexivity.
  rewrite <- E1, <- E2 in *. clearbody csr1.
  run; [reflexivity|].
  replace (holds_cond Bne _ _) with (negb (u64 (csr1 0xf14) =? 0)) by (cbn [holds_cond]; by rewrite Z.eqb_sym).
  destruct (Z.eqb_spec (u64 (csr1 0xf14)) 0) as [E|E]; cbn [negb]; pcs.
  - run. run. run. rewrite E. apply main_code; [by xgets | by xgets | by split | done | done].
  - apply follows_bind. eapply follows_mono; [apply join_code; [done | by split]|].
    intros [] c1 h1 _ (x1 & w1 & -> & Ha1). run_csr. run. run. run. run. run.
    apply follows_ret; [done|]. cbn [h_pc h_x]. split_and!; [done | by xgets..].
Qed.
End boot.
