(* ===== verification/RomTheorems.v ===== *)
(** What the ROM image of the FPGA boot loader does: the properties of its code, each with an
    instance on the board and the card of [Sim]. *)
From stdpp Require Import relations.
From S2P Require Import Prelude Machine Uart Board Spi Crc Sd Gpt Boot Card Sim FpgaTheorems Smp Startup Riscv Rom Rom64 RomUart RomSpi RomSd RomCopy RomGpt RomBoot.
#[local] Existing Instance rom_layout.

(** * With a card *)

Section card.
Context {D C : Type} `{!Bus D, !SpiSlave C, !SpiController D C, !Console D, !SdCard C}.

Lemma rom_apart_1 : apart lba1_buf 512.
Proof. by right. Qed.

Lemma rom_apart_2 : apart lba2_buf 512.
Proof. by right. Qed.

(** What the search has in memory when it comes to the image. *)
Lemma awp_main_tables s h e :
  powered (b_card s) -> bootable (b_card s) h e ->
  awp at_board main_tables s (fun r s' =>
    r = None /\ exists r2, read_bytes (b_mem s') lba2_buf 512 = Some (entry_bytes e ++ r2)).
Proof.
  intros Hp Hb. destruct (card_tables _ h e Hp Hb) as (c1 & r1 & c2 & r2 & c3 & Hin & Hrd1 & Hrd2 & _).
  set (hb := pth_bytes h ++ r1) in *. set (es := entry_bytes e ++ r2) in *.
  assert (Hof : pth_of hb = h) by (apply pth_of_bytes, Hb). clearbody hb.
  assert (Hbs : Forall is_byte es) by (by eapply reading_bytes).
  assert (Hl : length hb = 512%nat /\ length es = 512%nat).
  { pose proof (reading_length _ _ _ _ _ Hrd1) as Hl1. pose proof (reading_length _ _ _ _ _ Hrd2) as Hl2. lia. }
  destruct Hl as [Hl1 Hl2].
  unfold main_tables. wp_seq. eapply awp_mono; [by apply awp_init_uart|].
  intros _ s1 ->. set (s1 := uh_set _ s).
  assert (Hr1 : uart_ready s1) by (unfold uart_ready, s1; by rewrite uh_view_set).
  print_step. set (s2 := put _ s1). assert (Hr : uart_ready s2) by by apply ready_put.
  unfold load_tables. wp_seq. eapply awp_mono; [by apply awp_init_sd|]. intros r s3 [-> Hm].
  assert (He : ended (b_mem s2) c1 (set_on true s2) s3) by (destruct Hm as [out ->]; exists out; by destruct s2).
  cbn [negb Z.eqb]. wp_seq.
  eapply awp_mono; [eapply stage_text; [apply sends_print_uart; literal | exact He | done]|].
  intros [] s4 He4. wp_seq.
  eapply awp_mono; [eapply stage_copy; [exact He4 | done | done | eapply one_block_apart; [apply rom_apart_1 | exact Hrd1] | exact Hrd1]|].
  intros r s5 [-> He5]. cbn [negb Z.eqb].
  pose proof (read_write_same lba1_buf hb (ff_filled (b_mem s2))) as Hrh. rewrite Hl1 in Hrh.
  wp_seq. eapply awp_mono; [exact (stage_print _ _ _ _ _ _ (prints_pth lba1_buf hb) He5 Hr Hrh)|].
  intros [] s6 He6. destruct (ended_state _ _ _ _ He6) as (_ & _ & Em & _).
  unfold pth_u64. wp_seq.
  eapply awp_load_le; [cbn [mh_mem board_mem]; rewrite Em; apply (read_bytes_sub _ _ _ _ _ _ Hrh); cbn; lia|]. wp_seq.
  change (le_val (take 8 (drop (pth_off 10) hb))) with (partition_entries_lba (pth_of hb)). rewrite Hof.
  rewrite u32_small by (destruct Hb as [? _ _ ? _ _ _]; lia).
  eapply awp_mono; [eapply stage_copy; [exact He6 | done | done | eapply one_block_apart; [apply rom_apart_2 | exact Hrd2] | exact Hrd2]|].
  intros r s7 [-> He7]. cbn [negb Z.eqb].
  match type of He7 with ended ?m _ _ _ => assert (Hre : read_bytes m lba2_buf 512 = Some es)
    by (rewrite <- Hl2; apply read_write_same) end.
  wp_seq. eapply awp_mono.
  { exact (stage_print (a := lba2_buf) (bs := es) (n := 512) _ _ _ _ _ _ (prints_entries _ _ Hbs Hl2) He7 Hr Hre). }
  intros [] s8 He8. apply awp_ret. split; [done|]. exists r2. destruct (ended_state _ _ _ _ He8) as (_ & _ & -> & _). exact Hre.
Qed.

(** The entry, as it lies in memory. *)
Lemma entry_fields (c : world D) e r2 bf bl :
  entry_wf e -> read_bytes (w_mem c) lba2_buf 512 = Some (entry_bytes e ++ r2) ->
  slot c (lba2_buf + 32) bf -> length bf = 8%nat -> slot c (lba2_buf + 40) bl -> length bl = 8%nat ->
  le_val bf = first_lba e /\ le_val bl = last_lba e.
Proof.
  intros He Hr Hf Hlf Hl Hll. unfold slot in Hf, Hl. rewrite Hlf in Hf. rewrite Hll in Hl.
  pose proof (read_bytes_sub _ _ _ _ 32 8 Hr ltac:(lia)) as H1. pose proof (read_bytes_sub _ _ _ _ 40 8 Hr ltac:(lia)) as H2.
  change (Z.of_nat 32) with 32 in H1. change (Z.of_nat 40) with 40 in H2.
  rewrite Hf in H1. rewrite Hl in H2. injection H1 as ->. injection H2 as ->.
  pose proof (entry_of_bytes e r2 He) as E. split; [exact (f_equal first_lba E) | exact (f_equal last_lba E)].
Qed.

(** The bytes between the start of memory and the stack. *)
Definition image_limit : Z := STACK_TOP - stack_depth - image_base.

Lemma tables_fit s h e c :
  powered (b_card s) -> bootable (b_card s) h e -> 512 * (last_lba e - first_lba e + 1) <= image_limit ->
  at_board s c -> exists n0, forall n, (n0 <= n)%nat -> forall c', main_tables n c = (Val None, c') -> fits c'.
Proof.
  intros Hp Hb Hlim Hc. destruct (awp_main_tables s h e Hp Hb c Hc) as (r & w' & [n0 Hrun] & s' & Hw' & -> & r2 & Hr2).
  exists n0. intros n Hn c' E. rewrite Hrun in E by done. injection E as <-.
  destruct Hb as [Hcap _ _ _ _ Hew Hi]. destruct Hw' as (_ & _ & _ & Hmem & _). 
  intros bf bl Hf Hlf Hl Hll i Hi' Hpriv. rewrite <- Hmem in Hr2.
  destruct (entry_fields w' e r2 bf bl Hew Hr2 Hf Hlf Hl Hll) as [Ef El]. rewrite Ef, El in Hi'.
  rewrite (u64_small (last_lba e - first_lba e)), u64_small in Hi' by lia.
  unfold stack_part, in_range, image_limit, image_base, STACK_TOP, stack_depth in *. rewrite u32_small in Hi' by lia. lia.
Qed.

(** C2: the ROM image boots the board: from the reset vector, with any registers and any contents of
    memory, hart 0 gets to 0x80000000 with its number in [a0] and the device tree in [a1], and memory
    from there on holds exactly the first partition of the card; the devices and the rest of memory,
    the stack apart, are as the C program leaves them. The image has to end below the stack. *)
Theorem boot_rom_boots (s : board C) h e d m tr x csr :
  at_board s (World d ∅ tr) -> powered (b_card s) -> bootable (b_card s) h e ->
  512 * (last_lba e - first_lba e + 1) <= image_limit -> u64 (csr 0xf14) = 0 ->
  reach reset_vec_64 (Hart ROM_BASE x csr (World d m tr)) (fun h' =>
    h_pc h' = 0x80000000 /\ xget (h_x h') 10 = 0 /\ xget (h_x h') 11 = 0x10d00
    /\ slot (h_w h') 0x80000000 (image (b_card s) e)
    /\ exists c' s' w', loaded (image (b_card s) e) c' s s' /\ at_board s' w' /\ agree stack_part w' (h_w h')).
Proof.
  intros Hs Hp Hb Hlim Hid.
  destruct (card_boots _ _ _ Hp Hb) as (c' & Hbt & _); [unfold image_limit, STACK_TOP, stack_depth, image_base in *; lia|].
  assert (Hl : Z.of_nat (length (image (b_card s) e)) = 512 * (last_lba e - first_lba e + 1)).
  { unfold image. rewrite blocks_length by apply disk_block. destruct Hb as [_ _ _ _ _ _ Hi]. lia. }
  destruct (main_after rom_apart_1 rom_apart_2 s _ 0 (image (b_card s) e) c' Hs) as (n0 & w' & s' & Hw' & Hld & Hrun);
    [rewrite Hl; left; unfold image_limit, STACK_TOP, stack_depth, image_base in *; cbn [ff_buf rom_layout]; unfold STACK_TOP; lia | exact Hbt |].
  destruct (tables_fit s h e _ Hp Hb Hlim Hs) as [n1 Hfit].
  pose proof (boot_code (max n0 n1) d m tr x csr ltac:(lia) (Hfit (max n0 n1) ltac:(lia))) as Hf.
  rewrite Hid in Hf. unfold follows, prog_start in Hf. change (0 =? Z.of_nat NONSMP_HART) with true in Hf. cbn iota in Hf.
  rewrite Hrun in Hf by lia. cbn [fst snd Z.eqb] in Hf.
  eapply reach_mono; [exact Hf|]. intros h' (Ha & Hpc & H10 & H11).
  split_and!; [exact Hpc | exact H10 | exact H11 | | by exists c', s', w'].
  eapply slot_agree; [exact Ha | |].
  - destruct Hw' as (_ & _ & _ & Hm & _). unfold slot. rewrite Hm. apply Hld.
  - intros k Hk. rewrite Hl in Hk. unfold stack_part, in_range, image_limit, STACK_TOP, stack_depth, image_base in *. lia.
Qed.
End card.

Lemma boot_rom_boots_witness :
  reach reset_vec_64 (Hart ROM_BASE (fun r => r) (fun _ => 0) (World (Sim false [] ex_card 0 0) {[ 0x80000000 := 7 ]} []))
    (fun h' => h_pc h' = 0x80000000 /\ xget (h_x h') 10 = 0 /\ xget (h_x h') 11 = 0x10d00
      /\ slot (h_w h') 0x80000000 (image ex_card ex_entry)
      /\ exists c' s' w', loaded (image ex_card ex_entry) c' (ex_state false ex_card ∅) s'
           /\ at_board s' w' /\ agree stack_part w' (h_w h')).
Proof.
  apply (boot_rom_boots (D := sim sim_card) (ex_state false ex_card ∅) ex_header ex_entry).
  - apply ex_at.
  - by repeat split.
  - exact ex_bootable.
  - by vm_compute.
  - done.
Defined.

(** * With any device *)

Section every_device.
Context `{!Bus D}.

(** C3: the ROM image refines the source: on every device, whatever it answers, with any registers and
    any contents of memory, and for every fuel, each hart gets from the reset vector to a state in
    which the device, the trace of all accesses to it and the memory the program has written, the
    stack apart, are those the model of [startup.S] and [main.c] stops with; and when the model
    ends in a jump, the hart is at its target, with its number in [a0] and the address of the
    device tree in [a1]. For the boot hart the image has to end below the stack. *)
Theorem boot_rom_refines (d : D) m tr x csr n :
  0 <= u64 (csr 0xf14) < Z.of_nat MAX_HARTS ->
  (forall c', main_tables n (World d ∅ tr) = (Val None, c') -> fits c') ->
  let r := prog_start (u64 (csr 0xf14)) (Z.testbit (csr 0x344) 3) n (World d ∅ tr) in
  reach reset_vec_64 (Hart ROM_BASE x csr (World d m tr)) (fun h' =>
    agree stack_part (snd r) (h_w h') /\
    forall pc a1, fst r = Val (Jump pc a1) ->
      h_pc h' = pc /\ xget (h_x h') 10 = u64 (csr 0xf14) /\ xget (h_x h') 11 = a1).
Proof.
  intros Hid Hfits r. pose proof (boot_code n d m tr x csr Hid Hfits) as Hf. unfold follows in Hf. fold r in Hf.
  eapply reach_mono; [exact Hf|]. intros h' [Ha Hq]. split; [exact Ha|]. intros pc a1 E. by rewrite E in Hq.
Qed.

(** The instructions of a hart that waits for its interrupt. *)
Definition parked_pcs : list Z :=
  [0x10000; 0x10004; 0x10008; 0x1000c; 0x10010; 0x1003c; 0x10040; 0x10044; 0x10048].

(** ... and what is in its registers there. *)
Definition parked (id mip : Z) (w : world D) (h : hart D) : Prop :=
  h_w h = w /\ h_csr h 0xf14 = id /\ h_csr h 0x344 = mip /\
  let g := xget (h_x h) in
  h_pc h = 0x10000 \/ h_pc h = 0x10004 \/ h_pc h = 0x10008 \/ (h_pc h = 0x1000c /\ g 9 = 0)
  \/ (h_pc h = 0x10010 /\ g 9 = 0 /\ g 18 = u64 id) \/ h_pc h = 0x1003c \/ h_pc h = 0x10040
  \/ (h_pc h = 0x10044 /\ g 18 = u64 mip) \/ (h_pc h = 0x10048 /\ g 18 = 0).

Lemma step_at pc i len x csr (w : world D) :
  fetch reset_vec_64 pc = Some (i, len) -> step reset_vec_64 (Hart pc x csr w) = exec reset_vec_64 i len (Hart pc x csr w).
Proof. unfold step. cbn [h_pc]. by intros ->. Qed.

Ltac step_rom :=
  lazymatch goal with
  | |- context [step _ (Hart ?pc ?x ?csr ?w)] =>
      let f := eval vm_compute in (fetch reset_vec_64 pc) in
      lazymatch f with
      | Some (?i, ?len) => rewrite (step_at pc i len x csr w) by (vm_cast_no_check (eq_refl f))
      end
  end; cbn [exec]; eexists; (split; [reflexivity|]);
  cbn [h_w h_csr h_pc h_x]; (split; [done|]); (split; [done|]); (split; [done|]); xgets.

Lemma parked_step id mip (w : world D) h :
  u64 id <> 0 -> Z.testbit mip 3 = false -> parked id mip w h ->
  exists h', step reset_vec_64 h = Some h' /\ parked id mip w h'.
Proof.
  intros Hid Hmip. destruct h as [pc x csr w0]. unfold parked. cbn [h_w h_csr h_pc h_x].
  intros (-> & Hi & Hm & [->|[->|[->|[[-> H9]|[(-> & H9 & H18)|[->|[->|[[-> H18]|[-> H18]]]]]]]]]).
  - step_rom. by right; left.
  - step_rom. by do 2 right; left.
  - step_rom. by do 3 right; left.
  - step_rom. rewrite Hi. by do 4 right; left.
  - step_rom. do 5 right; left. cbn [holds_cond]. destruct (Z.eqb_spec 0 (u64 id)); [congruence | done].
  - step_rom. by do 6 right; left.
  - step_rom. rewrite Hm. by do 7 right; left.
  - step_rom. rewrite u64_land_r by done. do 8 right. split; [done|]. 
    pose proof (pending_bit mip) as E. rewrite Hmip in E. by apply Z.eqb_eq in E.
  - step_rom. by do 5 right; left.
Qed.

(** C4: a hart other than hart 0 whose software interrupt is not pending never leaves the first
    instructions of the image: it can always go on, and whatever number of instructions it has
    executed, it has not touched memory or a device. *)
Theorem boot_rom_parks x csr (w : world D) h :
  u64 (csr 0xf14) <> 0 -> Z.testbit (csr 0x344) 3 = false ->
  steps reset_vec_64 (Hart ROM_BASE x csr w) h ->
  h_w h = w /\ In (h_pc h) parked_pcs /\ exists h', step reset_vec_64 h = Some h'.
Proof.
  intros Hid Hmip Hst.
  assert (Hp : parked (csr 0xf14) (csr 0x344) w h).
  { remember (Hart ROM_BASE x csr w) as h0 eqn:E0.
    assert (H0 : parked (csr 0xf14) (csr 0x344) w h0) by (subst h0; unfold parked; cbn; auto). clear E0.
    induction Hst as [h0|h0 h1 h2 H1 _ IH]; [exact H0|]. apply IH.
    destruct (parked_step _ _ _ _ Hid Hmip H0) as (h' & E & H'). congruence. }
  destruct (parked_step _ _ _ _ Hid Hmip Hp) as (h' & Hgo & _).
  split_and!; [apply Hp | | by exists h'].
  destruct Hp as (_ & _ & _ & [E|[E|[E|[[E _]|[[E _]|[E|[E|[[E _]|[E _]]]]]]]]]); rewrite E; cbn; tauto.
Qed.
End every_device.

(** ** Instances *)

(** A hart of a board without a card. *)
Definition absent_csr (id mip : Z) : Z -> Z := fun k => if k =? 0xf14 then id else if k =? 0x344 then mip else 0.
Definition absent_hart (id mip : Z) : hart (sim unit) := Hart ROM_BASE (fun r => r) (absent_csr id mip) absent_world.

(** Hart 5, with its interrupt pending and the registers of the others at zero. *)
Lemma boot_rom_refines_witness :
  reach reset_vec_64 (absent_hart 5 8) (fun h' =>
    agree stack_part (snd (prog_start 5 true 20%nat absent_world)) (h_w h')
    /\ h_pc h' = 0x80000000 /\ xget (h_x h') 10 = 5 /\ xget (h_x h') 11 = 0x10d00).
Proof.
  eapply reach_mono.
  - apply (boot_rom_refines (D := sim unit) (Sim false [] tt 0 0) ∅ [] (fun r => r) (absent_csr 5 8) 20).
    + done.
    + intros c' E. apply (f_equal fst) in E. by vm_compute in E.
  - intros h' [Ha H]. split; [exact Ha|]. apply (H 0x80000000 0x10d00). by vm_compute.
Defined.

Lemma boot_rom_parks_witness :
  h_w (absent_hart 5 0) = absent_world /\ In (h_pc (absent_hart 5 0)) parked_pcs
  /\ exists h', step reset_vec_64 (absent_hart 5 0) = Some h'.
Proof. apply (boot_rom_parks (fun r => r) (absent_csr 5 0)); [done | done | apply rtc_refl]. Defined.
