(* ===== verification/DeviceTree.v ===== *)
(** Device trees: the sources [cv64a6.dts] and [cv32a6.dts] of the FPGA boot loader as data, the
    flattened format of the Devicetree Specification, and a reader of the blobs the boot ROMs hold.
    The numbers of the labels are a parameter: the compiler chooses them. *)
From S2P Require Import Prelude.

(** * Source *)

Inductive cell := Cell (n : Z) | Ref (label : string).

Inductive value := Cells (l : list cell) | Strs (l : list string) | Bytes (l : list Z) | Flag.

(** A node: its label, its name, its properties and its children. *)
Inductive node := Node (label : option string) (name : string) (props : list (string * value)) (kids : list node).

(** [cv64a6.dts]. *)
Definition cv64a6 : node :=
  Node None ""
    [("#address-cells", Cells [Cell 2]); ("#size-cells", Cells [Cell 2]);
     ("compatible", Strs ["eth,ariane-bare-dev"]); ("model", Strs ["eth,ariane-bare"])]
    [
    Node None "chosen"
      [("stdout-path", Strs ["/soc/uart@10000000:115200"])]
      [];
    Node None "cpus"
      [("#address-cells", Cells [Cell 1]); ("#size-cells", Cells [Cell 0]);
       ("timebase-frequency", Cells [Cell 25000000])]
      [
      Node (Some "CPU0") "cpu@0"
        [("clock-frequency", Cells [Cell 50000000]); ("device_type", Strs ["cpu"]);
         ("reg", Cells [Cell 0]); ("status", Strs ["okay"]);
         ("compatible", Strs ["eth, ariane"; "riscv"]); ("riscv,isa", Strs ["rv64imafdc"]);
         ("mmu-type", Strs ["riscv,sv39"]); ("tlb-split", Flag)]
        [
        Node (Some "CPU0_intc") "interrupt-controller"
          [("#interrupt-cells", Cells [Cell 1]); ("interrupt-controller", Flag);
           ("compatible", Strs ["riscv,cpu-intc"])]
          []]];
    Node None "memory@80000000"
      [("device_type", Strs ["memory"]);
       ("reg", Cells [Cell 0x0; Cell 0x80000000; Cell 0x0; Cell 0x40000000])]
      [];
    Node None "leds"
      [("compatible", Strs ["gpio-leds"])]
      [
      Node None "heartbeat-led"
        [("gpios", Cells [Ref "xlnx_gpio"; Cell 1; Cell 0]);
         ("linux,default-trigger", Strs ["heartbeat"]); ("retain-state-suspended", Flag)]
        []];
    Node (Some "L26") "soc"
      [("#address-cells", Cells [Cell 2]); ("#size-cells", Cells [Cell 2]);
       ("compatible", Strs ["eth,ariane-bare-soc"; "simple-bus"]); ("ranges", Flag)]
      [
      Node None "clint@2000000"
        [("compatible", Strs ["riscv,clint0"]);
         ("interrupts-extended", Cells [Ref "CPU0_intc"; Cell 3; Ref "CPU0_intc"; Cell 7]);
         ("reg", Cells [Cell 0x0; Cell 0x2000000; Cell 0x0; Cell 0xc0000]);
         ("reg-names", Strs ["control"])]
        [];
      Node (Some "PLIC0") "interrupt-controller@c000000"
        [("#address-cells", Cells [Cell 0]); ("#interrupt-cells", Cells [Cell 1]);
         ("compatible", Strs ["riscv,plic0"]); ("interrupt-controller", Flag);
         ("interrupts-extended", Cells [Ref "CPU0_intc"; Cell 11; Ref "CPU0_intc"; Cell 9]);
         ("reg", Cells [Cell 0x0; Cell 0xc000000; Cell 0x0; Cell 0x4000000]);
         ("riscv,max-priority", Cells [Cell 7]); ("riscv,ndev", Cells [Cell 30])]
        [];
      Node None "uart@10000000"
        [("compatible", Strs ["ns16550a"]);
         ("reg", Cells [Cell 0x0; Cell 0x10000000; Cell 0x0; Cell 0x1000]);
         ("clock-frequency", Cells [Cell 50000000]); ("current-speed", Cells [Cell 115200]);
         ("interrupt-parent", Cells [Ref "PLIC0"]); ("interrupts", Cells [Cell 1]);
         ("reg-shift", Cells [Cell 2]); ("reg-io-width", Cells [Cell 4])]
        [];
      Node None "timer@18000000"
        [("compatible", Strs ["pulp,apb_timer"]);
         ("interrupts", Cells [Cell 0x00000004; Cell 0x00000005; Cell 0x00000006; Cell 0x00000007]);
         ("reg", Cells [Cell 0x00000000; Cell 0x18000000; Cell 0x00000000; Cell 0x00001000]);
         ("interrupt-parent", Cells [Ref "PLIC0"]); ("reg-names", Strs ["control"])]
        [];
      Node None "xps-spi@20000000"
        [("compatible", Strs ["xlnx,xps-spi-2.00.b"; "xlnx,xps-spi-2.00.a"]);
         ("#address-cells", Cells [Cell 1]); ("#size-cells", Cells [Cell 0]);
         ("interrupt-parent", Cells [Ref "PLIC0"]); ("interrupts", Cells [Cell 2; Cell 2]);
         ("reg", Cells [Cell 0x0; Cell 0x20000000; Cell 0x0; Cell 0x1000]);
         ("xlnx,family", Strs ["kintex7"]); ("xlnx,fifo-exist", Cells [Cell 0x1]);
         ("xlnx,num-ss-bits", Cells [Cell 0x1]); ("xlnx,num-transfer-bits", Cells [Cell 0x8]);
         ("xlnx,sck-ratio", Cells [Cell 0x4])]
        [
        Node None "mmc@0"
          [("compatible", Strs ["mmc-spi-slot"]); ("reg", Cells [Cell 0]);
           ("spi-max-frequency", Cells [Cell 12500000]);
           ("voltage-ranges", Cells [Cell 3300; Cell 3300]); ("disable-wp", Flag)]
          []];
      Node (Some "eth") "lowrisc-eth@30000000"
        [("compatible", Strs ["lowrisc-eth"]); ("device_type", Strs ["network"]);
         ("interrupt-parent", Cells [Ref "PLIC0"]); ("interrupts", Cells [Cell 3; Cell 0]);
         ("local-mac-address", Bytes [0x00; 0x18; 0x3e; 0x02; 0xe3; 0x7f]);
         ("reg", Cells [Cell 0x0; Cell 0x30000000; Cell 0x0; Cell 0x8000])]
        [];
      Node (Some "xlnx_gpio") "gpio@40000000"
        [("#gpio-cells", Cells [Cell 2]); ("compatible", Strs ["xlnx,xps-gpio-1.00.a"]);
         ("gpio-controller", Flag); ("reg", Cells [Cell 0x0; Cell 0x40000000; Cell 0x0; Cell 0x10000]);
         ("xlnx,all-inputs", Cells [Cell 0x0]); ("xlnx,all-inputs-2", Cells [Cell 0x0]);
         ("xlnx,dout-default", Cells [Cell 0x0]); ("xlnx,dout-default-2", Cells [Cell 0x0]);
         ("xlnx,gpio-width", Cells [Cell 0x8]); ("xlnx,gpio2-width", Cells [Cell 0x8]);
         ("xlnx,interrupt-present", Cells [Cell 0x0]); ("xlnx,is-dual", Cells [Cell 0x1]);
         ("xlnx,tri-default", Cells [Cell 0xffffffff]); ("xlnx,tri-default-2", Cells [Cell 0xffffffff])]
        []]].

(** [cv32a6.dts]. *)
Definition cv32a6 : node :=
  Node None ""
    [("#address-cells", Cells [Cell 1]); ("#size-cells", Cells [Cell 1]);
     ("compatible", Strs ["eth,ariane-bare-dev"]); ("model", Strs ["eth,ariane-bare"])]
    [
    Node None "chosen"
      [("stdout-path", Strs ["/soc/uart@10000000:115200"])]
      [];
    Node None "cpus"
      [("#address-cells", Cells [Cell 1]); ("#size-cells", Cells [Cell 0]);
       ("timebase-frequency", Cells [Cell 25000000])]
      [
      Node (Some "CPU0") "cpu@0"
        [("clock-frequency", Cells [Cell 50000000]); ("device_type", Strs ["cpu"]);
         ("reg", Cells [Cell 0]); ("status", Strs ["okay"]);
         ("compatible", Strs ["eth, ariane"; "riscv"]); ("riscv,isa", Strs ["rv32ima"]);
         ("mmu-type", Strs ["riscv,sv32"]); ("tlb-split", Flag)]
        [
        Node (Some "CPU0_intc") "interrupt-controller"
          [("#interrupt-cells", Cells [Cell 1]); ("interrupt-controller", Flag);
           ("compatible", Strs ["riscv,cpu-intc"])]
          []]];
    Node None "memory@80000000"
      [("device_type", Strs ["memory"]); ("reg", Cells [Cell 0x80000000; Cell 0x8000000])]
      [];
    Node None "leds"
      [("compatible", Strs ["gpio-leds"])]
      [
      Node None "heartbeat-led"
        [("gpios", Cells [Ref "xlnx_gpio"; Cell 1; Cell 0]);
         ("linux,default-trigger", Strs ["heartbeat"]); ("retain-state-suspended", Flag)]
        []];
    Node (Some "L26") "soc"
      [("#address-cells", Cells [Cell 1]); ("#size-cells", Cells [Cell 1]);
       ("compatible", Strs ["eth,ariane-bare-soc"; "simple-bus"]); ("ranges", Flag)]
      [
      Node None "clint@2000000"
        [("compatible", Strs ["riscv,clint0"]);
         ("interrupts-extended", Cells [Ref "CPU0_intc"; Cell 3; Ref "CPU0_intc"; Cell 7]);
         ("reg", Cells [Cell 0x2000000; Cell 0xc0000]); ("reg-names", Strs ["control"])]
        [];
      Node (Some "PLIC0") "interrupt-controller@c000000"
        [("#address-cells", Cells [Cell 0]); ("#interrupt-cells", Cells [Cell 1]);
         ("compatible", Strs ["riscv,plic0"]); ("interrupt-controller", Flag);
         ("interrupts-extended", Cells [Ref "CPU0_intc"; Cell 11; Ref "CPU0_intc"; Cell 9]);
         ("reg", Cells [Cell 0xc000000; Cell 0x4000000]); ("riscv,max-priority", Cells [Cell 7]);
         ("riscv,ndev", Cells [Cell 30])]
        [];
      Node None "uart@10000000"
        [("compatible", Strs ["ns16550a"]); ("reg", Cells [Cell 0x10000000; Cell 0x1000]);
         ("clock-frequency", Cells [Cell 50000000]); ("current-speed", Cells [Cell 115200]);
         ("interrupt-parent", Cells [Ref "PLIC0"]); ("interrupts", Cells [Cell 1]);
         ("reg-shift", Cells [Cell 2]); ("reg-io-width", Cells [Cell 4])]
        [];
      Node None "timer@18000000"
        [("compatible", Strs ["pulp,apb_timer"]);
         ("interrupts", Cells [Cell 0x00000004; Cell 0x00000005; Cell 0x00000006; Cell 0x00000007]);
         ("reg", Cells [Cell 0x18000000; Cell 0x00001000]); ("interrupt-parent", Cells [Ref "PLIC0"]);
         ("reg-names", Strs ["control"])]
        [];
      Node None "xps-spi@20000000"
        [("compatible", Strs ["xlnx,xps-spi-2.00.b"; "xlnx,xps-spi-2.00.a"]);
         ("#address-cells", Cells [Cell 1]); ("#size-cells", Cells [Cell 0]);
         ("interrupt-parent", Cells [Ref "PLIC0"]); ("interrupts", Cells [Cell 2; Cell 2]);
         ("reg", Cells [Cell 0x20000000; Cell 0x1000]); ("xlnx,family", Strs ["kintex7"]);
         ("xlnx,fifo-exist", Cells [Cell 0x1]); ("xlnx,num-ss-bits", Cells [Cell 0x1]);
         ("xlnx,num-transfer-bits", Cells [Cell 0x8]); ("xlnx,sck-ratio", Cells [Cell 0x4])]
        [
        Node None "mmc@0"
          [("compatible", Strs ["mmc-spi-slot"]); ("reg", Cells [Cell 0]);
           ("spi-max-frequency", Cells [Cell 12500000]);
           ("voltage-ranges", Cells [Cell 3300; Cell 3300]); ("disable-wp", Flag)]
          []];
      Node (Some "eth") "lowrisc-eth@30000000"
        [("compatible", Strs ["lowrisc-eth"]); ("device_type", Strs ["network"]);
         ("interrupt-parent", Cells [Ref "PLIC0"]); ("interrupts", Cells [Cell 3; Cell 0]);
         ("local-mac-address", Bytes [0x00; 0x18; 0x3e; 0x02; 0xe3; 0x7f]);
         ("reg", Cells [Cell 0x30000000; Cell 0x8000])]
        [];
      Node (Some "xlnx_gpio") "gpio@40000000"
        [("#gpio-cells", Cells [Cell 2]); ("compatible", Strs ["xlnx,xps-gpio-1.00.a"]);
         ("gpio-controller", Flag); ("reg", Cells [Cell 0x40000000; Cell 0x10000]);
         ("xlnx,all-inputs", Cells [Cell 0x0]); ("xlnx,all-inputs-2", Cells [Cell 0x0]);
         ("xlnx,dout-default", Cells [Cell 0x0]); ("xlnx,dout-default-2", Cells [Cell 0x0]);
         ("xlnx,gpio-width", Cells [Cell 0x8]); ("xlnx,gpio2-width", Cells [Cell 0x8]);
         ("xlnx,interrupt-present", Cells [Cell 0x0]); ("xlnx,is-dual", Cells [Cell 0x1]);
         ("xlnx,tri-default", Cells [Cell 0xffffffff]); ("xlnx,tri-default-2", Cells [Cell 0xffffffff])]
        []]].

(** * Flattened trees *)

(** Names and values are bytes. *)
Inductive fnode := FNode (name : list Z) (props : list (list Z * list Z)) (kids : list fnode).

Section flatten.
(** The number the compiler has given to each label that is referred to. *)
Context (phandles : list (string * Z)).

Definition phandle (label : string) : option Z :=
  snd <$> find (fun p => String.eqb (fst p) label) phandles.

Definition cell_bytes (c : cell) : list Z :=
  rev (le_bytes 4 (match c with Cell n => n | Ref l => default 0 (phandle l) end)).

Definition value_bytes (v : value) : list Z :=
  match v with
  | Cells l => concat (cell_bytes <$> l)
  | Strs l => concat ((fun s => str s ++ [0]) <$> l)
  | Bytes l => l
  | Flag => []
  end.

(** A node that is referred to has one more property, its number. *)
Fixpoint flatten (n : node) : fnode :=
  let '(Node label name props kids) := n in
  let number := label ← label; phandle label in
  FNode (str name)
    (((fun '(k, v) => (str k, value_bytes v)) <$> props)
     ++ match number with Some p => [(str "phandle", rev (le_bytes 4 p))] | None => [] end)
    (map flatten kids).
End flatten.

(** The properties of the node at a path. *)
Fixpoint find_node (path : list string) (n : fnode) : option fnode :=
  match path with
  | [] => Some n
  | p :: path => let '(FNode _ _ kids) := n in
      k ← find (fun '(FNode name _ _) => bool_decide (name = str p)) kids; find_node path k
  end.

Fixpoint words (bs : list Z) : list Z :=
  match bs with
  | a :: b :: c :: d :: bs => le_val [d; c; b; a] :: words bs
  | _ => []
  end.

(** The cells of a property. *)
Definition prop_cells (path : list string) (name : string) (n : fnode) : option (list Z) :=
  '(FNode _ props _) ← find_node path n;
  p ← find (fun p => bool_decide (fst p = str name)) props;
  Some (words (snd p)).

(** * The reader *)

Definition be32 (bs : list Z) : Z := le_val (rev (take 4 bs)).

(** The bytes up to a NUL. *)
Fixpoint c_string (bs : list Z) : list Z :=
  match bs with
  | [] => []
  | b :: bs => if b =? 0 then [] else b :: c_string bs
  end.

(** Padding to words. *)
Definition round4 (n : nat) : nat := ((n + 3) / 4 * 4)%nat.

Definition FDT_MAGIC : Z := 0xd00dfeed.
Definition FDT_BEGIN_NODE : Z := 1.
Definition FDT_END_NODE : Z := 2.
Definition FDT_PROP : Z := 3.
Definition FDT_NOP : Z := 4.
Definition FDT_END : Z := 9.

(** What is behind the name of a node: properties, then children, up to the end of the node. *)
Fixpoint read_body (fuel : nat) (names bs : list Z)
    : option (list (list Z * list Z) * list fnode * list Z) :=
  match fuel with
  | O => None
  | S fuel =>
      let token := be32 bs in
      let bs := drop 4 bs in
      if token =? FDT_PROP then
        let len := Z.to_nat (be32 bs) in
        let name := c_string (drop (Z.to_nat (be32 (drop 4 bs))) names) in
        let bs := drop 8 bs in
        '(props, kids, rest) ← read_body fuel names (drop (round4 len) bs);
        Some ((name, take len bs) :: props, kids, rest)
      else if token =? FDT_BEGIN_NODE then
        let name := c_string bs in
        '(props, kids, rest) ← read_body fuel names (drop (round4 (S (length name))) bs);
        '(props', kids', rest) ← read_body fuel names rest;
        match props' with [] => Some ([], FNode name props kids :: kids', rest) | _ :: _ => None end
      else if token =? FDT_NOP then read_body fuel names bs
      else if token =? FDT_END_NODE then Some ([], [], bs)
      else None
  end.

(** The tree of a blob: the structure and the names lie where its header says. *)
Definition read_fdt (bs : list Z) : option fnode :=
  let field k := Z.to_nat (be32 (drop k bs)) in
  if negb (be32 bs =? FDT_MAGIC) then None else
  let tree := take (field 36%nat) (drop (field 8%nat) bs) in
  let names := take (field 32%nat) (drop (field 12%nat) bs) in
  if negb (be32 tree =? FDT_BEGIN_NODE) then None else
  '(props, kids, rest) ← read_body (length tree) names (drop 8 tree);
  if be32 rest =? FDT_END then Some (FNode [] props kids) else None.
