(* ===== verification/RomImages.v ===== *)
(** The ROM images of the FPGA boot loader as data: their sizes and their device trees. *)
From S2P Require Import Prelude Uart Board Spi Crc Sd Gpt Boot Smp Encoding Riscv Rom64 Rom32 RomBoot DeviceTree.

(** The bytes of an image. *)
Definition rom_bytes (img : list Z) : list Z := concat (le_bytes 4 <$> img).

(** The numbers of the labels, in the order in which the sources refer to them. *)
Definition phandles : list (string * Z) := [("xlnx_gpio", 1); ("CPU0_intc", 2); ("PLIC0", 3)].

(** The address of the device tree in each image. *)
Definition dtb_64 : Z := @dtb_addr rom_layout.
Definition dtb_32 : Z := 0x11000.

Definition rom_tree (img : list Z) (dtb : Z) : option fnode :=
  read_fdt (drop (Z.to_nat (dtb - ROM_BASE)) (rom_bytes img)).

Definition debug_controller : node :=
  Node None "debug-controller@0"
    [("compatible", Strs ["riscv,debug-013"]); ("interrupts-extended", Cells [Ref "CPU0_intc"; Cell 65535]);
     ("reg", Cells [Cell 0x0; Cell 0x1000]); ("reg-names", Strs ["control"])] [].

(** The tree of the 32-bit image: the one of its source with another name for the console and with the
    node that the source has in a comment. *)
Definition old_uart (n : node) : list node :=
  let '(Node label name props kids) := n in
  if String.eqb name "uart@10000000"
  then [debug_controller; Node label name (("compatible", Strs ["ns16750"]) :: tail props) kids] else [n].

Definition old_soc (n : node) : node :=
  let '(Node label name props kids) := n in
  if String.eqb name "soc" then Node label name props (concat (old_uart <$> kids)) else n.

Definition old_tree (n : node) : node :=
  let '(Node label name props kids) := n in Node label name props (old_soc <$> kids).

(** An address or a size in the tree: one cell per 32 bits. *)
Definition in_cells (n : nat) (v : Z) : list Z := match n with 1%nat => [v] | _ => [v / 2 ^ 32; v mod 2 ^ 32] end.

(** The tree gives the addresses, the clock and the speed the drivers are built with, and the memory
    the loader uses. *)
Definition suits_drivers (n : nat) (t : fnode) : Prop :=
  (exists len, prop_cells ["soc"; "uart@10000000"] "reg" t = Some (in_cells n UART_BASE ++ in_cells n len))
  /\ prop_cells ["soc"; "uart@10000000"] "clock-frequency" t = Some [50000000]
  /\ prop_cells ["soc"; "uart@10000000"] "current-speed" t = Some [115200]
  /\ (exists len, prop_cells ["soc"; "xps-spi@20000000"] "reg" t = Some (in_cells n SPI_BASE ++ in_cells n len))
  /\ (exists len, prop_cells ["soc"; "clint@2000000"] "reg" t = Some (in_cells n CLINT_CTRL_ADDR ++ in_cells n len)
       /\ 4 * Z.of_nat MAX_HARTS <= len)
  /\ (exists len, prop_cells ["memory@80000000"] "reg" t = Some (in_cells n image_base ++ in_cells n len)
       /\ STACK_TOP <= image_base + len).

Lemma fits_drivers n t l1 l2 l3 l4 :
  prop_cells ["soc"; "uart@10000000"] "reg" t = Some (in_cells n UART_BASE ++ in_cells n l1) ->
  prop_cells ["soc"; "uart@10000000"] "clock-frequency" t = Some [50000000] ->
  prop_cells ["soc"; "uart@10000000"] "current-speed" t = Some [115200] ->
  prop_cells ["soc"; "xps-spi@20000000"] "reg" t = Some (in_cells n SPI_BASE ++ in_cells n l2) ->
  prop_cells ["soc"; "clint@2000000"] "reg" t = Some (in_cells n CLINT_CTRL_ADDR ++ in_cells n l3) ->
  4 * Z.of_nat MAX_HARTS <= l3 ->
  prop_cells ["memory@80000000"] "reg" t = Some (in_cells n image_base ++ in_cells n l4) ->
  STACK_TOP <= image_base + l4 -> suits_drivers n t.
Proof. intros. unfold suits_drivers. split_and!; eauto. Qed.

(** C38: the device trees in the ROM images. In the 64-bit image, at the address the boot loader hands
    over, lies the flattened form of [cv64a6.dts]. In the 32-bit image lies that of an older
    [cv32a6.dts]: the console has another name, and the node that the source disables, because
    Linux does not start with it, is there. Both trees give the addresses, the clock and the speed
    the drivers use, and the memory they describe holds the stack. *)
Theorem rom_device_trees :
  rom_tree reset_vec_64 dtb_64 = Some (flatten phandles cv64a6)
  /\ rom_tree reset_vec_32 dtb_32 = Some (flatten phandles (old_tree cv32a6))
  /\ rom_tree reset_vec_32 dtb_32 <> Some (flatten phandles cv32a6)
  /\ find_node ["soc"; "debug-controller@0"] (flatten phandles (old_tree cv32a6)) = Some (flatten phandles debug_controller)
  /\ find_node ["soc"; "debug-controller@0"] (flatten phandles cv32a6) = None
  /\ suits_drivers 2 (flatten phandles cv64a6)
  /\ suits_drivers 1 (flatten phandles (old_tree cv32a6)).
Proof.
  assert (E : rom_tree reset_vec_32 dtb_32 = Some (flatten phandles (old_tree cv32a6)))
    by (vm_compute; reflexivity).
  split_and!.
  - vm_compute; reflexivity.
  - exact E.
  - rewrite E. by intros [=].
  - vm_compute; reflexivity.
  - vm_compute; reflexivity.
  - by apply (fits_drivers _ _ 0x1000 0x1000 0xc0000 0x40000000); vm_compute.
  - by apply (fits_drivers _ _ 0x1000 0x1000 0xc0000 0x8000000); vm_compute.
Qed.

(** Both images have the size their headers declare. *)
Lemma image_sizes :
  Z.of_nat (length reset_vec_64) = reset_vec_size_64 /\ Z.of_nat (length reset_vec_32) = reset_vec_size_32.
Proof. split; by vm_compute. Qed.
